(* ===== verification/_CoqProject ===== *)
-Q . S2P
Prelude.v
Bytes.v
Checksum.v
UipState.v
Uip.v
PacketSum.v
UipInv.v
Ports.v
Options.v
Httpd.v
Flow.v
TcpSeg.v
TcpTx.v
UipThms.v
TcpHost.v
TcpPair.v
TcpOpen.v
TcpPairThms.v
TcpOpenThms.v
Reass.v
ReassThms.v
Udp.v
UdpThms.v
PingConf.v
Arp.v
ArpThms.v
E1000.v
Boot.v
Ipc.v
NetDev.v
SysNet.v
SysNetInv.v
SysNetThms.v
Servers.v
SysNetDemo.v
ClientThms.v
MemVm.v
MemVmInv.v
MemVmSpec.v
MemVmFree.v
MemVmThms.v
MemVmDemo.v
Mlfq.v
MlfqThms.v
MlfqLive.v
Tty.v
Files.v
Mkfs.v
MkfsThms.v
DirThms.v
SysProc.v
DiskImg.v
Rwfs.v
RwfsThms.v
SysProcThms.v
SysBoot.v
SysProcDemo.v
Http.v
HttpThms.v
