(* ===== verification/Prelude.v ===== *)
(** * A verification of the EGOS-2000 socket networking stack

    The repository (src/snapshot) is the part of the EGOS-2000 teaching operating
    system that was written or changed to give user processes TCP sockets, with
    the memory, scheduling and process code around it.  This library translates
    it function by function into Rocq and proves what the parts and their
    composition guarantee.

    ** The program

    A frame travels: device - [dev_net.c] (e1000 driver in the kernel) -
    [sys_net.c] (network server process) - [uip.c]/[uip_arp.c] (protocols) -
    [httpd.c] (flags between uIP and the server) - a message - [servers.c] (stubs
    in the client process) - a user program such as [http.c], and back.  Around
    it, [mem_vm.c] builds the page tables that separate the processes, [mlfq.c]
    chooses which one runs, [sys_proc.c] starts programs on the shell's request,
    which [servers.c] looks up in the directory that [tools/mkfs.c] wrote, and
    [servers.c] reads lines from the console for the kernel.

    ** How the code is modelled

    A function that changes globals is a computation [M S A]: from a state of
    the record [S], which has a field per global, to a value and a state, or to
    a fault ([OutOfBounds], [NullDeref], [Diverges], [Fatal]).  [wp] is its
    weakest precondition; [nofault] gives total and [anyfault] partial
    correctness.  A [w]-bit unsigned integer is a [Z] with [wrapw] where C wraps;
    structs overlaid on buffers are byte offsets into a list of bytes.  Code that
    the repository does not have is a class of operations ([UipApp], [UdpApp], [NetDev],
    [Sys], [PageAlloc], [Queue], [ProcKernel], [KernelLog], [FileServer], [BootExt], [FsHeader]) with a second class
    of the laws its callers rely on; each is instantiated at a concrete system,
    on which the theorems are evaluated.

    ** Files

    - Prelude, Bytes: integers, faults, the monad, [wp], record update; buffers.
    - Checksum ([uip_add32], [chksum]), UipState (configuration, headers, the
      globals of uip.c), Uip ([uip_process], one definition per label, and
      [uip_init], [uip_connect], [uip_listen], [uip_unlisten], [uip_send]).
    - PacketSum, UipInv, Ports, Options: checksums of packets, the invariant, the
      port table, the option loop.  Flow: how a segment reaches the application;
      TcpSeg, TcpTx: segments as values, and how one is sent.
    - Httpd: [httpd_appcall] of httpd.c.  UipThms: theorems about uIP.
    - TcpHost: what the calls of uip.c do to one end of an established connection.
      TcpPair: two such hosts, a link between them, and the invariant that relates
      them.  TcpPairThms: delivery, and two hosts that open a connection.  TcpOpen,
      TcpOpenThms: the three-way handshake between any two such hosts.
    - What other configurations of uip.c compile in: Reass, ReassThms (fragments:
      [uip_reass], by itself), Udp, UdpThms (UDP) and PingConf (configuration by
      ping), the last two as variants of [uip_process] that share its parts.
    - Arp, ArpThms: uip_arp.c and its theorems.
    - E1000: dev_net.c over an abstract device, with its theorems.  Boot: boot.c
      and [vm_init].
    - Ipc, NetDev: message layouts (servers.h) and the device interface.
    - SysNet, SysNetInv, SysNetThms: sys_net.c; [serve] is one turn of the loop.
    - Servers: the socket stubs of servers.c and their composition with [serve].
    - SysNetDemo: a session, and what goes wrong at the edges.  ClientThms: the
      socket interface as the client sees it.
    - MemVm (mem_vm.c and the Sv32 hardware), MemVmInv (who uses which page),
      MemVmSpec, MemVmFree, MemVmThms, MemVmDemo.
    - Mlfq, MlfqThms, MlfqLive: mlfq.c and process.h.
    - Tty: the kernel's [term_read] and [term_write].  Files: the other stubs of
      servers.c ([exit], [dir_lookup], [file_*], [term_*]).
    - Mkfs, MkfsThms: the read-only file system of mkfs.c, and what its image
      holds.  DirThms: [dir_lookup] on that image.  DiskImg: the binaries, the
      ramdisk and the image files.  Rwfs, RwfsThms: the read-write file system.
    - SysProc, SysProcThms, SysProcDemo: sys_proc.c.  SysBoot: the servers loaded
      from the disk image.
    - Http: the user programs http.c and net_raw_test.c over the server.
      HttpThms: the web server's loop.

    ** What is proved

    - uIP: connections move only along the edges of the TCP state diagram
      ([tcp_next] of UipInv, with the guard of every edge, those to CLOSED
      included) and the invariant holds in every reachable state
      ([uip_process_step], [reachable_inv]); on a
      sane packet [uip_process] returns without touching memory outside its
      objects ([uip_process_returns]); sequence numbers advance only over
      acknowledged or in-order data ([uip_process_seq]); what is sent has valid
      checksums ([uip_process_emits], [chksum_rfc1071]); echo and active open
      ([uip_input_echo], [uip_connect_correct]); the packets that break it
      ([uip_input_diverges], [uip_input_urgent_overrun]).
    - TCP between two hosts: an active open of one and a listening port of the
      other become an established connection on both ([tcp_opens]).  Over a link
      that loses and repeats frames messages
      arrive in order and once ([tcp_in_order]), and they get through as long as
      the sender has retransmissions left ([tcp_gets_through]).  The timer of the sender is [uip_periodic]; sys_net.c
      never calls it, so on EGOS itself nothing is sent again.
    - Reassembly: fragments of a datagram below 384 bytes, in any order, repeated
      at will, are put together
      ([reass_any_order]); where the code writes out of bounds
      ([uip_reass_bounds]), takes an incomplete datagram ([reass_hole]), loses the
      end of a complete one ([reass_truncates]) or its length ([reass_narrow]).
    - UDP: a datagram sent on one host is handed to the application of the other,
      for the first connection it fits, or dropped when it fits none
      ([udp_exchange]); [uip_udp_new] returns a fresh port
      ([uip_udp_new_correct]); what a short packet does ([udp_short]).  With UDP
      compiled in the rest of the stack is unchanged ([udp_conservative]), and so
      it is with configuration by ping ([ping_configures], [ping_conservative]).
    - ARP: [arp_exchange], [uip_arp_out_frames], [uip_arp_update_correct],
      [uip_arp_timer_correct].  Driver: [tx_fifo], [net_recv_takes],
      [net_init_ready].  Boot: [boot_once].
    - Network server: every request is answered once, with the answer of an
      abstract socket service ([serve_refines]); it returns and keeps its
      invariant ([serve_returns], [server_inv]); its two overruns and a lost
      segment ([sock_send_overrun], [net_poll_overrun], [sock_send_lost]).
    - End to end: a socket call of a client with arguments that fit, over a live
      device, returns with the answer of the abstract service ([client_refines]); a segment in the device reaches the
      buffer of a client process ([client_recv]) and [sock_send] becomes a frame
      ([sock_send_transmits]); requests survive the trip ([client_requests]); the
      web server serves any number of turns ([http_serves]), but a request that
      comes late is not answered ([http_late_request]).
    - Virtual memory: software and hardware translation agree
      ([translate_sv32]); mapping and freeing do exactly what they should, and
      nothing leaks ([page_table_map_correct], [page_table_free_exact],
      [map_free_roundtrip]); processes are isolated in every run in which the
      kernel maps each page it allocates at most once ([vm_isolation]).
    - Scheduler: what is picked, and every queue after the call ([mlfq_picks]);
      [mlfq_update_queues], [queues_exclusive]; no process
      starves in the highest queue ([high_queue_live]).
    - Processes and files: what mkfs writes, [dir_lookup] finds
      ([dir_lookup_finds]).  What the process server does is a log of events in its
      kernel ([KernelLog]: processes made, loaded, made ready and freed, messages
      waited for and sent): the log of a spawn ([spawn_loads]) and of the start of
      the servers at boot ([servers_load]) name the pid, the arguments and the file
      mkfs was given; the log of any turn is that of an abstract service
      ([turn_refines]).  The read-write file system is consistent
      ([mkrwfs_consistent]).
    - Console: [term_read_edits], [term_read_safe].

    ** Bounds and fuel

    The option loop of a SYN takes [mss_fuel] = 257 iterations: its counter has
    256 values, and Options shows that more fuel never changes the result
    ([parse_mss_fuel]).  [pick_lastport] gets one more try than there are
    connections, UDP or TCP: the candidates are distinct, so one of them is free, which
    [uip_connect_correct] and [uip_udp_new_correct] show.  The spin loops of the
    driver recurse on the bounds of dev_net.c.  [write_blocks] gets the length of the file, more than its
    number of blocks; [dec] ten digits, enough for 32 bits.  All other loops
    recurse on the data or on the bound the code counts to.

    ** Not modelled

    - IPv6: uip.c includes a header for it that the repository does not have.
      Of what uip-conf.h and uipopt.h compile out, the log messages and
      [UIP_URGDATA].  Reassembly, UDP and configuration by ping are compiled out as
      well; they are modelled apart from the stack as it is configured.
    - What boot.c calls outside the repository (the devices other than the network,
      the interrupts, the start of the first process) and earth/boot.s; the
      [fence] of mem_vm.c.
    - The file systems below mkfs and inode.h.  fs.h is not in the repository
      either: Rwfs takes the representation of its structures as an argument.
    - Input and output of mkfs, except what its reads return.
    - Messages printed by INFO, SUCCESS and printf.
    - Preemption between processes: a process runs from one message to the next;
      the code it shares memory with is in the kernel, outside the repository. *)

From Stdlib Require Export ZArith Lia.
From stdpp Require Export base tactics numbers list option.

#[export] Set Default Goal Selector "!".

(** ** Record update

    [x <| f := v |>] is the record [x] with field [f] replaced.  A record type
    declares its eta-expansion once ([Settable]) and the setters are derived. *)

Class Settable (T : Type) := { eta_of : T → T }.
Class Setter {R E : Type} (f : R → E) := set_field : (E → E) → R → R.
Arguments set_field {R E} f {_} _ _.

Ltac derive_setter :=
  lazymatch goal with
  | |- @Setter ?R ?E ?f =>
      let i := constr:(_ : Settable R) in
      let e := eval hnf in (@eta_of R i) in
      lazymatch (eval pattern f in e) with
      | ?body _ =>
          let r := eval cbv beta in
            (fun g : E → E => body (fun x : R => g (f x))) in
          exact r
      end
  end.
#[global] Hint Extern 1 (Setter _) => derive_setter : typeclass_instances.

Declare Scope record_scope.
Delimit Scope record_scope with rec.
Notation "'settable!' mk < f ; .. ; g >" :=
  {| eta_of := fun x => .. (mk (f x)) .. (g x) |}
  (at level 0, mk at level 9, f at level 9, g at level 9, only parsing).
Notation "x <| f := v |>" := (set_field f (fun _ => v) x)
  (at level 1, f constr at level 9, left associativity,
   format "x  <| f  :=  v |>") : record_scope.
Notation "x <| f ::= g |>" := (set_field f g x)
  (at level 1, f constr at level 9, left associativity,
   format "x  <| f  ::=  g |>") : record_scope.
#[global] Open Scope record_scope.
#[global] Open Scope Z_scope.

(** ** Fixed-width integers

    C's [uchar]/[u8_t], [ushort]/[u16_t], [uint] and [signed char] are [Z] with
    the conversion to the type written out; on the ilp32 target conversions
    to a narrower type keep the low bits. *)

Definition wrap8 (x : Z) : Z := x mod 256.
Definition wrap16 (x : Z) : Z := x mod 65536.
Definition wrap32 (x : Z) : Z := x mod 4294967296.
Definition schar (x : Z) : Z := (x + 128) mod 256 - 128.

Definition is_u8 (x : Z) : Prop := 0 ≤ x < 256.
Definition is_u16 (x : Z) : Prop := 0 ≤ x < 65536.

#[export] Instance is_u8_dec x : Decision (is_u8 x).
Proof. unfold is_u8. apply _. Defined.
#[export] Instance is_u16_dec x : Decision (is_u16 x).
Proof. unfold is_u16. apply _. Defined.

Lemma wrap8_u8 x : is_u8 (wrap8 x).
Proof. unfold is_u8, wrap8. apply Z.mod_pos_bound. lia. Qed.
Lemma wrap16_u16 x : is_u16 (wrap16 x).
Proof. unfold is_u16, wrap16. apply Z.mod_pos_bound. lia. Qed.
Lemma wrap8_id x : is_u8 x → wrap8 x = x.
Proof. unfold is_u8, wrap8. apply Z.mod_small. Qed.
Lemma wrap16_id x : is_u16 x → wrap16 x = x.
Proof. unfold is_u16, wrap16. apply Z.mod_small. Qed.

Lemma lor_u8 x y : is_u8 x → is_u8 y → is_u8 (Z.lor x y).
Proof.
  unfold is_u8. intros Hx Hy. split; [apply Z.lor_nonneg; lia|].
  destruct (decide (Z.lor x y = 0)) as [->|]; [done|].
  assert (0 ≤ Z.lor x y) by (apply Z.lor_nonneg; lia).
  change 256 with (2 ^ 8). apply Z.log2_lt_pow2; [lia|].
  rewrite Z.log2_lor by lia. apply Z.max_lub_lt.
  - destruct (decide (x = 0)) as [->|]; [done|]. apply Z.log2_lt_pow2; lia.
  - destruct (decide (y = 0)) as [->|]; [done|]. apply Z.log2_lt_pow2; lia.
Qed.

(** [lia] with division and modulo by constants. *)
Ltac dlia := Z.to_euclidean_division_equations; lia.

Create HintDb width.
Create Rewrite HintDb width.
#[export] Hint Resolve wrap8_u8 wrap16_u16 lor_u8 : width.
#[export] Hint Rewrite wrap8_id wrap16_id using (assumption || (unfold is_u8, is_u16; lia)) : width.

(** ** Faults and the state monad

    A C function that reads and writes globals is a computation [M S A]: it
    returns a value and the new globals, or stops with a fault.  The faults are
    the executions C or the kernel gives no result for. *)

Inductive fault : Type :=
  | OutOfBounds            (* an access outside the object pointed into *)
  | NullDeref              (* a null pointer dereferenced *)
  | Diverges               (* a loop that never leaves *)
  | Fatal.                 (* ASSERT or FATAL: the kernel stops *)

#[export] Instance fault_eq_dec : EqDecision fault.
Proof. solve_decision. Defined.

Inductive res (A : Type) : Type :=
  | Ok (a : A)
  | Err (e : fault).
Arguments Ok {A} a.
Arguments Err {A} e.

Definition M (S A : Type) : Type := S → res (A * S).

#[export] Instance M_ret S : MRet (M S) := λ A a s, Ok (a, s).
#[export] Instance M_bind S : MBind (M S) := λ A B f m s,
  match m s with
  | Ok (a, s') => f a s'
  | Err e => Err e
  end.

Definition fail {S A} (e : fault) : M S A := λ _, Err e.
Definition getM {S A} (f : S → A) : M S A := λ s, Ok (f s, s).
Definition modM {S} (f : S → S) : M S unit := λ s, Ok (tt, f s).

(** [ASSERT(c, msg)] of library/egos.h: FATAL unless the condition holds. *)
Definition ASSERT {S} (c : bool) : M S unit :=
  if c then mret tt else fail Fatal.

(** ** Weakest preconditions

    [wp E m Q s]: run from [s], [m] either stops with a fault in [E] or returns
    a value and state satisfying [Q].  [wp (λ _, False)] is total correctness;
    [wp (λ _, True)] ignores faults. *)

Definition wp {S A} (E : fault → Prop) (m : M S A) (Q : A → S → Prop) (s : S) : Prop :=
  match m s with
  | Ok (a, s') => Q a s'
  | Err e => E e
  end.

Definition nofault : fault → Prop := λ _, False.
Definition anyfault : fault → Prop := λ _, True.

Section wp.
Context {S : Type} (E : fault → Prop).
Implicit Types s : S.

Lemma wp_ret {A} (a : A) (Q : A → S → Prop) s : Q a s → wp E (mret a) Q s.
Proof. done. Qed.

Lemma wp_bind {A B} (m : M S A) (f : A → M S B) (Q : B → S → Prop) s :
  wp E m (λ a s', wp E (f a) Q s') s → wp E (m ≫= f) Q s.
Proof. unfold wp, mbind, M_bind. by destruct (m s) as [[a s']|e]. Qed.

Lemma wp_get {A} (f : S → A) (Q : A → S → Prop) s : Q (f s) s → wp E (getM f) Q s.
Proof. done. Qed.

Lemma wp_mod (f : S → S) (Q : unit → S → Prop) s : Q tt (f s) → wp E (modM f) Q s.
Proof. done. Qed.

Lemma wp_fail {A} (e : fault) (Q : A → S → Prop) s : E e → wp E (fail e) Q s.
Proof. done. Qed.

Lemma wp_mono {A} (m : M S A) (P Q : A → S → Prop) s :
  (∀ a s', P a s' → Q a s') → wp E m P s → wp E m Q s.
Proof. unfold wp. destruct (m s) as [[a s']|e]; auto. Qed.

Lemma wp_if {A} (b : bool) (m1 m2 : M S A) (Q : A → S → Prop) s :
  (b = true → wp E m1 Q s) → (b = false → wp E m2 Q s) →
  wp E (if b then m1 else m2) Q s.
Proof. destruct b; auto. Qed.

Lemma wp_and {A} (m : M S A) (P Q : A → S → Prop) s :
  wp E m P s → wp E m Q s → wp E m (λ a s', P a s' ∧ Q a s') s.
Proof. unfold wp. by destruct (m s) as [[a s']|e]. Qed.
End wp.

Lemma bind_ok {S A B} (m : M S A) (f : A → M S B) s a s' : m s = Ok (a, s') → (m ≫= f) s = f a s'.
Proof. unfold mbind, M_bind. by intros ->. Qed.

Lemma wp_ok {S A} (m : M S A) (Q : A → S → Prop) s :
  wp nofault m Q s ↔ ∃ a s', m s = Ok (a, s') ∧ Q a s'.
Proof.
  unfold wp, nofault. destruct (m s) as [[a s']|e].
  - split; [by eauto|]. intros (a' & s'' & [= <- <-] & ?). done.
  - split; [done|]. by intros (? & ? & ? & ?).
Qed.

Lemma wp_any {S A} (m : M S A) (Q : A → S → Prop) s :
  wp anyfault m Q s ↔ ∀ a s', m s = Ok (a, s') → Q a s'.
Proof.
  unfold wp, anyfault. destruct (m s) as [[a s']|e].
  - split; [by intros ? ? ? [= <- <-] | by eauto].
  - by split; [intros _ ? ? [=]|].
Qed.
