(* ===== verification/Bytes.v ===== *)
(** * Byte arrays

    The packet buffer and the message buffers are arrays of bytes; the code
    overlays structs on them.  A buffer is a [list Z] of bytes, a struct field
    is read and written at its byte offset, and a [u16_t] field is in the
    target's little-endian order.  [HTONS] swaps the two bytes. *)

From S2P Require Import Prelude.

Definition u8 (b : list Z) (o : nat) : Z := b !!! o.
Definition u16 (b : list Z) (o : nat) : Z := u8 b o + 256 * u8 b (S o).
Definition be16 (b : list Z) (o : nat) : Z := 256 * u8 b o + u8 b (S o).

Definition put8 (o : nat) (v : Z) (b : list Z) : list Z := <[o := wrap8 v]> b.
Definition put16 (o : nat) (v : Z) (b : list Z) : list Z :=
  put8 (S o) (wrap16 v / 256) (put8 o (wrap16 v mod 256) b).

(** [memcpy] into a buffer at an offset, and out of it. *)
Definition put_bytes (o : nat) (l : list Z) (b : list Z) : list Z :=
  list_inserts o l b.
Definition slice (o n : nat) (b : list Z) : list Z := take n (drop o b).

Definition bytes (b : list Z) : Prop := Forall is_u8 b.

(** Four bytes in network order: TCP sequence numbers and [uip_acc32]. *)
Record bytes4 := B4 { b0 : Z; b1 : Z; b2 : Z; b3 : Z }.
#[export] Instance bytes4_settable : Settable bytes4 := settable! B4 <b0; b1; b2; b3>.
#[export] Instance bytes4_eq_dec : EqDecision bytes4.
Proof. solve_decision. Defined.

Definition is_b4 (q : bytes4) : Prop :=
  is_u8 (b0 q) ∧ is_u8 (b1 q) ∧ is_u8 (b2 q) ∧ is_u8 (b3 q).
Definition be32 (q : bytes4) : Z :=
  16777216 * b0 q + 65536 * b1 q + 256 * b2 q + b3 q.
Definition get_b4 (b : list Z) (o : nat) : bytes4 :=
  B4 (u8 b o) (u8 b (o + 1)) (u8 b (o + 2)) (u8 b (o + 3)).
Definition put_b4 (o : nat) (q : bytes4) (b : list Z) : list Z :=
  put8 (o + 3) (b3 q) (put8 (o + 2) (b2 q) (put8 (o + 1) (b1 q) (put8 o (b0 q) b))).

(** [(u16_t)((((u16_t)(n)) << 8) | (((u16_t)(n)) >> 8))] of uip.h. *)
Definition HTONS (n : Z) : Z :=
  wrap16 (Z.lor (Z.shiftl (wrap16 n) 8) (Z.shiftr (wrap16 n) 8)).

(** ** Lemmas *)

Section bytes.
Implicit Types b l : list Z.

Lemma length_put8 o v b : length (put8 o v b) = length b.
Proof. apply length_insert. Qed.
Lemma length_put16 o v b : length (put16 o v b) = length b.
Proof. unfold put16. by rewrite !length_put8. Qed.
Lemma length_put_b4 o q b : length (put_b4 o q b) = length b.
Proof. unfold put_b4. by rewrite !length_put8. Qed.
Lemma length_put_bytes o l b : length (put_bytes o l b) = length b.
Proof. apply length_inserts. Qed.
Lemma length_slice o n b : (o + n ≤ length b)%nat → length (slice o n b) = n.
Proof. intros. unfold slice. rewrite length_take, length_drop. lia. Qed.

Lemma u8_put8_eq o v b : (o < length b)%nat → u8 (put8 o v b) o = wrap8 v.
Proof. intros. unfold u8, put8. by apply list_lookup_total_insert_eq. Qed.
Lemma u8_put8_ne o o' v b : o ≠ o' → u8 (put8 o v b) o' = u8 b o'.
Proof. intros. unfold u8, put8. by apply list_lookup_total_insert_ne. Qed.

Lemma u8_put16_ne o o' v b : o' ≠ o → o' ≠ S o → u8 (put16 o v b) o' = u8 b o'.
Proof. intros. unfold put16. by rewrite !u8_put8_ne by done. Qed.
Lemma u8_put_b4_ne o o' q b :
  (o' < o ∨ o + 4 ≤ o')%nat → u8 (put_b4 o q b) o' = u8 b o'.
Proof. intros. unfold put_b4. by rewrite !u8_put8_ne by lia. Qed.
Lemma u8_put_bytes_ne o o' l b :
  (o' < o ∨ o + length l ≤ o')%nat → u8 (put_bytes o l b) o' = u8 b o'.
Proof.
  intros [?|?]; unfold u8, put_bytes.
  - by apply list_lookup_total_inserts_lt.
  - by apply list_lookup_total_inserts_ge.
Qed.

Lemma slice_put8_ne o n o' v b :
  (o' < o ∨ o + n ≤ o')%nat → slice o n (put8 o' v b) = slice o n b.
Proof.
  intros [?|?]; unfold slice, put8.
  - by rewrite drop_insert_lt by lia.
  - destruct (decide (o ≤ o')%nat).
    + rewrite drop_insert_ge by lia. by rewrite take_insert_ge by lia.
    + by rewrite drop_insert_lt by lia.
Qed.
Lemma slice_put8_in o n o' v b :
  (o ≤ o')%nat → slice o n (put8 o' v b) = put8 (o' - o) v (slice o n b).
Proof.
  intros. unfold slice, put8. rewrite drop_insert_ge by lia.
  destruct (decide (o' - o < n)%nat) as [?|?].
  - by rewrite take_insert_lt by lia.
  - rewrite take_insert_ge by lia. rewrite list_insert_ge; [done|].
    rewrite length_take. lia.
Qed.
Lemma slice_put16_ne o n o' v b :
  (o' + 2 ≤ o ∨ o + n ≤ o')%nat → slice o n (put16 o' v b) = slice o n b.
Proof. intros. unfold put16. by rewrite !slice_put8_ne by lia. Qed.
Lemma slice_put16_in o n o' v b :
  (o ≤ o')%nat → slice o n (put16 o' v b) = put16 (o' - o) v (slice o n b).
Proof.
  intros. unfold put16. rewrite !slice_put8_in by lia.
  by replace (S o' - o)%nat with (S (o' - o)) by lia.
Qed.

Lemma slice_put_bytes o k l b :
  (k ≤ length l)%nat → (o + length l ≤ length b)%nat → slice o k (put_bytes o l b) = take k l.
Proof.
  intros Hk Hl. unfold slice, put_bytes. apply list_eq. intros j.
  destruct (decide (j < k)%nat) as [Hj|Hj].
  - rewrite !lookup_take_lt, lookup_drop by done. rewrite list_lookup_inserts by lia.
    by replace (o + j - o)%nat with j by lia.
  - by rewrite !lookup_take_ge by lia.
Qed.
Lemma slice_put_bytes_ne o k o' l b :
  (o' + length l ≤ o ∨ o + k ≤ o')%nat → slice o k (put_bytes o' l b) = slice o k b.
Proof.
  intros Ho. unfold slice, put_bytes. apply list_eq. intros j.
  destruct (decide (j < k)%nat) as [Hj|Hj].
  - rewrite !lookup_take_lt, !lookup_drop by done. destruct Ho as [Ho|Ho].
    + by rewrite list_lookup_inserts_ge by lia.
    + by rewrite list_lookup_inserts_lt by lia.
  - by rewrite !lookup_take_ge by lia.
Qed.

Lemma bytes_cons x b : bytes (x :: b) ↔ is_u8 x ∧ bytes b.
Proof. apply Forall_cons_iff. Qed.
Lemma u8_bytes b o : bytes b → is_u8 (u8 b o).
Proof.
  intros Hb. unfold u8. rewrite list_lookup_total_alt.
  destruct (b !! o) eqn:E; simpl; [|unfold is_u8; cbn; lia].
  by eapply Forall_lookup_1.
Qed.
Lemma u16_bytes b o : bytes b → is_u16 (u16 b o).
Proof.
  intros Hb. pose proof (u8_bytes b o Hb). pose proof (u8_bytes b (S o) Hb).
  unfold is_u8, is_u16, u16 in *. lia.
Qed.
Lemma get_b4_bytes b o : bytes b → is_b4 (get_b4 b o).
Proof. intros Hb. unfold is_b4, get_b4. simpl. split_and!; by apply u8_bytes. Qed.
Lemma put8_bytes o v b : bytes b → bytes (put8 o v b).
Proof. intros. apply Forall_insert; [done|]. apply wrap8_u8. Qed.
Lemma put16_bytes o v b : bytes b → bytes (put16 o v b).
Proof. intros. unfold put16. by apply put8_bytes, put8_bytes. Qed.
Lemma put_b4_bytes o q b : bytes b → bytes (put_b4 o q b).
Proof. intros. unfold put_b4. by do 4 apply put8_bytes. Qed.
Lemma put_bytes_bytes o l b : bytes l → bytes b → bytes (put_bytes o l b).
Proof.
  intros Hl Hb. apply Forall_lookup. intros i x Hx.
  apply list_lookup_inserts_Some in Hx as [[? Hx]|[? [??]]].
  - by eapply Forall_lookup_1.
  - by eapply (Forall_lookup_1 _ l).
Qed.
Lemma slice_bytes o n b : bytes b → bytes (slice o n b).
Proof. intros. by apply Forall_take, Forall_drop. Qed.

Lemma u16_put16_eq o v b : (S o < length b)%nat → u16 (put16 o v b) o = wrap16 v.
Proof.
  intros. unfold u16, put16. rewrite u8_put8_ne by lia.
  rewrite !u8_put8_eq by (rewrite ?length_put8; lia).
  unfold wrap8, wrap16. dlia.
Qed.
Lemma u16_put16_ne o o' v b :
  (o' + 2 ≤ o ∨ o + 2 ≤ o')%nat → u16 (put16 o v b) o' = u16 b o'.
Proof. intros. unfold u16. by rewrite !u8_put16_ne by lia. Qed.
End bytes.

#[export] Hint Resolve u8_bytes u16_bytes get_b4_bytes put8_bytes put16_bytes
  put_b4_bytes put_bytes_bytes slice_bytes : width.

Lemma HTONS_swap n : is_u16 n → HTONS n = 256 * (n mod 256) + n / 256.
Proof.
  intros Hn. unfold HTONS. rewrite (wrap16_id n) by done. unfold is_u16 in Hn.
  assert (Hd : Z.land (Z.shiftl n 8) (Z.shiftr n 8) = 0).
  { apply Z.bits_inj'. intros k Hk.
    rewrite Z.land_spec, Z.bits_0, Z.shiftl_spec, Z.shiftr_spec by done.
    destruct (Z.ltb_spec k 8).
    - rewrite (Z.testbit_neg_r n (k - 8)) by lia. done.
    - rewrite (Z.bits_above_log2 n (k + 8)); [by rewrite andb_false_r|lia|].
      destruct (decide (n = 0)) as [->|]; [cbn; lia|].
      apply Z.log2_lt_pow2; [lia|]. apply Z.lt_le_trans with (2^16); [lia|].
      apply Z.pow_le_mono_r; lia. }
  rewrite <- Z.lxor_lor, <- Z.add_nocarry_lxor by done.
  rewrite Z.shiftl_mul_pow2, Z.shiftr_div_pow2 by lia.
  change (2 ^ 8) with 256. unfold wrap16. dlia.
Qed.

Lemma HTONS_u16 n : is_u16 (HTONS n).
Proof. apply wrap16_u16. Qed.
#[export] Hint Resolve HTONS_u16 : width.

Lemma HTONS_involutive n : is_u16 n → HTONS (HTONS n) = n.
Proof.
  intros Hn. rewrite (HTONS_swap (HTONS n)) by apply HTONS_u16.
  rewrite HTONS_swap by done. unfold is_u16 in Hn.
  dlia.
Qed.

Lemma HTONS_inj n m : is_u16 n → is_u16 m → HTONS n = HTONS m → n = m.
Proof.
  intros Hn Hm E. by rewrite <- (HTONS_involutive n), <- (HTONS_involutive m), E.
Qed.

Lemma u16_be16 b o : bytes b → u16 b o = HTONS (be16 b o).
Proof.
  intros Hb. pose proof (u8_bytes b o Hb) as H0. pose proof (u8_bytes b (S o) Hb) as H1.
  unfold is_u8 in *. rewrite HTONS_swap; unfold u16, be16, is_u16; [|lia].
  dlia.
Qed.

Lemma get_put_b4 o q b :
  (o + 3 < length b)%nat → is_b4 q → get_b4 (put_b4 o q b) o = q.
Proof.
  intros Hl (?&?&?&?). destruct q as [x0 x1 x2 x3]; simpl in *.
  unfold get_b4, put_b4. simpl.
  f_equal; repeat (rewrite u8_put8_ne by lia);
    rewrite u8_put8_eq by (rewrite ?length_put8; lia); by apply wrap8_id.
Qed.

Lemma be32_inj p q : is_b4 p → is_b4 q → be32 p = be32 q → p = q.
Proof.
  destruct p, q. unfold is_b4, is_u8, be32. simpl. intros. f_equal; lia.
Qed.
