(* ===== verification/Checksum.v ===== *)
(** * 32-bit addition and the Internet checksum (uip.c)

    [uip_add32] adds a 16-bit number to a sequence number held as four bytes;
    [chksum] is the byte loop behind the IP, TCP and [uip_chksum] checksums.
    Both are proved equal to their arithmetic meaning: addition modulo 2^32,
    and the one's-complement sum of RFC 1071. *)

From S2P Require Import Prelude Bytes.

(** ** The code *)

(** [++uip_acc32[1]], the carry rippling into [uip_acc32[0]]. *)
Definition acc_carry1 (acc : bytes4) : bytes4 :=
  let acc := acc <| b1 ::= λ x, wrap8 (x + 1) |> in
  if b1 acc =? 0 then acc <| b0 ::= λ x, wrap8 (x + 1) |> else acc.

(** [++uip_acc32[2]], the carry rippling into the bytes above. *)
Definition acc_carry2 (acc : bytes4) : bytes4 :=
  let acc := acc <| b2 ::= λ x, wrap8 (x + 1) |> in
  if b2 acc =? 0 then acc_carry1 acc else acc.

(** [uip_acc32] after [uip_add32(op32, op16)]. *)
Definition uip_add32 (op32 : bytes4) (op16 : Z) : bytes4 :=
  let acc := B4 (b0 op32) (b1 op32)
                (wrap8 (b2 op32 + Z.shiftr op16 8))
                (wrap8 (b3 op32 + Z.land op16 255)) in
  let acc := if b2 acc <? Z.shiftr op16 8 then acc_carry1 acc else acc in
  if b3 acc <? Z.land op16 255 then acc_carry2 acc else acc.

(** One accumulation step of [chksum]: [sum += t; if(sum < t) sum++]. *)
Definition chksum_add (sum t : Z) : Z :=
  let sum := wrap16 (sum + t) in
  if sum <? t then wrap16 (sum + 1) else sum.

(** [chksum(sum, data, len)]; [data] is the [len] bytes the pointer walks. *)
Fixpoint chksum (sum : Z) (data : list Z) : Z :=
  match data with
  | x :: y :: data => chksum (chksum_add sum (wrap16 (Z.shiftl x 8 + y))) data
  | [x] => chksum_add sum (wrap16 (Z.shiftl x 8 + 0))
  | [] => sum
  end.

Definition uip_chksum (data : list Z) : Z := HTONS (chksum 0 data).

(** ** Reference definitions *)

(** The sum of the big-endian 16-bit words, an odd last byte padded with 0. *)
Fixpoint wsum (l : list Z) : Z :=
  match l with
  | x :: y :: l => 256 * x + y + wsum l
  | [x] => 256 * x
  | [] => 0
  end.

(** One's-complement normal form: 0 only for 0, otherwise in [1, 65535]. *)
Definition oc (x : Z) : Z := if x =? 0 then 0 else (x - 1) mod 65535 + 1.

(** ** Proofs *)

Lemma wrap8_incr x : is_u8 x → wrap8 (x + 1) = if x =? 255 then 0 else x + 1.
Proof. unfold is_u8, wrap8. intros. destruct (Z.eqb_spec x 255); dlia. Qed.

Lemma wrap8_add_carry x y : is_u8 x → is_u8 y →
  wrap8 (x + y) = if wrap8 (x + y) <? y then x + y - 256 else x + y.
Proof. unfold is_u8, wrap8. intros. destruct (Z.ltb_spec ((x + y) mod 256) y); dlia. Qed.

Lemma op16_split n : is_u16 n →
  is_u8 (Z.shiftr n 8) ∧ is_u8 (Z.land n 255) ∧ n = 256 * Z.shiftr n 8 + Z.land n 255.
Proof.
  unfold is_u16, is_u8. intros. change 255 with (Z.ones 8).
  rewrite Z.shiftr_div_pow2, Z.land_ones by lia. change (2 ^ 8) with 256. dlia.
Qed.

Lemma acc_carry1_spec q : is_b4 q →
  is_b4 (acc_carry1 q) ∧ be32 (acc_carry1 q) = (be32 q + 65536) mod 4294967296 ∧
  b2 (acc_carry1 q) = b2 q ∧ b3 (acc_carry1 q) = b3 q.
Proof.
  destruct q as [x0 x1 x2 x3]. unfold is_b4. intros (H0&H1&H2&H3).
  unfold acc_carry1. cbn -[Z.eqb wrap8 Z.mul Z.add Z.modulo] in *.
  rewrite (wrap8_incr x1) by done.
  destruct (Z.eqb_spec x1 255) as [->|].
  - cbn [b0 b1 b2 b3 set_field Z.eqb]. rewrite (wrap8_incr x0) by done.
    destruct (Z.eqb_spec x0 255); unfold be32, is_u8, wrap8 in *; cbn [b0 b1 b2 b3 set_field]; split_and!; dlia.
  - unfold is_u8 in *. destruct (Z.eqb_spec (x1 + 1) 0); [lia|].
    unfold be32, is_u8, wrap8; cbn [b0 b1 b2 b3 set_field]; split_and!; dlia.
Qed.

Lemma acc_carry2_spec q : is_b4 q →
  is_b4 (acc_carry2 q) ∧ be32 (acc_carry2 q) = (be32 q + 256) mod 4294967296.
Proof.
  intros Hq. unfold acc_carry2. pose proof Hq as (H0&H1&H2&H3).
  destruct q as [x0 x1 x2 x3]. cbn [b0 b1 b2 b3 set_field] in *.
  rewrite (wrap8_incr x2) by done. destruct (Z.eqb_spec x2 255) as [->|].
  - destruct (acc_carry1_spec (B4 x0 x1 0 x3)) as (?&E&?&?); [done|].
    cbn [Z.eqb]. change (set_field b2 _ _) with (B4 x0 x1 0 x3).
    split; [done|]. rewrite E. f_equal. unfold be32; simpl; lia.
  - destruct (Z.eqb_spec (x2 + 1) 0); unfold is_b4, be32, is_u8, wrap8 in *;
      cbn [b0 b1 b2 b3 set_field] in *; split_and!; dlia.
Qed.

Lemma uip_add32_spec q n : is_b4 q → is_u16 n →
  is_b4 (uip_add32 q n) ∧ be32 (uip_add32 q n) = (be32 q + n) mod 4294967296.
Proof.
  intros (H0&H1&H2&H3) Hn. destruct (op16_split n Hn) as (Hh&Hl&Hs).
  unfold uip_add32. set (h := Z.shiftr n 8) in *. set (l := Z.land n 255) in *.
  clearbody h l. cbn [b0 b1 b2 b3].
  pose proof (wrap8_add_carry (b3 q) l H3 Hl) as E3.
  pose proof (wrap8_add_carry (b2 q) h H2 Hh) as E2.
  set (acc := B4 (b0 q) (b1 q) (wrap8 (b2 q + h)) (wrap8 (b3 q + l))).
  assert (Ha : is_b4 acc) by (unfold is_b4, acc; simpl; auto with width).
  destruct (acc_carry1_spec acc Ha) as (Hc&Ec&_&E3c).
  set (acc1 := if wrap8 (b2 q + h) <? h then acc_carry1 acc else acc).
  assert (H1a : is_b4 acc1) by (unfold acc1; by case_match).
  assert (b3 acc1 = wrap8 (b3 q + l)) as -> by (unfold acc1; by case_match).
  assert (E1 : be32 acc1 = (be32 acc + (if wrap8 (b2 q + h) <? h then 65536 else 0)) mod 4294967296).
  { unfold acc1. case_match; [done|]. destruct Ha as (?&?&?&?). unfold be32, is_u8 in *. dlia. }
  destruct (acc_carry2_spec acc1 H1a) as [? E2c].
  assert (be32 acc = 16777216 * b0 q + 65536 * b1 q + 256 * wrap8 (b2 q + h) + wrap8 (b3 q + l))
    as Eacc by done.
  unfold be32 at 2. destruct (wrap8 (b3 q + l) <? l).
  - split; [done|]. rewrite E2c, E1, Eacc. case_match; rewrite E2, E3; subst n; dlia.
  - split; [done|]. rewrite E1, Eacc. case_match; rewrite E2, E3; subst n; dlia.
Qed.

Lemma oc_add x y : 0 ≤ x → 0 ≤ y → oc (oc x + y) = oc (x + y).
Proof.
  intros. unfold oc. destruct (Z.eqb_spec x 0) as [->|]; [done|].
  repeat case_match; dlia.
Qed.

Lemma oc_u16 x : is_u16 x → oc x = x.
Proof. unfold oc, is_u16. intros. case_match; dlia. Qed.

Lemma oc_bound x : 0 ≤ x → is_u16 (oc x).
Proof. unfold oc, is_u16. intros. case_match; dlia. Qed.

Lemma chksum_add_oc s t : is_u16 s → is_u16 t → chksum_add s t = oc (s + t).
Proof.
  unfold chksum_add, oc, wrap16, is_u16. intros.
  destruct (Z.ltb_spec ((s + t) mod 65536) t), (Z.eqb_spec (s + t) 0); dlia.
Qed.

Lemma word_u16 x y : is_u8 x → is_u8 y →
  wrap16 (Z.shiftl x 8 + y) = 256 * x + y ∧ is_u16 (256 * x + y).
Proof.
  unfold is_u8, is_u16, wrap16. intros. rewrite Z.shiftl_mul_pow2 by lia.
  change (2 ^ 8) with 256. split; dlia.
Qed.

(** Induction two bytes at a time, as the checksum loop walks. *)
Lemma list_ind2 {A} (P : list A → Prop) :
  P [] → (∀ x, P [x]) → (∀ x y l, P l → P (x :: y :: l)) → ∀ l, P l.
Proof.
  intros H0 H1 H2. fix IH 1. intros [|x [|y l]]; [exact H0|apply H1|apply H2, IH].
Qed.

Lemma wsum_nonneg l : bytes l → 0 ≤ wsum l.
Proof.
  induction l as [|x|x y l IH] using list_ind2; cbn [wsum]; [done| |].
  - intros [Hx _]%bytes_cons. unfold is_u8 in *. lia.
  - intros (Hx&(Hy&Hl)%bytes_cons)%bytes_cons. specialize (IH Hl).
    unfold is_u8 in *. lia.
Qed.

Lemma chksum_spec l : ∀ s, is_u16 s → bytes l → chksum s l = oc (s + wsum l).
Proof.
  induction l as [|x|x y l IH] using list_ind2; cbn [wsum chksum]; intros s Hs.
  - intros _. by rewrite Z.add_0_r, oc_u16.
  - intros [Hx _]%bytes_cons. destruct (word_u16 x 0) as [-> ?]; [done|done|].
    rewrite chksum_add_oc by done. f_equal. lia.
  - intros (Hx&(Hy&Hl)%bytes_cons)%bytes_cons.
    destruct (word_u16 x y) as [-> Hw]; [done|done|]. unfold is_u16 in Hs, Hw.
    rewrite chksum_add_oc by done.
    rewrite IH by (done || apply oc_bound; lia).
    rewrite oc_add by (try apply wsum_nonneg; done || lia). f_equal. lia.
Qed.

Lemma chksum_u16 s l : is_u16 s → bytes l → is_u16 (chksum s l).
Proof.
  intros. rewrite chksum_spec by done. apply oc_bound.
  assert (0 ≤ wsum l) by by apply wsum_nonneg. unfold is_u16 in *. lia.
Qed.
#[export] Hint Resolve chksum_u16 : width.
