(* ===== verification/UipState.v ===== *)
(** * Configuration, headers and globals of uIP (uip.h, uipopt.h, uip-conf.h)

    The constants of the build, the byte offsets of the header structs the
    code overlays on [uip_buf], the connection and statistics structs, and
    the record of uip.c's globals.

    The file-scope temporaries [c], [opt], [tmp16] and [uip_acc32] are written
    before they are read in every operation; they are local values here. *)

From S2P Require Import Prelude Bytes.

(** ** Configuration *)

Definition UIP_TTL : Z := 64.
Definition UIP_CONNS : nat := 40.
Definition UIP_LISTENPORTS : nat := 40.
Definition UIP_RTO : Z := 3.
Definition UIP_MAXRTX : Z := 8.
Definition UIP_MAXSYNRTX : Z := 5.
Definition UIP_TIME_WAIT_TIMEOUT : Z := 120.
Definition UIP_BUFSIZE : nat := 420.
Definition UIP_LLH_LEN : nat := 14.
Definition UIP_IPH_LEN : Z := 20.
Definition UIP_TCPH_LEN : Z := 20.
Definition UIP_IPTCPH_LEN : Z := 40.
Definition UIP_TCPIP_HLEN : Z := UIP_IPTCPH_LEN.
Definition UIP_TCP_MSS : Z := 420 - 14 - UIP_TCPIP_HLEN.
Definition UIP_RECEIVE_WINDOW : Z := UIP_TCP_MSS.

Definition UIP_PROTO_ICMP : Z := 1.
Definition UIP_PROTO_TCP : Z := 6.

(** [uip_flags]. *)
Definition UIP_ACKDATA : Z := 1.
Definition UIP_NEWDATA : Z := 2.
Definition UIP_REXMIT : Z := 4.
Definition UIP_POLL : Z := 8.
Definition UIP_CLOSE : Z := 16.
Definition UIP_ABORT : Z := 32.
Definition UIP_CONNECTED : Z := 64.
Definition UIP_TIMEDOUT : Z := 128.

(** The argument of [uip_process]. *)
Definition UIP_DATA : Z := 1.
Definition UIP_TIMER : Z := 2.
Definition UIP_POLL_REQUEST : Z := 3.

(** [tcpstateflags]. *)
Definition UIP_CLOSED : Z := 0.
Definition UIP_SYN_RCVD : Z := 1.
Definition UIP_SYN_SENT : Z := 2.
Definition UIP_ESTABLISHED : Z := 3.
Definition UIP_FIN_WAIT_1 : Z := 4.
Definition UIP_FIN_WAIT_2 : Z := 5.
Definition UIP_CLOSING : Z := 6.
Definition UIP_TIME_WAIT : Z := 7.
Definition UIP_LAST_ACK : Z := 8.
Definition UIP_TS_MASK : Z := 15.
Definition UIP_STOPPED : Z := 16.

(** The TCP header's flags, options, and ICMP types. *)
Definition TCP_FIN : Z := 0x01.
Definition TCP_SYN : Z := 0x02.
Definition TCP_RST : Z := 0x04.
Definition TCP_PSH : Z := 0x08.
Definition TCP_ACK : Z := 0x10.
Definition TCP_URG : Z := 0x20.
Definition TCP_CTL : Z := 0x3f.
Definition TCP_OPT_END : Z := 0.
Definition TCP_OPT_NOOP : Z := 1.
Definition TCP_OPT_MSS : Z := 2.
Definition TCP_OPT_MSS_LEN : Z := 4.
Definition ICMP_ECHO_REPLY : Z := 0.
Definition ICMP_ECHO : Z := 8.

(** [struct uip_tcpip_hdr] at [uip_buf + UIP_LLH_LEN]. *)
Module BUF.
Definition vhl : nat := 14.
Definition tos : nat := 15.
Definition len0 : nat := 16.
Definition len1 : nat := 17.
Definition ipid0 : nat := 18.
Definition ipid1 : nat := 19.
Definition ipoffset0 : nat := 20.
Definition ipoffset1 : nat := 21.
Definition ttl : nat := 22.
Definition proto : nat := 23.
Definition ipchksum : nat := 24.
Definition srcipaddr : nat := 26.
Definition destipaddr : nat := 30.
Definition srcport : nat := 34.
Definition destport : nat := 36.
Definition seqno : nat := 38.
Definition ackno : nat := 42.
Definition tcpoffset : nat := 46.
Definition flags : nat := 47.
Definition wnd0 : nat := 48.
Definition wnd1 : nat := 49.
Definition tcpchksum : nat := 50.
Definition urgp0 : nat := 52.
Definition urgp1 : nat := 53.
Definition optdata : nat := 54.
End BUF.

(** The ICMP fields of [struct uip_icmpip_hdr]. *)
Module ICMPBUF.
Definition type : nat := 34.
Definition icode : nat := 35.
Definition icmpchksum : nat := 36.
Definition id : nat := 38.
Definition seqno : nat := 40.
End ICMPBUF.

(** ** IP addresses: two [u16_t] in network order *)

Definition uip_ipaddr_t : Type := Z * Z.
Definition uip_ipaddr (a0 a1 a2 a3 : Z) : uip_ipaddr_t :=
  (HTONS (Z.lor (Z.shiftl a0 8) a1), HTONS (Z.lor (Z.shiftl a2 8) a3)).
Definition uip_ipaddr_cmp (a b : uip_ipaddr_t) : bool := (a.1 =? b.1) && (a.2 =? b.2).
Definition uip_ipaddr_maskcmp (a b mask : uip_ipaddr_t) : bool :=
  (Z.land a.1 mask.1 =? Z.land b.1 mask.1) && (Z.land a.2 mask.2 =? Z.land b.2 mask.2).
Definition all_zeroes_addr : uip_ipaddr_t := (0, 0).
Definition get_ip (b : list Z) (o : nat) : uip_ipaddr_t := (u16 b o, u16 b (o + 2)).
Definition put_ip (o : nat) (a : uip_ipaddr_t) (b : list Z) : list Z :=
  put16 (o + 2) a.2 (put16 o a.1 b).

(** [(BUF->len[0] << 8) + BUF->len[1]] *)
Definition iplen (b : list Z) : Z := Z.shiftl (u8 b BUF.len0) 8 + u8 b BUF.len1.

(** ** [struct uip_conn] *)

Record conn := mk_conn {
  ripaddr : uip_ipaddr_t;
  lport : Z;
  rport : Z;
  rcv_nxt : bytes4;
  snd_nxt : bytes4;
  len : Z;
  mss : Z;
  initialmss : Z;
  sa : Z;
  sv : Z;
  rto : Z;
  tcpstateflags : Z;
  timer : Z;
  nrtx : Z
}.
#[export] Instance conn_settable : Settable conn :=
  settable! mk_conn <ripaddr; lport; rport; rcv_nxt; snd_nxt; len; mss; initialmss;
                     sa; sv; rto; tcpstateflags; timer; nrtx>.

(** A connection of the zero-initialised table. *)
Definition conn0 : conn :=
  mk_conn (0, 0) 0 0 (B4 0 0 0 0) (B4 0 0 0 0) 0 0 0 0 0 0 UIP_CLOSED 0 0.
#[export] Instance conn_inhabited : Inhabited conn := populate conn0.

Definition uip_outstanding (c : conn) : bool := negb (len c =? 0).

(** ** [struct uip_stats] (the counters the build updates) *)

Record uip_stats := mk_stats {
  ip_drop : Z; ip_recv : Z; ip_sent : Z; ip_vhlerr : Z; ip_fragerr : Z;
  ip_chkerr : Z; ip_protoerr : Z;
  icmp_drop : Z; icmp_recv : Z; icmp_sent : Z; icmp_typeerr : Z;
  tcp_drop : Z; tcp_recv : Z; tcp_sent : Z; tcp_chkerr : Z; tcp_rst : Z;
  tcp_rexmit : Z; tcp_syndrop : Z; tcp_synrst : Z
}.
#[export] Instance stats_settable : Settable uip_stats :=
  settable! mk_stats <ip_drop; ip_recv; ip_sent; ip_vhlerr; ip_fragerr; ip_chkerr;
    ip_protoerr; icmp_drop; icmp_recv; icmp_sent; icmp_typeerr; tcp_drop; tcp_recv;
    tcp_sent; tcp_chkerr; tcp_rst; tcp_rexmit; tcp_syndrop; tcp_synrst>.
Definition stats0 : uip_stats := mk_stats 0 0 0 0 0 0 0 0 0 0 0 0 0 0 0 0 0 0 0.

(** ** The globals of uip.c

    [uip_appdata] and [uip_sappdata] point into [uip_buf] and are offsets;
    [uip_conn] points into [uip_conns] or is null. *)

Record uip := mk_uip {
  uip_buf : list Z;
  uip_len : Z;
  uip_slen : Z;
  uip_flags : Z;
  uip_appdata : nat;
  uip_sappdata : nat;
  uip_conn : option nat;
  uip_conns : list conn;
  uip_listenports : list Z;
  ipid : Z;
  iss : bytes4;
  lastport : Z;
  uip_hostaddr : uip_ipaddr_t;
  uip_draddr : uip_ipaddr_t;
  uip_netmask : uip_ipaddr_t;
  uip_ethaddr : list Z;
  uip_stat : uip_stats
}.
#[export] Instance uip_settable : Settable uip :=
  settable! mk_uip <uip_buf; uip_len; uip_slen; uip_flags; uip_appdata; uip_sappdata;
    uip_conn; uip_conns; uip_listenports; ipid; iss; lastport; uip_hostaddr;
    uip_draddr; uip_netmask; uip_ethaddr; uip_stat>.

(** The globals as the loader leaves them: zero, but for [uip_ethaddr]. *)
Definition uip0 : uip :=
  mk_uip (replicate (UIP_BUFSIZE + 2) 0) 0 0 0 0 0 None (replicate UIP_CONNS conn0)
    (replicate UIP_LISTENPORTS 0) 0 (B4 0 0 0 0) 0 (0, 0) (0, 0) (0, 0)
    [0x52; 0x54; 0; 0; 0; 1] stats0.

(** ** Well-formedness: the C types of the globals *)

Definition wf_ip (a : uip_ipaddr_t) : Prop := is_u16 a.1 ∧ is_u16 a.2.

Record wf_conn (c : conn) : Prop := {
  wfc_ripaddr : wf_ip (ripaddr c);
  wfc_lport : is_u16 (lport c);
  wfc_rport : is_u16 (rport c);
  wfc_rcv_nxt : is_b4 (rcv_nxt c);
  wfc_snd_nxt : is_b4 (snd_nxt c);
  wfc_len : is_u16 (len c);
  wfc_mss : is_u16 (mss c);
  wfc_initialmss : is_u16 (initialmss c);
  wfc_sa : is_u8 (sa c);
  wfc_sv : is_u8 (sv c);
  wfc_rto : is_u8 (rto c);
  wfc_tcpstateflags : is_u8 (tcpstateflags c);
  wfc_timer : is_u8 (timer c);
  wfc_nrtx : is_u8 (nrtx c)
}.

Record wf_uip (s : uip) : Prop := {
  wf_buf_len : length (uip_buf s) = (UIP_BUFSIZE + 2)%nat;
  wf_buf : bytes (uip_buf s);
  wf_uip_len : is_u16 (uip_len s);
  wf_uip_slen : is_u16 (uip_slen s);
  wf_uip_flags : is_u8 (uip_flags s);
  wf_uip_conn : ∀ i, uip_conn s = Some i → (i < UIP_CONNS)%nat;
  wf_uip_conns_len : length (uip_conns s) = UIP_CONNS;
  wf_uip_conns : Forall wf_conn (uip_conns s);
  wf_listenports_len : length (uip_listenports s) = UIP_LISTENPORTS;
  wf_listenports : Forall is_u16 (uip_listenports s);
  wf_ipid : is_u16 (ipid s);
  wf_iss : is_b4 (iss s);
  wf_lastport : is_u16 (lastport s);
  wf_hostaddr : wf_ip (uip_hostaddr s);
  wf_draddr : wf_ip (uip_draddr s);
  wf_netmask : wf_ip (uip_netmask s);
  wf_ethaddr_len : length (uip_ethaddr s) = 6%nat;
  wf_ethaddr : bytes (uip_ethaddr s)
}.

(** ** Lemmas on addresses in the buffer *)

Lemma length_put_ip o a b : length (put_ip o a b) = length b.
Proof. unfold put_ip. by rewrite !length_put16. Qed.
Lemma put_ip_bytes o a b : bytes b → bytes (put_ip o a b).
Proof. intros. unfold put_ip. by do 2 apply put16_bytes. Qed.
Lemma u8_put_ip_ne o o' a b :
  (o' < o ∨ o + 4 ≤ o')%nat → u8 (put_ip o a b) o' = u8 b o'.
Proof. intros. unfold put_ip. by rewrite !u8_put16_ne by lia. Qed.
Lemma slice_put_ip_ne o n o' v b :
  (o' + 4 ≤ o ∨ o + n ≤ o')%nat → slice o n (put_ip o' v b) = slice o n b.
Proof. intros. unfold put_ip. by rewrite !slice_put16_ne by lia. Qed.
Lemma get_ip_wf b o : bytes b → wf_ip (get_ip b o).
Proof. intros. split; simpl; auto with width. Qed.
Lemma get_put_ip o a b :
  (o + 3 < length b)%nat → wf_ip a → get_ip (put_ip o a b) o = a.
Proof.
  intros Hl [H1 H2]. destruct a as [x y]. unfold get_ip, put_ip; simpl in *.
  rewrite u16_put16_ne by lia. rewrite !u16_put16_eq by (rewrite ?length_put16; lia).
  by rewrite !wrap16_id.
Qed.
#[export] Hint Resolve put_ip_bytes get_ip_wf : width.

Lemma uip_ipaddr_cmp_eq a b : uip_ipaddr_cmp a b = true ↔ a = b.
Proof.
  destruct a, b. unfold uip_ipaddr_cmp. rewrite andb_true_iff, !Z.eqb_eq. simpl. intuition congruence.
Qed.

(** Reads of the buffer through writes at other, constant, offsets. *)
Ltac offsets := cbv; lia.
Ltac u8_simp :=
  repeat match goal with
  | |- context [u8 (put8 ?o ?v ?b) ?p] => rewrite (u8_put8_ne o p v b) by offsets
  | |- context [u8 (put16 ?o ?v ?b) ?p] => rewrite (u8_put16_ne o p v b) by offsets
  | |- context [u8 (put_b4 ?o ?v ?b) ?p] => rewrite (u8_put_b4_ne o p v b) by offsets
  | |- context [u8 (put_ip ?o ?v ?b) ?p] => rewrite (u8_put_ip_ne o p v b) by offsets
  end.
(** Slices and words of the buffer through writes elsewhere. *)
Ltac slice_simp :=
  repeat match goal with
  | |- context [slice ?o ?n (put8 ?p ?v ?b)] => rewrite (slice_put8_ne o n p v b) by offsets
  | |- context [slice ?o ?n (put16 ?p ?v ?b)] => rewrite (slice_put16_ne o n p v b) by offsets
  | |- context [slice ?o ?n (put_ip ?p ?v ?b)] => rewrite (slice_put_ip_ne o n p v b) by offsets
  end.
Ltac buf_len :=
  repeat first [rewrite length_put8 | rewrite length_put16 | rewrite length_put_b4
               | rewrite length_put_ip | rewrite length_put_bytes].

Lemma iplen_u16 b : bytes b → is_u16 (iplen b).
Proof.
  intros Hb. pose proof (u8_bytes b BUF.len0 Hb). pose proof (u8_bytes b BUF.len1 Hb).
  unfold iplen, is_u8, is_u16 in *. rewrite Z.shiftl_mul_pow2 by lia. lia.
Qed.
#[export] Hint Resolve iplen_u16 : width.

(** Writing a length as the code does, high byte and low byte. *)
Lemma u16_split n : is_u16 n →
  Z.shiftl (wrap8 (Z.shiftr n 8)) 8 + wrap8 (Z.land n 0xff) = n.
Proof.
  intros Hn. unfold is_u16 in Hn. change 0xff with (Z.ones 8).
  rewrite Z.land_ones, Z.shiftr_div_pow2, Z.shiftl_mul_pow2 by lia.
  unfold wrap8. change (2 ^ 8) with 256. dlia.
Qed.

Lemma iplen_put n b : (17 < length b)%nat → is_u16 n →
  iplen (put8 BUF.len1 (Z.land n 0xff) (put8 BUF.len0 (Z.shiftr n 8) b)) = n.
Proof.
  intros Hl Hn. unfold iplen. rewrite u8_put8_ne by offsets.
  rewrite !u8_put8_eq by (rewrite ?length_put8; unfold BUF.len0, BUF.len1; lia).
  by apply u16_split.
Qed.
