(* ===== verification/Uip.v ===== *)
(** * The uIP TCP/IP stack (uip.c)

    [uip_process] is one C function whose blocks are joined by labels and
    gotos.  Each label is a definition here, named after it, and a goto is a
    call in tail position; the jumps form a DAG, so the definitions stand in
    dependency order, from [drop] and [send] up to [uip_process].

    The build is that of uip-conf.h: IPv4, no UDP, no reassembly, active open,
    statistics, no logging, little-endian.  The application behind
    [UIP_APPCALL] is a parameter of the section.

    Struct fields at constant offsets lie inside [uip_buf] by its type; the
    accesses whose address depends on the packet are checked and fault. *)

From S2P Require Import Prelude Bytes Checksum UipState.

(** The truth value of [f & m]. *)
Definition has (f m : Z) : bool := negb (Z.land f m =? 0).

(** ** Checksums over the packet buffer *)

Definition uip_ipchksum (b : list Z) : Z :=
  let sum := chksum 0 (slice UIP_LLH_LEN 20 b) in
  if sum =? 0 then 0xffff else HTONS sum.

Definition upper_layer_len (b : list Z) : Z :=
  wrap16 (iplen b - UIP_IPH_LEN).

Definition upper_layer_chksum (proto : Z) (b : list Z) : res Z :=
  let n := Z.to_nat (upper_layer_len b) in
  let sum := wrap16 (upper_layer_len b + proto) in
  let sum := chksum sum (slice BUF.srcipaddr 8 b) in
  if (34 + n <=? length b)%nat then
    let sum := chksum sum (slice 34 n b) in
    Ok (if sum =? 0 then 0xffff else HTONS sum)
  else Err OutOfBounds.

Definition uip_tcpchksum (b : list Z) : res Z := upper_layer_chksum UIP_PROTO_TCP b.

(** ** Ports and connections outside [uip_process] *)

Definition uip_init (s : uip) : uip :=
  s <| uip_listenports ::= fmap (λ _, 0) |>
    <| uip_conns ::= fmap (λ c, c <| tcpstateflags := UIP_CLOSED |>) |>
    <| lastport := 1024 |>.

Definition uip_setipid (id : Z) (s : uip) : uip := s <| ipid := id |>.

(** [htons(val)] *)
Definition htons (val : Z) : Z := HTONS val.

(** The first slot that holds [old] gets [new]; nothing happens without one. *)
Fixpoint port_replace (old new : Z) (ports : list Z) : list Z :=
  match ports with
  | [] => []
  | p :: ports => if p =? old then new :: ports else p :: port_replace old new ports
  end.

Definition uip_unlisten (port : Z) (s : uip) : uip :=
  s <| uip_listenports ::= port_replace port 0 |>.

Definition uip_listen (port : Z) (s : uip) : uip :=
  s <| uip_listenports ::= port_replace 0 port |>.

(** The search for a connection to use: the first CLOSED one, else the
    TIME_WAIT one whose timer is highest, the earlier of two equal ones. *)
Fixpoint find_unused (c : nat) (best : option (nat * conn)) (cs : list conn) : option nat :=
  match cs with
  | [] => fst <$> best
  | x :: cs =>
      if tcpstateflags x =? UIP_CLOSED then Some c
      else if tcpstateflags x =? UIP_TIME_WAIT then
        match best with
        | None => find_unused (S c) (Some (c, x)) cs
        | Some (_, y) =>
            if timer y <? timer x then find_unused (S c) (Some (c, x)) cs
            else find_unused (S c) best cs
        end
      else find_unused (S c) best cs
  end.

(** [++lastport], kept below 32000. *)
Definition next_lastport (p : Z) : Z :=
  let p := wrap16 (p + 1) in if 32000 <=? p then 4096 else p.

Definition port_in_use (p : Z) (cs : list conn) : bool :=
  existsb (λ c, negb (tcpstateflags c =? UIP_CLOSED) && (lport c =? HTONS p)) cs.

(** The [again] loop: the next port that is not [used]. *)
Fixpoint pick_lastport (fuel : nat) (p : Z) (used : Z → bool) : res Z :=
  match fuel with
  | O => Err Diverges
  | S fuel =>
      let p := next_lastport p in
      if used p then pick_lastport fuel p used else Ok p
  end.

Definition uip_connect (rip : uip_ipaddr_t) (rp : Z) (s : uip) : res (option nat * uip) :=
  match pick_lastport (S UIP_CONNS) (lastport s) (λ p, port_in_use p (uip_conns s)) with
  | Err e => Err e
  | Ok p =>
      let s := s <| lastport := p |> in
      match find_unused 0 None (uip_conns s) with
      | None => Ok (None, s)
      | Some i =>
          let f (c : conn) :=
            c <| tcpstateflags := UIP_SYN_SENT |>
              <| snd_nxt := iss s |>
              <| initialmss := UIP_TCP_MSS |>
              <| mss := UIP_TCP_MSS |>
              <| len := 1 |>
              <| nrtx := 0 |>
              <| timer := 1 |>
              <| rto := UIP_RTO |>
              <| sa := 0 |>
              <| sv := 16 |>
              <| lport := HTONS p |>
              <| rport := rp |>
              <| ripaddr := rip |> in
          Ok (Some i, s <| uip_conns ::= alter f i |>)
      end
  end.

(** ** TCP options: the MSS loop

    [lim] is the length of the options and [c] the [u8_t] loop counter; the
    value is the MSS option's, when the loop finds one. *)
Fixpoint parse_mss (fuel : nat) (b : list Z) (lim c : Z) : res (option Z) :=
  match fuel with
  | O => Err Diverges
  | S fuel =>
      if c <? lim then
        let at_c k := u8 b (BUF.optdata + k + Z.to_nat c) in
        let opt := at_c 0%nat in
        if opt =? TCP_OPT_END then Ok None
        else if opt =? TCP_OPT_NOOP then parse_mss fuel b lim (wrap8 (c + 1))
        else if (opt =? TCP_OPT_MSS) && (at_c 1%nat =? TCP_OPT_MSS_LEN) then
          let tmp16 := Z.lor (Z.shiftl (at_c 2%nat) 8) (at_c 3%nat) in
          Ok (Some (if UIP_TCP_MSS <? tmp16 then UIP_TCP_MSS else tmp16))
        else if at_c 1%nat =? 0 then Ok None
        else parse_mss fuel b lim (wrap8 (c + at_c 1%nat))
      else Ok None
  end.

(** A terminating run visits each counter value at most once. *)
Definition mss_fuel : nat := 257.

(** ** Round-trip time estimation, in [signed char] and [u8_t] *)
Definition rtt_update (c : conn) : conn :=
  if nrtx c =? 0 then
    let m := schar (rto c - timer c) in
    let m := schar (m - Z.shiftr (sa c) 3) in
    let sa' := wrap8 (sa c + m) in
    let m := if m <? 0 then schar (- m) else m in
    let m := schar (m - Z.shiftr (sv c) 2) in
    let sv' := wrap8 (sv c + m) in
    c <| sa := sa' |> <| sv := sv' |> <| rto := wrap8 (Z.shiftr sa' 3 + sv') |>
  else c.

(** The increment with carry of [iss] and of the reset's [ackno]. *)
Definition b4_incr (q : bytes4) : bytes4 :=
  let q := q <| b3 ::= λ x, wrap8 (x + 1) |> in
  if b3 q =? 0 then acc_carry2 q else q.

(** ** [uip_process] *)

(** The application linked to the stack: its own state and the function
    behind [UIP_APPCALL], which reads and writes uIP's globals. *)
Class UipApp (A : Type) := UIP_APPCALL : M (uip * A) unit.

Section process.
Context {A : Type} `{UipApp A}.

Definition U : Type → Type := M (uip * A).

Definition gets {X} (f : uip → X) : U X := getM (λ s, f s.1).
Definition upd (f : uip → uip) : U unit := modM (λ s, (f s.1, s.2)).
Definition liftr {X} (f : uip → res X) : U X :=
  λ s, match f s.1 with Ok x => Ok (x, s) | Err e => Err e end.

Definition r8 (o : nat) : U Z := gets (λ s, u8 (uip_buf s) o).
Definition r16 (o : nat) : U Z := gets (λ s, u16 (uip_buf s) o).
Definition rb4 (o : nat) : U bytes4 := gets (λ s, get_b4 (uip_buf s) o).
Definition rip (o : nat) : U uip_ipaddr_t := gets (λ s, get_ip (uip_buf s) o).
Definition bufw (f : list Z → list Z) : U unit := upd (λ s, s <| uip_buf ::= f |>).
Definition w8 (o : nat) (v : Z) : U unit := bufw (put8 o v).
Definition w16 (o : nat) (v : Z) : U unit := bufw (put16 o v).
Definition wb4 (o : nat) (q : bytes4) : U unit := bufw (put_b4 o q).
Definition wip (o : nat) (a : uip_ipaddr_t) : U unit := bufw (put_ip o a).

Definition set_len (v : Z) : U unit := upd (λ s, s <| uip_len := wrap16 v |>).
Definition set_slen (v : Z) : U unit := upd (λ s, s <| uip_slen := wrap16 v |>).
Definition set_flags (v : Z) : U unit := upd (λ s, s <| uip_flags := v |>).
Definition or_flags (v : Z) : U unit := upd (λ s, s <| uip_flags ::= λ f, Z.lor f v |>).

Definition connr (i : nat) : U conn := gets (λ s, uip_conns s !!! i).
Definition connw (i : nat) (f : conn → conn) : U unit :=
  upd (λ s, s <| uip_conns ::= alter f i |>).
Definition set_state (i : nat) (v : Z) : U unit :=
  connw i (λ c, c <| tcpstateflags := v |>).

(** [UIP_STAT(++uip_stat.f)] *)
Definition UIP_STAT (f : uip_stats → Z) {_ : Setter f} : U unit :=
  upd (λ s, s <| uip_stat ::= set_field f (λ x, wrap16 (x + 1)) |>).

(** [uip_connr = uip_conn], dereferenced by every use of it that follows. *)
Definition deref_conn : U nat :=
  p ← gets uip_conn;
  match p with Some i => mret i | None => fail NullDeref end.

Definition uip_add_rcv_nxt (n : Z) : U unit :=
  i ← deref_conn;
  connw i (λ c, c <| rcv_nxt ::= λ q, uip_add32 q (wrap16 n) |>).

(** *** The end of the function *)

Definition drop : U unit :=
  set_len 0;;
  set_flags 0.

Definition send : U unit :=
  UIP_STAT ip_sent;;
  set_flags 0.

Definition ip_send_nolen : U unit :=
  w8 BUF.vhl 0x45;;
  w8 BUF.tos 0;;
  w8 BUF.ipoffset1 0;;
  w8 BUF.ipoffset0 0;;
  upd (λ s, s <| ipid ::= λ x, wrap16 (x + 1) |>);;
  id ← gets ipid;
  w8 BUF.ipid0 (Z.shiftr id 8);;
  w8 BUF.ipid1 (Z.land id 0xff);;
  w16 BUF.ipchksum 0;;
  sum ← gets (λ s, uip_ipchksum (uip_buf s));
  w16 BUF.ipchksum (Z.lnot sum);;
  UIP_STAT tcp_sent;;
  send.

Definition tcp_send_noconn : U unit :=
  w8 BUF.ttl UIP_TTL;;
  n ← gets uip_len;
  w8 BUF.len0 (Z.shiftr n 8);;
  w8 BUF.len1 (Z.land n 0xff);;
  w8 BUF.urgp1 0;;
  w8 BUF.urgp0 0;;
  w16 BUF.tcpchksum 0;;
  sum ← liftr (λ s, uip_tcpchksum (uip_buf s));
  w16 BUF.tcpchksum (Z.lnot sum);;
  ip_send_nolen.

Definition tcp_send (i : nat) : U unit :=
  c ← connr i;
  wb4 BUF.ackno (rcv_nxt c);;
  wb4 BUF.seqno (snd_nxt c);;
  w8 BUF.proto UIP_PROTO_TCP;;
  w16 BUF.srcport (lport c);;
  w16 BUF.destport (rport c);;
  host ← gets uip_hostaddr;
  wip BUF.srcipaddr host;;
  wip BUF.destipaddr (ripaddr c);;
  (if has (tcpstateflags c) UIP_STOPPED then
     w8 BUF.wnd1 0;;
     w8 BUF.wnd0 0
   else
     w8 BUF.wnd0 (Z.shiftr UIP_RECEIVE_WINDOW 8);;
     w8 BUF.wnd1 (Z.land UIP_RECEIVE_WINDOW 0xff));;
  tcp_send_noconn.

Definition tcp_send_noopts (i : nat) : U unit :=
  w8 BUF.tcpoffset (Z.shiftl (UIP_TCPH_LEN / 4) 4);;
  tcp_send i.

Definition tcp_send_nodata (i : nat) : U unit :=
  set_len UIP_IPTCPH_LEN;;
  tcp_send_noopts i.

Definition tcp_send_ack (i : nat) : U unit :=
  w8 BUF.flags TCP_ACK;;
  tcp_send_nodata i.

Definition tcp_send_finack (i : nat) : U unit :=
  w8 BUF.flags (Z.lor TCP_FIN TCP_ACK);;
  tcp_send_nodata i.

Definition tcp_send_syn (i : nat) : U unit :=
  f ← r8 BUF.flags;
  w8 BUF.flags (Z.lor f TCP_SYN);;
  w8 BUF.optdata TCP_OPT_MSS;;
  w8 (BUF.optdata + 1) TCP_OPT_MSS_LEN;;
  w8 (BUF.optdata + 2) (UIP_TCP_MSS / 256);;
  w8 (BUF.optdata + 3) (Z.land UIP_TCP_MSS 255);;
  set_len (UIP_IPTCPH_LEN + TCP_OPT_MSS_LEN);;
  w8 BUF.tcpoffset (Z.shiftl ((UIP_TCPH_LEN + TCP_OPT_MSS_LEN) / 4) 4);;
  tcp_send i.

Definition tcp_send_synack (i : nat) : U unit :=
  w8 BUF.flags TCP_ACK;;
  tcp_send_syn i.

(** *** After the application ran *)

Definition apprexmit (i : nat) : U unit :=
  upd (λ s, s <| uip_appdata := uip_sappdata s |>);;
  slen ← gets uip_slen;
  c ← connr i;
  if (0 <? slen) && (0 <? len c) then
    set_len (len c + UIP_TCPIP_HLEN);;
    w8 BUF.flags (Z.lor TCP_ACK TCP_PSH);;
    tcp_send_noopts i
  else
    f ← gets uip_flags;
    if has f UIP_NEWDATA then
      set_len UIP_TCPIP_HLEN;;
      w8 BUF.flags TCP_ACK;;
      tcp_send_noopts i
    else drop.

(** What the application may send: at most the MSS of new data, or what is
    already in transit. *)
Definition limit_send (i : nat) (f : Z) : U unit :=
  slen ← gets uip_slen;
  if 0 <? slen then
    (if has f UIP_ACKDATA then connw i (λ c, c <| len := 0 |>) else mret tt);;
    c ← connr i;
    if len c =? 0 then
      (if mss c <? slen then set_slen (mss c) else mret tt);;
      slen ← gets uip_slen;
      connw i (λ c, c <| len := slen |>)
    else set_slen (len c)
  else mret tt.

Definition appsend (i : nat) : U unit :=
  f ← gets uip_flags;
  if has f UIP_ABORT then
    set_slen 0;;
    set_state i UIP_CLOSED;;
    w8 BUF.flags (Z.lor TCP_RST TCP_ACK);;
    tcp_send_nodata i
  else if has f UIP_CLOSE then
    set_slen 0;;
    connw i (λ c, c <| len := 1 |> <| tcpstateflags := UIP_FIN_WAIT_1 |> <| nrtx := 0 |>);;
    w8 BUF.flags (Z.lor TCP_FIN TCP_ACK);;
    tcp_send_nodata i
  else
    limit_send i f;;
    connw i (λ c, c <| nrtx := 0 |>);;
    apprexmit i.

(** *** Answering a segment that belongs to no connection *)

Definition reset : U unit :=
  f ← r8 BUF.flags;
  if has f TCP_RST then drop
  else
    UIP_STAT tcp_rst;;
    w8 BUF.flags (Z.lor TCP_RST TCP_ACK);;
    set_len UIP_IPTCPH_LEN;;
    w8 BUF.tcpoffset (Z.shiftl 5 4);;
    seq ← rb4 BUF.seqno;
    ack ← rb4 BUF.ackno;
    wb4 BUF.seqno ack;;
    wb4 BUF.ackno seq;;
    ack ← rb4 BUF.ackno;
    wb4 BUF.ackno (b4_incr ack);;
    sport ← r16 BUF.srcport;
    dport ← r16 BUF.destport;
    w16 BUF.srcport dport;;
    w16 BUF.destport sport;;
    src ← rip BUF.srcipaddr;
    wip BUF.destipaddr src;;
    host ← gets uip_hostaddr;
    wip BUF.srcipaddr host;;
    tcp_send_noconn.

(** The MSS option of the segment in the buffer, into the connection. *)
Definition parse_options (i : nat) : U unit :=
  off ← r8 BUF.tcpoffset;
  if 0x50 <? Z.land off 0xf0 then
    m ← liftr (λ s, parse_mss mss_fuel (uip_buf s) (Z.shiftl (Z.shiftr off 4 - 5) 2) 0);
    match m with
    | Some v => connw i (λ c, c <| mss := v |> <| initialmss := v |>)
    | None => mret tt
    end
  else mret tt.

(** *** A SYN for a listening port *)

Definition found_listen : U unit :=
  p ← gets (λ s, find_unused 0 None (uip_conns s));
  match p with
  | None => UIP_STAT tcp_syndrop;; drop
  | Some i =>
      upd (λ s, s <| uip_conn := Some i |>);;
      dport ← r16 BUF.destport;
      sport ← r16 BUF.srcport;
      src ← rip BUF.srcipaddr;
      iss ← gets iss;
      seq ← rb4 BUF.seqno;
      connw i (λ c, c <| timer := UIP_RTO |>
                      <| rto := UIP_RTO |>
                      <| sa := 0 |>
                      <| sv := 4 |>
                      <| nrtx := 0 |>
                      <| lport := dport |>
                      <| rport := sport |>
                      <| ripaddr := src |>
                      <| tcpstateflags := UIP_SYN_RCVD |>
                      <| snd_nxt := iss |>
                      <| len := 1 |>
                      <| rcv_nxt := seq |>);;
      uip_add_rcv_nxt 1;;
      parse_options i;;
      tcp_send_synack i
  end.

(** *** A segment for a connection, by the connection's state *)

Definition in_syn_rcvd (i : nat) : U unit :=
  f ← gets uip_flags;
  if has f UIP_ACKDATA then
    set_state i UIP_ESTABLISHED;;
    set_flags UIP_CONNECTED;;
    connw i (λ c, c <| len := 0 |>);;
    n ← gets uip_len;
    (if 0 <? n then or_flags UIP_NEWDATA;; uip_add_rcv_nxt n else mret tt);;
    set_slen 0;;
    UIP_APPCALL;;
    appsend i
  else drop.

Definition in_syn_sent (i : nat) : U unit :=
  f ← gets uip_flags;
  bf ← r8 BUF.flags;
  if has f UIP_ACKDATA && (Z.land bf TCP_CTL =? Z.lor TCP_SYN TCP_ACK) then
    parse_options i;;
    set_state i UIP_ESTABLISHED;;
    seq ← rb4 BUF.seqno;
    connw i (λ c, c <| rcv_nxt := seq |>);;
    uip_add_rcv_nxt 1;;
    set_flags (Z.lor UIP_CONNECTED UIP_NEWDATA);;
    connw i (λ c, c <| len := 0 |>);;
    set_len 0;;
    set_slen 0;;
    UIP_APPCALL;;
    appsend i
  else
    set_flags UIP_ABORT;;
    UIP_APPCALL;;
    j ← deref_conn;
    set_state j UIP_CLOSED;;
    reset.

(** The FIN of an established connection. *)
Definition established_fin (i : nat) : U unit :=
  c ← connr i;
  if uip_outstanding c then drop
  else
    n ← gets uip_len;
    uip_add_rcv_nxt (1 + n);;
    or_flags UIP_CLOSE;;
    (if 0 <? n then or_flags UIP_NEWDATA else mret tt);;
    UIP_APPCALL;;
    connw i (λ c, c <| len := 1 |> <| tcpstateflags := UIP_LAST_ACK |> <| nrtx := 0 |>);;
    tcp_send_finack i.

(** Urgent data is skipped over ([UIP_URGDATA] is 0). *)
Definition skip_urgent : U unit :=
  u0 ← r8 BUF.urgp0;
  u1 ← r8 BUF.urgp1;
  let urgp := Z.lor (Z.shiftl u0 8) u1 in
  upd (λ s, s <| uip_appdata ::= λ p, (p + Z.to_nat urgp)%nat |>);;
  n ← gets uip_len;
  set_len (n - urgp).

Definition in_established (i : nat) : U unit :=
  bf ← r8 BUF.flags;
  c ← connr i;
  if has bf TCP_FIN && negb (has (tcpstateflags c) UIP_STOPPED) then established_fin i
  else
    (if has bf TCP_URG then skip_urgent else mret tt);;
    n ← gets uip_len;
    (if (0 <? n) && negb (has (tcpstateflags c) UIP_STOPPED) then
       or_flags UIP_NEWDATA;;
       uip_add_rcv_nxt n
     else mret tt);;
    w0 ← r8 BUF.wnd0;
    w1 ← r8 BUF.wnd1;
    let tmp16 := wrap16 (Z.shiftl w0 8 + w1) in
    let tmp16 := if (initialmss c <? tmp16) || (tmp16 =? 0) then initialmss c else tmp16 in
    connw i (λ c, c <| mss := tmp16 |>);;
    f ← gets uip_flags;
    if has f (Z.lor UIP_NEWDATA UIP_ACKDATA) then
      set_slen 0;;
      UIP_APPCALL;;
      appsend i
    else drop.

Definition in_last_ack (i : nat) : U unit :=
  f ← gets uip_flags;
  (if has f UIP_ACKDATA then
     set_state i UIP_CLOSED;;
     set_flags UIP_CLOSE;;
     UIP_APPCALL
   else mret tt);;
  drop.

Definition in_fin_wait_1 (i : nat) : U unit :=
  n ← gets uip_len;
  (if 0 <? n then uip_add_rcv_nxt n else mret tt);;
  bf ← r8 BUF.flags;
  f ← gets uip_flags;
  if has bf TCP_FIN then
    (if has f UIP_ACKDATA then
       connw i (λ c, c <| tcpstateflags := UIP_TIME_WAIT |> <| timer := 0 |> <| len := 0 |>)
     else set_state i UIP_CLOSING);;
    uip_add_rcv_nxt 1;;
    set_flags UIP_CLOSE;;
    UIP_APPCALL;;
    tcp_send_ack i
  else if has f UIP_ACKDATA then
    connw i (λ c, c <| tcpstateflags := UIP_FIN_WAIT_2 |> <| len := 0 |>);;
    drop
  else if 0 <? n then tcp_send_ack i
  else drop.

Definition in_fin_wait_2 (i : nat) : U unit :=
  n ← gets uip_len;
  (if 0 <? n then uip_add_rcv_nxt n else mret tt);;
  bf ← r8 BUF.flags;
  if has bf TCP_FIN then
    connw i (λ c, c <| tcpstateflags := UIP_TIME_WAIT |> <| timer := 0 |>);;
    uip_add_rcv_nxt 1;;
    set_flags UIP_CLOSE;;
    UIP_APPCALL;;
    tcp_send_ack i
  else if 0 <? n then tcp_send_ack i
  else drop.

Definition in_closing (i : nat) : U unit :=
  f ← gets uip_flags;
  (if has f UIP_ACKDATA then
     connw i (λ c, c <| tcpstateflags := UIP_TIME_WAIT |> <| timer := 0 |>)
   else mret tt);;
  drop.

(** [switch(uip_connr->tcpstateflags & UIP_TS_MASK)] *)
Definition tcp_state (i : nat) : U unit :=
  c ← connr i;
  let st := Z.land (tcpstateflags c) UIP_TS_MASK in
  if st =? UIP_SYN_RCVD then in_syn_rcvd i
  else if st =? UIP_SYN_SENT then in_syn_sent i
  else if st =? UIP_ESTABLISHED then in_established i
  else if st =? UIP_LAST_ACK then in_last_ack i
  else if st =? UIP_FIN_WAIT_1 then in_fin_wait_1 i
  else if st =? UIP_FIN_WAIT_2 then in_fin_wait_2 i
  else if st =? UIP_TIME_WAIT then tcp_send_ack i
  else if st =? UIP_CLOSING then in_closing i
  else drop.

(** The acknowledgement of everything outstanding. *)
Definition found_ack (i : nat) : U unit :=
  bf ← r8 BUF.flags;
  c ← connr i;
  if has bf TCP_ACK && uip_outstanding c then
    let acc := uip_add32 (snd_nxt c) (len c) in
    ack ← rb4 BUF.ackno;
    if bool_decide (ack = acc) then
      connw i (λ c, rtt_update (c <| snd_nxt := acc |>));;
      set_flags UIP_ACKDATA;;
      connw i (λ c, c <| timer := rto c |> <| len := 0 |>)
    else mret tt
  else mret tt.

(** The segment is not the next one expected. *)
Definition out_of_sequence (c : conn) (bf n : Z) (seq : bytes4) : bool :=
  negb ((Z.land (tcpstateflags c) UIP_TS_MASK =? UIP_SYN_SENT) &&
        (Z.land bf TCP_CTL =? Z.lor TCP_SYN TCP_ACK)) &&
  ((0 <? n) || has bf (Z.lor TCP_SYN TCP_FIN)) &&
  negb (bool_decide (seq = rcv_nxt c)).

Definition found (i : nat) : U unit :=
  upd (λ s, s <| uip_conn := Some i |>);;
  set_flags 0;;
  bf ← r8 BUF.flags;
  if has bf TCP_RST then
    set_state i UIP_CLOSED;;
    set_flags UIP_ABORT;;
    UIP_APPCALL;;
    drop
  else
    off ← r8 BUF.tcpoffset;
    n ← gets uip_len;
    set_len (n - wrap8 (Z.shiftl (Z.shiftr off 4) 2) - UIP_IPH_LEN);;
    n ← gets uip_len;
    c ← connr i;
    seq ← rb4 BUF.seqno;
    if out_of_sequence c bf n seq then tcp_send_ack i
    else
      found_ack i;;
      tcp_state i.

(** *** TCP input *)

Definition conn_matches (dport sport : Z) (src : uip_ipaddr_t) (c : conn) : bool :=
  negb (tcpstateflags c =? UIP_CLOSED) && (dport =? lport c) && (sport =? rport c) &&
  uip_ipaddr_cmp src (ripaddr c).

(** The demultiplexing loop: the index of the first matching connection. *)
Fixpoint demux (dport sport : Z) (src : uip_ipaddr_t) (k : nat) (cs : list conn)
    : option nat :=
  match cs with
  | [] => None
  | c :: cs => if conn_matches dport sport src c then Some k
               else demux dport sport src (S k) cs
  end.

Definition tcp_input : U unit :=
  UIP_STAT tcp_recv;;
  sum ← liftr (λ s, uip_tcpchksum (uip_buf s));
  if negb (sum =? 0xffff) then
    UIP_STAT tcp_drop;;
    UIP_STAT tcp_chkerr;;
    drop
  else
    dport ← r16 BUF.destport;
    sport ← r16 BUF.srcport;
    src ← rip BUF.srcipaddr;
    p ← gets (λ s, demux dport sport src 0 (uip_conns s));
    match p with
    | Some i => found i
    | None =>
        bf ← r8 BUF.flags;
        if negb (Z.land bf TCP_CTL =? TCP_SYN) then reset
        else
          listening ← gets (λ s, existsb (Z.eqb dport) (uip_listenports s));
          if listening : bool then found_listen
          else UIP_STAT tcp_synrst;; reset
    end.

(** *** ICMP echo *)

(** The request in the buffer is made into the reply. *)
Definition icmp_reply : U unit :=
  w8 ICMPBUF.type ICMP_ECHO_REPLY;;
  ck ← r16 ICMPBUF.icmpchksum;
  (if HTONS (0xffff - Z.shiftl ICMP_ECHO 8) <=? ck then
     w16 ICMPBUF.icmpchksum (ck + HTONS (Z.shiftl ICMP_ECHO 8) + 1)
   else
     w16 ICMPBUF.icmpchksum (ck + HTONS (Z.shiftl ICMP_ECHO 8)));;
  src ← rip BUF.srcipaddr;
  wip BUF.destipaddr src;;
  host ← gets uip_hostaddr;
  wip BUF.srcipaddr host;;
  UIP_STAT icmp_sent;;
  send.

Definition icmp_input : U unit :=
  UIP_STAT icmp_recv;;
  ty ← r8 ICMPBUF.type;
  if negb (ty =? ICMP_ECHO) then
    UIP_STAT icmp_drop;;
    UIP_STAT icmp_typeerr;;
    drop
  else icmp_reply.

(** *** IP input *)

Definition ip_demux : U unit :=
  sum ← gets (λ s, uip_ipchksum (uip_buf s));
  if negb (sum =? 0xffff) then
    UIP_STAT ip_drop;;
    UIP_STAT ip_chkerr;;
    drop
  else
    proto ← r8 BUF.proto;
    if proto =? UIP_PROTO_TCP then tcp_input
    else if negb (proto =? UIP_PROTO_ICMP) then
      UIP_STAT ip_drop;;
      UIP_STAT ip_protoerr;;
      drop
    else icmp_input.

(** The header checks; [k] is what follows them. *)
Definition ip_header (k : U unit) : U unit :=
  UIP_STAT ip_recv;;
  vhl ← r8 BUF.vhl;
  if negb (vhl =? 0x45) then
    UIP_STAT ip_drop;;
    UIP_STAT ip_vhlerr;;
    drop
  else
    l ← gets (λ s, iplen (uip_buf s));
    n ← gets uip_len;
    if negb (l <=? n) then drop
    else
      set_len l;;
      o0 ← r8 BUF.ipoffset0;
      o1 ← r8 BUF.ipoffset1;
      if has o0 0x3f || negb (o1 =? 0) then
        UIP_STAT ip_drop;;
        UIP_STAT ip_fragerr;;
        drop
      else k.

(** Is the packet for this host?  A host without an address takes all. *)
Definition ip_dest : U unit :=
  host ← gets uip_hostaddr;
  dst ← rip BUF.destipaddr;
  if negb (uip_ipaddr_cmp host all_zeroes_addr) && negb (uip_ipaddr_cmp dst host) then
    UIP_STAT ip_drop;;
    drop
  else ip_demux.

Definition ip_input : U unit := ip_header ip_dest.

(** *** The periodic timer *)

Definition rexmit (i : nat) : U unit :=
  c ← connr i;
  let st := tcpstateflags c in
  if (nrtx c =? UIP_MAXRTX) ||
     (((st =? UIP_SYN_SENT) || (st =? UIP_SYN_RCVD)) && (nrtx c =? UIP_MAXSYNRTX)) then
    set_state i UIP_CLOSED;;
    set_flags UIP_TIMEDOUT;;
    UIP_APPCALL;;
    w8 BUF.flags (Z.lor TCP_RST TCP_ACK);;
    tcp_send_nodata i
  else
    connw i (λ c, c <| timer := wrap8 (Z.shiftl UIP_RTO (if 4 <? nrtx c then 4 else nrtx c)) |>
                    <| nrtx := wrap8 (nrtx c + 1) |>);;
    UIP_STAT tcp_rexmit;;
    let st := Z.land st UIP_TS_MASK in
    if st =? UIP_SYN_RCVD then tcp_send_synack i
    else if st =? UIP_SYN_SENT then w8 BUF.flags 0;; tcp_send_syn i
    else if st =? UIP_ESTABLISHED then
      set_flags UIP_REXMIT;;
      UIP_APPCALL;;
      apprexmit i
    else if (st =? UIP_FIN_WAIT_1) || (st =? UIP_CLOSING) || (st =? UIP_LAST_ACK) then
      tcp_send_finack i
    else drop.

Definition timer_fired (i : nat) : U unit :=
  upd (λ s, s <| iss ::= b4_incr |>);;
  set_len 0;;
  set_slen 0;;
  c ← connr i;
  let st := tcpstateflags c in
  if (st =? UIP_TIME_WAIT) || (st =? UIP_FIN_WAIT_2) then
    connw i (λ c, c <| timer := wrap8 (timer c + 1) |>);;
    c ← connr i;
    (if timer c =? UIP_TIME_WAIT_TIMEOUT then set_state i UIP_CLOSED else mret tt);;
    drop
  else if negb (st =? UIP_CLOSED) then
    if uip_outstanding c then
      connw i (λ c, c <| timer := wrap8 (timer c - 1) |>);;
      if timer c =? 0 then rexmit i else drop
    else if Z.land st UIP_TS_MASK =? UIP_ESTABLISHED then
      set_flags UIP_POLL;;
      UIP_APPCALL;;
      appsend i
    else drop
  else drop.

(** *** The poll request *)

Definition poll_request (i : nat) : U unit :=
  c ← connr i;
  if (Z.land (tcpstateflags c) UIP_TS_MASK =? UIP_ESTABLISHED) && negb (uip_outstanding c) then
    set_flags UIP_POLL;;
    UIP_APPCALL;;
    appsend i
  else drop.

Definition uip_process (flag : Z) : U unit :=
  upd (λ s, s <| uip_appdata := 54%nat |> <| uip_sappdata := 54%nat |>);;
  if flag =? UIP_POLL_REQUEST then
    i ← deref_conn;
    poll_request i
  else if flag =? UIP_TIMER then
    i ← deref_conn;
    timer_fired i
  else ip_input.

Definition uip_input : U unit := uip_process UIP_DATA.
Definition uip_periodic (i : nat) : U unit :=
  upd (λ s, s <| uip_conn := Some i |>);; uip_process UIP_TIMER.
Definition uip_poll_conn (i : nat) : U unit :=
  upd (λ s, s <| uip_conn := Some i |>);; uip_process UIP_POLL_REQUEST.

(** *** The application's side *)

(** [uip_send(data, len)]: [data] is the object the pointer points to. *)
Definition uip_send (data : list Z) (n : Z) : U unit :=
  if 0 <? n then
    set_slen n;;
    slen ← gets uip_slen;
    p ← gets uip_sappdata;
    size ← gets (λ s, length (uip_buf s));
    let k := Z.to_nat slen in
    if (k <=? length data)%nat && (p + k <=? size)%nat then
      bufw (put_bytes p (take k data))
    else fail OutOfBounds
  else mret tt.
End process.
