(* ===== verification/PacketSum.v ===== *)
(** * Checksums of the packet in the buffer

    How the IP and TCP checksums react to writes of header fields: filling
    the zeroed checksum field with the complement of the sum makes the packet
    verify, and writes outside the summed bytes leave the sum alone. *)

From S2P Require Import Prelude Bytes Checksum UipState Uip.

(** What [uip_ipchksum] and [upper_layer_chksum] make of the sum. *)
Definition fold_sum (x : Z) : Z := if x =? 0 then 0xffff else HTONS x.

(** The sum [upper_layer_chksum] computes, pseudo header included. *)
Definition upper_sum (proto : Z) (b : list Z) : Z :=
  wrap16 (upper_layer_len b + proto) + wsum (slice BUF.srcipaddr 8 b) +
  wsum (slice 34 (Z.to_nat (upper_layer_len b)) b).

Lemma oc_ffff x : 0 < x → x mod 65535 = 0 → oc x = 0xffff.
Proof. intros ? Hm. unfold oc. case_match; dlia. Qed.
Lemma oc_ffff_inv x : 0 ≤ x → oc x = 0xffff → 0 < x ∧ x mod 65535 = 0.
Proof. intros Hx. unfold oc. case_match; dlia. Qed.

Lemma HTONS_lnot x : is_u16 x → HTONS (Z.lnot (HTONS x)) = 65535 - x.
Proof.
  intros Hx. pose proof (HTONS_u16 x) as Hs. unfold HTONS at 1.
  assert (wrap16 (Z.lnot (HTONS x)) = 65535 - HTONS x) as E.
  { unfold Z.lnot, wrap16, is_u16 in *. dlia. }
  rewrite E, <- (wrap16_id (65535 - HTONS x)) by (unfold is_u16 in *; lia).
  fold (HTONS (65535 - HTONS x)). rewrite HTONS_swap by (unfold is_u16 in *; lia).
  rewrite HTONS_swap by done. unfold is_u16 in Hx. dlia.
Qed.

(** ** Sums of words under writes *)

Lemma wsum_put8 l o v :
  (o < length l)%nat →
  wsum (put8 o v l) = wsum l + (if Nat.even o then 256 else 1) * (wrap8 v - u8 l o).
Proof.
  unfold put8, u8. revert o. induction l as [|x|x y l IH] using list_ind2; intros o Ho.
  - cbn in Ho. lia.
  - destruct o as [|o]; cbn -[wrap8 Z.mul] in *; [lia|lia].
  - destruct o as [|[|o]]; [cbn -[wrap8 Z.mul]; lia|cbn -[wrap8 Z.mul]; lia|].
    cbn [length] in Ho. cbn -[wrap8 Z.mul lookup_total].
    change (list_insert o (wrap8 v) l) with (<[o := wrap8 v]> l).
    rewrite IH by lia. change ((x :: y :: l) !!! S (S o)) with (l !!! o). lia.
Qed.

Lemma wsum_put16 l o v :
  Nat.even o = true → (S o < length l)%nat →
  wsum (put16 o v l) = wsum l + HTONS v - be16 l o.
Proof.
  intros He Ho. unfold put16. rewrite wsum_put8 by (rewrite length_put8; lia).
  rewrite wsum_put8 by lia. rewrite u8_put8_ne by lia.
  rewrite Nat.even_succ, <- Nat.negb_even, He. cbn [negb].
  unfold be16. pose proof (wrap16_u16 v) as Hv.
  assert (HTONS v = HTONS (wrap16 v)) as ->.
  { unfold HTONS. by rewrite (wrap16_id (wrap16 v)). }
  rewrite HTONS_swap by done. unfold is_u16 in Hv. set (w := wrap16 v) in *.
  clearbody w. unfold wrap8. dlia.
Qed.

Lemma be16_slice o n k b : (k + 1 < n)%nat → be16 (slice o n b) k = be16 b (o + k).
Proof.
  intros. unfold be16, u8, slice. rewrite !list_lookup_total_alt.
  rewrite !lookup_take_lt, !lookup_drop by lia. do 3 f_equal. f_equal. lia.
Qed.

Lemma fold_sum_ffff x : is_u16 x → fold_sum x = 0xffff ↔ x = 0 ∨ x = 0xffff.
Proof.
  intros Hx. unfold fold_sum. destruct (Z.eqb_spec x 0) as [->|]; [by split; auto|].
  split; [|intros [?|?]; by subst].
  intros He. right. apply HTONS_inj; [done|done|]. by rewrite He.
Qed.

(** Completing a sum with the complement of its folded value. *)
Lemma fold_sum_complete S :
  0 ≤ S → fold_sum (oc (S + HTONS (Z.lnot (fold_sum (oc S))))) = 0xffff.
Proof.
  intros HS. apply fold_sum_ffff; [apply oc_bound; pose proof (HTONS_u16 (Z.lnot (fold_sum (oc S)))) as []; lia|].
  unfold fold_sum. destruct (Z.eqb_spec (oc S) 0) as [E|E].
  - left. assert (S = 0) as -> by (revert E; unfold oc; case_match; dlia). done.
  - right. rewrite HTONS_lnot by by apply oc_bound. apply oc_ffff.
    + pose proof (oc_bound S HS). unfold is_u16 in *. assert (S ≠ 0) by (intros ->; done). lia.
    + revert E. unfold oc. case_match; dlia.
Qed.

(** ** The IP header *)

Lemma uip_ipchksum_oc b : bytes b → uip_ipchksum b = fold_sum (oc (wsum (slice 14 20 b))).
Proof.
  intros Hb. unfold uip_ipchksum, UIP_LLH_LEN.
  by rewrite chksum_spec by (auto with width; done).
Qed.

(** Filling the zeroed checksum field. *)
Lemma ipchksum_fill b :
  bytes b → (34 ≤ length b)%nat → u16 b BUF.ipchksum = 0 →
  uip_ipchksum (put16 BUF.ipchksum (Z.lnot (uip_ipchksum b)) b) = 0xffff.
Proof.
  intros Hb Hl Hz. rewrite !uip_ipchksum_oc by auto with width.
  rewrite slice_put16_in by offsets.
  rewrite wsum_put16 by first [done | rewrite length_slice by lia; cbv; lia].
  rewrite be16_slice by offsets.
  assert (be16 b (14 + (BUF.ipchksum - 14)) = 0) as ->.
  { change (14 + (BUF.ipchksum - 14))%nat with BUF.ipchksum.
    pose proof (u8_bytes b BUF.ipchksum Hb). pose proof (u8_bytes b (S BUF.ipchksum) Hb).
    unfold u16, be16, is_u8 in *. lia. }
  rewrite Z.sub_0_r. apply fold_sum_complete. by apply wsum_nonneg, slice_bytes.
Qed.

(** ** The TCP segment *)

Lemma upper_layer_chksum_oc proto b :
  bytes b → (34 + Z.to_nat (upper_layer_len b) ≤ length b)%nat →
  upper_layer_chksum proto b = Ok (fold_sum (oc (upper_sum proto b))).
Proof.
  intros Hb Hl. unfold upper_layer_chksum, upper_sum.
  rewrite (proj2 (Nat.leb_le _ _)) by done.
  pose proof (wrap16_u16 (upper_layer_len b + proto)) as Hw.
  assert (0 ≤ wsum (slice BUF.srcipaddr 8 b)) by by apply wsum_nonneg, slice_bytes.
  assert (0 ≤ wsum (slice 34 (Z.to_nat (upper_layer_len b)) b)) by by apply wsum_nonneg, slice_bytes.
  assert (0 ≤ wrap16 (upper_layer_len b + proto)) by apply Hw.
  rewrite !chksum_spec by (auto with width || (apply oc_bound; lia)).
  by rewrite oc_add by lia.
Qed.

Lemma upper_sum_nonneg proto b : bytes b → 0 ≤ upper_sum proto b.
Proof.
  intros Hb. unfold upper_sum. pose proof (wrap16_u16 (upper_layer_len b + proto)) as [? _].
  pose proof (wsum_nonneg _ (slice_bytes BUF.srcipaddr 8 b Hb)).
  pose proof (wsum_nonneg _ (slice_bytes 34 (Z.to_nat (upper_layer_len b)) b Hb)). lia.
Qed.

(** A checksum field [o] of the segment, zero so far, is filled in; UDP writes
    0xffff for a zero, which leaves the sum as it is. *)
Lemma upper_chksum_fill proto o b sum v :
  bytes b → (34 ≤ o)%nat → Nat.even (o - 34) = true → (Z.of_nat o + 2 ≤ 34 + upper_layer_len b) → u16 b o = 0 →
  upper_layer_chksum proto b = Ok sum → v = Z.lnot sum ∨ sum = 0xffff ∧ v = 0xffff →
  upper_layer_chksum proto (put16 o v b) = Ok 0xffff.
Proof.
  intros Hb Ho He Hn Hz Hs Hv. set (b' := put16 _ _ b).
  assert (Hl : (34 + Z.to_nat (upper_layer_len b) ≤ length b)%nat).
  { revert Hs. unfold upper_layer_chksum. cbv zeta. case_match eqn:E; [|done]. by apply Nat.leb_le in E. }
  assert (Hn' : upper_layer_len b' = upper_layer_len b).
  { unfold upper_layer_len, iplen, b'. rewrite !u8_put16_ne by (unfold BUF.len0, BUF.len1; lia). done. }
  rewrite upper_layer_chksum_oc in Hs by done. injection Hs as <-.
  rewrite upper_layer_chksum_oc.
  2:{ unfold b'. auto with width. }
  2:{ rewrite Hn'. unfold b'. by buf_len. }
  f_equal. unfold upper_sum at 1. rewrite Hn'. unfold b'.
  rewrite slice_put16_ne by (unfold BUF.srcipaddr; lia). rewrite slice_put16_in by lia.
  rewrite wsum_put16 by first [done | rewrite length_slice by lia; lia].
  rewrite be16_slice by lia. replace (34 + (o - 34))%nat with o by lia.
  assert (be16 b o = 0) as ->.
  { pose proof (u8_bytes b o Hb). pose proof (u8_bytes b (S o) Hb). unfold u16, be16, is_u8 in *. lia. }
  rewrite Z.sub_0_r, Z.add_assoc. fold (upper_sum proto b). pose proof (upper_sum_nonneg proto b Hb) as Hpos.
  destruct Hv as [->|[Hv ->]]; [by apply fold_sum_complete|]. apply fold_sum_ffff; [apply oc_bound; change (HTONS 65535) with 65535; lia|].
  right. change (HTONS 65535) with 65535. apply oc_ffff; [lia|].
  apply fold_sum_ffff in Hv; [|by apply oc_bound]. revert Hv. unfold oc. case_match; dlia.
Qed.

Lemma tcpchksum_fill b sum :
  bytes b → (20 ≤ upper_layer_len b) → u16 b BUF.tcpchksum = 0 →
  uip_tcpchksum b = Ok sum → uip_tcpchksum (put16 BUF.tcpchksum (Z.lnot sum) b) = Ok 0xffff.
Proof. intros. apply (upper_chksum_fill _ BUF.tcpchksum b sum); try done; [offsets|unfold BUF.tcpchksum; lia|by left]. Qed.

(** Writes to the IP header's other fields. *)
Definition tcp_blind (o : nat) : Prop := (o < 16 ∨ 17 < o < 26)%nat.

Lemma upper_chksum_put8 proto o v b : tcp_blind o → upper_layer_chksum proto (put8 o v b) = upper_layer_chksum proto b.
Proof.
  intros Ho. unfold upper_layer_chksum, upper_layer_len, iplen.
  unfold tcp_blind in Ho. rewrite !u8_put8_ne by (unfold BUF.len0, BUF.len1; lia).
  by rewrite length_put8, !slice_put8_ne by (unfold BUF.srcipaddr; lia).
Qed.
Lemma upper_chksum_put16 proto o v b :
  tcp_blind o → tcp_blind (S o) → upper_layer_chksum proto (put16 o v b) = upper_layer_chksum proto b.
Proof. intros. unfold put16. by rewrite !upper_chksum_put8. Qed.

Lemma tcpchksum_put8 o v b : tcp_blind o → uip_tcpchksum (put8 o v b) = uip_tcpchksum b.
Proof. apply upper_chksum_put8. Qed.
Lemma tcpchksum_put16 o v b :
  tcp_blind o → tcp_blind (S o) → uip_tcpchksum (put16 o v b) = uip_tcpchksum b.
Proof. apply upper_chksum_put16. Qed.

(** ** The ICMP echo reply *)

(** Exchanging the addresses keeps the IP header's sum. *)
Lemma ipchksum_swap b :
  bytes b → (34 ≤ length b)%nat →
  uip_ipchksum (put_ip BUF.srcipaddr (get_ip b BUF.destipaddr)
                 (put_ip BUF.destipaddr (get_ip b BUF.srcipaddr) b)) = uip_ipchksum b.
Proof.
  intros Hb Hl. rewrite !uip_ipchksum_oc by auto with width. do 2 f_equal.
  unfold put_ip, get_ip. cbn [fst snd].
  rewrite !slice_put16_in by offsets.
  rewrite !wsum_put16 by first [done | rewrite ?length_put16, length_slice by lia; cbv; lia].
  unfold be16. rewrite !u8_put16_ne by offsets.
  fold (be16 (slice 14 20 b) (BUF.srcipaddr - 14)) (be16 (slice 14 20 b) (BUF.srcipaddr + 2 - 14))
    (be16 (slice 14 20 b) (BUF.destipaddr - 14)) (be16 (slice 14 20 b) (BUF.destipaddr + 2 - 14)).
  rewrite !be16_slice by offsets. rewrite !u16_be16 by done.
  rewrite !HTONS_involutive by (unfold be16; apply word_u16; by apply u8_bytes).
  unfold BUF.srcipaddr, BUF.destipaddr. cbn [Nat.add Nat.sub]. lia.
Qed.

Lemma ipchksum_put8 o v b : (34 ≤ o)%nat → uip_ipchksum (put8 o v b) = uip_ipchksum b.
Proof. intros. unfold uip_ipchksum. by rewrite slice_put8_ne by (unfold UIP_LLH_LEN; lia). Qed.
Lemma ipchksum_put16 o v b : (34 ≤ o)%nat → uip_ipchksum (put16 o v b) = uip_ipchksum b.
Proof. intros. unfold put16. by rewrite !ipchksum_put8 by lia. Qed.

(** The checksum field of the reply, from that of the request. *)
Definition echo_chksum (ck : Z) : Z :=
  if HTONS (0xffff - Z.shiftl ICMP_ECHO 8) <=? ck
  then ck + HTONS (Z.shiftl ICMP_ECHO 8) + 1 else ck + HTONS (Z.shiftl ICMP_ECHO 8).

(** The buffer with the ICMP message turned into the reply. *)
Definition echo_msg (b : list Z) : list Z :=
  put16 ICMPBUF.icmpchksum (echo_chksum (u16 b ICMPBUF.icmpchksum))
    (put8 ICMPBUF.type ICMP_ECHO_REPLY b).

Lemma HTONS_mod x : is_u16 x → HTONS x = 256 * x - 65535 * (x / 256).
Proof. intros Hx. rewrite HTONS_swap by done. unfold is_u16 in Hx. dlia. Qed.

Lemma HTONS_wrap x : HTONS x = HTONS (wrap16 x).
Proof. unfold HTONS. by rewrite (wrap16_id (wrap16 x)) by apply wrap16_u16. Qed.

(** Subtracting the type from the message is made up by the new checksum. *)
Lemma echo_chksum_mod ck :
  is_u16 ck → (HTONS (echo_chksum ck) - HTONS ck - 2048) mod 65535 = 0.
Proof.
  intros Hck. rewrite HTONS_wrap, (HTONS_mod ck), HTONS_mod by (done || apply wrap16_u16).
  assert (∃ k, wrap16 (echo_chksum ck) = ck + 8 - 65535 * k) as [k ->].
  { unfold echo_chksum. change (HTONS (0xffff - Z.shiftl ICMP_ECHO 8)) with 65527.
    change (HTONS (Z.shiftl ICMP_ECHO 8)) with 8. unfold wrap16, is_u16 in *.
    destruct (Z.leb_spec 65527 ck); [exists 1|exists 0]; dlia. }
  match goal with |- ?x mod _ = 0 => replace x with
    ((ck / 256 - (ck + 8 - 65535 * k) / 256 - 256 * k) * 65535) by ring end.
  by apply Z.mod_mul.
Qed.

Lemma echo_msg_sum n b :
  bytes b → (4 ≤ n)%nat → (34 + n ≤ length b)%nat → u8 b ICMPBUF.type = ICMP_ECHO →
  wsum (slice 34 n (echo_msg b)) mod 65535 = wsum (slice 34 n b) mod 65535.
Proof.
  intros Hb Hn Hl Ht. unfold echo_msg. rewrite slice_put16_in, slice_put8_in by offsets.
  rewrite wsum_put16 by first [done | rewrite ?length_put8, length_slice by lia; unfold ICMPBUF.icmpchksum; lia].
  rewrite wsum_put8 by (rewrite length_slice by lia; unfold ICMPBUF.type; lia).
  unfold be16. rewrite !u8_put8_ne by offsets. fold (be16 (slice 34 n b) (ICMPBUF.icmpchksum - 34)).
  rewrite be16_slice by (unfold ICMPBUF.icmpchksum; lia).
  assert (u8 (slice 34 n b) (ICMPBUF.type - 34) = ICMP_ECHO) as ->.
  { rewrite <- Ht. unfold u8, slice. rewrite !list_lookup_total_alt, lookup_take_lt by (unfold ICMPBUF.type; lia).
    by rewrite lookup_drop. }
  change (34 + (ICMPBUF.icmpchksum - 34))%nat with ICMPBUF.icmpchksum.
  pose proof (u16_bytes b ICMPBUF.icmpchksum Hb) as Hck.
  pose proof (echo_chksum_mod _ Hck) as Hm.
  assert (HTONS (u16 b ICMPBUF.icmpchksum) = be16 b ICMPBUF.icmpchksum) as E.
  { rewrite u16_be16 by done. apply HTONS_involutive. unfold be16. apply word_u16; by apply u8_bytes. }
  rewrite E in Hm. change (if Nat.even (ICMPBUF.type - 34) then 256 else 1) with 256.
  change (wrap8 ICMP_ECHO_REPLY) with 0. change ICMP_ECHO with 8. set (h := HTONS (echo_chksum _)) in *. clearbody h. dlia.
Qed.

(** The reply verifies by the stack's own rule ([fold_sum]) when the request
    does. *)
Lemma echo_msg_valid n b :
  bytes b → (4 ≤ n)%nat → (34 + n ≤ length b)%nat → u8 b ICMPBUF.type = ICMP_ECHO →
  chksum 0 (slice 34 n b) = 0xffff →
  fold_sum (chksum 0 (slice 34 n (echo_msg b))) = 0xffff ∧
  (wsum (slice 34 n (echo_msg b)) ≠ 0 → chksum 0 (slice 34 n (echo_msg b)) = 0xffff).
Proof.
  intros Hb Hn Hl Ht. assert (Hb' : bytes (echo_msg b)) by (unfold echo_msg; auto with width).
  pose proof (wsum_nonneg _ (slice_bytes 34 n _ Hb)) as H0.
  pose proof (wsum_nonneg _ (slice_bytes 34 n _ Hb')) as H1.
  rewrite !chksum_spec by (auto with width; done). rewrite !Z.add_0_l.
  intros [Hp Hm]%oc_ffff_inv; [|done]. rewrite <- (echo_msg_sum n b) in Hm by done.
  assert (Hv : wsum (slice 34 n (echo_msg b)) ≠ 0 → oc (wsum (slice 34 n (echo_msg b))) = 0xffff)
    by (intros; apply oc_ffff; [lia|done]).
  split; [|done]. apply fold_sum_ffff; [by apply oc_bound|].
  destruct (decide (wsum (slice 34 n (echo_msg b)) = 0)) as [E|E]; [left; by rewrite E|right; auto].
Qed.
