(* ===== verification/UipInv.v ===== *)
(** * Invariants of the uIP stack

    One pass over [uip_process] proves, for every application that keeps the
    contract [UipAppLaws], that a call keeps the types of the globals, keeps
    every segment size within the packet buffer, touches at most one
    connection, moves that connection only along the edges of the TCP state
    diagram, and accesses no memory outside its objects on a sane packet. *)

From S2P Require Import Prelude Bytes Checksum UipState Uip PacketSum.

(** ** What a packet says to a connection

    [for_conn]: the packet [b] is from the peer of connection [c] and to its
    port.  [heard]: and its checksum verifies.  [acks]: it acknowledges exactly
    what is outstanding.  [next_seg]: it starts at the next byte expected, or
    it is the answer to the connection's SYN. *)

Definition for_conn (b : list Z) (c : conn) : Prop :=
  tcpstateflags c ≠ UIP_CLOSED ∧ u16 b BUF.destport = lport c ∧
  u16 b BUF.srcport = rport c ∧ get_ip b BUF.srcipaddr = ripaddr c.

Lemma conn_matches_spec b c :
  conn_matches (u16 b BUF.destport) (u16 b BUF.srcport) (get_ip b BUF.srcipaddr) c = true ↔
  for_conn b c.
Proof.
  unfold conn_matches, for_conn.
  rewrite !andb_true_iff, negb_true_iff, Z.eqb_neq, !Z.eqb_eq, uip_ipaddr_cmp_eq. tauto.
Qed.

Definition heard (b : list Z) (c : conn) : Prop :=
  for_conn b c ∧ uip_tcpchksum b = Ok 0xffff.

Definition acks (b : list Z) (c : conn) : Prop :=
  has (u8 b BUF.flags) TCP_ACK = true ∧ uip_outstanding c = true ∧
  get_b4 b BUF.ackno = uip_add32 (snd_nxt c) (len c).

Definition synack (b : list Z) : Prop :=
  Z.land (u8 b BUF.flags) TCP_CTL = Z.lor TCP_SYN TCP_ACK.

Definition next_seg (b : list Z) (c : conn) : Prop :=
  get_b4 b BUF.seqno = rcv_nxt c ∨ (tcpstateflags c = UIP_SYN_SENT ∧ synack b).

Definition fin (b : list Z) (c : conn) : Prop :=
  has (u8 b BUF.flags) TCP_FIN = true ∧ next_seg b c.

(** The connections [found_listen] and [uip_connect] take: [find_unused] returns a connection that is CLOSED or in TIME_WAIT. *)
Definition unused (c : conn) : Prop :=
  tcpstateflags c = UIP_CLOSED ∨ tcpstateflags c = UIP_TIME_WAIT.

Lemma find_unused_sound l k best cs i :
  skipn k l = cs → (∀ j c, best = Some (j, c) → l !! j = Some c ∧ unused c) →
  find_unused k best cs = Some i → ∃ c, l !! i = Some c ∧ unused c.
Proof.
  revert k best. induction cs as [|x cs IH]; intros k best Hd Hb; cbn -[Z.eqb].
  { destruct best as [[j c]|]; [|done]. cbn. intros [= <-]. by eauto. }
  assert (Hx : l !! k = Some x).
  { pose proof (lookup_drop l k 0) as Hx. by rewrite Hd, Nat.add_0_r in Hx. }
  assert (Hd' : skipn (S k) l = cs).
  { rewrite (drop_S l x k Hx) in Hd. by injection Hd. }
  destruct (Z.eqb_spec (tcpstateflags x) UIP_CLOSED).
  { intros [= <-]. exists x. unfold unused. auto. }
  destruct (Z.eqb_spec (tcpstateflags x) UIP_TIME_WAIT); [|by apply IH].
  assert (Hk : ∀ j c, Some (k, x) = Some (j, c) → l !! j = Some c ∧ unused c).
  { intros j c [= <- <-]. unfold unused. auto. }
  destruct best as [[j y]|]; [case_match|]; by apply IH.
Qed.

(** ** The TCP state diagram

    What one call with flag [flag] may do to connection [i], [s] and [a] being
    the globals and the application's state when it starts.  A packet reaches
    the first connection it is for; the timer and the poll reach the connection
    that was selected. *)

Definition is_packet (flag : Z) : Prop := flag ≠ UIP_POLL_REQUEST ∧ flag ≠ UIP_TIMER.

Definition addressed (flag : Z) (s : uip) (i : nat) : Prop :=
  is_packet flag ∧ heard (uip_buf s) (uip_conns s !!! i) ∧
  ∀ j, (j < i)%nat → ¬ for_conn (uip_buf s) (uip_conns s !!! j).

Definition segment (flag : Z) (s : uip) (i : nat) : Prop :=
  addressed flag s i ∧ has (u8 (uip_buf s) BUF.flags) TCP_RST = false.

Definition ticked (flag : Z) (s : uip) (i : nat) : Prop :=
  flag = UIP_TIMER ∧ uip_conn s = Some i.

(** The application, in state [a], returns from a call with flag [f] set that
    was clear. *)
Definition asks {A} `{UipApp A} (a : A) (f : Z) : Prop :=
  ∃ s s' a', UIP_APPCALL (s, a) = Ok (tt, (s', a')) ∧
             has (uip_flags s) f = false ∧ has (uip_flags s') f = true.

(** The connection is established, or becomes so by this packet, and the
    application is called and may close it. *)
Inductive app_called (flag : Z) (s : uip) (i : nat) (c := uip_conns s !!! i) : Prop :=
  | called_polled :
      tcpstateflags c = UIP_ESTABLISHED → ¬ is_packet flag → uip_conn s = Some i →
      uip_outstanding c = false → app_called flag s i
  | called_segment :
      tcpstateflags c = UIP_ESTABLISHED → segment flag s i → app_called flag s i
  | called_syn_acked :
      tcpstateflags c = UIP_SYN_RCVD → segment flag s i → acks (uip_buf s) c →
      app_called flag s i
  | called_synack_got :
      tcpstateflags c = UIP_SYN_SENT → segment flag s i → acks (uip_buf s) c →
      synack (uip_buf s) → app_called flag s i.

Inductive tcp_next {A} `{UipApp A} (flag : Z) (s : uip) (a : A) (i : nat)
    (b := uip_buf s) (c := uip_conns s !!! i) : Z → Prop :=
  | next_stay : tcp_next flag s a i (tcpstateflags c)
  (* opening *)
  | next_passive_open :
      is_packet flag → uip_tcpchksum b = Ok 0xffff →
      (∀ j, (j < UIP_CONNS)%nat → ¬ for_conn b (uip_conns s !!! j)) →
      u16 b BUF.destport ∈ uip_listenports s → Z.land (u8 b BUF.flags) TCP_CTL = TCP_SYN →
      unused c → tcp_next flag s a i UIP_SYN_RCVD
  | next_syn_acked :
      tcpstateflags c = UIP_SYN_RCVD → segment flag s i → acks b c →
      tcp_next flag s a i UIP_ESTABLISHED
  | next_synack_got :
      tcpstateflags c = UIP_SYN_SENT → segment flag s i → acks b c → synack b →
      tcp_next flag s a i UIP_ESTABLISHED
  (* the application closes or aborts *)
  | next_close : app_called flag s i → asks a UIP_CLOSE → tcp_next flag s a i UIP_FIN_WAIT_1
  | next_abort : app_called flag s i → asks a UIP_ABORT → tcp_next flag s a i UIP_CLOSED
  (* the peer closes *)
  | next_peer_close :
      tcpstateflags c = UIP_ESTABLISHED → segment flag s i → fin b c →
      uip_outstanding c = false ∨ acks b c → tcp_next flag s a i UIP_LAST_ACK
  | next_fin_acked :
      tcpstateflags c = UIP_FIN_WAIT_1 → segment flag s i → acks b c →
      tcp_next flag s a i UIP_FIN_WAIT_2
  | next_both_close :
      tcpstateflags c = UIP_FIN_WAIT_1 → segment flag s i → fin b c → ¬ acks b c →
      tcp_next flag s a i UIP_CLOSING
  | next_fin_fin_acked :
      tcpstateflags c = UIP_FIN_WAIT_1 → segment flag s i → acks b c → fin b c →
      tcp_next flag s a i UIP_TIME_WAIT
  | next_fin2_fin :
      tcpstateflags c = UIP_FIN_WAIT_2 → segment flag s i → fin b c →
      tcp_next flag s a i UIP_TIME_WAIT
  | next_closing_acked :
      tcpstateflags c = UIP_CLOSING → segment flag s i → acks b c →
      tcp_next flag s a i UIP_TIME_WAIT
  (* the connection is gone *)
  | next_last_acked :
      tcpstateflags c = UIP_LAST_ACK → segment flag s i → acks b c →
      tcp_next flag s a i UIP_CLOSED
  | next_refused :
      tcpstateflags c = UIP_SYN_SENT → segment flag s i → ¬ (acks b c ∧ synack b) →
      tcp_next flag s a i UIP_CLOSED
  | next_reset :
      addressed flag s i → has (u8 b BUF.flags) TCP_RST = true → tcp_next flag s a i UIP_CLOSED
  | next_wait_over :
      ticked flag s i → tcpstateflags c = UIP_TIME_WAIT ∨ tcpstateflags c = UIP_FIN_WAIT_2 →
      timer c = UIP_TIME_WAIT_TIMEOUT - 1 → tcp_next flag s a i UIP_CLOSED
  | next_given_up :
      ticked flag s i →
      tcpstateflags c ∉ [UIP_CLOSED; UIP_TIME_WAIT; UIP_FIN_WAIT_2] →
      uip_outstanding c = true → timer c = 0 →
      nrtx c = UIP_MAXRTX ∨
        (tcpstateflags c ∈ [UIP_SYN_SENT; UIP_SYN_RCVD] ∧ nrtx c = UIP_MAXSYNRTX) →
      tcp_next flag s a i UIP_CLOSED.
Create HintDb tcp.
#[export] Hint Constructors tcp_next : tcp.

(** What one call may do to the sequence numbers of a connection that is not
    reopened: [snd_nxt] moves only over what was sent, when it is
    acknowledged, and [rcv_nxt] only on the segment that is expected (or on one
    with urgent data, whose length is not checked). *)
Definition seq_ok (b : list Z) (c : conn) (snd rcv : bytes4) : Prop :=
  unused c ∨
  ((snd = snd_nxt c ∨ (heard b c ∧ acks b c ∧ snd = uip_add32 (snd_nxt c) (len c))) ∧
   (rcv = rcv_nxt c ∨ (heard b c ∧ (next_seg b c ∨ has (u8 b BUF.flags) TCP_URG = true)))).

(** ** The invariant *)

Record good_conn (c : conn) : Prop := {
  gc_wf : wf_conn c;
  gc_state : 0 ≤ tcpstateflags c ≤ 8;
  gc_initialmss : initialmss c ≤ UIP_TCP_MSS;
  gc_mss : mss c ≤ UIP_TCP_MSS;
  gc_len : len c ≤ UIP_TCP_MSS
}.

Record inv_uip (s : uip) : Prop := {
  inv_wf : wf_uip s;
  inv_conns : Forall good_conn (uip_conns s)
}.

(** The globals no call of [uip_process] changes. *)
Definition static (s : uip) :=
  (uip_listenports s, lastport s, uip_hostaddr s, uip_draddr s, uip_netmask s, uip_ethaddr s).

(** ** The contract of the application

    [app_wf] is the types of the application's own globals and [app_inv] what
    it relies on besides them.  The application may change only [uip_flags], [uip_slen] and, past the
    headers, [uip_buf]; on a call where [uip_appdata] and [uip_sappdata] are at
    the payload and new data lies within the buffer, it does not fault. *)

Record app_frame (s s' : uip) : Prop := {
  af_eq : s' = s <| uip_buf := uip_buf s' |> <| uip_slen := uip_slen s' |>
                 <| uip_flags := uip_flags s' |>;
  af_len : length (uip_buf s') = length (uip_buf s);
  af_hdr : ∀ o, (o < 54)%nat → u8 (uip_buf s') o = u8 (uip_buf s) o;
  af_bytes : bytes (uip_buf s');
  af_slen : is_u16 (uip_slen s');
  af_flags : is_u8 (uip_flags s')
}.

Definition app_safe {A} (I : A → Prop) (s : uip) (a : A) : Prop :=
  I a ∧ uip_appdata s = 54%nat ∧
  (has (uip_flags s) UIP_NEWDATA = true → uip_len s ≤ 368).

Class UipAppLaws (A : Type) `{UipApp A} := {
  app_wf : A → Prop;
  app_inv : A → Prop;
  app_law : ∀ s a, wf_uip s → uip_sappdata s = 54%nat → app_wf a →
    wp (λ _, ¬ app_safe app_inv s a) UIP_APPCALL
       (λ _ x, app_frame s x.1 ∧ app_wf x.2 ∧ (app_inv a → app_inv x.2)) (s, a)
}.

(** ** Sane packets

    What the stack relies on and does not check itself: an IP length of at
    least an IP header, and for TCP a data offset of at least a TCP header
    that lies inside the packet, options whose loop leaves, and no urgent
    data. *)

Definition hlen (b : list Z) : Z := wrap8 (Z.shiftl (Z.shiftr (u8 b BUF.tcpoffset) 4) 2).

(** The length of the options, as the loop computes it. *)
Definition optlen (b : list Z) : Z := Z.shiftl (Z.shiftr (u8 b BUF.tcpoffset) 4 - 5) 2.

Definition options_end (b : list Z) : Prop :=
  ∃ m, parse_mss mss_fuel b (optlen b) 0 = Ok m.

Definition tcp_sane (b : list Z) : Prop :=
  20 ≤ hlen b ∧ 20 + hlen b ≤ iplen b ∧ options_end b ∧ has (u8 b BUF.flags) TCP_URG = false.

Definition packet_sane (b : list Z) : Prop :=
  20 ≤ iplen b ∧ (u8 b BUF.proto = UIP_PROTO_TCP → tcp_sane b).

Lemma tcpchksum_ok b :
  length b = 422%nat → 20 ≤ iplen b ≤ 408 → ∃ x, uip_tcpchksum b = Ok x.
Proof.
  intros Hl Hb. unfold uip_tcpchksum, upper_layer_chksum.
  assert (upper_layer_len b = iplen b - 20) as ->.
  { unfold upper_layer_len, wrap16, UIP_IPH_LEN. dlia. }
  rewrite Hl. destruct (Nat.leb_spec (34 + Z.to_nat (iplen b - 20)) 422); [eauto|lia].
Qed.

Lemma parse_mss_bound fuel b lim c v :
  bytes b → parse_mss fuel b lim c = Ok (Some v) → 0 ≤ v ≤ UIP_TCP_MSS.
Proof.
  intros Hb. revert c. induction fuel as [|fuel IH]; intros c; cbn -[u8 Z.ltb]; [done|].
  repeat case_match; try done; try apply IH; intros [= <-]; [by vm_compute|].
  split; [|lia]. apply Z.lor_nonneg. split; [apply Z.shiftl_nonneg|]; by apply u8_bytes.
Qed.

(** A packet whose checksums verify, as the stack itself verifies them. *)
Definition emitted (b : list Z) : Prop :=
  uip_ipchksum b = 0xffff ∧ (u8 b BUF.proto = UIP_PROTO_TCP → uip_tcpchksum b = Ok 0xffff).

(** Flags that ask for neither a close nor an abort. *)
Definition quiet (f : Z) : Prop := has f UIP_CLOSE = false ∧ has f UIP_ABORT = false.

Lemma quiet_or f : quiet f → quiet (Z.lor f UIP_NEWDATA).
Proof.
  unfold quiet, has. rewrite !Z.land_lor_distr_l, !negb_false_iff, !Z.eqb_eq.
  intros [-> ->]. by vm_compute.
Qed.

(** ** Rules for the stack's primitives *)

Section rules.
Context {A : Type} (E : fault → Prop).
Implicit Types (s : uip) (a : A).

Lemma wp_upd f (Q : unit → uip * A → Prop) s a :
  Q tt (f s, a) → wp E (upd f) Q (s, a).
Proof. done. Qed.
Lemma wp_gets {X} (f : uip → X) (Q : X → uip * A → Prop) s a :
  Q (f s) (s, a) → wp E (gets f) Q (s, a).
Proof. done. Qed.
Lemma wp_liftr {X} (f : uip → res X) (Q : X → uip * A → Prop) s a :
  (∀ x, f s = Ok x → Q x (s, a)) → (∀ e, f s = Err e → E e) → wp E (liftr f) Q (s, a).
Proof. intros H1 H2. unfold wp, liftr. simpl. destruct (f s); auto. Qed.
Lemma wp_deref_conn i (Q : nat → uip * A → Prop) s a :
  uip_conn s = Some i → Q i (s, a) → wp E deref_conn Q (s, a).
Proof. intros Hi HQ. unfold deref_conn. apply wp_bind, wp_gets. by rewrite Hi. Qed.
End rules.

(** One step of a computation on uIP's globals. *)
Ltac ustep :=
  cbv beta; lazymatch goal with
  | |- wp _ (_ ≫= _) _ _ => apply wp_bind
  | |- wp _ (mret _) _ _ => apply wp_ret
  | |- wp _ (if _ then _ else _) _ _ => apply wp_if; intros ?
  | |- wp _ (gets _) _ _ => apply wp_gets
  | |- wp _ (r8 _) _ _ => apply wp_gets
  | |- wp _ (r16 _) _ _ => apply wp_gets
  | |- wp _ (rb4 _) _ _ => apply wp_gets
  | |- wp _ (rip _) _ _ => apply wp_gets
  | |- wp _ (connr _) _ _ => apply wp_gets
  | |- wp _ (upd _) _ _ => apply wp_upd
  | |- wp _ (bufw _) _ _ => apply wp_upd
  | |- wp _ (w8 _ _) _ _ => apply wp_upd
  | |- wp _ (w16 _ _) _ _ => apply wp_upd
  | |- wp _ (wb4 _ _) _ _ => apply wp_upd
  | |- wp _ (wip _ _) _ _ => apply wp_upd
  | |- wp _ (set_len _) _ _ => apply wp_upd
  | |- wp _ (set_slen _) _ _ => apply wp_upd
  | |- wp _ (set_flags _) _ _ => apply wp_upd
  | |- wp _ (or_flags _) _ _ => apply wp_upd
  | |- wp _ (connw _ _) _ _ => apply wp_upd
  | |- wp _ (set_state _ _) _ _ => apply wp_upd
  | |- wp _ (UIP_STAT _) _ _ => apply wp_upd
  end; cbv beta.

(** The branch just taken contradicts [H]. *)
Ltac dead H :=
  cbn [uip_buf uip_len uip_hostaddr set_field] in *;
  match goal with He : ?t = ?b :> bool |- _ =>
    rewrite H in He; rewrite ?andb_false_r, ?orb_false_r, ?orb_false_l in He;
    cbn [negb Z.eqb Pos.eqb orb] in He; try discriminate He end.

(** ** The invariant of a call in progress

    [At i st x]: since the call started in [s0], only connection [i] changed,
    and it is now in state [st].  [safe] stands for the assumptions under
    which no access may fault; without them a fault is permitted. *)

Section invariant.
Context {A : Type} `{UipAppLaws A}.
Variable safe : Prop.
Variable s0 : uip.
Variable flag : Z.
Variable a0 : A.

Definition Ex (_ : fault) : Prop := ¬ safe.

Record At (i : nat) (st : Z) (x : uip * A) : Prop := {
  at_inv : inv_uip x.1;
  at_static : static x.1 = static s0;
  at_idx : (i < UIP_CONNS)%nat;
  at_others : ∀ j, j ≠ i → uip_conns x.1 !! j = uip_conns s0 !! j;
  at_state : tcpstateflags (uip_conns x.1 !!! i) = st;
  at_path : tcp_next flag s0 a0 i st;
  at_seq : seq_ok (uip_buf s0) (uip_conns s0 !!! i)
             (snd_nxt (uip_conns x.1 !!! i)) (rcv_nxt (uip_conns x.1 !!! i));
  at_sappdata : uip_sappdata x.1 = 54%nat;
  at_app_wf : app_wf x.2;
  at_app : safe → app_inv x.2
}.

Implicit Types (i : nat) (st : Z) (s : uip) (a : A).

Ltac at_keep :=
  intros [[Hwf Hc] Hst Hi Ho Hs Hp Hq Hsa Haw Happ]; split; try done;
  split; [destruct Hwf; split; try done|done].

Lemma At_buf i st s a f :
  At i st (s, a) → length (f (uip_buf s)) = length (uip_buf s) →
  (bytes (uip_buf s) → bytes (f (uip_buf s))) → At i st (s <| uip_buf ::= f |>, a).
Proof. intros HA Hl Hb. revert HA. at_keep; [by cbn; rewrite Hl|by apply Hb]. Qed.

Lemma At_put8 i st s a o v : At i st (s, a) → At i st (s <| uip_buf ::= put8 o v |>, a).
Proof. intros. apply At_buf; [done|by rewrite length_put8|auto with width]. Qed.
Lemma At_put16 i st s a o v : At i st (s, a) → At i st (s <| uip_buf ::= put16 o v |>, a).
Proof. intros. apply At_buf; [done|by rewrite length_put16|auto with width]. Qed.
Lemma At_put_b4 i st s a o v : At i st (s, a) → At i st (s <| uip_buf ::= put_b4 o v |>, a).
Proof. intros. apply At_buf; [done|by rewrite length_put_b4|auto with width]. Qed.
Lemma At_put_ip i st s a o v : At i st (s, a) → At i st (s <| uip_buf ::= put_ip o v |>, a).
Proof. intros. apply At_buf; [done|by rewrite length_put_ip|auto with width]. Qed.

Lemma At_len i st s a v : At i st (s, a) → At i st (s <| uip_len := wrap16 v |>, a).
Proof. at_keep. apply wrap16_u16. Qed.
Lemma At_slen i st s a v : At i st (s, a) → At i st (s <| uip_slen := wrap16 v |>, a).
Proof. at_keep. apply wrap16_u16. Qed.
Lemma At_flags i st s a v : At i st (s, a) → is_u8 v → At i st (s <| uip_flags := v |>, a).
Proof. intros HA ?. revert HA. at_keep. Qed.
Lemma At_or_flags i st s a v :
  At i st (s, a) → is_u8 v → At i st (s <| uip_flags ::= λ f, Z.lor f v |>, a).
Proof.
  intros HA Hv. revert HA. at_keep. by apply lor_u8.
Qed.
Lemma At_appdata i st s a f : At i st (s, a) → At i st (s <| uip_appdata ::= f |>, a).
Proof. at_keep. Qed.
Lemma At_stat i st s a f : At i st (s, a) → At i st (s <| uip_stat ::= f |>, a).
Proof. at_keep. Qed.
Lemma At_ipid i st s a v : At i st (s, a) → At i st (s <| ipid ::= λ x, wrap16 (v x) |>, a).
Proof. at_keep. apply wrap16_u16. Qed.
Lemma At_iss i st s a f :
  At i st (s, a) → (is_b4 (iss s) → is_b4 (f (iss s))) → At i st (s <| iss ::= f |>, a).
Proof. intros HA Hf. revert HA. at_keep. by apply Hf. Qed.
Lemma At_uip_conn i st s a : At i st (s, a) → At i st (s <| uip_conn := Some i |>, a).
Proof. at_keep. cbn. by intros j [= <-]. Qed.

Lemma At_conn_good i st s a :
  At i st (s, a) → good_conn (uip_conns s !!! i) ∧ tcpstateflags (uip_conns s !!! i) = st.
Proof.
  intros [[Hwf Hc] ? Hi ? Hs ? ? ? ? ?]. split; [|done].
  eapply Forall_lookup_total_1; [done|]. cbn in *. by rewrite (wf_uip_conns_len s).
Qed.

(** The sequence numbers of [c] are reachable from connection [i]'s. *)
Definition seqs (i : nat) (c : conn) : Prop :=
  seq_ok (uip_buf s0) (uip_conns s0 !!! i) (snd_nxt c) (rcv_nxt c).

Lemma At_conn i st st' s a f :
  At i st (s, a) → tcp_next flag s0 a0 i st' →
  (good_conn (uip_conns s !!! i) → seqs i (uip_conns s !!! i) → tcpstateflags (uip_conns s !!! i) = st →
   good_conn (f (uip_conns s !!! i)) ∧ seqs i (f (uip_conns s !!! i)) ∧
   tcpstateflags (f (uip_conns s !!! i)) = st') →
  At i st' (s <| uip_conns ::= alter f i |>, a).
Proof.
  intros HA Hn Hf. destruct (At_conn_good _ _ _ _ HA) as [Hg Hs].
  destruct (Hf Hg (at_seq _ _ _ HA) Hs) as (Hg' & Hq' & Hs'). clear Hf.
  destruct HA as [[Hwf Hc] Hst Hi Ho _ Hp Hq Hsa Haw Happ]. cbn in *.
  assert (Hl : (i < length (uip_conns s))%nat) by by rewrite (wf_uip_conns_len s).
  assert (Hx : uip_conns s !! i = Some (uip_conns s !!! i)) by by apply list_lookup_lookup_total_lt.
  assert (HF : Forall good_conn (alter f i (uip_conns s))).
  { apply Forall_alter; [done|]. intros x Hx' _. by simplify_eq. }
  assert (Ha : alter f i (uip_conns s) !!! i = f (uip_conns s !!! i)).
  { by rewrite list_lookup_total_alt, list_lookup_alter_eq, Hx. }
  split; try done; cbn.
  - split; [|done]. destruct Hwf; split; try done; cbn.
    + by rewrite length_alter.
    + eapply Forall_impl; [|exact HF]. by intros ? [].
  - intros j Hj. rewrite <- Ho by done. by apply list_lookup_alter_ne.
  - by rewrite Ha.
  - by rewrite Ha.
Qed.

(** The same, for an update that keeps the connection's state. *)
Lemma At_conn_same i st s a f :
  At i st (s, a) →
  (good_conn (uip_conns s !!! i) → seqs i (uip_conns s !!! i) →
   good_conn (f (uip_conns s !!! i)) ∧ seqs i (f (uip_conns s !!! i)) ∧
   tcpstateflags (f (uip_conns s !!! i)) = tcpstateflags (uip_conns s !!! i)) →
  At i st (s <| uip_conns ::= alter f i |>, a).
Proof.
  intros HA Hf. eapply At_conn; [done|apply HA|]. intros Hg Hq <-. by apply Hf.
Qed.

Lemma At_app i st s a s' a' :
  At i st (s, a) → app_frame s s' → app_wf a' → (app_inv a → app_inv a') → At i st (s', a').
Proof.
  intros [[Hwf Hc] Hst Hi Ho Hs Hp Hq Hsa Haw Happ] [Heq Hl Hh Hb Hsl Hfl] Haw' Ha. cbn in *.
  set (b' := uip_buf s') in *. set (n' := uip_slen s') in *. set (f' := uip_flags s') in *.
  clearbody b' n' f'. subst s'. split; cbn; try done; [|by auto].
  split; [|done]. destruct Hwf. split; cbn; try done. by rewrite Hl.
Qed.

(** The state after a call: some connection changed as allowed, and what
    is to be sent fits the buffer and verifies. *)
Definition Fin (_ : unit) (x : uip * A) : Prop :=
  (∃ i st, At i st x) ∧ (safe → 0 ≤ uip_len x.1 ≤ 408) ∧
  (uip_hostaddr s0 ≠ all_zeroes_addr → uip_len x.1 = 0 ∨ emitted (uip_buf x.1)).

Ltac at_solve :=
  repeat lazymatch goal with
  | |- At _ _ (_ <| uip_buf ::= put8 _ _ |>, _) => apply At_put8
  | |- At _ _ (_ <| uip_buf ::= put16 _ _ |>, _) => apply At_put16
  | |- At _ _ (_ <| uip_buf ::= put_b4 _ _ |>, _) => apply At_put_b4
  | |- At _ _ (_ <| uip_buf ::= put_ip _ _ |>, _) => apply At_put_ip
  | |- At _ _ (_ <| uip_len := _ |>, _) => apply At_len
  | |- At _ _ (_ <| uip_slen := _ |>, _) => apply At_slen
  | |- At _ _ (_ <| uip_flags ::= λ f, Z.lor f _ |>, _) => apply At_or_flags; [|done]
  | |- At _ _ (_ <| uip_flags := _ |>, _) => apply At_flags; [|done]
  | |- At _ _ (_ <| uip_appdata ::= _ |>, _) => apply At_appdata
  | |- At _ _ (_ <| uip_stat ::= _ |>, _) => apply At_stat
  | |- At _ _ (_ <| ipid ::= _ |>, _) => apply (At_ipid _ _ _ _ (λ x, x + 1))
  | |- At _ _ (_ <| uip_conn := _ |>, _) => apply At_uip_conn
  end; try done.

Ltac len_solve := intros; cbn [uip_len set_field]; lia.

(** *** Sending *)

Lemma drop_spec i st s a : At i st (s, a) → wp Ex drop Fin (s, a).
Proof.
  intros HA. unfold drop. repeat ustep. split; [exists i, st; at_solve|]. split; [done|by left].
Qed.

Lemma send_spec i st s a :
  At i st (s, a) → (safe → 0 ≤ uip_len s ≤ 408) →
  (uip_hostaddr s0 ≠ all_zeroes_addr → emitted (uip_buf s)) → wp Ex send Fin (s, a).
Proof.
  intros HA Hl He. unfold send. repeat ustep. split; [exists i, st; at_solve|].
  split; [done|]. intros Hh. right. by apply He.
Qed.

Lemma ip_send_nolen_spec i st s a :
  At i st (s, a) → (safe → 0 ≤ uip_len s ≤ 408) → uip_tcpchksum (uip_buf s) = Ok 0xffff →
  wp Ex ip_send_nolen Fin (s, a).
Proof.
  intros HA Hl Ht. unfold ip_send_nolen. repeat ustep.
  eapply send_spec; [at_solve|done|]. intros _. cbn [uip_buf set_field].
  assert (Hlen : length (uip_buf s) = 422%nat) by apply HA.
  assert (Hb : bytes (uip_buf s)) by apply HA. split.
  - apply ipchksum_fill; [auto 20 with width|buf_len; lia|].
    by rewrite u16_put16_eq by (buf_len; unfold BUF.ipchksum; lia).
  - intros _. rewrite !tcpchksum_put16 by (cbv; lia).
    by rewrite !tcpchksum_put8 by (cbv; lia).
Qed.

Lemma tcp_send_noconn_spec i st s a :
  At i st (s, a) → 40 ≤ uip_len s ≤ 408 → wp Ex tcp_send_noconn Fin (s, a).
Proof.
  intros HA Hl. unfold tcp_send_noconn. do 14 ustep.
  assert (Hlen : length (uip_buf s) = 422%nat) by apply HA.
  assert (Hb : bytes (uip_buf s)) by apply HA.
  assert (Hn : is_u16 (uip_len s)) by apply HA. cbn [uip_len set_field].
  match goal with |- wp _ _ _ (?s', _) => set (s1 := s') end.
  assert (HA1 : At i st (s1, a)) by (unfold s1; at_solve).
  assert (Hl1 : length (uip_buf s1) = 422%nat) by apply HA1.
  assert (Hb1 : bytes (uip_buf s1)) by apply HA1.
  assert (Hz : u16 (uip_buf s1) BUF.tcpchksum = 0).
  { cbn [uip_buf s1 set_field]. rewrite u16_put16_eq; [done|]. buf_len. unfold BUF.tcpchksum. lia. }
  assert (Hi : iplen (uip_buf s1) = uip_len s).
  { cbn [uip_buf s1 set_field].
    etrans; [|apply (iplen_put (uip_len s) (put8 BUF.ttl UIP_TTL (uip_buf s))); [buf_len; lia|done]].
    unfold iplen. by u8_simp. }
  assert (Hls : uip_len s1 = uip_len s) by done. clearbody s1.
  ustep. apply wp_liftr.
  - intros sum Hs. repeat ustep. eapply ip_send_nolen_spec; [at_solve|cbn; lia|].
    apply tcpchksum_fill; [done| |done|done].
    unfold upper_layer_len, UIP_IPH_LEN. rewrite Hi, wrap16_id by (unfold is_u16; lia). lia.
  - intros e. destruct (tcpchksum_ok (uip_buf s1)) as [x ->]; [done|lia|done].
Qed.

Lemma tcp_send_spec i st s a :
  At i st (s, a) → 40 ≤ uip_len s ≤ 408 → wp Ex (tcp_send i) Fin (s, a).
Proof.
  intros HA Hl. unfold tcp_send. repeat ustep;
    (eapply tcp_send_noconn_spec; [at_solve|len_solve]).
Qed.

Lemma tcp_send_noopts_spec i st s a :
  At i st (s, a) → 40 ≤ uip_len s ≤ 408 → wp Ex (tcp_send_noopts i) Fin (s, a).
Proof.
  intros HA Hl. unfold tcp_send_noopts. repeat ustep.
  eapply tcp_send_spec; [at_solve|len_solve].
Qed.

Lemma tcp_send_nodata_spec i st s a :
  At i st (s, a) → wp Ex (tcp_send_nodata i) Fin (s, a).
Proof.
  intros HA. unfold tcp_send_nodata. repeat ustep.
  eapply tcp_send_noopts_spec; [at_solve|done].
Qed.

Lemma tcp_send_ack_spec i st s a : At i st (s, a) → wp Ex (tcp_send_ack i) Fin (s, a).
Proof.
  intros HA. unfold tcp_send_ack. repeat ustep. eapply tcp_send_nodata_spec; at_solve.
Qed.

Lemma tcp_send_finack_spec i st s a : At i st (s, a) → wp Ex (tcp_send_finack i) Fin (s, a).
Proof.
  intros HA. unfold tcp_send_finack. repeat ustep. eapply tcp_send_nodata_spec; at_solve.
Qed.

Lemma tcp_send_syn_spec i st s a : At i st (s, a) → wp Ex (tcp_send_syn i) Fin (s, a).
Proof.
  intros HA. unfold tcp_send_syn. repeat ustep. eapply tcp_send_spec; [at_solve|done].
Qed.

Lemma tcp_send_synack_spec i st s a : At i st (s, a) → wp Ex (tcp_send_synack i) Fin (s, a).
Proof.
  intros HA. unfold tcp_send_synack. repeat ustep. eapply tcp_send_syn_spec; at_solve.
Qed.

(** *** After the application *)

Lemma apprexmit_spec i st s a : At i st (s, a) → wp Ex (apprexmit i) Fin (s, a).
Proof.
  intros HA. destruct (At_conn_good _ _ _ _ HA) as [Hg _].
  unfold apprexmit. repeat ustep.
  - eapply tcp_send_noopts_spec; [at_solve|]. cbn [uip_len set_field].
    destruct Hg as [[] ? ? ? Hgl]. cbn in Hgl. unfold is_u16, wrap16, UIP_TCPIP_HLEN, UIP_IPTCPH_LEN in *.
    unfold UIP_TCP_MSS, UIP_TCPIP_HLEN, UIP_IPTCPH_LEN in Hgl.
    cbn [uip_conns set_field]. dlia.
  - eapply tcp_send_noopts_spec; [at_solve|done].
  - eapply drop_spec. at_solve.
Qed.

Ltac good_solve :=
  lazymatch goal with
  | |- good_conn _ → _ => intros [[] ? ? ? ?]
  end; intros; split_and!; [split; [split|..]|..]; cbn; try done;
  unfold is_u8, is_u16, UIP_TCP_MSS, UIP_TCPIP_HLEN, UIP_IPTCPH_LEN in *; try lia.

Lemma limit_send_spec i st f s a :
  At i st (s, a) → wp Ex (limit_send i f) (λ _ x, At i st x) (s, a).
Proof.
  intros HA. unfold limit_send. do 3 ustep; [|repeat ustep; done]. ustep.
  apply wp_mono with (λ _ x, At i st x ∧ uip_slen x.1 = uip_slen s).
  2:{ repeat ustep; split; try done. eapply At_conn_same; [done|good_solve]. }
  intros _ [s1 a1] [HA1 Hs]. destruct (At_conn_good _ _ _ _ HA1) as [Hg _].
  assert (0 ≤ uip_slen s < 65536) by apply HA.
  assert (0 ≤ mss (uip_conns s1 !!! i) < 65536) by apply Hg.
  pose proof (gc_mss _ Hg) as Hm. cbn in Hs.
  repeat ustep; at_solve; (eapply At_conn_same; [at_solve|good_solve]).
  all: rewrite wrap16_id by done; lia.
Qed.

Lemma appsend_spec i s a :
  At i UIP_ESTABLISHED (s, a) → app_called flag s0 i →
  (∀ f, f = UIP_CLOSE ∨ f = UIP_ABORT → has (uip_flags s) f = true → asks a0 f) →
  wp Ex (appsend i) Fin (s, a).
Proof.
  intros HA Hc Hf. unfold appsend. repeat ustep.
  - eapply tcp_send_nodata_spec; at_solve.
    eapply (At_conn _ _ UIP_CLOSED); [at_solve|apply next_abort; auto|good_solve].
  - eapply tcp_send_nodata_spec; at_solve.
    eapply (At_conn _ _ UIP_FIN_WAIT_1); [at_solve|apply next_close; auto|good_solve].
  - eapply wp_mono; [|by apply limit_send_spec]. intros _ [s1 a1] HA1.
    repeat ustep. eapply apprexmit_spec. eapply At_conn_same; [at_solve|good_solve].
Qed.

(** *** Calling the application *)

Lemma app_spec i st s a (Q : unit → uip * A → Prop) :
  At i st (s, a) →
  (safe → uip_appdata s = 54%nat ∧ (has (uip_flags s) UIP_NEWDATA = true → uip_len s ≤ 368)) →
  (∀ s' a', At i st (s', a') → app_frame s s' → UIP_APPCALL (s, a) = Ok (tt, (s', a')) →
            Q tt (s', a')) →
  wp Ex UIP_APPCALL Q (s, a).
Proof.
  intros HA Hsafe HQ. pose proof (app_law s a (inv_wf _ (at_inv _ _ _ HA)) (at_sappdata _ _ _ HA) (at_app_wf _ _ _ HA)) as Hl.
  unfold wp in *. destruct (UIP_APPCALL (s, a)) as [[[] [s' a']]|e].
  - destruct Hl as (Hf & Hw & Ha). apply HQ; [|done..]. by eapply At_app.
  - intros Hs. apply Hl. destruct (Hsafe Hs). split_and!; [|done|done].
    by apply (at_app _ _ _ HA).
Qed.

Lemma app_frame_conn s s' : app_frame s s' → uip_conn s' = uip_conn s.
Proof. intros Hf. by rewrite (af_eq _ _ Hf). Qed.

(** *** Segments *)

Lemma reset_spec i st s a : At i st (s, a) → wp Ex reset Fin (s, a).
Proof.
  intros HA. unfold reset. repeat ustep.
  - by eapply drop_spec.
  - eapply tcp_send_noconn_spec; [at_solve|done].
Qed.

(** The packet may move [rcv_nxt] of connection [i]. *)
Definition rcv_free (i : nat) : Prop :=
  ∀ snd rcv rcv', seq_ok (uip_buf s0) (uip_conns s0 !!! i) snd rcv →
                  seq_ok (uip_buf s0) (uip_conns s0 !!! i) snd rcv'.

Lemma rcv_free_unused i : unused (uip_conns s0 !!! i) → rcv_free i.
Proof. intros Hu snd rcv rcv' _. by left. Qed.
Lemma rcv_free_heard i :
  heard (uip_buf s0) (uip_conns s0 !!! i) →
  next_seg (uip_buf s0) (uip_conns s0 !!! i) ∨ has (u8 (uip_buf s0) BUF.flags) TCP_URG = true →
  rcv_free i.
Proof. intros Hh Hn snd rcv rcv' [Hu|[Hs _]]; [by left|right]. auto. Qed.

Lemma uip_add_rcv_nxt_spec i st n s a (Q : unit → uip * A → Prop) :
  At i st (s, a) → uip_conn s = Some i → rcv_free i →
  (∀ s', At i st (s', a) →
     s' = s <| uip_conns ::= alter (λ c, c <| rcv_nxt ::= λ q, uip_add32 q (wrap16 n) |>) i |> →
     Q tt (s', a)) →
  wp Ex (uip_add_rcv_nxt n) Q (s, a).
Proof.
  intros HA Hc Hr HQ. unfold uip_add_rcv_nxt. ustep. apply (wp_deref_conn _ i); [done|].
  repeat ustep. apply HQ; [|done]. eapply At_conn_same; [done|good_solve].
  - apply uip_add32_spec; [done|apply wrap16_u16].
  - by eapply Hr.
Qed.

Lemma parse_options_spec i st s a (Q : unit → uip * A → Prop) :
  At i st (s, a) → (safe → options_end (uip_buf s)) →
  (∀ cs, At i st (s <| uip_conns := cs |>, a) → Q tt (s <| uip_conns := cs |>, a)) →
  wp Ex (parse_options i) Q (s, a).
Proof.
  intros HA Ho HQ. assert (HQ0 : Q tt (s, a)) by (specialize (HQ (uip_conns s)); by destruct s; apply HQ).
  unfold parse_options. repeat ustep; [|done].
  apply wp_liftr.
  2:{ intros e He Hs. destruct (Ho Hs) as [m Hm]. unfold optlen in Hm. congruence. }
  intros [v|] Hv; [|done]. repeat ustep.
  apply parse_mss_bound in Hv; [|apply HA].
  apply (HQ (alter _ i (uip_conns s))). eapply At_conn_same; [done|good_solve].
Qed.

Lemma found_listen_spec s a :
  (∀ i, (i < UIP_CONNS)%nat → At i (tcpstateflags (uip_conns s0 !!! i)) (s, a)) →
  uip_conns s = uip_conns s0 → (safe → options_end (uip_buf s)) →
  (∀ i, unused (uip_conns s0 !!! i) → tcp_next flag s0 a0 i UIP_SYN_RCVD) →
  wp Ex found_listen Fin (s, a).
Proof.
  intros HA Hc Ho Hopen. unfold found_listen. do 2 ustep.
  destruct (find_unused 0 None (uip_conns s)) as [i|] eqn:Hf.
  2:{ repeat ustep. eapply (drop_spec 0). at_solve. apply HA. unfold UIP_CONNS; lia. }
  apply (find_unused_sound (uip_conns s)) in Hf as (c & Hi & Hu); [|done|done].
  assert (Hlt : (i < UIP_CONNS)%nat).
  { rewrite <- (wf_uip_conns_len s); [by eapply lookup_lt_Some|].
    eapply (HA 0%nat). unfold UIP_CONNS; lia. }
  specialize (HA i Hlt). repeat ustep.
  assert (Hu' : unused (uip_conns s0 !!! i)).
  { apply (list_lookup_total_correct) in Hi. by rewrite <- Hc, Hi. }
  eapply (uip_add_rcv_nxt_spec i UIP_SYN_RCVD); [|done|by apply rcv_free_unused|].
  { eapply At_conn; [at_solve|by apply Hopen|].
    good_solve; try apply get_ip_wf; try apply u16_bytes; try apply get_b4_bytes; try apply HA.
    by left. }
  intros s1 HA1 ->. repeat ustep. eapply parse_options_spec; [done|done|].
  intros cs HA2. by eapply tcp_send_synack_spec.
Qed.

(** *** Segments for a connection

    What the application relies on when it is called. *)
Definition app_ready (s : uip) : Prop :=
  safe → uip_appdata s = 54%nat ∧ (has (uip_flags s) UIP_NEWDATA = true → uip_len s ≤ 368).

(** The payload of a sane segment lies in the buffer, and the application has
    not been called yet. *)
Definition data_ok (x : uip * A) : Prop :=
  x.2 = a0 ∧ (safe → uip_appdata x.1 = 54%nat ∧ uip_len x.1 ≤ 368).

Lemma data_ready s a : data_ok (s, a) → app_ready s.
Proof. intros [_ Hd] Hs. by destruct (Hd Hs). Qed.

Lemma app_appsend_spec i s a :
  At i UIP_ESTABLISHED (s, a) → app_called flag s0 i → a = a0 → quiet (uip_flags s) → app_ready s →
  wp Ex UIP_APPCALL (λ _ x, wp Ex (appsend i) Fin x) (s, a).
Proof.
  intros HA Hc -> [Hq1 Hq2] Hr. eapply app_spec; [done..|].
  intros s' a' HA' _ Hrun. apply appsend_spec; [done..|].
  intros f [-> | ->] Hf; by exists s, s', a'.
Qed.

(** A connection update that keeps the state, or moves to [st]. *)
Ltac conn_step := eapply At_conn_same; [at_solve|good_solve].
Ltac go_state st := eapply (At_conn _ _ st); [at_solve|eauto with tcp|good_solve].

(** The state the connection had when the call started, and what is known
    of the segment in the buffer. *)
#[local] Abbreviation was i st := (tcpstateflags (uip_conns s0 !!! i) = st).

Record Taken (i : nat) (s : uip) : Prop := {
  seg_conn : uip_conn s = Some i;
  seg_for : segment flag s0 i;
  seg_buf : uip_buf s = uip_buf s0;
  seg_data : 0 < uip_len s → next_seg (uip_buf s0) (uip_conns s0 !!! i);
  seg_fin : has (u8 (uip_buf s0) BUF.flags) TCP_FIN = true →
            next_seg (uip_buf s0) (uip_conns s0 !!! i)
}.

(** ... once its acknowledgement was looked at. *)
Record Seg (i : nat) (s : uip) : Prop := {
  seg_taken : Taken i s;
  seg_ack : has (uip_flags s) UIP_ACKDATA = true ↔ acks (uip_buf s0) (uip_conns s0 !!! i);
  seg_quiet : quiet (uip_flags s)
}.
Coercion seg_taken : Seg >-> Taken.

Lemma seg_acked i s :
  Seg i s → has (uip_flags s) UIP_ACKDATA = true → acks (uip_buf s0) (uip_conns s0 !!! i).
Proof. intros HS. apply HS. Qed.
Lemma seg_not_acked i s :
  Seg i s → has (uip_flags s) UIP_ACKDATA = false → ¬ acks (uip_buf s0) (uip_conns s0 !!! i).
Proof. intros HS Hf Ha. apply HS in Ha. congruence. Qed.
Lemma seg_segment i s : Seg i s → segment flag s0 i.
Proof. intros HS. apply (seg_for _ _ HS). Qed.
Lemma seg_heard i s : Taken i s → heard (uip_buf s0) (uip_conns s0 !!! i).
Proof. intros HS. apply (seg_for _ _ HS). Qed.
Lemma seg_fin_ok i s :
  Seg i s → has (u8 (uip_buf s) BUF.flags) TCP_FIN = true → fin (uip_buf s0) (uip_conns s0 !!! i).
Proof. intros HS. rewrite (seg_buf _ _ HS). intros Hf. split; [done|by apply (seg_fin _ _ HS)]. Qed.
Lemma seg_rcv i s :
  Seg i s → 0 < uip_len s ∨ has (u8 (uip_buf s) BUF.flags) TCP_FIN = true → rcv_free i.
Proof.
  intros HS Hd. apply rcv_free_heard; [by eapply seg_heard, HS|left]. destruct Hd; [by apply (seg_data _ _ HS)|].
  apply (seg_fin _ _ HS). by rewrite <- (seg_buf _ _ HS).
Qed.
Hint Resolve seg_segment seg_acked seg_not_acked seg_fin_ok : tcp.

(** Nothing outstanding is left, because there was nothing or it is acknowledged. *)
Definition all_acked (i : nat) (s : uip) : Prop :=
  uip_outstanding (uip_conns s !!! i) = false →
  uip_outstanding (uip_conns s0 !!! i) = false ∨ acks (uip_buf s0) (uip_conns s0 !!! i).

Ltac ltb := repeat match goal with Hl : (_ <? _) = true |- _ => apply Z.ltb_lt in Hl end.

Lemma in_syn_rcvd_spec i s a :
  At i UIP_SYN_RCVD (s, a) → was i UIP_SYN_RCVD → Seg i s → data_ok (s, a) →
  wp Ex (in_syn_rcvd i) Fin (s, a).
Proof.
  intros HA Hw HS Hd. unfold in_syn_rcvd. do 3 ustep; [|by eapply drop_spec]. do 9 ustep.
  apply wp_mono with (λ _ x, At i UIP_ESTABLISHED x ∧ data_ok x ∧ quiet (uip_flags x.1)).
  - intros [] [s1 a1] (HA1 & Hd1 & Hq1). repeat ustep.
    apply app_appsend_spec; [at_solve|eauto using called_syn_acked with tcp|apply Hd1|done|].
    by eapply data_ready.
  - repeat ustep; ltb.
    + eapply uip_add_rcv_nxt_spec; [|apply HS|by eapply seg_rcv; [|left]|].
      * at_solve. conn_step. go_state UIP_ESTABLISHED.
      * intros s' HA' ->. by split.
    + split; [|done]. conn_step. go_state UIP_ESTABLISHED.
Qed.

Lemma in_syn_sent_spec i s a :
  At i UIP_SYN_SENT (s, a) → was i UIP_SYN_SENT → Seg i s → data_ok (s, a) →
  (safe → options_end (uip_buf s)) → wp Ex (in_syn_sent i) Fin (s, a).
Proof.
  intros HA Hw HS Hd Ho. unfold in_syn_sent. do 5 ustep.
  - match goal with He : _ && _ = true |- _ => apply andb_true_iff in He as [Hack Hsa%Z.eqb_eq] end.
    rewrite (seg_buf _ _ HS) in Hsa. fold (synack (uip_buf s0)) in Hsa.
    assert (Hr : rcv_free i) by (apply rcv_free_heard; [by eapply seg_heard, HS|left; by right]).
    ustep. eapply parse_options_spec; [done|done|]. intros cs HA1. repeat ustep.
    eapply uip_add_rcv_nxt_spec; [|apply HS|done|].
    { eapply At_conn_same; [go_state UIP_ESTABLISHED|good_solve]; [apply get_b4_bytes, HA|by eapply Hr]. }
    intros s2 HA2 ->. repeat ustep.
    apply app_appsend_spec; [at_solve; conn_step|eauto using called_synack_got with tcp|apply Hd|done|].
    intros Hs. split; [|done]. by apply Hd.
  - do 3 ustep. eapply app_spec; [at_solve|intros Hs; split; [by apply Hd|done]|].
    intros s2 a2 HA2 Hf _. ustep. apply (wp_deref_conn _ i).
    { rewrite (app_frame_conn _ _ Hf). apply (seg_conn _ _ HS). }
    repeat ustep. eapply reset_spec.
    eapply (At_conn _ _ UIP_CLOSED); [done|apply next_refused; [done|by eapply seg_segment|]|good_solve].
    intros [Hack%(seg_ack _ _ HS) Hsa]. unfold synack in Hsa. rewrite (seg_buf _ _ HS) in *.
    match goal with He : _ && _ = false |- _ => by rewrite Hack, Hsa, Z.eqb_refl in He end.
Qed.

Lemma established_fin_spec i s a :
  At i UIP_ESTABLISHED (s, a) → was i UIP_ESTABLISHED → Seg i s → data_ok (s, a) → all_acked i s →
  has (u8 (uip_buf s) BUF.flags) TCP_FIN = true → wp Ex (established_fin i) Fin (s, a).
Proof.
  intros HA Hw HS Hd Hall Hfin. unfold established_fin. do 3 ustep; [by eapply drop_spec|]. do 3 ustep.
  specialize (Hall ltac:(done)).
  eapply uip_add_rcv_nxt_spec; [done|apply HS|by eapply seg_rcv; [|right]|].
  intros s1 HA1 ->. do 3 ustep.
  apply wp_mono with (λ _ x, At i UIP_ESTABLISHED x ∧ data_ok x);
    [|repeat ustep; split; at_solve].
  intros [] [s2 a2] [HA2 Hd2]. ustep. eapply app_spec; [done|by eapply data_ready|].
  intros s3 a3 HA3 _ _. repeat ustep. eapply tcp_send_finack_spec. go_state UIP_LAST_ACK.
Qed.

(** What the segment's length processing leaves before the application. *)
Lemma skip_urgent_spec i st s a (b : bool) :
  At i st (s, a) → Seg i s → data_ok (s, a) → (safe → b = false) →
  wp Ex (if b then skip_urgent else mret tt)
     (λ _ x, At i st x ∧ uip_conn x.1 = Some i ∧ data_ok x ∧ quiet (uip_flags x.1) ∧
             uip_conns x.1 = uip_conns s ∧ (b = false → x.1 = s)) (s, a).
Proof.
  intros HA HS [Ha Hd] Hb. pose proof (seg_conn _ _ HS). pose proof (seg_quiet _ _ HS).
  unfold skip_urgent. repeat ustep; split_and!; try done; at_solve; [|congruence].
  split; [done|]. subst b. intros Hs. by specialize (Hb Hs).
Qed.

Lemma in_established_spec i s a :
  At i UIP_ESTABLISHED (s, a) → was i UIP_ESTABLISHED → Seg i s → data_ok (s, a) → all_acked i s →
  (safe → has (u8 (uip_buf s) BUF.flags) TCP_URG = false) →
  wp Ex (in_established i) Fin (s, a).
Proof.
  intros HA Hw HS Hd Hall Hu. destruct (At_conn_good _ _ _ _ HA) as [Hg _].
  unfold in_established. do 5 ustep.
  { match goal with He : _ && _ = true |- _ => apply andb_true_iff in He as [Hfin _] end.
    by apply established_fin_spec. }
  ustep. eapply wp_mono; [|by eapply skip_urgent_spec].
  intros [] [s1 a1] (HA1 & Hc1 & Hd1 & Hq1 & Hcs & Hsame). do 3 ustep.
  apply wp_mono with (λ _ x, At i UIP_ESTABLISHED x ∧ data_ok x ∧ quiet (uip_flags x.1)).
  2:{ repeat ustep; [|by split].
      eapply uip_add_rcv_nxt_spec; [at_solve|exact Hc1| |intros s' HA' ->; split_and!; [done..|by apply quiet_or]].
      match goal with He : _ && _ = true |- _ => apply andb_true_iff in He as [Hn%Z.ltb_lt _] end.
      apply rcv_free_heard; [by eapply seg_heard, HS|]. rewrite <- (seg_buf _ _ HS).
      destruct (has (u8 (uip_buf s) BUF.flags) TCP_URG); [by right|left].
      cbn in *. rewrite Hsame in Hn by done. rewrite (seg_buf _ _ HS). by apply (seg_data _ _ HS). }
  intros [] [s2 a2] (HA2 & Hd2 & Hq2). do 6 ustep.
  set (m := if _ || _ then _ else _ : Z). assert (Hm : 0 ≤ m ≤ UIP_TCP_MSS).
  { destruct Hg as [[]]. subst m. pose proof (wrap16_u16 (Z.shiftl (u8 (uip_buf s2) BUF.wnd0) 8 +
      u8 (uip_buf s2) BUF.wnd1)) as Hw16. unfold is_u16 in *.
    case_match eqn:Hor; [lia|]. apply orb_false_iff in Hor. lia. }
  assert (HA3 : At i UIP_ESTABLISHED (s2 <| uip_conns ::= alter (λ c, c <| mss := m |>) i |>, a2))
    by (eapply At_conn_same; [done|good_solve]).
  clearbody m. repeat ustep.
  - apply app_appsend_spec; [at_solve|eauto using called_segment with tcp|apply Hd2|done|by eapply data_ready].
  - eapply drop_spec. done.
Qed.

Lemma in_last_ack_spec i s a :
  At i UIP_LAST_ACK (s, a) → was i UIP_LAST_ACK → Seg i s → data_ok (s, a) →
  wp Ex (in_last_ack i) Fin (s, a).
Proof.
  intros HA Hw HS Hd. unfold in_last_ack. repeat ustep; [|by eapply drop_spec].
  eapply app_spec; [at_solve; go_state UIP_CLOSED|intros Hs; split; [by apply Hd|done]|].
  intros. by eapply drop_spec.
Qed.

(** Advancing over the payload, if there is one. *)
Lemma rcv_data_spec i st s a :
  At i st (s, a) → Seg i s → data_ok (s, a) →
  wp Ex (if 0 <? uip_len s then uip_add_rcv_nxt (uip_len s) else mret tt)
     (λ _ x, At i st x ∧ Seg i x.1 ∧ data_ok x) (s, a).
Proof.
  intros HA HS Hd. repeat ustep; [|done]. ltb.
  eapply uip_add_rcv_nxt_spec; [done|apply HS|by eapply seg_rcv; [|left]|].
  intros s' HA' ->. split_and!; [done|by destruct HS as [[] ? ?]|done].
Qed.

(** Acknowledging a FIN. *)
Lemma fin_ack_spec i st s a :
  At i st (s, a) → uip_conn s = Some i → rcv_free i → data_ok (s, a) →
  wp Ex (uip_add_rcv_nxt 1) (λ _ x, wp Ex (set_flags UIP_CLOSE;; UIP_APPCALL;; tcp_send_ack i) Fin x) (s, a).
Proof.
  intros HA Hc Hr Hd. eapply uip_add_rcv_nxt_spec; [done|exact Hc|done|].
  intros s' HA' ->. repeat ustep.
  eapply app_spec; [at_solve|intros Hs; split; [by apply Hd|done]|].
  intros. by eapply tcp_send_ack_spec.
Qed.

Lemma in_fin_wait_1_spec i s a :
  At i UIP_FIN_WAIT_1 (s, a) → was i UIP_FIN_WAIT_1 → Seg i s → data_ok (s, a) →
  wp Ex (in_fin_wait_1 i) Fin (s, a).
Proof.
  intros HA Hw HS Hd. unfold in_fin_wait_1. do 3 ustep.
  eapply wp_mono; [|by eapply rcv_data_spec]. intros [] [s1 a1] (HA1 & HS1 & Hd1). cbn in HS1.
  repeat ustep.
  - eapply fin_ack_spec; [|apply HS1|by eapply seg_rcv; [|right]|done]. go_state UIP_TIME_WAIT.
  - eapply fin_ack_spec; [|apply HS1|by eapply seg_rcv; [|right]|done]. go_state UIP_CLOSING.
  - eapply drop_spec. go_state UIP_FIN_WAIT_2.
  - by eapply tcp_send_ack_spec.
  - by eapply drop_spec.
Qed.

Lemma in_fin_wait_2_spec i s a :
  At i UIP_FIN_WAIT_2 (s, a) → was i UIP_FIN_WAIT_2 → Seg i s → data_ok (s, a) →
  wp Ex (in_fin_wait_2 i) Fin (s, a).
Proof.
  intros HA Hw HS Hd. unfold in_fin_wait_2. do 3 ustep.
  eapply wp_mono; [|by eapply rcv_data_spec]. intros [] [s1 a1] (HA1 & HS1 & Hd1). cbn in HS1.
  repeat ustep.
  - eapply fin_ack_spec; [|apply HS1|by eapply seg_rcv; [|right]|done]. go_state UIP_TIME_WAIT.
  - by eapply tcp_send_ack_spec.
  - by eapply drop_spec.
Qed.

Lemma in_closing_spec i s a :
  At i UIP_CLOSING (s, a) → was i UIP_CLOSING → Seg i s → wp Ex (in_closing i) Fin (s, a).
Proof.
  intros HA Hw HS. unfold in_closing. repeat ustep; [|by eapply drop_spec].
  eapply drop_spec. go_state UIP_TIME_WAIT.
Qed.

Lemma ts_mask st : 0 ≤ st ≤ 8 → Z.land st UIP_TS_MASK = st.
Proof.
  intros. unfold UIP_TS_MASK. change 15 with (Z.ones 4). rewrite Z.land_ones by lia.
  apply Z.mod_small. change (2 ^ 4) with 16. lia.
Qed.

Lemma tcp_state_spec i st s a :
  At i st (s, a) → was i st → Seg i s → data_ok (s, a) → all_acked i s →
  (safe → options_end (uip_buf s)) →
  (safe → has (u8 (uip_buf s) BUF.flags) TCP_URG = false) →
  wp Ex (tcp_state i) Fin (s, a).
Proof.
  intros HA Hw HS Hd Hall Ho Hu. destruct (At_conn_good _ _ _ _ HA) as [Hg Hst].
  unfold tcp_state. do 2 ustep. rewrite ts_mask by apply Hg. rewrite Hst. clear Hst. cbv zeta.
  repeat (ustep; [match goal with He : (_ =? _) = true |- _ =>
    apply Z.eqb_eq in He; rewrite He in HA, Hw; clear He end|]).
  - by apply in_syn_rcvd_spec.
  - by apply in_syn_sent_spec.
  - by apply in_established_spec.
  - by apply in_last_ack_spec.
  - by apply in_fin_wait_1_spec.
  - by apply in_fin_wait_2_spec.
  - by eapply tcp_send_ack_spec.
  - by apply in_closing_spec.
  - by eapply drop_spec.
Qed.

Lemma rtt_update_good c :
  good_conn c → good_conn (rtt_update c) ∧ tcpstateflags (rtt_update c) = tcpstateflags c ∧
                snd_nxt (rtt_update c) = snd_nxt c ∧ rcv_nxt (rtt_update c) = rcv_nxt c.
Proof.
  intros [[] ? ? ? ?]. unfold rtt_update. case_match; split_and!; try done;
    (split; [split|..]); cbn; auto using wrap8_u8.
Qed.

Lemma found_ack_spec i st s a :
  At i st (s, a) → Taken i s → uip_flags s = 0 → uip_conns s !!! i = uip_conns s0 !!! i →
  data_ok (s, a) →
  wp Ex (found_ack i) (λ _ x, At i st x ∧ Seg i x.1 ∧ data_ok x ∧ all_acked i x.1) (s, a).
Proof.
  intros HA HS Hf0 Hc0 Hd. unfold found_ack.
  assert (Hno : ¬ acks (uip_buf s0) (uip_conns s0 !!! i) →
                At i st (s, a) ∧ Seg i s ∧ data_ok (s, a) ∧ all_acked i s).
  { intros Hna. split_and!; [done| |done|intros Ho; left; by rewrite <- Hc0].
    split; [done| |by rewrite Hf0]. rewrite Hf0. by split. }
  repeat ustep; try (apply Hno; intros (Hf & Ho & Heq); rewrite (seg_buf _ _ HS), Hc0 in *;
    rewrite ?Hf, ?Ho in *; match goal with He : _ = false |- _ => first [discriminate He|by apply bool_decide_eq_false in He] end).
  match goal with He : _ && _ = true |- _ => apply andb_true_iff in He as [Hf Ho] end.
  match goal with He : bool_decide _ = true |- _ => apply bool_decide_eq_true in He as Heq end.
  rewrite (seg_buf _ _ HS), Hc0 in *.
  assert (Hack : acks (uip_buf s0) (uip_conns s0 !!! i)) by done.
  split_and!; [|split; [by destruct HS|done|done]|done|by right].
  eapply At_conn_same; [at_solve|good_solve]. eapply At_conn_same; [done|].
  intros Hg Hq. match goal with |- good_conn (rtt_update ?c) ∧ _ => assert (Hg' : good_conn c) end.
  { destruct Hg as [[] ? ? ? ?]. split; [split|..]; cbn; try done.
    apply uip_add32_spec; rewrite <- Hc0; done. }
  destruct (rtt_update_good _ Hg') as (? & Hst' & Hs' & Hr'). split_and!; [done| |by rewrite Hst'].
  unfold seqs. rewrite Hs', Hr'. destruct Hq as [|[_ Hq]]; [by left|right].
  split; [|done]. right. split; [by eapply seg_heard|done].
Qed.

(** What a sane TCP segment gives. *)
Definition segment_ok (s : uip) : Prop :=
  safe → uip_appdata s = 54%nat ∧ uip_len s ≤ 408 ∧ 20 ≤ hlen (uip_buf s) ∧
         20 + hlen (uip_buf s) ≤ uip_len s ∧ options_end (uip_buf s) ∧
         has (u8 (uip_buf s) BUF.flags) TCP_URG = false.

Lemma in_sequence c bf n seq b :
  out_of_sequence c bf n seq = false → bf = u8 b BUF.flags → seq = get_b4 b BUF.seqno →
  0 ≤ tcpstateflags c ≤ 8 → 0 < n ∨ has bf TCP_FIN = true → next_seg b c.
Proof.
  unfold out_of_sequence. intros Ho -> -> Hst Hd. unfold next_seg, synack. rewrite ts_mask in Ho by done.
  destruct (decide (get_b4 b BUF.seqno = rcv_nxt c)) as [|Hne]; [by left|right].
  rewrite (bool_decide_eq_false_2 _ Hne), andb_true_r in Ho. apply andb_false_iff in Ho as [Ho|Ho].
  - apply negb_false_iff, andb_true_iff in Ho. by rewrite !Z.eqb_eq in Ho.
  - exfalso. apply orb_false_iff in Ho as [Hn Hf]. destruct Hd as [Hd|Hd]; [lia|].
    revert Hf Hd. unfold has. rewrite !negb_false_iff, negb_true_iff, Z.eqb_eq, Z.eqb_neq.
    intros Hf Hd. apply Hd. change TCP_FIN with (Z.land (Z.lor TCP_SYN TCP_FIN) TCP_FIN).
    by rewrite Z.land_assoc, Hf.
Qed.

Lemma found_spec i st s a :
  At i st (s, a) → was i st → uip_conns s = uip_conns s0 → uip_buf s = uip_buf s0 →
  a = a0 → addressed flag s0 i → segment_ok s → wp Ex (found i) Fin (s, a).
Proof.
  intros HA Hw Hcs Hb Ha Hh Hd. destruct (At_conn_good _ _ _ _ HA) as [Hg _].
  unfold found. do 7 ustep.
  { cbn [uip_buf set_field] in *. rewrite Hb in *.
    repeat ustep. eapply app_spec; [at_solve; go_state UIP_CLOSED|intros Hs; split; [by apply Hd|done]|].
    intros. by eapply drop_spec. }
  do 13 ustep; [|ustep].
  { eapply tcp_send_ack_spec. at_solve. }
  cbn [uip_len uip_conns uip_buf set_field] in *. rewrite Hcs, Hb in *.
  match goal with He : out_of_sequence _ _ _ _ = false |- _ =>
    pose proof (in_sequence _ _ _ _ _ He eq_refl eq_refl (gc_state _ Hg)) as Hseq end.
  eapply wp_mono; [|eapply found_ack_spec; [at_solve|split; try done|done|by cbn; rewrite Hcs|]].
  - intros [] [s1 a1] (HA1 & HS1 & Hd1 & Hall). cbn in HS1.
    eapply tcp_state_spec; [done..| |]; intros Hs; rewrite (seg_buf _ _ HS1), <- Hb; by apply Hd.
  - cbn [uip_len set_field]. intros. apply Hseq. by left.
  - intros. apply Hseq. by right.
  - split; [done|]. intros Hs. destruct (Hd Hs) as (? & ? & ? & ? & ? & ?). split; [done|].
    cbn [fst uip_len set_field]. rewrite Hb in *. change (wrap8 _) with (hlen (uip_buf s0)).
    unfold UIP_IPH_LEN. rewrite wrap16_id by (unfold is_u16; lia). lia.
Qed.

(** The loop takes the first connection the packet is for. *)
Lemma demux_sound dport sport src k cs i :
  demux dport sport src k cs = Some i →
  ∃ c, cs !! (i - k)%nat = Some c ∧ (k ≤ i)%nat ∧ conn_matches dport sport src c = true ∧
       ∀ j d, (k ≤ j < i)%nat → cs !! (j - k)%nat = Some d → conn_matches dport sport src d = false.
Proof.
  revert k. induction cs as [|c cs IH]; intros k; cbn; [done|].
  case_match eqn:Hc.
  { intros [= <-]. exists c. rewrite Nat.sub_diag. split_and!; [done..|]. lia. }
  intros (c' & Hc' & Hk & Hm & Hlt)%IH. exists c'. split_and!; [|lia|done|].
  - by replace (i - k)%nat with (S (i - S k)) by lia.
  - intros j d Hj Hd. destruct (decide (j = k)) as [->|Hne].
    + rewrite Nat.sub_diag in Hd. cbn in Hd. by injection Hd as <-.
    + apply (Hlt j d); [lia|]. by replace (j - k)%nat with (S (j - S k)) in Hd by lia.
Qed.

Lemma demux_none dport sport src k cs :
  demux dport sport src k cs = None → ∀ c, c ∈ cs → conn_matches dport sport src c = false.
Proof.
  revert k. induction cs as [|c cs IH]; intros k; cbn; intros Hd d Hin.
  { by apply not_elem_of_nil in Hin. }
  case_match eqn:Hc; [done|]. apply elem_of_cons in Hin as [->|Hin]; [done|by eapply IH].
Qed.

(** Nothing happened to the connections yet. *)
Definition At0 (x : uip * A) : Prop :=
  (uip_conns x.1 = uip_conns s0 ∧ uip_listenports x.1 = uip_listenports s0 ∧
   uip_buf x.1 = uip_buf s0 ∧ x.2 = a0) ∧
  ∀ i, (i < UIP_CONNS)%nat → At i (tcpstateflags (uip_conns s0 !!! i)) x.

Lemma At0_stat s a f : At0 (s, a) → At0 (s <| uip_stat ::= f |>, a).
Proof. intros [? HA]. split; [done|]. intros i Hi. apply At_stat. auto. Qed.
Lemma At0_len s a v : At0 (s, a) → At0 (s <| uip_len := wrap16 v |>, a).
Proof. intros [? HA]. split; [done|]. intros i Hi. apply At_len. auto. Qed.
Lemma At0_0 x : At0 x → At 0 (tcpstateflags (uip_conns s0 !!! 0%nat)) x.
Proof. intros [_ HA]. apply HA. unfold UIP_CONNS. lia. Qed.

Ltac at0 := repeat first [apply At0_stat | apply At0_len]; try done.
Ltac drop0 := eapply drop_spec, At0_0; at0.

Lemma tcp_input_spec s a :
  is_packet flag → At0 (s, a) → segment_ok s → (safe → uip_len s = iplen (uip_buf s)) →
  wp Ex tcp_input Fin (s, a).
Proof.
  intros Hpk HA Hd Hl. assert (Hw := inv_wf _ (at_inv _ _ _ (At0_0 _ HA))).
  unfold tcp_input. do 3 ustep. apply wp_liftr.
  2:{ intros e He. intros Hs. destruct (Hd Hs) as (? & ? & ? & ? & ? & ?).
      destruct (tcpchksum_ok (uip_buf s)) as [x Hx]; [apply Hw|rewrite <- Hl by done; lia|].
      cbn in He. congruence. }
  intros sum Hsum. ustep; [repeat ustep; drop0|].
  match goal with He : negb _ = false |- _ => apply negb_false_iff, Z.eqb_eq in He; subst sum end.
  do 8 ustep. destruct HA as ((Hcs & Hps & Hb & Ha) & HA). cbn in *. rewrite Hb in *.
  match goal with |- wp _ (match ?x with _ => _ end) _ _ => destruct x as [i|] eqn:Hi end.
  - apply demux_sound in Hi as (c & Hi & _ & Hm & Hfst). rewrite Nat.sub_0_r in Hi.
    pose proof (lookup_lt_Some _ _ _ Hi) as Hlt. rewrite (wf_uip_conns_len s) in Hlt by done.
    pose proof (list_lookup_total_correct _ _ _ Hi) as Hc. rewrite Hcs in Hc. subst c.
    eapply found_spec; [by apply At_stat, HA|done..| |done].
    split; [done|]. split; [split; [by apply conn_matches_spec|done]|].
    intros j Hj Hf%conn_matches_spec. rewrite (Hfst j (uip_conns s0 !!! j)) in Hf; [done|lia|].
    rewrite Nat.sub_0_r, <- Hcs. apply list_lookup_lookup_total_lt. rewrite (wf_uip_conns_len s) by done. clear -Hj Hlt. lia.
  - assert (HA0 : At0 (s, a)) by done.
    do 3 ustep; [eapply reset_spec, At0_0; by at0|]. do 3 ustep.
    2:{ repeat ustep. eapply reset_spec, At0_0. by at0. }
    apply found_listen_spec; [intros i' ?; by apply At_stat, HA|done|intros Hs; by apply Hd|].
    intros i' Hu. apply next_passive_open; try done.
    + intros j Hj Hf%conn_matches_spec.
      rewrite (demux_none _ _ _ _ _ Hi (uip_conns s0 !!! j)) in Hf; [done|]. rewrite <- Hcs.
      apply list_elem_of_lookup. exists j. apply list_lookup_lookup_total_lt.
      rewrite (wf_uip_conns_len s) by done. done.
    + match goal with He : existsb _ _ = true |- _ => apply existsb_exists in He as (p & Hp & ->%Z.eqb_eq) end.
      rewrite <- Hps. by apply list_elem_of_In.
    + match goal with He : negb (Z.land _ _ =? _) = false |- _ =>
        apply negb_false_iff, Z.eqb_eq in He; cbn in He; by rewrite Hb in He end.
Qed.

Lemma icmp_input_spec s a :
  At0 (s, a) → (safe → 0 ≤ uip_len s ≤ 408) →
  uip_ipchksum (uip_buf s) = 0xffff → u8 (uip_buf s) BUF.proto ≠ UIP_PROTO_TCP →
  (uip_hostaddr s0 ≠ all_zeroes_addr → get_ip (uip_buf s) BUF.destipaddr = uip_hostaddr s) →
  wp Ex icmp_input Fin (s, a).
Proof.
  intros HA Hl Hc Hp Hd. assert (Hw := inv_wf _ (at_inv _ _ _ (At0_0 _ HA))).
  assert (Hb : bytes (uip_buf s)) by apply Hw.
  assert (Hlen : length (uip_buf s) = 422%nat) by apply Hw.
  assert (He : ∀ v, uip_hostaddr s0 ≠ all_zeroes_addr →
    let b := put16 ICMPBUF.icmpchksum v (put8 ICMPBUF.type ICMP_ECHO_REPLY (uip_buf s)) in
    emitted (put_ip BUF.srcipaddr (uip_hostaddr s) (put_ip BUF.destipaddr (get_ip b BUF.srcipaddr) b))).
  { intros v Hh b. assert (get_ip b BUF.destipaddr = uip_hostaddr s) as <-.
    { rewrite <- Hd by done. unfold get_ip, u16, b. by u8_simp. }
    split.
    - rewrite ipchksum_swap by (unfold b; buf_len; first [lia | auto with width]).
      unfold b. by rewrite ipchksum_put16, ipchksum_put8 by (cbv; lia).
    - intros Hp'. exfalso. apply Hp. revert Hp'. unfold b. by u8_simp. }
  unfold icmp_input, icmp_reply. repeat ustep; [drop0|..];
    (eapply send_spec; [at_solve; by apply At0_0|done|apply He]).
Qed.

Lemma ip_demux_spec s a :
  is_packet flag → At0 (s, a) → (safe → uip_appdata s = 54%nat ∧ uip_len s = iplen (uip_buf s) ∧ uip_len s ≤ 408 ∧
                       packet_sane (uip_buf s)) →
  (uip_hostaddr s0 ≠ all_zeroes_addr → get_ip (uip_buf s) BUF.destipaddr = uip_hostaddr s) →
  wp Ex ip_demux Fin (s, a).
Proof.
  intros Hpk HA Hd Hh. unfold ip_demux. do 3 ustep; [repeat ustep; drop0|]. do 3 ustep.
  - apply tcp_input_spec; [done..| |].
    + intros Hs. destruct (Hd Hs) as (? & Heq & ? & ? & Ht). destruct Ht as (? & ? & ? & ?); [lia|].
      rewrite Heq. split_and!; try done. lia.
    + intros Hs. by apply Hd.
  - ustep; [repeat ustep; drop0|]. apply icmp_input_spec; [done| |lia|lia|done].
    intros Hs. destruct (Hd Hs) as (? & Heq & ? & ? & ?). lia.
Qed.

Lemma ip_input_spec s a :
  is_packet flag → At0 (s, a) → (safe → uip_appdata s = 54%nat ∧ iplen (uip_buf s) ≤ 408 ∧ packet_sane (uip_buf s)) →
  wp Ex ip_input Fin (s, a).
Proof.
  intros Hpk HA Hd. assert (Hw := inv_wf _ (at_inv _ _ _ (At0_0 _ HA))).
  unfold ip_input, ip_header, ip_dest. do 5 ustep; [repeat ustep; drop0|]. do 5 ustep; [drop0|].
  do 7 ustep; [repeat ustep; drop0|]. do 5 ustep; [repeat ustep; drop0|].
  apply ip_demux_spec; [done|at0|..]; cbn in *.
  2:{ intros Hh. assert (uip_hostaddr s = uip_hostaddr s0) as Hhs.
      { pose proof (at_static _ _ _ (At0_0 _ HA)) as Hst. by injection Hst. }
      match goal with He : _ && _ = false |- _ => apply andb_false_iff in He as [He|He];
        apply negb_false_iff, uip_ipaddr_cmp_eq in He; congruence end. }
  intros Hs. destruct (Hd Hs) as (? & ? & ?).
  assert (Hi : is_u16 (iplen (uip_buf s))) by apply iplen_u16, Hw.
  rewrite wrap16_id by done. by split_and!.
Qed.

(** *** Timer and poll *)

Lemma rexmit_spec i st s a (c := uip_conns s !!! i) :
  At i st (s, a) → app_ready s → uip_len s = 0 →
  (nrtx c = UIP_MAXRTX ∨ (tcpstateflags c ∈ [UIP_SYN_SENT; UIP_SYN_RCVD] ∧ nrtx c = UIP_MAXSYNRTX) →
   tcp_next flag s0 a0 i UIP_CLOSED) →
  wp Ex (rexmit i) Fin (s, a).
Proof.
  intros HA Hr Hl Hgone. assert (Hr' : ∀ f, app_ready (s <| uip_flags := f |>)).
  { intros f Hs. split; [by apply Hr|]. cbn. lia. }
  unfold rexmit. do 3 ustep.
  { do 5 ustep. eapply app_spec; [at_solve; eapply (At_conn _ _ UIP_CLOSED); [at_solve| |good_solve]|apply Hr'|].
    { apply Hgone. match goal with He : _ || _ = true |- _ => rename He into Hor end.
      apply orb_true_iff in Hor as [Hn%Z.eqb_eq|[[Hc%Z.eqb_eq|Hc%Z.eqb_eq]%orb_true_iff Hn%Z.eqb_eq]%andb_true_iff];
      [by left|right..]; (split; [|done]); subst c; rewrite Hc; solve [repeat constructor]. }
    intros s1 a1 HA1 _ _. repeat ustep. eapply tcp_send_nodata_spec. at_solve. }
  repeat ustep; (assert (HA1 : At i st (s <| uip_conns ::= alter (λ c,
    c <| timer := wrap8 (Z.shiftl UIP_RTO (if 4 <? nrtx c then 4 else nrtx c)) |>
      <| nrtx := wrap8 (nrtx c + 1) |>) i |>, a))
    by (eapply At_conn_same; [done|good_solve; apply wrap8_u8])).
  - eapply tcp_send_synack_spec. by apply At_stat.
  - eapply tcp_send_syn_spec. by apply At_put8, At_stat.
  - eapply app_spec; [by apply At_flags; [apply At_stat|]|apply Hr'|].
    intros. by eapply apprexmit_spec.
  - eapply tcp_send_finack_spec. by apply At_stat.
  - eapply drop_spec. by apply At_stat.
Qed.

Lemma b4_incr_wf q : is_b4 q → is_b4 (b4_incr q).
Proof.
  intros (? & ? & ? & ?). unfold b4_incr, acc_carry2, acc_carry1.
  unfold is_b4. repeat case_match; split_and!; cbn; first [done | apply wrap8_u8].
Qed.

Lemma timer_wrap t : is_u8 t → wrap8 (t + 1) = UIP_TIME_WAIT_TIMEOUT → t = UIP_TIME_WAIT_TIMEOUT - 1.
Proof. unfold is_u8, wrap8, UIP_TIME_WAIT_TIMEOUT. intros. dlia. Qed.

Lemma timer_fired_spec i st s a :
  At i st (s, a) → was i st → uip_conns s = uip_conns s0 → a = a0 → ticked flag s0 i →
  (safe → uip_appdata s = 54%nat) → wp Ex (timer_fired i) Fin (s, a).
Proof.
  intros HA Hw Hcs Ha Ht Hd. destruct (At_conn_good _ _ _ _ HA) as [Hg Hst].
  assert (Hup : ∀ f, alter f i (uip_conns s) !!! i = f (uip_conns s0 !!! i)).
  { intros f. rewrite Hcs. rewrite list_lookup_total_alt, list_lookup_alter_eq.
    rewrite list_lookup_lookup_total_lt; [done|]. rewrite <- Hcs, (wf_uip_conns_len s) by apply HA.
    exact (at_idx _ _ _ HA). }
  unfold timer_fired. do 8 ustep.
  assert (HA1 : At i st (s <| iss ::= b4_incr |> <| uip_len := wrap16 0 |> <| uip_slen := wrap16 0 |>, a)).
  { at_solve. apply At_iss; [done|apply b4_incr_wf]. }
  assert (HAt : ∀ k, At i st (s <| iss ::= b4_incr |> <| uip_len := wrap16 0 |> <| uip_slen := wrap16 0 |>
    <| uip_conns ::= alter (λ c, c <| timer := wrap8 (timer c + k) |>) i |>, a)).
  { intros k. eapply At_conn_same; [done|good_solve; apply wrap8_u8]. }
  ustep; [repeat ustep|].
  { eapply drop_spec. eapply (At_conn _ _ UIP_CLOSED); [apply HAt| |good_solve].
    cbn [uip_conns set_field] in *.
    match goal with He : (_ =? UIP_TIME_WAIT_TIMEOUT) = true |- _ =>
      apply Z.eqb_eq in He; rewrite Hup in He; apply timer_wrap in He end.
    - apply next_wait_over; [done| |done]. rewrite Hcs in *.
      match goal with He : _ || _ = true |- _ => by rewrite orb_true_iff, !Z.eqb_eq in He end.
    - rewrite Hcs in Hg. apply Hg. }
  { eapply drop_spec, HAt. }
  ustep; [repeat ustep|by eapply drop_spec].
  - eapply rexmit_spec; [apply HAt|by intros Hs; split; [apply Hd|]|done|].
    cbn [uip_conns set_field] in *. rewrite Hup. intros Hn. rewrite Hcs in *.
    repeat match goal with
    | He : _ || _ = false |- _ => apply orb_false_iff in He as [?%Z.eqb_neq ?%Z.eqb_neq]
    | He : negb _ = true |- _ => apply negb_true_iff, Z.eqb_neq in He
    | He : (timer _ =? 0) = true |- _ => apply Z.eqb_eq in He
    end.
    apply next_given_up; try done. rewrite !not_elem_of_cons. split_and!; [done..|apply not_elem_of_nil].
  - eapply drop_spec, HAt.
  - cbn [uip_conns set_field] in *. rewrite ts_mask in * by apply Hg.
    match goal with He : (_ =? UIP_ESTABLISHED) = true |- _ => apply Z.eqb_eq in He; rename He into Hest end.
    rewrite Hcs in Hest. destruct Ht as [Hf Hsel].
    eapply app_appsend_spec; [| |done|done|intros ?; split; [by apply Hd|done]].
    + apply At_flags; [|done]. by rewrite <- Hest, Hw.
    + apply called_polled; [done|by intros [_ ?]|done|]. by rewrite <- Hcs.
  - by eapply drop_spec.
Qed.

Lemma poll_request_spec i st s a :
  At i st (s, a) → uip_conns s = uip_conns s0 → a = a0 → flag = UIP_POLL_REQUEST →
  uip_conn s0 = Some i → (safe → uip_appdata s = 54%nat) → wp Ex (poll_request i) Fin (s, a).
Proof.
  intros HA Hcs Ha Hf Hsel Hd. destruct (At_conn_good _ _ _ _ HA) as [Hg Hst].
  unfold poll_request. repeat ustep; [|by eapply drop_spec].
  match goal with He : _ && _ = true |- _ => rename He into Hor end.
  apply andb_true_iff in Hor as [Hest Ho]. rewrite ts_mask in Hest by apply Hg.
  apply Z.eqb_eq in Hest. rewrite Hest in Hst. rewrite Hcs in *. subst st.
  eapply app_appsend_spec; [at_solve| |done|done|intros ?; split; [by apply Hd|done]].
  apply called_polled; [done|by intros [? _]|done|]. by apply negb_true_iff.
Qed.

(** What a call of [uip_process] relies on to access memory correctly. *)
Definition call_ok (a : A) : Prop :=
  app_inv a ∧
  if (flag =? UIP_POLL_REQUEST) || (flag =? UIP_TIMER) then uip_conn s0 ≠ None
  else iplen (uip_buf s0) ≤ 408 ∧ packet_sane (uip_buf s0).

Lemma uip_process_spec :
  inv_uip s0 → app_wf a0 → (safe → call_ok a0) → wp Ex (uip_process flag) Fin (s0, a0).
Proof.
  intros Hi Haw Hc. set (s1 := s0 <| uip_appdata := 54%nat |> <| uip_sappdata := 54%nat |>).
  assert (HA : At0 (s1, a0)).
  { split; [done|]. intros i Hlt. destruct Hi as [[] ?].
    split; try done; [apply next_stay|by right; auto|]. intros Hs. by apply Hc. }
  assert (Hd : ∀ m, (flag =? UIP_POLL_REQUEST) || (flag =? UIP_TIMER) = true →
    (∀ i, uip_conn s0 = Some i → wp Ex (m i) Fin (s1, a0)) →
    wp Ex (i ← deref_conn; m i) Fin (s1, a0)).
  { intros m Hf Hm. ustep. unfold deref_conn. repeat ustep. cbn.
    destruct (uip_conn s0) as [i|] eqn:Hcn; [by apply Hm|].
    intros Hs. destruct (Hc Hs) as [_ Hcf]. by rewrite Hf in Hcf. }
  assert (Hlt : ∀ i, uip_conn s0 = Some i → (i < UIP_CONNS)%nat) by (apply Hi).
  unfold uip_process. do 2 ustep. fold s1. ustep; [|ustep].
  - apply Hd; [by apply orb_true_iff; left|]. intros i Hci.
    eapply poll_request_spec; [by apply HA, Hlt|done|done|by apply Z.eqb_eq|done|done].
  - apply Hd; [by apply orb_true_iff; right|]. intros i Hci.
    eapply timer_fired_spec; [by apply HA, Hlt|done..| |done]. split; [by apply Z.eqb_eq|done].
  - repeat match goal with He : (_ =? _) = false |- _ => apply Z.eqb_neq in He end.
    apply ip_input_spec; [done|done|]. intros Hs. destruct (Hc Hs) as [_ Hcf].
    rewrite (proj2 (orb_false_iff _ _)) in Hcf by (split; by apply Z.eqb_neq). by destruct Hcf.
Qed.
End invariant.

(** The header checks leave the packet and the host's address to what follows. *)
Lemma ip_header_same {A} (k k' : U (A := A) unit) s x :
  (∀ s', uip_buf s' = uip_buf s → uip_hostaddr s' = uip_hostaddr s → k (s', x) = k' (s', x)) → ip_header k (s, x) = ip_header k' (s, x).
Proof.
  intros Hk. unfold ip_header, UIP_STAT, r8, set_len, upd, gets, mbind, M_bind, getM, modM. cbn [fst snd].
  repeat (case_match; [done|]). by apply Hk.
Qed.

(** A packet that passes them. *)
Lemma ip_header_pass {A} (k : U (A := A) unit) s x :
  u8 (uip_buf s) BUF.vhl = 0x45 → iplen (uip_buf s) ≤ uip_len s → has (u8 (uip_buf s) BUF.ipoffset0) 0x3f = false →
  u8 (uip_buf s) BUF.ipoffset1 = 0 →
  ip_header k (s, x) = k (s <| uip_stat ::= set_field ip_recv (λ x, wrap16 (x + 1)) |> <| uip_len := wrap16 (iplen (uip_buf s)) |>, x).
Proof.
  intros Hv Hl Hf0 Hf1. unfold ip_header, UIP_STAT, r8, set_len, upd, gets, mbind, M_bind, getM, modM.
  cbn [fst snd uip_buf uip_len set_field]. rewrite Hv. cbn [negb Z.eqb Pos.eqb].
  cbn [fst snd uip_buf uip_len set_field]. rewrite (proj2 (Z.leb_le _ _)) by done.
  cbn [negb fst snd uip_buf uip_len set_field]. by rewrite Hf0, Hf1.
Qed.
