(* ===== verification/Ports.v ===== *)
(** * Listening ports and active opens (uip.c: uip_init, uip_listen,
    uip_unlisten, uip_connect)

    The port table as a set of ports, and the choice of a local port and a
    connection for an active open. *)

From S2P Require Import Prelude Bytes Checksum UipState Uip PacketSum UipInv.

(** ** The port table *)

Lemma port_replace_ne old new l : old ∉ l → port_replace old new l = l.
Proof.
  induction l as [|p l IH]; [done|]. rewrite not_elem_of_cons. intros [Hp Hl]. cbn.
  destruct (Z.eqb_spec p old); [done|]. by rewrite IH.
Qed.

Lemma port_replace_in old new l q :
  q ≠ old → q ≠ new → q ∈ port_replace old new l ↔ q ∈ l.
Proof.
  intros H1 H2. induction l as [|p l IH]; [done|]. cbn.
  destruct (Z.eqb_spec p old) as [->|]; rewrite !elem_of_cons; [clear IH; intuition congruence|]. by rewrite IH.
Qed.

Lemma port_replace_new old new l : old ∈ l → new ∈ port_replace old new l.
Proof.
  induction l as [|p l IH]; cbn; [by rewrite elem_of_nil|].
  rewrite elem_of_cons. destruct (Z.eqb_spec p old) as [->|]; [intros _; by left|].
  intros [->|Hl]; [done|]. right. auto.
Qed.

Lemma port_replace_back old new l :
  new ∉ l → port_replace new old (port_replace old new l) = l.
Proof.
  induction l as [|p l IH]; [done|]. rewrite not_elem_of_cons. intros [Hp Hl]. cbn.
  destruct (Z.eqb_spec p old) as [->|]; cbn; [by rewrite Z.eqb_refl|].
  destruct (Z.eqb_spec p new); [congruence|]. by rewrite IH.
Qed.

Lemma port_replace_length old new l : length (port_replace old new l) = length l.
Proof. induction l as [|p l IH]; cbn; [done|]. case_match; cbn; [done|by rewrite IH]. Qed.

Lemma port_replace_u16 old new l :
  is_u16 new → Forall is_u16 l → Forall is_u16 (port_replace old new l).
Proof.
  intros Hn. induction 1 as [|p l Hp Hl IH]; cbn; [done|]. case_match; by constructor.
Qed.

Lemma inv_listenports s f :
  inv_uip s → length (f (uip_listenports s)) = length (uip_listenports s) →
  (Forall is_u16 (uip_listenports s) → Forall is_u16 (f (uip_listenports s))) →
  inv_uip (s <| uip_listenports ::= f |>).
Proof.
  intros [Hwf Hc] Hl Hf. split; [|done]. destruct Hwf. split; cbn; try done; [|by auto].
  by rewrite Hl.
Qed.

Lemma uip_listen_inv p s : is_u16 p → inv_uip s → inv_uip (uip_listen p s).
Proof.
  intros. apply inv_listenports; [done|apply port_replace_length|by apply port_replace_u16].
Qed.
Lemma uip_unlisten_inv p s : inv_uip s → inv_uip (uip_unlisten p s).
Proof.
  intros. apply inv_listenports; [done|apply port_replace_length|by apply port_replace_u16].
Qed.

(** ** The choice of a local port *)

(** The [k]-th port the loop tries, counted from the first one [p]. *)
Definition port_at (p : Z) (k : nat) : Z :=
  let q := p + Z.of_nat k in if 32000 <=? q then q - 32000 + 4096 else q.

Lemma next_lastport_bound p : is_u16 p → 0 ≤ next_lastport p < 32000.
Proof.
  unfold next_lastport, wrap16, is_u16. intros. case_match; [lia|].
  pose proof (Z.mod_pos_bound (p + 1) 65536). lia.
Qed.

Lemma next_port_at p k :
  0 ≤ p < 32000 → (k < 1000)%nat → next_lastport (port_at p k) = port_at p (S k).
Proof.
  intros Hp Hk. unfold port_at, next_lastport, wrap16.
  rewrite Nat2Z.inj_succ.
  destruct (Z.leb_spec 32000 (p + Z.of_nat k)), (Z.leb_spec 32000 (p + Z.succ (Z.of_nat k)));
    rewrite Z.mod_small by lia; case_match; lia.
Qed.

Lemma port_at_inj p j k :
  0 ≤ p < 32000 → (j < 1000)%nat → (k < 1000)%nat → port_at p j = port_at p k → j = k.
Proof. intros Hp Hj Hk. unfold port_at. repeat case_match; lia. Qed.

Lemma port_in_use_spec p cs :
  port_in_use p cs = true ↔ ∃ c, c ∈ cs ∧ tcpstateflags c ≠ UIP_CLOSED ∧ lport c = HTONS p.
Proof.
  unfold port_in_use. rewrite existsb_exists. split.
  - intros (c & Hc & Hb). exists c. rewrite andb_true_iff, negb_true_iff, Z.eqb_neq, Z.eqb_eq in Hb.
    split; [by apply list_elem_of_In|done].
  - intros (c & Hc & Hs & Hp). exists c. split; [by apply list_elem_of_In|].
    by rewrite andb_true_iff, negb_true_iff, Z.eqb_neq, Z.eqb_eq.
Qed.

Lemma iter_port_at p k :
  is_u16 p → (k < 1000)%nat → Nat.iter (S k) next_lastport p = port_at (next_lastport p) k.
Proof.
  intros Hp. pose proof (next_lastport_bound p Hp) as Hb. induction k as [|k IH]; intros Hk.
  - unfold port_at. cbn [Nat.iter nat_rect]. rewrite Z.add_0_r. case_match; lia.
  - rewrite Nat.iter_succ, IH by lia. apply next_port_at; [done|lia].
Qed.

(** The loop, when [ports] has every port that is in use, in network order. *)
Section pick.
Variables (used : Z → bool) (ports : list Z).
Hypothesis Hused : ∀ q, used q = true → HTONS q ∈ ports.

(** The loop returns the first port it tries that is free. *)
Lemma pick_lastport_spec fuel p :
  (∃ k, (k < fuel)%nat ∧ pick_lastport fuel p used = Ok (Nat.iter (S k) next_lastport p) ∧
        used (Nat.iter (S k) next_lastport p) = false) ∨
  ((∀ k, (k < fuel)%nat → used (Nat.iter (S k) next_lastport p) = true) ∧
   pick_lastport fuel p used = Err Diverges).
Proof.
  revert p. induction fuel as [|fuel IH]; intros p; [right; split; [lia|done]|].
  cbn [pick_lastport]. destruct (used (next_lastport p)) eqn:E.
  - destruct (IH (next_lastport p)) as [(k & Hk & Hr & Hf)|[Hall Hr]].
    + left. exists (S k). rewrite Nat.iter_succ_r. split_and!; [lia|done|done].
    + right. split; [|done]. intros [|k] Hk; [done|]. rewrite Nat.iter_succ_r. apply Hall. lia.
  - left. exists 0%nat. split_and!; [lia|done|done].
Qed.

(** [n] ports cannot take [n + 1] different values. *)
Lemma some_port_free p n :
  is_u16 p → (length ports < n)%nat → (n < 1000)%nat →
  ∃ k, (k < n)%nat ∧ used (Nat.iter (S k) next_lastport p) = false.
Proof.
  intros Hp Hlen Hn. pose proof (next_lastport_bound p Hp) as Hb.
  destruct (decide (Forall (λ k, used (port_at (next_lastport p) k) = true) (seq 0 n)))
    as [Hall|Hex].
  - exfalso. set (L := (λ k, HTONS (port_at (next_lastport p) k)) <$> seq 0 n).
    assert (Hnd : NoDup L).
    { apply NoDup_fmap_2_strong; [|apply NoDup_seq]. intros j k Hj%elem_of_seq Hk%elem_of_seq He.
      eapply (port_at_inj (next_lastport p)); [done|lia|lia|].
      apply HTONS_inj; [..|done]; unfold port_at, is_u16; case_match; lia. }
    assert (Hsub : L ⊆ ports).
    { intros q (k & -> & Hk)%list_elem_of_fmap. rewrite list.Forall_forall in Hall. by apply Hused, Hall. }
    pose proof (submseteq_length _ _ (NoDup_submseteq _ _ Hnd Hsub)) as Hle.
    unfold L in Hle. rewrite length_fmap, length_seq in Hle. lia.
  - apply not_Forall_Exists in Hex; [|intros ?; apply _].
    apply list.Exists_exists in Hex as (k & Hk%elem_of_seq & Hu). exists k. split; [lia|].
    rewrite iter_port_at by (done || lia). by apply not_true_is_false.
Qed.

Lemma pick_lastport_ok p n :
  is_u16 p → (length ports < n)%nat → (n < 1000)%nat →
  ∃ q, pick_lastport n p used = Ok q ∧ used q = false ∧ 0 ≤ q < 32000.
Proof.
  intros Hp Hl Hn. destruct (pick_lastport_spec n p) as [(k & Hk & Hr & Hf)|[Hall _]].
  - exists (Nat.iter (S k) next_lastport p). split; [done|split; [done|]].
    rewrite iter_port_at by (done || lia).
    pose proof (next_lastport_bound p Hp). unfold port_at in *. case_match; lia.
  - exfalso. destruct (some_port_free p n) as (k & Hk & Hf); [done..|]. rewrite Hall in Hf; done.
Qed.
End pick.

(** The ports of the connections. *)
Lemma port_in_use_ports cs q : port_in_use q cs = true → HTONS q ∈ lport <$> cs.
Proof. intros (c & Hc & _ & Hl)%port_in_use_spec. apply list_elem_of_fmap. by exists c. Qed.

(** ** Active open *)

Lemma find_unused_none k best cs :
  find_unused k best cs = None → best = None ∧ Forall (λ c, ¬ unused c) cs.
Proof.
  revert k best. induction cs as [|c cs IH]; intros k best; cbn -[Z.eqb].
  { by destruct best. }
  destruct (Z.eqb_spec (tcpstateflags c) UIP_CLOSED); [done|].
  destruct (Z.eqb_spec (tcpstateflags c) UIP_TIME_WAIT).
  - destruct best as [[j y]|]; [case_match|]; by intros [??]%IH.
  - intros [-> Hf]%IH. split; [done|]. constructor; [|done]. by intros [?|?].
Qed.

(** What [uip_connect] leaves in the connection it takes. *)
Record opened (s : uip) (rip : uip_ipaddr_t) (rp p : Z) (c : conn) : Prop := {
  op_state : tcpstateflags c = UIP_SYN_SENT;
  op_lport : lport c = HTONS p;
  op_fresh : ∀ c', c' ∈ uip_conns s → tcpstateflags c' ≠ UIP_CLOSED → lport c' ≠ lport c;
  op_rport : rport c = rp;
  op_ripaddr : ripaddr c = rip;
  op_snd_nxt : snd_nxt c = iss s;
  op_len : len c = 1;
  op_mss : mss c = UIP_TCP_MSS ∧ initialmss c = UIP_TCP_MSS;
  op_timer : timer c = 1 ∧ nrtx c = 0
}.

Lemma uip_connect_spec rip rp s :
  inv_uip s → wf_ip rip → is_u16 rp →
  ∃ r s', uip_connect rip rp s = Ok (r, s') ∧ inv_uip s' ∧ 
    match r with
    | None => Forall (λ c, ¬ unused c) (uip_conns s) ∧ uip_conns s' = uip_conns s
    | Some i => unused (uip_conns s !!! i) ∧ (∀ j, j ≠ i → uip_conns s' !! j = uip_conns s !! j) ∧
                opened s rip rp (lastport s') (uip_conns s' !!! i)
    end.
Proof.
  intros [Hwf Hc] Hrip Hrp. unfold uip_connect.
  destruct (pick_lastport_ok _ _ (port_in_use_ports (uip_conns s)) (lastport s) (S UIP_CONNS)) as (p & -> & Hfree & Hp);
    [apply Hwf|rewrite length_fmap, (wf_uip_conns_len s Hwf); unfold UIP_CONNS; lia|unfold UIP_CONNS; lia|].
  cbv zeta. cbn [uip_conns set_field].
  destruct (find_unused 0 None (uip_conns s)) as [i|] eqn:Hf.
  2:{ apply find_unused_none in Hf as [_ Hf]. eexists _, _. split; [done|]. split; [|done].
      destruct Hwf. split; [|done]. split; cbn; try done. unfold is_u16. lia. }
  apply (find_unused_sound (uip_conns s)) in Hf as (c & Hi & Hu); [|done|done].
  eexists _, _. split; [done|]. cbn [uip_conns lastport set_field].
  match goal with |- context [alter ?g i] => set (f := g) end.
  assert (Hgc : good_conn c) by by eapply (Forall_lookup_1 good_conn).
  assert (Hgf : good_conn (f c)).
  { destruct Hgc as [[] ? ? ? ?], Hwf. split; [split|..]; cbn; try done. apply HTONS_u16. }
  assert (HF : Forall good_conn (alter f i (uip_conns s))).
  { apply Forall_alter; [done|]. intros x Hx _. by simplify_eq. }
  rewrite (list_lookup_total_correct _ _ _ Hi). split; [|split; [done|split]].
  - split; [|done]. destruct Hwf. split; cbn; try done.
    + by rewrite length_alter.
    + eapply Forall_impl; [|exact HF]. by intros ? [].
    + unfold is_u16. lia.
  - intros j Hj. by apply list_lookup_alter_ne.
  - rewrite list_lookup_total_alt, list_lookup_alter_eq, Hi. split; try done.
    intros c' Hc' Hs Hl. cbn in Hl. assert (port_in_use p (uip_conns s) = true); [|congruence].
    apply port_in_use_spec. by exists c'.
Qed.
