(* ===== verification/Options.v ===== *)
(** * The TCP option loop (uip.c, the MSS option of a SYN)

    The loop counter is a [u8_t], so the loop can revisit a position: it
    leaves on well-formed options and runs forever on some malformed ones. *)

From S2P Require Import Prelude Bytes Checksum UipState Uip PacketSum UipInv.

Section options.
Variable b : list Z.
Variable lim : Z.

Definition opt_at (c : Z) : Z := u8 b (BUF.optdata + Z.to_nat c).
Definition optlen_at (c : Z) : Z := u8 b (BUF.optdata + 1 + Z.to_nat c).

(** The options RFC 793 allows: single bytes, or a kind and a length that
    counts both and stays inside the options. *)
Inductive options_wf : Z → Prop :=
  | ow_done c : lim ≤ c → options_wf c
  | ow_end c : opt_at c = TCP_OPT_END → options_wf c
  | ow_noop c : opt_at c = TCP_OPT_NOOP → options_wf (c + 1) → options_wf c
  | ow_opt c : opt_at c ≠ TCP_OPT_NOOP → 2 ≤ optlen_at c → c + optlen_at c ≤ lim →
               options_wf (c + optlen_at c) → options_wf c.

(** One iteration of the loop: leave with a value, or go on at a position. *)
Definition opt_step (c : Z) : option Z + Z :=
  if c <? lim then
    if opt_at c =? TCP_OPT_END then inl None
    else if opt_at c =? TCP_OPT_NOOP then inr (wrap8 (c + 1))
    else if (opt_at c =? TCP_OPT_MSS) && (optlen_at c =? TCP_OPT_MSS_LEN) then
      let tmp16 := Z.lor (Z.shiftl (u8 b (BUF.optdata + 2 + Z.to_nat c)) 8)
                         (u8 b (BUF.optdata + 3 + Z.to_nat c)) in
      inl (Some (if UIP_TCP_MSS <? tmp16 then UIP_TCP_MSS else tmp16))
    else if optlen_at c =? 0 then inl None
    else inr (wrap8 (c + optlen_at c))
  else inl None.

Lemma parse_mss_step fuel c :
  parse_mss (S fuel) b lim c =
  match opt_step c with inl r => Ok r | inr c' => parse_mss fuel b lim c' end.
Proof.
  cbn [parse_mss]. unfold opt_step, opt_at, optlen_at. rewrite Nat.add_0_r.
  by repeat case_match.
Qed.

(** The positions the loop visits from [c] before it leaves with [r]. *)
Inductive visits (r : option Z) : Z → list Z → Prop :=
  | visits_last c : opt_step c = inl r → visits r c [c]
  | visits_next c c' l : opt_step c = inr c' → visits r c' l → visits r c (c :: l).

Lemma parse_mss_visits fuel c r :
  parse_mss fuel b lim c = Ok r ↔ ∃ l, visits r c l ∧ (length l ≤ fuel)%nat.
Proof.
  split.
  - revert c. induction fuel as [|fuel IH]; intros c; [done|]. rewrite parse_mss_step.
    destruct (opt_step c) as [r'|c'] eqn:E.
    + intros [= ->]. exists [c]. split; [by constructor|cbn; lia].
    + intros (l & Hl & Hle)%IH. exists (c :: l). split; [by econstructor|cbn; lia].
  - intros (l & Hv & Hle). revert fuel Hle.
    induction Hv as [c E|c c' l E Hv IH]; intros [|fuel]; cbn [length]; intros Hle; try lia;
      rewrite parse_mss_step, E; [done|]. apply IH. lia.
Qed.

(** A run is determined by where it starts, so it never repeats a position. *)
Lemma visits_det r r' c l l' : visits r c l → visits r' c l' → l = l'.
Proof.
  intros Hv. revert l'. induction Hv as [c E|c c' l E Hv IH]; intros l' Hv'; inversion Hv'; subst;
    [done|congruence|congruence|]. f_equal. apply IH. congruence.
Qed.

Lemma visits_suffix r c l x : visits r c l → x ∈ l → ∃ l', visits r x l' ∧ (length l' ≤ length l)%nat.
Proof.
  induction 1 as [c E|c c' l E Hv IH].
  - intros ->%list_elem_of_singleton. exists [c]. split; [by constructor|done].
  - intros [->|Hx]%elem_of_cons.
    + exists (c :: l). split; [by econstructor|done].
    + destruct (IH Hx) as (l' & ? & ?). exists l'. split; [done|cbn; lia].
Qed.

Lemma visits_nodup r c l : visits r c l → NoDup l.
Proof.
  induction 1 as [c E|c c' l E Hv IH]; [apply NoDup_singleton|]. constructor; [|done].
  intros Hin. destruct (visits_suffix _ _ _ _ Hv Hin) as (l' & Hl' & Hle).
  assert (Hcl : visits r c (c :: l)) by (by econstructor).
  rewrite (visits_det _ _ _ _ _ Hl' Hcl) in Hle. cbn in Hle. lia.
Qed.

Lemma opt_step_u8 c c' : opt_step c = inr c' → is_u8 c'.
Proof. unfold opt_step. repeat case_match; intros [= <-]; apply wrap8_u8. Qed.

Lemma visits_u8 r c l : is_u8 c → visits r c l → Forall is_u8 l.
Proof.
  intros Hc Hv. revert Hc. induction Hv as [c E|c c' l E Hv IH]; intros Hc; [by apply Forall_singleton|].
  constructor; [done|]. by eapply IH, opt_step_u8.
Qed.

Lemma visits_bound r c l : is_u8 c → visits r c l → (length l ≤ 256)%nat.
Proof.
  intros Hc Hv. pose proof (visits_u8 _ _ _ Hc Hv) as Hu.
  assert (Hsub : l ⊆ Z.of_nat <$> seq 0 256).
  { intros x Hx. rewrite list.Forall_forall in Hu. specialize (Hu x Hx). unfold is_u8 in Hu.
    apply list_elem_of_fmap. exists (Z.to_nat x). split; [lia|]. apply elem_of_seq. lia. }
  pose proof (submseteq_length _ _ (NoDup_submseteq _ _ (visits_nodup _ _ _ Hv) Hsub)) as Hle.
  by rewrite length_fmap, length_seq in Hle.
Qed.

(** More fuel than [mss_fuel] never helps. *)
Lemma mss_fuel_enough fuel r : parse_mss fuel b lim 0 = Ok r → parse_mss mss_fuel b lim 0 = Ok r.
Proof.
  rewrite !parse_mss_visits. intros (l & Hv & _). exists l. split; [done|].
  assert (length l ≤ 256)%nat by (eapply visits_bound; [|done]; unfold is_u8; lia).
  unfold mss_fuel. lia.
Qed.

(** Well-formed options end the loop. *)
Lemma options_wf_ends c :
  0 ≤ c → lim ≤ 255 → options_wf c → ∃ r fuel, parse_mss fuel b lim c = Ok r.
Proof.
  intros Hc Hlim Hw. revert Hc.
  assert (Hend : ∀ c r, opt_step c = inl r → ∃ r fuel, parse_mss fuel b lim c = Ok r).
  { intros x r Hx. exists r, 1%nat. by rewrite parse_mss_step, Hx. }
  assert (Hgo : ∀ c c', opt_step c = inr c' → (∃ r fuel, parse_mss fuel b lim c' = Ok r) →
                        ∃ r fuel, parse_mss fuel b lim c = Ok r).
  { intros x y Hx (r & fuel & Hr). exists r, (S fuel). by rewrite parse_mss_step, Hx. }
  induction Hw as [c Hd|c He|c Hn Hw IH|c Hn Hl Hin Hw IH]; intros Hc;
    destruct (opt_step c) as [r|c'] eqn:E; try (by eapply Hend);
    (eapply Hgo; [done|]); revert E; unfold opt_step; repeat case_match; try done; try lia;
    intros [= <-]; (rewrite wrap8_id; [apply IH; lia|unfold is_u8; lia]).
Qed.
End options.

(** A SYN with no-operation, then an option of kind 3 and length 255: the
    counter goes 0, 1, 256 mod 256 = 0, and the loop never leaves. *)
Lemma parse_mss_loops b lim :
  2 ≤ lim → opt_at b 0 = TCP_OPT_NOOP → opt_at b 1 = 3 → optlen_at b 1 = 255 →
  ∀ fuel, parse_mss fuel b lim 0 = Err Diverges ∧ parse_mss fuel b lim 1 = Err Diverges.
Proof.
  intros Hlim H0 H1 Hl. assert (E0 : opt_step b lim 0 = inr 1).
  { unfold opt_step. rewrite H0, (proj2 (Z.ltb_lt _ _)) by lia. done. }
  assert (E1 : opt_step b lim 1 = inr 0).
  { unfold opt_step. rewrite H1, Hl, (proj2 (Z.ltb_lt _ _)) by lia. done. }
  induction fuel as [|fuel [IH0 IH1]]; [done|]. by rewrite !parse_mss_step, E0, E1.
Qed.
