(* ===== verification/Httpd.v ===== *)
(** * The application behind uIP: the socket flags (httpd.c)

    [httpd_appcall] is the function [UIP_APPCALL] names.  It turns the events
    in [uip_flags] into the [httpd_socket_*] globals, which the network server
    reads and writes (sys_net.c), and sends what the server left for it. *)

From S2P Require Import Prelude Bytes Checksum UipState Uip UipInv.

(** The globals of httpd.c; the [int] flags are tested against zero. *)
Record httpd := mk_httpd {
  httpd_socket_conn_open : Z;
  httpd_socket_conn_pending : Z;
  httpd_socket_conn_closed : Z;
  httpd_socket_rx_len : Z;
  httpd_socket_rx_buf : list Z;
  httpd_socket_tx_len : Z;
  httpd_socket_tx_pending : Z;
  httpd_socket_tx_buf : list Z;
  httpd_socket_close_pending : Z
}.
#[export] Instance httpd_settable : Settable httpd :=
  settable! mk_httpd <httpd_socket_conn_open; httpd_socket_conn_pending;
    httpd_socket_conn_closed; httpd_socket_rx_len; httpd_socket_rx_buf;
    httpd_socket_tx_len; httpd_socket_tx_pending; httpd_socket_tx_buf;
    httpd_socket_close_pending>.

Definition httpd0 : httpd :=
  mk_httpd 0 0 0 0 (replicate UIP_BUFSIZE 0) 0 0 (replicate UIP_BUFSIZE 0) 0.

(** ** The application's view of [uip_flags] (uip.h) *)

Definition uip_newdata (s : uip) : bool := has (uip_flags s) UIP_NEWDATA.
Definition uip_acked (s : uip) : bool := has (uip_flags s) UIP_ACKDATA.
Definition uip_connected (s : uip) : bool := has (uip_flags s) UIP_CONNECTED.
Definition uip_closed (s : uip) : bool := has (uip_flags s) UIP_CLOSE.
Definition uip_aborted (s : uip) : bool := has (uip_flags s) UIP_ABORT.
Definition uip_timedout (s : uip) : bool := has (uip_flags s) UIP_TIMEDOUT.
Definition uip_rexmit (s : uip) : bool := has (uip_flags s) UIP_REXMIT.
Definition uip_poll (s : uip) : bool := has (uip_flags s) UIP_POLL.
Definition uip_datalen (s : uip) : Z := uip_len s.
Definition uip_close {A} : U (A := A) unit := set_flags UIP_CLOSE.

(** ** [httpd_appcall] *)

Definition H : Type → Type := M (uip * httpd).
Definition getg {X} (f : httpd → X) : H X := getM (λ x, f x.2).
Definition updg (f : httpd → httpd) : H unit := modM (λ x, (x.1, f x.2)).

Definition when (b : bool) (m : H unit) : H unit := if b then m else mret tt.

(** [memcpy(httpd_socket_rx_buf, uip_appdata, rx_len)] and the length. *)
Definition take_data : H unit :=
  n ← gets uip_datalen;
  let rx_len := if Z.of_nat UIP_BUFSIZE <? n then Z.of_nat UIP_BUFSIZE else n in
  p ← gets uip_appdata;
  b ← gets uip_buf;
  let k := Z.to_nat rx_len in
  if (p + k <=? length b)%nat then
    updg (λ g, g <| httpd_socket_rx_buf ::= put_bytes 0 (slice p k b) |>);;
    updg (λ g, g <| httpd_socket_rx_len := rx_len |>)
  else fail OutOfBounds.

Definition httpd_appcall : H unit :=
  connected ← gets uip_connected;
  when connected (updg (λ g, g <| httpd_socket_conn_open := 1 |>
                               <| httpd_socket_conn_pending := 1 |>
                               <| httpd_socket_conn_closed := 0 |>));;
  gone ← gets (λ s, uip_closed s || uip_aborted s || uip_timedout s);
  when gone (updg (λ g, g <| httpd_socket_conn_open := 0 |>
                          <| httpd_socket_conn_pending := 0 |>
                          <| httpd_socket_conn_closed := 1 |>));;
  new ← gets uip_newdata;
  when new take_data;;
  acked ← gets uip_acked;
  when acked (updg (λ g, g <| httpd_socket_tx_pending := 0 |>
                           <| httpd_socket_tx_len := 0 |>));;
  closing ← getg httpd_socket_close_pending;
  when (negb (closing =? 0))
    (uip_close;; updg (λ g, g <| httpd_socket_close_pending := 0 |>));;
  pending ← getg httpd_socket_tx_pending;
  event ← gets (λ s, uip_poll s || uip_acked s || uip_rexmit s || uip_newdata s);
  when (negb (pending =? 0) && event)
    (data ← getg httpd_socket_tx_buf;
     n ← getg httpd_socket_tx_len;
     uip_send data n).

#[export] Instance httpd_app : UipApp httpd := httpd_appcall.

(** ** The contract *)

Record wf_httpd (g : httpd) : Prop := {
  wf_rx_len : length (httpd_socket_rx_buf g) = UIP_BUFSIZE;
  wf_rx : bytes (httpd_socket_rx_buf g);
  wf_rx_n : 0 ≤ httpd_socket_rx_len g ≤ 420;
  wf_tx_len : length (httpd_socket_tx_buf g) = UIP_BUFSIZE;
  wf_tx : bytes (httpd_socket_tx_buf g)
}.

(** What is to be sent fits the payload of [uip_buf]. *)
Definition tx_fits (g : httpd) : Prop := httpd_socket_tx_len g ≤ 368.

Section rules.
Context (E : fault → Prop).
Implicit Types (s : uip) (g : httpd).

Lemma wp_updg f (Q : unit → uip * httpd → Prop) s g : Q tt (s, f g) → wp E (updg f) Q (s, g).
Proof. done. Qed.
Lemma wp_getg {X} (f : httpd → X) (Q : X → uip * httpd → Prop) s g :
  Q (f g) (s, g) → wp E (getg f) Q (s, g).
Proof. done. Qed.

Lemma wp_skip (m : H unit) (Q : unit → uip * httpd → Prop) x : Q tt x → wp E (when false m) Q x.
Proof. done. Qed.

(** A conditional block that keeps an assertion. *)
Lemma wp_when (b : bool) (m : H unit) (P : uip * httpd → Prop) (Q : unit → uip * httpd → Prop) x :
  P x → (b = true → wp E m (λ _ x, P x) x) → (∀ x, P x → Q tt x) → wp E (when b m) Q x.
Proof.
  intros HP Hm HQ. destruct b; [|by apply HQ].
  eapply wp_mono; [|by apply Hm]. intros [] ?. apply HQ.
Qed.
End rules.

(** The state before the sending step: only [uip_flags] changed in uIP. *)
Record pre_send (s : uip) (g : httpd) (x : uip * httpd) : Prop := {
  ps_uip : x.1 = s <| uip_flags := uip_flags x.1 |>;
  ps_flags : is_u8 (uip_flags x.1);
  ps_wf : wf_httpd x.2;
  ps_fits : tx_fits g → tx_fits x.2
}.

Lemma pre_send_frame s g x : wf_uip s → pre_send s g x → app_frame s x.1.
Proof.
  intros [] [Heq Hf _ _]. destruct x as [s' g']. cbn in *.
  set (f := uip_flags s') in *. clearbody f. subst s'. by split; try destruct s.
Qed.

Lemma take_data_spec E s g x :
  wf_uip s → pre_send s g x →
  ((uip_appdata s = 54%nat ∧ uip_len s ≤ 368) ∨ E OutOfBounds) →
  wp E take_data (λ _ x, pre_send s g x) x.
Proof.
  intros [] [Heq Hf [] Ht] Hs. destruct x as [s' g']. cbn in *.
  unfold take_data. do 6 ustep. ustep.
  2:{ destruct Hs as [[Ha Hl]|Hs]; [|done]. rewrite Heq in *. cbn in *.
      match goal with Hlt : (_ <=? _)%nat = false |- _ => apply Nat.leb_gt in Hlt end.
      unfold uip_datalen in *. cbn in *. repeat case_match; lia. }
  rewrite Heq. cbn [uip_buf uip_appdata set_field]. ustep. apply wp_updg, wp_updg.
  split; cbn; try done. split; cbn; try done; [by buf_len|apply put_bytes_bytes; [by apply slice_bytes|done]|].
  unfold uip_datalen, UIP_BUFSIZE, is_u16 in *. cbn. destruct (Z.ltb_spec (Z.of_nat 420) (uip_len s)); lia.
Qed.

Lemma uip_send_frame (E : fault → Prop) s s' n data (g : httpd) (Q : unit → uip * httpd → Prop) :
  wf_uip s → app_frame s s' → uip_sappdata s = 54%nat → bytes data →
  (n ≤ 368 ∧ (368 ≤ length data)%nat ∨ E OutOfBounds) →
  (∀ s'', app_frame s s'' → Q tt (s'', g)) → wp E (uip_send data n) Q (s', g).
Proof.
  intros Hwf Hfr Hs Hb Hn HQ. assert (Hs' : uip_sappdata s' = 54%nat).
  { by rewrite (af_eq _ _ Hfr). }
  unfold uip_send. repeat ustep; [| |by apply HQ].
  - apply HQ. cbn [uip_sappdata uip_slen set_field]. rewrite Hs'.
    destruct Hfr as [Heq Hl Hh Hby Hsl Hfl]. split; cbn; try done.
    + rewrite Heq at 1. done.
    + by buf_len.
    + intros o Ho. rewrite u8_put_bytes_ne by lia. by apply Hh.
    + apply put_bytes_bytes; [by apply Forall_take|done].
    + apply wrap16_u16.
  - destruct Hn as [[Hn Hd]|]; [|done]. exfalso. cbn [uip_sappdata uip_slen uip_buf set_field] in *.
    match goal with Hlt : _ && _ = false |- _ => revert Hlt end.
    match goal with Hlt : (_ <? _) = true |- _ => apply Z.ltb_lt in Hlt end.
    rewrite Hs', (af_len _ _ Hfr), (wf_buf_len _ Hwf), wrap16_id by (unfold is_u16; lia).
    unfold UIP_BUFSIZE. rewrite !(proj2 (Nat.leb_le _ _)) by lia. done.
Qed.

Lemma pre_send_g s g s1 g1 g2 :
  pre_send s g (s1, g1) → httpd_socket_rx_buf g2 = httpd_socket_rx_buf g1 →
  httpd_socket_rx_len g2 = httpd_socket_rx_len g1 →
  httpd_socket_tx_buf g2 = httpd_socket_tx_buf g1 → (tx_fits g1 → tx_fits g2) →
  pre_send s g (s1, g2).
Proof.
  intros [? ? [] ?] Hr Hn Ht Hf. cbn in *. split; cbn; auto. by split; cbn; rewrite ?Hr, ?Hn, ?Ht.
Qed.

Lemma httpd_appcall_law s g :
  wf_uip s → uip_sappdata s = 54%nat → wf_httpd g →
  wp (λ _, ¬ app_safe tx_fits s g) httpd_appcall
     (λ _ x, app_frame s x.1 ∧ wf_httpd x.2 ∧ (tx_fits g → tx_fits x.2)) (s, g).
Proof.
  intros Hwf Hsd Hg.
  assert (H0 : pre_send s g (s, g)) by (split; try done; [by destruct s|apply Hwf]).
  set (P x := pre_send s g x ∧ x.1 = s).
  unfold httpd_appcall. do 3 ustep. apply (wp_when _ _ _ P); [done|intros _|].
  { apply wp_updg. split; [by eapply pre_send_g|done]. }
  intros [s1 g1] [H1 Hs1]. cbn in Hs1. subst s1. do 3 ustep.
  apply (wp_when _ _ _ P); [done|intros _|].
  { apply wp_updg. split; [by eapply pre_send_g|done]. }
  clear g1 H1. intros [s1 g1] [H1 Hs1]. cbn in Hs1. subst s1. do 3 ustep.
  apply (wp_when _ _ _ (pre_send s g)); [done|..].
  { intros Hnew. apply take_data_spec; [done..|].
    destruct (decide (uip_appdata s = 54%nat ∧ uip_len s ≤ 368)) as [|Hn]; [by left|right].
    intros (_ & Ha & Hl). apply Hn. split; [done|by apply Hl]. }
  intros [s2 g2] H2. do 3 ustep. apply (wp_when _ _ _ (pre_send s g)); [done|intros _|].
  { apply wp_updg. by eapply pre_send_g. }
  clear s2 g2 H2. intros [s2 g2] H2. ustep. apply wp_getg. ustep.
  apply (wp_when _ _ _ (pre_send s g)); [done|intros _|].
  { unfold uip_close. do 2 ustep. apply wp_updg. apply (pre_send_g _ _ _ g2); [|done..].
    destruct H2 as [Heq ? ? ?]. split; cbn in *; try done. by rewrite Heq. }
  clear s2 g2 H2. intros [s2 g2] H2. ustep. apply wp_getg. do 2 ustep.
  apply (wp_when _ _ _ (λ x, app_frame s x.1 ∧ wf_httpd x.2 ∧ (tx_fits g → tx_fits x.2))); [..|done].
  { split; [by eapply pre_send_frame|]. by destruct H2. }
  intros _. ustep. apply wp_getg. ustep. apply wp_getg.
  eapply uip_send_frame; [done|by eapply (pre_send_frame _ _ (s2, g2))|done|apply H2|..].
  - destruct (decide (tx_fits g2)); [left|right].
    + split; [done|]. rewrite (wf_tx_len g2) by apply H2. unfold UIP_BUFSIZE. lia.
    + intros (Hfit & _ & _). by apply H2 in Hfit.
  - intros s'' Hf. split; [done|]. by destruct H2.
Qed.

#[export] Instance httpd_laws : UipAppLaws httpd := {|
  app_wf := wf_httpd;
  app_inv := tx_fits;
  app_law := httpd_appcall_law
|}.
