(* ===== verification/Flow.v ===== *)
(** * Data through the stack

    What a segment with data does to the receiving application: the way from
    [uip_process] to [httpd_appcall]. *)

From S2P Require Import Prelude Bytes Checksum UipState Uip PacketSum UipInv Httpd.

(** ** Operations that leave the application and [rcv_nxt] alone *)

Definition rcvs (s : uip) : list bytes4 := rcv_nxt <$> uip_conns s.

Section keeps.
Context {A : Type}.

Definition keeps {X} (m : M (uip * A) X) : Prop :=
  ∀ s a, wp anyfault m (λ _ x, x.2 = a ∧ rcvs x.1 = rcvs s) (s, a).

Lemma keeps_ret {X} (v : X) : keeps (mret v).
Proof. done. Qed.
Lemma keeps_bind {X Y} (m : M (uip * A) X) (f : X → M (uip * A) Y) :
  keeps m → (∀ v, keeps (f v)) → keeps (m ≫= f).
Proof.
  intros Hm Hf s a. apply wp_bind. eapply wp_mono; [|apply Hm].
  intros v [s' a'] [Ha Hr]. cbn in *. subst a'. rewrite <- Hr. apply Hf.
Qed.
Lemma keeps_if {X} (b : bool) (m1 m2 : M (uip * A) X) :
  keeps m1 → keeps m2 → keeps (if b then m1 else m2).
Proof. by destruct b. Qed.
Lemma keeps_gets {X} (f : uip → X) : keeps (gets f).
Proof. done. Qed.
Lemma keeps_liftr {X} (f : uip → res X) : keeps (liftr f).
Proof. intros s a. unfold wp, liftr. cbn. by destruct (f s). Qed.
Lemma keeps_upd f : (∀ s, uip_conns (f s) = uip_conns s) → keeps (upd f).
Proof. intros Hf s a. unfold wp, upd, modM. cbn. unfold rcvs. by rewrite Hf. Qed.
Lemma keeps_connw i f : (∀ c, rcv_nxt (f c) = rcv_nxt c) → keeps (connw i f).
Proof.
  intros Hf s a. unfold wp, connw, upd, modM. cbn. split; [done|]. unfold rcvs. cbn.
  apply list_eq. intros j. rewrite !list_lookup_fmap.
  destruct (decide (i = j)) as [->|]; [|by rewrite list_lookup_alter_ne].
  rewrite list_lookup_alter_eq. destruct (uip_conns s !! j); cbn; [|done]. by rewrite Hf.
Qed.
End keeps.

Ltac head_of t := lazymatch t with ?f _ => head_of f | _ => t end.
Ltac keep_step :=
  lazymatch goal with
  | |- keeps (mbind _ _) => apply keeps_bind; [|intros ?]
  | |- keeps (if _ then _ else _) => apply keeps_if
  | |- keeps (mret _) => apply keeps_ret
  | |- keeps (gets _) => apply keeps_gets
  | |- keeps (liftr _) => apply keeps_liftr
  | |- keeps (connr _) => apply keeps_gets
  | |- keeps (r8 _) => apply keeps_gets
  | |- keeps (connw _ _) => apply keeps_connw; done
  | |- keeps (set_state _ _) => apply keeps_connw; done
  | |- keeps (upd _) => apply keeps_upd; done
  | |- keeps (w8 _ _) => apply keeps_upd; done
  | |- keeps (w16 _ _) => apply keeps_upd; done
  | |- keeps (wb4 _ _) => apply keeps_upd; done
  | |- keeps (wip _ _) => apply keeps_upd; done
  | |- keeps (set_len _) => apply keeps_upd; done
  | |- keeps (set_slen _) => apply keeps_upd; done
  | |- keeps (set_flags _) => apply keeps_upd; done
  | |- keeps (UIP_STAT _) => apply keeps_upd; done
  | |- keeps ?m => let h := head_of m in unfold h; cbv beta zeta
  end.

Lemma appsend_keeps {A} i : keeps (A := A) (appsend i).
Proof. repeat keep_step. Qed.

(** ** Receiving *)

Lemma has_lor f m k : has m k = true → has (Z.lor f m) k = true.
Proof.
  unfold has. rewrite !negb_true_iff, !Z.eqb_neq, Z.land_lor_distr_l, Z.lor_eq_0_iff. tauto.
Qed.

Definition rx_is (n : nat) (data : list Z) (g0 g : httpd) : Prop :=
  httpd_socket_rx_len g = Z.of_nat n ∧
  httpd_socket_rx_buf g = put_bytes 0 data (httpd_socket_rx_buf g0).

(** New data is copied to the receive buffer, whatever else happens. *)
Lemma httpd_newdata s g n :
  uip_newdata s = true → uip_len s = Z.of_nat n → (n ≤ 420)%nat →
  wp anyfault httpd_appcall
    (λ _ x, rx_is n (slice (uip_appdata s) n (uip_buf s)) g x.2 ∧ rcvs x.1 = rcvs s) (s, g).
Proof.
  intros Hnew Hl Hn.
  set (P0 x := x.1 = s ∧ httpd_socket_rx_buf x.2 = httpd_socket_rx_buf g).
  set (P x := rx_is n (slice (uip_appdata s) n (uip_buf s)) g x.2 ∧ rcvs x.1 = rcvs s).
  unfold httpd_appcall. do 3 ustep. apply (wp_when _ _ _ P0); [done|done|].
  intros [s1 g1] [Hs1 Hg1]. cbn in Hs1, Hg1. subst s1. do 3 ustep.
  apply (wp_when _ _ _ P0); [done|done|]. clear g1 Hg1.
  intros [s1 g1] [Hs1 Hg1]. cbn in Hs1, Hg1. subst s1. do 3 ustep. rewrite Hnew.
  assert (Ht : wp anyfault take_data (λ _ x, P x) (s, g1)).
  { unfold take_data. do 6 ustep. unfold uip_datalen. rewrite Hl.
    destruct (Z.ltb_spec (Z.of_nat UIP_BUFSIZE) (Z.of_nat n)) as [Hlt|_];
      [unfold UIP_BUFSIZE in Hlt; lia|]. rewrite Nat2Z.id. ustep; [|done]. ustep. apply wp_updg, wp_updg. unfold P, rx_is. cbn.
    by rewrite Hg1. }
  eapply wp_mono; [|exact Ht]. clear g1 Hg1 Ht. intros [] [s1 g1] H1. do 3 ustep.
  apply (wp_when _ _ _ P); [done|done|]. clear s1 g1 H1. intros [s1 g1] H1.
  ustep. apply wp_getg. ustep. apply (wp_when _ _ _ P); [done|done|].
  clear s1 g1 H1. intros [s1 g1] H1. ustep. apply wp_getg. do 2 ustep.
  apply (wp_when _ _ _ P); [done| |done]. intros _. ustep. apply wp_getg. ustep. apply wp_getg.
  unfold uip_send. repeat ustep; done.
Qed.

(** An in-order data segment of an established connection of this host. *)
Record data_segment (s : uip) (i n : nat) : Prop := {
  ds_vhl : u8 (uip_buf s) BUF.vhl = 0x45;
  ds_len : iplen (uip_buf s) ≤ uip_len s ∧ iplen (uip_buf s) ≤ 408;
  ds_frag0 : has (u8 (uip_buf s) BUF.ipoffset0) 0x3f = false;
  ds_frag1 : u8 (uip_buf s) BUF.ipoffset1 = 0;
  ds_dest : get_ip (uip_buf s) BUF.destipaddr = uip_hostaddr s;
  ds_ipchk : uip_ipchksum (uip_buf s) = 0xffff;
  ds_proto : u8 (uip_buf s) BUF.proto = UIP_PROTO_TCP;
  ds_tcpchk : uip_tcpchksum (uip_buf s) = Ok 0xffff;
  ds_conn : demux (u16 (uip_buf s) BUF.destport) (u16 (uip_buf s) BUF.srcport)
              (get_ip (uip_buf s) BUF.srcipaddr) 0 (uip_conns s) = Some i;
  ds_state : tcpstateflags (uip_conns s !!! i) = UIP_ESTABLISHED;
  ds_rst : has (u8 (uip_buf s) BUF.flags) TCP_RST = false;
  ds_fin : has (u8 (uip_buf s) BUF.flags) TCP_FIN = false;
  ds_urg : has (u8 (uip_buf s) BUF.flags) TCP_URG = false;
  ds_seq : get_b4 (uip_buf s) BUF.seqno = rcv_nxt (uip_conns s !!! i);
  ds_hlen : hlen (uip_buf s) = 20;
  ds_data : iplen (uip_buf s) = 40 + Z.of_nat n ∧ (0 < n)%nat
}.

Section receive.
Variables (s0 : uip) (g0 : httpd) (i n : nat).
Hypothesis Hseg : data_segment s0 i n.
Hypothesis Hinv : inv_uip s0.

(** What the call has kept when the connection's state is examined. *)
Record Rx (s : uip) : Prop := {
  rx_buf : uip_buf s = uip_buf s0;
  rx_len : uip_len s = Z.of_nat n;
  rx_appdata : uip_appdata s = 54%nat;
  rx_conn : uip_conn s = Some i;
  rx_idx : (i < length (uip_conns s))%nat;
  rx_rcv : rcvs s = rcvs s0;
  rx_state : tcpstateflags (uip_conns s !!! i) = UIP_ESTABLISHED
}.

(** The segment was delivered and accounted for. *)
Definition Delivered (_ : unit) (x : uip * httpd) : Prop :=
  rx_is n (slice 54 n (uip_buf s0)) g0 x.2 ∧
  rcvs x.1 = alter (λ q, uip_add32 q (Z.of_nat n)) i (rcvs s0).

Lemma in_established_rx s : Rx s → wp anyfault (in_established i) Delivered (s, g0).
Proof.
  intros [Hb Hl Ha Hc Hx Hr Hst]. destruct Hseg as [_ _ _ _ _ _ _ _ _ _ _ Hfin Hurg _ _ [Hil Hn]].
  assert (H420 : (n ≤ 420)%nat) by (pose proof (ds_len _ _ _ Hseg); lia).
  rewrite <- Hb in Hfin, Hurg. unfold in_established. do 4 ustep. rewrite Hfin, Hurg, Hst. cbn [andb].
  do 5 ustep. rewrite Hl, (proj2 (Z.ltb_lt 0 (Z.of_nat n))) by lia. cbn [andb].
  change (negb (has UIP_ESTABLISHED UIP_STOPPED)) with true. cbv iota.
  do 2 ustep. unfold uip_add_rcv_nxt. ustep. apply (wp_deref_conn _ i); [done|].
  repeat ustep; cbn [uip_flags set_field] in *.
  2:{ match goal with He : has _ _ = false |- _ => by rewrite has_lor in He end. }
  eapply wp_mono; [|apply (httpd_newdata _ _ n)]; cbn [uip_len uip_appdata uip_buf set_field]; [|..|done|done].
  - intros [] [s1 g1] [Hrx Hr1]. eapply wp_mono; [|apply appsend_keeps].
    intros [] [s2 g2] [Hg2 Hr2]. cbn [fst snd] in *. subst g2. split; cbn [fst snd]; [by rewrite <- Ha, <- Hb|].
    rewrite Hr2, Hr1. unfold rcvs in *. cbn [uip_conns set_field].
    rewrite (list_fmap_alter rcv_nxt _ (λ q, q)) by (by apply Forall_true).
    rewrite (list_fmap_alter rcv_nxt _ (λ q, uip_add32 q (Z.of_nat n))), Hr.
    + by apply list_alter_id.
    + apply Forall_true. intros c. cbn. by rewrite wrap16_id by (unfold is_u16; lia).
  - by apply has_lor.
Qed.

Lemma found_ack_rx s :
  Rx s → wp anyfault (found_ack i) (λ _ x, Rx x.1 ∧ x.2 = g0) (s, g0).
Proof.
  intros HR. unfold found_ack. repeat ustep; [|done..]. split; [|done].
  destruct HR as [Hb Hl Ha Hc Hx Hr Hst]. split; cbn [fst uip_buf uip_len uip_appdata uip_conn uip_conns set_field]; try done.
  - by rewrite !length_alter.
  - unfold rcvs in *. cbn [uip_conns set_field].
    rewrite !(list_fmap_alter rcv_nxt _ (λ q, q)); [by rewrite !list_alter_id|..]; apply Forall_true; intros c; [|done].
    unfold rtt_update. by case_match.
  - destruct (lookup_lt_is_Some_2 _ _ Hx) as [c Hcx].
    rewrite list_lookup_total_alt, !list_lookup_alter_eq, Hcx in *. cbn in *.
    apply list_lookup_total_correct in Hcx. subst c.
    unfold rtt_update. by case_match.
Qed.

Lemma found_rx s :
  uip_buf s = uip_buf s0 → uip_len s = iplen (uip_buf s0) → uip_appdata s = 54%nat →
  uip_conns s = uip_conns s0 → wp anyfault (found i) Delivered (s, g0).
Proof.
  intros Hb Hl Ha Hcs. destruct Hseg as [_ _ _ _ _ _ _ _ Hdm Hst Hrst _ _ Hseq Hhl [Hil Hn]].
  unfold found. do 7 ustep; cbn [uip_buf set_field] in *; [by rewrite Hb, Hrst in *|].
  do 13 ustep; cbn [uip_buf uip_conns uip_len set_field] in *.
  { exfalso. match goal with He : out_of_sequence _ _ _ _ = true |- _ => revert He end.
    unfold out_of_sequence. rewrite Hb, Hcs, Hseq, bool_decide_eq_true_2, andb_false_r by done. done. }
  rewrite Hb, Hl, Hil. change (wrap8 _) with (hlen (uip_buf s0)). rewrite Hhl.
  ustep. apply wp_mono with (λ _ x, Rx x.1 ∧ x.2 = g0).
  - intros [] [s1 g1] [HR Hg]. cbn in Hg. subst g1. unfold tcp_state. do 2 ustep.
    cbn [fst] in HR. rewrite (rx_state _ HR). cbn. by apply in_established_rx.
  - apply found_ack_rx. split; cbn [uip_buf uip_len uip_appdata uip_conn uip_conns set_field]; try done.
    + unfold UIP_IPH_LEN. rewrite wrap16_id by (pose proof (ds_len _ _ _ Hseg); unfold is_u16; lia). lia.
    + rewrite Hcs. apply demux_sound in Hdm as (c & Hc & _). rewrite Nat.sub_0_r in Hc. by eapply lookup_lt_Some.
    + unfold rcvs. cbn. by rewrite Hcs.
    + by rewrite Hcs.
Qed.

Lemma uip_input_rx : wp anyfault uip_input Delivered (s0, g0).
Proof.
  pose proof Hseg as [Hv [Hl _] Hf0 Hf1 Hd Hc Hp Ht Hdm _ _ _ _ _ _ [Hil Hn]].
  assert (Hle : (iplen (uip_buf s0) <=? uip_len s0) = true) by by apply Z.leb_le.
  assert (Hcmp : uip_ipaddr_cmp (get_ip (uip_buf s0) BUF.destipaddr) (uip_hostaddr s0) = true)
    by by apply uip_ipaddr_cmp_eq.
  unfold uip_input, uip_process. do 4 ustep; [done|done|].
  unfold ip_input, ip_header, ip_dest. do 5 ustep; [dead Hv|]. do 5 ustep; [dead Hle|].
  do 7 ustep; [dead Hf0; dead Hf1|]. do 5 ustep; [dead Hcmp|].
  unfold ip_demux. do 3 ustep; [dead Hc|]. do 3 ustep; [|dead Hp].
  unfold tcp_input. do 3 ustep. apply wp_liftr; [|done].
  intros sum Hs. cbn [uip_buf set_field] in Hs. rewrite Ht in Hs. injection Hs as <-.
  ustep; [done|]. do 8 ustep. cbn [uip_buf uip_conns set_field]. rewrite Hdm.
  apply found_rx; try done. cbn [uip_len set_field].
  rewrite wrap16_id; [done|]. pose proof (ds_len _ _ _ Hseg). unfold is_u16; lia.
Qed.
End receive.
