(* ===== verification/TcpSeg.v ===== *)
(** * TCP segments between two hosts

    What [tcp_send_noopts] leaves to send, what a segment of the stack looks like
    ([segment]), and that it survives the trip into another host's packet buffer,
    whatever Ethernet header is put before it. *)

From S2P Require Import Prelude Bytes Checksum UipState Uip PacketSum UipInv.

(** ** What a sent segment says of its connection *)

(** The header fields of a segment of connection [c] in the buffer [b]. *)
Record segment_of (s : uip) (c : conn) (b : list Z) : Prop := {
  so_src : get_ip b BUF.srcipaddr = uip_hostaddr s;
  so_dest : get_ip b BUF.destipaddr = ripaddr c;
  so_srcport : u16 b BUF.srcport = lport c;
  so_destport : u16 b BUF.destport = rport c;
  so_seqno : get_b4 b BUF.seqno = snd_nxt c;
  so_ackno : get_b4 b BUF.ackno = rcv_nxt c
}.

(** The reads [segment_of] makes lie outside the fields the last writes fill. *)
Definition seg_blind (o : nat) : Prop := (o < 26 ∨ 46 ≤ o)%nat.

Lemma segment_of_put8 s c b o v : seg_blind o → segment_of s c b → segment_of s c (put8 o v b).
Proof.
  unfold seg_blind. intros Ho [H1 H2 H3 H4 H5 H6].
  split; [rewrite <- H1|rewrite <- H2|rewrite <- H3|rewrite <- H4|rewrite <- H5|rewrite <- H6];
    unfold get_ip, get_b4, u16; rewrite !u8_put8_ne; try done;
    unfold BUF.srcipaddr, BUF.destipaddr, BUF.srcport, BUF.destport, BUF.seqno, BUF.ackno; lia.
Qed.
Lemma segment_of_put16 s c b o v :
  seg_blind o → seg_blind (S o) → segment_of s c b → segment_of s c (put16 o v b).
Proof. intros. unfold put16. apply segment_of_put8; [done|]. by apply segment_of_put8. Qed.

Lemma segment_of_written s c b :
  length b = 422%nat → wf_conn c → wf_ip (uip_hostaddr s) →
  segment_of s c
    (put_ip BUF.destipaddr (ripaddr c) (put_ip BUF.srcipaddr (uip_hostaddr s)
      (put16 BUF.destport (rport c) (put16 BUF.srcport (lport c) (put8 BUF.proto UIP_PROTO_TCP
        (put_b4 BUF.seqno (snd_nxt c) (put_b4 BUF.ackno (rcv_nxt c) b))))))).
Proof.
  intros Hl [] Hh.
  assert (Hu : ∀ o v b', (S o < length b')%nat → is_u16 v → u16 (put16 o v b') o = v).
  { intros. rewrite u16_put16_eq by done. by apply wrap16_id. }
  split.
  - unfold get_ip, u16. rewrite !(u8_put_ip_ne BUF.destipaddr) by offsets.
    apply get_put_ip; [buf_len; rewrite Hl; offsets|done].
  - apply get_put_ip; [buf_len; rewrite Hl; offsets|done].
  - unfold u16 at 1. u8_simp. apply Hu; [buf_len; rewrite Hl; offsets|done].
  - unfold u16 at 1. u8_simp. apply Hu; [buf_len; rewrite Hl; offsets|done].
  - unfold get_b4. u8_simp. apply get_put_b4; [buf_len; rewrite Hl; offsets|done].
  - unfold get_b4. u8_simp. apply get_put_b4; [rewrite Hl; offsets|done].
Qed.

Lemma slice_put_b4_ne o n o' q b :
  (o' + 4 ≤ o ∨ o + n ≤ o')%nat → slice o n (put_b4 o' q b) = slice o n b.
Proof. intros. unfold put_b4. by rewrite !slice_put8_ne by lia. Qed.

(** What a sent segment looks like: the headers are the connection's, and what
    follows them is left as it was. *)
Record sent {A} (s : uip) (a : A) (i : nat) (x : uip * A) : Prop := {
  st_app : x.2 = a;
  st_len : uip_len x.1 = uip_len s;
  st_conns : uip_conns x.1 = uip_conns s;
  st_hdr : segment_of s (uip_conns s !!! i) (uip_buf x.1);
  st_flags : u8 (uip_buf x.1) BUF.flags = u8 (uip_buf s) BUF.flags;
  st_data : ∀ n, slice 54 n (uip_buf x.1) = slice 54 n (uip_buf s)
}.

Lemma sent_put8 {A} s (a : A) i s' a' o v :
  seg_blind o → (o < 54)%nat → o ≠ BUF.flags → sent s a i (s', a') →
  sent s a i (s' <| uip_buf ::= put8 o v |>, a').
Proof.
  intros Hb Ho Hf [H1 H2 H3 H4 H5 H6].
  split; cbn [fst snd uip_buf uip_len uip_conns set_field] in *; try done.
  - by apply segment_of_put8.
  - by rewrite u8_put8_ne.
  - intros n. by rewrite slice_put8_ne by lia.
Qed.
Lemma sent_put16 {A} s (a : A) i s' a' o v :
  seg_blind o → seg_blind (S o) → (S o < 54)%nat → o ≠ BUF.flags → S o ≠ BUF.flags →
  sent s a i (s', a') → sent s a i (s' <| uip_buf ::= put16 o v |>, a').
Proof.
  intros. assert (s' <| uip_buf ::= put16 o v |> = s' <| uip_buf ::= put8 o (wrap16 v mod 256) |>
    <| uip_buf ::= put8 (S o) (wrap16 v / 256) |>) as -> by reflexivity.
  apply sent_put8; [done..|].
  apply sent_put8; [done|lia|done|done].
Qed.
Lemma sent_other {A} s (a : A) i s' s'' a' :
  uip_len s'' = uip_len s' → uip_conns s'' = uip_conns s' → uip_buf s'' = uip_buf s' →
  sent s a i (s', a') → sent s a i (s'', a').
Proof. intros Hl Hc Hb [H1 H2 H3 H4 H5 H6]. by split; cbn [fst snd] in *; rewrite ?Hl, ?Hc, ?Hb. Qed.

Ltac sent_solve :=
  repeat lazymatch goal with
  | |- sent _ _ _ (_ <| uip_buf ::= put8 _ _ |>, _) => apply sent_put8; [by cbv; lia|offsets|done|]
  | |- sent _ _ _ (_ <| uip_buf ::= put16 _ _ |>, _) =>
      apply sent_put16; [by cbv; lia|by cbv; lia|offsets|done|done|]
  | |- sent _ _ _ (?s <| uip_stat ::= _ |>, _) => apply (sent_other _ _ _ s); [done..|]
  | |- sent _ _ _ (?s <| uip_flags := _ |>, _) => apply (sent_other _ _ _ s); [done..|]
  | |- sent _ _ _ (?s <| ipid ::= _ |>, _) => apply (sent_other _ _ _ s); [done..|]
  end.

Lemma tcp_send_out {A} i s (a : A) :
  length (uip_buf s) = 422%nat → wf_conn (uip_conns s !!! i) → wf_ip (uip_hostaddr s) →
  wp anyfault (tcp_send i) (λ _ x, sent s a i x) (s, a).
Proof.
  intros Hlen Hc Hh.
  unfold tcp_send, tcp_send_noconn, ip_send_nolen, send.
  do 19 ustep. match goal with |- wp _ _ _ (?s', _) => assert (HS : sent s a i (s', a)); [|generalize dependent s'] end.
  { split; cbn [fst snd uip_buf uip_len uip_conns uip_hostaddr set_field]; try done.
    - apply segment_of_written; [by buf_len|done|done].
    - by u8_simp.
    - intros n. by rewrite !slice_put_ip_ne, !slice_put16_ne, !slice_put8_ne, !slice_put_b4_ne by offsets. }
  intros s1 HS. repeat ustep; (apply wp_liftr; [|done]; intros sum _; repeat ustep; sent_solve; done).
Qed.

Lemma tcp_send_noopts_out {A} i s (a : A) :
  length (uip_buf s) = 422%nat → wf_conn (uip_conns s !!! i) → wf_ip (uip_hostaddr s) →
  wp anyfault (tcp_send_noopts i) (λ _ x, sent s a i x) (s, a).
Proof.
  intros Hlen Hc Hh. unfold tcp_send_noopts. do 2 ustep.
  match goal with |- wp _ _ _ (?s', _) => eapply wp_mono; [|apply (tcp_send_out i s' a)] end;
    [|cbn [uip_buf set_field]; by buf_len|done|done].
  intros [] x [H1 H2 H3 H4 H5 H6]. split; try done.
  - by destruct H4.
  - rewrite H5. cbn [uip_buf set_field]. by rewrite u8_put8_ne by offsets.
  - intros n. rewrite H6. cbn [uip_buf set_field]. by rewrite slice_put8_ne by offsets.
Qed.

(** ** Segments *)

(** The fields of the headers that say what a segment is. *)
Record tcp_hdr := mk_hdr {
  h_src : uip_ipaddr_t;
  h_dest : uip_ipaddr_t;
  h_srcport : Z;
  h_destport : Z;
  h_seq : bytes4;
  h_ack : bytes4;
  h_flags : Z
}.

(** The headers of a packet of [n] bytes without IP options, the window being the
    stack's own; [off] gives the length of the TCP header, [plain] without options. *)
Record plain_at (off n : Z) (b : list Z) : Prop := {
  pl_vhl : u8 b BUF.vhl = 0x45;
  pl_len : iplen b = n;
  pl_frag0 : u8 b BUF.ipoffset0 = 0;
  pl_frag1 : u8 b BUF.ipoffset1 = 0;
  pl_proto : u8 b BUF.proto = UIP_PROTO_TCP;
  pl_offset : u8 b BUF.tcpoffset = off;
  pl_wnd0 : u8 b BUF.wnd0 = Z.shiftr UIP_RECEIVE_WINDOW 8;
  pl_wnd1 : u8 b BUF.wnd1 = Z.land UIP_RECEIVE_WINDOW 0xff
}.
Arguments pl_len {off}.
Arguments pl_offset {off}.
Abbreviation plain := (plain_at 0x50).

(** The buffer [b] holds the segment with header [h] and payload [data]; the TCP
    options, when [off] says that there are some, are the first part of [data]. *)
Record segment_at (off : Z) (h : tcp_hdr) (data : list Z) (b : list Z) : Prop := {
  sg_plain : plain_at off (40 + Z.of_nat (length data)) b;
  sg_src : get_ip b BUF.srcipaddr = h_src h;
  sg_dest : get_ip b BUF.destipaddr = h_dest h;
  sg_srcport : u16 b BUF.srcport = h_srcport h;
  sg_destport : u16 b BUF.destport = h_destport h;
  sg_seq : get_b4 b BUF.seqno = h_seq h;
  sg_ack : get_b4 b BUF.ackno = h_ack h;
  sg_flags : u8 b BUF.flags = h_flags h;
  sg_data : slice 54 (length data) b = data;
  sg_sums : emitted b
}.
Arguments sg_plain {off}.
Arguments sg_src {off}.
Arguments sg_dest {off}.
Arguments sg_srcport {off}.
Arguments sg_destport {off}.
Arguments sg_seq {off}.
Arguments sg_ack {off}.
Arguments sg_flags {off}.
Arguments sg_data {off}.
Arguments sg_sums {off}.
Abbreviation segment := (segment_at 0x50).

(** ** The trip to the other host

    [uip_arp_out] puts a 14-byte Ethernet header before the packet and the driver
    sends header and packet; the receiver's driver copies the frame to the front
    of its [uip_buf]. *)

Definition on_wire (eth : list Z) (s : uip) : list Z :=
  eth ++ slice 14 (Z.to_nat (uip_len s)) (uip_buf s).

Definition emit (eth : list Z) (s : uip) : option (list Z) :=
  if 0 <? uip_len s then Some (on_wire eth s) else None.

Definition receive (f : list Z) (s : uip) : uip :=
  s <| uip_buf ::= put_bytes 0 f |> <| uip_len := wrap16 (Z.of_nat (length f)) |>.

(** Two buffers that agree on a packet of [n] bytes. *)
Definition agree (n : nat) (b b' : list Z) : Prop :=
  length b = 422%nat ∧ length b' = 422%nat ∧ (14 + n ≤ 422)%nat ∧ slice 14 n b' = slice 14 n b.

Lemma slice_slice o n o' n' (b : list Z) :
  (o' + n' ≤ n)%nat → slice o' n' (slice o n b) = slice (o + o') n' b.
Proof.
  intros Hn. unfold slice. rewrite skipn_firstn_comm, drop_drop, take_take. f_equal. lia.
Qed.

Section agree.
Variables (n : nat) (b b' : list Z).
Hypothesis Hag : agree n b b'.

Lemma agree_slice o k : (14 ≤ o)%nat → (o + k ≤ 14 + n)%nat → slice o k b' = slice o k b.
Proof.
  intros Ho Hk. destruct Hag as (_ & _ & _ & Hs). replace o with (14 + (o - 14))%nat by lia.
  rewrite <- !(slice_slice 14 n) by lia. by rewrite Hs.
Qed.

Lemma agree_u8 o : (14 ≤ o < 14 + n)%nat → u8 b' o = u8 b o.
Proof.
  intros Ho. pose proof (agree_slice o 1 ltac:(lia) ltac:(lia)) as Hs. destruct Hag as (H1 & H2 & H3 & _).
  assert (∀ l : list Z, length l = 422%nat → slice o 1 l = [u8 l o]) as Hone.
  { intros l Hl. unfold slice, u8. destruct (lookup_lt_is_Some_2 l o) as [x Hx]; [lia|].
    by rewrite (drop_S _ _ _ Hx), (list_lookup_total_correct _ _ _ Hx). }
  rewrite !Hone in Hs by done. by injection Hs.
Qed.

Lemma agree_iplen : (4 ≤ n)%nat → iplen b' = iplen b.
Proof. intros. unfold iplen. by rewrite !agree_u8 by (unfold BUF.len0, BUF.len1; lia). Qed.

Lemma agree_ipchksum : (20 ≤ n)%nat → uip_ipchksum b' = uip_ipchksum b.
Proof. intros. unfold uip_ipchksum. by rewrite agree_slice by (unfold UIP_LLH_LEN; lia). Qed.

Lemma agree_upper proto :
  (20 + Z.to_nat (upper_layer_len b) ≤ n)%nat → upper_layer_chksum proto b' = upper_layer_chksum proto b.
Proof.
  intros Hn. assert (El : upper_layer_len b' = upper_layer_len b) by (unfold upper_layer_len; by rewrite agree_iplen by lia).
  unfold upper_layer_chksum. rewrite El. destruct Hag as (-> & -> & _). by rewrite !agree_slice by (unfold BUF.srcipaddr; lia).
Qed.

Lemma agree_segment {off} h data : (40 + length data)%nat = n → segment_at off h data b → segment_at off h data b'.
Proof.
  intros Hn [[] Hsrc Hdst Hsp Hdp Hq Ha Hf Hd [Hi Ht]].
  assert (Hu : ∀ o, (14 ≤ o < 54)%nat → u8 b' o = u8 b o) by (intros; apply agree_u8; lia).
  split; [split|..]; unfold get_ip, get_b4, u16 in *; rewrite ?agree_iplen, ?Hu by (cbv; lia); try done.
  - by rewrite agree_slice by lia.
  - split; [by rewrite agree_ipchksum by lia|].
    rewrite Hu by (cbv; lia). intros Hp. rewrite <- (Ht Hp). apply agree_upper.
    unfold upper_layer_len. rewrite pl_len0. unfold UIP_IPH_LEN. destruct Hag as (? & ? & ? & _).
    rewrite wrap16_id; unfold is_u16; lia.
Qed.
End agree.

(** A frame with the segment: it is in any buffer the frame is received into. *)
Definition framed_at (off : Z) (h : tcp_hdr) (data f : list Z) : Prop :=
  length f = (54 + length data)%nat ∧ (length data ≤ 368)%nat ∧ bytes f ∧
  segment_at off h data (put_bytes 0 f (replicate 422 0)).
Abbreviation framed_seg := (framed_at 0x50).

Lemma slice_put_front f b n :
  length f = (14 + n)%nat → (14 + n ≤ length b)%nat → slice 14 n (put_bytes 0 f b) = skipn 14 f.
Proof.
  intros Hf Hb. assert (slice 0 (14 + n) (put_bytes 0 f b) = f) as E.
  { rewrite slice_put_bytes by lia. apply take_ge. lia. }
  rewrite <- E at 2. unfold slice. rewrite drop_0, skipn_firstn_comm. f_equal. lia.
Qed.

Lemma agree_received f b b' n :
  length f = (14 + n)%nat → (14 + n ≤ 422)%nat → length b = 422%nat → length b' = 422%nat →
  agree n (put_bytes 0 f b) (put_bytes 0 f b').
Proof.
  intros Hf Hn Hb Hb'. unfold agree. rewrite !length_put_bytes. split_and!; [done..|].
  by rewrite !slice_put_front by lia.
Qed.

Lemma received_segment {off} h data f s :
  framed_at off h data f → length (uip_buf s) = 422%nat → segment_at off h data (uip_buf (receive f s)).
Proof.
  intros (Hl & Hd & _ & Hs) Hb. eapply (agree_segment (40 + length data)); [|done|exact Hs].
  apply agree_received; [lia|lia|by rewrite length_replicate|done].
Qed.

(** What is left to send is what the peer's buffer gets. *)
Lemma on_wire_framed {off} h data eth s :
  length eth = 14%nat → bytes eth → length (uip_buf s) = 422%nat → bytes (uip_buf s) →
  uip_len s = 40 + Z.of_nat (length data) → (length data ≤ 368)%nat →
  segment_at off h data (uip_buf s) → framed_at off h data (on_wire eth s).
Proof.
  intros He Hbe Hl Hb Hn Hd Hs. assert (Hlen : length (on_wire eth s) = (54 + length data)%nat).
  { unfold on_wire. rewrite length_app, length_slice by lia. lia. }
  split; [done|]. split; [done|]. split.
  { unfold on_wire. apply Forall_app. split; [done|]. by apply slice_bytes. }
  apply (agree_segment (40 + length data) (uip_buf s)); [|done|done].
  split; [done|]. split; [by rewrite length_put_bytes, length_replicate|]. split; [lia|].
  rewrite slice_put_front by (rewrite ?length_replicate; lia). unfold on_wire.
  rewrite drop_app_length' by done. by replace (Z.to_nat (uip_len s)) with (40 + length data)%nat by lia.
Qed.

Lemma receive_len {off} h data f s :
  framed_at off h data f → uip_len (receive f s) = 54 + Z.of_nat (length data).
Proof.
  intros (Hl & Hd & _). unfold receive. cbn [uip_len set_field]. rewrite wrap16_id; unfold is_u16; lia.
Qed.

(** ** What [tcp_send_noopts] leaves *)

(** The header of a segment that connection [c] of [s] sends. *)
Definition hdr_of (s : uip) (c : conn) (flags : Z) : tcp_hdr :=
  mk_hdr (uip_hostaddr s) (ripaddr c) (lport c) (rport c) (snd_nxt c) (rcv_nxt c) flags.

Lemma tcp_send_plain {A} i s (a : A) :
  length (uip_buf s) = 422%nat → is_u16 (uip_len s) →
  has (tcpstateflags (uip_conns s !!! i)) UIP_STOPPED = false →
  wp anyfault (tcp_send i) (λ _ x, plain_at (u8 (uip_buf s) BUF.tcpoffset) (uip_len s) (uip_buf x.1)) (s, a).
Proof.
  intros Hlen Hn Hst. unfold tcp_send, tcp_send_noconn, ip_send_nolen, send.
  do 20 ustep.
  { exfalso. cbn [uip_conns set_field] in *. congruence. }
  repeat ustep. apply wp_liftr; [|done]. intros sum _. repeat ustep. cbn [fst uip_buf uip_len set_field].
  split; try (unfold u16; u8_simp; try done; rewrite u8_put8_eq by (buf_len; rewrite Hlen; offsets); done).
  unfold iplen. u8_simp. rewrite !u8_put8_eq by (buf_len; rewrite Hlen; offsets). by apply u16_split.
Qed.

(** The checksums aside, [tcp_send_noopts] leaves the connection's segment with
    the flags and the payload that were in the buffer. *)
Record wrote_at (off : Z) (h : tcp_hdr) (data : list Z) (b : list Z) : Prop := {
  wr_plain : plain_at off (40 + Z.of_nat (length data)) b;
  wr_src : get_ip b BUF.srcipaddr = h_src h;
  wr_dest : get_ip b BUF.destipaddr = h_dest h;
  wr_srcport : u16 b BUF.srcport = h_srcport h;
  wr_destport : u16 b BUF.destport = h_destport h;
  wr_seq : get_b4 b BUF.seqno = h_seq h;
  wr_ack : get_b4 b BUF.ackno = h_ack h;
  wr_flags : u8 b BUF.flags = h_flags h;
  wr_data : slice 54 (length data) b = data
}.
Abbreviation wrote := (wrote_at 0x50).

Lemma wrote_segment {off} h data b : wrote_at off h data b → emitted b → segment_at off h data b.
Proof. by intros []. Qed.

Lemma wrote_data_of s c fl data b :
  wrote (hdr_of s c fl) data b → segment_of s c b ∧ slice 54 (length data) b = data.
Proof. by intros []. Qed.

(** A state in which connection [i] may send. *)
Record sendable (s : uip) (i : nat) : Prop := {
  se_buf : length (uip_buf s) = 422%nat;
  se_conn : good_conn (uip_conns s !!! i);
  se_host : wf_ip (uip_hostaddr s)
}.

Lemma good_running c : good_conn c → has (tcpstateflags c) UIP_STOPPED = false.
Proof.
  intros [_ Hst _ _ _]. set (t := tcpstateflags c) in *. clearbody t.
  assert (t = 0 ∨ t = 1 ∨ t = 2 ∨ t = 3 ∨ t = 4 ∨ t = 5 ∨ t = 6 ∨ t = 7 ∨ t = 8) as Hc by lia.
  by destruct_or! Hc; subst t.
Qed.

(** From [s] on, connection [i] sent [data] with the flags [fl], and nothing else
    happened. *)
Definition sends_at {A} (off : Z) (s : uip) (i : nat) (fl : Z) (data : list Z) (a : A) (x : uip * A) : Prop :=
  x.2 = a ∧ uip_len x.1 = 40 + Z.of_nat (length data) ∧ uip_conns x.1 = uip_conns s ∧
  wrote_at off (hdr_of s (uip_conns s !!! i) fl) data (uip_buf x.1).

Abbreviation sends := (sends_at 0x50).

Lemma tcp_send_sends {A} i s (a : A) n fl off :
  sendable s i → uip_len s = 40 + Z.of_nat n → u8 (uip_buf s) BUF.flags = fl → u8 (uip_buf s) BUF.tcpoffset = off →
  (n ≤ 368)%nat → wp anyfault (tcp_send i) (λ _ x, sends_at off s i fl (slice 54 n (uip_buf s)) a x) (s, a).
Proof.
  intros [Hb Hc Hh] Hn Hf Ho Hle. assert (Hl : is_u16 (uip_len s)) by (unfold is_u16; lia).
  assert (length (slice 54 n (uip_buf s)) = n) as Hd by (apply length_slice; lia).
  eapply wp_mono; [|apply wp_and;
    [apply tcp_send_out; [done|apply Hc|done]|apply tcp_send_plain; [done..|by apply good_running]]].
  intros [] [s1 a1] [[H1 H2 H3 [] H5 H6] Hp]. cbn [fst snd] in *. rewrite Ho in Hp.
  split; [done|]. split; [by rewrite Hd, <- Hn|]. split; [done|].
  split; cbn [hdr_of h_src h_dest h_srcport h_destport h_seq h_ack h_flags]; rewrite ?Hd; try done.
  - by rewrite <- Hn.
  - cbn [fst]. by rewrite H5.
Qed.

Lemma tcp_send_noopts_sends {A} i s (a : A) n fl :
  sendable s i → uip_len s = 40 + Z.of_nat n → u8 (uip_buf s) BUF.flags = fl → (n ≤ 368)%nat →
  wp anyfault (tcp_send_noopts i) (λ _ x, sends s i fl (slice 54 n (uip_buf s)) a x) (s, a).
Proof.
  intros [Hb Hc Hh] Hn Hf Hle. unfold tcp_send_noopts. do 2 ustep.
  match goal with |- wp _ _ _ (?s', _) => pose proof (tcp_send_sends i s' a n fl 0x50) as Hs end.
  cbn [uip_buf set_field] in Hs. rewrite slice_put8_ne in Hs by offsets. apply Hs; [|done| | |done].
  - split; [cbn [uip_buf set_field]; by buf_len|done|done].
  - by rewrite u8_put8_ne by offsets.
  - rewrite u8_put8_eq; [done|]. rewrite Hb. offsets.
Qed.

(** A segment without data: the acknowledgement. *)
Lemma tcp_send_ack_sends {A} i s (a : A) :
  sendable s i → wp anyfault (tcp_send_ack i) (λ _ x, sends s i TCP_ACK [] a x) (s, a).
Proof.
  intros [Hb Hc Hh]. unfold tcp_send_ack, tcp_send_nodata. do 4 ustep.
  match goal with |- wp _ _ _ (?s', _) => pose proof (tcp_send_noopts_sends i s' a 0 TCP_ACK) as Hs end.
  apply Hs; cbn [uip_buf set_field]; [split; [by cbn [uip_buf set_field]; buf_len|done..]|done| |lia].
  rewrite u8_put8_eq; [done|rewrite Hb; offsets].
Qed.
