(* ===== verification/TcpTx.v ===== *)
(** * Data sent through the stack

    What the application's data becomes on the wire: a poll sends it as one
    segment, and a timeout sends the same segment again. *)

From S2P Require Import Prelude Bytes Checksum UipState Uip PacketSum UipInv Httpd TcpSeg.

(** The application has data to send and nothing else to do. *)
Record tx_ready (g : httpd) : Prop := {
  tr_wf : wf_httpd g;
  tr_pending : httpd_socket_tx_pending g ≠ 0;
  tr_open : httpd_socket_close_pending g = 0;
  tr_len : 0 < httpd_socket_tx_len g ≤ 368
}.

(** The globals after the application answered a poll or a timeout. *)
Definition polled (g : httpd) (s : uip) : uip :=
  s <| uip_slen := httpd_socket_tx_len g |>
    <| uip_buf ::= put_bytes 54 (take (Z.to_nat (httpd_socket_tx_len g)) (httpd_socket_tx_buf g)) |>.

Lemma httpd_poll s g :
  length (uip_buf s) = 422%nat → uip_sappdata s = 54%nat → uip_flags s = UIP_POLL ∨ uip_flags s = UIP_REXMIT → tx_ready g →
  httpd_appcall (s, g) = Ok (tt, (polled g s, g)).
Proof.
  intros Hwf Hsd Hf [[] Hp Hc Hl].
  assert (E1 : uip_connected s = false) by (unfold uip_connected; by destruct Hf as [->| ->]).
  assert (E2 : uip_closed s || uip_aborted s || uip_timedout s = false)
    by (unfold uip_closed, uip_aborted, uip_timedout; by destruct Hf as [->| ->]).
  assert (E3 : uip_newdata s = false) by (unfold uip_newdata; by destruct Hf as [->| ->]).
  assert (E4 : uip_acked s = false) by (unfold uip_acked; by destruct Hf as [->| ->]).
  assert (E5 : uip_poll s || uip_acked s || uip_rexmit s || uip_newdata s = true)
    by (unfold uip_poll, uip_acked, uip_rexmit, uip_newdata; by destruct Hf as [->| ->]).
  assert (Hw : wp nofault httpd_appcall (λ _ x, x = (polled g s, g)) (s, g)).
  { unfold httpd_appcall. do 3 ustep. rewrite E1. apply wp_skip. do 3 ustep. rewrite E2. apply wp_skip.
    do 3 ustep. rewrite E3. apply wp_skip. do 3 ustep. rewrite E4. apply wp_skip.
    ustep. apply wp_getg. ustep. rewrite Hc. apply wp_skip. ustep. apply wp_getg.
    do 2 ustep. rewrite E5, (proj2 (Z.eqb_neq _ _) Hp). cbn [negb andb when].
    ustep. apply wp_getg. ustep. apply wp_getg. unfold uip_send.
    rewrite (proj2 (Z.ltb_lt 0 _)) by lia. do 8 ustep. cbn [uip_slen uip_sappdata uip_buf set_field].
    rewrite wrap16_id by (unfold is_u16; lia).
    rewrite Hsd, Hwf, wf_tx_len. unfold UIP_BUFSIZE.
    rewrite !(proj2 (Nat.leb_le _ _)) by lia. by repeat ustep. }
  apply wp_ok in Hw as ([] & x & Hr & ->). done.
Qed.

(** With data in transit [apprexmit] sends it. *)
Lemma apprexmit_sends {A} i s (a : A) n :
  sendable s i → 0 < uip_slen s → len (uip_conns s !!! i) = Z.of_nat n → (0 < n)%nat →
  wp anyfault (apprexmit i)
    (λ _ x, sends s i (Z.lor TCP_ACK TCP_PSH) (slice 54 n (uip_buf s)) a x) (s, a).
Proof.
  intros Hse Hsl Hn Hpos. pose proof (gc_len _ (se_conn _ _ Hse)) as Hle.
  unfold UIP_TCP_MSS, UIP_TCPIP_HLEN, UIP_IPTCPH_LEN in Hle. rewrite Hn in Hle.
  destruct Hse as [Hb Hc Hh]. unfold apprexmit. do 7 ustep; cbn [uip_slen uip_conns set_field] in *; rewrite ?Hn in *.
  2:{ exfalso. match goal with He : _ && _ = false |- _ => revert He end.
      rewrite !(proj2 (Z.ltb_lt _ _)) by lia. done. }
  do 4 ustep.
  assert (slice 54 n (uip_buf s) = slice 54 n (put8 BUF.flags (Z.lor TCP_ACK TCP_PSH) (uip_buf s))) as ->
    by by rewrite slice_put8_ne by offsets.
  match goal with |- wp _ _ _ (?s', _) => pose proof (tcp_send_noopts_sends i s' a n (Z.lor TCP_ACK TCP_PSH)) as Hs end.
  apply Hs; cbn [uip_buf uip_len set_field]; [split; [by cbn [uip_buf set_field]; buf_len|done..]| | |lia].
  - unfold UIP_TCPIP_HLEN, UIP_IPTCPH_LEN. rewrite wrap16_id by (unfold is_u16; lia). lia.
  - rewrite u8_put8_eq; [done|rewrite Hb; offsets].
Qed.

Section transmit.
Variables (s0 : uip) (g : httpd) (i : nat).
Let c0 := uip_conns s0 !!! i.
Hypothesis Hinv : inv_uip s0.
Hypothesis Hi : (i < UIP_CONNS)%nat.
Hypothesis Hst : tcpstateflags c0 = UIP_ESTABLISHED.
Hypothesis Hidle : len c0 = 0.
Hypothesis Hmss : 0 < mss c0.
Hypothesis Hready : tx_ready g.

Let k := Z.min (httpd_socket_tx_len g) (mss c0).

Definition Transmitted (_ : unit) (x : uip * httpd) : Prop :=
  x.2 = g ∧ uip_len x.1 = 40 + k ∧
  uip_conns x.1 = alter (λ c, c <| len := k |> <| nrtx := 0 |>) i (uip_conns s0) ∧
  wrote (hdr_of s0 c0 (Z.lor TCP_ACK TCP_PSH)) (take (Z.to_nat k) (httpd_socket_tx_buf g)) (uip_buf x.1).

Lemma good0 : good_conn c0.
Proof. eapply Forall_lookup_total_1; [apply Hinv|]. rewrite (wf_uip_conns_len s0); [done|apply Hinv]. Qed.

Lemma k_bound : 0 < k ≤ 366.
Proof.
  destruct Hready as [_ _ _ Hlen]. pose proof (gc_mss _ good0) as Hm. unfold k.
  unfold UIP_TCP_MSS, UIP_TCPIP_HLEN, UIP_IPTCPH_LEN in Hm. lia.
Qed.

Lemma apprexmit_tx s :
  uip_conns s = alter (λ c, c <| len := k |> <| nrtx := 0 |>) i (uip_conns s0) →
  uip_hostaddr s = uip_hostaddr s0 → length (uip_buf s) = 422%nat →
  slice 54 (Z.to_nat k) (uip_buf s) = take (Z.to_nat k) (httpd_socket_tx_buf g) →
  0 < uip_slen s → wp anyfault (apprexmit i) Transmitted (s, g).
Proof.
  intros Hcs Hh Hl Hd Hsl. pose proof good0 as Hg. pose proof k_bound as Hk.
  assert (Hc : uip_conns s !!! i = c0 <| len := k |> <| nrtx := 0 |>).
  { rewrite Hcs, list_lookup_total_alt, list_lookup_alter_eq, list_lookup_lookup_total_lt; [done|].
    rewrite (wf_uip_conns_len s0); [done|apply Hinv]. }
  eapply wp_mono; [|apply (apprexmit_sends i s g (Z.to_nat k))].
  - intros [] x (H1 & H2 & H3 & H4). rewrite Hd, Hc in *. unfold Transmitted. split; [done|].
    rewrite length_take, (wf_tx_len g), Nat.min_l in H2 by (apply Hready || unfold UIP_BUFSIZE; lia).
    split; [lia|]. split; [congruence|]. unfold hdr_of in *. by rewrite Hh in H4.
  - split; [done| |rewrite Hh; apply Hinv]. rewrite Hc.
    destruct Hg as [[] ? ? ? ?]. split; [split|..]; cbn; try done; unfold is_u16, UIP_TCP_MSS, UIP_TCPIP_HLEN, UIP_IPTCPH_LEN; lia.
  - done.
  - rewrite Hc. cbn. lia.
  - lia.
Qed.

(** What [limit_send] leaves: [k] bytes in transit. *)
Lemma limit_send_tx s (Q : unit → uip * httpd → Prop) :
  uip_conns s = uip_conns s0 → uip_slen s = httpd_socket_tx_len g →
  Q tt (s <| uip_slen := k |> <| uip_conns ::= alter (λ c, c <| len := k |>) i |>, g) →
  wp anyfault (limit_send i UIP_POLL) Q (s, g).
Proof.
  intros Hc Hs HQ. pose proof good0 as Hg. destruct Hready as [_ _ _ Hlen].
  assert (Hm : is_u16 (mss c0)) by apply Hg. unfold limit_send. do 3 ustep; [|lia].
  change (has UIP_POLL UIP_ACKDATA) with false. cbv iota. do 5 ustep; cbn [uip_conns] in *; rewrite Hc in *.
  2:{ fold c0 in H0. lia. }
  repeat ustep; cbn [uip_slen set_field] in *; rewrite Hs in *; fold c0 in H1 |- *.
  - replace k with (mss c0) in HQ by (unfold k; lia). by rewrite wrap16_id.
  - replace k with (httpd_socket_tx_len g) in HQ by (unfold k; lia).
    assert (s <| uip_slen := httpd_socket_tx_len g |> = s) as E by (rewrite <- Hs; by destruct s).
    by rewrite E in HQ.
Qed.

Lemma uip_poll_tx : wp anyfault (uip_poll_conn i) Transmitted (s0, g).
Proof.
  pose proof Hready as [Hwg _ _ Hlen]. pose proof good0 as Hg.
  assert (Hlc : uip_conns s0 !! i = Some c0).
  { apply list_lookup_lookup_total_lt. rewrite (wf_uip_conns_len s0); [done|apply Hinv]. }
  unfold uip_poll_conn, uip_process. do 5 ustep; [|done]. ustep.
  apply (wp_deref_conn _ i); [done|]. unfold poll_request. do 3 ustep; cbn [uip_conns set_field] in *; fold c0 in H0.
  2:{ exfalso. unfold uip_outstanding in *. rewrite Hst, Hidle in *. done. }
  do 3 ustep. match goal with |- wp _ _ _ (?x, _) => set (s1 := x) end.
  assert (Ha : httpd_appcall (s1, g) = Ok (tt, (polled g s1, g))).
  { apply httpd_poll; [apply Hinv|done|by left|done]. }
  unfold wp at 1. change (UIP_APPCALL (s1, g)) with (httpd_appcall (s1, g)). rewrite Ha. clear Ha.
  unfold appsend. do 4 ustep; [done|done|]. ustep. apply limit_send_tx; [done|done|].
  repeat ustep. apply apprexmit_tx.
  - cbn [uip_conns set_field polled s1]. by rewrite list_alter_alter_eq.
  - done.
  - cbn [uip_buf set_field polled s1]. rewrite length_put_bytes. apply Hinv.
  - cbn [uip_buf set_field polled s1]. pose proof k_bound. rewrite slice_put_bytes.
    + rewrite take_take. f_equal. unfold k. lia.
    + rewrite length_take, (wf_tx_len _ Hwg). unfold k, UIP_BUFSIZE. lia.
    + rewrite length_take, (wf_tx_len _ Hwg), (wf_buf_len s0) by apply Hinv. unfold UIP_BUFSIZE. lia.
  - cbn. pose proof k_bound. lia.
Qed.
End transmit.
