(* ===== verification/UipThms.v ===== *)
(** * What the uIP stack guarantees

    The theorems about whole calls of [uip_process], for every application
    that keeps [UipAppLaws]; about the runs of the stack; about ports; about
    TCP options and about the echo reply.  Each is instantiated at a concrete
    packet with the application of httpd.c. *)

From stdpp Require Import relations.
From S2P Require Import Prelude Bytes Checksum UipState Uip PacketSum UipInv Ports Options Httpd Flow TcpSeg TcpTx.

(** ** A run of the stack

    Everything that happens to uIP's globals between calls: a packet of any
    content and length is put in the buffer, a connection is selected for the
    timer or a poll, ports are opened and closed, and the network server
    changes the application's own globals. *)

Section runs.
Context {A : Type} `{UipAppLaws A}.

Inductive stack_step : uip * A → uip * A → Prop :=
  | step_input s a b n x :
      length b = 422%nat → bytes b → is_u16 n →
      uip_input (s <| uip_buf := b |> <| uip_len := n |>, a) = Ok (tt, x) →
      stack_step (s, a) x
  | step_periodic s a i x :
      (i < UIP_CONNS)%nat → uip_periodic i (s, a) = Ok (tt, x) → stack_step (s, a) x
  | step_poll s a i x :
      (i < UIP_CONNS)%nat → uip_poll_conn i (s, a) = Ok (tt, x) → stack_step (s, a) x
  | step_listen s a p : is_u16 p → stack_step (s, a) (uip_listen p s, a)
  | step_unlisten s a p : stack_step (s, a) (uip_unlisten p s, a)
  | step_connect s a ip p r s' :
      wf_ip ip → is_u16 p → uip_connect ip p s = Ok (r, s') → stack_step (s, a) (s', a)
  | step_app s a a' : app_wf a' → stack_step (s, a) (s, a').

Definition reachable : uip * A → uip * A → Prop := rtc stack_step.
End runs.

(** ** States and packets for the examples *)

(** The stack as sys_net.c configures it, listening on port 80. *)
Definition demo_up : uip :=
  uip_listen (HTONS 80)
    ((uip_init uip0) <| uip_hostaddr := uip_ipaddr 10 0 2 15 |>
                     <| uip_draddr := uip_ipaddr 10 0 2 2 |>
                     <| uip_netmask := uip_ipaddr 255 255 255 0 |>).

Definition demo_input (p : list Z) (s : uip) : uip :=
  s <| uip_buf := p ++ replicate (422 - length p) 0 |> <| uip_len := Z.of_nat (length p) |>.

Definition demo_syn : list Z :=
  [82; 84; 0; 0; 0; 1; 82; 85; 10; 0; 2; 2; 8; 0; 69; 0; 0; 44; 0; 7; 0; 0; 64; 6; 98;
   181; 10; 0; 2; 2; 10; 0; 2; 15; 156; 64; 0; 80; 0; 0; 3; 232; 0; 0; 0; 0; 96; 2;
   32; 0; 191; 157; 0; 0; 2; 4; 5; 180].
Definition demo_ack : list Z :=
  [82; 84; 0; 0; 0; 1; 82; 85; 10; 0; 2; 2; 8; 0; 69; 0; 0; 40; 0; 7; 0; 0; 64; 6; 98;
   185; 10; 0; 2; 2; 10; 0; 2; 15; 156; 64; 0; 80; 0; 0; 3; 233; 0; 0; 0; 1; 80; 16;
   32; 0; 215; 73; 0; 0].
Definition demo_data : list Z :=
  [82; 84; 0; 0; 0; 1; 82; 85; 10; 0; 2; 2; 8; 0; 69; 0; 0; 43; 0; 7; 0; 0; 64; 6; 98;
   182; 10; 0; 2; 2; 10; 0; 2; 15; 156; 64; 0; 80; 0; 0; 3; 233; 0; 0; 0; 1; 80; 24;
   32; 0; 77; 213; 0; 0; 104; 105; 33].
Definition demo_echo : list Z :=
  [82; 84; 0; 0; 0; 1; 82; 85; 10; 0; 2; 2; 8; 0; 69; 0; 0; 32; 0; 7; 0; 0; 64; 1; 98;
   198; 10; 0; 2; 2; 10; 0; 2; 15; 8; 0; 33; 4; 18; 52; 0; 1; 97; 98; 99; 100].

(** The state after a call that returns. *)
Definition run (m : M (uip * httpd) unit) (x : uip * httpd) : uip * httpd :=
  match m x with Ok (_, y) => y | Err _ => x end.

(** ** Lemmas *)

Ltac range := vm_compute; repeat split; discriminate.

Lemma good_conn0 : good_conn conn0.
Proof. split; [split|..]; range. Qed.

Lemma inv_demo_up : inv_uip demo_up.
Proof.
  apply uip_listen_inv; [range|].
  assert (Hc : uip_conns (uip_init uip0) = replicate UIP_CONNS conn0) by reflexivity.
  assert (HF : Forall good_conn (replicate UIP_CONNS conn0)) by apply Forall_replicate, good_conn0.
  split; [|cbn [uip_conns set_field]; by rewrite Hc].
  split; cbn [uip_buf uip_len uip_slen uip_flags uip_conn uip_conns uip_listenports set_field];
    first [done | range | idtac].
  - by apply Forall_replicate.
  - rewrite Hc. eapply Forall_impl; [|exact HF]. by intros ? [].
  - change (Forall is_u16 (replicate UIP_LISTENPORTS 0)). apply Forall_replicate. range.
  - apply (bool_decide_unpack _). by vm_compute.
Qed.

Lemma inv_packet s b n :
  inv_uip s → length b = 422%nat → bytes b → is_u16 n →
  inv_uip (s <| uip_buf := b |> <| uip_len := n |>).
Proof. intros [[] ?] ? ? ?. by split; [split|]. Qed.

Lemma inv_demo_input p s :
  (length p ≤ 422)%nat → bool_decide (bytes p) = true → inv_uip s → inv_uip (demo_input p s).
Proof.
  intros Hl Hb%bool_decide_eq_true Hi. apply inv_packet; [done|..].
  - rewrite length_app, length_replicate. lia.
  - apply Forall_app. split; [done|]. by apply Forall_replicate.
  - unfold is_u16. lia.
Qed.

Lemma wf_httpd0 : wf_httpd httpd0.
Proof. split; try done; by apply Forall_replicate. Qed.

(** [uip_process] keeps the invariant (the form used by rule induction). *)
Section process.
Context {A : Type} `{UipAppLaws A}.

Lemma process_fin flag s a s' a' :
  inv_uip s → app_wf a → uip_process flag (s, a) = Ok (tt, (s', a')) →
  Fin False s flag a tt (s', a').
Proof.
  intros Hi Ha Hr. pose proof (uip_process_spec False s flag a Hi Ha) as Hs.
  unfold wp in Hs. rewrite Hr in Hs. by apply Hs.
Qed.

Lemma process_inv flag s a s' a' :
  inv_uip s → app_wf a → uip_process flag (s, a) = Ok (tt, (s', a')) → inv_uip s' ∧ app_wf a'.
Proof. intros Hi Ha Hr. destruct (process_fin _ _ _ _ _ Hi Ha Hr) as [(i & st & HA) _]. by destruct HA. Qed.

Lemma uip_periodic_eq i s a :
  uip_periodic i (s, a) = uip_process UIP_TIMER (s <| uip_conn := Some i |>, a).
Proof. unfold uip_periodic, mbind, M_bind, upd, modM. reflexivity. Qed.
Lemma uip_poll_conn_eq i s a :
  uip_poll_conn i (s, a) = uip_process UIP_POLL_REQUEST (s <| uip_conn := Some i |>, a).
Proof. unfold uip_poll_conn, mbind, M_bind, upd, modM. reflexivity. Qed.

Lemma inv_select i s : (i < UIP_CONNS)%nat → inv_uip s → inv_uip (s <| uip_conn := Some i |>).
Proof. intros Hi [[] ?]. split; [split|]; try done. by intros j [= <-]. Qed.

Lemma step_inv x y :
  stack_step x y → inv_uip x.1 ∧ app_wf x.2 → inv_uip y.1 ∧ app_wf y.2.
Proof.
  intros Hs [Hi Ha]. destruct Hs as [s a b n [s' a'] ? ? ? Hr|s a i [s' a'] ? Hr|s a i [s' a'] ? Hr|
    s a p ?|s a p|s a ip p r s' Hip Hp Hr|s a a' ?]; cbn in *.
  - unfold uip_input in Hr. eapply process_inv; [|done|exact Hr]. by apply inv_packet.
  - rewrite uip_periodic_eq in Hr. eapply process_inv; [|done|exact Hr]. by apply inv_select.
  - rewrite uip_poll_conn_eq in Hr. eapply process_inv; [|done|exact Hr]. by apply inv_select.
  - split; [by apply uip_listen_inv|done].
  - split; [by apply uip_unlisten_inv|done].
  - destruct (uip_connect_spec ip p s Hi Hip Hp) as (r' & s'' & Hr' & ? & _).
    rewrite Hr in Hr'. by injection Hr' as <- <-.
  - done.
Qed.
End process.

(** ** Whole calls *)

Section calls.
Context {A : Type} `{UipAppLaws A}.

(** C1: One call of [uip_process], on any packet, moves every connection only
    along the edges of the TCP state diagram [tcp_next], each with the guard
    the packet, the timer or the application must meet.  A connection opens on
    a SYN for a listening port that no connection takes, or on the
    acknowledgement of its own SYN; it leaves ESTABLISHED on the peer's FIN
    with everything acknowledged or when the application asks for it; and it is
    closed only by a reset of its peer, by a refused SYN, by the
    acknowledgement of its FIN in LAST_ACK, by the application's abort, at the
    end of the waiting time, or when the retransmissions are used up.  At most
    one connection changes, ports and addresses stay, and the invariant of the
    globals is kept. *)
Theorem uip_process_step flag s a s' a' :
  inv_uip s → app_wf a → uip_process flag (s, a) = Ok (tt, (s', a')) →
  inv_uip s' ∧ static s' = static s ∧
  (∀ i, (i < UIP_CONNS)%nat →
     tcp_next flag s a i (tcpstateflags (uip_conns s' !!! i))) ∧
  ∃ i, ∀ j, j ≠ i → uip_conns s' !! j = uip_conns s !! j.
Proof.
  intros Hi Ha Hr. destruct (process_fin _ _ _ _ _ Hi Ha Hr) as [(i & st & HA) _].
  destruct HA as [? ? ? Ho Hs Hp _ _ _ _]. cbn in *. split_and!; [done..| |by exists i].
  intros j Hj. destruct (decide (j = i)) as [->|Hne]; [by rewrite Hs|].
  rewrite (list_lookup_total_alt (uip_conns s')), Ho, <- list_lookup_total_alt by done.
  constructor.
Qed.

(** C13: Sequence numbers move only for a reason: on a connection that is in
    use, [snd_nxt] stays or advances over exactly what was outstanding when
    the packet acknowledges it, and [rcv_nxt] stays unless the packet is a
    segment of the connection that starts at [rcv_nxt] (or answers its SYN,
    or has the urgent flag set). *)
Theorem uip_process_seq flag s a s' a' i :
  inv_uip s → app_wf a → uip_process flag (s, a) = Ok (tt, (s', a')) → (i < UIP_CONNS)%nat →
  seq_ok (uip_buf s) (uip_conns s !!! i)
    (snd_nxt (uip_conns s' !!! i)) (rcv_nxt (uip_conns s' !!! i)).
Proof.
  intros Hi Ha Hr Hlt. destruct (process_fin _ _ _ _ _ Hi Ha Hr) as [(j & st & HA) _].
  destruct HA as [? ? ? Ho Hs Hp Hq _ _ _]. cbn in *.
  destruct (decide (i = j)) as [->|Hne]; [done|].
  rewrite (list_lookup_total_alt (uip_conns s')), Ho, <- list_lookup_total_alt by done.
  right. auto.
Qed.

Lemma process_returns flag s a :
  inv_uip s → app_wf a → call_ok s flag a →
  ∃ s' a', uip_process flag (s, a) = Ok (tt, (s', a')) ∧
           inv_uip s' ∧ app_wf a' ∧ app_inv a' ∧ 0 ≤ uip_len s' ≤ 408.
Proof.
  intros Hi Ha Hc. pose proof (uip_process_spec True s flag a Hi Ha (λ _, Hc)) as Hs.
  unfold wp in Hs. destruct (uip_process flag (s, a)) as [[[] [s' a']]|e]; [|by destruct Hs].
  exists s', a'. destruct Hs as [(i & st & HA) [Hl _]]. destruct HA. cbn in *.
  split; [done|]. split; [done|]. split; [done|]. auto.
Qed.

(** C2: On a sane packet (or a poll or timer call with a connection selected)
    [uip_process] returns: no access outside [uip_buf] or the application's
    buffers, no null dereference, no endless option loop.  What it leaves to
    send fits the buffer, and the application's invariant is kept. *)
Theorem uip_process_returns flag s a :
  inv_uip s → app_wf a → call_ok s flag a →
  ∃ s' a', uip_process flag (s, a) = Ok (tt, (s', a')) ∧
           inv_uip s' ∧ app_wf a' ∧ app_inv a' ∧ 0 ≤ uip_len s' ≤ 408.
Proof. apply process_returns. Qed.

(** C17: Whatever packet comes in, what the stack leaves to send carries an IP
    checksum that verifies, and a TCP segment carries a TCP checksum that
    verifies; the host address being set. *)
Theorem uip_process_emits flag s a s' a' :
  inv_uip s → app_wf a → uip_hostaddr s ≠ all_zeroes_addr →
  uip_process flag (s, a) = Ok (tt, (s', a')) →
  uip_len s' = 0 ∨ emitted (uip_buf s').
Proof.
  intros Hi Ha Hh Hr. destruct (process_fin _ _ _ _ _ Hi Ha Hr) as (_ & _ & He). by apply He.
Qed.

(** C28: In every state a run of the stack reaches from a good one, whatever
    packets arrive, the invariant holds: every connection is in one of the
    nine states and no segment size exceeds what fits the buffer. *)
Theorem reachable_inv x y :
  inv_uip x.1 → app_wf x.2 → reachable x y → inv_uip y.1 ∧ app_wf y.2.
Proof. intros Hi Ha. induction 1 as [|x y z Hs _ IH]; [done|]. apply IH; by eapply step_inv. Qed.
End calls.

(** ** ICMP echo *)

(** An echo request for this host that passes the IP checks. *)
Record echo_request (s : uip) : Prop := {
  er_vhl : u8 (uip_buf s) BUF.vhl = 0x45;
  er_len : iplen (uip_buf s) ≤ uip_len s;
  er_frag0 : has (u8 (uip_buf s) BUF.ipoffset0) 0x3f = false;
  er_frag1 : u8 (uip_buf s) BUF.ipoffset1 = 0;
  er_dest : get_ip (uip_buf s) BUF.destipaddr = uip_hostaddr s;
  er_ipchk : uip_ipchksum (uip_buf s) = 0xffff;
  er_proto : u8 (uip_buf s) BUF.proto = UIP_PROTO_ICMP;
  er_type : u8 (uip_buf s) ICMPBUF.type = ICMP_ECHO;
  er_icmp : 24 ≤ iplen (uip_buf s) ≤ 408;
  er_icmpchk : chksum 0 (slice 34 (Z.to_nat (iplen (uip_buf s) - 20)) (uip_buf s)) = 0xffff
}.

(** The buffer with the reply. *)
Definition echo_reply (s : uip) : list Z :=
  let b := echo_msg (uip_buf s) in
  put_ip BUF.srcipaddr (uip_hostaddr s) (put_ip BUF.destipaddr (get_ip b BUF.srcipaddr) b).

Lemma echo_msg_ck b :
  echo_msg b = (let ck := u16 (put8 ICMPBUF.type ICMP_ECHO_REPLY b) ICMPBUF.icmpchksum in
    if HTONS (0xffff - Z.shiftl ICMP_ECHO 8) <=? ck
    then put16 ICMPBUF.icmpchksum (ck + HTONS (Z.shiftl ICMP_ECHO 8) + 1) (put8 ICMPBUF.type ICMP_ECHO_REPLY b)
    else put16 ICMPBUF.icmpchksum (ck + HTONS (Z.shiftl ICMP_ECHO 8)) (put8 ICMPBUF.type ICMP_ECHO_REPLY b)).
Proof.
  unfold echo_msg. replace (u16 (put8 ICMPBUF.type ICMP_ECHO_REPLY b) ICMPBUF.icmpchksum) with
    (u16 b ICMPBUF.icmpchksum) by (unfold u16; by u8_simp).
  unfold echo_chksum. cbv zeta. by case_match.
Qed.

Section echo.
Context {A : Type} `{UipApp A}.

Lemma uip_input_echo_run s (a : A) :
  inv_uip s → echo_request s →
  ∃ s', uip_input (s, a) = Ok (tt, (s', a)) ∧
        uip_buf s' = echo_reply s ∧ uip_len s' = iplen (uip_buf s) ∧ uip_conns s' = uip_conns s.
Proof.
  intros [Hwf _] [Hv Hl Hf0 Hf1 Hd Hc Hp Ht Hi _].
  enough (Hw : wp nofault uip_input (λ _ x, x.2 = a ∧ uip_buf x.1 = echo_reply s ∧
    uip_len x.1 = iplen (uip_buf s) ∧ uip_conns x.1 = uip_conns s) (s, a)).
  { apply wp_ok in Hw as ([] & [s' a'] & Hr & Ha & ?). cbn in Ha. subst a'. by exists s'. }
  assert (Hu : is_u16 (iplen (uip_buf s))) by apply iplen_u16, Hwf.
  assert (Hle : (iplen (uip_buf s) <=? uip_len s) = true) by by apply Z.leb_le.
  assert (Hcmp : uip_ipaddr_cmp (get_ip (uip_buf s) BUF.destipaddr) (uip_hostaddr s) = true)
    by by apply uip_ipaddr_cmp_eq.
  unfold uip_input, uip_process. do 4 ustep; [done|done|].
  unfold ip_input, ip_header, ip_dest. do 5 ustep; [dead Hv|]. do 5 ustep; [dead Hle|].
  do 7 ustep; [dead Hf0; dead Hf1|]. do 5 ustep; [dead Hcmp|].
  unfold ip_demux. do 3 ustep; [dead Hc|]. do 3 ustep; [dead Hp|]. ustep; [dead Hp|].
  unfold icmp_input, icmp_reply. do 5 ustep; [dead Ht|].
  repeat ustep; cbn [uip_buf uip_len uip_conns set_field fst snd]; split_and!; try done;
    try (by rewrite wrap16_id); unfold echo_reply; rewrite echo_msg_ck; cbv zeta;
    match goal with He : (_ <=? _) = _ |- _ => cbn [uip_buf set_field] in He; by rewrite He end.
Qed.
End echo.

(** C31: An echo request for this host is answered: the stack leaves exactly the
    reply to send, of the request's length, from this host to the sender, with
    the identifier, sequence number and data untouched, an IP checksum that
    verifies and an ICMP checksum that verifies by the stack's own rule; no
    connection changes. *)
Theorem uip_input_echo {A} `{UipApp A} s (a : A) :
  inv_uip s → echo_request s →
  let n := Z.to_nat (iplen (uip_buf s) - 20) in
  ∃ s', uip_input (s, a) = Ok (tt, (s', a)) ∧
    uip_len s' = iplen (uip_buf s) ∧ uip_conns s' = uip_conns s ∧
    u8 (uip_buf s') ICMPBUF.type = ICMP_ECHO_REPLY ∧
    get_ip (uip_buf s') BUF.srcipaddr = uip_hostaddr s ∧
    get_ip (uip_buf s') BUF.destipaddr = get_ip (uip_buf s) BUF.srcipaddr ∧
    slice ICMPBUF.id (n - 4) (uip_buf s') = slice ICMPBUF.id (n - 4) (uip_buf s) ∧
    uip_ipchksum (uip_buf s') = 0xffff ∧
    fold_sum (chksum 0 (slice 34 n (uip_buf s'))) = 0xffff.
Proof.
  intros Hi He n. destruct (uip_input_echo_run s a Hi He) as (s' & Hr & Hb & Hl & Hcs).
  exists s'. split; [done|]. split; [done|]. split; [done|]. rewrite Hb.
  destruct Hi as [Hwf _]. destruct He as [Hv Hle Hf0 Hf1 Hd Hc Hp Ht Hil Hck].
  assert (Hby : bytes (uip_buf s)) by apply Hwf.
  assert (Hlen : length (uip_buf s) = 422%nat) by apply Hwf.
  assert (Hlm : length (echo_msg (uip_buf s)) = 422%nat) by (unfold echo_msg; by buf_len).
  assert (Hbm : bytes (echo_msg (uip_buf s))) by (unfold echo_msg; auto with width).
  assert (Hsm : get_ip (echo_msg (uip_buf s)) BUF.srcipaddr = get_ip (uip_buf s) BUF.srcipaddr).
  { unfold get_ip, u16, echo_msg. by u8_simp. }
  assert (Hdm : get_ip (echo_msg (uip_buf s)) BUF.destipaddr = uip_hostaddr s).
  { rewrite <- Hd. unfold get_ip, u16, echo_msg. by u8_simp. }
  unfold echo_reply. cbv zeta. rewrite Hsm. split_and!.
  - u8_simp. unfold echo_msg. u8_simp. rewrite u8_put8_eq; [done|]. rewrite Hlen. offsets.
  - apply get_put_ip; [buf_len; rewrite Hlm; offsets|apply Hwf].
  - unfold get_ip at 1, u16. u8_simp. fold (u16 (put_ip BUF.destipaddr (get_ip (uip_buf s) BUF.srcipaddr)
      (echo_msg (uip_buf s))) BUF.destipaddr).
    apply get_put_ip; [rewrite Hlm; offsets|by apply get_ip_wf].
  - rewrite !slice_put_ip_ne by offsets. unfold echo_msg.
    by rewrite slice_put16_ne, slice_put8_ne by offsets.
  - rewrite <- Hsm, <- Hdm, ipchksum_swap by (done || lia). unfold echo_msg.
    by rewrite ipchksum_put16, ipchksum_put8 by offsets.
  - rewrite !slice_put_ip_ne by offsets. apply echo_msg_valid; [done|lia|lia|done|done].
Qed.

(** ** Data, in both directions *)

Lemma hlen20_options b : bytes b → hlen b = 20 → options_end b.
Proof.
  intros Hb Hh. exists None. assert (optlen b = 0) as ->; [|done].
  pose proof (u8_bytes b BUF.tcpoffset Hb) as Hu. revert Hh. unfold hlen, optlen, is_u8 in *.
  rewrite Z.shiftr_div_pow2, !Z.shiftl_mul_pow2 by lia. unfold wrap8.
  change (2 ^ 4) with 16. change (2 ^ 2) with 4. dlia.
Qed.

Lemma data_segment_ok s i n g :
  inv_uip s → tx_fits g → data_segment s i n → call_ok s UIP_DATA g.
Proof.
  intros Hi Hg [Hv [Hl Hl'] Hf0 Hf1 Hd Hc Hp Ht Hdm Hst Hr Hf Hu Hs Hh [Hil Hn]].
  split; [done|]. cbn [Z.eqb orb]. split; [lia|]. split; [lia|]. intros _.
  split_and!; [lia|lia| |done]. apply hlen20_options; [apply Hi|done].
Qed.

Lemma wp_returns {S A} (m : M S A) (P Q : A → S → Prop) s :
  (∃ a s', m s = Ok (a, s') ∧ P a s') → wp anyfault m Q s → ∃ a s', m s = Ok (a, s') ∧ Q a s'.
Proof. intros (a & s' & Hr & _) Hq. exists a, s'. split; [done|]. unfold wp in Hq. by rewrite Hr in Hq. Qed.

Lemma process_ok {A} `{UipAppLaws A} flag s (a : A) :
  inv_uip s → app_wf a → call_ok s flag a →
  ∃ v x, uip_process flag (s, a) = Ok (v, x) ∧ uip_len x.1 ≤ 408.
Proof.
  intros Hi Ha Hc. destruct (process_returns flag s a Hi Ha Hc) as (s' & a' & Hr & _ & _ & _ & Hl).
  exists tt, (s', a'). split; [done|]. apply Hl.
Qed.

(** A data segment without options that arrives in order on an established
    connection reaches the application: the call returns with the payload in
    [httpd_socket_rx_buf], its length in [httpd_socket_rx_len], and [rcv_nxt] of
    that connection, and of no other, advanced by the length. *)
Theorem uip_input_delivers s g i n :
  inv_uip s → wf_httpd g → tx_fits g → data_segment s i n →
  ∃ s' g', uip_input (s, g) = Ok (tt, (s', g')) ∧
    httpd_socket_rx_len g' = Z.of_nat n ∧
    httpd_socket_rx_buf g' = put_bytes 0 (slice 54 n (uip_buf s)) (httpd_socket_rx_buf g) ∧
    rcvs s' = alter (λ q, uip_add32 q (Z.of_nat n)) i (rcvs s).
Proof.
  intros Hi Hg Hf Hs.
  destruct (wp_returns uip_input (λ _ x, uip_len x.1 ≤ 408) (Delivered s g i n) (s, g))
    as ([] & [s' g'] & Hr & [Hrl Hrb] & Hrc).
  - by apply process_ok, data_segment_ok with i n.
  - by apply uip_input_rx.
  - by exists s', g'.
Qed.

Lemma poll_transmits s g i :
  inv_uip s → (i < UIP_CONNS)%nat → uip_hostaddr s ≠ all_zeroes_addr →
  let c := uip_conns s !!! i in
  tcpstateflags c = UIP_ESTABLISHED → len c = 0 → 0 < mss c → tx_ready g →
  let k := Z.min (httpd_socket_tx_len g) (mss c) in
  ∃ s', uip_poll_conn i (s, g) = Ok (tt, (s', g)) ∧
    uip_len s' = 40 + k ∧
    slice 54 (Z.to_nat k) (uip_buf s') = take (Z.to_nat k) (httpd_socket_tx_buf g) ∧
    segment_of s c (uip_buf s') ∧ u8 (uip_buf s') BUF.flags = Z.lor TCP_ACK TCP_PSH ∧
    emitted (uip_buf s') ∧ len (uip_conns s' !!! i) = k.
Proof.
  intros Hi Hlt Hh c Hst Hidle Hmss Hg k.
  assert (Hi' : inv_uip (s <| uip_conn := Some i |>)) by by apply inv_select.
  destruct (wp_returns (uip_poll_conn i) (λ _ x, uip_len x.1 ≤ 408) (Transmitted s g i) (s, g))
    as ([] & [s' g'] & Hr & Ht).
  - rewrite uip_poll_conn_eq. apply process_ok; [done|apply Hg|]. split; [apply Hg|done].
  - by apply uip_poll_tx.
  - destruct Ht as (Hga & Hl & Hcs & Hw). cbn in Hga. subst g'. exists s'.
    assert (Hk : 0 < k ≤ 366) by by apply (k_bound s g i).
    destruct (wrote_data_of s c _ _ _ Hw) as [Hseg Hd].
    fold c in Hd. fold k in Hd. rewrite length_take, (wf_tx_len g (tr_wf _ Hg)), Nat.min_l in Hd by (unfold UIP_BUFSIZE; lia).
    split; [done|]. split; [done|]. split; [done|]. split; [done|]. split; [apply Hw|]. split.
    + rewrite uip_poll_conn_eq in Hr. assert (Hwf : app_wf g) by apply (tr_wf _ Hg).
      destruct (process_fin _ _ g _ _ Hi' Hwf Hr) as (_ & _ & He).
      destruct He as [Hz|]; [done| |done]. cbn in Hl, Hz. subst k c. lia.
    + cbn [fst] in Hcs. rewrite Hcs, list_lookup_total_alt, list_lookup_alter_eq, list_lookup_lookup_total_lt; [done|].
      rewrite (wf_uip_conns_len s); [done|apply Hi].
Qed.

(** Polling an idle established connection while the application has data
    sends it: the call returns with one segment of [min tx_len mss] bytes of
    payload, taken from the front of [httpd_socket_tx_buf], carrying the
    connection's addresses, ports, [snd_nxt] and [rcv_nxt], with both checksums
    valid; the payload counts as outstanding. *)
Theorem uip_poll_transmits s g i :
  inv_uip s → (i < UIP_CONNS)%nat → uip_hostaddr s ≠ all_zeroes_addr →
  let c := uip_conns s !!! i in
  tcpstateflags c = UIP_ESTABLISHED → len c = 0 → 0 < mss c → tx_ready g →
  let k := Z.min (httpd_socket_tx_len g) (mss c) in
  ∃ s', uip_poll_conn i (s, g) = Ok (tt, (s', g)) ∧
    uip_len s' = 40 + k ∧
    slice 54 (Z.to_nat k) (uip_buf s') = take (Z.to_nat k) (httpd_socket_tx_buf g) ∧
    segment_of s c (uip_buf s') ∧ u8 (uip_buf s') BUF.flags = Z.lor TCP_ACK TCP_PSH ∧
    emitted (uip_buf s') ∧ len (uip_conns s' !!! i) = k.
Proof. apply poll_transmits. Qed.

(** ** Arithmetic and checksums *)

(** [uip_add32] adds a 16-bit number to a 32-bit sequence number modulo
    2^32, whatever the carries between its four bytes. *)
Theorem uip_add32_correct q n :
  is_b4 q → is_u16 n →
  is_b4 (uip_add32 q n) ∧ be32 (uip_add32 q n) = (be32 q + n) mod 4294967296.
Proof. apply uip_add32_spec. Qed.

(** C36: [chksum] computes the one's-complement sum of RFC 1071: for any bytes,
    of even or odd number, and any starting sum, the result is the 16-bit
    normal form of the starting sum plus the sum of the big-endian words. *)
Theorem chksum_rfc1071 sum data :
  is_u16 sum → bytes data → chksum sum data = oc (sum + wsum data).
Proof. apply chksum_spec. Qed.

(** ** Ports *)

(** [uip_listen] and [uip_unlisten] maintain a set of ports: with a free
    slot the port is listened on, without one nothing changes, no other port
    is affected, and unlistening a port that was new restores the table. *)
Theorem uip_listen_unlisten p s :
  p ≠ 0 →
  (0 ∈ uip_listenports s → p ∈ uip_listenports (uip_listen p s)) ∧
  (0 ∉ uip_listenports s → uip_listen p s = s) ∧
  (∀ q, q ≠ 0 → q ≠ p → q ∈ uip_listenports (uip_listen p s) ↔ q ∈ uip_listenports s) ∧
  (p ∉ uip_listenports s → uip_unlisten p (uip_listen p s) = s).
Proof.
  intros Hp. unfold uip_listen, uip_unlisten. cbn [uip_listenports set_field]. split_and!.
  - apply port_replace_new.
  - intros Hn. destruct s. unfold set_field. cbn -[port_replace] in *. by rewrite port_replace_ne.
  - intros q H1 H2. by apply port_replace_in.
  - intros Hn. destruct s. unfold set_field. cbn -[port_replace] in *. by rewrite port_replace_back.
Qed.

(** C38: An active open always returns: the search for a local port ends within
    41 tries.  It takes a CLOSED or TIME_WAIT connection, puts it in SYN_SENT
    with a local port no open connection has and its timer at 1 (uip.h says 0, see
    the findings), and leaves the others alone; it fails only when every
    connection is in use. *)
Theorem uip_connect_correct rip rp s :
  inv_uip s → wf_ip rip → is_u16 rp →
  ∃ r s', uip_connect rip rp s = Ok (r, s') ∧ inv_uip s' ∧
    match r with
    | None => Forall (λ c, ¬ unused c) (uip_conns s) ∧ uip_conns s' = uip_conns s
    | Some i => unused (uip_conns s !!! i) ∧ (∀ j, j ≠ i → uip_conns s' !! j = uip_conns s !! j) ∧
                opened s rip rp (lastport s') (uip_conns s' !!! i)
    end.
Proof. apply uip_connect_spec. Qed.

(** ** TCP options *)

(** The bound on the option loop loses nothing: a run of any length that
    leaves the loop leaves it within [mss_fuel] iterations with the same
    result, so the model diverges exactly where the code does. *)
Theorem parse_mss_fuel b lim r :
  (∃ fuel, parse_mss fuel b lim 0 = Ok r) ↔ parse_mss mss_fuel b lim 0 = Ok r.
Proof. split; [intros [fuel Hf]; by eapply mss_fuel_enough|by eexists]. Qed.

(** The option loop leaves on every option list that is well formed by
    RFC 793. *)
Theorem parse_mss_wf b lim :
  lim ≤ 40 → options_wf b lim 0 → ∃ r, parse_mss mss_fuel b lim 0 = Ok r.
Proof.
  intros Hl Hw. destruct (options_wf_ends b lim 0) as (r & fuel & Hr); [lia|lia|done|].
  exists r. by eapply mss_fuel_enough.
Qed.

(** ** Examples: a handshake, data and an echo on the configured stack *)

Definition demo_syn_rcvd : uip * httpd :=
  Eval vm_compute in run uip_input (demo_input demo_syn demo_up, httpd0).
Definition demo_open : uip * httpd :=
  Eval vm_compute in run uip_input (demo_input demo_ack demo_syn_rcvd.1, demo_syn_rcvd.2).

Lemma run_inv s g x :
  inv_uip s → wf_httpd g → uip_input (s, g) = Ok (tt, x) → inv_uip x.1 ∧ wf_httpd x.2.
Proof.
  intros Hi Hw E. destruct x as [s' g']. unfold uip_input in E.
  pose proof (process_inv (A := httpd) UIP_DATA s g s' g' Hi) as Hp. by apply Hp.
Qed.

Lemma demo_syn_rcvd_inv : inv_uip demo_syn_rcvd.1 ∧ wf_httpd demo_syn_rcvd.2.
Proof.
  apply (run_inv (demo_input demo_syn demo_up) httpd0); [|apply wf_httpd0|reflexivity].
  apply inv_demo_input; [cbn; lia|done|apply inv_demo_up].
Qed.

Lemma demo_open_inv : inv_uip demo_open.1 ∧ wf_httpd demo_open.2.
Proof.
  destruct demo_syn_rcvd_inv as [Hi Hw].
  apply (run_inv (demo_input demo_ack demo_syn_rcvd.1) demo_syn_rcvd.2); [|exact Hw|reflexivity].
  apply inv_demo_input; [cbn; lia|done|exact Hi].
Qed.

(** The ACK that completes the handshake moves connection 0 to ESTABLISHED. *)
Lemma uip_process_step_witness :
  tcp_next UIP_DATA (demo_input demo_ack demo_syn_rcvd.1) demo_syn_rcvd.2 0 UIP_ESTABLISHED.
Proof.
  destruct demo_syn_rcvd_inv as [Hi Hw].
  destruct (uip_process_step UIP_DATA (demo_input demo_ack demo_syn_rcvd.1) demo_syn_rcvd.2
    demo_open.1 demo_open.2) as (_ & _ & Hn & _).
  - apply inv_demo_input; [cbn; lia|reflexivity|exact Hi].
  - exact Hw.
  - reflexivity.
  - apply (Hn 0%nat). unfold UIP_CONNS; lia.
Defined.

(** ... and its sequence numbers move by the rules. *)
Lemma uip_process_seq_witness :
  seq_ok (uip_buf (demo_input demo_ack demo_syn_rcvd.1)) (uip_conns demo_syn_rcvd.1 !!! 0%nat)
    (B4 0 0 0 1) (B4 0 0 3 233).
Proof.
  destruct demo_syn_rcvd_inv as [Hi Hw].
  apply (uip_process_seq UIP_DATA (demo_input demo_ack demo_syn_rcvd.1) demo_syn_rcvd.2
    demo_open.1 demo_open.2 0%nat).
  - apply inv_demo_input; [cbn; lia|reflexivity|exact Hi].
  - exact Hw.
  - reflexivity.
  - unfold UIP_CONNS; lia.
Defined.

Lemma uip_process_returns_witness :
  ∃ s' g', uip_process UIP_DATA (demo_input demo_data demo_open.1, demo_open.2) = Ok (tt, (s', g')) ∧
           inv_uip s' ∧ wf_httpd g' ∧ tx_fits g' ∧ 0 ≤ uip_len s' ≤ 408.
Proof.
  destruct demo_open_inv as [Hi Hw]. 
  apply (@uip_process_returns httpd httpd_app httpd_laws UIP_DATA (demo_input demo_data demo_open.1) demo_open.2).
  - apply inv_demo_input; [cbn; lia|reflexivity|exact Hi].
  - exact Hw.
  - split; [vm_compute; discriminate|]. split; [vm_compute; discriminate|].
    split; [vm_compute; discriminate|]. intros _.
    split; [vm_compute; discriminate|]. split; [vm_compute; discriminate|].
    split; [exists None; reflexivity|reflexivity].
Defined.

(** The SYN is answered by a SYN-ACK whose checksums verify. *)
Lemma uip_process_emits_witness : emitted (uip_buf demo_syn_rcvd.1).
Proof.
  destruct (uip_process_emits UIP_DATA (demo_input demo_syn demo_up) httpd0
    demo_syn_rcvd.1 demo_syn_rcvd.2) as [Hz|He].
  - apply inv_demo_input; [cbn; lia|reflexivity|apply inv_demo_up].
  - apply wf_httpd0.
  - vm_compute. discriminate.
  - reflexivity.
  - vm_compute in Hz. discriminate.
  - exact He.
Defined.

Lemma reachable_inv_witness : inv_uip demo_open.1 ∧ wf_httpd demo_open.2.
Proof.
  apply (@reachable_inv httpd httpd_app httpd_laws (demo_up, httpd0) demo_open); [apply inv_demo_up|apply wf_httpd0|].
  apply (rtc_l _ _ demo_syn_rcvd).
  - apply (step_input demo_up httpd0 (uip_buf (demo_input demo_syn demo_up)) 58); try reflexivity.
    + apply (bool_decide_unpack _). reflexivity.
    + split; [lia|reflexivity].
  - apply rtc_once. change demo_syn_rcvd with (demo_syn_rcvd.1, demo_syn_rcvd.2).
    apply (step_input demo_syn_rcvd.1 demo_syn_rcvd.2 (uip_buf (demo_input demo_ack demo_syn_rcvd.1)) 54);
      try reflexivity.
    + apply (bool_decide_unpack _). reflexivity.
    + split; [lia|reflexivity].
Defined.

Lemma uip_input_echo_witness :
  ∃ s', uip_input (demo_input demo_echo demo_up, httpd0) = Ok (tt, (s', httpd0)) ∧
        uip_len s' = 32 ∧ get_ip (uip_buf s') BUF.destipaddr = uip_ipaddr 10 0 2 2.
Proof.
  destruct (uip_input_echo (demo_input demo_echo demo_up) httpd0)
    as (s' & Hr & Hl & _ & _ & _ & Hd & _).
  - apply inv_demo_input; [cbn; lia|reflexivity|apply inv_demo_up].
  - split; first [reflexivity | vm_compute; discriminate | vm_compute; split; discriminate].
  - exists s'. rewrite Hl, Hd. split; [exact Hr|]. split; reflexivity.
Defined.

Lemma uip_input_delivers_witness :
  ∃ s' g', uip_input (demo_input demo_data demo_open.1, demo_open.2) = Ok (tt, (s', g')) ∧
           httpd_socket_rx_len g' = 3 ∧
           httpd_socket_rx_buf g' = put_bytes 0 [104; 105; 33] (httpd_socket_rx_buf demo_open.2).
Proof.
  destruct demo_open_inv as [Hi Hw].
  destruct (uip_input_delivers (demo_input demo_data demo_open.1) demo_open.2 0 3)
    as (s' & g' & Hr & Hl & Hb & _).
  - apply inv_demo_input; [cbn; lia|reflexivity|exact Hi].
  - exact Hw.
  - vm_compute. discriminate.
  - split; first [reflexivity | vm_compute; split; discriminate | split; [reflexivity|lia]].
  - exists s', g'. rewrite Hl, Hb. split; [exact Hr|]. split; reflexivity.
Defined.

(** [sock_send] of two bytes, as the network server leaves it. *)
Definition demo_tx : httpd :=
  httpd0 <| httpd_socket_tx_buf ::= put_bytes 0 [79; 75] |> <| httpd_socket_tx_len := 2 |>
         <| httpd_socket_tx_pending := 1 |>.

Lemma uip_poll_transmits_witness :
  ∃ s', uip_poll_conn 0 (demo_open.1, demo_tx) = Ok (tt, (s', demo_tx)) ∧
        uip_len s' = 42 ∧ slice 54 2 (uip_buf s') = [79; 75].
Proof.
  destruct demo_open_inv as [Hi Hw].
  destruct (uip_poll_transmits demo_open.1 demo_tx 0) as (s' & Hr & Hl & Hd & _).
  - exact Hi.
  - unfold UIP_CONNS; lia.
  - vm_compute. discriminate.
  - reflexivity.
  - reflexivity.
  - reflexivity.
  - split; [|discriminate|reflexivity|split; [reflexivity|discriminate]].
    split; try reflexivity; apply (bool_decide_unpack _); reflexivity.
  - exists s'. split; [exact Hr|]. split; [exact Hl|exact Hd].
Defined.

Lemma uip_add32_correct_witness :
  be32 (uip_add32 (B4 255 255 255 255) 2) = 1.
Proof. apply (uip_add32_correct (B4 255 255 255 255) 2); range. Defined.

Lemma chksum_rfc1071_witness : chksum 0 [255; 255; 0; 1; 7] = oc (0 + (65535 + 1 + 1792)).
Proof.
  apply (chksum_rfc1071 0 [255; 255; 0; 1; 7]); [range|]. apply (bool_decide_unpack _). reflexivity.
Defined.

Lemma uip_listen_unlisten_witness :
  uip_unlisten 20480 (uip_listen 20480 (uip_init uip0)) = uip_init uip0.
Proof.
  apply (uip_listen_unlisten 20480 (uip_init uip0)); [lia|].
  apply (bool_decide_unpack _). reflexivity.
Defined.

Lemma uip_connect_correct_witness :
  ∃ r s', uip_connect (uip_ipaddr 10 0 2 2) (HTONS 80) demo_up = Ok (r, s') ∧ r = Some 0%nat ∧ inv_uip s'.
Proof.
  destruct (uip_connect_correct (uip_ipaddr 10 0 2 2) (HTONS 80) demo_up) as (r & s' & Hr & Hi & _);
    [apply inv_demo_up|range|range|].
  exists r, s'. split; [exact Hr|]. split; [|exact Hi]. vm_compute in Hr. congruence.
Defined.

Lemma parse_mss_wf_witness :
  ∃ r, parse_mss mss_fuel (uip_buf (demo_input demo_syn demo_up)) 4 0 = Ok r.
Proof.
  apply parse_mss_wf; [lia|].
  apply ow_opt; [vm_compute; discriminate|vm_compute; discriminate|vm_compute; discriminate|].
  apply ow_done. vm_compute. discriminate.
Defined.

(** ** What malformed packets do *)

(** A SYN with the options 1, 3 255: the counter wraps to where it was. *)
Definition demo_evil_syn : list Z :=
  [82; 84; 0; 0; 0; 1; 82; 85; 10; 0; 2; 2; 8; 0; 69; 0; 0; 44; 0; 7; 0; 0; 64; 6; 98;
   181; 10; 0; 2; 2; 10; 0; 2; 15; 156; 64; 0; 80; 0; 0; 3; 232; 0; 0; 0; 0; 96; 2;
   32; 0; 199; 81; 0; 0; 1; 3; 255; 0].

(** An empty segment whose urgent pointer is 5. *)
Definition demo_urgent : list Z :=
  [82; 84; 0; 0; 0; 1; 82; 85; 10; 0; 2; 2; 8; 0; 69; 0; 0; 40; 0; 7; 0; 0; 64; 6; 98;
   185; 10; 0; 2; 2; 10; 0; 2; 15; 156; 64; 0; 80; 0; 0; 3; 233; 0; 0; 0; 1; 80; 56;
   32; 0; 215; 28; 0; 5].

(** An echo request with identifier, sequence number and data all zero. *)
Definition demo_zero_echo : list Z :=
  [82; 84; 0; 0; 0; 1; 82; 85; 10; 0; 2; 2; 8; 0; 69; 0; 0; 32; 0; 7; 0; 0; 64; 1; 98;
   198; 10; 0; 2; 2; 10; 0; 2; 15; 8; 0; 247; 255; 0; 0; 0; 0; 0; 0; 0; 0].

(** C40: One SYN to a listening port, with valid checksums, stops the stack: the
    option loop never leaves, for any number of iterations. *)
Theorem uip_input_diverges :
  uip_input (demo_input demo_evil_syn demo_up, httpd0) = Err Diverges ∧
  ∀ fuel, let b := uip_buf (demo_input demo_evil_syn demo_up) in
          parse_mss fuel b (optlen b) 0 = Err Diverges.
Proof.
  split; [reflexivity|]. intros fuel b. apply (parse_mss_loops b (optlen b)); [vm_compute; discriminate|reflexivity..].
Qed.

(** An urgent pointer beyond the segment makes the length of the data wrap
    around, and the application reads past the packet buffer. *)
Theorem uip_input_urgent_overrun :
  uip_input (demo_input demo_urgent demo_open.1, demo_open.2) = Err OutOfBounds.
Proof. reflexivity. Qed.

(** The echo reply to an all-zero request carries the checksum 0 over an
    all-zero message, whose one's-complement sum is 0 where 0xffff is valid. *)
Theorem echo_zero_reply :
  echo_request (demo_input demo_zero_echo demo_up) ∧
  chksum 0 (slice 34 12 (echo_reply (demo_input demo_zero_echo demo_up))) = 0.
Proof. split; [|reflexivity]. split; first [reflexivity | vm_compute; discriminate | vm_compute; split; discriminate]. Qed.
