(* ===== verification/TcpHost.v ===== *)
(** * One host of a connection

    What the calls of uip.c do to an established connection of a host whose
    application is httpd.c, with the resulting connection written out: sending, a
    timeout, a segment in order, a segment again, an acknowledgement. *)

From S2P Require Import Prelude Bytes Checksum UipState Uip PacketSum UipInv Httpd Flow TcpSeg TcpTx UipThms.

(** ** The application on the events of a transfer *)

Lemma httpd_on_data s g n :
  length (uip_buf s) = 422%nat → uip_flags s = UIP_NEWDATA → uip_appdata s = 54%nat → uip_len s = Z.of_nat n → (n ≤ 368)%nat →
  httpd_socket_tx_pending g = 0 → httpd_socket_close_pending g = 0 →
  httpd_appcall (s, g) = Ok (tt, (s, g <| httpd_socket_rx_buf ::= put_bytes 0 (slice 54 n (uip_buf s)) |>
                                       <| httpd_socket_rx_len := Z.of_nat n |>)).
Proof.
  intros Hb Hf Ha Hl Hn Hp Hc.
  assert (Hw : wp nofault httpd_appcall (λ _ x, x = (s, g <| httpd_socket_rx_buf ::= put_bytes 0 (slice 54 n (uip_buf s)) |>
      <| httpd_socket_rx_len := Z.of_nat n |>)) (s, g)).
  { unfold httpd_appcall, uip_connected, uip_closed, uip_aborted, uip_timedout, uip_newdata, uip_acked.
    do 3 ustep. rewrite Hf. apply wp_skip. do 3 ustep. rewrite Hf. apply wp_skip. do 3 ustep. rewrite Hf.
    unfold when at 1. change (has UIP_NEWDATA UIP_NEWDATA) with true. cbv iota.
    unfold take_data. do 6 ustep. unfold uip_datalen. rewrite Hl.
    rewrite (proj2 (Z.ltb_ge _ _)), Nat2Z.id, Ha by (unfold UIP_BUFSIZE; lia).
    ustep; [|match goal with Hx : (_ <=? _)%nat = false |- _ => apply Nat.leb_gt in Hx;
      lia end].
    ustep. apply wp_updg, wp_updg. do 3 ustep. rewrite Hf. apply wp_skip. ustep. apply wp_getg. ustep.
    cbn [httpd_socket_close_pending set_field]. rewrite Hc. apply wp_skip. ustep. apply wp_getg. do 2 ustep.
    cbn [httpd_socket_tx_pending set_field]. rewrite Hp. by apply wp_skip. }
  by apply wp_ok in Hw as ([] & x & Hr & ->).
Qed.

Lemma httpd_on_ack s g :
  uip_flags s = UIP_ACKDATA → httpd_socket_close_pending g = 0 →
  httpd_appcall (s, g) =
    Ok (tt, (s, g <| httpd_socket_tx_pending := 0 |> <| httpd_socket_tx_len := 0 |>)).
Proof.
  intros Hf Hc.
  assert (Hw : wp nofault httpd_appcall (λ _ x, x = (s, g <| httpd_socket_tx_pending := 0 |>
      <| httpd_socket_tx_len := 0 |>)) (s, g)).
  { unfold httpd_appcall, uip_connected, uip_closed, uip_aborted, uip_timedout, uip_newdata, uip_acked.
    do 3 ustep. rewrite Hf. apply wp_skip. do 3 ustep. rewrite Hf. apply wp_skip. do 3 ustep. rewrite Hf.
    apply wp_skip. do 3 ustep. rewrite Hf. unfold when at 1. change (has UIP_ACKDATA UIP_ACKDATA) with true.
    cbv iota. apply wp_updg. ustep. apply wp_getg. ustep. cbn [httpd_socket_close_pending set_field].
    rewrite Hc. apply wp_skip. ustep. apply wp_getg. do 2 ustep. by apply wp_skip. }
  by apply wp_ok in Hw as ([] & x & Hr & ->).
Qed.

(** ** A segment reaches its connection *)

(** Connection [i] is in the state [st], and segments find it; [host]: it is
    established. *)
Record host_at (st : Z) (s : uip) (g : httpd) (i : nat) : Prop := {
  ho_inv : inv_uip s;
  ho_app : wf_httpd g;
  ho_fits : tx_fits g;
  ho_idx : (i < UIP_CONNS)%nat;
  ho_addr : uip_hostaddr s ≠ all_zeroes_addr;
  ho_state : tcpstateflags (uip_conns s !!! i) = st;
  ho_close : httpd_socket_close_pending g = 0;
  ho_demux : let c := uip_conns s !!! i in
    demux (lport c) (rport c) (ripaddr c) 0 (uip_conns s) = Some i
}.
Arguments ho_inv {st}.
Arguments ho_app {st}.
Arguments ho_fits {st}.
Arguments ho_idx {st}.
Arguments ho_addr {st}.
Arguments ho_state {st}.
Arguments ho_close {st}.
Arguments ho_demux {st}.
Abbreviation host := (host_at UIP_ESTABLISHED).

(** The header is one of a data or acknowledgement segment for connection [c]. *)
Record for_conn (s : uip) (c : conn) (h : tcp_hdr) : Prop := {
  fc_dest : h_dest h = uip_hostaddr s;
  fc_src : h_src h = ripaddr c;
  fc_destport : h_destport h = lport c;
  fc_srcport : h_srcport h = rport c;
  fc_flags : h_flags h = TCP_ACK ∨ h_flags h = Z.lor TCP_ACK TCP_PSH
}.

(** The globals when the segment has been looked at: [s0] is the state it was
    received in. *)
Record Got_at (off : Z) (s0 : uip) (h : tcp_hdr) (data : list Z) (s : uip) : Prop := {
  gt_buf : length (uip_buf s) = 422%nat;
  gt_seg : segment_at off h data (uip_buf s);
  gt_appdata : uip_appdata s = 54%nat;
  gt_sappdata : uip_sappdata s = 54%nat;
  gt_host : uip_hostaddr s = uip_hostaddr s0
}.
Arguments gt_buf {off}.
Arguments gt_seg {off}.
Arguments gt_host {off}.
Abbreviation Got := (Got_at 0x50).

Lemma seg_fields {off} h data b :
  segment_at off h data b → bytes b →
  u8 b BUF.vhl = 0x45 ∧ has (u8 b BUF.ipoffset0) 0x3f = false ∧ u8 b BUF.ipoffset1 = 0 ∧
  uip_ipchksum b = 0xffff ∧ u8 b BUF.proto = UIP_PROTO_TCP ∧ uip_tcpchksum b = Ok 0xffff ∧
  hlen b = wrap8 (Z.shiftl (Z.shiftr off 4) 2).
Proof.
  intros [[H1 H2 H3 H4 H5 H6 H7 H8] ? ? ? ? ? ? ? ? [Hi Ht]] Hb.
  split_and!; try done; [by rewrite H3|by apply Ht|]. unfold hlen. by rewrite H6.
Qed.

(** A segment that belongs to no connection. *)
Definition unmatched (dport : Z) : U (A := httpd) unit :=
  bf ← r8 BUF.flags;
  if negb (Z.land bf TCP_CTL =? TCP_SYN) then reset
  else
    listening ← gets (λ s, existsb (Z.eqb dport) (uip_listenports s));
    if listening : bool then found_listen else UIP_STAT tcp_synrst;; reset.

Section input.
Variables (off : Z) (s0 : uip) (g0 : httpd) (h : tcp_hdr) (data f : list Z).
Hypothesis Hinv : inv_uip s0.
Hypothesis Hframe : framed_at off h data f.
Hypothesis Hdest : h_dest h = uip_hostaddr s0.

Lemma received_buf : length (uip_buf (receive f s0)) = 422%nat ∧ bytes (uip_buf (receive f s0)).
Proof.
  destruct (inv_wf _ Hinv) as []. cbn [uip_buf receive set_field]. rewrite length_put_bytes.
  split; [done|]. apply put_bytes_bytes; [apply Hframe|done].
Qed.

(** A well-formed segment for this host reaches the demultiplexer. *)
Lemma uip_input_segment (Q : unit → uip * httpd → Prop) :
  (∀ s, Got_at off s0 h data s → uip_len s = 40 + Z.of_nat (length data) → uip_conns s = uip_conns s0 →
        uip_listenports s = uip_listenports s0 → iss s = iss s0 →
        wp anyfault (match demux (h_destport h) (h_srcport h) (h_src h) 0 (uip_conns s0) with
                     | Some i => found i | None => unmatched (h_destport h) end) Q (s, g0)) →
  wp anyfault uip_input Q (receive f s0, g0).
Proof.
  intros HQ. destruct received_buf as [Hlen Hby].
  pose proof (received_segment h data f s0 Hframe) as Hseg.
  rewrite (wf_buf_len s0) in Hseg by apply Hinv. specialize (Hseg eq_refl).
  destruct (seg_fields _ _ _ Hseg Hby) as (Hv & Hf0 & Hf1 & Hc & Hp & Ht & Hh).
  pose proof (receive_len _ _ _ s0 Hframe) as Hl. pose proof (pl_len _ _ (sg_plain _ _ _ Hseg)) as Hil.
  assert (Hd : (length data ≤ 368)%nat) by apply Hframe.
  set (s1 := receive f s0) in *.
  assert (Hle : (iplen (uip_buf s1) <=? uip_len s1) = true) by (rewrite Hil, Hl; apply Z.leb_le; lia).
  assert (Hcmp : uip_ipaddr_cmp (get_ip (uip_buf s1) BUF.destipaddr) (uip_hostaddr s1) = true).
  { apply uip_ipaddr_cmp_eq. rewrite (sg_dest _ _ _ Hseg). apply Hdest. }
  unfold uip_input, uip_process. do 4 ustep; [done|done|].
  unfold ip_input, ip_header, ip_dest. do 5 ustep; [dead Hv|]. do 5 ustep; [dead Hle|].
  do 7 ustep; [dead Hf0; dead Hf1|]. do 5 ustep; [dead Hcmp|].
  unfold ip_demux. do 3 ustep; [dead Hc|]. do 3 ustep; [|dead Hp].
  unfold tcp_input. do 3 ustep. apply wp_liftr; [|done].
  intros sum Hs. cbn [uip_buf set_field] in Hs. rewrite Ht in Hs. injection Hs as <-.
  ustep; [done|]. do 8 ustep. cbn [uip_buf uip_conns set_field]. change (uip_conns s1) with (uip_conns s0).
  rewrite (sg_destport _ _ _ Hseg), (sg_srcport _ _ _ Hseg), (sg_src _ _ _ Hseg).
  apply HQ; [by split|cbn [uip_len set_field]; rewrite Hil, wrap16_id; unfold is_u16; lia|done..].
Qed.
End input.

Lemma uip_input_found s0 g0 i h data f (Q : unit → uip * httpd → Prop) :
  host s0 g0 i → framed_seg h data f → for_conn s0 (uip_conns s0 !!! i) h →
  (∀ s, Got s0 h data s → uip_len s = 40 + Z.of_nat (length data) → uip_conns s = uip_conns s0 →
        wp anyfault (found i) Q (s, g0)) →
  wp anyfault uip_input Q (receive f s0, g0).
Proof.
  intros Hhost Hframe [Hd Hs Hdp Hsp _] HQ. apply (uip_input_segment 0x50 s0 g0 h data f); [apply Hhost|done|done|].
  intros s Hg Hl Hcs _ _. pose proof (ho_demux _ _ _ Hhost) as Hdm. cbv zeta in Hdm. rewrite Hs, Hdp, Hsp, Hdm. auto.
Qed.

(** ** What a connection does with a segment *)

Lemma lookup_alter_conn s i f :
  inv_uip s → (i < UIP_CONNS)%nat → alter f i (uip_conns s) !!! i = f (uip_conns s !!! i).
Proof.
  intros [Hw _] Hi. rewrite list_lookup_total_alt, list_lookup_alter_eq, list_lookup_lookup_total_lt; [done|].
  by rewrite (wf_uip_conns_len s).
Qed.

(** What was in transit has arrived. *)
Definition acked (c : conn) : conn :=
  let c' := rtt_update (c <| snd_nxt := uip_add32 (snd_nxt c) (len c) |>) in
  c' <| timer := rto c' |> <| len := 0 |>.

(** The application had nothing to send. *)
Definition no_nrtx (c : conn) : conn := c <| nrtx := 0 |>.

Section on_conn.
Variables (off : Z) (s0 : uip) (i : nat) (h : tcp_hdr) (data : list Z).
Let c0 := uip_conns s0 !!! i.
Hypothesis Hinv : inv_uip s0.
Hypothesis Hidx : (i < UIP_CONNS)%nat.

Lemma conn_lookup : uip_conns s0 !! i = Some c0.
Proof. apply list_lookup_lookup_total_lt. by rewrite (wf_uip_conns_len s0) by apply Hinv. Qed.
Lemma conn_good : good_conn c0.
Proof. exact (Forall_lookup_1 _ _ _ _ (inv_conns _ Hinv) conn_lookup). Qed.

(** The globals when the connection's state is looked at, [n] bytes of payload
    being left. *)
Definition At_conn_at (n : Z) (F : conn → conn) (fl : Z) (s : uip) : Prop :=
  Got_at off s0 h data s ∧ uip_len s = n ∧ uip_conn s = Some i ∧ uip_flags s = fl ∧
  uip_conns s = alter F i (uip_conns s0).

Lemma alter_same : alter (λ c : conn, c) i (uip_conns s0) = uip_conns s0.
Proof. by apply list_alter_id. Qed.
Lemma got_flags s : Got_at off s0 h data s → u8 (uip_buf s) BUF.flags = h_flags h.
Proof. intros [_ Hs _ _ _]. apply Hs. Qed.
Lemma got_slice s : Got_at off s0 h data s → slice 54 (length data) (uip_buf s) = data.
Proof. intros [_ Hs _ _ _]. apply Hs. Qed.

Lemma at_conn_c n F fl s : At_conn_at n F fl s → uip_conns s !!! i = F c0.
Proof. intros (_ & _ & _ & _ & ->). by apply lookup_alter_conn. Qed.

Lemma at_conn_ext n F G fl fl' s :
  (∀ c, F c = G c) → fl = fl' → At_conn_at n F fl s → At_conn_at n G fl' s.
Proof.
  intros He -> (? & ? & ? & ? & Hcs). do 4 (split; [done|]). rewrite Hcs. apply list_alter_ext; [|done]. by intros.
Qed.

(** *** The acknowledgement number *)

(** Nothing is in transit, or something else is acknowledged. *)
Lemma found_ack_skip {A} n s (a : A) :
  At_conn_at n (λ c, c) 0 s → len c0 = 0 ∨ h_ack h ≠ uip_add32 (snd_nxt c0) (len c0) →
  wp anyfault (found_ack i) (λ _ x, x = (s, a)) (s, a).
Proof.
  intros HA Hn. pose proof (at_conn_c _ _ _ _ HA) as Hc. pose proof (gt_seg _ _ _ _ (proj1 HA)) as Hs.
  unfold found_ack. do 5 ustep; [|done]. do 3 ustep; [|done]. exfalso.
  rewrite Hc, (sg_ack _ _ _ Hs) in *. destruct Hn as [Hn|Hn].
  - match goal with He : _ && uip_outstanding _ = true |- _ => unfold uip_outstanding in He; rewrite Hn, andb_false_r in He; done end.
  - by match goal with He : bool_decide _ = true |- _ => apply bool_decide_eq_true_1 in He end.
Qed.

(** What was in transit is acknowledged. *)
Lemma found_ack_take {A} n s (a : A) :
  At_conn_at n (λ c, c) 0 s → has (h_flags h) TCP_ACK = true → len c0 ≠ 0 →
  h_ack h = uip_add32 (snd_nxt c0) (len c0) →
  wp anyfault (found_ack i) (λ _ x, At_conn_at n acked UIP_ACKDATA x.1 ∧ x.2 = a) (s, a).
Proof.
  intros HA Hfa Hn Ha. pose proof (at_conn_c _ _ _ _ HA) as Hc. destruct HA as (Hg & Hl & Hu & Hf & Hcs).
  rewrite alter_same in Hcs. pose proof (gt_seg _ _ _ _ Hg) as Hs. pose proof (got_flags s Hg) as Hfl.
  unfold found_ack. do 5 ustep.
  2:{ exfalso. match goal with He : _ && _ = false |- _ => revert He end.
      rewrite Hfl, Hfa, Hc. unfold uip_outstanding. by rewrite (proj2 (Z.eqb_neq _ _) Hn). }
  do 3 ustep.
  2:{ exfalso. match goal with He : bool_decide _ = false |- _ => apply bool_decide_eq_false_1 in He; apply He end.
      by rewrite Hc, (sg_ack _ _ _ Hs). }
  repeat ustep. split; [|done]. split; [by destruct Hg|]. do 3 (split; [done|]). cbn [fst uip_conns set_field].
  rewrite Hcs, list_alter_alter_eq. apply list_eq. intros j. destruct (decide (i = j)) as [<-|Hne].
  - rewrite !list_lookup_alter_eq. by rewrite conn_lookup.
  - by rewrite !list_lookup_alter_ne.
Qed.

(** *** Afterwards *)

(** The connection has become [F] of what it was, and an acknowledgement is left
    to send; or nothing is. *)
Definition Answered (F : conn → conn) (g : httpd) (_ : unit) (x : uip * httpd) : Prop :=
  x.2 = g ∧ uip_conns x.1 = alter F i (uip_conns s0) ∧ uip_len x.1 = 40 ∧
  wrote (hdr_of s0 (F c0) TCP_ACK) [] (uip_buf x.1).
Definition Quiet (F : conn → conn) (g : httpd) (_ : unit) (x : uip * httpd) : Prop :=
  x.2 = g ∧ uip_conns x.1 = alter F i (uip_conns s0) ∧ uip_len x.1 = 0.

Lemma appsend_enter n F fl s g (Q : unit → uip * httpd → Prop) :
  At_conn_at n F fl s → uip_slen s = 0 → has fl UIP_ABORT = false → has fl UIP_CLOSE = false →
  (∀ s1, At_conn_at n (no_nrtx ∘ F) fl s1 →
     wp anyfault (if has fl UIP_NEWDATA
                  then set_len UIP_TCPIP_HLEN;; w8 BUF.flags TCP_ACK;; tcp_send_noopts i else drop) Q (s1, g)) →
  wp anyfault (appsend i) Q (s, g).
Proof.
  clear Hinv Hidx. intros (Hg & Hl & Hu & Hf & Hcs) Hsl Ha Hc HQ. subst fl. unfold appsend. do 4 ustep; [congruence|congruence|].
  unfold limit_send. do 4 ustep; [lia|]. do 3 ustep. unfold apprexmit. do 7 ustep; cbn [uip_slen set_field] in *.
  { match goal with He : _ && _ = true |- _ => rewrite Hsl in He; done end. }
  do 2 ustep. cbn [uip_flags set_field]. apply HQ. split; [by destruct Hg|]. do 3 (split; [done|]).
  cbn [uip_conns set_field]. by rewrite Hcs, list_alter_alter_eq.
Qed.

Lemma appsend_ack n F fl s g :
  At_conn_at n F fl s → good_conn (F c0) → uip_slen s = 0 →
  has fl UIP_ABORT = false → has fl UIP_CLOSE = false → has fl UIP_NEWDATA = true →
  wp anyfault (appsend i) (Answered (no_nrtx ∘ F) g) (s, g).
Proof.
  intros HA HF Hsl Ha Hc Hn. apply (appsend_enter n F fl); [done..|]. clear s HA Hsl. intros s HA. rewrite Hn.
  pose proof (at_conn_c _ _ _ _ HA) as Hc1. destruct HA as (Hg & Hl & Hu & Hf & Hcs). do 4 ustep.
  match goal with |- wp _ _ _ (?s', _) => pose proof (tcp_send_noopts_sends i s' g 0 TCP_ACK) as Hs; set (s1 := s') in * end.
  eapply wp_mono; [|apply Hs].
  - intros [] x (E1 & E2 & E3 & E4). unfold hdr_of in E4. change (uip_conns s1) with (uip_conns s) in E3, E4. rewrite Hc1 in E4.
    change (uip_hostaddr s1) with (uip_hostaddr s) in E4. rewrite (gt_host _ _ _ _ Hg) in E4.
    split; [done|]. split; [by rewrite E3|]. split; [done|]. exact E4.
  - split.
    + cbn [uip_buf set_field s1]. buf_len. apply Hg.
    + change (uip_conns s1) with (uip_conns s). rewrite Hc1. destruct HF as [[] ? ? ? ?]. split; [split|..]; done.
    + change (uip_hostaddr s1) with (uip_hostaddr s). rewrite (gt_host _ _ _ _ Hg). apply (inv_wf _ Hinv).
  - done.
  - cbn [uip_buf set_field s1]. rewrite u8_put8_eq; [done|]. rewrite (gt_buf _ _ _ _ Hg). offsets.
  - lia.
Qed.

Lemma appsend_quiet n F fl s g :
  At_conn_at n F fl s → uip_slen s = 0 →
  has fl UIP_ABORT = false → has fl UIP_CLOSE = false → has fl UIP_NEWDATA = false →
  wp anyfault (appsend i) (Quiet (no_nrtx ∘ F) g) (s, g).
Proof.
  intros HA Hsl Ha Hc Hn. apply (appsend_enter n F fl); [done..|]. intros s1 HA1. rewrite Hn.
  unfold drop. repeat ustep. split; [done|]. split; [|done]. apply HA1.
Qed.
End on_conn.
Arguments got_flags {off s0 h data s}.
Arguments got_slice {off s0 h data s}.
Arguments at_conn_c {off s0 i h data} _ _ {n F fl s}.
Arguments at_conn_ext {off s0 i h data n} F G {fl fl' s}.

(** ** What an established connection does with it *)

(** The window advertised by the peer's stack leaves the segment size of the
    connection as it was negotiated. *)
Lemma window_mss c :
  good_conn c →
  let w := wrap16 (Z.shiftl (Z.shiftr UIP_RECEIVE_WINDOW 8) 8 + Z.land UIP_RECEIVE_WINDOW 0xff) in
  (if (initialmss c <? w) || (w =? 0) then initialmss c else w) = initialmss c.
Proof.
  intros Hc. change (wrap16 _) with UIP_TCP_MSS. cbv zeta. change (UIP_TCP_MSS =? 0) with false.
  rewrite orb_false_r. pose proof (gc_initialmss _ Hc). destruct (Z.ltb_spec (initialmss c) UIP_TCP_MSS); lia.
Qed.

Section segment_in.
Variables (s0 : uip) (g0 : httpd) (i : nat) (h : tcp_hdr) (data : list Z).
Let c0 := uip_conns s0 !!! i.
Hypothesis Hhost : host s0 g0 i.
Hypothesis Hfor : for_conn s0 c0 h.
Hypothesis Hlen : (length data ≤ 366)%nat.

#[local] Abbreviation At_conn := (At_conn_at 0x50 s0 i h data (Z.of_nat (length data))).

Lemma conn0_good : good_conn c0.
Proof. exact (conn_good s0 i (ho_inv _ _ _ Hhost) (ho_idx _ _ _ Hhost)). Qed.

Lemma flags_clear :
  has (h_flags h) TCP_RST = false ∧ has (h_flags h) TCP_FIN = false ∧
  has (h_flags h) TCP_URG = false ∧ has (h_flags h) (Z.lor TCP_SYN TCP_FIN) = false.
Proof. by destruct (fc_flags _ _ _ Hfor) as [->| ->]. Qed.

Lemma flags_ack : has (h_flags h) TCP_ACK = true.
Proof. by destruct (fc_flags _ _ _ Hfor) as [->| ->]. Qed.

Lemma seg_in_sequence :
  out_of_sequence c0 (h_flags h) (Z.of_nat (length data)) (h_seq h) =
  negb (bool_decide (data = [])) && negb (bool_decide (h_seq h = rcv_nxt c0)).
Proof.
  unfold out_of_sequence. destruct flags_clear as (_ & _ & _ & ->). unfold c0. rewrite (ho_state _ _ _ Hhost).
  cbn [Z.land Pos.land UIP_ESTABLISHED UIP_TS_MASK UIP_SYN_SENT Z.eqb Pos.eqb andb negb].
  rewrite orb_false_r. f_equal. by destruct data.
Qed.

Lemma found_enter (Q : unit → uip * httpd → Prop) s :
  Got s0 h data s → uip_len s = 40 + Z.of_nat (length data) → uip_conns s = uip_conns s0 →
  (data ≠ [] → h_seq h ≠ rcv_nxt c0 →
     ∀ s1, Got s0 h data s1 → uip_conns s1 = uip_conns s0 → wp anyfault (tcp_send_ack i) Q (s1, g0)) →
  (data = [] ∨ h_seq h = rcv_nxt c0 →
     ∀ s1, At_conn (λ c, c) 0 s1 → wp anyfault (found_ack i;; tcp_state i) Q (s1, g0)) →
  wp anyfault (found i) Q (s, g0).
Proof.
  intros Hg Hl Hcs Hout Hin. pose proof (got_flags Hg) as Hf. pose proof (gt_seg _ _ _ _ Hg) as Hs.
  assert (Hn : uip_len s - wrap8 (Z.shiftl (Z.shiftr (u8 (uip_buf s) BUF.tcpoffset) 4) 2) - UIP_IPH_LEN = Z.of_nat (length data)).
  { rewrite (pl_offset _ _ (sg_plain _ _ _ Hs)), Hl. unfold UIP_IPH_LEN. change (wrap8 _) with 20. lia. }
  unfold found. do 7 ustep; cbn [uip_buf set_field] in *.
  { rewrite Hf in *. destruct flags_clear as [Hx _]. congruence. }
  do 13 ustep; cbn [uip_buf uip_conns uip_len set_field] in *;
    match goal with He : out_of_sequence _ _ _ _ = _ |- _ =>
      rewrite Hn, Hf, wrap16_id, Hcs, (sg_seq _ _ _ Hs) in He by (unfold is_u16; lia);
      change (uip_conns s0 !!! i) with c0 in He; rewrite seg_in_sequence in He end;
    repeat case_bool_decide; try discriminate; rewrite ?Hn, ?wrap16_id by (unfold is_u16; lia).
  1: by apply Hout; [..|destruct Hg|].
  all: apply Hin; [by auto|split; [by destruct Hg|by rewrite alter_same]].
Qed.

(** *** The established state *)

Definition keeps_conn (F : conn → conn) : Prop :=
  tcpstateflags (F c0) = tcpstateflags c0 ∧ initialmss (F c0) = initialmss c0.

Lemma tcp_state_est F fl s (Q : unit → uip * httpd → Prop) :
  keeps_conn F → At_conn F fl s → wp anyfault (in_established i) Q (s, g0) →
  wp anyfault (tcp_state i) Q (s, g0).
Proof.
  intros [Hst _] HA HQ. pose proof (at_conn_c (ho_inv _ _ _ Hhost) (ho_idx _ _ _ Hhost) HA : _ = F c0) as Hc. unfold tcp_state. do 2 ustep.
  rewrite Hc, Hst. unfold c0. by rewrite (ho_state _ _ _ Hhost).
Qed.

(** New data moves [rcv_nxt]. *)
Definition got_data (c : conn) : conn :=
  c <| rcv_nxt ::= λ q, uip_add32 q (Z.of_nat (length data)) |>.
Definition heard_conn (F : conn → conn) (c : conn) : conn :=
  (if decide (data = []) then F c else got_data (F c)) <| mss := initialmss c0 |>.
Definition heard_flags (fl : Z) : Z := if decide (data = []) then fl else Z.lor fl UIP_NEWDATA.

(** The part of the established state before the application is called. *)
Lemma established_head F fl s (Q : unit → uip * httpd → Prop) :
  keeps_conn F → At_conn F fl s →
  (∀ s', At_conn (heard_conn F) (heard_flags fl) s' →
     wp anyfault (if has (heard_flags fl) (Z.lor UIP_NEWDATA UIP_ACKDATA)
                  then set_slen 0;; UIP_APPCALL;; appsend i else drop) Q (s', g0)) →
  wp anyfault (in_established i) Q (s, g0).
Proof.
  intros [Hst Him] HA HQ. pose proof (at_conn_c (ho_inv _ _ _ Hhost) (ho_idx _ _ _ Hhost) HA : _ = F c0) as Hc. destruct HA as (Hg & Hl & Hu & Hf & Hcs).
  pose proof (got_flags Hg) as Hfl. destruct flags_clear as (_ & Hfin & Hurg & _).
  pose proof (gt_seg _ _ _ _ Hg) as [[_ _ _ _ _ _ Hw0 Hw1] _ _ _ _ _ _ _ _ _].
  pose proof (ho_state _ _ _ Hhost : tcpstateflags c0 = UIP_ESTABLISHED) as Hest.
  unfold in_established. do 4 ustep. rewrite Hfl, Hfin, Hurg, Hc, Hst, Him, Hest. cbn [andb].
  change (negb (has UIP_ESTABLISHED UIP_STOPPED)) with true. do 5 ustep. rewrite Hl, andb_true_r.
  assert (Hrest : ∀ s', At_conn (λ c, if decide (data = []) then F c else got_data (F c)) (heard_flags fl) s' →
    wp anyfault
      (w0 ← r8 BUF.wnd0; w1 ← r8 BUF.wnd1;
       let tmp16 := wrap16 (Z.shiftl w0 8 + w1) in
       let tmp16 := if (initialmss c0 <? tmp16) || (tmp16 =? 0) then initialmss c0 else tmp16 in
       connw i (λ c, c <| mss := tmp16 |>);;
       f ← gets uip_flags;
       if has f (Z.lor UIP_NEWDATA UIP_ACKDATA) then set_slen 0;; UIP_APPCALL;; appsend i else drop) Q (s', g0)).
  { clear s Hg Hl Hu Hf Hcs Hc Hfl Hw0 Hw1. intros s (Hg & Hl & Hu & Hf & Hcs).
    pose proof (gt_seg _ _ _ _ Hg) as [[_ _ _ _ _ _ Hw0 Hw1] _ _ _ _ _ _ _ _ _].
    do 4 ustep. rewrite Hw0, Hw1. cbv zeta. rewrite window_mss by apply conn0_good. do 4 ustep.
    cbn [uip_flags set_field]. rewrite Hf. apply HQ. split; [by destruct Hg|]. do 3 (split; [done|]).
    cbn [uip_conns set_field]. rewrite Hcs, list_alter_alter_eq. done. }
  destruct (decide (data = [])) as [Hd|Hd].
  - rewrite (proj2 (Z.ltb_ge _ _)) by (rewrite Hd; cbn; lia). ustep. apply Hrest.
    unfold heard_flags. by rewrite !decide_True.
  - rewrite (proj2 (Z.ltb_lt _ _)) by (destruct data; [done|cbn; lia]). do 2 ustep.
    unfold uip_add_rcv_nxt. ustep. apply (wp_deref_conn _ i); [done|]. ustep. apply Hrest.
    unfold heard_flags. rewrite wrap16_id by (unfold is_u16; lia).
    split; [by destruct Hg|]. do 2 (split; [done|]). cbn [uip_flags uip_conns set_field].
    rewrite Hcs, list_alter_alter_eq, !decide_False by done. by rewrite Hf.
Qed.

Lemma tcp_send_ack_answers s :
  Got s0 h data s → uip_conns s = uip_conns s0 →
  wp anyfault (tcp_send_ack i) (Answered s0 i (λ c, c) g0) (s, g0).
Proof.
  intros Hg Hcs. eapply wp_mono; [|apply tcp_send_ack_sends].
  - intros [] x (H1 & H2 & H3 & H4). unfold hdr_of in H4. rewrite Hcs, (gt_host _ _ _ _ Hg) in H4.
    split; [done|]. split; [by rewrite H3, Hcs, alter_same|done].
  - split; [apply Hg|rewrite Hcs; apply conn0_good|rewrite (gt_host _ _ _ _ Hg); apply (inv_wf _ (ho_inv _ _ _ Hhost))].
Qed.

(** *** The four cases of a segment *)

(** The connection after a segment was looked at: [data] may have been added. *)
Definition heard_to (c : conn) : conn := c <| mss := initialmss c0 |>.
Definition took (g : httpd) : httpd :=
  g <| httpd_socket_rx_buf ::= put_bytes 0 data |> <| httpd_socket_rx_len := Z.of_nat (length data) |>.
Definition cleared (g : httpd) : httpd := g <| httpd_socket_tx_pending := 0 |> <| httpd_socket_tx_len := 0 |>.

Lemma found_data s :
  Got s0 h data s → uip_len s = 40 + Z.of_nat (length data) → uip_conns s = uip_conns s0 →
  data ≠ [] → h_seq h = rcv_nxt c0 → len c0 = 0 → httpd_socket_tx_pending g0 = 0 →
  wp anyfault (found i) (Answered s0 i (λ c, no_nrtx (heard_to (got_data c))) (took g0)) (s, g0).
Proof.
  intros Hg Hl Hcs Hd Hq Hc0 Hp. apply found_enter; [done..|by intros|].
  intros _ s1 HA1. ustep. eapply wp_mono; [|eapply (found_ack_skip _ _ _ _ _ (ho_inv _ _ _ Hhost) (ho_idx _ _ _ Hhost)); [exact HA1|by left]].
  intros [] x ->. eapply (tcp_state_est (λ c, c)); [done|exact HA1|].
  eapply (established_head (λ c, c)); [done|exact HA1|]. intros s2 HA2.
  assert (heard_flags 0 = UIP_NEWDATA) as -> by (unfold heard_flags; by rewrite decide_False).
  assert (HA3 : At_conn (λ c, heard_to (got_data c)) UIP_NEWDATA s2).
  { eapply at_conn_ext; [..|exact HA2]; [|unfold heard_flags; by rewrite decide_False].
    intros c. unfold heard_conn. by rewrite decide_False. }
  clear HA1 HA2.
  change (has UIP_NEWDATA (Z.lor UIP_NEWDATA UIP_ACKDATA)) with true. cbv iota. do 3 ustep.
  match goal with |- wp _ _ _ (?s', _) => set (s3 := s') end.
  assert (HA : At_conn (λ c, heard_to (got_data c)) UIP_NEWDATA s3).
  { destruct HA3 as (Hg2 & ? & ? & ? & ?). split; [by destruct Hg2|done]. }
  pose proof HA as (Hg3 & Hl3 & _ & Hf3 & _).
  unfold wp at 1. change (UIP_APPCALL (s3, g0)) with (httpd_appcall (s3, g0)).
  rewrite (httpd_on_data s3 g0 (length data)); [|apply Hg3|done|apply Hg3|done|lia|done|apply Hhost].
  rewrite (got_slice Hg3). eapply (appsend_ack _ _ _ _ _ (ho_inv _ _ _ Hhost) (ho_idx _ _ _ Hhost)); [exact HA| |done..].
  destruct conn0_good as [[] ? ? ? ?]. split; [split|..]; cbn; try done. by apply uip_add32_spec; [|unfold is_u16; lia].
Qed.

Lemma found_again s :
  Got s0 h data s → uip_len s = 40 + Z.of_nat (length data) → uip_conns s = uip_conns s0 →
  data ≠ [] → h_seq h ≠ rcv_nxt c0 → wp anyfault (found i) (Answered s0 i (λ c, c) g0) (s, g0).
Proof.
  intros Hg Hl Hcs Hd Hq. apply found_enter; [done..| |by intros [|]].
  intros _ _ s1 Hg1 Hcs1. by apply tcp_send_ack_answers.
Qed.

Lemma found_acked s :
  Got s0 h data s → uip_len s = 40 + Z.of_nat (length data) → uip_conns s = uip_conns s0 →
  data = [] → len c0 ≠ 0 → h_ack h = uip_add32 (snd_nxt c0) (len c0) →
  wp anyfault (found i) (Quiet s0 i (λ c, no_nrtx (heard_to (acked c))) (cleared g0)) (s, g0).
Proof.
  intros Hg Hl Hcs Hd Hc0 Ha. apply found_enter; [done..|]. intros _ s1 HA1. ustep.
  eapply wp_mono; [|eapply (found_ack_take _ _ _ _ _ (ho_inv _ _ _ Hhost) (ho_idx _ _ _ Hhost)); [exact HA1|apply flags_ack|done..]]. intros [] [s2 g2] [HA2 Hg2]. cbn [fst snd] in *. subst g2.
  assert (Hk : keeps_conn acked) by (split; cbn; unfold rtt_update; by case_match).
  eapply tcp_state_est; [exact Hk|exact HA2|]. eapply established_head; [exact Hk|exact HA2|]. intros s3 HA3.
  assert (heard_flags UIP_ACKDATA = UIP_ACKDATA) as -> by (unfold heard_flags; by rewrite decide_True).
  assert (HA4 : At_conn (λ c, heard_to (acked c)) UIP_ACKDATA s3).
  { eapply at_conn_ext; [..|exact HA3]; [|unfold heard_flags; by rewrite decide_True].
    intros c. unfold heard_conn. by rewrite decide_True. }
  change (has UIP_ACKDATA (Z.lor UIP_NEWDATA UIP_ACKDATA)) with true. cbv iota. do 3 ustep.
  match goal with |- wp _ _ _ (?s', _) => set (s4 := s') end.
  assert (HA5 : At_conn (λ c, heard_to (acked c)) UIP_ACKDATA s4).
  { destruct HA4 as (Hg2 & ? & ? & ? & ?). split; [by destruct Hg2|done]. }
  unfold wp at 1. change (UIP_APPCALL (s4, g0)) with (httpd_appcall (s4, g0)).
  rewrite httpd_on_ack; [|apply HA5|apply Hhost]. eapply (appsend_quiet 0x50 s0 i h data (Z.of_nat (length data)) (λ c, heard_to (acked c))); [apply HA5|done..].
Qed.

Lemma found_ack_again s :
  Got s0 h data s → uip_len s = 40 + Z.of_nat (length data) → uip_conns s = uip_conns s0 →
  data = [] → len c0 = 0 ∨ h_ack h ≠ uip_add32 (snd_nxt c0) (len c0) →
  wp anyfault (found i) (Quiet s0 i heard_to g0) (s, g0).
Proof.
  intros Hg Hl Hcs Hd Ha. apply found_enter; [done..|]. intros _ s1 HA1. ustep.
  eapply wp_mono; [|eapply (found_ack_skip _ _ _ _ _ (ho_inv _ _ _ Hhost) (ho_idx _ _ _ Hhost)); [exact HA1|done]]. intros [] x ->.
  eapply (tcp_state_est (λ c, c)); [done|exact HA1|]. eapply (established_head (λ c, c)); [done|exact HA1|]. intros s2 HA2.
  assert (heard_flags 0 = 0) as -> by (unfold heard_flags; by rewrite decide_True).
  change (has 0 (Z.lor UIP_NEWDATA UIP_ACKDATA)) with false. cbv iota. unfold drop. repeat ustep.
  eapply (at_conn_ext _ heard_to) in HA2 as (_ & _ & _ & _ & Hcs2); [by split| |done].
  intros c. unfold heard_conn. by rewrite decide_True.
Qed.
End segment_in.

(** ** Whole calls *)

(** A call that is in order returns, and [Q] holds after it. *)
Lemma process_call flag s1 g (Q : unit → uip * httpd → Prop) :
  inv_uip s1 → wf_httpd g → call_ok s1 flag g → uip_hostaddr s1 ≠ all_zeroes_addr → wp anyfault (uip_process flag) Q (s1, g) →
  ∃ s' g', uip_process flag (s1, g) = Ok (tt, (s', g')) ∧ Q tt (s', g') ∧
    inv_uip s' ∧ wf_httpd g' ∧ tx_fits g' ∧ static s' = static s1 ∧ (uip_len s' = 0 ∨ emitted (uip_buf s')).
Proof.
  intros Hi Hg Hok Ha Hq. pose proof (Hg : app_wf g) as Hw. destruct (process_returns flag s1 g Hi Hw Hok) as (s' & g' & Hr & Hi' & Hw' & Hf' & _).
  exists s', g'. split; [done|]. unfold wp in Hq. rewrite Hr in Hq. split; [done|].
  destruct (process_fin flag s1 g s' g' Hi Hw Hr) as ((j & st & HA) & _ & He).
  do 3 (split; [done|]). split; [by apply HA|]. by apply He.
Qed.

(** A segment without options may be processed. *)
Lemma input_sane h data f s g :
  inv_uip s → tx_fits g → framed_seg h data f → (length data ≤ 366)%nat → has (h_flags h) TCP_URG = false →
  inv_uip (receive f s) ∧ call_ok (receive f s) UIP_DATA g.
Proof.
  intros Hi Hf Hfr Hlen Hu. destruct (received_buf 0x50 s h data f Hi Hfr) as [Hl Hb].
  pose proof (received_segment h data f s Hfr (wf_buf_len _ (inv_wf _ Hi))) as Hseg.
  destruct (seg_fields _ _ _ Hseg Hb) as (_ & _ & _ & _ & _ & _ & Hh). change (wrap8 _) with 20 in Hh.
  pose proof (pl_len _ _ (sg_plain _ _ _ Hseg)) as Hil. split.
  - destruct Hi as [[] ?]. split; [split|]; try done. apply wrap16_u16.
  - split; [done|]. cbn [Z.eqb orb]. split; [lia|]. split; [lia|]. intros _.
    split_and!; [lia|lia|by apply hlen20_options|]. by rewrite (sg_flags _ _ _ Hseg).
Qed.

(** The fields a segment is matched against. *)
Definition same_ends (c c' : conn) : Prop := lport c' = lport c ∧ rport c' = rport c ∧ ripaddr c' = ripaddr c.
Definition same_key (c c' : conn) : Prop :=
  lport c' = lport c ∧ rport c' = rport c ∧ ripaddr c' = ripaddr c ∧ tcpstateflags c' = tcpstateflags c.

Lemma demux_alter dport sport src k cs i F :
  (∀ c, cs !! i = Some c → same_ends c (F c) ∧ (tcpstateflags (F c) =? UIP_CLOSED) = (tcpstateflags c =? UIP_CLOSED)) →
  demux dport sport src k (alter F i cs) = demux dport sport src k cs.
Proof.
  revert k i. induction cs as [|c cs IH]; intros k i HF; [done|].
  destruct i as [|i]; cbn.
  - destruct (HF c eq_refl) as ((E1 & E2 & E3) & E4). unfold conn_matches. by rewrite E1, E2, E3, E4.
  - case_match; [done|]. by apply IH.
Qed.

(** A call that made [F] of connection [i]. *)
Record stepped_at (st : Z) (s s' : uip) (g' : httpd) (i : nat) (F : conn → conn) : Prop := {
  sp_host : host_at st s' g' i;
  sp_addr : uip_hostaddr s' = uip_hostaddr s;
  sp_conns : uip_conns s' = alter F i (uip_conns s)
}.
Arguments sp_host {st}.
Arguments sp_addr {st}.
Arguments sp_conns {st}.
Abbreviation stepped := (stepped_at UIP_ESTABLISHED).

Lemma stepped_conn {st st'} s s' g g' i F :
  host_at st s g i → stepped_at st' s s' g' i F → uip_conns s' !!! i = F (uip_conns s !!! i).
Proof. intros Hh Hs. rewrite (sp_conns _ _ _ _ _ Hs). apply lookup_alter_conn; [apply (ho_inv _ _ _ Hh)|apply (ho_idx _ _ _ Hh)]. Qed.

Lemma host_moves {st st'} s g s' g' i F :
  host_at st s g i → inv_uip s' → wf_httpd g' → tx_fits g' → static s' = static s →
  uip_conns s' = alter F i (uip_conns s) → same_ends (uip_conns s !!! i) (F (uip_conns s !!! i)) →
  tcpstateflags (F (uip_conns s !!! i)) = st' → st ≠ UIP_CLOSED → st' ≠ UIP_CLOSED →
  httpd_socket_close_pending g' = 0 → stepped_at st' s s' g' i F.
Proof.
  intros Hh Hi Hg Hf Hst Hcs Hk Hs' Hn Hn' Hc. injection Hst as _ _ Haddr _ _ _. split; [|done..].
  assert (Hci : uip_conns s' !!! i = F (uip_conns s !!! i)).
  { rewrite Hcs. apply lookup_alter_conn; [apply (ho_inv _ _ _ Hh)|apply (ho_idx _ _ _ Hh)]. }
  pose proof Hk as (E1 & E2 & E3). destruct Hh as [Hi0 _ _ Hx Ha Hs0 _ Hd]. split; try done.
  - by rewrite Haddr.
  - by rewrite Hci.
  - cbv zeta. rewrite Hci, E1, E2, E3, Hcs, demux_alter; [done|].
    intros c Hl. apply list_lookup_total_correct in Hl. subst c. split; [done|].
    by rewrite Hs0, Hs', !(proj2 (Z.eqb_neq _ _)).
Qed.

Lemma host_step s g s' g' i F :
  host s g i → inv_uip s' → wf_httpd g' → tx_fits g' → static s' = static s →
  uip_conns s' = alter F i (uip_conns s) → same_key (uip_conns s !!! i) (F (uip_conns s !!! i)) →
  httpd_socket_close_pending g' = 0 → stepped s s' g' i F.
Proof.
  intros Hh Hi Hg Hf Hst Hcs (E1 & E2 & E3 & E4) Hc. eapply (host_moves s g); try done.
  by rewrite E4, (ho_state _ _ _ Hh).
Qed.

Section calls.
Variables (s : uip) (g : httpd) (i : nat).
Let c := uip_conns s !!! i.
Hypothesis Hhost : host s g i.

Lemma host_process flag s1 (Q : unit → uip * httpd → Prop) :
  inv_uip s1 → static s1 = static s → call_ok s1 flag g → wp anyfault (uip_process flag) Q (s1, g) →
  ∃ s' g', uip_process flag (s1, g) = Ok (tt, (s', g')) ∧ Q tt (s', g') ∧
    inv_uip s' ∧ wf_httpd g' ∧ tx_fits g' ∧ static s' = static s ∧ (uip_len s' = 0 ∨ emitted (uip_buf s')).
Proof.
  intros Hi Hst Hok Hq. rewrite <- Hst. apply process_call; [done|apply Hhost|done| |done].
  injection Hst as _ _ -> _ _ _. apply Hhost.
Qed.

(** *** A segment comes in *)

Section comes_in.
Variables (h : tcp_hdr) (data f : list Z).
Hypothesis Hframe : framed_seg h data f.
Hypothesis Hfor : for_conn s c h.
Hypothesis Hlen : (length data ≤ 366)%nat.

Lemma input_host (Q : unit → uip * httpd → Prop) :
  wp anyfault uip_input Q (receive f s, g) →
  ∃ s' g', uip_input (receive f s, g) = Ok (tt, (s', g')) ∧ Q tt (s', g') ∧
    inv_uip s' ∧ wf_httpd g' ∧ tx_fits g' ∧ static s' = static s ∧ (uip_len s' = 0 ∨ emitted (uip_buf s')).
Proof.
  intros HQ. destruct (input_sane h data f s g) as [Hi Hok]; [apply Hhost|apply Hhost|done|done| |].
  { by destruct (fc_flags _ _ _ Hfor) as [->| ->]. }
  by apply host_process.
Qed.

Lemma answered_result F g' :
  same_key c (F c) → httpd_socket_close_pending g' = 0 →
  (∀ s1, Got s h data s1 → uip_len s1 = 40 + Z.of_nat (length data) → uip_conns s1 = uip_conns s →
         wp anyfault (found i) (Answered s i F g') (s1, g)) →
  ∃ s', uip_input (receive f s, g) = Ok (tt, (s', g')) ∧ stepped s s' g' i F ∧
        uip_len s' = 40 ∧ segment (hdr_of s (F c) TCP_ACK) [] (uip_buf s').
Proof.
  intros Hk Hc HQ.
  destruct (input_host _ (uip_input_found s g i h data f _ Hhost Hframe Hfor HQ))
    as (s' & g1 & Hr & (Hg' & Hcs & Hl & Hw) & Hi & Hwf & Hf & Hst & He).
  cbn [fst snd] in *. subst g1. exists s'. split; [done|]. split; [by eapply (host_step s g)|].
  split; [done|]. apply wrote_segment; [exact Hw|]. destruct He; [lia|done].
Qed.

Lemma quiet_result F g' :
  same_key c (F c) → httpd_socket_close_pending g' = 0 →
  (∀ s1, Got s h data s1 → uip_len s1 = 40 + Z.of_nat (length data) → uip_conns s1 = uip_conns s →
         wp anyfault (found i) (Quiet s i F g') (s1, g)) →
  ∃ s', uip_input (receive f s, g) = Ok (tt, (s', g')) ∧ stepped s s' g' i F ∧ uip_len s' = 0.
Proof.
  intros Hk Hc HQ.
  destruct (input_host _ (uip_input_found s g i h data f _ Hhost Hframe Hfor HQ))
    as (s' & g1 & Hr & (Hg' & Hcs & Hl) & Hi & Hwf & Hf & Hst & _).
  cbn [fst snd] in *. subst g1. exists s'. split; [done|]. split; [by eapply (host_step s g)|done].
Qed.

(** In order and new: the application gets it and an acknowledgement goes back. *)
Lemma input_data :
  data ≠ [] → h_seq h = rcv_nxt c → len c = 0 → httpd_socket_tx_pending g = 0 →
  ∃ s', uip_input (receive f s, g) = Ok (tt, (s', took data g)) ∧
    stepped s s' (took data g) i (λ c', no_nrtx (heard_to s i (got_data data c'))) ∧ uip_len s' = 40 ∧
    segment (hdr_of s (got_data data c) TCP_ACK) [] (uip_buf s').
Proof.
  intros Hd Hq Hl Hp.
  apply (answered_result (λ c', no_nrtx (heard_to s i (got_data data c')))); [done|apply (ho_close _ _ _ Hhost)|].
  intros. by eapply found_data.
Qed.

(** Not the next one: it is dropped, and what is expected is said again. *)
Lemma input_again :
  data ≠ [] → h_seq h ≠ rcv_nxt c →
  ∃ s', uip_input (receive f s, g) = Ok (tt, (s', g)) ∧ stepped s s' g i (λ c', c') ∧ uip_len s' = 40 ∧
    segment (hdr_of s c TCP_ACK) [] (uip_buf s').
Proof.
  intros Hd Hq. apply (answered_result (λ c', c')); [done|apply (ho_close _ _ _ Hhost)|].
  intros. by eapply found_again.
Qed.

(** What is in transit is acknowledged. *)
Lemma input_acked :
  data = [] → len c ≠ 0 → h_ack h = uip_add32 (snd_nxt c) (len c) →
  ∃ s', uip_input (receive f s, g) = Ok (tt, (s', cleared g)) ∧
    stepped s s' (cleared g) i (λ c', no_nrtx (heard_to s i (acked c'))) ∧ uip_len s' = 0.
Proof.
  intros Hd Hl Ha. apply (quiet_result (λ c', no_nrtx (heard_to s i (acked c')))); [|apply (ho_close _ _ _ Hhost)|].
  - unfold acked, rtt_update. by case_match.
  - intros. by eapply found_acked.
Qed.

(** An acknowledgement of nothing that is in transit. *)
Lemma input_ack_again :
  data = [] → len c = 0 ∨ h_ack h ≠ uip_add32 (snd_nxt c) (len c) →
  ∃ s', uip_input (receive f s, g) = Ok (tt, (s', g)) ∧ stepped s s' g i (heard_to s i) ∧ uip_len s' = 0.
Proof.
  intros Hd Ha. apply (quiet_result (heard_to s i)); [done|apply (ho_close _ _ _ Hhost)|].
  intros. by eapply found_ack_again.
Qed.
End comes_in.

(** *** Sending *)

(** [uip_conn = &uip_conns[i]] *)
Let sel := s <| uip_conn := Some i |>.

Lemma sel_host : inv_uip sel ∧ static sel = static s.
Proof. split; [|done]. apply inv_select; [apply (ho_idx _ _ _ Hhost)|apply (ho_inv _ _ _ Hhost)]. Qed.

(** [tx_len] bytes of the application's buffer, as one segment. *)
Definition outgoing : list Z := take (Z.to_nat (httpd_socket_tx_len g)) (httpd_socket_tx_buf g).
Definition in_transit (c' : conn) : conn := c' <| len := httpd_socket_tx_len g |> <| nrtx := 0 |>.

Lemma outgoing_len : tx_ready g → Z.of_nat (length outgoing) = httpd_socket_tx_len g.
Proof.
  intros [Hw _ _ [? ?]]. unfold outgoing. rewrite length_take, (wf_tx_len _ Hw). unfold UIP_BUFSIZE. lia.
Qed.

Lemma poll_sends :
  tx_ready g → len c = 0 → httpd_socket_tx_len g ≤ mss c →
  ∃ s', uip_poll_conn i (s, g) = Ok (tt, (s', g)) ∧ stepped s s' g i in_transit ∧
    uip_len s' = 40 + Z.of_nat (length outgoing) ∧
    segment (hdr_of s c (Z.lor TCP_ACK TCP_PSH)) outgoing (uip_buf s').
Proof.
  intros Hg Hl Hm. pose proof Hhost as [Hi Hw Hf Hx Ha Hst Hc _]. destruct sel_host as [Hi' Hs'].
  destruct (tr_len _ Hg) as [Hpos Hle].
  assert (Hq : wp anyfault (uip_process UIP_POLL_REQUEST) (Transmitted s g i) (sel, g)).
  { unfold wp. unfold sel. rewrite <- uip_poll_conn_eq. apply (uip_poll_tx s g i); [done..| |done]. fold c. lia. }
  destruct (host_process UIP_POLL_REQUEST sel _ Hi' Hs' ltac:(by split) Hq)
    as (s' & g' & Hr & (Hg' & Hn & Hcs & Hwr) & Hi1 & Hw1 & Hf1 & Hst1 & He).
  cbn [fst snd] in *. subst g'. fold c in Hn, Hcs, Hwr. rewrite Z.min_l in Hn, Hcs, Hwr by done. fold outgoing in Hwr.
  exists s'. rewrite uip_poll_conn_eq. split; [done|]. split; [by eapply (host_step s g)|].
  rewrite (outgoing_len Hg). split; [done|]. apply wrote_segment; [done|]. destruct He; [lia|done].
Qed.

(** Nothing is sent while something is in transit. *)
Lemma poll_waits :
  len c ≠ 0 →
  ∃ s', uip_poll_conn i (s, g) = Ok (tt, (s', g)) ∧ stepped s s' g i (λ c', c') ∧ uip_len s' = 0.
Proof.
  intros Hl. destruct sel_host as [Hi' Hs'].
  assert (Hq : wp anyfault (uip_process UIP_POLL_REQUEST) (Quiet s i (λ c', c') g) (sel, g)).
  { unfold uip_process. do 3 ustep; [|done]. ustep. apply (wp_deref_conn _ i); [done|].
    unfold poll_request. do 3 ustep.
    { match goal with He : _ && _ = true |- _ => cbn [uip_conns set_field sel] in He; fold c in He;
        unfold uip_outstanding in He; rewrite (proj2 (Z.eqb_neq _ _) Hl), andb_false_r in He; done end. }
    unfold drop. repeat ustep. split; [done|]. split; [|done]. cbn [fst uip_conns set_field sel].
    symmetry. by apply list_alter_id. }
  destruct (host_process UIP_POLL_REQUEST sel _ Hi' Hs' ltac:(by split; [apply (ho_fits _ _ _ Hhost)|]) Hq)
    as (s' & g' & Hr & (Hg' & Hcs & Hn) & Hi1 & Hw1 & Hf1 & Hst1 & _).
  cbn [fst snd] in *. subst g'. exists s'. rewrite uip_poll_conn_eq. split; [done|].
  split; [eapply (host_step s g); try done; apply (ho_close _ _ _ Hhost)|done].
Qed.

(** ** The retransmission timer *)

Definition ticked (c' : conn) : conn := c' <| timer ::= λ t, wrap8 (t - 1) |>.
Definition resent (c' : conn) : conn :=
  c' <| timer := wrap8 (Z.shiftl UIP_RTO (if 4 <? nrtx c' then 4 else nrtx c')) |>
     <| nrtx ::= λ n, wrap8 (n + 1) |>.

Lemma timer_head (Q : unit → uip * httpd → Prop) :
  len c ≠ 0 →
  (∀ s1, length (uip_buf s1) = 422%nat → uip_sappdata s1 = 54%nat → uip_hostaddr s1 = uip_hostaddr s →
         uip_conns s1 = alter ticked i (uip_conns s) →
         wp anyfault (if timer c =? 0 then rexmit i else drop) Q (s1, g)) →
  wp anyfault (uip_process UIP_TIMER) Q (sel, g).
Proof.
  intros Hl HQ. pose proof (ho_state _ _ _ Hhost : tcpstateflags c = UIP_ESTABLISHED) as Hst.
  unfold uip_process. do 3 ustep; [done|]. ustep; [|done]. ustep. apply (wp_deref_conn _ i); [done|].
  unfold timer_fired. do 8 ustep. cbn [uip_conns set_field sel]. fold c. rewrite Hst. ustep; [done|].
  ustep; [|done]. unfold uip_outstanding. rewrite (proj2 (Z.eqb_neq _ _) Hl). cbn [negb]. do 2 ustep.
  apply HQ; [|done..]. apply (inv_wf _ (ho_inv _ _ _ Hhost)).
Qed.

(** Until the timer runs out nothing is sent. *)
Lemma periodic_ticks :
  len c ≠ 0 → timer c ≠ 0 →
  ∃ s', uip_periodic i (s, g) = Ok (tt, (s', g)) ∧ stepped s s' g i ticked ∧ uip_len s' = 0.
Proof.
  intros Hl Ht. destruct sel_host as [Hi' Hs'].
  assert (Hq : wp anyfault (uip_process UIP_TIMER) (Quiet s i ticked g) (sel, g)).
  { apply timer_head; [done|]. intros s1 _ _ _ Hcs. rewrite (proj2 (Z.eqb_neq _ _) Ht).
    unfold drop. by repeat ustep. }
  destruct (host_process UIP_TIMER sel _ Hi' Hs' ltac:(by split; [apply (ho_fits _ _ _ Hhost)|]) Hq)
    as (s' & g' & Hr & (Hg' & Hcs & Hn) & Hi1 & Hw1 & Hf1 & Hst1 & _).
  cbn [fst snd] in *. subst g'. exists s'. rewrite uip_periodic_eq. split; [done|].
  split; [eapply (host_step s g); try done; apply (ho_close _ _ _ Hhost)|done].
Qed.

(** When it does, what is in transit is sent again, as it was. *)
Lemma periodic_resends :
  tx_ready g → len c = httpd_socket_tx_len g → timer c = 0 → nrtx c ≠ UIP_MAXRTX →
  ∃ s', uip_periodic i (s, g) = Ok (tt, (s', g)) ∧ stepped s s' g i (λ c', resent (ticked c')) ∧
    uip_len s' = 40 + Z.of_nat (length outgoing) ∧
    segment (hdr_of s c (Z.lor TCP_ACK TCP_PSH)) outgoing (uip_buf s').
Proof.
  intros Hg Hl Ht Hn. pose proof Hhost as [Hi Hw Hf Hx Ha Hst Hc _]. destruct sel_host as [Hi' Hs'].
  destruct (tr_len _ Hg) as [Hpos Hle]. fold c in Hst. pose proof (outgoing_len Hg) as Hol.
  set (F c' := resent (ticked c')).
  assert (Hq : wp anyfault (uip_process UIP_TIMER)
    (λ _ x, x.2 = g ∧ uip_len x.1 = 40 + Z.of_nat (length outgoing) ∧ uip_conns x.1 = alter F i (uip_conns s) ∧
            wrote (hdr_of s c (Z.lor TCP_ACK TCP_PSH)) outgoing (uip_buf x.1)) (sel, g)).
  { apply timer_head; [lia|]. intros s1 Hb Hsa Haddr Hcs. rewrite Ht. cbn [Z.eqb].
    assert (Hc1 : uip_conns s1 !!! i = ticked c) by (rewrite Hcs; by apply lookup_alter_conn).
    unfold rexmit. do 3 ustep.
    { rewrite Hc1 in *. cbn [ticked nrtx tcpstateflags set_field] in *. rewrite Hst in *.
      cbn [Z.eqb Pos.eqb orb andb UIP_ESTABLISHED UIP_SYN_SENT UIP_SYN_RCVD] in *.
      rewrite orb_false_r in *. match goal with He : (_ =? _) = true |- _ => by apply Z.eqb_eq in He end. }
    rewrite Hc1. cbn [ticked nrtx tcpstateflags set_field]. rewrite Hst. do 4 ustep.
    do 2 (ustep; [done|]). ustep; [|done]. do 3 ustep.
    match goal with |- wp _ _ _ (?s', _) => set (s2 := s') end.
    assert (Hcs2 : uip_conns s2 = alter F i (uip_conns s)).
    { cbn [uip_conns set_field s2]. by rewrite Hcs, list_alter_alter_eq. }
    unfold wp at 1. change (UIP_APPCALL (s2, g)) with (httpd_appcall (s2, g)).
    rewrite (httpd_poll s2 g Hb Hsa (or_intror eq_refl) Hg). fold outgoing.
    assert (Hc2 : uip_conns (polled g s2) !!! i = F c).
    { change (uip_conns (polled g s2)) with (uip_conns s2). rewrite Hcs2. by apply lookup_alter_conn. }
    assert (Hd2 : slice 54 (length outgoing) (uip_buf (polled g s2)) = outgoing).
    { cbn [polled uip_buf set_field s2]. fold outgoing. rewrite slice_put_bytes by lia. by apply take_ge. }
    eapply wp_mono; [|apply (apprexmit_sends i (polled g s2) g (length outgoing))].
    - intros [] x (E1 & E2 & E3 & E4). rewrite Hd2, Hc2 in *. split_and!; [done|done|by rewrite E3|].
      unfold hdr_of in *. change (uip_hostaddr (polled g s2)) with (uip_hostaddr s1) in E4. by rewrite Haddr in E4.
    - split.
      + cbn [polled uip_buf set_field s2]. by rewrite length_put_bytes.
      + rewrite Hc2. pose proof (conn0_good s g i Hhost : good_conn c) as [[] ? ? ? ?].
        split; [split|..]; cbn; try done; try apply wrap8_u8.
      + change (uip_hostaddr (polled g s2)) with (uip_hostaddr s1). rewrite Haddr. apply (inv_wf _ Hi).
    - done.
    - rewrite Hc2. by rewrite Hol.
    - lia. }
  destruct (host_process UIP_TIMER sel _ Hi' Hs' ltac:(by split) Hq)
    as (s' & g' & Hr & (Hg' & Hlen & Hcs & Hwr) & Hi1 & Hw1 & Hf1 & Hst1 & He).
  cbn [fst snd] in *. subst g'. exists s'. rewrite uip_periodic_eq. split; [done|].
  split; [by eapply (host_step s g)|]. split; [done|]. apply wrote_segment; [done|]. destruct He; [lia|done].
Qed.
End calls.
