(* ===== verification/TcpPair.v ===== *)
(** * Two hosts and an unreliable link

    Two stacks with httpd.c as their application, joined by an established
    connection.  The application of the first sends messages to the second; each
    direction of the link holds the last frame sent there, which may be lost, be
    delivered any number of times, or be overtaken by the next one. *)

From stdpp Require Import relations.
From S2P Require Import Prelude Bytes Checksum UipState Uip PacketSum UipInv Httpd TcpSeg TcpTx UipThms TcpHost.

Record link := mk_link {
  l_a : uip * httpd;
  l_b : uip * httpd;
  l_ab : option (list Z);      (* the frame on its way to the second host *)
  l_ba : option (list Z);      (* the frame on its way back *)
  l_sent : list (list Z);      (* what the first application was given to send *)
  l_rcvd : list (list Z)       (* what the second application was given *)
}.
#[export] Instance link_settable : Settable link :=
  settable! mk_link <l_a; l_b; l_ab; l_ba; l_sent; l_rcvd>.

(** [handle_sock_send] leaves a message for the application to send. *)
Definition queue (m : list Z) (g : httpd) : httpd :=
  g <| httpd_socket_tx_buf ::= put_bytes 0 m |> <| httpd_socket_tx_len := Z.of_nat (length m) |>
    <| httpd_socket_tx_pending := 1 |>.

(** [sync_socket_state] takes what the application received. *)
Definition unread (g : httpd) : list (list Z) :=
  if 0 <? httpd_socket_rx_len g then [take (Z.to_nat (httpd_socket_rx_len g)) (httpd_socket_rx_buf g)] else [].
Definition read (g : httpd) : httpd := g <| httpd_socket_rx_len := 0 |>.

Section link.
Variables (i j : nat) (ethA ethB : list Z).

Definition ca (l : link) : conn := uip_conns (l_a l).1 !!! i.
Definition cb (l : link) : conn := uip_conns (l_b l).1 !!! j.

(** What the first host sends replaces the frame on the link. *)
Definition a_did (x : uip * httpd) (l : link) : link :=
  l <| l_a := x |> <| l_ab ::= λ o, match emit ethA x.1 with Some f => Some f | None => o end |>.
Definition b_did (x : uip * httpd) (l : link) : link :=
  l <| l_b := (x.1, read x.2) |> <| l_rcvd ::= λ r, r ++ unread x.2 |>
    <| l_ba ::= λ o, match emit ethB x.1 with Some f => Some f | None => o end |>.
Definition a_send (m : list Z) (l : link) : link :=
  l <| l_a ::= λ x, (x.1, queue m x.2) |> <| l_sent ::= λ r, r ++ [m] |>.

(** The first host's application gets a message of at most one segment when the
    previous one is acknowledged; the host is polled while there is something
    to send, and its timer ticks while something is in transit, until the
    stack gives up after [UIP_MAXRTX] retransmissions. *)
Inductive link_step : link → link → Prop :=
  | ls_send l m :
      httpd_socket_tx_pending (l_a l).2 = 0 → bytes m → 0 < Z.of_nat (length m) ≤ mss (ca l) →
      link_step l (a_send m l)
  | ls_poll l x :
      httpd_socket_tx_pending (l_a l).2 ≠ 0 → uip_poll_conn i (l_a l) = Ok (tt, x) → link_step l (a_did x l)
  | ls_timer l x :
      len (ca l) ≠ 0 → timer (ca l) ≠ 0 ∨ nrtx (ca l) ≠ UIP_MAXRTX →
      uip_periodic i (l_a l) = Ok (tt, x) → link_step l (a_did x l)
  | ls_to_b l f x :
      l_ab l = Some f → uip_input (receive f (l_b l).1, (l_b l).2) = Ok (tt, x) → link_step l (b_did x l)
  | ls_to_a l f x :
      l_ba l = Some f → uip_input (receive f (l_a l).1, (l_a l).2) = Ok (tt, x) → link_step l (a_did x l)
  | ls_lose_ab l : link_step l (l <| l_ab := None |>)
  | ls_lose_ba l : link_step l (l <| l_ba := None |>).

(** ** The invariant *)

(** The two ends have each other's address and ports. *)
Record joined (s s' : uip) (c c' : conn) : Prop := {
  jn_addr : ripaddr c = uip_hostaddr s';
  jn_back : ripaddr c' = uip_hostaddr s;
  jn_port : lport c = rport c';
  jn_rport : rport c = lport c'
}.

(** The last message, on its way: [acc] is what arrived before it. *)
Definition arriving (l : link) (acc : list (list Z)) : Prop :=
  (rcv_nxt (cb l) = snd_nxt (ca l) ∧ l_rcvd l = acc) ∨
  (len (ca l) ≠ 0 ∧ rcv_nxt (cb l) = uip_add32 (snd_nxt (ca l)) (len (ca l)) ∧ l_rcvd l = acc ++ [outgoing (l_a l).2]).

Definition progress (l : link) : Prop :=
  (httpd_socket_tx_pending (l_a l).2 = 0 ∧ len (ca l) = 0 ∧ rcv_nxt (cb l) = snd_nxt (ca l) ∧ l_rcvd l = l_sent l) ∨
  (tx_ready (l_a l).2 ∧ httpd_socket_tx_len (l_a l).2 ≤ mss (ca l) ∧
   (len (ca l) = 0 ∨ len (ca l) = httpd_socket_tx_len (l_a l).2) ∧
   ∃ acc, l_sent l = acc ++ [outgoing (l_a l).2] ∧ arriving l acc).

(** The frame to the second host is the segment in transit, or one that has been
    acknowledged. *)
Definition ab_ok (l : link) (f : list Z) : Prop :=
  ∃ q ack data,
    framed_seg (mk_hdr (uip_hostaddr (l_a l).1) (uip_hostaddr (l_b l).1) (lport (ca l)) (rport (ca l))
                  q ack (Z.lor TCP_ACK TCP_PSH)) data f ∧
    is_b4 q ∧ 0 < Z.of_nat (length data) ≤ 366 ∧
    (len (ca l) = 0 ∧ uip_add32 q (Z.of_nat (length data)) = snd_nxt (ca l) ∨
     len (ca l) ≠ 0 ∧ q = snd_nxt (ca l) ∧ data = outgoing (l_a l).2).

(** The frame back acknowledges what the second host has. *)
Definition ba_ok (l : link) (f : list Z) : Prop :=
  ∃ q, framed_seg (mk_hdr (uip_hostaddr (l_b l).1) (uip_hostaddr (l_a l).1) (lport (cb l)) (rport (cb l))
                     q (rcv_nxt (cb l)) TCP_ACK) [] f.

(** [k] is the segment size the first host negotiated. *)
Record link_inv (k : Z) (l : link) : Prop := {
  li_a : host (l_a l).1 (l_a l).2 i;
  li_b : host (l_b l).1 (l_b l).2 j;
  li_joined : joined (l_a l).1 (l_b l).1 (ca l) (cb l);
  li_mss : mss (ca l) = k ∧ initialmss (ca l) = k;
  li_len_b : len (cb l) = 0;
  li_idle_b : httpd_socket_tx_pending (l_b l).2 = 0;
  li_read_b : httpd_socket_rx_len (l_b l).2 = 0;
  li_progress : progress l;
  li_ab : ∀ f, l_ab l = Some f → ab_ok l f;
  li_ba : ∀ f, l_ba l = Some f → ba_ok l f
}.
End link.

(** ** Preservation *)

Lemma add32_ne q n : is_b4 q → 0 < n < 65536 → uip_add32 q n ≠ q.
Proof.
  intros Hq Hn E. destruct (uip_add32_spec q n Hq) as [_ Hs]; [unfold is_u16; lia|]. rewrite E in Hs.
  destruct Hq as (?&?&?&?). unfold be32, is_u8 in *. dlia.
Qed.

Lemma queue_ready m g :
  wf_httpd g → httpd_socket_close_pending g = 0 → bytes m → 0 < Z.of_nat (length m) ≤ 366 →
  tx_ready (queue m g) ∧ outgoing (queue m g) = m.
Proof.
  intros [] Hc Hm Hl. split.
  - split; [split|..]; cbn; try done; [by rewrite length_put_bytes|by apply put_bytes_bytes|lia].
  - unfold outgoing, queue. cbn [httpd_socket_tx_len httpd_socket_tx_buf set_field].
    rewrite Nat2Z.id. change (slice 0 (length m) (put_bytes 0 m (httpd_socket_tx_buf g)) = m).
    rewrite slice_put_bytes; [by apply take_ge|done|]. rewrite wf_tx_len. unfold UIP_BUFSIZE. lia.
Qed.

Section preserve.
Variables (i j : nat) (ethA ethB : list Z) (k : Z).
Hypothesis HethA : length ethA = 14%nat ∧ bytes ethA.
Hypothesis HethB : length ethB = 14%nat ∧ bytes ethB.

#[local] Abbreviation inv := (link_inv i j k).

Lemma good_a l : inv l → good_conn (ca i l).
Proof. intros Hl. apply (conn0_good _ _ _ (li_a _ _ _ _ Hl)). Qed.
Lemma good_b l : inv l → good_conn (cb j l).
Proof. intros Hl. apply (conn0_good _ _ _ (li_b _ _ _ _ Hl)). Qed.

Lemma emit_some eth s h data :
  length eth = 14%nat ∧ bytes eth → inv_uip s → uip_len s = 40 + Z.of_nat (length data) → (length data ≤ 368)%nat →
  segment h data (uip_buf s) → ∃ f, emit eth s = Some f ∧ framed_seg h data f.
Proof.
  intros [He Hb] [[] _] Hl Hd Hs. exists (on_wire eth s). unfold emit.
  rewrite (proj2 (Z.ltb_lt _ _)) by lia. split; [done|]. by apply on_wire_framed.
Qed.
Lemma emit_none eth s : uip_len s = 0 → emit eth s = None.
Proof. intros Hl. unfold emit. by rewrite Hl. Qed.

(** What a step of the first host has to show. *)
Lemma a_step l x F :
  inv l → stepped (l_a l).1 x.1 x.2 i F → same_key (ca i l) (F (ca i l)) →
  mss (F (ca i l)) = k → initialmss (F (ca i l)) = k →
  progress i j (a_did ethA x l) → (∀ f, l_ab (a_did ethA x l) = Some f → ab_ok i (a_did ethA x l) f) →
  inv (a_did ethA x l) ∧ ca i (a_did ethA x l) = F (ca i l).
Proof.
  intros Hl Hs (K1 & K2 & K3 & K4) Hm Him Hp Hab.
  assert (Hc : ca i (a_did ethA x l) = F (ca i l)) by apply (stepped_conn _ _ _ _ _ _ (li_a _ _ _ _ Hl) Hs).
  split; [|done]. destruct Hl as [Ha Hb [J1 J2 J3 J4] H1 H2 H3 H4 _ _ Hba]. destruct Hs as [Hs Haddr _].
  split; try done.
  - rewrite Hc. split; cbn [l_a l_b a_did set_field]; change (cb j (a_did ethA x l)) with (cb j l); congruence.
  - by rewrite Hc.
  - intros f Hf. destruct (Hba f Hf) as (q & Hq). exists q. cbn [l_a l_b a_did set_field]. rewrite Haddr.
    exact Hq.
Qed.

Lemma pending_progress l :
  inv l → httpd_socket_tx_pending (l_a l).2 ≠ 0 →
  tx_ready (l_a l).2 ∧ httpd_socket_tx_len (l_a l).2 ≤ mss (ca i l) ∧
  (len (ca i l) = 0 ∨ len (ca i l) = httpd_socket_tx_len (l_a l).2) ∧
  ∃ acc, l_sent l = acc ++ [outgoing (l_a l).2] ∧ arriving i j l acc.
Proof. intros Hl Hp. destruct (li_progress _ _ _ _ Hl) as [[? _]|?]; done. Qed.

Lemma idle_progress l :
  inv l → httpd_socket_tx_pending (l_a l).2 = 0 →
  len (ca i l) = 0 ∧ rcv_nxt (cb j l) = snd_nxt (ca i l) ∧ l_rcvd l = l_sent l.
Proof. intros Hl Hp. destruct (li_progress _ _ _ _ Hl) as [[_ ?]|[[_ ? _ _] _]]; done. Qed.

(** A step that sends nothing and leaves what the peer relies on. *)
Lemma quiet_a l s' F :
  inv l → stepped (l_a l).1 s' (l_a l).2 i F → uip_len s' = 0 → same_key (ca i l) (F (ca i l)) →
  snd_nxt (F (ca i l)) = snd_nxt (ca i l) → len (F (ca i l)) = len (ca i l) →
  mss (F (ca i l)) = mss (ca i l) → initialmss (F (ca i l)) = initialmss (ca i l) →
  inv (a_did ethA (s', (l_a l).2) l) ∧ ca i (a_did ethA (s', (l_a l).2) l) = F (ca i l).
Proof.
  intros Hl Hs Hn Hk Hsn Hln Hms Him.
  assert (Hc : ca i (a_did ethA (s', (l_a l).2) l) = F (ca i l)) by apply (stepped_conn _ _ _ _ _ _ (li_a _ _ _ _ Hl) Hs).
  pose proof Hk as (K1 & K2 & K3 & K4). pose proof (li_mss _ _ _ _ Hl) as [Hm Him0]. apply a_step; [done..|congruence|congruence| |].
  - destruct (li_progress _ _ _ _ Hl) as [(H1 & H2 & H3 & H4)|(H1 & H2 & H3 & acc & H4 & H5)].
    + left. rewrite Hc, Hln, Hsn. done.
    + right. rewrite Hc, Hln, Hms. split; [done|]. split; [done|]. split; [done|]. exists acc. split; [done|].
      unfold arriving in *. rewrite Hc, Hln, Hsn. exact H5.
  - cbn [a_did l_ab set_field fst]. rewrite emit_none by done. intros f Hf.
    destruct (li_ab _ _ _ _ Hl f Hf) as (q & ack & data & Hfr & Hq & Hd & Hx). exists q, ack, data.
    rewrite Hc, K1, K2, Hln, Hsn. cbn [a_did l_a l_b set_field fst snd]. rewrite (sp_addr _ _ _ _ _ Hs).
    done.
Qed.

(** A step that sends what is in transit. *)
Lemma sends_a l s' f F :
  inv l → stepped (l_a l).1 s' (l_a l).2 i F → emit ethA s' = Some f →
  framed_seg (hdr_of (l_a l).1 (ca i l) (Z.lor TCP_ACK TCP_PSH)) (outgoing (l_a l).2) f →
  tx_ready (l_a l).2 → httpd_socket_tx_pending (l_a l).2 ≠ 0 → same_key (ca i l) (F (ca i l)) →
  snd_nxt (F (ca i l)) = snd_nxt (ca i l) → len (F (ca i l)) = httpd_socket_tx_len (l_a l).2 →
  (len (ca i l) = 0 ∨ len (F (ca i l)) = len (ca i l)) →
  mss (F (ca i l)) = mss (ca i l) → initialmss (F (ca i l)) = initialmss (ca i l) →
  inv (a_did ethA (s', (l_a l).2) l) ∧ ca i (a_did ethA (s', (l_a l).2) l) = F (ca i l).
Proof.
  intros Hl Hs He Hf Hr Hp Hk Hsn Htl Hln Hms Him.
  assert (Hc : ca i (a_did ethA (s', (l_a l).2) l) = F (ca i l)) by apply (stepped_conn _ _ _ _ _ _ (li_a _ _ _ _ Hl) Hs).
  pose proof Hk as (K1 & K2 & K3 & K4). pose proof (li_mss _ _ _ _ Hl) as [Hm Him0].
  destruct (pending_progress l Hl Hp) as (_ & Hle & _ & acc & Hsent & Harr).
  destruct (tr_len _ Hr) as [Hpos H368]. pose proof (outgoing_len _ Hr) as Hol.
  apply a_step; [done..|congruence|congruence| |].
  - right. rewrite Hc, Htl, Hms. split; [done|]. split; [done|]. split; [by right|]. exists acc. split; [done|].
    destruct Harr as [[Hq Hrc]|(Hx & Hq & Hrc)]; [left|right]; rewrite Hc, ?Hsn; [done|].
    destruct Hln as [|Hln]; [done|]. rewrite Hln. done.
  - cbn [a_did l_ab set_field fst]. rewrite He. intros f' [= <-].
    exists (snd_nxt (ca i l)), (rcv_nxt (ca i l)), (outgoing (l_a l).2).
    rewrite Hc, K1, K2, Hsn, Htl. cbn [a_did l_a l_b set_field fst snd]. rewrite (sp_addr _ _ _ _ _ Hs).
    unfold hdr_of in Hf. rewrite (jn_addr _ _ _ _ (li_joined _ _ _ _ Hl)) in Hf. split; [done|].
    split; [apply (good_a l Hl)|]. pose proof (gc_mss _ (good_a l Hl)) as Hmss.
    unfold UIP_TCP_MSS, UIP_TCPIP_HLEN, UIP_IPTCPH_LEN in Hmss. split; [lia|]. right. split; [lia|done].
Qed.

(** *** A message to send *)
Lemma send_inv m l :
  inv l → httpd_socket_tx_pending (l_a l).2 = 0 → bytes m → 0 < Z.of_nat (length m) ≤ mss (ca i l) →
  inv (a_send m l).
Proof.
  intros Hl Hp Hm Hn. destruct (idle_progress l Hl Hp) as (Hlen & Hrcv & Heq).
  pose proof (gc_mss _ (good_a l Hl)) as Hmss. unfold UIP_TCP_MSS, UIP_TCPIP_HLEN, UIP_IPTCPH_LEN in Hmss.
  destruct Hl as [[] Hb Hj H1 H2 H3 H4 _ Hab Hba].
  destruct (queue_ready m (l_a l).2) as [Hr Ho]; [done|done|done|lia|].
  split; try done; cbn [a_send l_a l_b l_sent l_rcvd set_field fst snd].
  - split; try done; [apply Hr|]. unfold tx_fits. cbn. lia.
  - right. cbn [a_send l_a l_sent set_field snd]. split; [done|].
    split; [change (Z.of_nat (length m) ≤ mss (ca i l)); lia|]. split; [by left|].
    exists (l_rcvd l). rewrite Ho, Heq. split; [done|]. by left.
  - intros f Hf. destruct (Hab f Hf) as (q & ack & data & Hfr & Hq & Hd & [Hx|[Hx _]]); [|done].
    exists q, ack, data. do 3 (split; [done|]). by left.
Qed.

(** *** A poll *)
Lemma poll_sends_frame l :
  inv l → httpd_socket_tx_pending (l_a l).2 ≠ 0 → len (ca i l) = 0 →
  ∃ x f, uip_poll_conn i (l_a l) = Ok (tt, x) ∧ inv (a_did ethA x l) ∧ len (ca i (a_did ethA x l)) ≠ 0 ∧
         l_ab (a_did ethA x l) = Some f ∧ nrtx (ca i (a_did ethA x l)) = 0.
Proof.
  intros Hl Hp Hz. destruct (pending_progress l Hl Hp) as (Hr & Hm & _).
  pose proof (li_a _ _ _ _ Hl) as Ha. destruct (tr_len _ Hr) as [Hpos H368]. pose proof (outgoing_len _ Hr) as Hol.
  destruct (poll_sends _ _ _ Ha Hr Hz Hm) as (s' & Hrun & Hs & Hn & Hseg). rewrite <- surjective_pairing in Hrun.
  destruct (emit_some _ _ _ _ HethA (ho_inv _ _ _ (sp_host _ _ _ _ _ Hs)) Hn ltac:(lia) Hseg) as (f & He & Hf).
  exists (s', (l_a l).2), f. split; [done|].
  destruct (sends_a l s' f (in_transit (l_a l).2)) as [Hi Hc]; try done; [by left|].
  split; [done|]. rewrite Hc. split; [cbn; lia|]. split; [|done]. cbn [a_did l_ab set_field fst]. by rewrite He.
Qed.

Lemma poll_inv l :
  inv l → httpd_socket_tx_pending (l_a l).2 ≠ 0 →
  ∃ x, uip_poll_conn i (l_a l) = Ok (tt, x) ∧ inv (a_did ethA x l).
Proof.
  intros Hl Hp. destruct (decide (len (ca i l) = 0)) as [Hz|Hnz].
  - destruct (poll_sends_frame l Hl Hp Hz) as (x & f & Hx & Hi & _). by exists x.
  - destruct (poll_waits _ _ _ (li_a _ _ _ _ Hl) Hnz) as (s' & Hrun & Hs & Hn).
    rewrite <- surjective_pairing in Hrun. exists (s', (l_a l).2). split; [done|].
    by destruct (quiet_a l s' (λ c', c')) as [Hi _].
Qed.

(** *** A timeout *)
Lemma timer_inv l :
  inv l → len (ca i l) ≠ 0 → timer (ca i l) ≠ 0 ∨ nrtx (ca i l) ≠ UIP_MAXRTX →
  ∃ x, uip_periodic i (l_a l) = Ok (tt, x) ∧ inv (a_did ethA x l) ∧ x.2 = (l_a l).2 ∧
    len (ca i (a_did ethA x l)) ≠ 0 ∧
    (if timer (ca i l) =? 0 then l_ab (a_did ethA x l) ≠ None
     else timer (ca i (a_did ethA x l)) = wrap8 (timer (ca i l) - 1) ∧
          nrtx (ca i (a_did ethA x l)) = nrtx (ca i l)).
Proof.
  intros Hl Hlen Hgo. pose proof (li_a _ _ _ _ Hl) as Ha.
  destruct (Z.eqb_spec (timer (ca i l)) 0) as [Hz|Hnz].
  - destruct Hgo as [|Hn]; [done|].
    destruct (decide (httpd_socket_tx_pending (l_a l).2 = 0)) as [Hp|Hp].
    { by destruct (idle_progress l Hl Hp). }
    destruct (pending_progress l Hl Hp) as (Hr & Hm & [Hx|Htl] & acc & Hsent & Harr); [done|].
    destruct (periodic_resends _ _ _ Ha Hr Htl Hz Hn) as (s' & Hrun & Hs & Hsl & Hseg). rewrite <- surjective_pairing in Hrun.
    pose proof (outgoing_len _ Hr) as Hol. destruct (tr_len _ Hr).
    destruct (emit_some _ _ _ _ HethA (ho_inv _ _ _ (sp_host _ _ _ _ _ Hs)) Hsl ltac:(lia) Hseg) as (f & He & Hf).
    exists (s', (l_a l).2). split; [done|]. destruct (sends_a l s' f (λ c', resent (ticked c'))) as [Hi Hc]; try done; [by right|].
    split; [done|]. split; [done|]. rewrite Hc. split; [done|]. cbn [a_did l_ab set_field fst]. by rewrite He.
  - destruct (periodic_ticks _ _ _ Ha Hlen Hnz) as (s' & Hrun & Hs & Hsl). rewrite <- surjective_pairing in Hrun.
    exists (s', (l_a l).2). split; [done|]. destruct (quiet_a l s' ticked) as [Hi Hc]; [done..|].
    split; [done|]. split; [done|]. by rewrite Hc.
Qed.

(** *** An acknowledgement *)
Lemma acked_fields c :
  same_key c (acked c) ∧ snd_nxt (acked c) = uip_add32 (snd_nxt c) (len c) ∧ len (acked c) = 0 ∧
  initialmss (acked c) = initialmss c.
Proof. unfold acked, rtt_update, same_key. by case_match. Qed.

Lemma acked_inv l s' :
  inv l → len (ca i l) ≠ 0 → rcv_nxt (cb j l) = uip_add32 (snd_nxt (ca i l)) (len (ca i l)) →
  stepped (l_a l).1 s' (cleared (l_a l).2) i (λ c', no_nrtx (heard_to (l_a l).1 i (acked c'))) →
  uip_len s' = 0 → inv (a_did ethA (s', cleared (l_a l).2) l).
Proof.
  intros Hl Hn Hq Hs Hsl. set (F c' := no_nrtx (heard_to (l_a l).1 i (acked c'))) in *.
  destruct (acked_fields (ca i l)) as ((K1 & K2 & K3 & K4) & Hsn & Hln & Him).
  assert (Hc : ca i (a_did ethA (s', cleared (l_a l).2) l) = F (ca i l)) by apply (stepped_conn _ _ _ _ _ _ (li_a _ _ _ _ Hl) Hs).
  destruct (decide (httpd_socket_tx_pending (l_a l).2 = 0)) as [Hp|Hp].
  { by destruct (idle_progress l Hl Hp). }
  destruct (pending_progress l Hl Hp) as (Hr & _ & [|Htl] & acc & Hsent & Harr); [done|].
  destruct (tr_len _ Hr) as [Hpos H368]. pose proof (outgoing_len _ Hr) as Hol.
  destruct (li_mss _ _ _ _ Hl) as [_ Hk0].
  apply (a_step l _ F); try done.
  { by rewrite <- Hk0. }
  - left. rewrite Hc. split; [done|]. split; [exact Hln|]. split; [by rewrite <- Hsn in Hq|].
    cbn [a_did l_rcvd l_sent set_field]. rewrite Hsent. destruct Harr as [[Hx _]|(_ & _ & Hx)]; [|exact Hx].
    rewrite Hx in Hq. symmetry in Hq. apply add32_ne in Hq as []; [apply (good_a l Hl)|lia].
  - cbn [a_did l_ab set_field fst]. rewrite emit_none by done. intros f Hf.
    destruct (li_ab _ _ _ _ Hl f Hf) as (q & ack & data & Hfr & Hb4 & Hd & [[? _]|(_ & Hsq & Hdat)]); [done|].
    exists q, ack, data. rewrite Hc. cbn [a_did l_a l_b set_field fst snd]. rewrite (sp_addr _ _ _ _ _ Hs).
    change (lport (F (ca i l))) with (lport (acked (ca i l))). change (rport (F (ca i l))) with (rport (acked (ca i l))).
    rewrite K1, K2. split; [done|]. split; [done|]. split; [done|]. left. split; [exact Hln|].
    change (snd_nxt (F (ca i l))) with (snd_nxt (acked (ca i l))). by rewrite Hsn, Hsq, Hdat, Hol, Htl.
Qed.

Lemma ack_inv l f :
  inv l → l_ba l = Some f →
  ∃ x, uip_input (receive f (l_a l).1, (l_a l).2) = Ok (tt, x) ∧ inv (a_did ethA x l) ∧
    (len (ca i l) ≠ 0 → rcv_nxt (cb j l) = uip_add32 (snd_nxt (ca i l)) (len (ca i l)) →
     httpd_socket_tx_pending x.2 = 0).
Proof.
  intros Hl Hf. pose proof (li_a _ _ _ _ Hl) as Ha. destruct (li_ba _ _ _ _ Hl f Hf) as (q & Hfr).
  destruct (li_joined _ _ _ _ Hl) as [J1 J2 J3 J4].
  assert (Hfor : for_conn (l_a l).1 (uip_conns (l_a l).1 !!! i)
    (mk_hdr (uip_hostaddr (l_b l).1) (uip_hostaddr (l_a l).1) (lport (cb j l)) (rport (cb j l)) q (rcv_nxt (cb j l)) TCP_ACK)).
  { split; cbn [h_src h_dest h_srcport h_destport h_flags]; fold (ca i l); auto. }
  destruct (decide (len (ca i l) ≠ 0 ∧ rcv_nxt (cb j l) = uip_add32 (snd_nxt (ca i l)) (len (ca i l)))) as [[Hn Hq]|Hno].
  - destruct (input_acked _ _ _ Ha _ _ _ Hfr Hfor ltac:(cbn; lia) eq_refl Hn Hq) as (s' & Hrun & Hs & Hsl).
    exists (s', cleared (l_a l).2). split; [done|]. split; [|done].
    apply acked_inv; done.
  - destruct (input_ack_again _ _ _ Ha _ _ _ Hfr Hfor ltac:(cbn; lia) eq_refl) as (s' & Hrun & Hs & Hsl).
    { destruct (decide (len (ca i l) = 0)); [by left|right]. intros E. by apply Hno. }
    exists (s', (l_a l).2). split; [done|]. pose proof (li_mss _ _ _ _ Hl) as [Hm Him].
    split; [|intros H1 H2; by destruct Hno].
    destruct (quiet_a l s' (heard_to (l_a l).1 i)) as [Hi _]; try done. by rewrite Hm.
Qed.

(** *** A segment for the second host *)
Lemma read_host s g : host s g j → host s (read g) j.
Proof. intros [? [] ? ? ? ? ? ?]. by split. Qed.

Lemma b_step l s' g' F :
  inv l → stepped (l_b l).1 s' g' j F → same_key (cb j l) (F (cb j l)) → len (F (cb j l)) = 0 →
  httpd_socket_tx_pending g' = 0 → uip_len s' = 40 →
  segment (hdr_of (l_b l).1 (F (cb j l)) TCP_ACK) [] (uip_buf s') →
  progress i j (b_did ethB (s', g') l) →
  inv (b_did ethB (s', g') l) ∧ cb j (b_did ethB (s', g') l) = F (cb j l) ∧ l_ba (b_did ethB (s', g') l) ≠ None.
Proof.
  intros Hl Hs (K1 & K2 & K3 & K4) Hln Hp Hsl Hseg Hpr.
  assert (Hc : cb j (b_did ethB (s', g') l) = F (cb j l)) by apply (stepped_conn _ _ _ _ _ _ (li_b _ _ _ _ Hl) Hs).
  destruct (emit_some ethB s' _ [] HethB (ho_inv _ _ _ (sp_host _ _ _ _ _ Hs)) Hsl ltac:(cbn; lia) Hseg) as (f & He & Hf).
  destruct Hl as [Ha Hb [J1 J2 J3 J4] H1 H2 H3 H4 _ Hab Hba]. destruct Hs as [Hs Haddr _].
  split_and!; [|done|cbn [b_did l_ba set_field fst]; by rewrite He].
  split; try done.
  - by apply read_host.
  - rewrite Hc. split; cbn [l_a l_b b_did set_field fst]; change (ca i (b_did ethB (s', g') l)) with (ca i l); congruence.
  - by rewrite Hc.
  - intros f' Hf'. destruct (Hab f' Hf') as (q & ack & data & Hx). exists q, ack, data.
    cbn [l_a l_b b_did set_field fst]. rewrite Haddr. exact Hx.
  - cbn [b_did l_ba set_field fst]. rewrite He. intros f' [= <-]. exists (snd_nxt (F (cb j l))). rewrite Hc.
    cbn [l_a l_b b_did set_field fst]. rewrite Haddr, <- J2, <- K3. exact Hf.
Qed.

Lemma unread_none g : httpd_socket_rx_len g = 0 → unread g = [].
Proof. intros Hg. unfold unread. by rewrite Hg. Qed.
Lemma unread_took data g :
  wf_httpd g → 0 < Z.of_nat (length data) ≤ 366 → unread (took data g) = [data].
Proof.
  intros [] Hd. unfold unread, took. cbn [httpd_socket_rx_len httpd_socket_rx_buf set_field].
  rewrite (proj2 (Z.ltb_lt _ _)), Nat2Z.id by lia. f_equal.
  change (slice 0 (length data) (put_bytes 0 data (httpd_socket_rx_buf g)) = data).
  rewrite slice_put_bytes; [by apply take_ge|done|]. rewrite wf_rx_len. unfold UIP_BUFSIZE. lia.
Qed.

(** A segment that starts where the second host expects it is the one in transit,
    for the first time. *)
Lemma expected l q data :
  inv l → is_b4 q → 0 < Z.of_nat (length data) ≤ 366 →
  (len (ca i l) = 0 ∧ uip_add32 q (Z.of_nat (length data)) = snd_nxt (ca i l) ∨
   len (ca i l) ≠ 0 ∧ q = snd_nxt (ca i l) ∧ data = outgoing (l_a l).2) →
  q = rcv_nxt (cb j l) →
  len (ca i l) ≠ 0 ∧ data = outgoing (l_a l).2 ∧ tx_ready (l_a l).2 ∧
  httpd_socket_tx_len (l_a l).2 ≤ mss (ca i l) ∧ len (ca i l) = httpd_socket_tx_len (l_a l).2 ∧
  ∃ acc, l_sent l = acc ++ [outgoing (l_a l).2] ∧ l_rcvd l = acc.
Proof.
  intros Hl Hq4 Hd Hcase Hq.
  destruct Hcase as [[Hn Hst]|(Hn & Hsn & Hdat)].
  - exfalso. assert (rcv_nxt (cb j l) = snd_nxt (ca i l)) as Hr.
    { destruct (li_progress _ _ _ _ Hl) as [(_ & _ & ? & _)|(_ & _ & _ & acc & _ & [[? _]|[? _]])]; done. }
    rewrite <- Hq in Hr. rewrite <- Hr in Hst. apply add32_ne in Hst as []; [done|lia].
  - destruct (li_progress _ _ _ _ Hl) as [(_ & ? & _)|(Hr & Hm & [|Htl] & acc & Hsent & Harr)]; [done..|].
    split_and!; try done. exists acc. split; [done|]. destruct Harr as [[_ ?]|(_ & Hx & _)]; [done|].
    rewrite <- Hq, Hsn in Hx. symmetry in Hx. apply add32_ne in Hx as []; [apply (good_a l Hl)|].
    destruct (tr_len _ Hr). lia.
Qed.

(** The segment is the one expected, or it is dropped; either way what the
    second host has is acknowledged. *)
Lemma data_inv l f :
  inv l → l_ab l = Some f →
  ∃ x, uip_input (receive f (l_b l).1, (l_b l).2) = Ok (tt, x) ∧ inv (b_did ethB x l) ∧
    l_ba (b_did ethB x l) ≠ None ∧
    (len (ca i l) ≠ 0 → rcv_nxt (cb j (b_did ethB x l)) = uip_add32 (snd_nxt (ca i l)) (len (ca i l))).
Proof.
  intros Hl Hf. pose proof (li_b _ _ _ _ Hl) as Hb.
  destruct (li_ab _ _ _ _ Hl f Hf) as (q & ack & data & Hfr & Hq4 & Hd & Hcase).
  destruct (li_joined _ _ _ _ Hl) as [J1 J2 J3 J4].
  set (h := mk_hdr _ _ _ _ _ _ _) in Hfr.
  assert (Hfor : for_conn (l_b l).1 (uip_conns (l_b l).1 !!! j) h).
  { split; cbn [h h_src h_dest h_srcport h_destport h_flags]; fold (cb j l); auto. }
  assert (Hne : data ≠ []) by (intros ->; cbn in Hd; lia).
  destruct (decide (q = rcv_nxt (cb j l))) as [Hq|Hq].
  - destruct (expected l q data Hl Hq4 Hd Hcase Hq) as (Hn & Hdat & Hr & Hm & Htl & acc & Hsent & Hrcvd).
    pose proof (outgoing_len _ Hr) as Hol.
    destruct (input_data _ _ _ Hb _ _ _ Hfr Hfor ltac:(lia) Hne Hq (li_len_b _ _ _ _ Hl) (li_idle_b _ _ _ _ Hl))
      as (s' & Hrun & Hs & Hsl & Hseg).
    exists (s', took data (l_b l).2). split; [done|]. set (l' := b_did _ _ _).
    assert (Hrcv : rcv_nxt (cb j l') = uip_add32 (snd_nxt (ca i l)) (len (ca i l))).
    { unfold cb at 1, l'. cbn [b_did l_b set_field fst]. rewrite (stepped_conn _ _ _ _ _ _ Hb Hs). fold (cb j l).
      change (uip_add32 (rcv_nxt (cb j l)) (Z.of_nat (length data)) = uip_add32 (snd_nxt (ca i l)) (len (ca i l))).
      destruct Hcase as [[? _]|(_ & Hsn & _)]; [done|]. by rewrite <- Hq, Hsn, Hdat, Hol, Htl. }
    destruct (b_step l s' (took data (l_b l).2) (λ c', no_nrtx (heard_to (l_b l).1 j (got_data data c'))))
      as (Hi & _ & Hba); try done; try apply Hl.
    right. split; [done|]. split; [done|]. split; [by right|]. exists acc. split; [done|]. right.
    split; [done|]. split; [done|]. cbn [b_did l_rcvd set_field snd].
    rewrite unread_took by (done || apply Hb). by rewrite Hrcvd, Hdat.
  - destruct (input_again _ _ _ Hb _ _ _ Hfr Hfor ltac:(lia) Hne Hq) as (s' & Hrun & Hs & Hsl & Hseg).
    exists (s', (l_b l).2). split; [done|]. set (l' := b_did _ _ _).
    assert (Hc : cb j l' = cb j l) by apply (stepped_conn _ _ _ _ _ _ Hb Hs).
    assert (Hrc : l_rcvd l' = l_rcvd l).
    { cbn [l' b_did l_rcvd set_field snd]. by rewrite unread_none, app_nil_r by apply Hl. }
    destruct (b_step l s' (l_b l).2 (λ c', c')) as (Hi & _ & Hba); try done; try apply Hl.
    { pose proof (li_progress _ _ _ _ Hl) as Hp. fold l'. unfold progress, arriving in *. rewrite Hc, Hrc. exact Hp. }
    split; [done|]. split; [done|]. intros Hn. rewrite Hc.
    destruct Hcase as [[? _]|(_ & Hsn & _)]; [done|].
    destruct (li_progress _ _ _ _ Hl) as [(_ & ? & _)|(_ & _ & _ & acc & _ & [[Hx _]|(_ & Hx & _)])]; [done|congruence|done].
Qed.

(** *** Runs *)

Lemma lose_inv l o o' :
  inv l → (∀ f, o = Some f → l_ab l = Some f) → (∀ f, o' = Some f → l_ba l = Some f) →
  inv (l <| l_ab := o |> <| l_ba := o' |>).
Proof.
  intros [] Ho Ho'. split; try done; cbn [l_ab l_ba set_field]; intros f Hf; [by apply li_ab0, Ho|by apply li_ba0, Ho'].
Qed.

#[local] Abbreviation step := (link_step i ethA ethB).

Lemma step_inv_link l l' : step l l' → inv l → inv l'.
Proof.
  intros Hs Hl. destruct Hs as [l m Hp Hm Hn|l x Hp Hx|l x Hn Hg Hx|l f x Hf Hx|l f x Hf Hx|l|l].
  - by apply send_inv.
  - destruct (poll_inv l Hl Hp) as (x' & Hx' & Hi). rewrite Hx in Hx'. by injection Hx' as ->.
  - destruct (timer_inv l Hl Hn Hg) as (x' & Hx' & Hi & _). rewrite Hx in Hx'. by injection Hx' as ->.
  - destruct (data_inv l f Hl Hf) as (x' & Hx' & Hi & _). rewrite Hx in Hx'. by injection Hx' as ->.
  - destruct (ack_inv l f Hl Hf) as (x' & Hx' & Hi & _). rewrite Hx in Hx'. by injection Hx' as ->.
  - by apply (lose_inv l None (l_ba l)).
  - by apply (lose_inv l (l_ab l) None).
Qed.

Lemma steps_inv l l' : rtc step l l' → inv l → inv l'.
Proof. induction 1 as [|x y z Hs _ IH]; [done|]. intros Hx. by apply IH, (step_inv_link x). Qed.

(** *** Getting through *)

(** With the segment on the link the message arrives and is acknowledged. *)
Lemma deliver_now l f :
  inv l → len (ca i l) ≠ 0 → l_ab l = Some f →
  ∃ l', rtc step l l' ∧ httpd_socket_tx_pending (l_a l').2 = 0 ∧ l_sent l' = l_sent l.
Proof.
  intros Hl Hn Hf. destruct (data_inv l f Hl Hf) as (y & Hy & Hi & Hba & Hrcv).
  set (l1 := b_did ethB y l) in *. destruct (l_ba l1) as [f'|] eqn:Hf'; [|done].
  destruct (ack_inv l1 f' Hi Hf') as (x & Hx & Hi' & Hack).
  exists (a_did ethA x l1). split; [|split; [by apply Hack; [|apply Hrcv]|done]].
  eapply rtc_l; [by eapply ls_to_b|]. eapply rtc_l; [by eapply ls_to_a|]. done.
Qed.

(** The timer runs down and sends the segment again. *)
Lemma tick_down n l :
  inv l → timer (ca i l) = Z.of_nat n → len (ca i l) ≠ 0 → nrtx (ca i l) ≠ UIP_MAXRTX →
  ∃ l' f, rtc step l l' ∧ inv l' ∧ len (ca i l') ≠ 0 ∧ l_ab l' = Some f ∧ l_sent l' = l_sent l.
Proof.
  revert l. induction n as [|n IH]; intros l Hl Ht Hn Hr.
  - destruct (timer_inv l Hl Hn (or_intror Hr)) as (x & Hx & Hi & _ & Hn' & Hcase). rewrite Ht in Hcase. cbn in Hcase.
    destruct (l_ab (a_did ethA x l)) as [f|] eqn:Hf; [|done]. exists (a_did ethA x l), f.
    split; [|done]. apply rtc_once. apply ls_timer; [done|by right|done].
  - destruct (timer_inv l Hl Hn (or_intror Hr)) as (x & Hx & Hi & _ & Hn' & Hcase).
    rewrite Ht, (proj2 (Z.eqb_neq _ _)) in Hcase by lia. destruct Hcase as [Ht' Hr'].
    assert (Ht8 : is_u8 (timer (ca i l))) by apply (good_a l Hl). unfold is_u8 in Ht8. rewrite Ht in Ht8.
    rewrite wrap8_id in Ht' by (unfold is_u8; lia).
    destruct (IH (a_did ethA x l)) as (l' & f & Hs & Hrest); [done|lia|done|congruence|].
    exists l', f. split; [|done]. eapply rtc_l; [|exact Hs]. apply ls_timer; [done|by right|done].
Qed.

(** From any state in which the stack has not used up its retransmissions. *)
Lemma settle l :
  inv l → nrtx (ca i l) ≠ UIP_MAXRTX →
  ∃ l', rtc step l l' ∧ inv l' ∧ httpd_socket_tx_pending (l_a l').2 = 0 ∧ l_sent l' = l_sent l.
Proof.
  intros Hl Hr. destruct (decide (httpd_socket_tx_pending (l_a l).2 = 0)) as [Hp|Hp]; [by exists l|].
  assert (∃ l1 f, rtc step l l1 ∧ inv l1 ∧ len (ca i l1) ≠ 0 ∧ l_ab l1 = Some f ∧ l_sent l1 = l_sent l)
    as (l1 & f & Hs & Hi & Hn & Hf & Hse).
  - destruct (decide (len (ca i l) = 0)) as [Hz|Hz].
    + destruct (poll_sends_frame l Hl Hp Hz) as (x & f & Hx & Hi & Hn & Hf & _). exists (a_did ethA x l), f.
      split; [|done]. apply rtc_once. by apply ls_poll.
    + assert (Ht8 : is_u8 (timer (ca i l))) by apply (good_a l Hl). unfold is_u8 in Ht8.
      apply (tick_down (Z.to_nat (timer (ca i l)))); [done|lia|done|done].
  - destruct (deliver_now l1 f Hi Hn Hf) as (l2 & Hs2 & Hp2 & Hse2). exists l2.
    split; [by etrans|]. split; [by eapply steps_inv|]. split; [done|congruence].
Qed.

Lemma deliver_all ms l :
  inv l → nrtx (ca i l) ≠ UIP_MAXRTX → Forall (λ m, bytes m ∧ 0 < Z.of_nat (length m) ≤ k) ms →
  ∃ l', rtc step l l' ∧ l_sent l' = l_sent l ++ ms ∧ l_rcvd l' = l_sent l ++ ms.
Proof.
  revert l. induction ms as [|m ms IH]; intros l Hl Hr Hms.
  - destruct (settle l Hl Hr) as (l' & Hs & Hi & Hp & Hse). exists l'. split; [done|].
    destruct (idle_progress l' Hi Hp) as (_ & _ & Hrs). rewrite app_nil_r. split; congruence.
  - apply Forall_cons_iff in Hms as [[Hb Hm] Hms].
    destruct (settle l Hl Hr) as (l1 & Hs1 & Hi1 & Hp1 & Hse1).
    assert (Hm1 : 0 < Z.of_nat (length m) ≤ mss (ca i l1)) by by rewrite (proj1 (li_mss _ _ _ _ Hi1)).
    pose proof (send_inv m l1 Hi1 Hp1 Hb Hm1) as Hi2. set (l2 := a_send m l1) in *.
    destruct (idle_progress l1 Hi1 Hp1) as (Hz & _).
    destruct (poll_sends_frame l2 Hi2 ltac:(done) Hz) as (x & f & Hx & Hi3 & Hn3 & Hf3 & Hr3).
    destruct (IH (a_did ethA x l2) Hi3 ltac:(by rewrite Hr3) Hms) as (l' & Hs' & Hse' & Hrc').
    exists l'. split.
    + etrans; [exact Hs1|]. eapply rtc_l; [by apply ls_send|]. eapply rtc_l; [by apply ls_poll|exact Hs'].
    + cbn [a_did l2 a_send l_sent set_field] in *. rewrite Hse1, <- app_assoc in *. done.
Qed.
End preserve.
