(* ===== verification/TcpOpen.v ===== *)
(** * The three-way handshake

    A host that opens a connection and one that listens, each step a whole call
    of uip.c: the timer that sends the SYN, the SYN that makes a connection and is
    answered, the answer that opens the first end, and the acknowledgement that
    opens the second. *)

From S2P Require Import Prelude Bytes Checksum UipState Uip PacketSum UipInv Ports Httpd TcpSeg TcpTx UipThms TcpHost TcpPair.

(** ** The segments with the MSS option *)

Definition mss_option : list Z := [TCP_OPT_MSS; TCP_OPT_MSS_LEN; UIP_TCP_MSS / 256; Z.land UIP_TCP_MSS 255].
Abbreviation OPT := 0x60.

Lemma slice4 o b : (o + 4 ≤ length b)%nat → slice o 4 b = [u8 b o; u8 b (o + 1)%nat; u8 b (o + 2)%nat; u8 b (o + 3)%nat].
Proof.
  intros Hl. unfold slice, u8.
  assert (Hs : ∀ k, (k < 4)%nat → b !! (o + k)%nat = Some (b !!! (o + k)%nat)) by (intros; apply list_lookup_lookup_total_lt; lia).
  apply list_eq. intros k. destruct (decide (k < 4)%nat) as [Hk|Hk].
  - rewrite lookup_take_lt, lookup_drop, Hs by done.
    destruct k as [|[|[|[|k]]]]; cbn; rewrite ?Nat.add_0_r; done || lia.
  - rewrite lookup_take_ge by lia. by destruct k as [|[|[|[|k]]]]; try lia.
Qed.

Lemma tcp_send_syn_sends {A} i s (a : A) f :
  sendable s i → u8 (uip_buf s) BUF.flags = f → is_u8 (Z.lor f TCP_SYN) →
  wp anyfault (tcp_send_syn i) (λ _ x, sends_at OPT s i (Z.lor f TCP_SYN) mss_option a x) (s, a).
Proof.
  intros [Hb Hc Hh] Hf Hu. unfold tcp_send_syn. do 16 ustep. rewrite Hf.
  match goal with |- wp _ _ _ (?s', _) => pose proof (tcp_send_sends i s' a 4 (Z.lor f TCP_SYN) OPT) as Hs; set (s1 := s') in * end.
  assert (Hl : length (uip_buf s1) = 422%nat) by (cbn [uip_buf set_field s1]; by buf_len).
  assert (Hd : slice 54 4 (uip_buf s1) = mss_option).
  { rewrite slice4 by lia. cbn [uip_buf set_field s1]. change 54%nat with BUF.optdata. u8_simp.
    repeat (f_equal; try (by rewrite u8_put8_eq by (buf_len; rewrite Hb; offsets))). }
  eapply wp_mono; [|apply Hs].
  - intros [] x. rewrite Hd. by intros (? & ? & ? & ?).
  - split; [done|done|done].
  - done.
  - cbn [uip_buf set_field s1]. u8_simp. rewrite u8_put8_eq; [by apply wrap8_id|rewrite Hb; offsets].
  - cbn [uip_buf set_field s1]. rewrite u8_put8_eq; [done|buf_len; rewrite Hb; offsets].
  - lia.
Qed.

(** ** The SYN *)

Section syn.
Variables (s : uip) (g : httpd) (i : nat).
Let c := uip_conns s !!! i.
Hypothesis Hhost : host_at UIP_SYN_SENT s g i.
Let sel := s <| uip_conn := Some i |>.

Lemma syn_head (Q : unit → uip * httpd → Prop) :
  len c ≠ 0 →
  (∀ s1, length (uip_buf s1) = 422%nat → uip_hostaddr s1 = uip_hostaddr s → uip_conns s1 = alter ticked i (uip_conns s) →
         wp anyfault (if timer c =? 0 then rexmit i else drop) Q (s1, g)) →
  wp anyfault (uip_process UIP_TIMER) Q (sel, g).
Proof.
  intros Hl HQ. pose proof (ho_state _ _ _ Hhost : tcpstateflags c = UIP_SYN_SENT) as Hst.
  unfold uip_process. do 3 ustep; [done|]. ustep; [|done]. ustep. apply (wp_deref_conn _ i); [done|].
  unfold timer_fired. do 8 ustep. cbn [uip_conns set_field sel]. fold c. rewrite Hst. ustep; [done|].
  ustep; [|done]. unfold uip_outstanding. rewrite (proj2 (Z.eqb_neq _ _) Hl). cbn [negb]. do 2 ustep.
  apply HQ; [|done..]. apply (inv_wf _ (ho_inv _ _ _ Hhost)).
Qed.

(** A tick of the timer: [F] is what it makes of the connection. *)
Lemma syn_tick F (Q : unit → uip * httpd → Prop) :
  (∀ x, Q tt x → x.2 = g ∧ uip_conns x.1 = alter F i (uip_conns s)) → same_key c (F c) →
  wp anyfault (uip_process UIP_TIMER) Q (sel, g) →
  ∃ s', uip_periodic i (s, g) = Ok (tt, (s', g)) ∧ stepped_at UIP_SYN_SENT s s' g i F ∧ Q tt (s', g) ∧
    (uip_len s' = 0 ∨ emitted (uip_buf s')).
Proof.
  intros HQ (E1 & E2 & E3 & E4) Hq.
  destruct (process_call UIP_TIMER sel g Q) as (s' & g' & Hr & Hx & Hi & Hw & Hf & Hst & He).
  - apply inv_select; [apply (ho_idx _ _ _ Hhost)|apply (ho_inv _ _ _ Hhost)].
  - apply Hhost.
  - split; [apply (ho_fits _ _ _ Hhost)|done].
  - apply Hhost.
  - exact Hq.
  - destruct (HQ _ Hx) as [Hg Hcs]. cbn [fst snd] in *. subst g'. exists s'. rewrite uip_periodic_eq.
    split; [done|]. split; [|done]. eapply (host_moves s g); try done; [|apply (ho_close _ _ _ Hhost)].
    fold c. rewrite E4. apply (ho_state _ _ _ Hhost).
Qed.

Lemma syn_waits :
  len c ≠ 0 → timer c ≠ 0 →
  ∃ s', uip_periodic i (s, g) = Ok (tt, (s', g)) ∧ stepped_at UIP_SYN_SENT s s' g i ticked ∧ uip_len s' = 0.
Proof.
  intros Hl Ht.
  destruct (syn_tick ticked (Quiet s i ticked g)) as (s' & Hr & Hs & (_ & _ & Hn) & _); [by intros x (? & ? & ?)|done| |by exists s'].
  apply syn_head; [done|]. intros s1 _ _ Hcs. rewrite (proj2 (Z.eqb_neq _ _) Ht). unfold drop. by repeat ustep.
Qed.

Lemma syn_goes_out :
  len c ≠ 0 → timer c = 0 → nrtx c = 0 →
  ∃ s', uip_periodic i (s, g) = Ok (tt, (s', g)) ∧ stepped_at UIP_SYN_SENT s s' g i (λ c', resent (ticked c')) ∧
    uip_len s' = 44 ∧ segment_at OPT (hdr_of s c TCP_SYN) mss_option (uip_buf s').
Proof.
  intros Hl Ht Hn. pose proof (ho_state _ _ _ Hhost : tcpstateflags c = UIP_SYN_SENT) as Hst.
  set (F c' := resent (ticked c')).
  destruct (syn_tick F (λ _ x, x.2 = g ∧ uip_conns x.1 = alter F i (uip_conns s) ∧ uip_len x.1 = 44 ∧
      wrote_at OPT (hdr_of s c TCP_SYN) mss_option (uip_buf x.1))) as (s' & Hr & Hs & (_ & _ & Hlen & Hw) & He).
  - by intros x (? & ? & ?).
  - done.
  - apply syn_head; [done|]. intros s1 Hb Haddr Hcs. rewrite Ht. cbn [Z.eqb].
    assert (Hc1 : uip_conns s1 !!! i = ticked c) by (rewrite Hcs; apply lookup_alter_conn; [apply (ho_inv _ _ _ Hhost)|apply (ho_idx _ _ _ Hhost)]).
    unfold rexmit. do 3 ustep; rewrite Hc1 in *; cbn [ticked nrtx tcpstateflags set_field] in *.
    { rewrite Hst, Hn in *. discriminate. }
    rewrite Hst. do 4 ustep. do 1 (ustep; [done|]). ustep; [|done]. do 2 ustep.
    match goal with |- wp _ _ _ (?s', _) => set (s2 := s'); pose proof (tcp_send_syn_sends i s2 g 0) as Hs2 end.
    assert (Hcs2 : uip_conns s2 = alter F i (uip_conns s)).
    { cbn [uip_conns set_field s2]. by rewrite Hcs, list_alter_alter_eq. }
    assert (Hc2 : uip_conns s2 !!! i = F c).
    { rewrite Hcs2. apply lookup_alter_conn; [apply (ho_inv _ _ _ Hhost)|apply (ho_idx _ _ _ Hhost)]. }
    eapply wp_mono; [|apply Hs2].
    + intros [] x (E1 & E2 & E3 & E4). rewrite Hc2 in E4. split; [done|]. split; [by rewrite E3|]. split; [done|].
      unfold hdr_of in *. change (uip_hostaddr s2) with (uip_hostaddr s1) in E4. by rewrite Haddr in E4.
    + split.
      * cbn [uip_buf set_field s2]. by buf_len.
      * rewrite Hc2. pose proof (Forall_lookup_1 _ _ i c (inv_conns _ (ho_inv _ _ _ Hhost))) as [[] ? ? ? ?].
        { apply list_lookup_lookup_total_lt. rewrite (wf_uip_conns_len s); [apply (ho_idx _ _ _ Hhost)|apply (ho_inv _ _ _ Hhost)]. }
        split; [split|..]; cbn; try done; try apply wrap8_u8.
      * change (uip_hostaddr s2) with (uip_hostaddr s1). rewrite Haddr. apply (inv_wf _ (ho_inv _ _ _ Hhost)).
    + cbn [uip_buf set_field s2]. rewrite u8_put8_eq; [done|rewrite Hb; offsets].
    + done.
  - exists s'. split; [done|]. split; [done|]. split; [done|]. apply wrote_segment; [done|].
    destruct He as [He|He]; [|done]. cbn [fst] in Hlen. lia.
Qed.
End syn.

(** ** A segment with the option, received *)

Lemma parse_mss_option n b :
  slice 54 4 b = mss_option → length b = 422%nat → parse_mss (S n) b 4 0 = Ok (Some UIP_TCP_MSS).
Proof.
  intros Hd Hl. rewrite slice4 in Hd by lia. injection Hd as E0 E1 E2 E3.
  cbn [parse_mss]. change (0 <? 4) with true. cbv iota zeta. change (Z.to_nat 0) with 0%nat.
  unfold BUF.optdata. cbn [Nat.add] in *. by rewrite E0, E1, E2, E3.
Qed.
Lemma parse_option h b :
  segment_at OPT h mss_option b → length b = 422%nat → parse_mss mss_fuel b 4 0 = Ok (Some UIP_TCP_MSS).
Proof. intros Hs. apply (parse_mss_option 256), (sg_data _ _ _ Hs). Qed.

Definition with_mss (c : conn) : conn := c <| mss := UIP_TCP_MSS |> <| initialmss := UIP_TCP_MSS |>.
Lemma parse_options_mss h i s g (Q : unit → uip * httpd → Prop) :
  segment_at OPT h mss_option (uip_buf s) → length (uip_buf s) = 422%nat →
  Q tt (s <| uip_conns ::= alter with_mss i |>, g) → wp anyfault (parse_options i) Q (s, g).
Proof.
  intros Hs Hl HQ. unfold parse_options. do 2 ustep. rewrite (pl_offset _ _ (sg_plain _ _ _ Hs)). ustep; [|done].
  ustep. apply wp_liftr; [|done]. intros m Hm. change (Z.shiftl (Z.shiftr OPT 4 - 5) 2) with 4 in Hm.
  rewrite (parse_option h) in Hm by done. injection Hm as <-. by repeat ustep.
Qed.

Lemma option_sane h data f s g :
  inv_uip s → tx_fits g → framed_at OPT h data f → data = mss_option → has (h_flags h) TCP_URG = false →
  inv_uip (receive f s) ∧ call_ok (receive f s) UIP_DATA g.
Proof.
  intros Hi Hf Hfr -> Hu. destruct (received_buf OPT s h mss_option f Hi Hfr) as [Hl Hb].
  pose proof (received_segment h mss_option f s Hfr (wf_buf_len _ (inv_wf _ Hi))) as Hseg.
  destruct (seg_fields _ _ _ Hseg Hb) as (_ & _ & _ & _ & _ & _ & Hh). change (wrap8 _) with 24 in Hh.
  pose proof (pl_len _ _ (sg_plain _ _ _ Hseg)) as Hil. change (40 + Z.of_nat (length mss_option)) with 44 in Hil. split.
  - destruct Hi as [[] ?]. split; [split|]; try done. apply wrap16_u16.
  - split; [done|]. cbn [Z.eqb orb]. split; [lia|]. split; [lia|]. intros _. split; [lia|]. split; [lia|]. split.
    + unfold options_end, optlen. rewrite (pl_offset _ _ (sg_plain _ _ _ Hseg)). change (Z.shiftl (Z.shiftr OPT 4 - 5) 2) with 4.
      eexists. by apply (parse_option h).
    + by rewrite (sg_flags _ _ _ Hseg).
Qed.

(** ** The SYN is answered *)

(** The connection a SYN makes. *)
Definition answering (q : bytes4) (h : tcp_hdr) (c : conn) : conn :=
  with_mss (c <| timer := UIP_RTO |> <| rto := UIP_RTO |> <| sa := 0 |> <| sv := 4 |> <| nrtx := 0 |>
    <| lport := h_destport h |> <| rport := h_srcport h |> <| ripaddr := h_src h |>
    <| tcpstateflags := UIP_SYN_RCVD |> <| snd_nxt := q |> <| len := 1 |> <| rcv_nxt := uip_add32 (h_seq h) 1 |>).

Lemma hdr_wf {off} h data b :
  segment_at off h data b → bytes b →
  wf_ip (h_src h) ∧ is_u16 (h_srcport h) ∧ is_u16 (h_destport h) ∧ is_b4 (h_seq h) ∧ is_b4 (h_ack h).
Proof.
  intros [_ <- _ <- <- <- <- _ _ _] Hb.
  split_and!; by (apply get_ip_wf || apply u16_bytes || apply get_b4_bytes).
Qed.

Lemma demux_new dport sport src k cs j c F :
  demux dport sport src k cs = None → cs !! j = Some c → conn_matches dport sport src (F c) = true →
  demux dport sport src k (alter F j cs) = Some (k + j)%nat.
Proof.
  revert k j. induction cs as [|c' cs IH]; intros k j Hd Hj Hm; [done|].
  cbn in Hd. destruct (conn_matches dport sport src c') eqn:Ec; [done|]. destruct j as [|j]; cbn in Hj |- *.
  - injection Hj as ->. rewrite Hm. f_equal. lia.
  - rewrite Ec. rewrite (IH (S k) j) by done. f_equal. lia.
Qed.

Section listen.
Variables (s : uip) (g : httpd) (j : nat) (h : tcp_hdr) (f : list Z).
Hypothesis Hinv : inv_uip s.
Hypothesis Happ : wf_httpd g.
Hypothesis Hfits : tx_fits g.
Hypothesis Haddr : uip_hostaddr s ≠ all_zeroes_addr.
Hypothesis Hclose : httpd_socket_close_pending g = 0.
Hypothesis Hframe : framed_at OPT h mss_option f.
Hypothesis Hdest : h_dest h = uip_hostaddr s.
Hypothesis Hflags : h_flags h = TCP_SYN.
Hypothesis Hlisten : existsb (Z.eqb (h_destport h)) (uip_listenports s) = true.
Hypothesis Hdemux : demux (h_destport h) (h_srcport h) (h_src h) 0 (uip_conns s) = None.
Hypothesis Hfree : find_unused 0 None (uip_conns s) = Some j.
Let c := uip_conns s !!! j.
Let F := answering (iss s) h.

Lemma free_lookup : uip_conns s !! j = Some c.
Proof.
  destruct (find_unused_sound (uip_conns s) 0 None (uip_conns s) j eq_refl ltac:(done) Hfree) as (x & Hx & _).
  unfold c. by rewrite (list_lookup_total_correct _ _ _ Hx).
Qed.
Lemma free_idx : (j < UIP_CONNS)%nat.
Proof. rewrite <- (wf_uip_conns_len s) by apply Hinv. eapply lookup_lt_Some, free_lookup. Qed.

Lemma answering_good : good_conn (F c).
Proof.
  destruct (received_buf OPT s h mss_option f Hinv Hframe) as [_ Hb].
  pose proof (received_segment h mss_option f s Hframe (wf_buf_len _ (inv_wf _ Hinv))) as Hseg.
  destruct (hdr_wf _ _ _ Hseg Hb) as (? & ? & ? & ? & _).
  split; [split|..]; cbn; try done; try apply (inv_wf _ Hinv).
  by apply uip_add32_spec.
Qed.

Lemma listen_answers s1 :
  Got_at OPT s h mss_option s1 → uip_conns s1 = uip_conns s → uip_listenports s1 = uip_listenports s → iss s1 = iss s →
  wp anyfault (unmatched (h_destport h)) (λ _ x, x.2 = g ∧ uip_conns x.1 = alter F j (uip_conns s) ∧ uip_len x.1 = 44 ∧
    wrote_at OPT (hdr_of s (F c) (Z.lor TCP_ACK TCP_SYN)) mss_option (uip_buf x.1)) (s1, g).
Proof.
  intros Hg Hcs Hlp Hiss. pose proof (gt_seg _ _ _ _ Hg) as Hseg. pose proof (gt_buf _ _ _ _ Hg) as Hlen.
  unfold unmatched. do 2 ustep. rewrite (sg_flags _ _ _ Hseg), Hflags. ustep; [done|]. do 2 ustep.
  rewrite Hlp, Hlisten. cbv iota. unfold found_listen. do 2 ustep. rewrite Hcs, Hfree. cbv iota.
  do 15 ustep.
  cbn [uip_buf iss set_field]. rewrite (sg_seq _ _ _ Hseg), (sg_destport _ _ _ Hseg), (sg_srcport _ _ _ Hseg), (sg_src _ _ _ Hseg), Hiss.
  unfold uip_add_rcv_nxt. ustep. apply (wp_deref_conn _ j); [done|]. do 2 ustep.
  apply (parse_options_mss h); [exact Hseg|exact Hlen|]. unfold tcp_send_synack. do 2 ustep.
  match goal with |- wp _ _ _ (?s', _) => set (s2 := s'); pose proof (tcp_send_syn_sends j s2 g TCP_ACK) as Hs2 end.
  assert (Hcs2 : uip_conns s2 = alter F j (uip_conns s)).
  { cbn [uip_conns set_field s2]. rewrite Hcs, !list_alter_alter_eq. apply list_alter_ext; [|done]. by intros. }
  assert (Hc2 : uip_conns s2 !!! j = F c) by (rewrite Hcs2; apply lookup_alter_conn; [apply Hinv|apply free_idx]).
  eapply wp_mono; [|apply Hs2].
  - intros [] x (E1 & E2 & E3 & E4). rewrite Hc2 in E4. split; [done|]. split; [by rewrite E3|]. split; [done|].
    unfold hdr_of in *. change (uip_hostaddr s2) with (uip_hostaddr s1) in E4. by rewrite (gt_host _ _ _ _ Hg) in E4.
  - split.
    + cbn [uip_buf set_field s2]. by buf_len.
    + rewrite Hc2. apply answering_good.
    + change (uip_hostaddr s2) with (uip_hostaddr s1). rewrite (gt_host _ _ _ _ Hg). apply (inv_wf _ Hinv).
  - cbn [uip_buf set_field s2]. rewrite u8_put8_eq; [done|rewrite Hlen; offsets].
  - done.
Qed.

Lemma input_syn :
  ∃ s', uip_input (receive f s, g) = Ok (tt, (s', g)) ∧ stepped_at UIP_SYN_RCVD s s' g j F ∧ uip_len s' = 44 ∧
    segment_at OPT (hdr_of s (F c) (Z.lor TCP_ACK TCP_SYN)) mss_option (uip_buf s').
Proof.
  destruct (option_sane h mss_option f s g Hinv Hfits Hframe eq_refl) as [Hi Hok]; [by rewrite Hflags|].
  destruct (process_call UIP_DATA (receive f s) g _ Hi Happ Hok Haddr
    (uip_input_segment OPT s g h mss_option f Hinv Hframe Hdest _ ltac:(
       intros s1 Hg _ Hcs Hlp Hiss; rewrite Hdemux; by apply (listen_answers s1))))
    as (s' & g' & Hr & (Hg' & Hcs & Hl & Hw) & Hi' & Hwf & Hf & Hst & He).
  cbn [fst snd] in *. subst g'. injection Hst as _ _ Hha _ _ _. exists s'. split; [exact Hr|].
  assert (Hc : uip_conns s' !!! j = F c) by (rewrite Hcs; apply lookup_alter_conn; [apply Hinv|apply free_idx]).
  split; [split; [split|..]|split; [done|]]; try done.
  - apply free_idx.
  - by rewrite Hha.
  - by rewrite Hc.
  - cbv zeta. rewrite Hc, Hcs. change (Some j) with (Some (0 + j)%nat).
    apply (demux_new _ _ _ _ _ _ c); [done|apply free_lookup|].
    unfold conn_matches. cbn. rewrite !Z.eqb_refl. by apply uip_ipaddr_cmp_eq.
  - apply wrote_segment; [done|]. destruct He; [lia|done].
Qed.
End listen.

(** ** The application on the opening of a connection *)

Definition app_up (g : httpd) : httpd :=
  g <| httpd_socket_conn_open := 1 |> <| httpd_socket_conn_pending := 1 |> <| httpd_socket_conn_closed := 0 |>.

(** [f] has [UIP_CONNECTED] set, and [UIP_NEWDATA] or not. *)
Lemma httpd_on_open s g f :
  uip_flags s = f → f = UIP_CONNECTED ∨ f = Z.lor UIP_CONNECTED UIP_NEWDATA → length (uip_buf s) = 422%nat →
  uip_appdata s = 54%nat → uip_len s = 0 →
  httpd_socket_tx_pending g = 0 → httpd_socket_close_pending g = 0 →
  httpd_appcall (s, g) = Ok (tt, (s, if has f UIP_NEWDATA then took [] (app_up g) else app_up g)).
Proof.
  intros Hf Hcase Hb Ha Hl Hp Hc.
  assert (Hw : wp nofault httpd_appcall (λ _ x, x = (s, if has f UIP_NEWDATA then took [] (app_up g) else app_up g)) (s, g)).
  { unfold httpd_appcall, uip_connected, uip_closed, uip_aborted, uip_timedout, uip_newdata, uip_acked.
    destruct Hcase as [->| ->]; do 3 ustep; rewrite Hf; unfold when at 1;
      apply wp_updg; do 3 ustep; rewrite Hf; apply wp_skip; do 3 ustep; rewrite Hf.
    2:{ unfold when at 1. change (has (Z.lor UIP_CONNECTED UIP_NEWDATA) UIP_NEWDATA) with true. cbv iota.
      unfold take_data. do 6 ustep. unfold uip_datalen. rewrite Hl, Ha.
      change (if Z.of_nat UIP_BUFSIZE <? 0 then Z.of_nat UIP_BUFSIZE else 0) with 0. change (Z.to_nat 0) with 0%nat.
      ustep; [|match goal with Hx : (_ <=? _)%nat = false |- _ => apply Nat.leb_gt in Hx; lia end].
      ustep. apply wp_updg, wp_updg. do 3 ustep. rewrite Hf. apply wp_skip. ustep. apply wp_getg. ustep.
      cbn [httpd_socket_close_pending set_field]. rewrite Hc. apply wp_skip. ustep. apply wp_getg. do 2 ustep.
      cbn [httpd_socket_tx_pending set_field]. rewrite Hp. by apply wp_skip. }
    apply wp_skip. do 3 ustep. rewrite Hf. apply wp_skip. ustep. apply wp_getg. ustep.
    cbn [httpd_socket_close_pending set_field]. rewrite Hc. apply wp_skip. ustep. apply wp_getg. do 2 ustep.
    cbn [httpd_socket_tx_pending set_field]. rewrite Hp. by apply wp_skip. }
  by apply wp_ok in Hw as ([] & x & Hr & ->).
Qed.

(** ** The handshake is acknowledged *)

Section opening.
Variables (off st : Z) (s : uip) (g : httpd) (i : nat) (h : tcp_hdr) (data f : list Z).
Let c := uip_conns s !!! i.
Hypothesis Hhost : host_at st s g i.
Hypothesis Hframe : framed_at off h data f.
Hypothesis Hends : h_dest h = uip_hostaddr s ∧ h_src h = ripaddr c ∧ h_destport h = lport c ∧ h_srcport h = rport c.
Hypothesis Hrst : has (h_flags h) TCP_RST = false.
Hypothesis Hack : has (h_flags h) TCP_ACK = true.
Hypothesis Hackno : h_ack h = uip_add32 (snd_nxt c) (len c).
Hypothesis Hlen : len c ≠ 0.
Hypothesis Hempty : 40 + Z.of_nat (length data) - wrap8 (Z.shiftl (Z.shiftr off 4) 2) - UIP_IPH_LEN = 0.
Hypothesis Hseq : out_of_sequence c (h_flags h) 0 (h_seq h) = false.
Hypothesis Hsane : inv_uip (receive f s) ∧ call_ok (receive f s) UIP_DATA g.

Lemma opening_found s1 (Q : unit → uip * httpd → Prop) :
  Got_at off s h data s1 → uip_len s1 = 40 + Z.of_nat (length data) → uip_conns s1 = uip_conns s →
  (∀ s2, At_conn_at off s i h data 0 acked UIP_ACKDATA s2 → wp anyfault (tcp_state i) Q (s2, g)) →
  wp anyfault (found i) Q (s1, g).
Proof.
  intros Hg Hl Hcs HQ. pose proof (got_flags Hg) as Hf. pose proof (gt_seg _ _ _ _ Hg) as Hs.
  assert (Hz : out_of_sequence (uip_conns s1 !!! i) (u8 (uip_buf s1) BUF.flags)
    (wrap16 (uip_len s1 - wrap8 (Z.shiftl (Z.shiftr (u8 (uip_buf s1) BUF.tcpoffset) 4) 2) - UIP_IPH_LEN))
    (get_b4 (uip_buf s1) BUF.seqno) = false).
  { by rewrite (pl_offset _ _ (sg_plain _ _ _ Hs)), Hl, Hempty, Hf, Hcs, (sg_seq _ _ _ Hs). }
  unfold found. do 7 ustep; cbn [uip_buf set_field] in *; [congruence|].
  do 12 ustep. cbn [uip_buf uip_conns uip_len set_field]. rewrite Hz.
  ustep. eapply wp_mono; [|eapply (found_ack_take off s i h data (ho_inv _ _ _ Hhost) (ho_idx _ _ _ Hhost) 0); [|done..]].
  - intros [] [s2 g2] [HA Hg2]. cbn [fst snd] in *. subst g2. by apply HQ.
  - split; [by destruct Hg|]. rewrite alter_same. cbn [uip_len set_field].
    by rewrite (pl_offset _ _ (sg_plain _ _ _ Hs)), Hl, Hempty.
Qed.

Lemma opening_input (Q : unit → uip * httpd → Prop) :
  (∀ s2, At_conn_at off s i h data 0 acked UIP_ACKDATA s2 → wp anyfault (tcp_state i) Q (s2, g)) →
  wp anyfault uip_input Q (receive f s, g).
Proof.
  intros HQ. destruct Hends as (Hd & Hs & Hdp & Hsp).
  apply (uip_input_segment off s g h data f); [apply (ho_inv _ _ _ Hhost)|done|done|].
  intros s1 Hg Hl Hcs _ _. pose proof (ho_demux _ _ _ Hhost) as Hdm. cbv zeta in Hdm. fold c in Hdm.
  rewrite Hs, Hdp, Hsp, Hdm. by apply opening_found.
Qed.

(** A call that ends with connection [i] established. *)
Lemma opening_call F g' (R : uip → Prop) :
  st ≠ UIP_CLOSED → same_ends c (F c) → tcpstateflags (F c) = UIP_ESTABLISHED → httpd_socket_close_pending g' = 0 →
  (∀ s2, At_conn_at off s i h data 0 acked UIP_ACKDATA s2 →
     wp anyfault (tcp_state i) (λ _ x, x.2 = g' ∧ uip_conns x.1 = alter F i (uip_conns s) ∧ R x.1) (s2, g)) →
  ∃ s', uip_input (receive f s, g) = Ok (tt, (s', g')) ∧ stepped s s' g' i F ∧ R s' ∧
    (uip_len s' = 0 ∨ emitted (uip_buf s')).
Proof.
  intros Hst He Hes Hcl HQ. destruct Hsane as [Hi Hok].
  destruct (process_call UIP_DATA (receive f s) g _ Hi (ho_app _ _ _ Hhost) Hok (ho_addr _ _ _ Hhost) (opening_input _ HQ))
    as (s' & g1 & Hr & (Hg' & Hcs & HR) & Hi' & Hwf & Hf & Hstat & Hem).
  cbn [fst snd] in *. subst g1. exists s'. split; [exact Hr|]. split; [|done].
  by eapply (host_moves s g).
Qed.
End opening.

(** The connection after the answer to its SYN, and after the last
    acknowledgement. *)
Definition opened_by (q : bytes4) (c : conn) : conn :=
  no_nrtx ((with_mss (acked c)) <| tcpstateflags := UIP_ESTABLISHED |> <| rcv_nxt := uip_add32 q 1 |> <| len := 0 |>).
Definition accepted (c : conn) : conn :=
  no_nrtx ((acked c) <| tcpstateflags := UIP_ESTABLISHED |> <| len := 0 |>).

Lemma opened_fields q c :
  let c' := opened_by q c in
  same_ends c c' ∧ snd_nxt c' = uip_add32 (snd_nxt c) (len c) ∧ rcv_nxt c' = uip_add32 q 1 ∧ len c' = 0 ∧
  mss c' = UIP_TCP_MSS ∧ initialmss c' = UIP_TCP_MSS.
Proof. destruct c. cbv zeta. unfold opened_by, acked, rtt_update. case_match; by split_and!. Qed.
Lemma accepted_fields c :
  let c' := accepted c in same_ends c c' ∧ rcv_nxt c' = rcv_nxt c ∧ len c' = 0.
Proof. destruct c. cbv zeta. unfold accepted, acked, rtt_update. case_match; by split_and!. Qed.

Lemma acked_state c : tcpstateflags (acked c) = tcpstateflags c.
Proof. unfold acked, rtt_update. by case_match. Qed.
Lemma acked_key c : same_key c (acked c).
Proof. unfold acked, rtt_update. by case_match. Qed.

Lemma acked_ends c (G : conn → conn) : (∀ c', same_ends c' (G c')) → same_ends c (G (acked c)).
Proof.
  intros HG. unfold same_ends. destruct (HG (acked c)) as (-> & -> & ->). by destruct (acked_key c) as (? & ? & ? & _).
Qed.

Lemma acked_good c : good_conn c → good_conn (acked c).
Proof.
  intros Hc. assert (Hs : is_b4 (uip_add32 (snd_nxt c) (len c))) by (apply uip_add32_spec; apply Hc).
  assert (Hg : good_conn (rtt_update (c <| snd_nxt := uip_add32 (snd_nxt c) (len c) |>))).
  { apply rtt_update_good. destruct Hc as [[] ? ? ? ?]. split; [split|..]; done. }
  destruct Hg as [[] ? ? ? ?]. unfold acked. cbv zeta. split; [split|..]; done.
Qed.

Section handshake.
Variables (s : uip) (g : httpd) (i : nat) (h : tcp_hdr) (f : list Z).
Let c := uip_conns s !!! i.
Hypothesis Hends : h_dest h = uip_hostaddr s ∧ h_src h = ripaddr c ∧ h_destport h = lport c ∧ h_srcport h = rport c.
Hypothesis Hackno : h_ack h = uip_add32 (snd_nxt c) (len c).
Hypothesis Hlen : len c ≠ 0.
Hypothesis Hidle : httpd_socket_tx_pending g = 0.

Lemma synack_good : good_conn c → is_b4 (h_seq h) →
  good_conn ((with_mss (acked c)) <| tcpstateflags := UIP_ESTABLISHED |> <| rcv_nxt := uip_add32 (h_seq h) 1 |> <| len := 0 |>).
Proof.
  intros Hc Hq. destruct (acked_good c Hc) as [[] ? ? ? ?]. split; [split|..]; cbn; try done. by apply uip_add32_spec.
Qed.

Lemma synack_state s2 :
  host_at UIP_SYN_SENT s g i → h_flags h = Z.lor TCP_SYN TCP_ACK → is_b4 (h_seq h) →
  At_conn_at OPT s i h mss_option 0 acked UIP_ACKDATA s2 →
  wp anyfault (tcp_state i) (λ _ x, x.2 = took [] (app_up g) ∧ uip_conns x.1 = alter (opened_by (h_seq h)) i (uip_conns s) ∧
    uip_len x.1 = 40 ∧ wrote (hdr_of s (opened_by (h_seq h) c) TCP_ACK) [] (uip_buf x.1)) (s2, g).
Proof.
  intros Hhost Hfl Hq HA. pose proof (ho_inv _ _ _ Hhost) as Hinv.
  pose proof (ho_state _ _ _ Hhost : tcpstateflags c = UIP_SYN_SENT) as Hst.
  pose proof (synack_good (conn_good s i Hinv (ho_idx _ _ _ Hhost)) Hq) as Hg1.
  pose proof (at_conn_c Hinv (ho_idx _ _ _ Hhost) HA : _ = acked c) as Hc2.
  destruct HA as (Hg & _ & Hu & Hfg & Hcs). unfold tcp_state. do 2 ustep. rewrite Hc2. rewrite acked_state, Hst. match goal with |- wp _ _ ?Q _ => change (wp anyfault (in_syn_sent i) Q (s2, g)) end.
  unfold in_syn_sent. do 5 ustep; [|exfalso; rewrite Hfg, (got_flags Hg), Hfl in *; discriminate].
  ustep. apply (parse_options_mss h); [apply Hg|apply Hg|]. do 6 ustep. cbn [uip_buf set_field].
  rewrite (sg_seq _ _ _ (gt_seg _ _ _ _ Hg)). ustep. unfold uip_add_rcv_nxt. ustep. apply (wp_deref_conn _ i); [done|]. do 10 ustep.
  match goal with |- wp _ _ _ (?s', _) => set (s3 := s') end.
  assert (HA3 : At_conn_at OPT s i h mss_option 0 (λ c, (with_mss (acked c)) <| tcpstateflags := UIP_ESTABLISHED |>
    <| rcv_nxt := uip_add32 (h_seq h) 1 |> <| len := 0 |>) (Z.lor UIP_CONNECTED UIP_NEWDATA) s3).
  { split; [by destruct Hg|]. do 3 (split; [done|]). cbn [uip_conns set_field s3].
    rewrite Hcs, !list_alter_alter_eq. apply list_alter_ext; [|done].
    intros x _. unfold compose. by destruct (acked x). }
  unfold wp at 1. change (UIP_APPCALL (s3, g)) with (httpd_appcall (s3, g)).
  rewrite (httpd_on_open s3 g (Z.lor UIP_CONNECTED UIP_NEWDATA)); [|apply HA3|by right|apply HA3|apply HA3|done|done|apply Hhost].
  cbv iota beta. eapply wp_mono; [|eapply (appsend_ack OPT s i h mss_option Hinv (ho_idx _ _ _ Hhost)); [apply HA3|exact Hg1|done..]].
  intros [] x (E1 & E2 & E3 & E4). done.
Qed.

Lemma input_synack :
  host_at UIP_SYN_SENT s g i → framed_at OPT h mss_option f → h_flags h = Z.lor TCP_SYN TCP_ACK →
  ∃ s', uip_input (receive f s, g) = Ok (tt, (s', took [] (app_up g))) ∧
    stepped s s' (took [] (app_up g)) i (opened_by (h_seq h)) ∧ uip_len s' = 40 ∧
    segment (hdr_of s (opened_by (h_seq h) c) TCP_ACK) [] (uip_buf s').
Proof.
  intros Hhost Hframe Hfl. pose proof (ho_inv _ _ _ Hhost) as Hinv.
  pose proof (ho_state _ _ _ Hhost : tcpstateflags c = UIP_SYN_SENT) as Hst.
  destruct (received_buf OPT s h mss_option f Hinv Hframe) as [_ Hby].
  pose proof (received_segment h mss_option f s Hframe (wf_buf_len _ (inv_wf _ Hinv))) as Hsg.
  destruct (hdr_wf _ _ _ Hsg Hby) as (_ & _ & _ & Hq & _).
  destruct (opening_call OPT UIP_SYN_SENT s g i h mss_option f Hhost Hframe Hends) with
    (F := opened_by (h_seq h)) (g' := took [] (app_up g))
    (R := λ s', uip_len s' = 40 ∧ wrote (hdr_of s (opened_by (h_seq h) c) TCP_ACK) [] (uip_buf s'))
    as (s' & Hr & Hs & (Hl & Hw) & He); try done; try (by rewrite Hfl).
  - unfold out_of_sequence. fold c. rewrite Hst, Hfl. done.
  - apply (option_sane h mss_option f s g Hinv (ho_fits _ _ _ Hhost) Hframe eq_refl). by rewrite Hfl.
  - by apply (acked_ends c (λ c', no_nrtx ((with_mss c') <| tcpstateflags := UIP_ESTABLISHED |>
      <| rcv_nxt := uip_add32 (h_seq h) 1 |> <| len := 0 |>))).
  - apply (ho_close _ _ _ Hhost).
  - intros s2 HA. by apply synack_state.
  - exists s'. split; [done|]. split; [done|]. split; [done|]. apply wrote_segment; [done|]. destruct He; [lia|done].
Qed.

Lemma ack_state s2 :
  host_at UIP_SYN_RCVD s g i → At_conn_at 0x50 s i h [] 0 acked UIP_ACKDATA s2 →
  wp anyfault (tcp_state i) (λ _ x, x.2 = app_up g ∧ uip_conns x.1 = alter accepted i (uip_conns s) ∧ uip_len x.1 = 0) (s2, g).
Proof.
  intros Hhost HA. pose proof (ho_inv _ _ _ Hhost) as Hinv.
  pose proof (ho_state _ _ _ Hhost : tcpstateflags c = UIP_SYN_RCVD) as Hst.
  pose proof (at_conn_c Hinv (ho_idx _ _ _ Hhost) HA : _ = acked c) as Hc2.
  destruct HA as (Hg & Hl & Hu & Hfg & Hcs). unfold tcp_state. do 2 ustep. rewrite Hc2, acked_state, Hst.
  match goal with |- wp _ _ ?Q _ => change (wp anyfault (in_syn_rcvd i) Q (s2, g)) end.
  unfold in_syn_rcvd. do 3 ustep; [|exfalso; rewrite Hfg in *; discriminate].
  do 9 ustep. cbn [uip_len set_field]. rewrite Hl. change (0 <? 0) with false. cbv iota. do 4 ustep.
  match goal with |- wp _ _ _ (?s', _) => set (s3 := s') end.
  assert (HA3 : At_conn_at 0x50 s i h [] 0 (λ c, (acked c) <| tcpstateflags := UIP_ESTABLISHED |> <| len := 0 |>) UIP_CONNECTED s3).
  { split; [by destruct Hg|]. do 3 (split; [done|]). cbn [uip_conns set_field s3].
    rewrite Hcs, !list_alter_alter_eq. apply list_alter_ext; [|done].
    intros x _. unfold compose. by destruct (acked x). }
  unfold wp at 1. change (UIP_APPCALL (s3, g)) with (httpd_appcall (s3, g)).
  rewrite (httpd_on_open s3 g UIP_CONNECTED); [|apply HA3|by left|apply HA3|apply HA3|apply HA3|done|apply Hhost].
  cbv iota beta. eapply wp_mono; [|eapply appsend_quiet; [apply HA3|done..]].
  intros [] x (E1 & E2 & E3). done.
Qed.

Lemma input_last_ack :
  host_at UIP_SYN_RCVD s g i → framed_seg h [] f → h_flags h = TCP_ACK →
  ∃ s', uip_input (receive f s, g) = Ok (tt, (s', app_up g)) ∧ stepped s s' (app_up g) i accepted ∧ uip_len s' = 0.
Proof.
  intros Hhost Hframe Hfl. pose proof (ho_state _ _ _ Hhost : tcpstateflags c = UIP_SYN_RCVD) as Hst.
  destruct (opening_call 0x50 UIP_SYN_RCVD s g i h [] f Hhost Hframe Hends) with
    (F := accepted) (g' := app_up g) (R := λ s', uip_len s' = 0)
    as (s' & Hr & Hs & Hl & _); try done; try (by rewrite Hfl).
  - unfold out_of_sequence. fold c. rewrite Hst, Hfl. done.
  - apply (input_sane h [] f s g (ho_inv _ _ _ Hhost) (ho_fits _ _ _ Hhost) Hframe); [cbn; lia|by rewrite Hfl].
  - by apply (acked_ends c (λ c', no_nrtx (c' <| tcpstateflags := UIP_ESTABLISHED |> <| len := 0 |>))).
  - apply (ho_close _ _ _ Hhost).
  - intros s2 HA. by apply ack_state.
  - by exists s'.
Qed.
End handshake.
