(* ===== verification/TcpPairThms.v ===== *)
(** * Messages arrive, in order and once

    The theorems on two hosts joined by an unreliable link, and a pair of hosts
    that open a connection by a three-way handshake to which they apply. *)

From stdpp Require Import relations.
From S2P Require Import Prelude Bytes Checksum UipState Uip PacketSum UipInv Ports Httpd TcpSeg TcpTx UipThms TcpHost TcpPair.

(** The connection has just been opened: nothing was sent yet, and the second host
    expects the first byte of the first one. *)
Record fresh (i j : nat) (l : link) : Prop := {
  fr_a : host (l_a l).1 (l_a l).2 i;
  fr_b : host (l_b l).1 (l_b l).2 j;
  fr_joined : joined (l_a l).1 (l_b l).1 (ca i l) (cb j l);
  fr_mss : mss (ca i l) = initialmss (ca i l);
  fr_len : len (ca i l) = 0 ∧ len (cb j l) = 0;
  fr_seq : rcv_nxt (cb j l) = snd_nxt (ca i l);
  fr_idle : httpd_socket_tx_pending (l_a l).2 = 0 ∧ httpd_socket_tx_pending (l_b l).2 = 0;
  fr_read : httpd_socket_rx_len (l_b l).2 = 0;
  fr_link : l_ab l = None ∧ l_ba l = None ∧ l_sent l = [] ∧ l_rcvd l = []
}.

Lemma fresh_inv i j l : fresh i j l → link_inv i j (mss (ca i l)) l.
Proof.
  intros [Ha Hb Hj Hm [Hla Hlb] Hs [Hia Hib] Hr (H1 & H2 & H3 & H4)]. split; try done.
  - left. by rewrite H3, H4.
  - intros f. by rewrite H1.
  - intros f. by rewrite H2.
Qed.

Section pair.
Variables (i j : nat) (ethA ethB : list Z).
Hypothesis HethA : length ethA = 14%nat ∧ bytes ethA.
Hypothesis HethB : length ethB = 14%nat ∧ bytes ethB.

(** C3: TCP delivers in order and exactly once over a link that loses and repeats
    frames: whatever the link does and whenever the sender's timer runs, the
    messages the second application got are the messages the first one was given
    to send, in the same order, except that the last may still be missing while
    the sender considers it unacknowledged. *)
Theorem tcp_in_order l0 l :
  fresh i j l0 → rtc (link_step i ethA ethB) l0 l →
  l_rcvd l = l_sent l ∨
  (httpd_socket_tx_pending (l_a l).2 ≠ 0 ∧ ∃ m, l_sent l = l_rcvd l ++ [m]).
Proof.
  intros Hf Hs. pose proof (steps_inv i j ethA ethB _ HethA HethB _ _ Hs (fresh_inv _ _ _ Hf)) as Hl.
  destruct (li_progress _ _ _ _ Hl) as [(_ & _ & _ & ?)|(Hr & _ & _ & acc & Hse & [[_ Hrc]|(_ & _ & Hrc)])]; [by left| |].
  - right. split; [apply Hr|]. eexists. by rewrite Hrc.
  - left. congruence.
Qed.

(** C4: ... and messages get through: from every state of such a run in which the
    sender has not used up its retransmissions, whatever was lost before, there is
    a way on, by timeouts, retransmissions and acknowledgements, on which
    everything sent so far and any further messages, each of at most the maximum
    segment size of the connection, arrive; no call of the stack fails on it. *)
Theorem tcp_gets_through l0 l ms :
  fresh i j l0 → rtc (link_step i ethA ethB) l0 l → nrtx (ca i l) ≠ UIP_MAXRTX →
  Forall (λ m, bytes m ∧ 0 < Z.of_nat (length m) ≤ mss (ca i l0)) ms →
  ∃ l', rtc (link_step i ethA ethB) l l' ∧ l_sent l' = l_sent l ++ ms ∧ l_rcvd l' = l_sent l'.
Proof.
  intros Hf Hs Hn Hms. pose proof (steps_inv i j ethA ethB _ HethA HethB _ _ Hs (fresh_inv _ _ _ Hf)) as Hl.
  destruct (deliver_all i j ethA ethB _ HethA HethB ms l Hl Hn Hms) as (l' & H1 & H2 & H3).
  exists l'. split; [done|]. split; [done|]. congruence.
Qed.
End pair.

(** ** Two hosts that open a connection *)

(** The active side: 10.0.2.2. *)
Definition demo_client : uip :=
  (uip_init uip0) <| uip_hostaddr := uip_ipaddr 10 0 2 2 |> <| uip_draddr := uip_ipaddr 10 0 2 15 |>
    <| uip_netmask := uip_ipaddr 255 255 255 0 |> <| iss := B4 0 0 3 232 |>.
Definition demo_eth : list Z := [82; 84; 0; 0; 0; 1; 82; 85; 10; 0; 2; 2; 8; 0].

Definition demo_connected : uip :=
  Eval vm_compute in match uip_connect (uip_ipaddr 10 0 2 15) (HTONS 80) demo_client with
                     | Ok (_, s) => s | Err _ => demo_client end.

(** The frame that a call left, received by the other host. *)
Definition hand_over (x y : uip * httpd) : uip * httpd := (receive (on_wire demo_eth x.1) y.1, y.2).
Definition syn_1 := Eval vm_compute in run (uip_periodic 0) (demo_connected, httpd0).
Definition syn_2 := Eval vm_compute in run (uip_periodic 0) syn_1.
Definition listen_1 := Eval vm_compute in run uip_input (hand_over syn_2 (demo_up, httpd0)).
Definition open_a := Eval vm_compute in run uip_input (hand_over listen_1 syn_2).
Definition open_b := Eval vm_compute in run uip_input (hand_over open_a listen_1).

Definition demo_link : link := mk_link open_a open_b None None [] [].

Lemma demo_client_inv : inv_uip demo_client.
Proof.
  destruct inv_demo_up as [[] Hc]. split; [split|]; try done.
  all: try (apply (bool_decide_unpack _); by vm_compute).
Qed.

Lemma demo_connected_inv : inv_uip demo_connected.
Proof.
  destruct (uip_connect_spec (uip_ipaddr 10 0 2 15) (HTONS 80) demo_client demo_client_inv) as (r & s & Hr & Hi & _).
  - apply (bool_decide_unpack _). by vm_compute.
  - apply HTONS_u16.
  - assert (uip_connect (uip_ipaddr 10 0 2 15) (HTONS 80) demo_client = Ok (Some 0%nat, demo_connected)) as E by reflexivity.
    rewrite Hr in E. by injection E as _ <-.
Qed.

Lemma run_timer_inv i s g x :
  (i < UIP_CONNS)%nat → inv_uip s → wf_httpd g → uip_periodic i (s, g) = Ok (tt, x) → inv_uip x.1 ∧ wf_httpd x.2.
Proof.
  intros Hi Hs Hw E. destruct x as [s' g']. rewrite uip_periodic_eq in E.
  pose proof (process_inv (A := httpd) UIP_TIMER (s <| uip_conn := Some i |>) g s' g') as Hp.
  apply Hp; [by apply inv_select|done|done].
Qed.

Lemma hand_over_inv x y :
  inv_uip x.1 → inv_uip y.1 → inv_uip (hand_over x y).1.
Proof.
  intros [[] _] Hy. unfold hand_over, receive. cbn [fst].
  assert (Hb : bytes (on_wire demo_eth x.1)).
  { unfold on_wire. apply Forall_app. split; [|by apply slice_bytes]. apply (bool_decide_unpack _). by vm_compute. }
  apply (inv_packet (y.1) (put_bytes 0 (on_wire demo_eth x.1) (uip_buf y.1))); [done|..|apply wrap16_u16].
  - rewrite length_put_bytes. apply Hy.
  - apply put_bytes_bytes; [done|apply Hy].
Qed.

Lemma demo_pair_inv : (inv_uip open_a.1 ∧ wf_httpd open_a.2) ∧ (inv_uip open_b.1 ∧ wf_httpd open_b.2).
Proof.
  assert (H1 : inv_uip syn_1.1 ∧ wf_httpd syn_1.2).
  { apply (run_timer_inv 0 demo_connected httpd0); [unfold UIP_CONNS; lia|apply demo_connected_inv|apply wf_httpd0|reflexivity]. }
  assert (H2 : inv_uip syn_2.1 ∧ wf_httpd syn_2.2).
  { apply (run_timer_inv 0 syn_1.1 syn_1.2); [unfold UIP_CONNS; lia|apply H1|apply H1|reflexivity]. }
  assert (H3 : inv_uip listen_1.1 ∧ wf_httpd listen_1.2).
  { apply (run_inv (hand_over syn_2 (demo_up, httpd0)).1 httpd0); [|apply wf_httpd0|reflexivity].
    apply hand_over_inv; [apply H2|apply inv_demo_up]. }
  assert (H4 : inv_uip open_a.1 ∧ wf_httpd open_a.2).
  { apply (run_inv (hand_over listen_1 syn_2).1 syn_2.2); [|apply H2|reflexivity].
    apply hand_over_inv; [apply H3|apply H2]. }
  split; [exact H4|].
  apply (run_inv (hand_over open_a listen_1).1 listen_1.2); [|apply H3|reflexivity].
  apply hand_over_inv; [apply H4|apply H3].
Qed.

Lemma demo_fresh : fresh 0 0 demo_link.
Proof.
  destruct demo_pair_inv as [[Ha Hwa] [Hb Hwb]]. split; try done.
  - split; try done; unfold tx_fits, UIP_CONNS; cbn; lia.
  - split; try done; unfold tx_fits, UIP_CONNS; cbn; lia.
Qed.

Definition demo_eth_ok : length demo_eth = 14%nat ∧ bytes demo_eth.
Proof. split; [done|]. apply (bool_decide_unpack _). by vm_compute. Qed.

(** The first message is sent, and the link loses it. *)
Definition demo_lost : link :=
  (a_did demo_eth (run (uip_poll_conn 0) (l_a (a_send [104; 105] demo_link))) (a_send [104; 105] demo_link))
    <| l_ab := None |>.

Lemma demo_lost_run : rtc (link_step 0 demo_eth demo_eth) demo_link demo_lost.
Proof.
  eapply rtc_l; [apply (ls_send 0 demo_eth demo_eth demo_link [104; 105]); [done| |vm_compute; done]|].
  { apply (bool_decide_unpack _). by vm_compute. }
  eapply rtc_l; [|apply rtc_once, (ls_lose_ab 0 demo_eth demo_eth)].
  apply ls_poll; [done|]. vm_compute. reflexivity.
Qed.

Lemma tcp_in_order_witness :
  l_rcvd demo_lost = l_sent demo_lost ∨
  (httpd_socket_tx_pending (l_a demo_lost).2 ≠ 0 ∧ ∃ m, l_sent demo_lost = l_rcvd demo_lost ++ [m]).
Proof.
  apply (tcp_in_order 0 0 demo_eth demo_eth demo_eth_ok demo_eth_ok demo_link); [apply demo_fresh|apply demo_lost_run].
Defined.

(** It arrives nevertheless, and so does the next one. *)
Lemma tcp_gets_through_witness :
  ∃ l', rtc (link_step 0 demo_eth demo_eth) demo_lost l' ∧ l_sent l' = [[104; 105]] ++ [[33]] ∧
        l_rcvd l' = l_sent l'.
Proof.
  apply (tcp_gets_through 0 0 demo_eth demo_eth demo_eth_ok demo_eth_ok demo_link demo_lost [[33]]);
    [apply demo_fresh|apply demo_lost_run|vm_compute; discriminate|].
  constructor; [|constructor]. split; [apply (bool_decide_unpack _); by vm_compute|vm_compute; done].
Defined.
