(* ===== verification/TcpOpenThms.v ===== *)
(** * Opening a connection

    From [uip_connect] on one host and a listening port on the other to an
    established connection that both ends agree on. *)

From S2P Require Import Prelude Bytes Checksum UipState Uip PacketSum UipInv Ports Httpd TcpSeg TcpTx UipThms TcpHost TcpPair TcpOpen TcpPairThms.

(** ** The end that opens *)

Lemma demux_only dport sport src k cs i c :
  cs !! i = Some c → conn_matches dport sport src c = true →
  (∀ j c', cs !! j = Some c' → j ≠ i → conn_matches dport sport src c' = false) →
  demux dport sport src k cs = Some (k + i)%nat.
Proof.
  revert k i. induction cs as [|c' cs IH]; intros k i Hi Hm Ho; [done|]. cbn. destruct i as [|i].
  - injection Hi as ->. rewrite Hm. f_equal. lia.
  - rewrite (Ho 0%nat c' eq_refl) by done. rewrite (IH (S k) i) by (done || (intros j x ??; by eapply (Ho (S j)); [|lia])).
    f_equal. lia.
Qed.

Lemma uip_connect_frame rip rp s r s' :
  uip_connect rip rp s = Ok (r, s') →
  uip_hostaddr s' = uip_hostaddr s ∧ uip_buf s' = uip_buf s ∧
  match r with Some i => (i < length (uip_conns s'))%nat | None => True end.
Proof.
  unfold uip_connect. case_match; [|done]. cbn [uip_conns set_field].
  destruct (find_unused 0 None (uip_conns s)) as [i|] eqn:Hf; intros [= <- <-]; [|done].
  apply (find_unused_sound (uip_conns s)) in Hf as (c & Hi & _); [|done|done].
  do 2 (split; [done|]). cbn [uip_conns set_field]. rewrite length_alter. by eapply lookup_lt_Some.
Qed.

(** A host that may take part: its application has nothing to send. *)
Record calm (s : uip) (g : httpd) : Prop := {
  cm_inv : inv_uip s;
  cm_app : wf_httpd g;
  cm_fits : tx_fits g;
  cm_addr : uip_hostaddr s ≠ all_zeroes_addr;
  cm_close : httpd_socket_close_pending g = 0;
  cm_idle : httpd_socket_tx_pending g = 0
}.

Lemma connect_host s g rip rp i s1 :
  calm s g → wf_ip rip → is_u16 rp → uip_connect rip rp s = Ok (Some i, s1) →
  host_at UIP_SYN_SENT s1 g i ∧ opened s rip rp (lastport s1) (uip_conns s1 !!! i) ∧ uip_hostaddr s1 = uip_hostaddr s.
Proof.
  intros [Hi Hw Hf Ha Hc Hp] Hrip Hrp E. destruct (uip_connect_spec rip rp s Hi Hrip Hrp) as (r & s' & E' & Hi' & Hr).
  rewrite E in E'. injection E' as <- <-. destruct Hr as (_ & Hoth & Hop). destruct (uip_connect_frame _ _ _ _ _ E) as (Hha & _ & Hlt).
  split; [|done]. pose proof Hop as []. split; try done; [|by rewrite Hha|].
  { rewrite <- (wf_uip_conns_len s1); [done|apply Hi']. }
  cbv zeta. change (Some i) with (Some (0 + i)%nat). eapply demux_only; [by apply list_lookup_lookup_total_lt| |].
  - unfold conn_matches. rewrite op_state, !Z.eqb_refl. cbn. by apply uip_ipaddr_cmp_eq.
  - intros j c' Hj Hne. unfold conn_matches. rewrite (Hoth j Hne) in Hj. apply list_elem_of_lookup_2 in Hj.
    destruct (Z.eqb_spec (tcpstateflags c') UIP_CLOSED); [done|]. cbn.
    by rewrite (proj2 (Z.eqb_neq _ _)) by (intros He; by eapply op_fresh).
Qed.

(** ** The five calls *)

Lemma wire_framed {off} eth s h data :
  length eth = 14%nat ∧ bytes eth → inv_uip s → uip_len s = 40 + Z.of_nat (length data) → (length data ≤ 368)%nat →
  segment_at off h data (uip_buf s) → framed_at off h data (on_wire eth s).
Proof. intros [He Hb] [[] _] Hl Hd Hs. by apply on_wire_framed. Qed.

Section handshake.
Variables (ethA ethB : list Z) (sA s1 sB : uip) (gA gB : httpd) (i j : nat) (port : Z).
Hypothesis HethA : length ethA = 14%nat ∧ bytes ethA.
Hypothesis HethB : length ethB = 14%nat ∧ bytes ethB.
Hypothesis HA : calm sA gA.
Hypothesis HB : calm sB gB.
Hypothesis Hport : is_u16 port.
Hypothesis Hconnect : uip_connect (uip_hostaddr sB) port sA = Ok (Some i, s1).
Hypothesis Hlisten : existsb (Z.eqb port) (uip_listenports sB) = true.
Hypothesis Hfree : find_unused 0 None (uip_conns sB) = Some j.
Hypothesis Hnew : demux port (lport (uip_conns s1 !!! i)) (uip_hostaddr sA) 0 (uip_conns sB) = None.
Let c := uip_conns s1 !!! i.

(** The SYN: the first tick only counts down. *)
Lemma syn_sent :
  ∃ x1 x2, uip_periodic i (s1, gA) = Ok (tt, (x1, gA)) ∧ uip_periodic i (x1, gA) = Ok (tt, (x2, gA)) ∧
    stepped_at UIP_SYN_SENT s1 x2 gA i (λ c', resent (ticked (ticked c'))) ∧
    framed_at OPT (hdr_of s1 c TCP_SYN) mss_option (on_wire ethA x2).
Proof.
  destruct (connect_host sA gA _ _ i s1 HA (wf_hostaddr _ (inv_wf _ (cm_inv _ _ HB))) Hport Hconnect) as (H0 & Hop & Hha).
  fold c in Hop. destruct (op_timer _ _ _ _ _ Hop) as [Ht Hn]. pose proof (op_len _ _ _ _ _ Hop) as Hl.
  destruct (syn_waits s1 gA i H0) as (x1 & R1 & S1 & _); [fold c; lia|fold c; lia|].
  pose proof (stepped_conn _ _ _ _ _ _ H0 S1 : _ = ticked c) as Hc1.
  destruct (syn_goes_out x1 gA i (sp_host _ _ _ _ _ S1)) as (x2 & R2 & S2 & Hlen & Hseg);
    rewrite ?Hc1; [cbn; lia|cbn; by rewrite Ht|done|].
  exists x1, x2. split; [done|]. split; [done|]. split.
  - split; [apply S2|by rewrite (sp_addr _ _ _ _ _ S2), (sp_addr _ _ _ _ _ S1)|].
    rewrite (sp_conns _ _ _ _ _ S2), (sp_conns _ _ _ _ _ S1), list_alter_alter_eq. done.
  - assert (hdr_of x1 (uip_conns x1 !!! i) TCP_SYN = hdr_of s1 c TCP_SYN) as Hh.
    { unfold hdr_of. by rewrite Hc1, (sp_addr _ _ _ _ _ S1). }
    rewrite Hh in Hseg. apply wire_framed; [done|apply (ho_inv _ _ _ (sp_host _ _ _ _ _ S2))|done|cbn; lia|done].
Qed.

(** The connection the listening host makes of it. *)
Definition made : conn := answering (iss sB) (hdr_of s1 c TCP_SYN) (uip_conns sB !!! j).

Lemma syn_answered f :
  framed_at OPT (hdr_of s1 c TCP_SYN) mss_option f →
  ∃ y1, uip_input (receive f sB, gB) = Ok (tt, (y1, gB)) ∧
    stepped_at UIP_SYN_RCVD sB y1 gB j (answering (iss sB) (hdr_of s1 c TCP_SYN)) ∧
    framed_at OPT (hdr_of sB made (Z.lor TCP_ACK TCP_SYN)) mss_option (on_wire ethB y1).
Proof.
  intros Hf. pose proof HB as [Hi Hw Hfi Ha Hc Hp].
  destruct (connect_host sA gA _ _ i s1 HA (wf_hostaddr _ (inv_wf _ Hi)) Hport Hconnect) as (H0 & [] & Hha).
  fold c in op_rport, op_ripaddr.
  destruct (input_syn sB gB j (hdr_of s1 c TCP_SYN) f) as (y1 & Hr & Hs & Hl & Hseg); try done.
  - by rewrite <- op_rport in Hlisten.
  - cbn. rewrite op_rport, Hha. exact Hnew.
  - exists y1. split; [done|]. split; [done|].
    apply wire_framed; [done|apply (ho_inv _ _ _ (sp_host _ _ _ _ _ Hs))|done|cbn; lia|done].
Qed.

(** C5: the three-way handshake opens a connection between any two hosts whose
    applications are idle: one calls [uip_connect] for a port the other listens
    on, and has a free connection for; its timer ticks twice, the second tick
    sending the SYN (uip.h says it is the first, see the findings), and the three
    segments arrive.  No call fails, and then both ends are established, have each
    other's addresses and ports, agree on the sequence numbers and have nothing in
    transit, so that what is shown of two hosts over an unreliable link applies. *)
Theorem tcp_opens :
  ∃ x1 x2 y1 x3 y2,
    uip_periodic i (s1, gA) = Ok (tt, x1) ∧ uip_periodic i x1 = Ok (tt, x2) ∧
    uip_input (receive (on_wire ethA x2.1) sB, gB) = Ok (tt, y1) ∧
    uip_input (receive (on_wire ethB y1.1) x2.1, x2.2) = Ok (tt, x3) ∧
    uip_input (receive (on_wire ethA x3.1) y1.1, y1.2) = Ok (tt, y2) ∧
    httpd_socket_conn_open x3.2 = 1 ∧ httpd_socket_conn_open y2.2 = 1 ∧
    (httpd_socket_rx_len gB = 0 → fresh i j (mk_link x3 y2 None None [] [])).
Proof.
  destruct (connect_host sA gA _ _ i s1 HA (wf_hostaddr _ (inv_wf _ (cm_inv _ _ HB))) Hport Hconnect) as (H0 & Hop & Hha).
  fold c in Hop. destruct Hop as [Ost Olp _ Orp Orip Osn Olen [Om1 Om2] [Ot On]].
  destruct syn_sent as (x1 & x2 & R1 & R2 & S2 & F2). pose proof (stepped_conn _ _ _ _ _ _ H0 S2 : _ = resent (ticked (ticked c))) as C2.
  destruct (syn_answered _ F2) as (y1 & R3 & S3 & F3).
  assert (C3 : uip_conns y1 !!! j = made) by (rewrite (sp_conns _ _ _ _ _ S3); apply lookup_alter_conn; [apply HB|apply (ho_idx _ _ _ (sp_host _ _ _ _ _ S3))]).
  destruct (input_synack x2 gA i (hdr_of sB made (Z.lor TCP_ACK TCP_SYN)) (on_wire ethB y1))
    as (x3 & R4 & S4 & L4 & G4); rewrite ?C2; cbn; rewrite ?(sp_addr _ _ _ _ _ S2), ?Osn, ?Olen; try done; [apply HA|apply S2|].
  pose proof (stepped_conn _ _ _ _ _ _ (sp_host _ _ _ _ _ S2) S4) as C4. rewrite C2 in C4, G4. cbn in C4, G4.
  set (q := iss sB) in *. set (c2 := resent (ticked (ticked c))) in *.
  destruct (opened_fields q c2) as ((P1 & P2 & P3) & Psn & Prc & Pl & Pm1 & Pm2).
  assert (F4 : framed_seg (hdr_of x2 (opened_by q c2) TCP_ACK) [] (on_wire ethA x3)).
  { apply wire_framed; [done|apply (ho_inv _ _ _ (sp_host _ _ _ _ _ S4))|done|cbn; lia|done]. }
  destruct (input_last_ack y1 gB j (hdr_of x2 (opened_by q c2) TCP_ACK) (on_wire ethA x3)) as (y2 & R5 & S5 & L5);
    rewrite ?C3; cbn [hdr_of h_src h_dest h_srcport h_destport h_ack h_flags];
    rewrite ?P1, ?P2, ?P3, ?Prc, ?(sp_addr _ _ _ _ _ S3), ?(sp_addr _ _ _ _ _ S2); try done; [apply HB|apply S3|].
  pose proof (stepped_conn _ _ _ _ _ _ (sp_host _ _ _ _ _ S3) S5) as C5. rewrite C3 in C5.
  destruct (accepted_fields made) as ((Q1 & Q2 & Q3) & Qrc & Ql).
  exists (x1, gA), (x2, gA), (y1, gB), (x3, took [] (app_up gA)), (y2, app_up gB).
  do 5 (split; [done|]). split; [done|]. split; [done|]. intros Hrx. split; unfold ca, cb; cbn [l_a l_b fst snd]; rewrite ?C4, ?C5.
  - apply S4.
  - apply S5.
  - split; cbn [l_a l_b fst snd]; rewrite ?(sp_addr _ _ _ _ _ S4), ?(sp_addr _ _ _ _ _ S5), ?(sp_addr _ _ _ _ _ S3),
      ?(sp_addr _ _ _ _ _ S2), ?C4, ?C5, ?P1, ?P2, ?P3, ?Q1, ?Q2, ?Q3; done.
  - congruence.
  - done.
  - rewrite Qrc, Psn. cbn. by rewrite Osn, Olen.
  - split; [apply HA|apply HB].
  - done.
  - done.
Qed.
End handshake.

(** 10.0.2.2 connects to the web server's port on 10.0.2.15. *)
Lemma demo_calm : calm demo_client httpd0 ∧ calm demo_up httpd0.
Proof.
  split; split; try done; unfold tx_fits; try (cbn; lia); [apply demo_client_inv|apply wf_httpd0|apply inv_demo_up|apply wf_httpd0].
Qed.

Lemma tcp_opens_witness :
  ∃ x1 x2 y1 x3 y2,
    uip_periodic 0 (demo_connected, httpd0) = Ok (tt, x1) ∧ uip_periodic 0 x1 = Ok (tt, x2) ∧
    uip_input (receive (on_wire demo_eth x2.1) demo_up, httpd0) = Ok (tt, y1) ∧
    uip_input (receive (on_wire demo_eth y1.1) x2.1, x2.2) = Ok (tt, x3) ∧
    uip_input (receive (on_wire demo_eth x3.1) y1.1, y1.2) = Ok (tt, y2) ∧
    httpd_socket_conn_open x3.2 = 1 ∧ httpd_socket_conn_open y2.2 = 1 ∧
    (httpd_socket_rx_len httpd0 = 0 → fresh 0 0 (mk_link x3 y2 None None [] [])).
Proof.
  apply (tcp_opens demo_eth demo_eth demo_client demo_connected demo_up httpd0 httpd0 0 0 (HTONS 80) demo_eth_ok demo_eth_ok);
    [apply demo_calm|apply demo_calm|apply HTONS_u16|reflexivity..].
Defined.
