(* ===== verification/Reass.v ===== *)
(** * IP fragment reassembly (uip.c: uip_reass)

    The code that [UIP_REASSEMBLY] compiles in; this configuration sets it to 0,
    and a fragment is dropped.  Here it is by itself, over the globals of uip.c
    and its own. *)

From S2P Require Import Prelude Bytes Checksum UipState Uip PacketSum UipInv.

Definition UIP_REASS_MAXAGE : Z := 40.
Definition UIP_REASS_BUFSIZE : nat := UIP_BUFSIZE - UIP_LLH_LEN.
Definition REASS_BITMAP : nat := UIP_REASS_BUFSIZE / (8 * 8).
Definition bitmap_bits : list Z := [0xff; 0x7f; 0x3f; 0x1f; 0x0f; 0x07; 0x03; 0x01].
Definition UIP_REASS_FLAG_LASTFRAG : Z := 0x01.
Definition IP_MF : Z := 0x20.

(** [struct uip_tcpip_hdr] at [uip_reassbuf]. *)
Module FBUF.
Definition ipid0 : nat := 4.
Definition ipid1 : nat := 5.
Definition srcipaddr : nat := 12.
Definition destipaddr : nat := 16.
End FBUF.

Record reass := mk_reass {
  uip_reassbuf : list Z;
  uip_reassbitmap : list Z;
  uip_reasslen : Z;
  uip_reassflags : Z;
  uip_reasstmr : Z
}.
#[export] Instance reass_settable : Settable reass :=
  settable! mk_reass <uip_reassbuf; uip_reassbitmap; uip_reasslen; uip_reassflags; uip_reasstmr>.

(** The globals before any packet came. *)
Definition reass0 : reass := mk_reass (replicate UIP_REASS_BUFSIZE 0) (replicate REASS_BITMAP 0) 0 0 0.

(** ** The operations *)

Definition R : Type → Type := U (A := reass).
Definition getr {X} (f : reass → X) : R X := getM (λ x, f x.2).
Definition updr (f : reass → reass) : R unit := modM (λ x, (x.1, f x.2)).

(** [uip_reassbitmap[i] |= v], [uip_reassbitmap[i] = v], and the byte. *)
Definition bitmap_or (i : nat) (v : Z) : R unit :=
  bm ← getr uip_reassbitmap;
  if (i <? length bm)%nat then updr (λ r, r <| uip_reassbitmap ::= alter (λ x, wrap8 (Z.lor x v)) i |>)
  else fail OutOfBounds.
Definition bitmap_set (i : nat) (v : Z) : R unit :=
  bm ← getr uip_reassbitmap;
  if (i <? length bm)%nat then updr (λ r, r <| uip_reassbitmap ::= alter (λ _, v) i |>)
  else fail OutOfBounds.
Definition bitmap_at (i : nat) : R Z :=
  bm ← getr uip_reassbitmap;
  if (i <? length bm)%nat then mret (bm !!! i) else fail OutOfBounds.

(** [bitmap_bits[(v / 8) & 7]] *)
Definition bits_at (v : Z) : Z := bitmap_bits !!! Z.to_nat (Z.land (v / 8) 7).

(** [for(; i < n; ++i) uip_reassbitmap[i] = 0xff;] for the [k] bytes from [i]. *)
Fixpoint bitmap_fill (i k : nat) : R unit :=
  match k with
  | O => mret tt
  | S k => bitmap_set i 0xff;; bitmap_fill (S i) k
  end.

(** The blocks of 8 bytes from [offset] on, [len] bytes in all. *)
Definition mark_bitmap (offset len : Z) : R unit :=
  let first := Z.to_nat (offset / 64) in
  let last := Z.to_nat ((offset + len) / 64) in
  if offset / 64 =? (offset + len) / 64 then
    bitmap_or first (Z.land (bits_at offset) (Z.lnot (bits_at (offset + len))))
  else
    bitmap_or first (bits_at offset);;
    bitmap_fill (S first) (last - S first);;
    bitmap_or last (Z.lnot (bits_at (offset + len))).

(** [memcpy] of [len] bytes of the packet, after its header of [ihl] bytes. *)
Definition copy_fragment (offset len ihl : Z) : R unit :=
  b ← gets uip_buf;
  fb ← getr uip_reassbuf;
  let from := (UIP_LLH_LEN + Z.to_nat ihl)%nat in
  let to := Z.to_nat (UIP_IPH_LEN + offset) in
  let n := Z.to_nat len in
  if (from + n <=? length b)%nat && (to + n <=? length fb)%nat then
    updr (λ r, r <| uip_reassbuf ::= put_bytes to (slice from n b) |>)
  else fail OutOfBounds.

(** The loop over the bytes of the bitmap before the last. *)
Fixpoint bitmap_full (i k : nat) : R bool :=
  match k with
  | O => mret true
  | S k => x ← bitmap_at i; if negb (x =? 0xff) then mret false else bitmap_full (S i) k
  end.

Definition reass_complete : R bool :=
  n ← getr uip_reasslen;
  full ← bitmap_full 0 (Z.to_nat (n / 64 - 1));
  if negb full then mret false
  else
    x ← bitmap_at (Z.to_nat (n / 64));
    mret (x =? wrap8 (Z.lnot (bits_at n))).

(** The packet is complete.  Its length is returned as a [u8_t]. *)
Definition reass_deliver : R Z :=
  updr (λ r, r <| uip_reasstmr := 0 |>);;
  n ← getr uip_reasslen;
  fb ← getr uip_reassbuf;
  bufw (put_bytes BUF.vhl (slice 0 (Z.to_nat n) fb));;
  w8 BUF.ipoffset1 0;;
  w8 BUF.ipoffset0 0;;
  w8 BUF.len0 (Z.shiftr n 8);;
  w8 BUF.len1 (Z.land n 0xff);;
  w16 BUF.ipchksum 0;;
  sum ← gets (λ s, uip_ipchksum (uip_buf s));
  w16 BUF.ipchksum (Z.lnot sum);;
  mret (wrap8 n).

(** The first fragment of a datagram. *)
Definition reass_start : R unit :=
  b ← gets uip_buf;
  updr (λ r, r <| uip_reassbuf ::= put_bytes 0 (slice BUF.vhl (Z.to_nat UIP_IPH_LEN) b) |>
               <| uip_reasstmr := UIP_REASS_MAXAGE |>
               <| uip_reassflags := 0 |>
               <| uip_reassbitmap := replicate REASS_BITMAP 0 |>).

(** The packet belongs to the datagram in the buffer. *)
Definition same_datagram (b fb : list Z) : bool :=
  (u16 b BUF.srcipaddr =? u16 fb FBUF.srcipaddr) &&
  (u16 b (BUF.srcipaddr + 2) =? u16 fb (FBUF.srcipaddr + 2)) &&
  (u16 b BUF.destipaddr =? u16 fb FBUF.destipaddr) &&
  (u16 b (BUF.destipaddr + 2) =? u16 fb (FBUF.destipaddr + 2)) &&
  (u8 b BUF.ipid0 =? u8 fb FBUF.ipid0) &&
  (u8 b BUF.ipid1 =? u8 fb FBUF.ipid1).

(** The payload's length and place; [u16_t] values. *)
Definition ihl (b : list Z) : Z := Z.land (u8 b BUF.vhl) 0x0f * 4.
Definition frag_len (b : list Z) : Z := wrap16 (iplen b - ihl b).
Definition frag_offset (b : list Z) : Z :=
  wrap16 ((Z.shiftl (Z.land (u8 b BUF.ipoffset0) 0x3f) 8 + u8 b BUF.ipoffset1) * 8).

Definition uip_reass : R Z :=
  tmr ← getr uip_reasstmr;
  (if tmr =? 0 then reass_start else mret tt);;
  b ← gets uip_buf;
  fb ← getr uip_reassbuf;
  if same_datagram b fb then
    let len := frag_len b in
    let offset := frag_offset b in
    if (Z.of_nat UIP_REASS_BUFSIZE <? offset) || (Z.of_nat UIP_REASS_BUFSIZE <? offset + len) then
      updr (λ r, r <| uip_reasstmr := 0 |>);;
      mret 0
    else
      copy_fragment offset len (ihl b);;
      mark_bitmap offset len;;
      (if negb (has (u8 b BUF.ipoffset0) IP_MF) then
         updr (λ r, r <| uip_reassflags ::= λ f, Z.lor f UIP_REASS_FLAG_LASTFRAG |>
                      <| uip_reasslen := wrap16 (offset + len) |>)
       else mret tt);;
      flags ← getr uip_reassflags;
      if has flags UIP_REASS_FLAG_LASTFRAG then
        done ← reass_complete;
        if done : bool then reass_deliver else mret 0
      else mret 0
  else mret 0.

(** The fragment check of [uip_process]: a datagram that became complete is
    processed further, by [k]. *)
Definition ip_fragment (k : R unit) : R unit :=
  o0 ← r8 BUF.ipoffset0;
  o1 ← r8 BUF.ipoffset1;
  if has o0 0x3f || negb (o1 =? 0) then
    n ← uip_reass;
    set_len n;;
    n ← gets uip_len;
    if n =? 0 then drop else k
  else k.

(** What [UIP_TIMER] does first. *)
Definition reass_tick : R unit :=
  tmr ← getr uip_reasstmr;
  if negb (tmr =? 0) then updr (λ r, r <| uip_reasstmr ::= λ t, t - 1 |>) else mret tt.
