(* ===== verification/ReassThms.v ===== *)
(** * What reassembly does

    The bitmap as the set of blocks received, the datagram put together from
    fragments in any order, and where the code goes wrong. *)

From S2P Require Import Prelude Bytes Checksum UipState Uip PacketSum UipInv Reass.

(** ** The bitmap as a set of blocks of 8 bytes *)

Definition bit (bm : list Z) (k : nat) : bool := Z.testbit (bm !!! (k / 8)%nat) (7 - Z.of_nat (k mod 8)).

Lemma wrap8_testbit v m : 0 ≤ m < 8 → Z.testbit (wrap8 v) m = Z.testbit v m.
Proof. intros. unfold wrap8. change 256 with (2 ^ 8). apply Z.mod_pow2_bits_low. lia. Qed.

Lemma mod8_bound k : 0 ≤ 7 - Z.of_nat (k mod 8) < 8.
Proof. pose proof (Nat.mod_upper_bound k 8). lia. Qed.

(** Two bytes with the same bits are the same. *)
Lemma u8_bits x y : is_u8 x → is_u8 y → (∀ m, (m < 8)%nat → Z.testbit x (7 - Z.of_nat m) = Z.testbit y (7 - Z.of_nat m)) → x = y.
Proof.
  intros Hx Hy Hb. apply Z.bits_inj'. intros n Hn. destruct (decide (n < 8)) as [Hlt|Hge].
  - specialize (Hb (Z.to_nat (7 - n)) ltac:(lia)). by replace (7 - Z.of_nat (Z.to_nat (7 - n))) with n in Hb by lia.
  - assert (Hhigh : ∀ v, is_u8 v → Z.testbit v n = false).
    { intros v Hv. rewrite <- (wrap8_id v Hv). unfold wrap8. change 256 with (2 ^ 8). apply Z.mod_pow2_bits_high. lia. }
    by rewrite !Hhigh.
Qed.

Lemma land7 (o : nat) : Z.land (Z.of_nat o) 7 = Z.of_nat (o mod 8).
Proof. change 7 with (Z.ones 3). rewrite Z.land_ones by lia. by rewrite Nat2Z.inj_mod. Qed.

(** [bitmap_bits] has the bits from a block on. *)
Lemma bits_at_bit o m : (m < 8)%nat → Z.testbit (bits_at (Z.of_nat o)) (7 - Z.of_nat m) = ((o / 8) mod 8 <=? m)%nat.
Proof.
  intros Hm. unfold bits_at. change 8 with (Z.of_nat 8) at 1. rewrite <- Nat2Z.inj_div, land7, Nat2Z.id.
  pose proof (Nat.mod_upper_bound (o / 8) 8 ltac:(lia)) as Hb. set (x := ((o / 8) mod 8)%nat) in *. clearbody x.
  do 8 (destruct x as [|x]; [by do 8 (destruct m as [|m]; [reflexivity|]); lia|]). lia.
Qed.

Definition or_at (i : nat) (v : Z) : list Z → list Z := alter (λ x, wrap8 (Z.lor x v)) i.
Fixpoint filled (i k : nat) (bm : list Z) : list Z :=
  match k with O => bm | S k => filled (S i) k (alter (λ _, 0xff) i bm) end.

Lemma lookup_total_alter_eq (f : Z → Z) i (l : list Z) : (i < length l)%nat → alter f i l !!! i = f (l !!! i).
Proof.
  intros Hi. rewrite !list_lookup_total_alt, list_lookup_alter_eq.
  by destruct (lookup_lt_is_Some_2 l i Hi) as [x ->].
Qed.
Lemma lookup_total_alter_ne (f : Z → Z) i j (l : list Z) : i ≠ j → alter f i l !!! j = l !!! j.
Proof. intros Hi. by rewrite !list_lookup_total_alt, list_lookup_alter_ne. Qed.

Lemma bit_or_at i v bm k :
  (i < length bm)%nat →
  bit (or_at i v bm) k = bit bm k || ((k / 8 =? i)%nat && Z.testbit v (7 - Z.of_nat (k mod 8))).
Proof.
  intros Hi. unfold bit, or_at. destruct (Nat.eqb_spec (k / 8) i) as [->|Hne].
  - rewrite lookup_total_alter_eq by done. by rewrite wrap8_testbit, Z.lor_spec by apply mod8_bound.
  - by rewrite lookup_total_alter_ne, andb_false_l, orb_false_r by done.
Qed.

Lemma length_filled i k bm : length (filled i k bm) = length bm.
Proof. revert i bm. induction k as [|k IH]; intros; cbn; [done|]. by rewrite IH, length_alter. Qed.

Lemma bit_filled i n bm k :
  (i + n ≤ length bm)%nat → bit (filled i n bm) k = bit bm k || ((i <=? k / 8) && (k / 8 <? i + n))%nat.
Proof.
  revert i bm. induction n as [|n IH]; intros i bm Hl; cbn [filled].
  - destruct (Nat.leb_spec i (k / 8)), (Nat.ltb_spec (k / 8) (i + 0)); try lia; by rewrite ?orb_false_r.
  - rewrite IH by (rewrite length_alter; lia). unfold bit. destruct (decide (k / 8 = i)%nat) as [<-|Hne].
    + rewrite lookup_total_alter_eq by lia. assert (Z.testbit 255 (7 - Z.of_nat (k mod 8)) = true) as ->.
      { pose proof (mod8_bound k). change 255 with (Z.ones 8). apply Z.ones_spec_low. lia. }
      destruct (Nat.leb_spec (k / 8) (k / 8)), (Nat.ltb_spec (k / 8) (k / 8 + S n)); lia.
    + rewrite lookup_total_alter_ne by done. f_equal.
      destruct (Nat.leb_spec (S i) (k / 8)), (Nat.leb_spec i (k / 8)), (Nat.ltb_spec (k / 8) (S i + n)), (Nat.ltb_spec (k / 8) (i + S n)); try lia; done.
Qed.

(** [mark_bitmap] without its bounds checks, on numbers. *)
Definition marked (o n : nat) (bm : list Z) : list Z :=
  let first := (o / 64)%nat in
  let last := ((o + n) / 64)%nat in
  let b0 := bits_at (Z.of_nat o) in
  let b1 := bits_at (Z.of_nat (o + n)) in
  if (first =? last)%nat then or_at first (Z.land b0 (Z.lnot b1)) bm
  else or_at last (Z.lnot b1) (filled (S first) (last - S first) (or_at first b0 bm)).

Lemma length_marked o n bm : length (marked o n bm) = length bm.
Proof. unfold marked, or_at. case_match; by rewrite !length_alter, ?length_filled, ?length_alter. Qed.

(** The block [k] is wholly in the [n] bytes from [o]. *)
Definition covers (o n k : nat) : bool := (o / 8 <=? k)%nat && (k <? (o + n) / 8)%nat.

(** Blocks by byte and place in it. *)
Lemma range_one a e k qa ra re qk rk : (a = 8 * qa + ra → e = 8 * qa + re → k = 8 * qk + rk → ra < 8 → re < 8 → rk < 8 →
  (qk =? qa) && ((ra <=? rk) && negb (re <=? rk)) = (a <=? k) && (k <? e))%nat.
Proof. intros. destruct (Nat.eqb_spec qk qa), (Nat.leb_spec ra rk), (Nat.leb_spec re rk), (Nat.leb_spec a k), (Nat.ltb_spec k e); cbn; lia. Qed.
Lemma range_many a e k qa ra qe re qk rk :
  (a = 8 * qa + ra → e = 8 * qe + re → k = 8 * qk + rk → ra < 8 → re < 8 → rk < 8 → qa < qe →
  (qk =? qa) && (ra <=? rk) || ((S qa <=? qk) && (qk <? S qa + (qe - S qa)) || (qk =? qe) && negb (re <=? rk)) =
  (a <=? k) && (k <? e))%nat.
Proof.
  intros. destruct (Nat.eqb_spec qk qa), (Nat.leb_spec ra rk), (Nat.leb_spec (S qa) qk), (Nat.ltb_spec qk (S qa + (qe - S qa))),
    (Nat.eqb_spec qk qe), (Nat.leb_spec re rk), (Nat.leb_spec a k), (Nat.ltb_spec k e); cbn; lia.
Qed.

Lemma marked_bit o n bm k :
  ((o + n) / 64 < length bm)%nat → bit (marked o n bm) k = bit bm k || covers o n k.
Proof.
  intros Hl. assert (Ho : (o / 64 ≤ (o + n) / 64)%nat) by (apply Nat.Div0.div_le_mono; lia).
  assert (D0 : (o / 64 = o / 8 / 8)%nat) by by rewrite Nat.Div0.div_div.
  assert (D1 : ((o + n) / 64 = (o + n) / 8 / 8)%nat) by by rewrite Nat.Div0.div_div.
  unfold marked, covers. rewrite D0, D1 in *.
  pose proof (Nat.div_mod_eq (o / 8) 8) as E0. pose proof (Nat.div_mod_eq ((o + n) / 8) 8) as E1. pose proof (Nat.div_mod_eq k 8) as Ek.
  assert (Hb : ∀ x, (x mod 8 < 8)%nat) by (intros; apply Nat.mod_upper_bound; lia).
  destruct (Nat.eqb_spec (o / 8 / 8) ((o + n) / 8 / 8)) as [He|Hne].
  - rewrite bit_or_at by lia. rewrite Z.land_spec, Z.lnot_spec, !bits_at_bit by (done || apply mod8_bound). f_equal.
    rewrite <- He in E1. by apply range_one.
  - rewrite bit_or_at by (unfold or_at; rewrite length_filled, length_alter; lia).
    rewrite bit_filled by (unfold or_at; rewrite length_alter; lia). rewrite bit_or_at by lia.
    rewrite Z.lnot_spec, !bits_at_bit by (done || apply mod8_bound). rewrite <- !orb_assoc. f_equal.
    apply range_many; try done. lia.
Qed.

Lemma marked_bytes o n bm : bytes bm → bytes (marked o n bm).
Proof.
  assert (Hor : ∀ i v l, bytes l → bytes (or_at i v l)).
  { intros. apply Forall_alter; [done|]. intros. apply wrap8_u8. }
  assert (Hfill : ∀ m i l, bytes l → bytes (filled i m l)).
  { intros m. induction m as [|m IH]; intros i l Hl; cbn; [done|]. apply IH, Forall_alter; [done|]. by intros. }
  intros Hb. unfold marked. case_match; auto.
Qed.

(** ** Runs of the operations *)

Lemma bitmap_or_run i v s r :
  (i < length (uip_reassbitmap r))%nat → bitmap_or i v (s, r) = Ok (tt, (s, r <| uip_reassbitmap ::= or_at i v |>)).
Proof. intros Hi. unfold bitmap_or, getr, mbind, M_bind, getM. cbn [snd]. by rewrite (proj2 (Nat.ltb_lt _ _)). Qed.

Lemma bitmap_fill_run i k s r :
  (i + k ≤ length (uip_reassbitmap r))%nat → bitmap_fill i k (s, r) = Ok (tt, (s, r <| uip_reassbitmap ::= filled i k |>)).
Proof.
  revert i r. induction k as [|k IH]; intros i r Hl; cbn [bitmap_fill filled].
  - by destruct r.
  - unfold bitmap_set, getr, mbind, M_bind, getM. cbn [snd]. rewrite (proj2 (Nat.ltb_lt _ _)) by lia. cbn.
    rewrite IH by (cbn; rewrite length_alter; lia). done.
Qed.

Lemma of_nat_div o n : Z.of_nat o / Z.of_nat n = Z.of_nat (o / n).
Proof. by rewrite Nat2Z.inj_div. Qed.

Lemma mark_bitmap_run o n s r :
  ((o + n) / 64 < length (uip_reassbitmap r))%nat →
  mark_bitmap (Z.of_nat o) (Z.of_nat n) (s, r) = Ok (tt, (s, r <| uip_reassbitmap ::= marked o n |>)).
Proof.
  intros Hl. assert (Ho : (o / 64 ≤ (o + n) / 64)%nat) by (apply Nat.Div0.div_le_mono; lia).
  unfold mark_bitmap, marked. rewrite <- Nat2Z.inj_add. change 64 with (Z.of_nat 64). rewrite !of_nat_div, !Nat2Z.id.
  set (a := (o / 64)%nat) in *. set (b := ((o + n) / 64)%nat) in *. clearbody a b.
  destruct (Nat.eqb_spec a b) as [He|Hne].
  - rewrite He, Z.eqb_refl. rewrite bitmap_or_run by done. done.
  - rewrite (proj2 (Z.eqb_neq _ _)) by lia. unfold mbind, M_bind. rewrite bitmap_or_run by lia.
    rewrite bitmap_fill_run by (cbn; unfold or_at; rewrite length_alter; lia).
    rewrite bitmap_or_run by (cbn; unfold or_at; rewrite length_filled, length_alter; lia). done.
Qed.

(** [reass_complete] on the bitmap. *)
Definition bitmap_done (n : nat) (bm : list Z) : bool :=
  forallb (λ i, bm !!! i =? 0xff) (seq 0 (n / 64 - 1)) && (bm !!! (n / 64)%nat =? wrap8 (Z.lnot (bits_at (Z.of_nat n)))).

Lemma bitmap_full_run i k s r :
  (i + k ≤ length (uip_reassbitmap r))%nat →
  bitmap_full i k (s, r) = Ok (forallb (λ i, uip_reassbitmap r !!! i =? 0xff) (seq i k), (s, r)).
Proof.
  revert i. induction k as [|k IH]; intros i Hl; cbn [bitmap_full seq forallb]; [done|].
  unfold bitmap_at, getr, mbind, M_bind, getM. cbn [snd]. rewrite (proj2 (Nat.ltb_lt _ _)) by lia. cbn.
  destruct (uip_reassbitmap r !!! i =? 255); [|done]. cbn. by rewrite IH by lia.
Qed.

Lemma reass_complete_run n s r :
  uip_reasslen r = Z.of_nat n → (n / 64 < length (uip_reassbitmap r))%nat →
  reass_complete (s, r) = Ok (bitmap_done n (uip_reassbitmap r), (s, r)).
Proof.
  intros Hn Hl. unfold reass_complete, getr, bitmap_done. unfold mbind, M_bind, getM. cbn [snd]. rewrite Hn.
  change 64 with (Z.of_nat 64). rewrite of_nat_div.
  replace (Z.to_nat (Z.of_nat (n / 64) - 1)) with (n / 64 - 1)%nat by lia. rewrite bitmap_full_run by lia.
  destruct (forallb _ _); cbn [negb andb]; [|done]. rewrite Nat2Z.id. unfold bitmap_at, getr, mbind, M_bind, getM. cbn [snd]. by rewrite (proj2 (Nat.ltb_lt _ _)).
Qed.

Lemma u8_full x : is_u8 x → x = 0xff ↔ ∀ m, (m < 8)%nat → Z.testbit x (7 - Z.of_nat m) = true.
Proof.
  assert (Hff : ∀ m, (m < 8)%nat → Z.testbit 0xff (7 - Z.of_nat m) = true).
  { intros m Hm. change 255 with (Z.ones 8). apply Z.ones_spec_low. lia. }
  intros Hx. split; [by intros ->|]. intros Hm. apply u8_bits; [done|by unfold is_u8|]. intros m Hlt. by rewrite Hm, Hff.
Qed.

Lemma block_of i m : (m < 8)%nat → ((8 * i + m) / 8 = i ∧ (8 * i + m) mod 8 = m)%nat.
Proof.
  intros Hm. rewrite (Nat.mul_comm 8), Nat.add_comm, Nat.div_add, Nat.Div0.mod_add, Nat.div_small, Nat.mod_small by lia. lia.
Qed.

(** Complete: all blocks but those of one byte, which the loop leaves out. *)
Lemma bitmap_done_bits n bm :
  bytes bm → (n / 64 < length bm)%nat →
  bitmap_done n bm = true ↔
  (∀ k, (S (k / 8) < n / 64)%nat → bit bm k = true) ∧ (∀ k, (k / 8 = n / 64)%nat → bit bm k = (k <? n / 8)%nat).
Proof.
  intros Hb Hl. unfold bitmap_done. rewrite andb_true_iff, forallb_forall, Z.eqb_eq.
  assert (Hu : ∀ i, (i < length bm)%nat → is_u8 (bm !!! i)).
  { intros i Hi. apply (Forall_lookup_1 _ _ i _ Hb), list_lookup_lookup_total_lt, Hi. }
  match goal with |- ?A ∧ ?B ↔ ?C ∧ ?D => cut ((A ↔ C) ∧ (B ↔ D)); [tauto|split] end.
  - split.
    + intros Ha k Hk. pose proof (Ha (k / 8)%nat ltac:(apply in_seq; lia)) as He. apply Z.eqb_eq in He.
      unfold bit. eapply u8_full; [|exact He|apply Nat.mod_upper_bound; lia]. apply Hu. lia.
    + intros Ha i Hi%in_seq. apply Z.eqb_eq, u8_full; [apply Hu; lia|]. intros m Hm.
      destruct (block_of i m Hm) as [E1 E2]. specialize (Ha (8 * i + m)%nat). unfold bit in Ha. rewrite E1, E2 in Ha. apply Ha. lia.
  - assert (Hbits : ∀ m, (m < 8)%nat → Z.testbit (wrap8 (Z.lnot (bits_at (Z.of_nat n)))) (7 - Z.of_nat m) = negb ((n / 8) mod 8 <=? m)%nat).
    { intros m Hm. rewrite wrap8_testbit, Z.lnot_spec, bits_at_bit by lia. done. }
    pose proof (Nat.div_mod_eq (n / 8) 8) as Hd. rewrite Nat.Div0.div_div in Hd. change (8 * 8)%nat with 64%nat in Hd.
    split.
    + intros He k Hk. unfold bit. rewrite Hk, He, Hbits by (apply Nat.mod_upper_bound; lia).
      pose proof (Nat.div_mod_eq k 8). destruct (Nat.leb_spec ((n / 8) mod 8) (k mod 8)), (Nat.ltb_spec k (n / 8)); cbn; lia.
    + intros Ha. apply u8_bits; [by apply Hu|apply wrap8_u8|]. intros m Hm. rewrite Hbits by done.
      destruct (block_of (n / 64) m Hm) as [E1 E2]. specialize (Ha (8 * (n / 64) + m)%nat E1). unfold bit in Ha. rewrite E1, E2 in Ha.
      rewrite Ha. destruct (Nat.leb_spec ((n / 8) mod 8) m), (Nat.ltb_spec (8 * (n / 64) + m) (n / 8)); cbn; lia.
Qed.

(** ** Fragments of a datagram *)

Record frag := mk_frag { f_off : nat; f_len : nat; f_last : bool }.

Lemma u8_put_in o l b j :
  (o + length l ≤ length b)%nat → (o ≤ j < o + length l)%nat → u8 (put_bytes o l b) j = l !!! (j - o)%nat.
Proof.
  intros Hl Hj. unfold u8, put_bytes. rewrite !list_lookup_total_alt, list_lookup_inserts by lia. done.
Qed.
Lemma lookup_slice o n (b : list Z) j : (j < n)%nat → slice o n b !!! j = b !!! (o + j)%nat.
Proof. intros Hj. unfold slice. by rewrite !list_lookup_total_alt, lookup_take_lt, lookup_drop by done. Qed.

(** What tells the datagrams apart: identification and addresses. *)
Definition key_bytes : list nat := [4; 5; 12; 13; 14; 15; 16; 17; 18; 19]%nat.
Definition hdr_key (h : list Z) : list Z := map (u8 h) key_bytes.

Lemma hdr_key_eq h h' : hdr_key h = hdr_key h' ↔ ∀ j, In j key_bytes → u8 h j = u8 h' j.
Proof. apply map_ext_in_iff. Qed.

Lemma key_bytes_bound j : In j key_bytes → (4 ≤ j < 6 ∨ 12 ≤ j < 20)%nat.
Proof. cbn. lia. Qed.

Lemma u8_drop n b o : u8 (skipn n b) o = u8 b (n + o).
Proof. unfold u8. by rewrite !list_lookup_total_alt, lookup_drop. Qed.

Lemma same_datagram_key b fb : hdr_key (skipn UIP_LLH_LEN b) = hdr_key fb → same_datagram b fb = true.
Proof.
  rewrite hdr_key_eq. intros Hk. assert (He : ∀ j, In j key_bytes → u8 b (14 + j) = u8 fb j).
  { intros j Hj. by rewrite <- Hk, u8_drop. }
  unfold same_datagram, u16. unfold FBUF.srcipaddr, FBUF.destipaddr, FBUF.ipid0, FBUF.ipid1.
  cbn [Nat.add]. rewrite <- !He by (cbn; auto 11). by rewrite !Z.eqb_refl.
Qed.

Section datagram.
(** The datagram: its payload and what its fragments' headers have in common. *)
Variables (P : list Z) (key : list Z).
Hypothesis HP : bytes P.
(** Its end is in the part of the bitmap that exists. *)
Hypothesis Hshort : (length P < 64 * REASS_BITMAP)%nat.

(** The packet in the buffer [b] is the fragment [f]. *)
Record fragment (f : frag) (b : list Z) : Prop := {
  fg_buf : length b = (UIP_BUFSIZE + 2)%nat;
  fg_bytes : bytes b;
  fg_place : (f_off f mod 8 = 0)%nat;
  fg_end : if f_last f then (f_off f + f_len f = length P)%nat else (f_off f + f_len f ≤ length P)%nat;
  fg_iplen : iplen b = ihl b + Z.of_nat (f_len f);
  fg_fits : (UIP_LLH_LEN + Z.to_nat (ihl b) + f_len f ≤ length b)%nat;
  fg_off0 : u8 b BUF.ipoffset0 = if f_last f then 0 else IP_MF;
  fg_off1 : u8 b BUF.ipoffset1 = Z.of_nat (f_off f / 8);
  fg_key : hdr_key (skipn UIP_LLH_LEN b) = key;
  fg_data : slice (UIP_LLH_LEN + Z.to_nat (ihl b)) (f_len f) b = slice (f_off f) (f_len f) P
}.

Lemma fragment_end f b : fragment f b → (f_off f + f_len f ≤ length P)%nat.
Proof. intros [_ _ _ He _ _ _ _ _ _]. destruct (f_last f); lia. Qed.

(** The offset field is read with the More Fragments bit in it, which the 16 bits
    of [offset] lose again. *)
Lemma frag_fields f b : fragment f b → frag_offset b = Z.of_nat (f_off f) ∧ frag_len b = Z.of_nat (f_len f).
Proof.
  intros Hf. pose proof (fragment_end f b Hf) as He. unfold REASS_BITMAP, UIP_REASS_BUFSIZE in Hshort. cbn in Hshort.
  destruct Hf as [_ _ Hp _ Hl _ H0 H1 _ _]. unfold frag_offset, frag_len. rewrite Hl, H0, H1. split.
  - pose proof (Nat.div_mod_eq (f_off f) 8) as Hd. rewrite Hp in Hd.
    unfold wrap16. destruct (f_last f).
    + change (Z.shiftl (Z.land 0 63) 8) with 0. rewrite Z.mod_small by lia. lia.
    + change (Z.shiftl (Z.land IP_MF 63) 8) with 8192. replace ((8192 + Z.of_nat (f_off f / 8)) * 8) with (Z.of_nat (f_off f) + 1 * 65536) by lia.
      rewrite Z.mod_add, Z.mod_small by lia. done.
  - rewrite wrap16_id; unfold is_u16; lia.
Qed.

(** The bytes and the blocks that [fs] brought. *)
Definition has_byte (p : nat) (f : frag) : bool := (f_off f <=? p)%nat && (p <? f_off f + f_len f)%nat.
Definition has_block (k : nat) (f : frag) : bool := covers (f_off f) (f_len f) k.

(** Reassembly of this datagram is under way, [fs] having arrived. *)
Record tracks (fs : list frag) (r : reass) : Prop := {
  tk_buf : length (uip_reassbuf r) = UIP_REASS_BUFSIZE;
  tk_bytes : bytes (uip_reassbuf r);
  tk_map : length (uip_reassbitmap r) = REASS_BITMAP;
  tk_mapb : bytes (uip_reassbitmap r);
  tk_tmr : uip_reasstmr r ≠ 0;
  tk_key : hdr_key (uip_reassbuf r) = key;
  tk_bits : ∀ k, (k < 8 * REASS_BITMAP)%nat → bit (uip_reassbitmap r) k = existsb (has_block k) fs;
  tk_flag : uip_reassflags r = if existsb f_last fs then UIP_REASS_FLAG_LASTFRAG else 0;
  tk_len : existsb f_last fs = true → uip_reasslen r = Z.of_nat (length P);
  tk_in : Forall (λ f, f_off f + f_len f ≤ length P)%nat fs;
  tk_data : ∀ p, existsb (has_byte p) fs = true → u8 (uip_reassbuf r) (20 + p) = P !!! p
}.

(** No datagram is being put together. *)
Record vacant (r : reass) : Prop := {
  vc_buf : length (uip_reassbuf r) = UIP_REASS_BUFSIZE;
  vc_bytes : bytes (uip_reassbuf r);
  vc_map : length (uip_reassbitmap r) = REASS_BITMAP;
  vc_tmr : uip_reasstmr r = 0
}.

(** The code's idea of a complete datagram: the last fragment and all blocks, but
    for those of the byte of the bitmap before the last one. *)
Definition taken_complete (fs : list frag) : bool :=
  existsb f_last fs &&
  forallb (λ k, existsb (has_block k) fs || (S (k / 8) =? length P / 64)%nat) (seq 0 (length P / 8)).

Lemma done_blocks fs bm :
  bytes bm → length bm = REASS_BITMAP → (∀ k, (k < 8 * REASS_BITMAP)%nat → bit bm k = existsb (has_block k) fs) →
  Forall (λ f, f_off f + f_len f ≤ length P)%nat fs →
  bitmap_done (length P) bm =
    forallb (λ k, existsb (has_block k) fs || (S (k / 8) =? length P / 64)%nat) (seq 0 (length P / 8)).
Proof.
  intros Hb Hl Hbits Hin. set (N := length P) in *.
  assert (HN : (N / 64 < REASS_BITMAP)%nat) by (apply Nat.Div0.div_lt_upper_bound; lia).
  assert (D : (N / 64 = N / 8 / 8)%nat) by by rewrite Nat.Div0.div_div.
  assert (Hhigh : ∀ k, (N / 8 ≤ k)%nat → existsb (has_block k) fs = false).
  { intros k Hk. apply not_true_iff_false. rewrite existsb_exists. intros (f & Hf & Hc). apply list_elem_of_In in Hf.
    rewrite list.Forall_forall in Hin. specialize (Hin f Hf). unfold has_block, covers in Hc.
    apply andb_true_iff in Hc as [_ Hc%Nat.ltb_lt].
    assert (((f_off f + f_len f) / 8 ≤ N / 8)%nat) by (apply Nat.Div0.div_le_mono; lia). lia. }
  apply eq_bool_prop_intro. rewrite !Is_true_true, bitmap_done_bits, forallb_forall by (done || lia). split.
  - intros [H1 H2] k Hk%in_seq. assert ((k / 8 ≤ N / 64)%nat) by (rewrite D; apply Nat.Div0.div_le_mono; lia).
    pose proof (Nat.div_mod_eq k 8). pose proof (Nat.mod_upper_bound k 8 ltac:(lia)).
    destruct (decide (S (k / 8) = N / 64)%nat) as [->|Hne]; [by rewrite Nat.eqb_refl, orb_true_r|].
    rewrite <- Hbits by lia. destruct (decide (k / 8 = N / 64)%nat) as [He|He].
    + rewrite (H2 k He). apply orb_true_iff. left. apply Nat.ltb_lt. lia.
    + rewrite H1; [done|lia].
  - intros Ha. split; intros k Hk; pose proof (Nat.div_mod_eq k 8); pose proof (Nat.mod_upper_bound k 8 ltac:(lia));
      rewrite Hbits by lia.
    + pose proof (Nat.div_mod_eq (N / 8) 8). specialize (Ha k ltac:(apply in_seq; lia)).
      apply orb_true_iff in Ha as [Ha|Ha%Nat.eqb_eq]; [done|lia].
    + destruct (Nat.ltb_spec k (N / 8)) as [Hlt|Hge]; [|by apply Hhigh].
      specialize (Ha k ltac:(apply in_seq; lia)). apply orb_true_iff in Ha as [Ha|Ha%Nat.eqb_eq]; [done|lia].
Qed.

(** *** A fragment is taken in *)

(** What [reass_start] leaves. *)
Definition started (b : list Z) (r : reass) : reass :=
  r <| uip_reassbuf ::= put_bytes 0 (slice UIP_LLH_LEN 20 b) |> <| uip_reasstmr := UIP_REASS_MAXAGE |>
    <| uip_reassflags := 0 |> <| uip_reassbitmap := replicate REASS_BITMAP 0 |>.

(** ... and the fragment after it. *)
Definition taken (f : frag) (b : list Z) (r : reass) : reass :=
  let r := r <| uip_reassbuf ::= put_bytes (20 + f_off f) (slice (UIP_LLH_LEN + Z.to_nat (ihl b)) (f_len f) b) |>
             <| uip_reassbitmap ::= marked (f_off f) (f_len f) |> in
  if f_last f then r <| uip_reassflags ::= λ x, Z.lor x UIP_REASS_FLAG_LASTFRAG |> <| uip_reasslen := Z.of_nat (f_off f + f_len f) |>
  else r.

Lemma start_tracks f b r : vacant r → fragment f b → tracks [] (started b r).
Proof.
  intros [H1 H2 H3 H4] Hf. assert (Hs : length (slice UIP_LLH_LEN 20 b) = 20%nat).
  { apply length_slice. rewrite (fg_buf _ _ Hf). unfold UIP_LLH_LEN, UIP_BUFSIZE. lia. }
  split; cbn [started uip_reassbuf uip_reassbitmap uip_reasslen uip_reassflags uip_reasstmr set_field]; try done.
  - by rewrite length_put_bytes.
  - apply put_bytes_bytes; [|done]. apply slice_bytes, (fg_bytes _ _ Hf).
  - by apply Forall_replicate.
  - rewrite <- (fg_key _ _ Hf). apply hdr_key_eq. intros j Hj%key_bytes_bound.
    rewrite u8_put_in, Nat.sub_0_r, lookup_slice, u8_drop by (rewrite ?Hs, ?H1; unfold UIP_REASS_BUFSIZE, UIP_BUFSIZE, UIP_LLH_LEN; lia). done.
  - intros k Hk. unfold bit. rewrite lookup_total_replicate_2; [by rewrite Z.testbit_0_l|]. apply Nat.Div0.div_lt_upper_bound. lia.
Qed.

Lemma fragment_bounds f b : fragment f b →
  length (slice (UIP_LLH_LEN + Z.to_nat (ihl b)) (f_len f) b) = f_len f ∧ (20 + f_off f + f_len f ≤ UIP_REASS_BUFSIZE)%nat ∧
  ((f_off f + f_len f) / 64 < REASS_BITMAP)%nat.
Proof.
  intros Hf. pose proof (fragment_end f b Hf) as He. split; [apply length_slice, Hf|]. split.
  - unfold REASS_BITMAP, UIP_REASS_BUFSIZE in *. cbn in *. lia.
  - apply Nat.Div0.div_lt_upper_bound. lia.
Qed.

Lemma take_tracks fs f b r : tracks fs r → fragment f b → tracks (f :: fs) (taken f b r).
Proof.
  intros [T1 T2 T3 T4 T5 T6 T7 T8 T9 T10 T11] Hf. destruct (fragment_bounds f b Hf) as (Hs & Hb & Hm).
  pose proof (fragment_end f b Hf) as Hend. pose proof (fg_end _ _ Hf) as Hlast. set (l := slice _ (f_len f) b) in *.
  assert (Hl : bytes l) by (apply slice_bytes, (fg_bytes _ _ Hf)).
  assert (E : uip_reassbuf (taken f b r) = put_bytes (20 + f_off f) l (uip_reassbuf r) ∧
    uip_reassbitmap (taken f b r) = marked (f_off f) (f_len f) (uip_reassbitmap r) ∧ uip_reasstmr (taken f b r) = uip_reasstmr r).
  { unfold taken. cbv zeta. by case_match. }
  destruct E as (E1 & E2 & E3). split; rewrite ?E1, ?E2, ?E3; try done.
  - by rewrite length_put_bytes.
  - by apply put_bytes_bytes.
  - by rewrite length_marked.
  - by apply marked_bytes.
  - rewrite <- T6. apply hdr_key_eq. intros j Hj%key_bytes_bound. apply u8_put_bytes_ne. lia.
  - intros k Hk. rewrite marked_bit by lia. cbn [existsb]. rewrite T7 by done. apply orb_comm.
  - cbn [existsb]. unfold taken. cbv zeta. destruct (f_last f); cbn [uip_reassflags set_field orb]; rewrite T8; [|done]. by case_match.
  - cbn [existsb]. unfold taken. cbv zeta. destruct (f_last f); cbn [uip_reasslen set_field orb]; [by rewrite Hlast|done].
  - by constructor.
  - intros p Hp. cbn [existsb] in Hp. destruct (has_byte p f) eqn:Hh.
    + unfold has_byte in Hh. apply andb_true_iff in Hh as [H1%Nat.leb_le H2%Nat.ltb_lt].
      rewrite u8_put_in by lia. unfold l. rewrite (fg_data _ _ Hf), lookup_slice by lia. f_equal. lia.
    + unfold has_byte in Hh. apply andb_false_iff in Hh. rewrite Nat.leb_gt, Nat.ltb_ge in Hh.
      rewrite u8_put_bytes_ne by lia. by apply T11.
Qed.

(** What is left to do after the fragment was stored. *)
Lemma receive_run fs f s r :
  tracks fs r → fragment f (uip_buf s) →
  (copy_fragment (Z.of_nat (f_off f)) (Z.of_nat (f_len f)) (ihl (uip_buf s));;
   mark_bitmap (Z.of_nat (f_off f)) (Z.of_nat (f_len f));;
   (if negb (has (u8 (uip_buf s) BUF.ipoffset0) IP_MF) then
      updr (λ r, r <| uip_reassflags ::= λ f, Z.lor f UIP_REASS_FLAG_LASTFRAG |>
                   <| uip_reasslen := wrap16 (Z.of_nat (f_off f) + Z.of_nat (f_len f)) |>)
    else mret tt)) (s, r) = Ok (tt, (s, taken f (uip_buf s) r)).
Proof.
  intros [T1 T2 T3 T4 T5 T6 T7 T8 T9 T10 T11] Hf. destruct (fragment_bounds f _ Hf) as (Hs & Hb & Hm).
  unfold copy_fragment, getr, gets, mbind, M_bind, getM. cbn [fst snd]. rewrite Nat2Z.id.
  replace (Z.to_nat (UIP_IPH_LEN + Z.of_nat (f_off f))) with (20 + f_off f)%nat by (unfold UIP_IPH_LEN; lia).
  rewrite (proj2 (Nat.leb_le _ _)) by apply (fg_fits _ _ Hf). rewrite (proj2 (Nat.leb_le _ _)) by lia. cbn [andb].
  unfold updr at 1, modM at 1. cbn [fst snd]. rewrite mark_bitmap_run by (cbn [uip_reassbitmap set_field]; by rewrite T3).
  assert (He : (f_off f + f_len f ≤ UIP_REASS_BUFSIZE)%nat) by lia. unfold UIP_REASS_BUFSIZE, UIP_BUFSIZE in He.
  rewrite (fg_off0 _ _ Hf). unfold taken. cbv zeta. destruct (f_last f); [|done].
  change (negb (has 0 IP_MF)) with true. cbv iota. unfold updr, modM. cbn [fst snd].
  rewrite wrap16_id, <- Nat2Z.inj_add by (unfold is_u16; lia). done.
Qed.

(** *** The datagram is handed on *)

(** The packet that is left in the buffer. *)
Record delivered (fs : list frag) (b : list Z) : Prop := {
  dl_len : iplen b = Z.of_nat (length P);
  dl_whole : u8 b BUF.ipoffset0 = 0 ∧ u8 b BUF.ipoffset1 = 0;
  dl_sum : uip_ipchksum b = 0xffff;
  dl_key : hdr_key (skipn UIP_LLH_LEN b) = key;
  dl_data : ∀ p, (20 + p < length P)%nat → existsb (has_byte p) fs = true → u8 b (34 + p) = P !!! p
}.

(** The header fields [reass_deliver] fills in. *)
Definition filled_in (n : Z) (b : list Z) : list Z :=
  let b := put16 BUF.ipchksum 0 (put8 BUF.len1 (Z.land n 0xff) (put8 BUF.len0 (Z.shiftr n 8)
    (put8 BUF.ipoffset0 0 (put8 BUF.ipoffset1 0 b)))) in
  put16 BUF.ipchksum (Z.lnot (uip_ipchksum b)) b.

Lemma filled_in_u8 n b o :
  (o < 16 ∨ 18 ≤ o < 20 ∨ 22 ≤ o < 24 ∨ 26 ≤ o)%nat → u8 (filled_in n b) o = u8 b o.
Proof.
  intros Ho. unfold filled_in. cbv zeta.
  by rewrite !u8_put16_ne, !u8_put8_ne by (unfold BUF.ipchksum, BUF.len0, BUF.len1, BUF.ipoffset0, BUF.ipoffset1; lia).
Qed.

Lemma filled_in_fields n b :
  bytes b → length b = (UIP_BUFSIZE + 2)%nat → is_u16 n →
  let b' := filled_in n b in
  iplen b' = n ∧ u8 b' BUF.ipoffset0 = 0 ∧ u8 b' BUF.ipoffset1 = 0 ∧ uip_ipchksum b' = 0xffff.
Proof.
  intros Hb Hl Hn. cbv zeta. unfold filled_in. cbv zeta. split_and!.
  - unfold iplen. u8_simp. rewrite ?(u8_put8_eq BUF.len1), ?(u8_put8_eq BUF.len0) by (buf_len; rewrite Hl; offsets). by apply u16_split.
  - u8_simp. by rewrite u8_put8_eq by (buf_len; rewrite Hl; offsets).
  - u8_simp. by rewrite u8_put8_eq by (buf_len; rewrite Hl; offsets).
  - apply ipchksum_fill.
    + by repeat first [apply put16_bytes | apply put8_bytes].
    + buf_len. rewrite Hl. offsets.
    + rewrite u16_put16_eq; [done|buf_len; rewrite Hl; offsets].
Qed.

Lemma deliver_run fs f s r :
  tracks fs r → existsb f_last fs = true → fragment f (uip_buf s) →
  ∃ s', reass_deliver (s, r) = Ok (wrap8 (Z.of_nat (length P)), (s', r <| uip_reasstmr := 0 |>)) ∧ delivered fs (uip_buf s').
Proof.
  intros Ht Hlast Hf. pose proof (tk_len _ _ Ht Hlast) as Hn. unfold reass_deliver, getr, updr, bufw, w8, w16, bufw, upd, gets.
  unfold mbind, M_bind, getM, modM. cbn [fst snd uip_reasslen uip_reassbuf set_field]. rewrite Hn, Nat2Z.id.
  eexists. split; [reflexivity|]. cbn [uip_buf set_field]. set (b0 := put_bytes BUF.vhl _ _).
  change (delivered fs (filled_in (Z.of_nat (length P)) b0)).
  assert (HN : (length P < 384)%nat) by exact Hshort. pose proof (fg_buf _ _ Hf) as Hl. pose proof (tk_buf _ _ Ht) as Hlr.
  unfold UIP_BUFSIZE in Hl. unfold UIP_REASS_BUFSIZE, UIP_BUFSIZE, UIP_LLH_LEN in Hlr.
  assert (Hs : length (slice 0 (length P) (uip_reassbuf r)) = length P) by (apply length_slice; lia).
  destruct (filled_in_fields (Z.of_nat (length P)) b0) as (E1 & E2 & E3 & E4).
  { apply put_bytes_bytes; [apply slice_bytes, (tk_bytes _ _ Ht)|apply (fg_bytes _ _ Hf)]. }
  { unfold b0. by rewrite length_put_bytes. }
  { unfold is_u16. lia. }
  assert (Hin : ∀ p, (p < length P)%nat → u8 b0 (BUF.vhl + p) = u8 (uip_reassbuf r) p).
  { intros p Hp. unfold b0. rewrite u8_put_in by (rewrite Hs, ?Hl; unfold BUF.vhl; lia).
    rewrite lookup_slice by lia. unfold u8. f_equal. lia. }
  split; [done|done|done| |].
  - pose proof (fg_key _ _ Hf) as Hk. rewrite <- Hk. rewrite <- (tk_key _ _ Ht) in Hk. apply hdr_key_eq. intros j Hj.
    rewrite hdr_key_eq in Hk. specialize (Hk j Hj). apply key_bytes_bound in Hj.
    rewrite u8_drop, filled_in_u8 by (unfold UIP_LLH_LEN; lia). rewrite Hk.
    destruct (decide (j < length P)%nat) as [Hlt|Hge]; [by apply Hin|]. rewrite <- Hk, u8_drop.
    unfold b0. apply u8_put_bytes_ne. rewrite Hs. unfold BUF.vhl, UIP_LLH_LEN. lia.
  - intros p Hp Hhas. rewrite filled_in_u8 by lia. replace (34 + p)%nat with (BUF.vhl + (20 + p))%nat by (unfold BUF.vhl; lia).
    rewrite Hin by lia. by apply (tk_data _ _ Ht).
Qed.

Lemma deliver_vacant fs r : tracks fs r → vacant (r <| uip_reasstmr := 0 |>).
Proof. by intros []. Qed.

Lemma reass_taken fs f s r :
  tracks fs r → fragment f (uip_buf s) →
  (∃ s', uip_reass (s, r) = Ok (wrap8 (Z.of_nat (length P)), (s', (taken f (uip_buf s) r) <| uip_reasstmr := 0 |>)) ∧
         taken_complete (f :: fs) = true ∧ delivered (f :: fs) (uip_buf s')) ∨
  uip_reass (s, r) = Ok (0, (s, taken f (uip_buf s) r)) ∧ taken_complete (f :: fs) = false.
Proof.
  intros Ht Hf. pose proof (take_tracks fs f _ r Ht Hf) as Ht'. destruct (fragment_bounds f _ Hf) as (_ & Hb & _).
  destruct (frag_fields f _ Hf) as [Eo El]. pose proof (receive_run fs f s r Ht Hf) as Hrun.
  assert (E : uip_reass (s, r) = (flags ← getr uip_reassflags;
      if has flags UIP_REASS_FLAG_LASTFRAG then done ← reass_complete; if done : bool then reass_deliver else mret 0
      else mret 0) (s, taken f (uip_buf s) r)).
  { unfold uip_reass. rewrite (bind_ok _ _ _ (uip_reasstmr r) (s, r)) by done.
    rewrite (proj2 (Z.eqb_neq _ _) (tk_tmr _ _ Ht)). rewrite (bind_ok _ _ _ tt (s, r)) by done.
    rewrite (bind_ok _ _ _ (uip_buf s) (s, r)) by done. rewrite (bind_ok _ _ _ (uip_reassbuf r) (s, r)) by done.
    rewrite same_datagram_key by (by rewrite (fg_key _ _ Hf), (tk_key _ _ Ht)). rewrite Eo, El.
    rewrite (proj2 (Z.ltb_ge _ _)), (proj2 (Z.ltb_ge _ _)) by lia. cbn [orb].
    revert Hrun. unfold mbind, M_bind. destruct (copy_fragment _ _ _ _) as [[[] x1]|]; [|done].
    destruct (mark_bitmap _ _ _) as [[[] x2]|]; [|done]. by intros ->. }
  rewrite E. rewrite !(bind_ok _ _ _ (uip_reassflags (taken f (uip_buf s) r)) (s, taken f (uip_buf s) r)) by done.
  pose proof (tk_flag _ _ Ht') as Hflag. rewrite Hflag. unfold taken_complete.
  destruct (existsb f_last (f :: fs)) eqn:Hlast; [|by right].
  change (has UIP_REASS_FLAG_LASTFRAG UIP_REASS_FLAG_LASTFRAG) with true. cbv iota. unfold mbind, M_bind.
  rewrite (reass_complete_run (length P)); [|by apply Ht'|]. 2:{ rewrite (tk_map _ _ Ht'). apply Nat.Div0.div_lt_upper_bound. lia. }
  rewrite (done_blocks (f :: fs)) by apply Ht'. destruct (forallb _ _); cbn [andb]; [left|by right].
  destruct (deliver_run (f :: fs) f s _ Ht' Hlast Hf) as (s' & Hr & Hd). exists s'. split; [exact Hr|done].
Qed.

Lemma reass_first f s r : vacant r → fragment f (uip_buf s) → uip_reass (s, r) = uip_reass (s, started (uip_buf s) r).
Proof.
  intros Hv Hf. unfold uip_reass. rewrite (bind_ok _ _ _ (uip_reasstmr r) (s, r)) by done. by rewrite (vc_tmr _ Hv).
Qed.

(** *** A run *)

(** Packets, each put into [uip_buf] and given to [uip_reass]. *)
Fixpoint feed (bs : list (list Z)) : R (list Z) :=
  match bs with
  | [] => mret []
  | b :: bs => bufw (λ _, b);; n ← uip_reass; ns ← feed bs; mret (n :: ns)
  end.

Lemma feed_step b bs s r n s' r' :
  uip_reass (s <| uip_buf := b |>, r) = Ok (n, (s', r')) →
  feed (b :: bs) (s, r) = (ns ← feed bs; mret (n :: ns)) (s', r').
Proof. intros Hr. cbn [feed]. rewrite (bind_ok _ _ _ tt (s <| uip_buf := b |>, r)) by done. by rewrite (bind_ok _ _ _ _ _ Hr). Qed.

Lemma feed_tracks fs bs : Forall2 fragment fs bs → ∀ gs s r,
  tracks gs r → fs ≠ [] → (∀ k, (0 < k < length fs)%nat → taken_complete (rev (take k fs) ++ gs) = false) →
  taken_complete (rev fs ++ gs) = true →
  ∃ s' r', feed bs (s, r) = Ok (replicate (length fs - 1) 0 ++ [wrap8 (Z.of_nat (length P))], (s', r')) ∧
    vacant r' ∧ delivered (rev fs ++ gs) (uip_buf s').
Proof.
  induction 1 as [|f b fs bs Hf Hfs IH]; intros gs s r Ht Hne Hno Hyes; [done|].
  assert (Hf' : fragment f (uip_buf (s <| uip_buf := b |>))) by done.
  cbn [rev] in Hyes. rewrite <- app_assoc in Hyes. cbn [app] in Hyes.
  destruct (reass_taken gs f _ r Ht Hf') as [(s' & Hr & Hc & Hd)|[Hr Hc]].
  - destruct fs as [|f2 fs]; [|exfalso].
    + apply Forall2_nil_inv_l in Hfs as ->. exists s', ((taken f b r) <| uip_reasstmr := 0 |>). split; [by rewrite (feed_step _ _ _ _ _ _ _ Hr)|].
      split; [|done]. eapply deliver_vacant, (take_tracks gs f b r); done.
    + specialize (Hno 1%nat ltac:(cbn; lia)). cbn in Hno. congruence.
  - destruct fs as [|f2 fs]; [cbn in Hyes; congruence|].
    destruct (IH (f :: gs) (s <| uip_buf := b |>) (taken f b r)) as (s' & r' & Hrun & Hv & Hd); [by apply take_tracks|done| |done|].
    + intros k Hk. specialize (Hno (S k) ltac:(cbn in *; lia)). cbn [take rev] in Hno. by rewrite <- app_assoc in Hno.
    + exists s', r'. rewrite (feed_step _ _ _ _ _ _ _ Hr). rewrite (bind_ok _ _ _ _ _ Hrun).
      cbn [rev]. rewrite <- app_assoc. cbn [length Nat.sub] in *. rewrite Nat.sub_0_r in *. done.
Qed.

(** C32: fragments of a datagram with a payload of less than 384 bytes, in any
    order and any number of times each, are put together: [uip_reass] returns 0
    until it takes the datagram for complete, and then its length modulo 256 (a
    [u8_t]); the buffer then holds an unfragmented packet with a valid header
    checksum, the addresses and identification of the fragments, and, as far as it
    goes, the data of every fragment that came.  ([uip_reass_bounds] is about
    longer datagrams.) *)
Theorem reass_any_order fs bs s r :
  Forall2 fragment fs bs → vacant r → (∀ k, (0 < k < length fs)%nat → taken_complete (rev (take k fs)) = false) →
  taken_complete (rev fs) = true →
  ∃ s' r', feed bs (s, r) = Ok (replicate (length fs - 1) 0 ++ [wrap8 (Z.of_nat (length P))], (s', r')) ∧
    vacant r' ∧ delivered (rev fs) (uip_buf s').
Proof.
  intros Hfs Hv Hno Hyes. destruct Hfs as [|f b fs bs Hf Hfs]; [done|].
  destruct (feed_tracks (f :: fs) (b :: bs) ltac:(by constructor) [] s (started b r)) as (s' & r' & Hrun & Hv' & Hd).
  - by eapply start_tracks.
  - done.
  - intros k Hk. rewrite app_nil_r. by apply Hno.
  - by rewrite app_nil_r.
  - exists s', r'. rewrite app_nil_r in Hd. split; [|done]. rewrite <- Hrun. cbn [feed].
    rewrite !(bind_ok _ _ _ tt (s <| uip_buf := b |>, r)), !(bind_ok _ _ _ tt (s <| uip_buf := b |>, started b r)) by done.
    unfold mbind, M_bind. by rewrite (reass_first f (s <| uip_buf := b |>) r).
Qed.

(** Once all of it has come the datagram is taken for complete. *)
Lemma all_complete fs :
  existsb f_last fs = true → (∀ k, (k < length P / 8)%nat → existsb (has_block k) fs = true) → taken_complete fs = true.
Proof.
  intros Hl Hk. unfold taken_complete. rewrite Hl. apply forallb_forall. intros k Hin%in_seq. by rewrite Hk by lia.
Qed.
End datagram.

(** ** Where it overruns *)

Record wf_reass (r : reass) : Prop := {
  wr_buf : length (uip_reassbuf r) = UIP_REASS_BUFSIZE;
  wr_map : length (uip_reassbitmap r) = REASS_BITMAP;
  wr_len : has (uip_reassflags r) UIP_REASS_FLAG_LASTFRAG = true → 0 ≤ uip_reasslen r < 64 * Z.of_nat REASS_BITMAP
}.

Lemma start_wf b r : wf_reass r → wf_reass (started b r).
Proof. intros []. split; cbn; [by rewrite length_put_bytes|done|done]. Qed.

Lemma mark_bitmap_over o n s r :
  ((o + n) / 64 = length (uip_reassbitmap r))%nat → mark_bitmap (Z.of_nat o) (Z.of_nat n) (s, r) = Err OutOfBounds.
Proof.
  intros Hl. assert (Ho : (o / 64 ≤ (o + n) / 64)%nat) by (apply Nat.Div0.div_le_mono; lia).
  assert (Hfail : ∀ v r', length (uip_reassbitmap r') = length (uip_reassbitmap r) → bitmap_or (length (uip_reassbitmap r)) v (s, r') = Err OutOfBounds).
  { intros v r' Hr'. unfold bitmap_or, getr, mbind, M_bind, getM. cbn [snd]. by rewrite Hr', Nat.ltb_irrefl. }
  unfold mark_bitmap. rewrite <- Nat2Z.inj_add. change 64 with (Z.of_nat 64). rewrite !of_nat_div, !Nat2Z.id, Hl.
  rewrite Hl in Ho. set (a := (o / 64)%nat) in *. set (m := length (uip_reassbitmap r)) in *.
  destruct (Z.eqb_spec (Z.of_nat a) (Z.of_nat m)) as [He|Hne].
  - apply Nat2Z.inj in He as ->. by apply Hfail.
  - rewrite (bind_ok _ _ _ _ _ (bitmap_or_run a _ s r ltac:(fold m; lia))).
    match goal with |- (_ ≫= _) (_, ?r') = _ => rewrite (bind_ok _ _ _ _ _ (bitmap_fill_run (S a) (m - S a) s r'
      ltac:(cbn [uip_reassbitmap set_field]; unfold or_at; rewrite length_alter; fold m; lia))) end.
    apply Hfail. cbn [uip_reassbitmap set_field]. unfold or_at. by rewrite length_filled, length_alter.
Qed.

(** The fragment ends where neither the buffer, whose first 20 bytes hold the
    header, nor the bitmap has room. *)
Definition overruns (b : list Z) (r : reass) : bool :=
  same_datagram b (uip_reassbuf r) && (frag_offset b <=? 406) && (384 <=? frag_offset b + frag_len b) &&
  (frag_offset b + frag_len b <=? 406).

Lemma frag_fields_nonneg b : 0 ≤ frag_offset b ∧ 0 ≤ frag_len b.
Proof. unfold frag_offset, frag_len. split; apply wrap16_u16. Qed.

(** After [reass_start], or without it. *)
Definition joined_at (b : list Z) (r : reass) : reass := if uip_reasstmr r =? 0 then started b r else r.

Lemma uip_reass_joined s r : uip_reass (s, r) =
  (let b := uip_buf s in let r := joined_at b r in
   if same_datagram b (uip_reassbuf r) then
     if (Z.of_nat UIP_REASS_BUFSIZE <? frag_offset b) || (Z.of_nat UIP_REASS_BUFSIZE <? frag_offset b + frag_len b) then
       Ok (0, (s, r <| uip_reasstmr := 0 |>))
     else
       (copy_fragment (frag_offset b) (frag_len b) (ihl b);;
        mark_bitmap (frag_offset b) (frag_len b);;
        (if negb (has (u8 b BUF.ipoffset0) IP_MF) then
           updr (λ r, r <| uip_reassflags ::= λ f, Z.lor f UIP_REASS_FLAG_LASTFRAG |>
                        <| uip_reasslen := wrap16 (frag_offset b + frag_len b) |>)
         else mret tt);;
        flags ← getr uip_reassflags;
        if has flags UIP_REASS_FLAG_LASTFRAG then done ← reass_complete; if done : bool then reass_deliver else mret 0
        else mret 0) (s, r)
   else Ok (0, (s, r))).
Proof.
  cbv zeta. unfold uip_reass. rewrite (bind_ok _ _ _ (uip_reasstmr r) (s, r)) by done.
  rewrite (bind_ok _ _ _ tt (s, joined_at (uip_buf s) r)) by (unfold joined_at; by destruct (uip_reasstmr r =? 0)).
  set (r1 := joined_at (uip_buf s) r). rewrite (bind_ok _ _ _ (uip_buf s) (s, r1)), (bind_ok _ _ _ (uip_reassbuf r1) (s, r1)) by done.
  destruct (same_datagram _ _); [|done]. by destruct (_ || _).
Qed.

Lemma ihl_nonneg b : 0 ≤ ihl b.
Proof. unfold ihl. assert (0 ≤ Z.land (u8 b BUF.vhl) 15) by (apply Z.land_nonneg; right; lia). lia. Qed.

(** The check at the end, and what follows it. *)
Lemma finish_ok s r :
  wf_reass r →
  ∃ n s' r', (flags ← getr uip_reassflags;
     if has flags UIP_REASS_FLAG_LASTFRAG then done ← reass_complete; if done : bool then reass_deliver else mret 0
     else mret 0) (s, r) = Ok (n, (s', r')) ∧ wf_reass r' ∧ is_u8 n.
Proof.
  intros Hw. pose proof Hw as [H1 H2 H3]. rewrite (bind_ok _ _ _ (uip_reassflags r) (s, r)) by done.
  destruct (has (uip_reassflags r) UIP_REASS_FLAG_LASTFRAG) eqn:Hl; [|exists 0, s, r; split; [done|split; done]].
  destruct (H3 eq_refl) as [Hlo Hhi]. change (64 * Z.of_nat REASS_BITMAP) with 384 in Hhi.
  rewrite (bind_ok _ _ _ _ _ (reass_complete_run (Z.to_nat (uip_reasslen r)) s r ltac:(lia)
    ltac:(rewrite H2; apply Nat.Div0.div_lt_upper_bound; change (64 * REASS_BITMAP)%nat with 384%nat; lia))).
  destruct (bitmap_done _ _); [|exists 0, s, r; split; [done|split; done]].
  unfold reass_deliver, getr, updr, bufw, w8, w16, bufw, upd, gets, mbind, M_bind, getM, modM.
  cbn [fst snd uip_reasslen set_field]. eexists (wrap8 (uip_reasslen r)), _, (r <| uip_reasstmr := 0 |>). split; [reflexivity|]. split; [by split|apply wrap8_u8].
Qed.

Lemma copy_fragment_run (o n : nat) s r :
  length (uip_reassbuf r) = UIP_REASS_BUFSIZE → length (uip_buf s) = 422%nat → ihl (uip_buf s) + Z.of_nat n ≤ 408 →
  copy_fragment (Z.of_nat o) (Z.of_nat n) (ihl (uip_buf s)) (s, r) =
  if (20 + o + n <=? UIP_REASS_BUFSIZE)%nat then
    Ok (tt, (s, r <| uip_reassbuf ::= put_bytes (20 + o) (slice (UIP_LLH_LEN + Z.to_nat (ihl (uip_buf s))) n (uip_buf s)) |>))
  else Err OutOfBounds.
Proof.
  intros Hr Hb Hn. pose proof (ihl_nonneg (uip_buf s)). unfold copy_fragment, getr, gets, mbind, M_bind, getM. cbn [fst snd].
  rewrite Nat2Z.id. replace (Z.to_nat (UIP_IPH_LEN + Z.of_nat o)) with (20 + o)%nat by (unfold UIP_IPH_LEN; lia).
  rewrite (proj2 (Nat.leb_le (UIP_LLH_LEN + _ + n) _)) by (unfold UIP_LLH_LEN; lia). cbn [andb]. rewrite Hr. by case_match.
Qed.

(** C33: [uip_reass] checks that a fragment ends in [uip_reassbuf], but not that
    the header in front of it does not push it out, nor that the bitmap has a byte
    for its end: it writes beyond one of them exactly for the fragments of the
    datagram in the buffer that end between 384 and 406, and returns for all others. *)
Theorem uip_reass_bounds s r :
  wf_reass r → length (uip_buf s) = 422%nat → ihl (uip_buf s) + frag_len (uip_buf s) ≤ 408 →
  if overruns (uip_buf s) (joined_at (uip_buf s) r) then uip_reass (s, r) = Err OutOfBounds
  else ∃ n s' r', uip_reass (s, r) = Ok (n, (s', r')) ∧ wf_reass r' ∧ is_u8 n.
Proof.
  intros Hw Hb Hfit. assert (Hw1 : wf_reass (joined_at (uip_buf s) r)) by (unfold joined_at; case_match; [by apply start_wf|done]).
  rewrite uip_reass_joined. cbv zeta. set (b := uip_buf s) in *. set (r1 := joined_at b r) in *. clearbody r1. clear Hw.
  destruct (frag_fields_nonneg b) as [Ho Hn]. unfold overruns. set (o := frag_offset b) in *. set (n := frag_len b) in *. clearbody o n.
  change (Z.of_nat UIP_REASS_BUFSIZE) with 406.
  destruct (same_datagram b (uip_reassbuf r1)); cbn [andb]; [|exists 0, s, r1; split; [done|split; done]].
  destruct (Z.ltb_spec 406 o), (Z.ltb_spec 406 (o + n)), (Z.leb_spec o 406), (Z.leb_spec (o + n) 406); try lia; cbn [orb andb];
    rewrite ?andb_false_r; try (exists 0, s, (r1 <| uip_reasstmr := 0 |>); split; [done|split; [by destruct Hw1|done]]).
  rewrite andb_true_r. destruct Hw1 as [W1 W2 W3].
  rewrite <- (Z2Nat.id o), <- (Z2Nat.id n) by done. rewrite <- (Z2Nat.id n Hn) in Hfit.
  set (o' := Z.to_nat o) in *. set (n' := Z.to_nat n) in *. pose proof (copy_fragment_run o' n' s r1 W1 Hb Hfit) as Hcopy.
  destruct (Z.leb_spec 384 (Z.of_nat o' + Z.of_nat n')) as [Hover|Hunder].
  - destruct (20 + o' + n' <=? UIP_REASS_BUFSIZE)%nat; unfold mbind, M_bind; unfold b; rewrite Hcopy; [|done].
    rewrite mark_bitmap_over; [done|]. cbn [uip_reassbitmap set_field]. rewrite W2.
    symmetry. apply (Nat.div_unique _ _ _ (o' + n' - 384)); unfold REASS_BITMAP, UIP_REASS_BUFSIZE, UIP_BUFSIZE, UIP_LLH_LEN; cbn; lia.
  - rewrite (proj2 (Nat.leb_le _ _)) in Hcopy by (unfold UIP_REASS_BUFSIZE, UIP_BUFSIZE, UIP_LLH_LEN; lia).
    unfold b. rewrite (bind_ok _ _ _ _ _ Hcopy).
    match goal with |- ∃ _ _ _, ((_ ≫= _) (_, ?r')) = _ ∧ _ => rewrite (bind_ok _ _ _ _ _ (mark_bitmap_run o' n' s r'
      ltac:(cbn [uip_reassbitmap set_field]; rewrite W2; apply Nat.Div0.div_lt_upper_bound; change (64 * REASS_BITMAP)%nat with 384%nat; lia))) end.
    assert (Hw : ∀ g, wf_reass (r1 <| uip_reassbuf ::= put_bytes (20 + o') (slice (UIP_LLH_LEN + Z.to_nat (ihl (uip_buf s))) n' (uip_buf s)) |>
      <| uip_reassbitmap ::= marked o' n' |> <| uip_reassflags ::= g |> <| uip_reasslen := wrap16 (Z.of_nat o' + Z.of_nat n') |>)).
    { split; [by cbn; rewrite length_put_bytes|by cbn [uip_reassbitmap set_field]; rewrite length_marked|]. intros _.
      cbn [uip_reasslen set_field]. rewrite wrap16_id by (unfold is_u16; lia). change (64 * Z.of_nat REASS_BITMAP) with 384. lia. }
    destruct (negb _); match goal with |- ∃ _ _ _, ((?m ≫= _) (_, ?r')) = _ ∧ _ => erewrite (bind_ok m) by reflexivity end.
    + apply finish_ok, Hw.
    + apply finish_ok. split; [by cbn; rewrite length_put_bytes|by cbn [uip_reassbitmap set_field]; rewrite length_marked|done].
Qed.

(** ** Examples *)

(** The frame of a fragment of the datagram 7 from 10.0.2.2 to 10.0.2.15. *)
Definition demo_header (n off0 off1 : Z) : list Z :=
  [0x45; 0; n / 256; n mod 256; 0; 7; off0; off1; 64; 17; 0; 0; 10; 0; 2; 2; 10; 0; 2; 15].
Definition demo_frame (f : frag) (P : list Z) : list Z :=
  put_bytes UIP_LLH_LEN (demo_header (20 + Z.of_nat (f_len f)) (if f_last f then 0 else IP_MF) (Z.of_nat (f_off f / 8)) ++
    slice (f_off f) (f_len f) P) (replicate 422 0).
Definition demo_payload (n : nat) : list Z := (λ k, Z.of_nat k mod 251 + 1) <$> seq 0 n.
Definition demo_key : list Z := [0; 7; 10; 0; 2; 2; 10; 0; 2; 15].

Lemma demo_fragment f P : 
  bool_decide (length (demo_frame f P) = (UIP_BUFSIZE + 2)%nat ∧ Forall is_u8 (demo_frame f P) ∧ (f_off f mod 8 = 0)%nat ∧
    (if f_last f then (f_off f + f_len f =? length P)%nat else (f_off f + f_len f <=? length P)%nat) = true ∧
    iplen (demo_frame f P) = ihl (demo_frame f P) + Z.of_nat (f_len f) ∧
    (UIP_LLH_LEN + Z.to_nat (ihl (demo_frame f P)) + f_len f <=? length (demo_frame f P))%nat = true ∧
    u8 (demo_frame f P) BUF.ipoffset0 = (if f_last f then 0 else IP_MF) ∧
    u8 (demo_frame f P) BUF.ipoffset1 = Z.of_nat (f_off f / 8) ∧ hdr_key (skipn UIP_LLH_LEN (demo_frame f P)) = demo_key ∧
    slice (UIP_LLH_LEN + Z.to_nat (ihl (demo_frame f P))) (f_len f) (demo_frame f P) = slice (f_off f) (f_len f) P) = true →
  fragment P demo_key f (demo_frame f P).
Proof.
  rewrite bool_decide_eq_true. intros (H1 & H2 & H3 & H4 & H5 & H6%Nat.leb_le & H7 & H8 & H9 & H10). split; try done.
  destruct (f_last f); [by apply Nat.eqb_eq|by apply Nat.leb_le].
Qed.

(** The last fragment comes first. *)
Definition demo_frags : list frag := [mk_frag 128 72 true; mk_frag 0 128 false].

Lemma reass_any_order_witness :
  ∃ s' r', feed ((λ f, demo_frame f (demo_payload 200)) <$> demo_frags) (uip0, reass0) = Ok ([0; 200], (s', r')) ∧
    vacant r' ∧ delivered (demo_payload 200) demo_key (rev demo_frags) (uip_buf s').
Proof.
  apply (reass_any_order (demo_payload 200) demo_key ltac:(by apply Nat.ltb_lt) demo_frags
           ((λ f, demo_frame f (demo_payload 200)) <$> demo_frags) uip0 reass0).
  - do 2 (constructor; [apply demo_fragment; vm_compute; reflexivity|]). constructor.
  - split; try done. by apply Forall_replicate.
  - intros k Hk. assert (k = 1%nat) as -> by (cbn in Hk; lia). by vm_compute.
  - by vm_compute.
Defined.

(** 390 bytes fit neither after the header nor into the bitmap. *)
Lemma uip_reass_bounds_witness :
  uip_reass (uip0 <| uip_buf := demo_frame (mk_frag 360 30 true) (demo_payload 390) |>, reass0) = Err OutOfBounds.
Proof.
  pose proof (uip_reass_bounds (uip0 <| uip_buf := demo_frame (mk_frag 360 30 true) (demo_payload 390) |>) reass0) as H.
  apply H; [by split|reflexivity|vm_compute; discriminate].
Defined.

(** A datagram of 100 bytes whose first 64 never came is taken for complete: what
    is handed on in their place was in the reassembly buffer before. *)
Lemma reass_hole :
  let f := mk_frag 64 36 true in
  match uip_reass (uip0 <| uip_buf := demo_frame f (demo_payload 100) |>, reass0) with
  | Ok (n, (s, r)) => n = 100 ∧ slice 34 64 (uip_buf s) = replicate 64 0
  | Err _ => False
  end.
Proof. by vm_compute. Qed.

(** [uip_reasslen] leaves the header out, but it is the number of bytes copied and
    the new length of the packet: the last 20 bytes of the datagram are lost. *)
Lemma reass_truncates :
  match feed ((λ f, demo_frame f (demo_payload 200)) <$> [mk_frag 128 72 true; mk_frag 0 128 false]) (uip0, reass0) with
  | Ok (ns, (s, r)) => ns = [0; 200] ∧ iplen (uip_buf s) = 200 ∧ slice 34 180 (uip_buf s) = take 180 (demo_payload 200) ∧
                       slice 214 20 (uip_buf s) = replicate 20 0
  | Err _ => False
  end.
Proof. by vm_compute. Qed.

(** The length is returned as a [u8_t]: a datagram of 256 bytes is put together
    and then dropped, and of one of 300 bytes [uip_len] becomes 44. *)
Lemma reass_narrow :
  match feed ((λ f, demo_frame f (demo_payload 256)) <$> [mk_frag 0 128 false; mk_frag 128 128 true]) (uip0, reass0),
        feed ((λ f, demo_frame f (demo_payload 300)) <$> [mk_frag 0 128 false; mk_frag 128 172 true]) (uip0, reass0) with
  | Ok (ns, (s, _)), Ok (ns', (s', _)) => ns = [0; 0] ∧ iplen (uip_buf s) = 256 ∧ ns' = [0; 44] ∧ iplen (uip_buf s') = 300
  | _, _ => False
  end.
Proof. by vm_compute. Qed.
