(* ===== verification/Udp.v ===== *)
(** * UDP (uip.c, uip.h)

    The code that [UIP_UDP] compiles in; this configuration sets it to 0.  Here it
    is around the model of the stack in Uip, which it uses from the header checks
    ([ip_header]) to the end ([ip_send_nolen]), over the globals of uip.c and its
    own, for both values of [UIP_BROADCAST]. *)

From S2P Require Import Prelude Bytes Checksum UipState Uip.

Definition UIP_UDP_CONNS : nat := 10.
Definition UIP_PROTO_UDP : Z := 17.
Definition UIP_UDPH_LEN : Z := 8.
Definition UIP_IPUDPH_LEN : Z := UIP_UDPH_LEN + UIP_IPH_LEN.
Definition UIP_UDP_SEND_CONN : Z := 4.
Definition UIP_UDP_TIMER : Z := 5.
Definition all_ones_addr : uip_ipaddr_t := (0xffff, 0xffff).

(** The UDP fields of [struct uip_udpip_hdr] at [uip_buf + UIP_LLH_LEN]. *)
Module UDPBUF.
Definition srcport : nat := 34.
Definition destport : nat := 36.
Definition udplen : nat := 38.
Definition udpchksum : nat := 40.
Definition data : nat := 42.
End UDPBUF.

(** [struct uip_udp_conn]; the application's state in it is the application's. *)
Record udp_conn := mk_udp_conn { u_ripaddr : uip_ipaddr_t; u_lport : Z; u_rport : Z; u_ttl : Z }.
#[export] Instance udp_conn_settable : Settable udp_conn := settable! mk_udp_conn <u_ripaddr; u_lport; u_rport; u_ttl>.
Definition udp_conn0 : udp_conn := mk_udp_conn (0, 0) 0 0 0.
#[export] Instance udp_conn_inhabited : Inhabited udp_conn := populate udp_conn0.

(** The globals, with the counters of [uip_stat.udp] the code updates.
    [uip_udp_conn] is null, an index, or the end of the array. *)
Record udp := mk_udp {
  uip_udp_conns : list udp_conn;
  uip_udp_conn : option nat;
  udp_drop : Z;
  udp_chkerr : Z
}.
#[export] Instance udp_settable : Settable udp := settable! mk_udp <uip_udp_conns; uip_udp_conn; udp_drop; udp_chkerr>.
Definition udp0 : udp := mk_udp (replicate UIP_UDP_CONNS udp_conn0) None 0 0.

(** [uip_init]'s part. *)
Definition udp_init (u : udp) : udp := u <| uip_udp_conns ::= fmap (λ c, c <| u_lport := 0 |>) |>.

Definition uip_udpchksum (b : list Z) : res Z := upper_layer_chksum UIP_PROTO_UDP b.

(** ** Connections *)

Definition udp_port_in_use (p : Z) (cs : list udp_conn) : bool := existsb (λ c, u_lport c =? HTONS p) cs.

Fixpoint find_udp (i : nat) (cs : list udp_conn) : option nat :=
  match cs with
  | [] => None
  | c :: cs => if u_lport c =? 0 then Some i else find_udp (S i) cs
  end.

(** [lastport] is the one of [uip_connect]; [ripaddr] may be null. *)
Definition uip_udp_new (ripaddr : option uip_ipaddr_t) (rp : Z) (su : uip * udp) : res (option nat * (uip * udp)) :=
  let (s, u) := su in
  match pick_lastport (S UIP_UDP_CONNS) (lastport s) (λ p, udp_port_in_use p (uip_udp_conns u)) with
  | Err e => Err e
  | Ok p =>
      let s := s <| lastport := p |> in
      match find_udp 0 (uip_udp_conns u) with
      | None => Ok (None, (s, u))
      | Some i =>
          let f (c : udp_conn) :=
            c <| u_lport := HTONS p |>
              <| u_rport := rp |>
              <| u_ripaddr := match ripaddr with None => (0, 0) | Some a => a end |>
              <| u_ttl := UIP_TTL |> in
          Ok (Some i, (s, u <| uip_udp_conns ::= alter f i |>))
      end
  end.

Definition uip_udp_remove (i : nat) (u : udp) : udp := u <| uip_udp_conns ::= alter (λ c, c <| u_lport := 0 |>) i |>.
Definition uip_udp_bind (i : nat) (port : Z) (u : udp) : udp := u <| uip_udp_conns ::= alter (λ c, c <| u_lport := port |>) i |>.

(** ** [uip_process] with UDP *)

(** The function behind [UIP_UDP_APPCALL]. *)
Class UdpApp (A : Type) := UIP_UDP_APPCALL : M (uip * (udp * A)) unit.

Section process.
Context {A : Type} `{UipApp (udp * A)} `{UdpApp A}.
Variable UIP_BROADCAST : bool.

Definition W : Type → Type := U (A := udp * A).
Definition getu {X} (f : udp → X) : W X := getM (λ x, f x.2.1).
Definition updu (f : udp → udp) : W unit := modM (λ x, (x.1, (f x.2.1, x.2.2))).

(** [*uip_udp_conn] *)
Definition udp_connr : W udp_conn :=
  p ← getu uip_udp_conn;
  cs ← getu uip_udp_conns;
  match p with
  | None => fail NullDeref
  | Some i => match cs !! i with Some c => mret c | None => fail OutOfBounds end
  end.

Definition udp_send : W unit :=
  slen ← gets uip_slen;
  if slen =? 0 then drop
  else
    set_len (slen + UIP_IPUDPH_LEN);;
    n ← gets uip_len;
    w8 BUF.len0 (Z.shiftr n 8);;
    w8 BUF.len1 (Z.land n 0xff);;
    c ← udp_connr;
    w8 BUF.ttl (u_ttl c);;
    w8 BUF.proto UIP_PROTO_UDP;;
    w16 UDPBUF.udplen (HTONS (slen + UIP_UDPH_LEN));;
    w16 UDPBUF.udpchksum 0;;
    w16 BUF.srcport (u_lport c);;
    w16 BUF.destport (u_rport c);;
    host ← gets uip_hostaddr;
    wip BUF.srcipaddr host;;
    wip BUF.destipaddr (u_ripaddr c);;
    upd (λ s, s <| uip_appdata := 54%nat |>);;
    sum ← liftr (λ s, uip_udpchksum (uip_buf s));
    w16 UDPBUF.udpchksum (Z.lnot sum);;
    ck ← r16 UDPBUF.udpchksum;
    (if ck =? 0 then w16 UDPBUF.udpchksum 0xffff else mret tt);;
    ip_send_nolen.

(** Does a datagram belong to the connection? *)
Definition udp_matches (dport sport : Z) (src : uip_ipaddr_t) (c : udp_conn) : bool :=
  negb (u_lport c =? 0) &&
  (dport =? u_lport c) &&
  ((u_rport c =? 0) || (sport =? u_rport c)) &&
  (uip_ipaddr_cmp (u_ripaddr c) all_zeroes_addr ||
   uip_ipaddr_cmp (u_ripaddr c) all_ones_addr ||
   uip_ipaddr_cmp src (u_ripaddr c)).

(** Where the loop stops: at the connection, or at the end. *)
Fixpoint udp_demux (dport sport : Z) (src : uip_ipaddr_t) (i : nat) (cs : list udp_conn) : nat :=
  match cs with
  | [] => i
  | c :: cs => if udp_matches dport sport src c then i else udp_demux dport sport src (S i) cs
  end.

Definition udp_found : W unit :=
  upd (λ s, s <| uip_conn := None |>);;
  set_flags UIP_NEWDATA;;
  upd (λ s, s <| uip_appdata := 42%nat |> <| uip_sappdata := 42%nat |>);;
  set_slen 0;;
  UIP_UDP_APPCALL;;
  udp_send.

(** A checksum field of zero means that there is none. *)
Definition udp_bad_sum : W bool :=
  ck ← r16 UDPBUF.udpchksum;
  if negb (ck =? 0) then
    sum ← liftr (λ s, uip_udpchksum (uip_buf s));
    mret (negb (sum =? 0xffff))
  else mret false.

Definition udp_input : W unit :=
  n ← gets uip_len;
  set_len (n - UIP_IPUDPH_LEN);;
  upd (λ s, s <| uip_appdata := 42%nat |>);;
  bad ← udp_bad_sum;
  if bad : bool then
    updu (λ u, u <| udp_drop ::= λ x, wrap16 (x + 1) |>);;
    updu (λ u, u <| udp_chkerr ::= λ x, wrap16 (x + 1) |>);;
    drop
  else
    dport ← r16 UDPBUF.destport;
    sport ← r16 UDPBUF.srcport;
    src ← rip BUF.srcipaddr;
    cs ← getu uip_udp_conns;
    let i := udp_demux dport sport src 0 cs in
    updu (λ u, u <| uip_udp_conn := Some i |>);;
    if (i <? length cs)%nat then udp_found else drop.

(** [ip_demux] with UDP. *)
Definition ip_demux_udp : W unit :=
  sum ← gets (λ s, uip_ipchksum (uip_buf s));
  if negb (sum =? 0xffff) then
    UIP_STAT ip_drop;;
    UIP_STAT ip_chkerr;;
    drop
  else
    proto ← r8 BUF.proto;
    if proto =? UIP_PROTO_TCP then tcp_input
    else if proto =? UIP_PROTO_UDP then udp_input
    else if negb (proto =? UIP_PROTO_ICMP) then
      UIP_STAT ip_drop;;
      UIP_STAT ip_protoerr;;
      drop
    else icmp_input.

(** [ip_dest] with UDP: broadcasts are taken without a look at their header's
    checksum. *)
Definition ip_dest_udp : W unit :=
  host ← gets uip_hostaddr;
  dst ← rip BUF.destipaddr;
  proto ← r8 BUF.proto;
  if uip_ipaddr_cmp host all_zeroes_addr then ip_demux_udp
  else if UIP_BROADCAST && (proto =? UIP_PROTO_UDP) && uip_ipaddr_cmp dst all_ones_addr then udp_input
  else if negb (uip_ipaddr_cmp dst host) then
    UIP_STAT ip_drop;;
    drop
  else ip_demux_udp.

(** [UIP_UDP_TIMER] *)
Definition udp_timer : W unit :=
  c ← udp_connr;
  if negb (u_lport c =? 0) then
    upd (λ s, s <| uip_conn := None |>);;
    upd (λ s, s <| uip_appdata := 42%nat |> <| uip_sappdata := 42%nat |>);;
    set_slen 0;;
    set_len 0;;
    set_flags UIP_POLL;;
    UIP_UDP_APPCALL;;
    udp_send
  else drop.

Definition uip_process_udp (flag : Z) : W unit :=
  if flag =? UIP_UDP_SEND_CONN then udp_send
  else
    upd (λ s, s <| uip_appdata := 54%nat |> <| uip_sappdata := 54%nat |>);;
    if flag =? UIP_POLL_REQUEST then
      i ← deref_conn;
      poll_request i
    else if flag =? UIP_TIMER then
      i ← deref_conn;
      timer_fired i
    else if flag =? UIP_UDP_TIMER then udp_timer
    else ip_header ip_dest_udp.

Definition uip_udp_periodic (i : nat) : W unit :=
  updu (λ u, u <| uip_udp_conn := Some i |>);; uip_process_udp UIP_UDP_TIMER.
End process.

(** [uip_send] of [len] bytes at [uip_appdata]; [uip_send] copies nothing from a
    place to itself. *)
Definition uip_udp_send {A} (n : Z) : U (A := A) unit :=
  p ← gets uip_appdata;
  q ← gets uip_sappdata;
  b ← gets uip_buf;
  if (p =? q)%nat then if 0 <? n then set_slen n else mret tt
  else uip_send (skipn p b) n.
