(* ===== verification/UdpThms.v ===== *)
(** * What UDP does

    The choice of a port and a connection, a datagram from one host to another,
    and that the rest of the stack is not affected by it. *)

From S2P Require Import Prelude Bytes Checksum UipState Uip PacketSum UipInv Ports TcpSeg Udp.

Record wf_udp_conn (c : udp_conn) : Prop := {
  wfu_ripaddr : wf_ip (u_ripaddr c);
  wfu_lport : is_u16 (u_lport c);
  wfu_rport : is_u16 (u_rport c)
}.

(** ** A new connection *)

Lemma udp_port_in_use_ports cs q : udp_port_in_use q cs = true → HTONS q ∈ u_lport <$> cs.
Proof.
  unfold udp_port_in_use. rewrite existsb_exists. intros (c & Hc & Hl%Z.eqb_eq). apply list_elem_of_fmap.
  exists c. split; [done|]. by apply list_elem_of_In.
Qed.
Lemma udp_port_free cs q c : udp_port_in_use q cs = false → c ∈ cs → u_lport c ≠ HTONS q.
Proof.
  intros Hf Hc He. assert (udp_port_in_use q cs = true); [|congruence]. apply existsb_exists. exists c.
  split; [by apply list_elem_of_In|by apply Z.eqb_eq].
Qed.

(** The first unused connection. *)
Lemma find_udp_spec k cs :
  match find_udp k cs with
  | None => Forall (λ c, u_lport c ≠ 0) cs
  | Some i => ∃ n c, i = (k + n)%nat ∧ cs !! n = Some c ∧ u_lport c = 0 ∧ Forall (λ c, u_lport c ≠ 0) (take n cs)
  end.
Proof.
  revert k. induction cs as [|c cs IH]; intros k; cbn; [done|]. destruct (Z.eqb_spec (u_lport c) 0) as [Hz|Hz].
  - exists 0%nat, c. by rewrite Nat.add_0_r.
  - specialize (IH (S k)). destruct (find_udp (S k) cs) as [i|]; [|by constructor].
    destruct IH as (n & c' & -> & Hn & Hc & Hf). exists (S n), c'. split; [lia|]. cbn. auto.
Qed.

(** [uip_udp_new] returns; the connection it takes is the first unused one and
    gets a local port that no other connection has, the remote end asked for and
    the default time to live, the others staying as they are; it fails only when
    all are in use. *)
Theorem uip_udp_new_correct rip rp s u :
  is_u16 (lastport s) → length (uip_udp_conns u) = UIP_UDP_CONNS →
  ∃ r s' u', uip_udp_new rip rp (s, u) = Ok (r, (s', u')) ∧
    s' = s <| lastport := lastport s' |> ∧ 0 ≤ lastport s' < 32000 ∧
    match r with
    | None => Forall (λ c, u_lport c ≠ 0) (uip_udp_conns u) ∧ u' = u
    | Some i => ∃ c c', uip_udp_conns u !! i = Some c ∧ u_lport c = 0 ∧
        Forall (λ c, u_lport c ≠ 0) (take i (uip_udp_conns u)) ∧
        u' = u <| uip_udp_conns ::= <[i := c']> |> ∧ u_lport c' = HTONS (lastport s') ∧
        Forall (λ c, u_lport c ≠ u_lport c') (uip_udp_conns u) ∧
        u_rport c' = rp ∧ u_ripaddr c' = default all_zeroes_addr rip ∧ u_ttl c' = UIP_TTL
    end.
Proof.
  intros Hp Hl. unfold uip_udp_new.
  destruct (pick_lastport_ok _ _ (udp_port_in_use_ports (uip_udp_conns u)) (lastport s) (S UIP_UDP_CONNS)) as (p & -> & Hfree & Hb);
    [done|rewrite length_fmap, Hl; lia|unfold UIP_UDP_CONNS; lia|].
  pose proof (find_udp_spec 0 (uip_udp_conns u)) as Hf. destruct (find_udp 0 (uip_udp_conns u)) as [i|].
  - destruct Hf as (n & c & -> & Hn & Hz & Hbefore). rewrite Nat.add_0_l. eexists _, _, _. split; [reflexivity|].
    split; [done|]. split; [done|]. exists c, (mk_udp_conn (default all_zeroes_addr rip) (HTONS p) rp UIP_TTL).
    split; [done|]. split; [done|]. split; [done|]. split.
    { refine (f_equal (λ l, mk_udp l (uip_udp_conn u) (udp_drop u) (udp_chkerr u))
        (x := alter _ n (uip_udp_conns u)) (y := <[n := _]> (uip_udp_conns u)) _).
      rewrite list_insert_alter. apply list_alter_ext; [|done]. intros x Hx. simplify_eq. by destruct rip. }
    cbn [u_lport u_rport u_ripaddr u_ttl lastport set_field]. split; [done|]. split; [|done].
    apply list.Forall_forall. intros x Hx. by eapply udp_port_free.
  - eexists _, _, _. split; [reflexivity|]. done.
Qed.

(** ** A datagram *)

(** The packet in the buffer is a datagram with this payload. *)
Record datagram (src dst : uip_ipaddr_t) (sport dport : Z) (data b : list Z) : Prop := {
  dg_vhl : u8 b BUF.vhl = 0x45;
  dg_len : iplen b = 28 + Z.of_nat (length data);
  dg_whole : u8 b BUF.ipoffset0 = 0 ∧ u8 b BUF.ipoffset1 = 0;
  dg_proto : u8 b BUF.proto = UIP_PROTO_UDP;
  dg_src : get_ip b BUF.srcipaddr = src;
  dg_dst : get_ip b BUF.destipaddr = dst;
  dg_sport : u16 b BUF.srcport = sport;
  dg_dport : u16 b BUF.destport = dport;
  dg_ulen : be16 b UDPBUF.udplen = 8 + Z.of_nat (length data);
  dg_data : slice UDPBUF.data (length data) b = data;
  dg_ipsum : uip_ipchksum b = 0xffff;
  dg_set : u16 b UDPBUF.udpchksum ≠ 0;
  dg_sum : uip_udpchksum b = Ok 0xffff
}.

(** What [udp_send] does to the buffer: the fields it fills, ... *)
Definition udp_head (host : uip_ipaddr_t) (c : udp_conn) (n : Z) (b : list Z) : list Z :=
  let b := put8 BUF.len1 (Z.land (n + 28) 0xff) (put8 BUF.len0 (Z.shiftr (n + 28) 8) b) in
  let b := put8 BUF.proto UIP_PROTO_UDP (put8 BUF.ttl (u_ttl c) b) in
  let b := put16 UDPBUF.udpchksum 0 (put16 UDPBUF.udplen (HTONS (n + UIP_UDPH_LEN)) b) in
  let b := put16 BUF.destport (u_rport c) (put16 BUF.srcport (u_lport c) b) in
  put_ip BUF.destipaddr (u_ripaddr c) (put_ip BUF.srcipaddr host b).

(** ... the checksum ([v] is not zero), ... *)
Definition udp_sum_of (sum : Z) : Z := if wrap16 (Z.lnot sum) =? 0 then 0xffff else Z.lnot sum.

(** ... and the IP header of the packet [id]. *)
Definition ip_head (id : Z) (b : list Z) : list Z :=
  let b := put8 BUF.ipoffset0 0 (put8 BUF.ipoffset1 0 (put8 BUF.tos 0 (put8 BUF.vhl 0x45 b))) in
  let b := put16 BUF.ipchksum 0 (put8 BUF.ipid1 (Z.land id 0xff) (put8 BUF.ipid0 (Z.shiftr id 8) b)) in
  put16 BUF.ipchksum (Z.lnot (uip_ipchksum b)) b.

Lemma put16_twice o v w b : put16 o v (put16 o w b) = put16 o v b.
Proof.
  unfold put16, put8. rewrite (list_insert_insert_ne _ o (S o)) by lia. by rewrite !list_insert_insert_eq.
Qed.

Lemma ip_head_u8 id b o : (22 ≤ o < 24 ∨ 16 ≤ o < 18 ∨ 26 ≤ o)%nat → u8 (ip_head id b) o = u8 b o.
Proof.
  intros Ho. unfold ip_head. cbv zeta.
  by rewrite !u8_put16_ne, !u8_put8_ne by (unfold BUF.ipchksum, BUF.ipid0, BUF.ipid1, BUF.ipoffset0, BUF.ipoffset1, BUF.tos, BUF.vhl; lia).
Qed.
Lemma ip_head_slice id b o n : (26 ≤ o)%nat → slice o n (ip_head id b) = slice o n b.
Proof.
  intros Ho. unfold ip_head. cbv zeta.
  by rewrite !slice_put16_ne, !slice_put8_ne by (unfold BUF.ipchksum, BUF.ipid0, BUF.ipid1, BUF.ipoffset0, BUF.ipoffset1, BUF.tos, BUF.vhl; lia).
Qed.
Lemma length_ip_head id b : length (ip_head id b) = length b.
Proof. unfold ip_head. cbv zeta. by buf_len. Qed.
Lemma ip_head_bytes id b : bytes b → bytes (ip_head id b).
Proof. intros. unfold ip_head. cbv zeta. auto 10 with width. Qed.

Lemma ip_head_fields id b :
  length b = 422%nat → bytes b →
  u8 (ip_head id b) BUF.vhl = 0x45 ∧ u8 (ip_head id b) BUF.ipoffset0 = 0 ∧ u8 (ip_head id b) BUF.ipoffset1 = 0 ∧
  uip_ipchksum (ip_head id b) = 0xffff.
Proof.
  intros Hl Hb. unfold ip_head. cbv zeta. split_and!; u8_simp; try (rewrite u8_put8_eq; [done|buf_len; rewrite Hl; offsets]).
  apply ipchksum_fill; [auto 10 with width|buf_len; rewrite Hl; offsets|].
  rewrite u16_put16_eq; [done|buf_len; rewrite Hl; offsets].
Qed.

Lemma ip_head_upper proto id b : upper_layer_chksum proto (ip_head id b) = upper_layer_chksum proto b.
Proof. unfold ip_head. cbv zeta. by rewrite !upper_chksum_put16, !upper_chksum_put8 by (unfold tcp_blind; offsets). Qed.

(** ** Sending *)

Section send.
Context {A : Type}.

Lemma wp_udp_connr E i c (Q : udp_conn → uip * (udp * A) → Prop) s u a :
  uip_udp_conn u = Some i → uip_udp_conns u !! i = Some c → Q c (s, (u, a)) → wp E udp_connr Q (s, (u, a)).
Proof.
  intros Hi Hc HQ. unfold udp_connr, getu. do 2 (apply wp_bind, wp_get). cbn [fst snd]. by rewrite Hi, Hc.
Qed.

Lemma udp_send_wp s u (a : A) i c sum :
  length (uip_buf s) = 422%nat → uip_slen s ≠ 0 → is_u16 (uip_slen s + 28) → uip_udp_conn u = Some i → uip_udp_conns u !! i = Some c →
  uip_udpchksum (udp_head (uip_hostaddr s) c (uip_slen s) (uip_buf s)) = Ok sum →
  wp nofault udp_send (λ _ x, x.2 = (u, a) ∧ uip_len x.1 = uip_slen s + 28 ∧ uip_conns x.1 = uip_conns s ∧
    uip_buf x.1 = ip_head (ipid x.1)
      (put16 UDPBUF.udpchksum (udp_sum_of sum) (udp_head (uip_hostaddr s) c (uip_slen s) (uip_buf s)))) (s, (u, a)).
Proof.
  intros Hb Hz Hn Hi Hc Hsum. unfold udp_send. do 3 ustep; [by match goal with H : (_ =? _) = true |- _ => apply Z.eqb_eq in H end|].
  do 9 ustep. apply (wp_udp_connr _ i c); [done..|]. do 21 ustep.
  apply wp_liftr; cbn [uip_buf uip_len uip_slen uip_hostaddr set_field].
  2:{ intros e He. rewrite wrap16_id in He by done. change (uip_udpchksum (udp_head (uip_hostaddr s) c (uip_slen s) (uip_buf s)) = Err e) in He. congruence. }
  intros sum' Hs. rewrite wrap16_id in Hs by done.
  change (uip_udpchksum (udp_head (uip_hostaddr s) c (uip_slen s) (uip_buf s)) = Ok sum') in Hs.
  assert (sum' = sum) as -> by congruence. rewrite wrap16_id by done.
  set (b := udp_head _ _ _ _) in *.
  assert (Hlb : length b = 422%nat) by (unfold b, udp_head; cbv zeta; by buf_len).
  match goal with |- wp _ _ _ (?s', _) => assert (Hs1 : uip_buf s' = b ∧ uip_len s' = uip_slen s + 28 ∧ uip_conns s' = uip_conns s) by done;
    generalize dependent s' end.
  intros s1 (E1 & E2 & E3). do 4 ustep. cbn [fst uip_buf set_field]. rewrite E1, u16_put16_eq by (rewrite Hlb; offsets).
  ustep. eapply (wp_mono _ _ (λ _ x, x.2 = (u, a) ∧ uip_len x.1 = uip_slen s + 28 ∧ uip_conns x.1 = uip_conns s ∧
    uip_buf x.1 = put16 UDPBUF.udpchksum (udp_sum_of sum) b)).
  - intros [] [s2 u2] (F0 & F1 & F2 & F3). cbn [fst snd] in *. subst u2. unfold ip_send_nolen, send. repeat ustep. by rewrite <- F3.
  - unfold udp_sum_of. ustep; ustep; cbn [fst snd uip_buf uip_len uip_conns set_field]; rewrite E1, ?put16_twice;
      by match goal with H : (wrap16 _ =? 0) = _ |- _ => rewrite H end.
Qed.

Lemma be16_put16 o v b : (S o < length b)%nat → bytes b → is_u16 v → be16 (put16 o (HTONS v) b) o = v.
Proof.
  intros Ho Hb Hv. pose proof (u16_be16 (put16 o (HTONS v) b) o (put16_bytes _ _ _ Hb)) as He.
  rewrite u16_put16_eq, wrap16_id in He by (done || apply HTONS_u16). symmetry. apply HTONS_inj; [done| |done].
  unfold be16. pose proof (u8_bytes _ o (put16_bytes o (HTONS v) b Hb)). pose proof (u8_bytes _ (S o) (put16_bytes o (HTONS v) b Hb)).
  unfold is_u8, is_u16 in *. lia.
Qed.

(** The fields [udp_head] fills. *)
Lemma udp_head_spec host c data b :
  length b = 422%nat → bytes b → wf_ip host → wf_udp_conn c → (length data ≤ 380)%nat → slice UDPBUF.data (length data) b = data →
  let h := udp_head host c (Z.of_nat (length data)) b in
  length h = 422%nat ∧ bytes h ∧ iplen h = 28 + Z.of_nat (length data) ∧ u8 h BUF.proto = UIP_PROTO_UDP ∧
  get_ip h BUF.srcipaddr = host ∧ get_ip h BUF.destipaddr = u_ripaddr c ∧ u16 h BUF.srcport = u_lport c ∧
  u16 h BUF.destport = u_rport c ∧ be16 h UDPBUF.udplen = 8 + Z.of_nat (length data) ∧ u16 h UDPBUF.udpchksum = 0 ∧
  slice UDPBUF.data (length data) h = data.
Proof.
  intros Hl Hb Hh [Hr Hlp Hrp] Hn Hd. cbv zeta. unfold udp_head. cbv zeta.
  assert (Hput : ∀ o v b', (S o < length b')%nat → is_u16 v → u16 (put16 o v b') o = v).
  { intros. rewrite u16_put16_eq by done. by apply wrap16_id. }
  split_and!.
  - by buf_len.
  - auto 20 with width.
  - unfold iplen. u8_simp. rewrite !u8_put8_eq by (buf_len; rewrite Hl; offsets). rewrite u16_split; [lia|unfold is_u16; lia].
  - u8_simp. rewrite u8_put8_eq; [done|buf_len; rewrite Hl; offsets].
  - unfold get_ip, u16. rewrite !(u8_put_ip_ne BUF.destipaddr) by offsets. apply get_put_ip; [buf_len; rewrite Hl; offsets|done].
  - apply get_put_ip; [buf_len; rewrite Hl; offsets|done].
  - unfold u16 at 1. u8_simp. apply Hput; [buf_len; rewrite Hl; offsets|done].
  - unfold u16 at 1. u8_simp. apply Hput; [buf_len; rewrite Hl; offsets|done].
  - unfold be16 at 1. u8_simp. fold (be16 (put16 UDPBUF.udplen (HTONS (Z.of_nat (length data) + UIP_UDPH_LEN))
      (put8 BUF.proto UIP_PROTO_UDP (put8 BUF.ttl (u_ttl c) (put8 BUF.len1 (Z.land (Z.of_nat (length data) + 28) 255)
        (put8 BUF.len0 (Z.shiftr (Z.of_nat (length data) + 28) 8) b))))) UDPBUF.udplen).
    rewrite be16_put16; [unfold UIP_UDPH_LEN; lia|buf_len; rewrite Hl; offsets|auto 20 with width|unfold is_u16, UIP_UDPH_LEN; lia].
  - unfold u16 at 1. u8_simp. apply (Hput UDPBUF.udpchksum 0); [buf_len; rewrite Hl; offsets|done].
  - by rewrite !slice_put_ip_ne, !slice_put16_ne, !slice_put8_ne by offsets.
Qed.

(** What [udp_send] leaves is a datagram of the connection. *)
Lemma udp_send_datagram s u (a : A) i c data :
  length (uip_buf s) = 422%nat → bytes (uip_buf s) → wf_ip (uip_hostaddr s) → wf_udp_conn c →
  uip_udp_conn u = Some i → uip_udp_conns u !! i = Some c →
  uip_slen s = Z.of_nat (length data) → (0 < length data ≤ 380)%nat → slice UDPBUF.data (length data) (uip_buf s) = data →
  ∃ s', udp_send (s, (u, a)) = Ok (tt, (s', (u, a))) ∧
    datagram (uip_hostaddr s) (u_ripaddr c) (u_lport c) (u_rport c) data (uip_buf s') ∧
    uip_len s' = 28 + Z.of_nat (length data) ∧ length (uip_buf s') = 422%nat ∧ bytes (uip_buf s') ∧ uip_conns s' = uip_conns s.
Proof.
  intros Hl Hb Hh Hc Hi Hci Hs Hn Hd.
  destruct (udp_head_spec (uip_hostaddr s) c data (uip_buf s)) as (L & B & E1 & E2 & E3 & E4 & E5 & E6 & E7 & E8 & E9); [done..|lia|done|].
  set (h := udp_head _ _ _ _) in *.
  assert (Hul : upper_layer_len h = 8 + Z.of_nat (length data)).
  { unfold upper_layer_len, UIP_IPH_LEN. rewrite E1, wrap16_id; unfold is_u16; lia. }
  assert (Hsum := upper_layer_chksum_oc UIP_PROTO_UDP h B ltac:(rewrite Hul, L; lia)).
  set (sum := fold_sum _) in Hsum. fold (uip_udpchksum h) in Hsum.
  pose proof (udp_send_wp s u a i c sum Hl ltac:(rewrite Hs; lia) ltac:(unfold is_u16; lia) Hi Hci ltac:(rewrite Hs; exact Hsum)) as Hw.
  apply wp_ok in Hw as ([] & [s' x] & Hrun & F0 & F1 & F2 & F3). cbn [fst snd] in *. subst x. rewrite Hs in F3. fold h in F3.
  exists s'. split; [done|]. set (g := put16 UDPBUF.udpchksum (udp_sum_of sum) h) in F3.
  assert (Lg : length g = 422%nat) by (unfold g; by buf_len).
  assert (Bg : bytes g) by (unfold g; auto with width).
  destruct (ip_head_fields (ipid s') g Lg Bg) as (G1 & G2 & G3 & G4). rewrite F3.
  split; [|split; [rewrite F1, Hs; lia|split; [by rewrite length_ip_head|split; [by apply ip_head_bytes|done]]]].
  assert (Hsu : is_u16 sum) by (unfold sum, fold_sum; case_match; [done|apply HTONS_u16]).
  assert (Hsv : is_u16 (wrap16 (udp_sum_of sum)) ∧ wrap16 (udp_sum_of sum) ≠ 0 ∧ (udp_sum_of sum = Z.lnot sum ∨ sum = 0xffff ∧ udp_sum_of sum = 0xffff)).
  { split; [apply wrap16_u16|]. unfold udp_sum_of. destruct (Z.eqb_spec (wrap16 (Z.lnot sum)) 0) as [Hz|Hz]; [|by auto].
    split; [done|]. right. split; [|done]. unfold Z.lnot, wrap16, is_u16 in *. dlia. }
  destruct Hsv as (Hv1 & Hv2 & Hv3).
  assert (Hu : ∀ o, (16 ≤ o < 18 ∨ 22 ≤ o < 24 ∨ 26 ≤ o < 40 ∨ 42 ≤ o)%nat → u8 (ip_head (ipid s') g) o = u8 h o).
  { intros o Ho. rewrite ip_head_u8 by lia. unfold g. rewrite u8_put16_ne by (unfold UDPBUF.udpchksum; lia). done. }
  split; unfold iplen, get_ip, be16, u16 in *; rewrite ?Hu by offsets; try done.
  - rewrite ip_head_slice by offsets. unfold g. by rewrite slice_put16_ne by (unfold UDPBUF.udpchksum, UDPBUF.data; lia).
  - rewrite !ip_head_u8 by offsets. fold (u16 g UDPBUF.udpchksum). unfold g. rewrite u16_put16_eq; [done|rewrite L; offsets].
  - unfold uip_udpchksum. rewrite ip_head_upper. unfold g. apply (upper_chksum_fill _ _ h sum); try done; [offsets|rewrite Hul; unfold UDPBUF.udpchksum; lia].
Qed.
End send.

(** ** Receiving *)

Lemma agree_wire eth s k b :
  length eth = 14%nat → length (uip_buf s) = 422%nat → length b = 422%nat → uip_len s = Z.of_nat k → (14 + k ≤ 422)%nat →
  agree k (uip_buf s) (put_bytes 0 (on_wire eth s) b).
Proof.
  intros He Hl Hb Hk Hle. assert (Hw : length (on_wire eth s) = (14 + k)%nat).
  { unfold on_wire. rewrite length_app, length_slice by lia. lia. }
  split; [done|]. split; [by rewrite length_put_bytes|]. split; [done|].
  rewrite slice_put_front by (lia || done). unfold on_wire. rewrite drop_app_length' by done. by rewrite Hk, Nat2Z.id.
Qed.

Lemma agree_datagram src dst sp dp data b b' :
  agree (28 + length data) b b' → datagram src dst sp dp data b → datagram src dst sp dp data b'.
Proof.
  intros Hag Hdg. pose proof (dg_len _ _ _ _ _ _ Hdg) as El. destruct Hdg as [H1 H2 H3 H4 H5 H6 H7 H8 H9 H10 H11 H12 H13].
  assert (Hu : ∀ o, (14 ≤ o < 42)%nat → u8 b' o = u8 b o) by (intros; eapply agree_u8; [done|lia]).
  split; unfold get_ip, be16, u16 in *; rewrite ?(agree_iplen _ _ _ Hag), ?Hu by (cbv; lia); try done.
  - by rewrite (agree_slice _ _ _ Hag) by (unfold UDPBUF.data; lia).
  - by rewrite (agree_ipchksum _ _ _ Hag) by lia.
  - unfold uip_udpchksum. rewrite (agree_upper _ _ _ Hag); [done|].
    unfold upper_layer_len. rewrite El. destruct Hag as (_ & _ & Hn & _). unfold UIP_IPH_LEN. rewrite wrap16_id; unfold is_u16; lia.
Qed.

(** ** Receiving

    A datagram from port [sport] of [src] to port [dport] is for connection
    [c]: the connection has a local port, it is the datagram's, and it talks to
    that port or to any ([0]), at that address or at any ([0.0.0.0] or the
    broadcast address). *)
Record udp_fits (dport sport : Z) (src : uip_ipaddr_t) (c : udp_conn) : Prop := {
  fits_used : u_lport c ≠ 0;
  fits_local : u_lport c = dport;
  fits_remote : u_rport c = 0 ∨ u_rport c = sport;
  fits_peer : u_ripaddr c = (0, 0) ∨ u_ripaddr c = (0xffff, 0xffff) ∨ u_ripaddr c = src
}.

(** The first connection of the table that a datagram is for. *)
Definition first_fit (dport sport : Z) (src : uip_ipaddr_t) (cs : list udp_conn) (j : nat) : Prop :=
  (∃ c, cs !! j = Some c ∧ udp_fits dport sport src c) ∧
  ∀ k c, (k < j)%nat → cs !! k = Some c → ¬ udp_fits dport sport src c.

Lemma udp_matches_spec dport sport src c : udp_matches dport sport src c = true ↔ udp_fits dport sport src c.
Proof.
  unfold udp_matches. rewrite !andb_true_iff, !orb_true_iff, negb_true_iff, Z.eqb_neq, !Z.eqb_eq, !uip_ipaddr_cmp_eq.
  split; [intros (((? & ?) & ?) & ?)|intros []]; [|split_and!]; try (split; intuition congruence); intuition congruence.
Qed.

(** The loop stops at that connection, or at the end. *)
Lemma udp_demux_first dport sport src k cs j :
  first_fit dport sport src cs j → udp_demux dport sport src k cs = (k + j)%nat.
Proof.
  revert k j. induction cs as [|c cs IH]; intros k j [(d & Hd & Hfit) Hall]; [done|]. cbn [udp_demux].
  destruct j as [|j]; cbn in Hd.
  - injection Hd as <-. rewrite (proj2 (udp_matches_spec _ _ _ _)) by done. lia.
  - destruct (udp_matches dport sport src c) eqn:E.
    { apply udp_matches_spec in E. by destruct (Hall 0%nat c ltac:(lia) eq_refl). }
    rewrite (IH (S k) j); [lia|]. split; [by exists d|]. intros m e Hm. apply (Hall (S m)). lia.
Qed.
Lemma udp_demux_none dport sport src k cs :
  (∀ c, c ∈ cs → ¬ udp_fits dport sport src c) → udp_demux dport sport src k cs = (k + length cs)%nat.
Proof.
  revert k. induction cs as [|c cs IH]; intros k Hall; cbn [udp_demux length]; [lia|].
  destruct (udp_matches dport sport src c) eqn:E.
  - apply udp_matches_spec in E. by destruct (Hall c ltac:(by left)).
  - rewrite IH; [lia|]. intros d Hd. apply Hall. by right.
Qed.

(** The globals when the application is told: connection [j] is the current one,
    and [uip_len] bytes of data are at [uip_appdata]. *)
Record udp_told (data : list Z) (j : nat) (s0 : uip) (u0 : udp) (s : uip) (u : udp) : Prop := {
  ut_flags : uip_flags s = UIP_NEWDATA;
  ut_len : uip_len s = Z.of_nat (length data);
  ut_data : uip_appdata s = UDPBUF.data ∧ slice (uip_appdata s) (length data) (uip_buf s) = data;
  ut_send : uip_sappdata s = UDPBUF.data ∧ uip_slen s = 0;
  ut_conn : uip_conn s = None;
  ut_buf : length (uip_buf s) = 422%nat ∧ bytes (uip_buf s);
  ut_rest : uip_conns s = uip_conns s0 ∧ uip_hostaddr s = uip_hostaddr s0;
  ut_udp : u = u0 <| uip_udp_conn := Some j |>
}.

Section receive.
Context {A : Type} `{UipApp (udp * A)} `{UdpApp A}.

Lemma wp_udp_good_sum E (Q : bool → uip * (udp * A) → Prop) s x :
  uip_udpchksum (uip_buf s) = Ok 0xffff → Q false (s, x) → wp E udp_bad_sum Q (s, x).
Proof.
  intros Hs HQ. unfold udp_bad_sum. do 2 ustep. ustep; [|done]. ustep. apply wp_liftr; [|intros e; by rewrite Hs].
  rewrite Hs. by intros ? [= <-].
Qed.
Lemma wp_getu {X} E (f : udp → X) (Q : X → uip * (udp * A) → Prop) s u a : Q (f u) (s, (u, a)) → wp E (getu f) Q (s, (u, a)).
Proof. done. Qed.
Lemma wp_updu E f (Q : unit → uip * (udp * A) → Prop) s u a : Q tt (s, (f u, a)) → wp E (updu f) Q (s, (u, a)).
Proof. done. Qed.

(** A datagram in the buffer: up to the choice of the connection. *)
Lemma udp_input_wp E (Q : unit → uip * (udp * A) → Prop) s0 u0 (a : A) src dst sp dp data j :
  length (uip_buf s0) = 422%nat → bytes (uip_buf s0) → datagram src dst sp dp data (uip_buf s0) →
  uip_len s0 = 28 + Z.of_nat (length data) → (length data ≤ 380)%nat →
  udp_demux dp sp src 0 (uip_udp_conns u0) = j →
  ((j < length (uip_udp_conns u0))%nat → ∀ s u, udp_told data j s0 u0 s u → wp E (UIP_UDP_APPCALL;; udp_send) Q (s, (u, a))) →
  ((length (uip_udp_conns u0) ≤ j)%nat → ∀ s, uip_conns s = uip_conns s0 → uip_len s = 0 →
     Q tt (s, (u0 <| uip_udp_conn := Some j |>, a))) →
  wp E udp_input Q (s0, (u0, a)).
Proof.
  intros Hl Hb Hdg Hn Hdata Hj HQ Hdrop. unfold udp_input. do 7 ustep.
  apply wp_udp_good_sum; [apply (dg_sum _ _ _ _ _ _ Hdg)|]. do 7 ustep. apply wp_getu. ustep. apply wp_updu.
  cbn [uip_buf uip_len set_field]. change UDPBUF.srcport with BUF.srcport. change UDPBUF.destport with BUF.destport.
  rewrite (dg_sport _ _ _ _ _ _ Hdg), (dg_dport _ _ _ _ _ _ Hdg), (dg_src _ _ _ _ _ _ Hdg), Hj.
  destruct (Nat.ltb_spec j (length (uip_udp_conns u0))) as [Hjl|Hjl].
  2:{ unfold drop. repeat ustep. by apply Hdrop. }
  unfold udp_found. do 8 ustep. apply HQ; [done|].
  assert (E1 : wrap16 (uip_len s0 - UIP_IPUDPH_LEN) = Z.of_nat (length data)).
  { rewrite Hn. unfold UIP_IPUDPH_LEN, UIP_UDPH_LEN, UIP_IPH_LEN. rewrite wrap16_id; unfold is_u16; lia. }
  pose proof (dg_data _ _ _ _ _ _ Hdg). by split.
Qed.

Lemma udp_input_reached bc E (Q : unit → uip * (udp * A) → Prop) s0 u0 (a : A) src sp dp data :
  datagram src (uip_hostaddr s0) sp dp data (uip_buf s0) →
  28 + Z.of_nat (length data) ≤ uip_len s0 → (length data ≤ 380)%nat →
  (∀ s1, uip_buf s1 = uip_buf s0 → uip_hostaddr s1 = uip_hostaddr s0 → uip_conns s1 = uip_conns s0 →
         uip_len s1 = 28 + Z.of_nat (length data) → wp E udp_input Q (s1, (u0, a))) →
  wp E (uip_process_udp bc UIP_DATA) Q (s0, (u0, a)).
Proof.
  intros Hdg Hn Hdata HQ.
  pose proof (dg_vhl _ _ _ _ _ _ Hdg) as Hv. pose proof (dg_len _ _ _ _ _ _ Hdg) as Hil.
  destruct (dg_whole _ _ _ _ _ _ Hdg) as [Hf0 Hf1]. pose proof (dg_ipsum _ _ _ _ _ _ Hdg) as Hc. pose proof (dg_proto _ _ _ _ _ _ Hdg) as Hp.
  assert (Hle : (iplen (uip_buf s0) <=? uip_len s0) = true) by (rewrite Hil; apply Z.leb_le; lia).
  assert (Hcmp : uip_ipaddr_cmp (get_ip (uip_buf s0) BUF.destipaddr) (uip_hostaddr s0) = true).
  { apply uip_ipaddr_cmp_eq, (dg_dst _ _ _ _ _ _ Hdg). }
  unfold uip_process_udp. ustep; [done|]. do 3 ustep; [done|]. ustep; [done|]. ustep; [done|].
  unfold ip_header. do 5 ustep; [dead Hv|]. do 5 ustep; [dead Hle|]. do 7 ustep; [dead Hf0; dead Hf1|].
  match goal with |- wp _ _ _ (?s', _) => assert (Hs : uip_buf s' = uip_buf s0 ∧ uip_hostaddr s' = uip_hostaddr s0 ∧
    uip_conns s' = uip_conns s0 ∧ uip_len s' = wrap16 (iplen (uip_buf s0))) by done; set (s1 := s') in *; clearbody s1 end.
  destruct Hs as (E1 & E2 & E3 & E4). rewrite Hil, wrap16_id in E4 by (unfold is_u16; lia).
  assert (Hin : wp E udp_input Q (s1, (u0, a))) by by apply HQ. rewrite <- E1, <- ?E2 in *.
  assert (Hdm : wp E ip_demux_udp Q (s1, (u0, a))).
  { unfold ip_demux_udp. do 3 ustep; [dead Hc|]. do 3 ustep; [dead Hp|]. by ustep; [|dead Hp]. }
  unfold ip_dest_udp. do 7 ustep; [done|]. ustep; [done|]. by ustep; [dead Hcmp|].
Qed.

(** What becomes of a datagram for this host in the buffer of [s0]. *)
Definition udp_taken bc data dp sp src s0 u0 (a : A) : Prop :=
  let run := uip_process_udp bc UIP_DATA (s0, (u0, a)) in
  (∀ j, first_fit dp sp src (uip_udp_conns u0) j →
     ∃ s u, udp_told data j s0 u0 s u ∧ run = (UIP_UDP_APPCALL;; udp_send) (s, (u, a))) ∧
  ((∀ c, c ∈ uip_udp_conns u0 → ¬ udp_fits dp sp src c) →
     ∃ s u, run = Ok (tt, (s, (u, a))) ∧ uip_len s = 0 ∧ uip_conns s = uip_conns s0 ∧
            uip_udp_conns u = uip_udp_conns u0).

Lemma udp_taken_ok bc s0 u0 (a : A) src sp dp data :
  length (uip_buf s0) = 422%nat → bytes (uip_buf s0) → datagram src (uip_hostaddr s0) sp dp data (uip_buf s0) →
  28 + Z.of_nat (length data) ≤ uip_len s0 → (length data ≤ 380)%nat →
  udp_taken bc data dp sp src s0 u0 a.
Proof.
  intros Hl Hb Hdg Hn Hdata. split.
  - intros j Hfit. pose proof (udp_demux_first _ _ _ 0 _ _ Hfit) as Hj. set (kont := UIP_UDP_APPCALL;; udp_send).
    assert (Hwp : wp (λ e, ∃ s u, udp_told data j s0 u0 s u ∧ kont (s, (u, a)) = Err e) (uip_process_udp bc UIP_DATA)
      (λ x st, ∃ s u, udp_told data j s0 u0 s u ∧ kont (s, (u, a)) = Ok (x, st)) (s0, (u0, a))).
    { eapply udp_input_reached; [done..|]. intros s1 E1 E2 E3 E4. rewrite <- E1 in *.
      eapply (udp_input_wp _ _ s1); [done..| |].
      - intros _ s u Ht. fold kont. assert (Ht' : udp_told data j s0 u0 s u).
        { destruct Ht as [? ? ? ? ? ? [R1 R2] ?]. split; try done. by rewrite R1, R2. }
        unfold wp. destruct (kont (s, (u, a))) as [[[] st]|e] eqn:E; cbv beta; by exists s, u.
      - intros Hjl. destruct Hfit as [(c & Hc & _) _]. apply lookup_lt_Some in Hc. lia. }
    unfold wp in Hwp. destruct (uip_process_udp bc UIP_DATA (s0, (u0, a))) as [[[] st]|e]; destruct Hwp as (s & u & Ht & Hk);
      by exists s, u.
  - intros Hno. pose proof (udp_demux_none _ _ _ 0 _ Hno) as Hj.
    assert (Hwp : wp nofault (uip_process_udp bc UIP_DATA)
      (λ _ x, x.2.2 = a ∧ uip_len x.1 = 0 ∧ uip_conns x.1 = uip_conns s0 ∧ uip_udp_conns x.2.1 = uip_udp_conns u0) (s0, (u0, a))).
    { eapply udp_input_reached; [done..|]. intros s1 E1 E2 E3 E4. rewrite <- E1 in *.
      eapply (udp_input_wp _ _ s1); [done..| |].
      - intros Hjl. cbn in Hjl. lia.
      - intros _ s Es Hlen. split_and!; [done|done|by rewrite <- E3|done]. }
    unfold wp in Hwp. destruct (uip_process_udp bc UIP_DATA (s0, (u0, a))) as [[[] [s [u b]]]|e]; [|done].
    exists s, u. cbn in Hwp. destruct Hwp as (-> & ?). done.
Qed.
End receive.

(** C34: a datagram that [udp_send] makes for a connection on one host, put behind
    any Ethernet header, reaches the host it is addressed to: the application
    there is called for the first connection that has the datagram's port and
    takes data from the sender's port and address, with exactly the data that
    was sent, and what it answers is sent; when no connection fits, the
    datagram is dropped and nothing is sent. *)
Theorem udp_exchange {A} `{UipApp (udp * A)} `{UdpApp A} bc s1 u1 (a1 : A) i c data eth s2 u2 (a2 : A) :
  wf_uip s1 → wf_udp_conn c → uip_udp_conn u1 = Some i → uip_udp_conns u1 !! i = Some c →
  uip_slen s1 = Z.of_nat (length data) → (0 < length data ≤ 380)%nat → slice UDPBUF.data (length data) (uip_buf s1) = data →
  length eth = 14%nat → bytes eth → wf_uip s2 → u_ripaddr c = uip_hostaddr s2 →
  ∃ s1', uip_process_udp bc UIP_UDP_SEND_CONN (s1, (u1, a1)) = Ok (tt, (s1', (u1, a1))) ∧
    datagram (uip_hostaddr s1) (uip_hostaddr s2) (u_lport c) (u_rport c) data (uip_buf s1') ∧
    udp_taken bc data (u_rport c) (u_lport c) (uip_hostaddr s1) (receive (on_wire eth s1') s2) u2 a2.
Proof.
  intros W1 Wc Hi Hc Hs Hn Hd He Hbe W2 Hr.
  destruct (udp_send_datagram s1 u1 a1 i c data) as (s1' & Hrun & Hdg & Hlen & Hbl & Hbb & Hcs); [apply W1|apply W1|apply W1|done..|].
  exists s1'. rewrite Hr in Hdg. split; [exact Hrun|]. split; [exact Hdg|].
  set (k := (28 + length data)%nat). pose proof (agree_wire eth s1' k (uip_buf s2) He Hbl (wf_buf_len _ W2) ltac:(lia) ltac:(lia)) as Hag.
  assert (Hw : length (on_wire eth s1') = (14 + k)%nat) by (unfold on_wire; rewrite length_app, length_slice by lia; lia).
  set (s0 := receive (on_wire eth s1') s2). apply udp_taken_ok.
  - unfold s0. cbn. rewrite length_put_bytes. apply W2.
  - unfold s0. cbn. apply put_bytes_bytes; [|apply W2]. apply Forall_app. split; [done|]. by apply slice_bytes.
  - eapply agree_datagram; [exact Hag|exact Hdg].
  - unfold s0. cbn. rewrite Hw, wrap16_id; unfold is_u16; lia.
  - lia.
Qed.

(** ** The rest of the stack *)

Section rest.
Context {A : Type} `{UipApp (udp * A)} `{UdpApp A}.

Lemma ip_demux_other s x : u8 (uip_buf s) BUF.proto ≠ UIP_PROTO_UDP → ip_demux_udp (s, x) = ip_demux (s, x).
Proof.
  intros Hp. unfold ip_demux_udp, ip_demux, r8, gets, mbind, M_bind, getM. cbn [fst snd].
  destruct (negb _); [done|]. destruct (_ =? UIP_PROTO_TCP); [done|].
  by rewrite (proj2 (Z.eqb_neq _ _)).
Qed.

Lemma ip_dest_other bc s x : u8 (uip_buf s) BUF.proto ≠ UIP_PROTO_UDP → ip_dest_udp bc (s, x) = ip_dest (s, x).
Proof.
  intros Hp. unfold ip_dest_udp, ip_dest, r8, rip, gets, mbind, M_bind, getM. cbn [fst snd].
  rewrite (proj2 (Z.eqb_neq _ _) Hp), andb_false_r. destruct (uip_ipaddr_cmp _ all_zeroes_addr); cbn [negb andb]; [by apply ip_demux_other|].
  destruct (negb _); [done|]. by apply ip_demux_other.
Qed.

(** C35: with UDP compiled in the stack does the same as without on the periodic
    timer, a poll request and every packet whose protocol is not UDP: what is
    proved of [uip_process] holds of it there. *)
Theorem udp_conservative bc flag s u (a : A) :
  flag ≠ UIP_UDP_SEND_CONN → flag ≠ UIP_UDP_TIMER →
  (flag = UIP_POLL_REQUEST ∨ flag = UIP_TIMER ∨ u8 (uip_buf s) BUF.proto ≠ UIP_PROTO_UDP) →
  uip_process_udp bc flag (s, (u, a)) = uip_process flag (s, (u, a)).
Proof.
  intros H1 H2 Hflag. unfold uip_process_udp, uip_process. rewrite (proj2 (Z.eqb_neq _ _) H1).
  unfold upd, mbind at 1 3, M_bind at 1 3, modM. cbn [fst snd].
  destruct (Z.eqb_spec flag UIP_POLL_REQUEST) as [|H3]; [done|]. destruct (Z.eqb_spec flag UIP_TIMER) as [|H4]; [done|].
  rewrite (proj2 (Z.eqb_neq _ _) H2). apply ip_header_same. intros s' Hs' _. apply ip_dest_other.
  rewrite Hs'. cbn. by destruct Hflag as [?|[?|?]].
Qed.
End rest.

(** ** Examples *)

(** An application that keeps the length and the data of what it got, and sends
    them back. *)
Definition echo_udp : M (uip * (udp * list Z)) unit :=
  f ← gets uip_flags;
  if has f UIP_NEWDATA then
    n ← gets uip_len;
    p ← gets uip_appdata;
    b ← gets uip_buf;
    modM (λ x, (x.1, (x.2.1, n :: slice p (Z.to_nat n) b)));;
    uip_udp_send n
  else mret tt.
#[export] Instance echo_udp_app : UdpApp (list Z) := echo_udp.
#[export] Instance echo_tcp_app : UipApp (udp * list Z) := mret tt.

Definition demo_udp1 : uip :=
  uip0 <| uip_hostaddr := uip_ipaddr 10 0 2 15 |> <| uip_buf := put_bytes 42 [104; 101; 108; 108; 111] (replicate 422 0) |> <| uip_slen := 5 |>.
Definition demo_udp2 : uip := uip0 <| uip_hostaddr := uip_ipaddr 10 0 2 2 |>.
Definition demo_conn1 : udp_conn := mk_udp_conn (uip_ipaddr 10 0 2 2) (HTONS 4096) (HTONS 7) 64.
Definition demo_conn2 : udp_conn := mk_udp_conn (uip_ipaddr 10 0 2 15) (HTONS 7) (HTONS 4096) 64.
Definition demo_link : list Z := [0x52; 0x54; 0; 0; 0; 1; 0x52; 0x54; 0; 0; 0; 2; 8; 0].

Lemma uip_udp_new_correct_witness :
  ∃ s' u', uip_udp_new (Some (uip_ipaddr 10 0 2 2)) (HTONS 7) (uip0, udp0) = Ok (Some 0%nat, (s', u')).
Proof.
  destruct (uip_udp_new_correct (Some (uip_ipaddr 10 0 2 2)) (HTONS 7) uip0 udp0) as (r & s' & u' & Hr & Hs & Hp & Hm);
    [unfold is_u16; cbn; lia|reflexivity|].
  exists s', u'. rewrite Hr. destruct r as [i|]; [|destruct Hm as [Hm _]; by inversion Hm].
  destruct Hm as (c & c' & _ & _ & Hb & _). destruct i as [|i]; [done|]. by inversion Hb.
Defined.

Lemma wf_uip_demo a b : wf_ip a → bytes b → length b = 422%nat → wf_uip (uip0 <| uip_hostaddr := a |> <| uip_buf := b |>).
Proof. 
  intros Ha Hb Hl. split; try done; cbn -[replicate].
  all: try (by apply Forall_replicate). all: try (by repeat constructor).
Qed.

Lemma wf_uip_slen_demo n s : is_u16 n → wf_uip s → wf_uip (s <| uip_slen := n |>).
Proof. intros Hn []. by split. Qed.

Lemma udp_exchange_witness :
  ∃ s1', uip_process_udp true UIP_UDP_SEND_CONN (demo_udp1, (udp0 <| uip_udp_conns ::= <[0%nat := demo_conn1]> |> <| uip_udp_conn := Some 0%nat |>, [])) =
      Ok (tt, (s1', (udp0 <| uip_udp_conns ::= <[0%nat := demo_conn1]> |> <| uip_udp_conn := Some 0%nat |>, []))) ∧
    datagram (uip_hostaddr demo_udp1) (uip_hostaddr demo_udp2) (HTONS 4096) (HTONS 7) [104; 101; 108; 108; 111] (uip_buf s1') ∧
    ∃ s u, udp_told [104; 101; 108; 108; 111] 1 (receive (on_wire demo_link s1') demo_udp2) (udp0 <| uip_udp_conns ::= <[1%nat := demo_conn2]> |>) s u ∧
      uip_process_udp true UIP_DATA (receive (on_wire demo_link s1') demo_udp2, (udp0 <| uip_udp_conns ::= <[1%nat := demo_conn2]> |>, [])) =
      (UIP_UDP_APPCALL;; udp_send) (s, (u, [])).
Proof.
  destruct (udp_exchange true demo_udp1 (udp0 <| uip_udp_conns ::= <[0%nat := demo_conn1]> |> <| uip_udp_conn := Some 0%nat |>)
    [] 0 demo_conn1 [104; 101; 108; 108; 111] demo_link demo_udp2 (udp0 <| uip_udp_conns ::= <[1%nat := demo_conn2]> |>) [])
    as (s1' & Hrun & Hdg & Htold & _); try reflexivity.
  - change (wf_uip (uip0 <| uip_hostaddr := uip_ipaddr 10 0 2 15 |> <| uip_buf := uip_buf demo_udp1 |> <| uip_slen := 5 |>)).
    apply wf_uip_slen_demo; [done|]. apply wf_uip_demo; [by split|by repeat constructor|reflexivity].
  - by repeat split.
  - cbn. lia.
  - by repeat constructor.
  - change (wf_uip (uip0 <| uip_hostaddr := uip_ipaddr 10 0 2 2 |> <| uip_buf := replicate 422 0 |>)). apply wf_uip_demo; [by split|by apply Forall_replicate|reflexivity].
  - exists s1'. split; [exact Hrun|]. split; [exact Hdg|]. apply Htold. split.
    + exists demo_conn2. split; [reflexivity|]. split; [discriminate|reflexivity|right; reflexivity|right; right; reflexivity].
    + intros k d Hk Hd. assert (k = 0%nat) as -> by lia. injection Hd as <-. intros [Hne _ _ _]. by apply Hne.
Defined.

Lemma udp_conservative_witness :
  uip_process_udp true UIP_DATA (demo_udp2, (udp0, [])) = uip_process UIP_DATA (demo_udp2, (udp0, [])).
Proof. apply (udp_conservative true UIP_DATA demo_udp2 udp0 []); [discriminate..|right; right; discriminate]. Defined.

(** An IP packet of 20 bytes, with nothing behind the header but what the buffer
    has there: [uip_len] wraps around and the application is told of 65528 bytes. *)
Definition short_packet : list Z :=
  put_bytes 14 [0x45; 0; 0; 20; 0; 0; 0; 0; 64; 17; 0x62; 0xc9; 10; 0; 2; 15; 10; 0; 2; 2; 0x10; 0; 0; 7] (replicate 422 0).
Lemma udp_short :
  match uip_process_udp true UIP_DATA (demo_udp2 <| uip_buf := short_packet |> <| uip_len := 46 |>, (udp0 <| uip_udp_conns ::= <[1%nat := demo_conn2]> |>, [])) with
  | Ok (_, (_, (_, n :: _))) => n = 65528
  | _ => False
  end.
Proof. by vm_compute. Qed.

(** A datagram goes to the echo application and comes back. *)
Lemma udp_echo :
  let u1 := udp0 <| uip_udp_conns ::= <[0%nat := demo_conn1]> |> <| uip_udp_conn := Some 0%nat |> in
  match uip_process_udp true UIP_UDP_SEND_CONN (demo_udp1, (u1, [])) with
  | Ok (_, (s1, x1)) =>
      match uip_process_udp true UIP_DATA (receive (on_wire demo_link s1) demo_udp2, (udp0 <| uip_udp_conns ::= <[1%nat := demo_conn2]> |>, [])) with
      | Ok (_, (s2, _)) =>
          match uip_process_udp true UIP_DATA (receive (on_wire demo_link s2) s1, x1) with
          | Ok (_, (_, (_, got))) => got = [5; 104; 101; 108; 108; 111]
          | Err _ => False
          end
      | Err _ => False
      end
  | Err _ => False
  end.
Proof. by vm_compute. Qed.
