(* ===== verification/PingConf.v ===== *)
(** * Configuration by ping (uip.c)

    The code that [UIP_PINGADDRCONF] compiles in; this configuration sets it to 0.
    A host without an address takes that of the first echo request it gets; with
    an address it does what it does without this option. *)

From S2P Require Import Prelude Bytes Checksum UipState Uip PacketSum UipInv Httpd UipThms.

Section process.
Context {A : Type} `{UipApp A}.

Abbreviation U := (U (A := A)).

Definition icmp_input_ping : U unit :=
  UIP_STAT icmp_recv;;
  ty ← r8 ICMPBUF.type;
  if negb (ty =? ICMP_ECHO) then
    UIP_STAT icmp_drop;;
    UIP_STAT icmp_typeerr;;
    drop
  else
    host ← gets uip_hostaddr;
    (if Z.lor host.1 host.2 =? 0 then
       dst ← rip BUF.destipaddr;
       upd (λ s, s <| uip_hostaddr := dst |>)
     else mret tt);;
    icmp_reply.

Definition ip_demux_ping : U unit :=
  sum ← gets (λ s, uip_ipchksum (uip_buf s));
  if negb (sum =? 0xffff) then
    UIP_STAT ip_drop;;
    UIP_STAT ip_chkerr;;
    drop
  else
    proto ← r8 BUF.proto;
    if proto =? UIP_PROTO_TCP then tcp_input
    else if negb (proto =? UIP_PROTO_ICMP) then
      UIP_STAT ip_drop;;
      UIP_STAT ip_protoerr;;
      drop
    else icmp_input_ping.

(** Without an address only ICMP is taken, without a look at the IP checksum. *)
Definition ip_dest_ping : U unit :=
  host ← gets uip_hostaddr;
  dst ← rip BUF.destipaddr;
  proto ← r8 BUF.proto;
  if uip_ipaddr_cmp host all_zeroes_addr then
    if proto =? UIP_PROTO_ICMP then icmp_input_ping else drop
  else if negb (uip_ipaddr_cmp dst host) then
    UIP_STAT ip_drop;;
    drop
  else ip_demux_ping.

Definition uip_process_ping (flag : Z) : U unit :=
  upd (λ s, s <| uip_appdata := 54%nat |> <| uip_sappdata := 54%nat |>);;
  if flag =? UIP_POLL_REQUEST then
    i ← deref_conn;
    poll_request i
  else if flag =? UIP_TIMER then
    i ← deref_conn;
    timer_fired i
  else ip_header ip_dest_ping.

(** ** With an address *)

Lemma lor_zero a : (Z.lor a.1 a.2 =? 0) = uip_ipaddr_cmp a all_zeroes_addr.
Proof.
  unfold uip_ipaddr_cmp, all_zeroes_addr. cbn [fst snd]. apply eq_bool_prop_intro.
  by rewrite !Is_true_true, andb_true_iff, !Z.eqb_eq, Z.lor_eq_0_iff.
Qed.

Lemma icmp_input_same s x : uip_hostaddr s ≠ all_zeroes_addr → icmp_input_ping (s, x) = icmp_input (s, x).
Proof.
  intros Hh. assert (Hz : uip_ipaddr_cmp (uip_hostaddr s) all_zeroes_addr = false).
  { apply not_true_is_false. by rewrite uip_ipaddr_cmp_eq. }
  unfold icmp_input_ping, icmp_input, UIP_STAT, r8, upd, gets, mbind, M_bind, getM, modM. cbn [fst snd].
  destruct (negb _); [done|]. rewrite lor_zero. cbn [fst uip_hostaddr set_field]. by rewrite Hz.
Qed.

(** once the host has an address the stack does the same as without the
    option, whatever comes. *)
Theorem ping_conservative flag s (a : A) :
  uip_hostaddr s ≠ all_zeroes_addr → uip_process_ping flag (s, a) = uip_process flag (s, a).
Proof.
  intros Hh. unfold uip_process_ping, uip_process, upd, mbind at 1 3, M_bind at 1 3, modM. cbn [fst snd].
  destruct (flag =? UIP_POLL_REQUEST); [done|]. destruct (flag =? UIP_TIMER); [done|].
  apply ip_header_same. cbn [fst uip_buf uip_hostaddr set_field]. intros s' Hb Hs. rewrite <- Hs in Hh.
  unfold ip_dest_ping, ip_dest, ip_demux_ping, ip_demux, r8, rip, gets, mbind, M_bind, getM. cbn [fst snd].
  destruct (uip_ipaddr_cmp (uip_hostaddr s') all_zeroes_addr) eqn:E; [by apply uip_ipaddr_cmp_eq in E|]. cbn [negb andb].
  destruct (negb _); [done|]. destruct (negb _); [done|]. destruct (_ =? UIP_PROTO_TCP); [done|].
  destruct (negb _); [done|]. by apply icmp_input_same.
Qed.

(** ** Without *)

(** a host without an address that gets an echo request with valid checksums
    takes the address the request was sent to, and does from then on what a host
    with this address does: it answers from it. *)
Theorem ping_configures s (a : A) :
  uip_hostaddr s = all_zeroes_addr →
  let s' := s <| uip_hostaddr := get_ip (uip_buf s) BUF.destipaddr |> in
  echo_request s' → uip_process_ping UIP_DATA (s, a) = uip_process UIP_DATA (s', a).
Proof.
  intros Hh s' [Hv Hl Hf0 Hf1 _ Hc Hp Ht _ _]. pose proof (eq_refl : uip_hostaddr s' = get_ip (uip_buf s) BUF.destipaddr) as Hd.
  assert (Hcmp : uip_ipaddr_cmp (get_ip (uip_buf s) BUF.destipaddr) (uip_hostaddr s') = true) by by apply uip_ipaddr_cmp_eq.
  set (f := λ s, s <| uip_appdata := 54%nat |> <| uip_sappdata := 54%nat |>).
  change (ip_header ip_dest_ping (f s, a) = ip_header ip_dest (f s', a)). rewrite !ip_header_pass by done.
  unfold ip_dest_ping, ip_dest, ip_demux, r8, rip, gets, mbind, M_bind, getM. cbn [fst snd uip_buf uip_hostaddr set_field f].
  change (uip_buf s') with (uip_buf s) in *. rewrite Hh, Hp, Hcmp, andb_false_r. cbn [fst snd uip_buf uip_hostaddr set_field].
  change (uip_buf (f s')) with (uip_buf s). rewrite Hc. change (negb (0xffff =? 0xffff)) with false. cbn iota beta.
  match goal with |- context [u8 (uip_buf ?x) BUF.proto] => change (uip_buf x) with (uip_buf s) end. rewrite Hp.
  set (g := λ s, (f s) <| uip_stat ::= set_field ip_recv (λ x, wrap16 (x + 1)) |> <| uip_len := wrap16 (iplen (uip_buf s)) |>).
  change (icmp_input_ping (g s, a) = icmp_input (g s', a)).
  unfold icmp_input_ping, icmp_input, UIP_STAT, r8, rip, upd, gets, mbind, M_bind, getM, modM. cbn [fst snd].
  match goal with |- context [u8 (uip_buf ?x) ICMPBUF.type] => change (uip_buf x) with (uip_buf s) end. rewrite Ht.
  match goal with |- context [u8 (uip_buf ?x) ICMPBUF.type] => change (uip_buf x) with (uip_buf s) end. rewrite Ht.
  change (negb (ICMP_ECHO =? ICMP_ECHO)) with false. cbv iota beta.
  rewrite lor_zero. match goal with |- context [uip_ipaddr_cmp (uip_hostaddr ?x)] => change (uip_hostaddr x) with (uip_hostaddr s) end.
  by rewrite Hh.
Qed.
End process.

(** ** Examples *)

(** A ping to 10.0.2.15. *)
Definition demo_ping : uip := (demo_input demo_echo demo_up) <| uip_hostaddr := all_zeroes_addr |>.

Lemma ping_conservative_witness :
  uip_process_ping UIP_DATA (demo_input demo_echo demo_up, httpd0) = uip_process UIP_DATA (demo_input demo_echo demo_up, httpd0).
Proof. apply (ping_conservative UIP_DATA (demo_input demo_echo demo_up)). discriminate. Defined.

Lemma ping_configures_witness :
  uip_process_ping UIP_DATA (demo_ping, httpd0) =
  uip_process UIP_DATA (demo_ping <| uip_hostaddr := get_ip (uip_buf demo_ping) BUF.destipaddr |>, httpd0).
Proof.
  apply (ping_configures demo_ping httpd0 eq_refl).
  split; vm_compute; first [reflexivity | discriminate | split; discriminate].
Defined.

(** The header's checksum is not looked at, so a damaged ping sets a wrong
    address: here 11.0.2.15. *)
Lemma ping_unchecked :
  let s := demo_ping <| uip_buf ::= put8 BUF.destipaddr 11 |> in
  match uip_process_ping UIP_DATA (s, httpd0) with
  | Ok (_, (s', _)) => uip_ipchksum (uip_buf s) ≠ 0xffff ∧ uip_hostaddr s' = uip_ipaddr 11 0 2 15
  | Err _ => False
  end.
Proof. vm_compute. by split. Qed.
