(* ===== verification/Arp.v ===== *)
(** * The ARP module (uip_arp.c)

    The table of IP-to-Ethernet mappings, the handling of incoming ARP packets
    and the Ethernet header of outgoing IP packets.  The static temporaries
    [i], [c], [ipaddr] and [tmpage] are local values; every buffer access is at
    a constant offset of [struct arp_hdr] (42 bytes) inside [uip_buf]. *)

From S2P Require Import Prelude Bytes Checksum UipState Uip.

Definition UIP_ARPTAB_SIZE : nat := 8.
Definition UIP_ARP_MAXAGE : Z := 120.
Definition UIP_ETHTYPE_ARP : Z := 0x0806.
Definition UIP_ETHTYPE_IP : Z := 0x0800.
Definition ARP_REQUEST : Z := 1.
Definition ARP_REPLY : Z := 2.
Definition ARP_HWTYPE_ETH : Z := 1.

(** [struct arp_hdr] at [uip_buf]. *)
Module ARPBUF.
Definition dest : nat := 0.
Definition src : nat := 6.
Definition type : nat := 12.
Definition hwtype : nat := 14.
Definition protocol : nat := 16.
Definition hwlen : nat := 18.
Definition protolen : nat := 19.
Definition opcode : nat := 20.
Definition shwaddr : nat := 22.
Definition sipaddr : nat := 28.
Definition dhwaddr : nat := 32.
Definition dipaddr : nat := 38.
Definition size : Z := 42.
End ARPBUF.
Definition uip_eth_hdr_size : Z := 14.

(** ** The table *)

Record arp_entry := mk_arp_entry { ae_ip : uip_ipaddr_t; ae_eth : list Z; ae_time : Z }.
#[export] Instance arp_entry_settable : Settable arp_entry :=
  settable! mk_arp_entry <ae_ip; ae_eth; ae_time>.

Record arp := mk_arp { arp_table : list arp_entry; arptime : Z }.
#[export] Instance arp_settable : Settable arp := settable! mk_arp <arp_table; arptime>.

Definition arp_entry0 : arp_entry := mk_arp_entry (0, 0) (replicate 6 0) 0.
#[export] Instance arp_entry_inhabited : Inhabited arp_entry := populate arp_entry0.
Definition arp0 : arp := mk_arp (replicate UIP_ARPTAB_SIZE arp_entry0) 0.

Definition uip_arp_init (t : arp) : arp :=
  t <| arp_table ::= fmap (λ e, e <| ae_ip := (0, 0) |>) |>.

(** The entry's address is cleared when it is too old; the ages are [int]. *)
Definition arp_expire (now : Z) (e : arp_entry) : arp_entry :=
  if negb (Z.lor (ae_ip e).1 (ae_ip e).2 =? 0) && (UIP_ARP_MAXAGE <=? now - ae_time e)
  then e <| ae_ip := (0, 0) |> else e.

Definition uip_arp_timer (t : arp) : arp :=
  let t := t <| arptime ::= λ x, wrap8 (x + 1) |> in
  t <| arp_table ::= fmap (arp_expire (arptime t)) |>.

(** The first index whose entry satisfies a test. *)
Fixpoint find_entry (p : arp_entry → bool) (i : nat) (l : list arp_entry) : option nat :=
  match l with
  | [] => None
  | e :: l => if p e then Some i else find_entry p (S i) l
  end.

(** "Only check those entries that are actually in use." *)
Definition entry_in_use (e : arp_entry) : bool :=
  negb ((ae_ip e).1 =? 0) && negb ((ae_ip e).2 =? 0).
Definition entry_unused (e : arp_entry) : bool :=
  ((ae_ip e).1 =? 0) && ((ae_ip e).2 =? 0).

(** The oldest entry: the loop keeps the greatest age and its index. *)
Fixpoint oldest (now tmpage : Z) (c i : nat) (l : list arp_entry) : nat :=
  match l with
  | [] => c
  | e :: l =>
      if tmpage <? now - ae_time e then oldest now (wrap8 (now - ae_time e)) i (S i) l
      else oldest now tmpage c (S i) l
  end.

Definition uip_arp_update (ip : uip_ipaddr_t) (eth : list Z) (t : arp) : arp :=
  match find_entry (λ e, entry_in_use e && uip_ipaddr_cmp ip (ae_ip e)) 0 (arp_table t) with
  | Some i =>
      t <| arp_table ::= alter (λ e, e <| ae_eth := eth |> <| ae_time := arptime t |>) i |>
  | None =>
      let i := match find_entry entry_unused 0 (arp_table t) with
               | Some i => i
               | None => oldest (arptime t) 0 0 0 (arp_table t)
               end in
      t <| arp_table ::= alter (λ _, mk_arp_entry ip eth (arptime t)) i |>
  end.

(** ** Packets *)

Definition broadcast_ethaddr : list Z := replicate 6 0xff.
Definition broadcast_ipaddr : uip_ipaddr_t := (0xffff, 0xffff).

Definition arp_answer (s : uip) : list Z :=
  let b := put16 ARPBUF.opcode (HTONS 2) (uip_buf s) in
  let b := put_bytes ARPBUF.dhwaddr (slice ARPBUF.shwaddr 6 b) b in
  let b := put_bytes ARPBUF.shwaddr (uip_ethaddr s) b in
  let b := put_bytes ARPBUF.src (uip_ethaddr s) b in
  let b := put_bytes ARPBUF.dest (slice ARPBUF.dhwaddr 6 b) b in
  let b := put_ip ARPBUF.dipaddr (get_ip b ARPBUF.sipaddr) b in
  let b := put_ip ARPBUF.sipaddr (uip_hostaddr s) b in
  put16 ARPBUF.type (HTONS UIP_ETHTYPE_ARP) b.

Definition uip_arp_arpin (x : uip * arp) : uip * arp :=
  let (s, t) := x in
  if uip_len s <? ARPBUF.size then (s <| uip_len := 0 |>, t)
  else
    let s := s <| uip_len := 0 |> in
    let b := uip_buf s in
    let op := u16 b ARPBUF.opcode in
    if op =? HTONS ARP_REQUEST then
      if uip_ipaddr_cmp (get_ip b ARPBUF.dipaddr) (uip_hostaddr s) then
        (s <| uip_buf := arp_answer s |> <| uip_len := ARPBUF.size |>,
         uip_arp_update (get_ip b ARPBUF.sipaddr) (slice ARPBUF.shwaddr 6 b) t)
      else (s, t)
    else if op =? HTONS ARP_REPLY then
      if uip_ipaddr_cmp (get_ip b ARPBUF.dipaddr) (uip_hostaddr s) then
        (s, uip_arp_update (get_ip b ARPBUF.sipaddr) (slice ARPBUF.shwaddr 6 b) t)
      else (s, t)
    else (s, t).

(** The ARP request that takes the packet's place. *)
Definition arp_ask (s : uip) (ip : uip_ipaddr_t) : list Z :=
  let b := put_bytes ARPBUF.dest (replicate 6 0xff) (uip_buf s) in
  let b := put_bytes ARPBUF.dhwaddr (replicate 6 0) b in
  let b := put_bytes ARPBUF.src (uip_ethaddr s) b in
  let b := put_bytes ARPBUF.shwaddr (uip_ethaddr s) b in
  let b := put_ip ARPBUF.dipaddr ip b in
  let b := put_ip ARPBUF.sipaddr (uip_hostaddr s) b in
  let b := put16 ARPBUF.opcode (HTONS ARP_REQUEST) b in
  let b := put16 ARPBUF.hwtype (HTONS ARP_HWTYPE_ETH) b in
  let b := put16 ARPBUF.protocol (HTONS UIP_ETHTYPE_IP) b in
  let b := put8 ARPBUF.hwlen 6 b in
  let b := put8 ARPBUF.protolen 4 b in
  put16 ARPBUF.type (HTONS UIP_ETHTYPE_ARP) b.

(** The Ethernet header of an IP packet, and its length. *)
Definition eth_send (dest : list Z) (s : uip) : uip :=
  let b := put_bytes ARPBUF.dest dest (uip_buf s) in
  let b := put_bytes ARPBUF.src (uip_ethaddr s) b in
  let b := put16 ARPBUF.type (HTONS UIP_ETHTYPE_IP) b in
  s <| uip_buf := b |> <| uip_len ::= λ n, wrap16 (n + uip_eth_hdr_size) |>.

(** The address whose Ethernet address is needed: the destination on the local
    network, otherwise the default router. *)
Definition next_hop (s : uip) : uip_ipaddr_t :=
  let dst := get_ip (uip_buf s) BUF.destipaddr in
  if negb (uip_ipaddr_maskcmp dst (uip_hostaddr s) (uip_netmask s)) then uip_draddr s else dst.

Definition uip_arp_out (x : uip * arp) : uip * arp :=
  let (s, t) := x in
  if uip_ipaddr_cmp (get_ip (uip_buf s) BUF.destipaddr) broadcast_ipaddr then
    (eth_send broadcast_ethaddr s, t)
  else
    let ip := next_hop s in
    match find_entry (λ e, uip_ipaddr_cmp ip (ae_ip e)) 0 (arp_table t) with
    | None =>
        (s <| uip_buf := arp_ask s ip |> <| uip_appdata := 54%nat |> <| uip_len := ARPBUF.size |>, t)
    | Some i => (eth_send (ae_eth (arp_table t !!! i)) s, t)
    end.

(** ** Lemmas *)

(** The table as [uip_arp_out] sees it: the address of the first match. *)
Definition arp_lookup (t : arp) (ip : uip_ipaddr_t) : option (list Z) :=
  (λ i, ae_eth (arp_table t !!! i)) <$> find_entry (λ e, uip_ipaddr_cmp ip (ae_ip e)) 0 (arp_table t).

Lemma find_entry_some p k l i :
  find_entry p k l = Some i ↔
  (k ≤ i)%nat ∧ (∃ e, l !! (i - k)%nat = Some e ∧ p e = true) ∧
  ∀ j e, (j < i - k)%nat → l !! j = Some e → p e = false.
Proof.
  revert k. induction l as [|e l IH]; intros k; cbn.
  { split; [done|]. intros (_ & (e & He & _) & _). by rewrite lookup_nil in He. }
  destruct (p e) eqn:Hp.
  - split.
    + intros [= <-]. rewrite Nat.sub_diag. split; [done|]. split; [by exists e|]. lia.
    + intros (Hk & _ & Hall). destruct (decide (k = i)) as [->|]; [done|].
      rewrite (Hall 0%nat e) in Hp; [done|lia|done].
  - rewrite IH. split.
    + intros (Hk & (x & Hx & Hpx) & Hall). split; [lia|].
      replace (i - k)%nat with (S (i - S k)) by lia. split; [by exists x|].
      intros [|j] y Hj Hy; [by simplify_eq/=|]. apply (Hall j); [lia|done].
    + intros (Hk & (x & Hx & Hpx) & Hall).
      destruct (decide (k = i)) as [->|Hne]; [rewrite Nat.sub_diag in Hx; simplify_eq/=; congruence|].
      replace (i - k)%nat with (S (i - S k)) in * by lia. split; [lia|]. split; [by exists x|].
      intros j y Hj Hy. apply (Hall (S j)); [lia|done].
Qed.

Lemma find_entry_none p k l : find_entry p k l = None ↔ ∀ j e, l !! j = Some e → p e = false.
Proof.
  revert k. induction l as [|e l IH]; intros k; cbn.
  { split; [|done]. intros _ j e He. by rewrite lookup_nil in He. }
  destruct (p e) eqn:Hp.
  - split; [done|]. intros Hall. by rewrite (Hall 0%nat e) in Hp.
  - rewrite IH. split; intros Hall; [intros [|j] x Hx; [by simplify_eq/=|by eapply Hall]|].
    intros j x Hx. by apply (Hall (S j)).
Qed.

Lemma find_entry_zero p l i :
  find_entry p 0 l = Some i ↔
  (∃ e, l !! i = Some e ∧ p e = true) ∧ ∀ j e, (j < i)%nat → l !! j = Some e → p e = false.
Proof. rewrite find_entry_some, Nat.sub_0_r. split; [tauto|]. intros [??]. split; [lia|tauto]. Qed.

Lemma arp_lookup_some t ip eth :
  arp_lookup t ip = Some eth ↔
  ∃ i e, arp_table t !! i = Some e ∧ ae_ip e = ip ∧ ae_eth e = eth ∧
         ∀ j e', (j < i)%nat → arp_table t !! j = Some e' → ae_ip e' ≠ ip.
Proof.
  unfold arp_lookup. rewrite fmap_Some. split.
  - intros (i & Hf & ->). apply find_entry_zero in Hf as [(e & He & Hp) Hall].
    exists i, e. rewrite (list_lookup_total_correct _ _ _ He).
    apply uip_ipaddr_cmp_eq in Hp. split_and!; [done|done|done|].
    intros j e' Hj He' Hip. pose proof (Hall j e' Hj He') as Hn.
    by rewrite (proj2 (uip_ipaddr_cmp_eq _ _)) in Hn.
  - intros (i & e & He & <- & <- & Hall). exists i. rewrite (list_lookup_total_correct _ _ _ He).
    split; [|done]. apply find_entry_zero. split; [exists e; split; [done|by apply uip_ipaddr_cmp_eq]|].
    intros j e' Hj He'. pose proof (Hall j e' Hj He') as Hn.
    apply not_true_is_false. intros Heq%uip_ipaddr_cmp_eq. by apply Hn.
Qed.

(** An address both of whose halves are not zero, as [uip_arp_update] tests. *)
Definition plain_ip (ip : uip_ipaddr_t) : Prop := ip.1 ≠ 0 ∧ ip.2 ≠ 0.

Lemma entry_in_use_spec e : entry_in_use e = true ↔ plain_ip (ae_ip e).
Proof. unfold entry_in_use, plain_ip. by rewrite andb_true_iff, !negb_true_iff, !Z.eqb_neq. Qed.
Lemma entry_unused_spec e : entry_unused e = true ↔ ae_ip e = (0, 0).
Proof.
  unfold entry_unused. rewrite andb_true_iff, !Z.eqb_eq. destruct (ae_ip e) as [x y]. cbn. split; [by intros [-> ->]|by intros [= -> ->]].
Qed.

Lemma oldest_lt now a c i l n : (c < n)%nat → (i + length l ≤ n)%nat → (oldest now a c i l < n)%nat.
Proof.
  revert a c i. induction l as [|e l IH]; intros a c i Hc Hl; cbn in *; [done|].
  case_match; apply IH; lia.
Qed.

(** The slot [uip_arp_update] writes: the address's own one, else an unused
    one, else the oldest. *)
Inductive arp_slot (ip : uip_ipaddr_t) (t : arp) : nat → Prop :=
  | slot_own i e : arp_table t !! i = Some e → plain_ip ip → ae_ip e = ip →
      (∀ j e', (j < i)%nat → arp_table t !! j = Some e' → plain_ip (ae_ip e') → ae_ip e' ≠ ip) →
      arp_slot ip t i
  | slot_new i e : arp_table t !! i = Some e → ae_ip e = (0, 0) →
      (∀ j e', arp_table t !! j = Some e' → plain_ip (ae_ip e') → ae_ip e' ≠ ip) →
      arp_slot ip t i
  | slot_old i : (i < length (arp_table t))%nat →
      i = oldest (arptime t) 0 0 0 (arp_table t) →
      (∀ j e', arp_table t !! j = Some e' → ae_ip e' ≠ (0, 0)) →
      (∀ j e', arp_table t !! j = Some e' → plain_ip (ae_ip e') → ae_ip e' ≠ ip) →
      arp_slot ip t i.

Lemma uip_arp_update_spec ip eth t :
  (0 < length (arp_table t))%nat →
  ∃ i, arp_slot ip t i ∧
       arp_table (uip_arp_update ip eth t) = <[i := mk_arp_entry ip eth (arptime t)]> (arp_table t) ∧
       arptime (uip_arp_update ip eth t) = arptime t.
Proof.
  intros Hl. unfold uip_arp_update.
  assert (Hno : ∀ e, entry_in_use e && uip_ipaddr_cmp ip (ae_ip e) = false →
                     plain_ip (ae_ip e) → ae_ip e ≠ ip).
  { intros e Hf Hp%entry_in_use_spec <-. rewrite Hp in Hf. cbn in Hf.
    by rewrite (proj2 (uip_ipaddr_cmp_eq _ _)) in Hf. }
  assert (Hal : ∀ i f e, arp_table t !! i = Some e → alter f i (arp_table t) = <[i := f e]> (arp_table t)).
  { intros i f e He. apply list_eq. intros j. destruct (decide (i = j)) as [->|].
    - rewrite list_lookup_alter_eq, list_lookup_insert_eq, He by (by eapply lookup_lt_Some). done.
    - by rewrite list_lookup_alter_ne, list_lookup_insert_ne. }
  destruct (find_entry (λ e, entry_in_use e && _) 0 (arp_table t)) as [i|] eqn:H1.
  - apply find_entry_zero in H1 as [(e & He & [Hu Hc%uip_ipaddr_cmp_eq]%andb_true_iff) Hall].
    exists i. apply entry_in_use_spec in Hu. split; [|split; [|done]].
    + apply (slot_own ip t i e); [done|by rewrite Hc|done|]. intros j e' Hj He' Hp.
      apply Hno; [by eapply Hall|done].
    + cbn [arp_table set_field]. rewrite (Hal i _ e He). by destruct e; cbn in *; subst.
  - pose proof (proj1 (find_entry_none _ _ _) H1) as Hall.
    assert (Hnone : ∀ j e', arp_table t !! j = Some e' → plain_ip (ae_ip e') → ae_ip e' ≠ ip).
    { intros j e' He'. apply Hno. by eapply Hall. }
    destruct (find_entry entry_unused 0 (arp_table t)) as [i|] eqn:H2.
    + apply find_entry_zero in H2 as [(e & He & Hu%entry_unused_spec) _]. exists i.
      split; [by eapply slot_new|]. split; [|done]. cbn [arp_table set_field]. by rewrite (Hal i _ e He).
    + pose proof (proj1 (find_entry_none _ _ _) H2) as Hfull.
      set (i := oldest _ _ _ _ _). assert (Hi : (i < length (arp_table t))%nat) by (apply oldest_lt; lia).
      destruct (lookup_lt_is_Some_2 _ _ Hi) as [e He]. exists i. split; [|split; [|done]].
      * apply slot_old; [done|done| |done]. intros j e' He' Hz%entry_unused_spec.
        by rewrite (Hfull j e' He') in Hz.
      * cbn [arp_table set_field]. by rewrite (Hal i _ e He).
Qed.

Lemma insert_cases {X} (i j : nat) (x y : X) (l : list X) :
  <[i := x]> l !! j = Some y → (i = j ∧ y = x) ∨ (i ≠ j ∧ l !! j = Some y).
Proof. intros Hy. apply list_lookup_insert_Some in Hy as [(-> & -> & _)|[??]]; auto. Qed.

(** Two entries in use never have the same address. *)
Definition arp_uniq (t : arp) : Prop :=
  ∀ i j e e', arp_table t !! i = Some e → arp_table t !! j = Some e' →
              plain_ip (ae_ip e) → ae_ip e = ae_ip e' → i = j.

Lemma arp_slot_other ip t i j e :
  arp_uniq t → arp_slot ip t i → i ≠ j → arp_table t !! j = Some e → plain_ip (ae_ip e) → ae_ip e ≠ ip.
Proof.
  intros Hu Hs Hij He Hp Hip. destruct Hs as [i e' He' Hpi Hip' _|i e' He' _ Hno|i _ _ _ Hno].
  - apply Hij. eapply Hu; [done|done|by rewrite Hip'|congruence].
  - by eapply Hno.
  - by eapply Hno.
Qed.

Lemma uip_arp_update_uniq ip eth t :
  (0 < length (arp_table t))%nat → arp_uniq t → arp_uniq (uip_arp_update ip eth t).
Proof.
  intros Hl Hu. destruct (uip_arp_update_spec ip eth t Hl) as (k & Hs & Ht & _).
  intros i j e e'. rewrite Ht. intros He He' Hp Hip.
  apply insert_cases in He as [[<- ->]|[Hi He]]; apply insert_cases in He' as [[<- ->]|[Hj He']]; cbn in *.
  - done.
  - exfalso. eapply (arp_slot_other ip t k j e'); [done..|by rewrite <- Hip|done].
  - exfalso. by eapply (arp_slot_other ip t k i e).
  - by eapply Hu.
Qed.

Lemma arp_map_uniq f g t :
  (∀ e, ae_ip (f e) = ae_ip e ∨ ae_ip (f e) = (0, 0)) → arp_uniq t →
  arp_uniq (mk_arp (f <$> arp_table t) g).
Proof.
  intros Hf Hu i j e e'. cbn. rewrite !list_lookup_fmap.
  destruct (arp_table t !! i) as [x|] eqn:Hx, (arp_table t !! j) as [y|] eqn:Hy; cbn; try done.
  intros [= <-] [= <-] Hp Hip.
  destruct (Hf x) as [Ex|Ex]; [|rewrite Ex in Hp; by destruct Hp].
  destruct (Hf y) as [Ey|Ey]; [|rewrite Hip, Ey in Hp; by destruct Hp].
  eapply Hu; [done|done|by rewrite <- Ex|congruence].
Qed.

Lemma arp_update_found ip eth t :
  (0 < length (arp_table t))%nat → plain_ip ip → arp_lookup (uip_arp_update ip eth t) ip = Some eth.
Proof.
  intros Hl Hp. destruct (uip_arp_update_spec ip eth t Hl) as (i & Hs & Ht & _).
  assert (Hi : (i < length (arp_table t))%nat).
  { destruct Hs as [i e He _ _ _|i e He _ _|i Hi _ _ _]; [by eapply lookup_lt_Some..|done]. }
  apply arp_lookup_some. rewrite Ht. exists i, (mk_arp_entry ip eth (arptime t)).
  rewrite list_lookup_insert_eq by done. split_and!; [done..|].
  intros j e' Hj. rewrite list_lookup_insert_ne by lia. intros He' Hip.
  destruct Hs as [i e He _ _ Hno|i e He _ Hno|i _ _ _ Hno].
  - eapply (Hno j e'); [done|done|by rewrite Hip|done].
  - eapply (Hno j e'); [done|by rewrite Hip|done].
  - eapply (Hno j e'); [done|by rewrite Hip|done].
Qed.

(** The entry that is overwritten held the same address or none. *)
Lemma arp_update_frame ip eth t ip' :
  (0 < length (arp_table t))%nat → ip' ≠ ip → ip' ≠ (0, 0) →
  (∃ j e, arp_table t !! j = Some e ∧ (ae_ip e = (0, 0) ∨ (plain_ip ip ∧ ae_ip e = ip))) →
  arp_lookup (uip_arp_update ip eth t) ip' = arp_lookup t ip'.
Proof.
  intros Hl Hne Hnz Hroom. destruct (uip_arp_update_spec ip eth t Hl) as (i & Hs & Ht & _).
  assert (Hold : ∃ e, arp_table t !! i = Some e ∧ ae_ip e ≠ ip').
  { destruct Hs as [i e He _ <- _|i e He Hz _|i _ _ Hfull Hno]; [by eauto|exists e; split; [done|congruence]|].
    destruct Hroom as (j & e & He & [Hz|[Hp Hip]]); [by eapply Hfull in Hz|].
    exfalso. eapply Hno; [done|by rewrite Hip|done]. }
  destruct Hold as (e0 & He0 & Hip0). pose proof (lookup_lt_Some _ _ _ He0) as Hi.
  apply option_eq. intros eth'. rewrite !arp_lookup_some, Ht. split.
  - intros (k & e & He & <- & <- & Hall). exists k, e.
    apply insert_cases in He as [[<- ->]|[Hk He]]; [done|]. split_and!; [done..|].
    intros j e' Hj He'. destruct (decide (i = j)) as [->|]; [congruence|].
    apply (Hall j e' Hj). by rewrite list_lookup_insert_ne.
  - intros (k & e & He & <- & <- & Hall). exists k, e.
    assert (i ≠ k) by (intros ->; congruence). split_and!; [by rewrite list_lookup_insert_ne|done..|].
    intros j e' Hj He'. apply insert_cases in He' as [[<- ->]|[Hij He']]; [by cbn|by eapply Hall].
Qed.

(** The oldest entry is overwritten when there is no room. *)
Lemma oldest_spec now a c i l :
  0 ≤ a → (∀ e, e ∈ l → now - 255 ≤ ae_time e) →
  (c ≤ i)%nat →
  let r := oldest now a c i l in
  (r = c ∧ (∀ e, e ∈ l → now - ae_time e ≤ a)) ∨
  (∃ j e, r = (i + j)%nat ∧ l !! j = Some e ∧ a < now - ae_time e ∧
          ∀ e', e' ∈ l → now - ae_time e' ≤ now - ae_time e).
Proof.
  cbv zeta. revert a c i. induction l as [|e l IH]; intros a c i Ha Ht Hc; cbn [oldest].
  { left. split; [done|]. intros e He. by apply elem_of_nil in He. }
  assert (Ht' : ∀ e', e' ∈ l → now - 255 ≤ ae_time e') by (intros; apply Ht; by right).
  assert (He : now - 255 ≤ ae_time e) by (apply Ht; by left).
  destruct (Z.ltb_spec a (now - ae_time e)) as [Hlt|Hge].
  - rewrite wrap8_id by (unfold is_u8; lia). right.
    destruct (IH (now - ae_time e) i (S i)) as [[-> Hall]|(j & e' & -> & Hj & Hgt & Hall)]; [lia|done|lia|..].
    + exists 0%nat, e. split_and!; [lia|done|done|]. intros e' [->|He']%elem_of_cons; [lia|by apply Hall].
    + exists (S j), e'. split_and!; [lia|done|lia|]. intros e'' [->|He'']%elem_of_cons; [lia|by apply Hall].
  - destruct (IH a c (S i)) as [[-> Hall]|(j & e' & -> & Hj & Hgt & Hall)]; [lia|done|lia|..].
    + left. split; [done|]. intros e' [->|He']%elem_of_cons; [lia|by apply Hall].
    + right. exists (S j), e'. split_and!; [lia|done|lia|]. intros e'' [->|He'']%elem_of_cons; [lia|by apply Hall].
Qed.

(** ** Packets in the buffer *)

Section fields.
Variable l : list Z.
Hypothesis Hl : length l = 6%nat.

(** Reads at other constant offsets skip a six-byte write. *)
Lemma u8_put6_ne o o' b : (o' < o ∨ o + 6 ≤ o')%nat → u8 (put_bytes o l b) o' = u8 b o'.
Proof. intros. apply u8_put_bytes_ne. by rewrite Hl. Qed.
Lemma slice_put6_ne o o' b :
  (o + 6 ≤ o' ∨ o' + 6 ≤ o)%nat → slice o' 6 (put_bytes o l b) = slice o' 6 b.
Proof. intros. apply slice_put_bytes_ne. by rewrite Hl. Qed.
Lemma slice_put6_eq o b : (o + 6 ≤ length b)%nat → slice o 6 (put_bytes o l b) = l.
Proof. intros. rewrite slice_put_bytes by (rewrite Hl; lia). by rewrite take_ge by lia. Qed.
End fields.

Ltac six := first [done | rewrite length_replicate; done].
Ltac arp_simp :=
  repeat match goal with
  | |- context [u8 (put8 ?o ?v ?b) ?p] => rewrite (u8_put8_ne o p v b) by offsets
  | |- context [u8 (put16 ?o ?v ?b) ?p] => rewrite (u8_put16_ne o p v b) by offsets
  | |- context [u8 (put_ip ?o ?v ?b) ?p] => rewrite (u8_put_ip_ne o p v b) by offsets
  | |- context [u8 (put_bytes ?o ?v ?b) ?p] => rewrite (u8_put6_ne v ltac:(six) o p b) by offsets
  | |- context [slice ?o 6 (put8 ?p ?v ?b)] => rewrite (slice_put8_ne o 6 p v b) by offsets
  | |- context [slice ?o 6 (put16 ?p ?v ?b)] => rewrite (slice_put16_ne o 6 p v b) by offsets
  | |- context [slice ?o 6 (put_ip ?p ?v ?b)] => rewrite (slice_put_ip_ne o 6 p v b) by offsets
  | |- context [slice ?o 6 (put_bytes ?p ?v ?b)] => rewrite (slice_put6_ne v ltac:(six) p o b) by offsets
  end.

(** An ARP message in the buffer. *)
Record arp_msg (b : list Z) (op : Z) (sha : list Z) (sip : uip_ipaddr_t) (dip : uip_ipaddr_t) : Prop := {
  am_opcode : u16 b ARPBUF.opcode = HTONS op;
  am_shwaddr : slice ARPBUF.shwaddr 6 b = sha;
  am_sipaddr : get_ip b ARPBUF.sipaddr = sip;
  am_dipaddr : get_ip b ARPBUF.dipaddr = dip;
  am_src : slice ARPBUF.src 6 b = sha;
  am_type : u16 b ARPBUF.type = HTONS UIP_ETHTYPE_ARP
}.

Lemma u16_put16_htons o v b : (S o < length b)%nat → u16 (put16 o (HTONS v) b) o = HTONS v.
Proof. intros. rewrite u16_put16_eq by done. apply wrap16_id, HTONS_u16. Qed.

Lemma arp_ask_msg s ip :
  wf_uip s → wf_ip ip → arp_msg (arp_ask s ip) ARP_REQUEST (uip_ethaddr s) (uip_hostaddr s) ip.
Proof.
  intros Hwf Hip. assert (Hb : length (uip_buf s) = 422%nat) by apply Hwf.
  assert (He : length (uip_ethaddr s) = 6%nat) by apply Hwf.
  assert (Hh : wf_ip (uip_hostaddr s)) by apply Hwf. unfold arp_ask. cbv zeta. split.
  - unfold u16 at 1. arp_simp. apply u16_put16_htons. buf_len. rewrite Hb. offsets.
  - arp_simp. apply slice_put6_eq; [done|]. buf_len. rewrite Hb. offsets.
  - unfold get_ip at 1, u16. arp_simp. apply get_put_ip; [buf_len; rewrite Hb; offsets|done].
  - unfold get_ip at 1, u16. arp_simp. apply get_put_ip; [buf_len; rewrite Hb; offsets|done].
  - arp_simp. apply slice_put6_eq; [done|]. buf_len. rewrite Hb. offsets.
  - apply u16_put16_htons. buf_len. rewrite Hb. offsets.
Qed.

Lemma arp_ask_bytes s ip : bytes (uip_buf s) → bytes (uip_ethaddr s) → bytes (arp_ask s ip).
Proof.
  intros Hb He. assert (Hf : ∀ v, is_u8 v → bytes (replicate 6 v)) by (intros; by apply Forall_replicate).
  unfold arp_ask. cbv zeta.
  repeat first [apply put16_bytes | apply put8_bytes | apply put_ip_bytes | apply put_bytes_bytes; [first
    [exact He | apply Hf; split; [discriminate|reflexivity]]|]]. done.
Qed.

(** The answer, with the values it copies inside the buffer read out. *)
Lemma arp_answer_eq s sha sip :
  length (uip_buf s) = 422%nat → length (uip_ethaddr s) = 6%nat →
  slice ARPBUF.shwaddr 6 (uip_buf s) = sha → get_ip (uip_buf s) ARPBUF.sipaddr = sip →
  length sha = 6%nat ∧
  arp_answer s =
    put16 ARPBUF.type (HTONS UIP_ETHTYPE_ARP) (put_ip ARPBUF.sipaddr (uip_hostaddr s)
      (put_ip ARPBUF.dipaddr sip (put_bytes ARPBUF.dest sha (put_bytes ARPBUF.src (uip_ethaddr s)
        (put_bytes ARPBUF.shwaddr (uip_ethaddr s) (put_bytes ARPBUF.dhwaddr sha
          (put16 ARPBUF.opcode (HTONS 2) (uip_buf s)))))))).
Proof.
  intros Hb He H2 H3. assert (Hs : length sha = 6%nat).
  { rewrite <- H2, length_slice; [done|]. rewrite Hb. offsets. }
  split; [done|]. unfold arp_answer. cbv zeta.
  rewrite (slice_put16_ne ARPBUF.shwaddr 6 ARPBUF.opcode) by offsets. rewrite H2.
  rewrite (slice_put6_ne _ He ARPBUF.src ARPBUF.dhwaddr) by offsets.
  rewrite (slice_put6_ne _ He ARPBUF.shwaddr ARPBUF.dhwaddr) by offsets.
  rewrite (slice_put6_eq _ Hs) by (buf_len; rewrite Hb; offsets).
  match goal with |- context [get_ip ?b ARPBUF.sipaddr] => replace (get_ip b ARPBUF.sipaddr) with sip end; [done|].
  rewrite <- H3. unfold get_ip, u16. by arp_simp.
Qed.

Lemma arp_answer_msg s sha sip dip :
  wf_uip s → arp_msg (uip_buf s) ARP_REQUEST sha sip dip → wf_ip sip →
  arp_msg (arp_answer s) ARP_REPLY (uip_ethaddr s) (uip_hostaddr s) sip ∧
  slice ARPBUF.dest 6 (arp_answer s) = sha.
Proof.
  intros Hwf [H1 H2 H3 H4 _ _] Hip. assert (Hb : length (uip_buf s) = 422%nat) by apply Hwf.
  assert (He : length (uip_ethaddr s) = 6%nat) by apply Hwf.
  assert (Hh : wf_ip (uip_hostaddr s)) by apply Hwf.
  destruct (arp_answer_eq s sha sip Hb He H2 H3) as [Hs ->]. split; [split|].
  - unfold u16 at 1. arp_simp. apply u16_put16_htons. rewrite Hb. offsets.
  - arp_simp. apply slice_put6_eq; [done|]. buf_len. rewrite Hb. offsets.
  - unfold get_ip at 1, u16. arp_simp. apply get_put_ip; [buf_len; rewrite Hb; offsets|done].
  - unfold get_ip at 1, u16. arp_simp. apply get_put_ip; [buf_len; rewrite Hb; offsets|done].
  - arp_simp. apply slice_put6_eq; [done|]. buf_len. rewrite Hb. offsets.
  - apply u16_put16_htons. buf_len. rewrite Hb. offsets.
  - arp_simp. apply slice_put6_eq; [done|]. buf_len. rewrite Hb. offsets.
Qed.

Lemma arpin_request s t sha sip dip :
  arp_msg (uip_buf s) ARP_REQUEST sha sip dip → dip = uip_hostaddr s → ARPBUF.size ≤ uip_len s →
  uip_arp_arpin (s, t) =
    (s <| uip_buf := arp_answer s |> <| uip_len := ARPBUF.size |>, uip_arp_update sip sha t).
Proof.
  intros [H1 H2 H3 H4 _ _] -> Hl. unfold uip_arp_arpin. rewrite (proj2 (Z.ltb_ge _ _)) by done.
  cbv zeta. cbn [uip_buf uip_hostaddr set_field]. rewrite H1, H2, H3, H4, Z.eqb_refl.
  by rewrite (proj2 (uip_ipaddr_cmp_eq _ _)).
Qed.

Lemma arpin_reply s t sha sip dip :
  arp_msg (uip_buf s) ARP_REPLY sha sip dip → dip = uip_hostaddr s → ARPBUF.size ≤ uip_len s →
  uip_arp_arpin (s, t) = (s <| uip_len := 0 |>, uip_arp_update sip sha t).
Proof.
  intros [H1 H2 H3 H4 _ _] -> Hl. unfold uip_arp_arpin. rewrite (proj2 (Z.ltb_ge _ _)) by done.
  cbv zeta. cbn [uip_buf uip_hostaddr set_field]. rewrite H1, H2, H3, H4.
  change (HTONS ARP_REPLY =? HTONS ARP_REQUEST) with false. rewrite Z.eqb_refl.
  by rewrite (proj2 (uip_ipaddr_cmp_eq _ _)).
Qed.
