(* ===== verification/ArpThms.v ===== *)
(** * What the ARP module guarantees

    The table as a map from IP to Ethernet addresses, the request and reply
    exchange between two hosts running this code, and the frames of outgoing
    packets. *)

From S2P Require Import Prelude Bytes Checksum UipState Uip PacketSum UipInv Ports Options Httpd Flow TcpSeg TcpTx UipThms Arp.

(** ** The table *)

(** For an address both of whose 16-bit halves are not zero, what
    [uip_arp_update] stores is what the lookup of [uip_arp_out] finds; while
    there is room or the address is known, no other mapping changes; and no
    address gets two entries. *)
Theorem uip_arp_update_correct ip eth t :
  (0 < length (arp_table t))%nat → plain_ip ip →
  let t' := uip_arp_update ip eth t in
  arp_lookup t' ip = Some eth ∧
  (∀ ip', ip' ≠ ip → ip' ≠ (0, 0) →
     (∃ j e, arp_table t !! j = Some e ∧ (ae_ip e = (0, 0) ∨ ae_ip e = ip)) →
     arp_lookup t' ip' = arp_lookup t ip') ∧
  (arp_uniq t → arp_uniq t').
Proof.
  intros Hl Hp t'. split; [by apply arp_update_found|]. split.
  - intros ip' Hne Hnz (j & e & He & Hor). apply arp_update_frame; [done..|].
    exists j, e. split; [done|]. destruct Hor; auto.
  - by apply uip_arp_update_uniq.
Qed.

Definition demo_ip : uip_ipaddr_t := uip_ipaddr 10 0 2 2.
Definition demo_eth : list Z := [82; 85; 10; 0; 2; 2].

Lemma uip_arp_update_correct_witness :
  arp_lookup (uip_arp_update demo_ip demo_eth arp0) demo_ip = Some demo_eth.
Proof.
  apply (uip_arp_update_correct demo_ip demo_eth arp0); [cbn; lia|]. split; vm_compute; discriminate.
Defined.

(** When the table is full and the address is new, the entry that is
    replaced is one of greatest age (times not being ahead of the clock). *)
Theorem uip_arp_update_evicts ip eth t :
  (0 < length (arp_table t))%nat → is_u8 (arptime t) →
  (∀ e, e ∈ arp_table t → 0 ≤ ae_time e ≤ arptime t ∧ ae_ip e ≠ (0, 0) ∧ ae_ip e ≠ ip) →
  ∃ i old, arp_table t !! i = Some old ∧
    arp_table (uip_arp_update ip eth t) = <[i := mk_arp_entry ip eth (arptime t)]> (arp_table t) ∧
    ∀ e, e ∈ arp_table t → ae_time old ≤ ae_time e.
Proof.
  intros Hl Hnow Hall. destruct (uip_arp_update_spec ip eth t Hl) as (i & Hs & Ht & _).
  assert (Hno : ∀ j e, arp_table t !! j = Some e → 0 ≤ ae_time e ≤ arptime t ∧ ae_ip e ≠ (0, 0) ∧ ae_ip e ≠ ip).
  { intros j e He. apply Hall. by eapply list_elem_of_lookup_2. }
  destruct Hs as [i e He _ Hip _|i e He Hz _|i Hi Hold _ _];
    [by destruct (Hno i e He) as (_ & _ & ?)|by destruct (Hno i e He) as (_ & ? & _)|].
  destruct (lookup_lt_is_Some_2 _ _ Hi) as [old Ho]. exists i, old. split; [done|]. split; [done|].
  unfold is_u8 in Hnow. destruct (oldest_spec (arptime t) 0 0 0 (arp_table t)) as [[Hr Hge]|(j & e & Hr & He & _ & Hge)];
    [lia|intros e He; apply Hall in He; lia|lia|..]; rewrite <- Hold in Hr; subst i.
  - intros e He. specialize (Hge e He). destruct (Hno _ _ Ho) as [? _]. destruct (Hall e He) as [? _].
    lia.
  - rewrite Hr in Ho. cbn in Ho. rewrite He in Ho. injection Ho as ->. intros e' He'. specialize (Hge e' He'). lia.
Qed.

(** A full table whose third entry is the oldest. *)
Definition demo_full : arp :=
  mk_arp ((λ k, mk_arp_entry (5, Z.of_nat k) demo_eth (if decide (k = 3%nat) then 10 else 20)) <$> seq 1 8) 30.

Lemma uip_arp_update_evicts_witness :
  ∃ i old, arp_table demo_full !! i = Some old ∧ ae_time old = 10.
Proof.
  destruct (uip_arp_update_evicts demo_ip demo_eth demo_full) as (i & old & Ho & _ & Hmin).
  - cbn. lia.
  - range.
  - intros e (k & -> & _)%list_elem_of_fmap. cbn. case_decide; cbn; (split; [lia|split; discriminate]).
  - exists i, old. split; [exact Ho|].
    assert (Hk : old ∈ arp_table demo_full) by (by eapply list_elem_of_lookup_2).
    apply list_elem_of_fmap in Hk as (k & -> & _).
    assert (H3 : mk_arp_entry (5, 3) demo_eth 10 ∈ arp_table demo_full).
    { apply (list_elem_of_lookup_2 _ 2). reflexivity. }
    specialize (Hmin _ H3). clear H3 Ho. cbn in Hmin |- *. case_decide; lia.
Defined.

(** One tick of the timer removes exactly the mappings that are
    [UIP_ARP_MAXAGE] ticks old or older, keeps the others as they are, and keeps
    addresses unique. *)
Theorem uip_arp_timer_correct t :
  arptime (uip_arp_timer t) = wrap8 (arptime t + 1) ∧
  (∀ i e, arp_table t !! i = Some e →
     ∃ e', arp_table (uip_arp_timer t) !! i = Some e' ∧
       (UIP_ARP_MAXAGE ≤ wrap8 (arptime t + 1) - ae_time e → ae_ip e' = (0, 0)) ∧
       (wrap8 (arptime t + 1) - ae_time e < UIP_ARP_MAXAGE → e' = e)) ∧
  (arp_uniq t → arp_uniq (uip_arp_timer t)).
Proof.
  split; [done|]. split.
  - intros i e He. exists (arp_expire (wrap8 (arptime t + 1)) e). unfold uip_arp_timer. cbn [arp_table set_field].
    rewrite list_lookup_fmap, He. split; [done|]. unfold arp_expire. split.
    + intros Hage. rewrite (proj2 (Z.leb_le _ _)), andb_true_r by done.
      destruct (Z.eqb_spec (Z.lor (ae_ip e).1 (ae_ip e).2) 0) as [Hz|]; [|done]. cbn.
      apply Z.lor_eq_0_iff in Hz as [Hz1 Hz2]. destruct (ae_ip e). cbn in *. by subst.
    + intros Hage. by rewrite (proj2 (Z.leb_gt _ _)), andb_false_r.
  - intros Hu. apply (arp_map_uniq (arp_expire (wrap8 (arptime t + 1)))); [|done].
    intros e. unfold arp_expire. case_match; [by right|by left].
Qed.

(** A mapping stored when the clock is at 136 or later never expires: its
    age as computed stays below [UIP_ARP_MAXAGE] at every clock value, since
    the clock wraps around and the ages are not taken modulo 256. *)
Theorem arp_never_expires e now : is_u8 now → 136 ≤ ae_time e → arp_expire now e = e.
Proof.
  intros Hn He. unfold arp_expire, UIP_ARP_MAXAGE, is_u8 in *.
  rewrite (proj2 (Z.leb_gt _ _)), andb_false_r by lia. done.
Qed.

Lemma arp_never_expires_witness :
  arp_expire 20 (mk_arp_entry demo_ip demo_eth 140) = mk_arp_entry demo_ip demo_eth 140.
Proof. apply arp_never_expires; [range|cbn; lia]. Defined.

(** ** Two hosts *)

(** C39: The exchange works between two hosts that both run this code: the
    request [uip_arp_out] builds for the other host's address, given to that
    host's [uip_arp_arpin], is answered by 42 bytes addressed to the asker, and
    the answer given to the asker's [uip_arp_arpin] is consumed; afterwards each
    host's table maps the other's IP address to its Ethernet address. *)
Theorem arp_exchange a ta b tb :
  wf_uip a → wf_uip b → (0 < length (arp_table ta))%nat → (0 < length (arp_table tb))%nat →
  plain_ip (uip_hostaddr a) → plain_ip (uip_hostaddr b) →
  let '(b1, tb1) := uip_arp_arpin (b <| uip_buf := arp_ask a (uip_hostaddr b) |>
                                     <| uip_len := ARPBUF.size |>, tb) in
  let '(a1, ta1) := uip_arp_arpin (a <| uip_buf := uip_buf b1 |> <| uip_len := uip_len b1 |>, ta) in
  uip_len b1 = ARPBUF.size ∧ slice ARPBUF.dest 6 (uip_buf b1) = uip_ethaddr a ∧ uip_len a1 = 0 ∧
  arp_lookup tb1 (uip_hostaddr a) = Some (uip_ethaddr a) ∧
  arp_lookup ta1 (uip_hostaddr b) = Some (uip_ethaddr b).
Proof.
  intros Ha Hb Hta Htb Hpa Hpb.
  assert (Hia : wf_ip (uip_hostaddr a)) by apply Ha. assert (Hib : wf_ip (uip_hostaddr b)) by apply Hb.
  set (b0 := b <| uip_buf := arp_ask a (uip_hostaddr b) |> <| uip_len := ARPBUF.size |>).
  assert (Hask : arp_msg (uip_buf b0) ARP_REQUEST (uip_ethaddr a) (uip_hostaddr a) (uip_hostaddr b0))
    by by apply arp_ask_msg.
  assert (Hb0 : wf_uip b0).
  { destruct Hb, Ha. split; try done; cbn [b0 uip_buf uip_len set_field].
    - unfold arp_ask. cbv zeta. by buf_len.
    - by apply arp_ask_bytes. }
  rewrite (arpin_request b0 tb _ _ _ Hask eq_refl) by done.
  destruct (arp_answer_msg b0 _ _ _ Hb0 Hask Hia) as [Hans Hdest].
  set (a0 := a <| uip_buf := _ |> <| uip_len := _ |>).
  rewrite (arpin_reply a0 ta _ _ _ Hans eq_refl) by done.
  split_and!; [done|done|done|by apply arp_update_found|by apply arp_update_found].
Qed.

(** The demo host and its router. *)
Definition demo_router : uip :=
  demo_up <| uip_hostaddr := demo_ip |> <| uip_ethaddr := demo_eth |>.

Lemma wf_set_addr s ip eth :
  wf_uip s → wf_ip ip → length eth = 6%nat → bytes eth →
  wf_uip (s <| uip_hostaddr := ip |> <| uip_ethaddr := eth |>).
Proof. intros [] ? ? ?. by split. Qed.

Lemma demo_router_wf : wf_uip demo_router.
Proof.
  apply wf_set_addr; [apply inv_demo_up|range|reflexivity|]. apply (bool_decide_unpack _). reflexivity.
Qed.

Lemma arp_exchange_witness :
  let '(b1, tb1) := uip_arp_arpin (demo_router <| uip_buf := arp_ask demo_up demo_ip |>
                                     <| uip_len := ARPBUF.size |>, arp0) in
  let '(a1, ta1) := uip_arp_arpin (demo_up <| uip_buf := uip_buf b1 |> <| uip_len := uip_len b1 |>, arp0) in
  arp_lookup ta1 demo_ip = Some demo_eth.
Proof.
  assert (He := arp_exchange demo_up arp0 demo_router arp0 (inv_wf _ inv_demo_up) demo_router_wf
    ltac:(cbn; lia) ltac:(cbn; lia) ltac:(split; vm_compute; discriminate) ltac:(split; vm_compute; discriminate)).
  revert He. change (uip_hostaddr demo_router) with demo_ip. change (uip_ethaddr demo_router) with demo_eth.
  destruct (uip_arp_arpin _) as [b1 tb1]. destruct (uip_arp_arpin _) as [a1 ta1].
  intros (_ & _ & _ & _ & He). exact He.
Defined.

(** ** Outgoing packets *)

(** [uip_arp_out] frames an IP packet for its next hop (the destination on
    the local network, the default router otherwise): with a mapping the
    packet keeps its bytes after the Ethernet header, whose destination is the
    mapping's, and grows by 14 bytes; without one it is replaced by a 42-byte
    request for the next hop. *)
Theorem uip_arp_out_frames s t :
  wf_uip s → uip_len s ≤ 408 →
  (∀ e, e ∈ arp_table t → length (ae_eth e) = 6%nat) →
  get_ip (uip_buf s) BUF.destipaddr ≠ broadcast_ipaddr →
  let '(s', t') := uip_arp_out (s, t) in
  t' = t ∧
  match arp_lookup t (next_hop s) with
  | Some eth =>
      uip_len s' = uip_len s + 14 ∧ slice ARPBUF.dest 6 (uip_buf s') = eth ∧
      slice ARPBUF.src 6 (uip_buf s') = uip_ethaddr s ∧
      u16 (uip_buf s') ARPBUF.type = HTONS UIP_ETHTYPE_IP ∧
      ∀ n, slice 14 n (uip_buf s') = slice 14 n (uip_buf s)
  | None =>
      uip_len s' = 42 ∧ slice ARPBUF.dest 6 (uip_buf s') = broadcast_ethaddr ∧
      arp_msg (uip_buf s') ARP_REQUEST (uip_ethaddr s) (uip_hostaddr s) (next_hop s)
  end.
Proof.
  intros Hwf Hl Ht Hb. assert (Hlen : length (uip_buf s) = 422%nat) by apply Hwf.
  assert (He : length (uip_ethaddr s) = 6%nat) by apply Hwf. unfold uip_arp_out.
  destruct (uip_ipaddr_cmp _ broadcast_ipaddr) eqn:Hc; [by apply uip_ipaddr_cmp_eq in Hc|].
  cbv zeta. unfold arp_lookup. destruct (find_entry _ 0 (arp_table t)) as [i|] eqn:Hf; cbn [fmap option_fmap option_map].
  - split; [done|]. apply find_entry_zero in Hf as [(e & Hi & _) _].
    rewrite (list_lookup_total_correct _ _ _ Hi).
    assert (H6 : length (ae_eth e) = 6%nat) by (apply Ht; by eapply list_elem_of_lookup_2).
    unfold eth_send. cbv zeta. cbn [uip_len uip_buf set_field]. split_and!.
    + destruct Hwf. unfold uip_eth_hdr_size, is_u16 in *. rewrite wrap16_id; [done|]. unfold is_u16. lia.
    + arp_simp. apply slice_put6_eq; [done|]. rewrite Hlen. offsets.
    + arp_simp. apply slice_put6_eq; [done|]. buf_len. rewrite Hlen. offsets.
    + apply u16_put16_htons. buf_len. rewrite Hlen. offsets.
    + intros n. rewrite slice_put16_ne by offsets. rewrite !slice_put_bytes_ne; [done|..]; rewrite ?H6, ?He; offsets.
  - split; [done|]. cbn [uip_len uip_buf set_field]. split; [done|]. split.
    + unfold arp_ask. cbv zeta. arp_simp. apply slice_put6_eq; [done|]. rewrite Hlen. offsets.
    + apply arp_ask_msg; [done|]. unfold next_hop. case_match; [apply Hwf|]. apply get_ip_wf, Hwf.
Qed.

(** The SYN-ACK of the demo handshake, with and without a mapping. *)
Lemma uip_arp_out_frames_witness :
  uip_len (uip_arp_out (demo_syn_rcvd.1, uip_arp_update demo_ip demo_eth arp0)).1 = 58 ∧
  uip_len (uip_arp_out (demo_syn_rcvd.1, arp0)).1 = 42.
Proof.
  assert (Hw : wf_uip demo_syn_rcvd.1) by apply demo_syn_rcvd_inv.
  assert (Hd : get_ip (uip_buf demo_syn_rcvd.1) BUF.destipaddr ≠ broadcast_ipaddr) by (vm_compute; discriminate).
  assert (Hl : uip_len demo_syn_rcvd.1 ≤ 408) by (vm_compute; discriminate).
  split.
  - assert (H6 : ∀ e, e ∈ arp_table (uip_arp_update demo_ip demo_eth arp0) → length (ae_eth e) = 6%nat).
    { apply list.Forall_forall. apply (bool_decide_unpack _). reflexivity. }
    pose proof (uip_arp_out_frames _ _ Hw Hl H6 Hd) as Hf. revert Hf.
    destruct (uip_arp_out _) as [s' t']. intros [_ Hf]. vm_compute in Hf. apply Hf.
  - assert (H6 : ∀ e, e ∈ arp_table arp0 → length (ae_eth e) = 6%nat).
    { apply list.Forall_forall. apply (bool_decide_unpack _). reflexivity. }
    pose proof (uip_arp_out_frames _ _ Hw Hl H6 Hd) as Hf. revert Hf.
    destruct (uip_arp_out _) as [s' t']. intros [_ Hf]. vm_compute in Hf. apply Hf.
Defined.
