(* ===== verification/E1000.v ===== *)
(** * The e1000 driver (dev_net.c)

    The descriptor rings and packet buffers the driver shares with the device,
    its indices, and the device registers.  The device is a parameter: what a
    register or PCI configuration read returns depends on the accesses made so
    far ([nic_read], [pci_read]), and between two reads of a descriptor the
    device may change the memory it shares with the driver ([nic_dma]).
    Register writes are recorded in order.  [e1000_dma_sync] is a fence and
    the INFO lines only print. *)

From S2P Require Import Prelude Bytes.

(** ** Constants *)

Definition PCI_VENDOR_DEVICE : Z := 0x00.
Definition PCI_COMMAND : Z := 0x04.
Definition PCI_BAR0 : Z := 0x10.
Definition PCI_COMMAND_IO_EN : Z := 1.
Definition PCI_COMMAND_MEM_EN : Z := 2.
Definition PCI_COMMAND_BUSMASTER : Z := 4.
Definition E1000_VENDOR_ID : Z := 0x8086.
Definition E1000_DEVICE_ID : Z := 0x100e.
Definition ETH_CTL_BASE : Z := 0x41000000.

Definition E1000_CTRL : Z := 0x00000.
Definition E1000_EECD : Z := 0x00010.
Definition E1000_TCTL : Z := 0x00400.
Definition E1000_TIPG : Z := 0x00410.
Definition E1000_TDBAL : Z := 0x03800.
Definition E1000_TDBAH : Z := 0x03804.
Definition E1000_TDLEN : Z := 0x03808.
Definition E1000_TDH : Z := 0x03810.
Definition E1000_TDT : Z := 0x03818.
Definition E1000_RCTL : Z := 0x00100.
Definition E1000_RDBAL : Z := 0x02800.
Definition E1000_RDBAH : Z := 0x02804.
Definition E1000_RDLEN : Z := 0x02808.
Definition E1000_RDH : Z := 0x02810.
Definition E1000_RDT : Z := 0x02818.
Definition E1000_MTA : Z := 0x05200.
Definition E1000_RAL : Z := 0x05400.
Definition E1000_RAH : Z := 0x05404.

Definition E1000_CTRL_RST : Z := 2 ^ 26.
Definition E1000_CTRL_SLU : Z := 2 ^ 6.
Definition E1000_CTRL_ASDE : Z := 2 ^ 5.
Definition E1000_EECD_AUTO_RD : Z := 2 ^ 9.
Definition E1000_TXD_STAT_DD : Z := 1.
Definition E1000_TXD_CMD_EOP : Z := 1.
Definition E1000_TXD_CMD_IFCS : Z := 2.
Definition E1000_TXD_CMD_RS : Z := 8.
Definition E1000_RXD_STAT_DD : Z := 1.
Definition E1000_RXD_STAT_EOP : Z := 2.
Definition E1000_RAH_AV : Z := 2 ^ 31.

Definition E1000_TX_RING_SIZE : Z := 16.
Definition E1000_RX_RING_SIZE : Z := 16.
Definition E1000_TX_BUF_SIZE : Z := 2048.
Definition E1000_RX_BUF_SIZE : Z := 2048.
Definition E1000_TX_WAIT_SPINS : Z := 2 ^ 24.

Definition egos_mac : list Z := [0x52; 0x54; 0x00; 0x00; 0x00; 0x01].

(** ** The globals of dev_net.c *)

Record e1000_tx_desc := mk_tx_desc {
  td_buffer_addr : Z; td_length : Z; td_cso : Z; td_cmd : Z; td_status : Z; td_css : Z; td_special : Z
}.
#[export] Instance tx_desc_settable : Settable e1000_tx_desc :=
  settable! mk_tx_desc <td_buffer_addr; td_length; td_cso; td_cmd; td_status; td_css; td_special>.

Record e1000_rx_desc := mk_rx_desc {
  rd_buffer_addr : Z; rd_length : Z; rd_csum : Z; rd_status : Z; rd_errors : Z; rd_special : Z
}.
#[export] Instance rx_desc_settable : Settable e1000_rx_desc :=
  settable! mk_rx_desc <rd_buffer_addr; rd_length; rd_csum; rd_status; rd_errors; rd_special>.

#[export] Instance tx_desc_inhabited : Inhabited e1000_tx_desc := populate (mk_tx_desc 0 0 0 0 0 0 0).
#[export] Instance rx_desc_inhabited : Inhabited e1000_rx_desc := populate (mk_rx_desc 0 0 0 0 0 0).

(** [mmio] is the register writes made so far, the last one first. *)
Record e1000 := mk_e1000 {
  net_mmio_base : Z;
  tx_ring : list e1000_tx_desc;
  rx_ring : list e1000_rx_desc;
  tx_bufs : list (list Z);
  rx_bufs : list (list Z);
  tx_index : nat;
  rx_index : nat;
  mmio : list (Z * Z)
}.
#[export] Instance e1000_settable : Settable e1000 :=
  settable! mk_e1000 <net_mmio_base; tx_ring; rx_ring; tx_bufs; rx_bufs; tx_index; rx_index; mmio>.

(** The zero-initialised globals. *)
Definition e1000_0 : e1000 :=
  mk_e1000 0 (replicate 16 inhabitant) (replicate 16 inhabitant)
    (replicate 16 (replicate 2048 0)) (replicate 16 (replicate 2048 0)) 0 0 [].

(** ** The device *)

Class Nic := {
  nic_read : list (Z * Z) → Z → Z;
  pci_read : list (Z * Z) → Z → Z;
  nic_dma : e1000 → e1000;
  (** addresses of [tx_ring], [rx_ring], [tx_bufs] and [rx_bufs] *)
  addr_tx_ring : Z;
  addr_rx_ring : Z;
  addr_tx_bufs : Z;
  addr_rx_bufs : Z
}.

Section driver.
Context `{Nic}.

Definition E : Type → Type := M e1000.

Definition e1000_read (reg : Z) : E Z := getM (λ s, nic_read (mmio s) reg).
Definition e1000_write (reg value : Z) : E unit :=
  modM (λ s, s <| mmio ::= cons (reg, wrap32 value) |>).
Definition tx_buf_addr (i : nat) : Z := addr_tx_bufs + E1000_TX_BUF_SIZE * Z.of_nat i.
Definition rx_buf_addr (i : nat) : Z := addr_rx_bufs + E1000_RX_BUF_SIZE * Z.of_nat i.

(** The wait for AUTO_RD after a reset gives up after a million reads. *)
Fixpoint wait_auto_rd (timeout : nat) : E unit :=
  match timeout with
  | O => mret tt
  | S timeout =>
      v ← e1000_read E1000_EECD;
      if negb (Z.land v E1000_EECD_AUTO_RD =? 0) then mret tt else wait_auto_rd timeout
  end.

Definition e1000_reset : E unit :=
  ctrl ← e1000_read E1000_CTRL;
  e1000_write E1000_CTRL (Z.lor ctrl E1000_CTRL_RST);;
  wait_auto_rd (Z.to_nat 1000000).

Definition e1000_set_mac : E unit :=
  let m i := egos_mac !!! i in
  e1000_write E1000_RAL (Z.lor (Z.lor (Z.lor (m 0%nat) (Z.shiftl (m 1%nat) 8)) (Z.shiftl (m 2%nat) 16))
                               (Z.shiftl (m 3%nat) 24));;
  e1000_write E1000_RAH (Z.lor (Z.lor (m 4%nat) (Z.shiftl (m 5%nat) 8)) E1000_RAH_AV).

Fixpoint clear_mta_from (n : nat) (i : Z) : E unit :=
  match n with
  | O => mret tt
  | S n => e1000_write (E1000_MTA + i * 4) 0;; clear_mta_from n (i + 1)
  end.
Definition e1000_clear_mta : E unit := clear_mta_from 128 0.

Definition e1000_configure_ctrl : E unit :=
  ctrl ← e1000_read E1000_CTRL;
  e1000_write E1000_CTRL (Z.lor ctrl (Z.lor E1000_CTRL_SLU E1000_CTRL_ASDE)).

Definition e1000_tx_init : E unit :=
  modM (λ s, s <| tx_ring ::= imap (λ i _, mk_tx_desc (tx_buf_addr i) 0 0 0 E1000_TXD_STAT_DD 0 0) |>);;
  modM (λ s, s <| tx_index := 0%nat |>);;
  e1000_write E1000_TDBAL addr_tx_ring;;
  e1000_write E1000_TDBAH 0;;
  e1000_write E1000_TDLEN (16 * E1000_TX_RING_SIZE);;
  e1000_write E1000_TDH 0;;
  e1000_write E1000_TDT 0;;
  e1000_write E1000_TCTL (Z.lor (Z.lor (Z.lor 2 8) (Z.shiftl 0x10 4)) (Z.shiftl 0x40 12));;
  e1000_write E1000_TIPG 0x0060200A.

Definition e1000_rx_init : E unit :=
  modM (λ s, s <| rx_ring ::= imap (λ i _, mk_rx_desc (rx_buf_addr i) 0 0 0 0 0) |>);;
  modM (λ s, s <| rx_index := 0%nat |>);;
  e1000_write E1000_RDBAL addr_rx_ring;;
  e1000_write E1000_RDBAH 0;;
  e1000_write E1000_RDLEN (16 * E1000_RX_RING_SIZE);;
  e1000_write E1000_RDH 0;;
  e1000_write E1000_RDT (E1000_RX_RING_SIZE - 1);;
  e1000_write E1000_RCTL (Z.lor (Z.lor (Z.lor (Z.lor (Z.lor (Z.lor 2 4) 8) 16) (2 ^ 15)) (2 ^ 26)) 0).

(** PCI configuration writes are recorded with the registers, the offset
    counted from [ETH_PCI_ECAM]. *)
Definition ETH_PCI_ECAM : Z := 0x30018000.
Definition pci_cfg_read (offset : Z) : E Z := getM (λ s, pci_read (mmio s) offset).
Definition pci_cfg_write (offset value : Z) : E unit := e1000_write (ETH_PCI_ECAM + offset) value.

(** The busy wait for a free descriptor: [n] reads at most, the device
    running between them. *)
Fixpoint wait_tx (n : nat) : E unit :=
  st ← getM (λ s, td_status (tx_ring s !!! tx_index s));
  if negb (Z.land st E1000_TXD_STAT_DD =? 0) then mret tt
  else match n with
       | O => fail Fatal
       | S n => modM nic_dma;; wait_tx n
       end.

Definition net_send (length : Z) (packet : list Z) : E unit :=
  ASSERT (0 <? length);;
  ASSERT (length <=? E1000_TX_BUF_SIZE);;
  wait_tx (Z.to_nat (E1000_TX_WAIT_SPINS - 1));;
  i ← getM tx_index;
  (if (Z.to_nat length <=? List.length packet)%nat then
     modM (λ s, s <| tx_bufs ::= alter (put_bytes 0 (take (Z.to_nat length) packet)) i |>)
   else fail OutOfBounds);;
  modM (λ s, s <| tx_ring ::= alter (λ _,
    mk_tx_desc (tx_buf_addr i) length 0
      (Z.lor (Z.lor E1000_TXD_CMD_EOP E1000_TXD_CMD_IFCS) E1000_TXD_CMD_RS) 0 0 0) i |>);;
  let next_index := ((i + 1) mod Z.to_nat E1000_TX_RING_SIZE)%nat in
  e1000_write E1000_TDT (Z.of_nat next_index);;
  modM (λ s, s <| tx_index := next_index |>).

(** The frame copied into a buffer of [size] bytes; empty for the return
    value 0. *)
Definition net_recv (size : nat) : E (list Z) :=
  i ← getM rx_index;
  d ← getM (λ s, rx_ring s !!! i);
  if Z.land (rd_status d) E1000_RXD_STAT_DD =? 0 then mret []
  else if Z.land (rd_status d) E1000_RXD_STAT_EOP =? 0 then fail Fatal
  else
    let len := rd_length d in
    ASSERT (len <=? E1000_RX_BUF_SIZE);;
    data ← getM (λ s, take (Z.to_nat len) (rx_bufs s !!! i));
    (if (Z.to_nat len <=? size)%nat then mret tt else fail OutOfBounds);;
    modM (λ s, s <| rx_ring ::= alter (λ d, d <| rd_length := 0 |> <| rd_csum := 0 |>
      <| rd_status := 0 |> <| rd_errors := 0 |> <| rd_special := 0 |>) i |>);;
    e1000_write E1000_RDT (Z.of_nat i);;
    modM (λ s, s <| rx_index := ((i + 1) mod Z.to_nat E1000_RX_RING_SIZE)%nat |>);;
    mret data.

Definition net_init : E unit :=
  vendor_device ← pci_cfg_read PCI_VENDOR_DEVICE;
  let vendor_id := Z.land vendor_device 0xffff in
  let device_id := wrap16 (Z.shiftr vendor_device 16) in
  ASSERT (negb (vendor_id =? 0xffff));;
  ASSERT (vendor_id =? E1000_VENDOR_ID);;
  ASSERT (device_id =? E1000_DEVICE_ID);;
  pci_command ← pci_cfg_read PCI_COMMAND;
  let pci_command := Z.lor pci_command (Z.lor PCI_COMMAND_MEM_EN PCI_COMMAND_BUSMASTER) in
  let pci_command := Z.ldiff pci_command PCI_COMMAND_IO_EN in
  pci_cfg_write PCI_COMMAND pci_command;;
  pci_cfg_write PCI_BAR0 ETH_CTL_BASE;;
  bar ← pci_cfg_read PCI_BAR0;
  modM (λ s, s <| net_mmio_base := Z.ldiff bar 0xf |>);;
  ASSERT (negb (Z.ldiff bar 0xf =? 0));;
  e1000_reset;;
  e1000_configure_ctrl;;
  e1000_set_mac;;
  e1000_clear_mta;;
  e1000_rx_init;;
  e1000_tx_init.
End driver.

(** ** Invariant and laws *)

Record wf_e1000 (s : e1000) : Prop := {
  we_tx_ring : length (tx_ring s) = 16%nat;
  we_rx_ring : length (rx_ring s) = 16%nat;
  we_tx_bufs : length (tx_bufs s) = 16%nat;
  we_tx_buf : Forall (λ b, length b = 2048%nat) (tx_bufs s);
  we_rx_bufs : length (rx_bufs s) = 16%nat;
  we_rx_buf : Forall (λ b, length b = 2048%nat ∧ bytes b) (rx_bufs s);
  we_rx_len : Forall (λ d, is_u16 (rd_length d)) (rx_ring s);
  we_tx_index : (tx_index s < 16)%nat;
  we_rx_index : (rx_index s < 16)%nat
}.

(** What the driver relies on of the device: it writes only descriptors and
    receive buffers, within their types. *)
Class NicLaws `{Nic} := {
  nic_dma_wf : ∀ s, wf_e1000 s → wf_e1000 (nic_dma s);
  nic_dma_driver : ∀ s, tx_index (nic_dma s) = tx_index s ∧ rx_index (nic_dma s) = rx_index s ∧
                        tx_bufs (nic_dma s) = tx_bufs s ∧ mmio (nic_dma s) = mmio s
}.

(** The descriptor at the driver's index is free. *)
Definition tx_free (s : e1000) : bool :=
  negb (Z.land (td_status (tx_ring s !!! tx_index s)) E1000_TXD_STAT_DD =? 0).

Section specs.
Context `{NicLaws}.

Lemma wait_tx_ok n s k :
  (k ≤ n)%nat → tx_free (Nat.iter k nic_dma s) = true →
  ∃ j, (j ≤ k)%nat ∧ wait_tx n s = Ok (tt, Nat.iter j nic_dma s).
Proof.
  revert s k. induction n as [|n IH]; intros s k Hk Hf; cbn [wait_tx].
  - replace k with 0%nat in * by lia. exists 0%nat. split; [done|]. cbn in Hf.
    unfold mbind, M_bind, getM. unfold tx_free in Hf. by rewrite Hf.
  - unfold mbind, M_bind, getM. destruct (tx_free s) eqn:Hs.
    + exists 0%nat. split; [lia|]. unfold tx_free in Hs. by rewrite Hs.
    + destruct k as [|k]; [cbn in Hf; congruence|].
      destruct (IH (nic_dma s) k) as (j & Hj & Hr); [lia|by rewrite <- Nat.iter_succ_r|].
      exists (S j). split; [lia|]. rewrite Nat.iter_succ_r.
      unfold tx_free in Hs. rewrite Hs. cbn. unfold modM. done.
Qed.

Lemma wait_tx_stuck n s :
  (∀ k, (k ≤ n)%nat → tx_free (Nat.iter k nic_dma s) = false) → wait_tx n s = Err Fatal.
Proof.
  revert s. induction n as [|n IH]; intros s Hf; cbn [wait_tx]; unfold mbind, M_bind, getM;
    pose proof (Hf 0%nat ltac:(lia)) as H0'; cbn in H0'; unfold tx_free in H0'; rewrite H0'; [done|].
  apply IH. intros k Hk. rewrite <- Nat.iter_succ_r. apply Hf. lia.
Qed.

Lemma dma_iter k s :
  wf_e1000 s → wf_e1000 (Nat.iter k nic_dma s) ∧ tx_index (Nat.iter k nic_dma s) = tx_index s ∧
               tx_bufs (Nat.iter k nic_dma s) = tx_bufs s ∧ mmio (Nat.iter k nic_dma s) = mmio s.
Proof.
  intros Hw. induction k as [|k (Hwk & Hi & Hb & Hm)]; [done|]. rewrite Nat.iter_succ.
  destruct (nic_dma_driver (Nat.iter k nic_dma s)) as (E1 & _ & E2 & E3).
  split; [by apply nic_dma_wf|]. split_and!; congruence.
Qed.

(** The state [net_send] leaves, the device having been waited for. *)
Definition queued (len : Z) (packet : list Z) (s : e1000) : e1000 :=
  let i := tx_index s in
  let next := ((i + 1) mod 16)%nat in
  s <| tx_bufs ::= alter (put_bytes 0 (take (Z.to_nat len) packet)) i |>
    <| tx_ring ::= alter (λ _, mk_tx_desc (tx_buf_addr i) len 0 11 0 0 0) i |>
    <| mmio ::= cons (E1000_TDT, Z.of_nat next) |>
    <| tx_index := next |>.

Lemma net_send_ok len packet s j :
  0 < len ≤ 2048 → (Z.to_nat len ≤ length packet)%nat →
  wait_tx (Z.to_nat (E1000_TX_WAIT_SPINS - 1)) s = Ok (tt, Nat.iter j nic_dma s) →
  net_send len packet s = Ok (tt, queued len packet (Nat.iter j nic_dma s)).
Proof.
  intros Hl Hp Hw. unfold net_send, ASSERT. rewrite (proj2 (Z.ltb_lt _ _)) by lia.
  rewrite (proj2 (Z.leb_le _ _)) by (unfold E1000_TX_BUF_SIZE; lia).
  unfold mbind, M_bind, mret, M_ret. rewrite Hw. cbn -[Nat.modulo take put_bytes].
  rewrite (proj2 (Nat.leb_le _ _)) by done. unfold modM, e1000_write, queued. cbn -[Nat.modulo take put_bytes].
  f_equal. f_equal. unfold set_field. cbn -[Nat.modulo take put_bytes].
  change (Pos.to_nat 16) with 16%nat. f_equal. f_equal. f_equal. unfold wrap32.
  apply Z.mod_small. pose proof (Nat.mod_upper_bound (tx_index (Nat.iter j nic_dma s) + 1) 16). lia.
Qed.

Lemma queued_wf len packet s :
  wf_e1000 s → wf_e1000 (queued len packet s).
Proof.
  intros []. split; cbn; try done; rewrite ?length_alter; try done.
  - apply Forall_alter; [done|]. intros b Hb Hlb. by rewrite length_put_bytes.
  - pose proof (Nat.mod_upper_bound (tx_index s + 1) 16). lia.
Qed.
End specs.

(** ** Theorems *)

Section theorems.
Context `{NicLaws}.

(** [net_send] of a packet that fits, on a ring whose next descriptor
    becomes free within the spin limit, returns with the packet in that
    slot's buffer, its descriptor describing it and owned by the device, no
    other buffer touched, and the tail register moved to the next slot. *)
Theorem net_send_queues len packet s k :
  wf_e1000 s → 0 < len ≤ 2048 → (Z.to_nat len ≤ length packet)%nat →
  (k < Z.to_nat E1000_TX_WAIT_SPINS)%nat → tx_free (Nat.iter k nic_dma s) = true →
  let i := tx_index s in
  ∃ s' b, net_send len packet s = Ok (tt, s') ∧ wf_e1000 s' ∧
    tx_bufs s' !! i = Some b ∧ take (Z.to_nat len) b = take (Z.to_nat len) packet ∧
    tx_ring s' !! i = Some (mk_tx_desc (tx_buf_addr i) len 0 11 0 0 0) ∧
    (∀ j, j ≠ i → tx_bufs s' !! j = tx_bufs s !! j) ∧
    tx_index s' = ((i + 1) mod 16)%nat ∧
    mmio s' = (E1000_TDT, Z.of_nat (tx_index s')) :: mmio s.
Proof.
  intros Hw Hl Hp Hk Hf i.
  destruct (wait_tx_ok (Z.to_nat (E1000_TX_WAIT_SPINS - 1)) s k) as (j & _ & Hr); [lia|done|].
  destruct (dma_iter j s Hw) as (Hwj & Hi & Hb & Hm). set (s1 := Nat.iter j nic_dma s) in *.
  assert (Hlt : (i < length (tx_bufs s))%nat) by (rewrite (we_tx_bufs s) by done; apply Hw).
  destruct (lookup_lt_is_Some_2 _ _ Hlt) as [b Hbi].
  assert (Hlb : length b = 2048%nat) by (by eapply (Forall_lookup_1 _ _ _ _ (we_tx_buf _ Hw))).
  exists (queued len packet s1), (put_bytes 0 (take (Z.to_nat len) packet) b).
  split; [by apply net_send_ok|]. split; [by apply queued_wf|].
  unfold queued. cbn -[Nat.modulo take put_bytes]. rewrite Hi, Hb, Hm. fold i. split_and!; try done.
  - by rewrite list_lookup_alter_eq, Hbi.
  - change (take (Z.to_nat len) (put_bytes 0 (take (Z.to_nat len) packet) b))
      with (slice 0 (Z.to_nat len) (put_bytes 0 (take (Z.to_nat len) packet) b)).
    rewrite slice_put_bytes by (rewrite length_take; lia). rewrite take_take. by rewrite Nat.min_id.
  - destruct (lookup_lt_is_Some_2 (tx_ring s1) i) as [d Hd].
    { rewrite (we_tx_ring s1) by done. rewrite <- (we_tx_bufs s) by done. done. }
    by rewrite list_lookup_alter_eq, Hd.
  - intros j' Hj. by apply list_lookup_alter_ne.
Qed.

(** [net_send] stops the kernel on a length that is not positive, on one
    beyond the 2048-byte buffer, and on a descriptor the device does not
    release within [E1000_TX_WAIT_SPINS] reads; nothing is queued. *)
Theorem net_send_fatal len packet s :
  len ≤ 0 ∨ 2048 < len ∨
  (∀ k, (k < Z.to_nat E1000_TX_WAIT_SPINS)%nat → tx_free (Nat.iter k nic_dma s) = false) →
  net_send len packet s = Err Fatal.
Proof.
  intros Hor. unfold net_send, ASSERT, E1000_TX_BUF_SIZE.
  destruct (Z.ltb_spec 0 len) as [H1|H1]; [|done]. destruct (Z.leb_spec len 2048) as [H2|H2]; [|done].
  destruct Hor as [?|[?|Hst]]; [lia|lia|]. unfold mbind, M_bind, mret, M_ret.
  rewrite wait_tx_stuck; [done|]. intros k Hk. apply Hst. unfold E1000_TX_WAIT_SPINS in *. lia.
Qed.

Lemma net_recv_spec size s :
  wf_e1000 s →
  let i := rx_index s in
  let d := rx_ring s !!! i in
  let dd := negb (Z.land (rd_status d) E1000_RXD_STAT_DD =? 0) in
  let eop := negb (Z.land (rd_status d) E1000_RXD_STAT_EOP =? 0) in
  let n := Z.to_nat (rd_length d) in
  if negb dd then net_recv size s = Ok ([], s)
  else if eop && (rd_length d <=? 2048) then
    if (n <=? size)%nat then
      ∃ s', net_recv size s = Ok (take n (rx_bufs s !!! i), s') ∧ wf_e1000 s' ∧
            length (take n (rx_bufs s !!! i)) = n ∧ bytes (take n (rx_bufs s !!! i)) ∧
            rd_status (rx_ring s' !!! i) = 0 ∧ rx_index s' = ((i + 1) mod 16)%nat ∧
            mmio s' = (E1000_RDT, Z.of_nat i) :: mmio s
    else net_recv size s = Err OutOfBounds
  else net_recv size s = Err Fatal.
Proof.
  intros Hw i d dd eop n. unfold net_recv, ASSERT, E1000_RX_BUF_SIZE.
  unfold mbind, M_bind, mret, M_ret, getM. fold i. fold d. unfold dd, eop in *.
  destruct (Z.land (rd_status d) E1000_RXD_STAT_DD =? 0); [done|]. cbn [negb].
  destruct (Z.land (rd_status d) E1000_RXD_STAT_EOP =? 0); [done|]. cbn [negb andb].
  destruct (Z.leb_spec (rd_length d) 2048) as [Hl|]; [|done]. fold n.
  destruct (n <=? size)%nat; [|done]. unfold modM, e1000_write. eexists. split; [done|].
  assert (Hi : (i < 16)%nat) by apply Hw.
  destruct (lookup_lt_is_Some_2 (rx_bufs s) i) as [b Hb]; [by rewrite (we_rx_bufs s)|].
  destruct (lookup_lt_is_Some_2 (rx_ring s) i) as [d' Hd]; [by rewrite (we_rx_ring s)|].
  pose proof (Forall_lookup_1 _ _ _ _ (we_rx_buf _ Hw) Hb) as [Hlb Hbb].
  rewrite (list_lookup_total_correct _ _ _ Hb).
  assert (Hm : ((i + 1) mod 16 < 16)%nat) by (apply Nat.mod_upper_bound; lia). split_and!.
  - destruct Hw. split; cbn; try done; rewrite ?length_alter; try done.
    apply Forall_alter; [done|]. intros x _ _. cbn. unfold is_u16. lia.
  - rewrite length_take, Hlb. unfold n. lia.
  - by apply Forall_take.
  - cbn [rx_ring set_field]. rewrite list_lookup_total_alt, list_lookup_alter_eq, Hd. done.
  - done.
  - cbn [mmio set_field]. f_equal. f_equal. unfold wrap32. apply Z.mod_small. lia.
Qed.

Lemma net_recv_cases size s :
  wf_e1000 s →
  net_recv size s = Ok ([], s) ∨ net_recv size s = Err OutOfBounds ∨ net_recv size s = Err Fatal ∨
  ∃ f s', net_recv size s = Ok (f, s') ∧ wf_e1000 s' ∧ (length f ≤ size)%nat ∧ (length f ≤ 2048)%nat ∧ bytes f.
Proof.
  intros Hw. pose proof (net_recv_spec size s Hw) as Hs. cbv zeta in Hs.
  destruct (negb (negb _)); [by left|]. destruct (_ && _) eqn:Ha; [|by right; right; left].
  apply andb_true_iff in Ha as [_ Hl%Z.leb_le].
  destruct (Nat.leb_spec (Z.to_nat (rd_length (rx_ring s !!! rx_index s))) size); [|by right; left].
  destruct Hs as (s' & Hr & Hw' & Hn & Hb & _). do 3 right. eexists _, s'. split; [done|].
  split_and!; [done|lia|lia|done].
Qed.

(** [net_recv] on a ring in its types: without a finished descriptor it
    returns 0 and changes nothing; a frame that is complete, at most 2048
    bytes long and no longer than the caller's buffer is copied out of the
    slot's buffer, the descriptor is cleared and given back through the tail
    register, and the index moves on; otherwise the kernel stops or the copy
    overruns the caller's buffer. *)
Theorem net_recv_takes size s :
  wf_e1000 s →
  let i := rx_index s in
  let d := rx_ring s !!! i in
  let dd := negb (Z.land (rd_status d) E1000_RXD_STAT_DD =? 0) in
  let eop := negb (Z.land (rd_status d) E1000_RXD_STAT_EOP =? 0) in
  let n := Z.to_nat (rd_length d) in
  if negb dd then net_recv size s = Ok ([], s)
  else if eop && (rd_length d <=? 2048) then
    if (n <=? size)%nat then
      ∃ s', net_recv size s = Ok (take n (rx_bufs s !!! i), s') ∧ wf_e1000 s' ∧
            length (take n (rx_bufs s !!! i)) = n ∧ bytes (take n (rx_bufs s !!! i)) ∧
            rd_status (rx_ring s' !!! i) = 0 ∧ rx_index s' = ((i + 1) mod 16)%nat ∧
            mmio s' = (E1000_RDT, Z.of_nat i) :: mmio s
    else net_recv size s = Err OutOfBounds
  else net_recv size s = Err Fatal.
Proof. apply net_recv_spec. Qed.

(** Sending a sequence of packets. *)
Fixpoint send_all (ps : list (list Z)) : E unit :=
  match ps with
  | [] => mret tt
  | p :: ps => net_send (Z.of_nat (length p)) p;; send_all ps
  end.

Definition slot (s : e1000) (j : nat) : nat := ((tx_index s + j) mod 16)%nat.
Definition slot_free (s : e1000) (j : nat) : bool :=
  negb (Z.land (td_status (tx_ring s !!! slot s j)) E1000_TXD_STAT_DD =? 0).

Lemma slot_succ s j len p : slot (queued len p s) j = slot s (S j).
Proof.
  unfold slot, queued. cbn -[Nat.modulo]. rewrite Nat.Div0.add_mod_idemp_l. f_equal. lia.
Qed.

Lemma slot_inj s j k : (j < 16)%nat → (k < 16)%nat → slot s j = slot s k → j = k.
Proof.
  unfold slot. intros Hj Hk He.
  pose proof (Nat.div_mod (tx_index s + j) 16). pose proof (Nat.div_mod (tx_index s + k) 16). lia.
Qed.

Lemma slot_0 s : wf_e1000 s → slot s 0 = tx_index s.
Proof. intros Hw. unfold slot. rewrite Nat.add_0_r. apply Nat.mod_small. apply Hw. Qed.

(** Sending into a free slot touches that slot alone. *)
Lemma net_send_free p s :
  wf_e1000 s → tx_free s = true → (0 < length p ≤ 2048)%nat →
  net_send (Z.of_nat (length p)) p s = Ok (tt, queued (Z.of_nat (length p)) p s).
Proof.
  intros Hw Hf Hp.
  destruct (wait_tx_ok (Z.to_nat (E1000_TX_WAIT_SPINS - 1)) s 0) as (j & Hj & Hr); [lia|done|].
  replace j with 0%nat in Hr by lia. apply (net_send_ok _ _ _ 0); [lia|lia|done].
Qed.

Lemma queued_slot p s :
  wf_e1000 s → (length p ≤ 2048)%nat →
  (∃ b, tx_bufs (queued (Z.of_nat (length p)) p s) !! tx_index s = Some b ∧ take (length p) b = p) ∧
  tx_ring (queued (Z.of_nat (length p)) p s) !! tx_index s =
    Some (mk_tx_desc (tx_buf_addr (tx_index s)) (Z.of_nat (length p)) 0 11 0 0 0).
Proof.
  intros Hw Hp. pose proof (we_tx_index _ Hw) as Hi.
  destruct (lookup_lt_is_Some_2 (tx_bufs s) (tx_index s)) as [b Hb]; [by rewrite (we_tx_bufs s)|].
  destruct (lookup_lt_is_Some_2 (tx_ring s) (tx_index s)) as [d Hd]; [by rewrite (we_tx_ring s)|].
  assert (Hlb : length b = 2048%nat) by (by eapply (Forall_lookup_1 _ _ _ _ (we_tx_buf _ Hw))).
  unfold queued. cbn -[Nat.modulo take put_bytes]. rewrite !list_lookup_alter_eq, Hb, Hd. split; [|done].
  eexists. split; [done|]. rewrite Nat2Z.id, firstn_all.
  change (slice 0 (length p) (put_bytes 0 p b) = p). rewrite slice_put_bytes by lia. by rewrite firstn_all.
Qed.

Lemma queued_frame len p s i :
  i ≠ tx_index s → tx_bufs (queued len p s) !! i = tx_bufs s !! i ∧
                   tx_ring (queued len p s) !! i = tx_ring s !! i.
Proof. intros Hi. unfold queued. cbn -[Nat.modulo take put_bytes]. by rewrite !list_lookup_alter_ne. Qed.

(** C37: The transmit ring is a queue: up to sixteen packets sent into free
    descriptors are in consecutive slots, in order, each described by its
    descriptor, the other slots are untouched, and the index (what the tail
    register was last set to) is behind the last one. *)
Theorem tx_fifo ps s :
  wf_e1000 s → (length ps ≤ 16)%nat →
  (∀ j, (j < length ps)%nat → slot_free s j = true) →
  Forall (λ p, (0 < length p ≤ 2048)%nat) ps →
  ∃ s', send_all ps s = Ok (tt, s') ∧ wf_e1000 s' ∧ tx_index s' = slot s (length ps) ∧
    (∀ j p, ps !! j = Some p →
      (∃ b, tx_bufs s' !! slot s j = Some b ∧ take (length p) b = p) ∧
      tx_ring s' !! slot s j = Some (mk_tx_desc (tx_buf_addr (slot s j)) (Z.of_nat (length p)) 0 11 0 0 0)) ∧
    (∀ i, (∀ j, (j < length ps)%nat → i ≠ slot s j) →
      tx_bufs s' !! i = tx_bufs s !! i ∧ tx_ring s' !! i = tx_ring s !! i).
Proof.
  revert s. induction ps as [|p ps IH]; intros s Hw Hl Hf Hp.
  { exists s. split; [done|]. split; [done|]. split; [by rewrite slot_0|].
    split; [intros j q Hq; by rewrite lookup_nil in Hq|done]. }
  inversion_clear Hp as [|? ? Hp1 Hps]. cbn [length] in *.
  assert (H0' : tx_free s = true).
  { pose proof (Hf 0%nat ltac:(lia)) as Hf0. unfold slot_free in Hf0. by rewrite slot_0 in Hf0. }
  set (q := queued (Z.of_nat (length p)) p s).
  destruct (IH q) as (s' & Hr & Hw' & Hi & Hin & Hfr); [by apply queued_wf|lia| |done|].
  { intros j Hj. unfold slot_free, q. rewrite slot_succ, list_lookup_total_alt.
    rewrite (proj2 (queued_frame _ _ _ (slot s (S j)) ltac:(
      rewrite <- (slot_0 s) by done; intros He; apply slot_inj in He; lia))).
    rewrite <- list_lookup_total_alt. apply (Hf (S j)). lia. }
  exists s'. split; [cbn [send_all]; unfold mbind, M_bind; by rewrite net_send_free|].
  split; [done|]. split; [by rewrite Hi; apply slot_succ|].
  assert (Hs : ∀ j, slot q j = slot s (S j)) by (intros; apply slot_succ). split.
  - intros [|j] p' Hj; cbn in Hj; [|rewrite <- Hs; by apply Hin]. injection Hj as <-.
    destruct (Hfr (slot s 0)) as [Eb Er].
    { intros j Hj. rewrite Hs. intros He. apply slot_inj in He; lia. }
    rewrite Eb, Er, slot_0 by done. apply queued_slot; [done|lia].
  - intros i Hne. destruct (Hfr i) as [-> ->]; [intros j Hj; rewrite Hs; apply Hne; lia|].
    apply queued_frame. rewrite <- slot_0 by done. apply Hne. lia.
Qed.
End theorems.

(** ** Initialisation *)

(** The value last written to a register. *)
Definition reg (s : e1000) (r : Z) : option Z := snd <$> List.find (λ w, w.1 =? r) (mmio s).

Lemma reg_hit s r v : reg (s <| mmio ::= cons (r, v) |>) r = Some v.
Proof. unfold reg. cbn. by rewrite Z.eqb_refl. Qed.
Lemma reg_miss s r r' v : (r' =? r) = false → reg (s <| mmio ::= cons (r', v) |>) r = reg s r.
Proof. unfold reg. cbn. by intros ->. Qed.
Lemma reg_app s l r :
  Forall (λ w, w.1 ≠ r) l → reg (s <| mmio ::= app l |>) r = reg s r.
Proof.
  unfold reg. cbn. induction 1 as [|w l Hw _ IH]; [done|]. cbn. by rewrite (proj2 (Z.eqb_neq _ _) Hw).
Qed.
Lemma reg_tx_ring s f r : reg (s <| tx_ring ::= f |>) r = reg s r.
Proof. done. Qed.
Lemma reg_rx_ring s f r : reg (s <| rx_ring ::= f |>) r = reg s r.
Proof. done. Qed.
Lemma reg_tx_index s i r : reg (s <| tx_index := i |>) r = reg s r.
Proof. done. Qed.
Lemma reg_rx_index s i r : reg (s <| rx_index := i |>) r = reg s r.
Proof. done. Qed.
Create Rewrite HintDb e1000_reg.
#[export] Hint Rewrite reg_hit reg_tx_ring reg_rx_ring reg_tx_index reg_rx_index : e1000_reg.
#[export] Hint Rewrite reg_miss using done : e1000_reg.

Section init.
Context `{Nic}.

Lemma clear_mta_from_ok n i s :
  ∃ l, clear_mta_from n i s = Ok (tt, s <| mmio ::= app l |>) ∧
       Forall (λ w, E1000_MTA + i * 4 ≤ w.1 < E1000_MTA + (i + Z.of_nat n) * 4) l.
Proof.
  revert i s. induction n as [|n IH]; intros i s.
  { exists []. split; [by destruct s|done]. }
  destruct (IH (i + 1) (s <| mmio ::= cons (E1000_MTA + i * 4, 0) |>)) as (l & Hr & Hl).
  exists (l ++ [(E1000_MTA + i * 4, 0)]). split.
  - cbn [clear_mta_from]. unfold mbind, M_bind, e1000_write, modM. change (wrap32 0) with 0. rewrite Hr.
    destruct s. unfold set_field. cbn. by rewrite <- app_assoc.
  - apply Forall_app. split; [|constructor; [cbn; lia|constructor]].
    eapply Forall_impl; [|exact Hl]. cbn. lia.
Qed.

Lemma wait_auto_rd_ok n s : wait_auto_rd n s = Ok (tt, s).
Proof.
  induction n as [|n IH]; [done|]. cbn [wait_auto_rd]. unfold mbind, M_bind, e1000_read, getM.
  destruct (negb _); [done|apply IH].
Qed.

Lemma e1000_reset_ok s :
  e1000_reset s = Ok (tt, s <| mmio ::= cons (E1000_CTRL,
    wrap32 (Z.lor (nic_read (mmio s) E1000_CTRL) E1000_CTRL_RST)) |>).
Proof. apply wait_auto_rd_ok. Qed.

(** The ring and index part of [net_init]. *)
Definition rings_ready (s s' : e1000) : Prop :=
  tx_ring s' = imap (λ i _, mk_tx_desc (tx_buf_addr i) 0 0 0 E1000_TXD_STAT_DD 0 0) (tx_ring s) ∧
  rx_ring s' = imap (λ i _, mk_rx_desc (rx_buf_addr i) 0 0 0 0 0) (rx_ring s) ∧
  tx_bufs s' = tx_bufs s ∧ rx_bufs s' = rx_bufs s ∧ tx_index s' = 0%nat ∧ rx_index s' = 0%nat.

Lemma rings_ready_wf s s' : wf_e1000 s → rings_ready s s' → wf_e1000 s'.
Proof.
  intros [] (Et & Er & Eb & Erb & Hi & Hj).
  split; rewrite ?Et, ?Er, ?Eb, ?Erb, ?Hi, ?Hj, ?length_imap; try done; [|lia|lia].
  apply Forall_lookup. intros i d Hd. rewrite list_lookup_imap in Hd.
  destruct (rx_ring s !! i); [|done]. cbn in Hd. injection Hd as <-. cbn. unfold is_u16. lia.
Qed.

Lemma rings_ready_free s s' j :
  wf_e1000 s → rings_ready s s' → (j < 16)%nat → slot_free s' j = true.
Proof.
  intros [] (Et & _ & _ & _ & Hi & _) Hj. unfold slot_free, slot. rewrite Et, Hi.
  rewrite Nat.mod_small by lia. rewrite list_lookup_total_alt, list_lookup_imap.
  destruct (lookup_lt_is_Some_2 (tx_ring s) (0 + j)%nat) as [d ->]; [lia|done].
Qed.

Lemma rings_ready_rx s s' :
  wf_e1000 s → rings_ready s s' → rd_status (rx_ring s' !!! rx_index s') = 0.
Proof.
  intros [] (_ & Er & _ & _ & _ & Hj). rewrite Er, Hj, list_lookup_total_alt, list_lookup_imap.
  destruct (lookup_lt_is_Some_2 (rx_ring s) 0) as [d ->]; [lia|done].
Qed.

Definition regs_ready (s : e1000) : Prop :=
  reg s E1000_TDBAL = Some (wrap32 addr_tx_ring) ∧ reg s E1000_TDLEN = Some 256 ∧
  reg s E1000_TDH = Some 0 ∧ reg s E1000_TDT = Some 0 ∧
  reg s E1000_RDBAL = Some (wrap32 addr_rx_ring) ∧ reg s E1000_RDLEN = Some 256 ∧
  reg s E1000_RDH = Some 0 ∧ reg s E1000_RDT = Some 15 ∧
  reg s E1000_RAL = Some 0x00005452 ∧ reg s E1000_RAH = Some 0x80000100.

Lemma net_init_ok s :
  (∀ w, pci_read w PCI_VENDOR_DEVICE = 0x100e8086) →
  (∀ w, Z.ldiff (pci_read w PCI_BAR0) 0xf ≠ 0) →
  ∃ s', net_init s = Ok (tt, s') ∧ rings_ready s s' ∧ regs_ready s'.
Proof.
  intros Hid Hbar.
  unfold net_init, ASSERT, mbind, M_bind, mret, M_ret, pci_cfg_read, getM. rewrite Hid.
  change (Z.land 0x100e8086 0xffff =? 0xffff) with false.
  change (Z.land 0x100e8086 0xffff =? E1000_VENDOR_ID) with true.
  change (wrap16 (Z.shiftr 0x100e8086 16) =? E1000_DEVICE_ID) with true. cbn [negb].
  unfold pci_cfg_write. unfold e1000_write at 1 2. unfold modM.
  rewrite (proj2 (Z.eqb_neq _ _) (Hbar _)). cbn [negb]. rewrite e1000_reset_ok.
  unfold e1000_clear_mta. unfold e1000_configure_ctrl at 1, e1000_set_mac at 1, e1000_write at 1 2 3.
  unfold mbind, M_bind, e1000_read, getM, modM.
  match goal with |- context [clear_mta_from 128 0 ?t] =>
    destruct (clear_mta_from_ok 128 0 t) as (l & -> & Hl) end.
  unfold e1000_rx_init, e1000_tx_init, e1000_write, mbind, M_bind, modM.
  eexists. split; [reflexivity|]. split; [by repeat split|].
  unfold regs_ready. repeat match goal with |- _ ∧ _ => split end;
    autorewrite with e1000_reg; try done;
    (rewrite reg_app by (eapply Forall_impl; [|exact Hl]; cbn; unfold E1000_MTA, E1000_RAL, E1000_RAH; lia));
    by autorewrite with e1000_reg.
Qed.

(** On the expected PCI device with a mapped BAR, [net_init] returns with
    empty rings in their types, all sixteen transmit descriptors free and no
    frame received, the ring addresses, lengths, head and tail registers
    programmed, and the receive address registers holding the board's MAC. *)
Theorem net_init_ready s :
  wf_e1000 s →
  (∀ w, pci_read w PCI_VENDOR_DEVICE = 0x100e8086) →
  (∀ w, Z.ldiff (pci_read w PCI_BAR0) 0xf ≠ 0) →
  ∃ s', net_init s = Ok (tt, s') ∧ wf_e1000 s' ∧
    (∀ j, (j < 16)%nat → slot_free s' j = true) ∧
    (∀ size, net_recv size s' = Ok ([], s')) ∧
    tx_index s' = 0%nat ∧ rx_index s' = 0%nat ∧
    regs_ready s'.
Proof.
  intros Hw Hid Hbar. destruct (net_init_ok s) as (s' & Hr & Hrd & Hreg); [done..|].
  exists s'. split; [done|].
  split; [by eapply rings_ready_wf|]. split; [intros j; by eapply rings_ready_free|].
  split. { intros size. unfold net_recv, mbind, M_bind, getM. by rewrite (rings_ready_rx s). }
  split; [apply Hrd|]. split; [apply Hrd|done].
Qed.
End init.

(** ** Witnesses *)

(** A device that does nothing by itself: its descriptors stay as they are. *)
#[local] Instance demo_nic : Nic := {|
  nic_read := λ _ _, 0; pci_read := λ _ off, if off =? 0 then 0x100e8086 else 0x41000000;
  nic_dma := λ s, s; addr_tx_ring := 0x80001000; addr_rx_ring := 0x80002000;
  addr_tx_bufs := 0x80010000; addr_rx_bufs := 0x80020000 |}.
#[local] Instance demo_nic_laws : NicLaws.
Proof. split; [done|]. intros s. done. Qed.

Lemma e1000_0_wf : wf_e1000 e1000_0.
Proof.
  split; cbn [tx_ring rx_ring tx_bufs rx_bufs tx_index rx_index e1000_0]; rewrite ?length_replicate; try done;
    try lia; apply Forall_replicate; rewrite ?length_replicate; try done.
  split; [done|]. apply Forall_replicate. unfold is_u8. lia.
Qed.

(** The globals after [e1000_tx_init]'s loop: every transmit descriptor free. *)
Definition e1000_ready : e1000 :=
  e1000_0 <| tx_ring := replicate 16 (mk_tx_desc 0 0 0 0 E1000_TXD_STAT_DD 0 0) |>.
Lemma e1000_ready_wf : wf_e1000 e1000_ready.
Proof. destruct e1000_0_wf. by split. Qed.

Lemma net_send_queues_witness :
  ∃ s' b, net_send 3 [1; 2; 3] e1000_ready = Ok (tt, s') ∧ tx_bufs s' !! 0%nat = Some b ∧ take 3 b = [1; 2; 3] ∧
    tx_index s' = 1%nat.
Proof.
  destruct (net_send_queues 3 [1; 2; 3] e1000_ready 0) as (s' & b & Hr & _ & Hb & Ht & _ & _ & Hi & _).
  - apply e1000_ready_wf.
  - lia.
  - cbn. lia.
  - unfold E1000_TX_WAIT_SPINS. lia.
  - reflexivity.
  - exists s', b. split; [exact Hr|]. split; [exact Hb|]. split; [exact Ht|]. exact Hi.
Defined.

(** In [e1000_0] no transmit descriptor is free. *)
Lemma net_send_fatal_witness : net_send 3 [1; 2; 3] e1000_0 = Err Fatal.
Proof.
  apply net_send_fatal. right. right. intros k _.
  replace (Nat.iter k nic_dma e1000_0) with e1000_0 by (induction k as [|k IH]; [reflexivity|exact IH]).
  reflexivity.
Defined.

(** A three-byte frame received in slot 0. *)
Definition e1000_rx3 : e1000 :=
  e1000_0 <| rx_ring ::= alter (λ d, d <| rd_length := 3 |> <| rd_status := 3 |>) 0%nat |>
          <| rx_bufs ::= alter (put_bytes 0 [7; 8; 9]) 0%nat |>.
Lemma e1000_rx3_wf : wf_e1000 e1000_rx3.
Proof.
  destruct e1000_0_wf as [? ? ? ? ? Hb Hl ? ?]. split; try done.
  - apply Forall_alter; [done|]. intros b _ [Hn Hby]. rewrite length_put_bytes. split; [done|].
    apply put_bytes_bytes; [repeat constructor; unfold is_u8; lia|done].
  - apply Forall_alter; [done|]. intros d _ _. cbn. unfold is_u16. lia.
Qed.

Lemma net_recv_takes_witness :
  ∃ s', net_recv 422 e1000_rx3 = Ok ([7; 8; 9], s') ∧ rx_index s' = 1%nat.
Proof.
  destruct (net_recv_takes 422 e1000_rx3 e1000_rx3_wf) as (s' & Hr & _ & _ & _ & _ & Hi & _).
  exists s'. split; [exact Hr|exact Hi].
Defined.

Lemma tx_fifo_witness :
  ∃ s', send_all [[1; 2]; [3]] e1000_ready = Ok (tt, s') ∧ tx_index s' = 2%nat ∧
    ∃ b, tx_bufs s' !! 1%nat = Some b ∧ take 1 b = [3].
Proof.
  destruct (tx_fifo [[1; 2]; [3]] e1000_ready) as (s' & Hr & _ & Hi & Hin & _).
  - apply e1000_ready_wf.
  - cbn. lia.
  - intros [|[|j]] Hj; [reflexivity|reflexivity|cbn in Hj; lia].
  - repeat constructor; cbn; lia.
  - exists s'. split; [exact Hr|]. split; [exact Hi|]. exact (proj1 (Hin 1%nat [3] eq_refl)).
Defined.

Lemma net_init_ready_witness :
  ∃ s', net_init e1000_0 = Ok (tt, s') ∧ regs_ready s' ∧ slot_free s' 15 = true.
Proof.
  destruct (net_init_ready e1000_0 e1000_0_wf) as (s' & Hr & _ & Hf & _ & _ & _ & Hreg).
  - reflexivity.
  - intros w. discriminate.
  - exists s'. split; [exact Hr|]. split; [exact Hreg|]. apply Hf. lia.
Defined.
