(* ===== verification/Boot.v ===== *)
(** * The boot code: earth/boot.c, and [vm_init] of earth/mem_vm.c

    Every core runs [boot]; the first one initialises the machine.  The
    functions [boot] calls that are outside the repository (tty_init, disk_init,
    mmu_init, timer_init, intr_init, grass_entry) and the printing of messages are
    operations on a state of their own; [net_init] is the one of the e1000 driver,
    which installs its two functions in the [earth] interface. *)

From S2P Require Import Prelude Bytes E1000.

(** The function a pointer of [struct earth] points to. *)
Inductive pointer :=
  | unset | p_page_table_map | p_page_table_free | p_page_table_switch | p_page_table_translate
  | p_net_send | p_net_recv.

(** The pointers of [struct earth] that code of the repository assigns. *)
Record earth := mk_earth {
  mmu_map : pointer; mmu_free : pointer; mmu_switch : pointer; mmu_translate : pointer;
  e_net_send : pointer; e_net_recv : pointer
}.
#[export] Instance earth_settable : Settable earth :=
  settable! mk_earth <mmu_map; mmu_free; mmu_switch; mmu_translate; e_net_send; e_net_recv>.
Definition earth0 : earth := mk_earth unset unset unset unset unset unset.

(** ** [vm_init]: the protection registers of the core, and the pointers *)

Record pmp := mk_pmp { pmpaddr0 : Z; pmpcfg0 : Z }.
Definition vm_init (p : pmp) (e : earth) : pmp * earth :=
  (mk_pmp (wrap32 (-1)) (Z.lor (Z.shiftl 1 3) 7),
   e <| mmu_map := p_page_table_map |> <| mmu_free := p_page_table_free |>
     <| mmu_switch := p_page_table_switch |> <| mmu_translate := p_page_table_translate |>).

(** What the first protection entry grants a program below machine mode, by the
    privileged architecture: in mode TOR the addresses below [pmpaddr0 * 4], with
    the permissions of the bits R, W and X. *)
Definition pmp_grants (p : pmp) (access addr : Z) : bool :=
  (Z.land (Z.shiftr (pmpcfg0 p) 3) 3 =? 1) && (addr <? pmpaddr0 p * 4) && Z.testbit (pmpcfg0 p) access.

(** ** [boot] *)

Record machine (S : Type) := mk_machine {
  booted_core_cnt : Z;
  world : S;                 (* what the code outside the repository keeps *)
  nic : e1000;
  earth_if : earth
}.
Arguments mk_machine {S}.
Arguments booted_core_cnt {S}.
Arguments world {S}.
Arguments nic {S}.
Arguments earth_if {S}.
#[export] Instance machine_settable S : Settable (machine S) :=
  settable! (@mk_machine S) <booted_core_cnt; world; nic; earth_if>.

(** The messages [boot] prints. *)
Inductive message :=
  | booting_on (core_id : Z) | tty_disk_ready | net_ready | mmu_ready | core_runs (core_id : Z).

(** Code outside the repository.  A call that does not return is outside the
    model, as is what [mmu_init] does to the pointers of [earth]. *)
Class BootExt (S : Type) := {
  tty_init : S → S;
  disk_init : S → S;
  mmu_init : S → S;
  timer_init : Z → S → S;
  intr_init : Z → S → S;
  grass_entry : Z → S → S;
  print : message → S → S
}.

Section boot.
Context {S : Type} `{BootExt S} `{Nic}.

Definition ext (f : S → S) : M (machine S) unit := modM (λ m, m <| world ::= f |>).

(** [net_init] with its last two assignments. *)
Definition boot_net_init : M (machine S) unit := λ m,
  match net_init (nic m) with
  | Ok (_, d) => Ok (tt, m <| nic := d |>
      <| earth_if ::= λ e, e <| e_net_send := p_net_send |> <| e_net_recv := p_net_recv |> |>)
  | Err e => Err e
  end.

Definition boot (core_id : Z) : M (machine S) unit :=
  cnt ← getM booted_core_cnt;
  modM (λ m, m <| booted_core_cnt := cnt + 1 |>);;
  if cnt =? 0 then
    ext tty_init;;
    ext (print (booting_on core_id));;
    ext disk_init;;
    ext (print tty_disk_ready);;
    boot_net_init;;
    ext (print net_ready);;
    ext mmu_init;;
    ext (timer_init core_id);;
    ext (intr_init core_id);;
    ext (print mmu_ready);;
    ext (grass_entry core_id)
  else ext (print (core_runs core_id)).

(** The cores come up one after the other: earth/boot.s holds [boot_lock]. *)
Fixpoint boot_all (cores : list Z) : M (machine S) unit :=
  match cores with
  | [] => mret tt
  | core_id :: cores => boot core_id;; boot_all cores
  end.

(** ** The order of the calls *)

Definition first_core (core_id : Z) (w : S) : S :=
  grass_entry core_id (print mmu_ready (intr_init core_id (timer_init core_id (mmu_init
    (print net_ready (print tty_disk_ready (disk_init (print (booting_on core_id) (tty_init w))))))))).
Definition other_cores (cores : list Z) (w : S) : S := fold_left (λ w c, print (core_runs c) w) cores w.

Lemma boot_others cores : ∀ m : machine S, 0 < booted_core_cnt m →
  boot_all cores m = Ok (tt, m <| booted_core_cnt ::= Z.add (Z.of_nat (length cores)) |> <| world ::= other_cores cores |>).
Proof.
  induction cores as [|c cores IH]; intros [cnt w d e] Hc; [done|]. cbn [booted_core_cnt] in Hc.
  cbn [boot_all]. unfold boot, mbind, M_bind, getM, modM. cbn [booted_core_cnt].
  rewrite (proj2 (Z.eqb_neq _ _)) by lia. unfold ext, modM. rewrite IH by (cbn; lia).
  do 2 f_equal. unfold set_field. cbn. f_equal. lia.
Qed.

Lemma boot_first core_id (m : machine S) d :
  booted_core_cnt m = 0 → net_init (nic m) = Ok (tt, d) →
  boot core_id m = Ok (tt, mk_machine 1 (first_core core_id (world m)) d
    ((earth_if m) <| e_net_send := p_net_send |> <| e_net_recv := p_net_recv |>)).
Proof.
  destruct m as [cnt w d0 e]. cbn [booted_core_cnt nic world earth_if]. intros -> Hn.
  unfold boot, mbind, M_bind, getM, modM, ext, modM, boot_net_init. cbn. by rewrite Hn.
Qed.

(** Booting: whichever core comes first, and however many follow, the machine is
    initialised once and in order by the first, the others only report; after it the
    driver's functions are installed, its rings are empty and well typed with all
    transmit descriptors free, and the registers are programmed.  The pointers
    [vm_init] assigns are the four of the page tables, and the protection entry it
    writes lets every 32-bit address be read, written and executed. *)
Theorem boot_once core_id cores (m : machine S) p e :
  booted_core_cnt m = 0 → wf_e1000 (nic m) →
  (∀ w, pci_read w PCI_VENDOR_DEVICE = 0x100e8086) → (∀ w, Z.ldiff (pci_read w PCI_BAR0) 0xf ≠ 0) →
  (∃ m', boot_all (core_id :: cores) m = Ok (tt, m') ∧
    booted_core_cnt m' = 1 + Z.of_nat (length cores) ∧
    world m' = other_cores cores (first_core core_id (world m)) ∧
    earth_if m' = (earth_if m) <| e_net_send := p_net_send |> <| e_net_recv := p_net_recv |> ∧
    wf_e1000 (nic m') ∧ (∀ j, (j < 16)%nat → slot_free (nic m') j = true) ∧
    (∀ size, net_recv size (nic m') = Ok ([], nic m')) ∧ regs_ready (nic m')) ∧
  (vm_init p e).2 = mk_earth p_page_table_map p_page_table_free p_page_table_switch p_page_table_translate
                      (e_net_send e) (e_net_recv e) ∧
  ∀ access addr, 0 ≤ access < 3 → 0 ≤ addr < 4294967296 → pmp_grants (vm_init p e).1 access addr = true.
Proof.
  intros Hc Hw Hid Hbar. split; [|split].
  - destruct (net_init_ok (nic m)) as (d & Hr & Hrd & Hreg); [done..|].
    pose proof (boot_first core_id m d Hc Hr) as Hb. eexists. split.
    { cbn [boot_all]. unfold mbind, M_bind. rewrite Hb. by apply boot_others. }
    cbn. split; [lia|]. do 2 (split; [done|]). split; [by eapply rings_ready_wf|].
    split; [intros j; by eapply rings_ready_free|]. split; [|done].
    intros size. unfold net_recv, mbind, M_bind, getM. by rewrite (rings_ready_rx (nic m)).
  - done.
  - intros access addr Ha Had. unfold pmp_grants, vm_init. cbn [fst pmpcfg0 pmpaddr0].
    change (wrap32 (-1) * 4) with 17179869180. rewrite (proj2 (Z.ltb_lt _ _)) by lia.
    assert (access = 0 ∨ access = 1 ∨ access = 2) as [->|[->| ->]] by lia; done.
Qed.
End boot.

(** ** A world that records the calls *)

Inductive call := c_tty | c_disk | c_mmu | c_timer (core_id : Z) | c_intr (core_id : Z) | c_grass (core_id : Z) | c_print (m : message).
#[local] Instance calls_ext : BootExt (list call) := {|
  tty_init := cons c_tty; disk_init := cons c_disk; mmu_init := cons c_mmu; timer_init c := cons (c_timer c);
  intr_init c := cons (c_intr c); grass_entry c := cons (c_grass c); print m := cons (c_print m) |}.
#[local] Instance boot_nic : Nic := {|
  nic_read := λ _ _, 0; pci_read := λ _ off, if off =? 0 then 0x100e8086 else 0x41000000;
  nic_dma := λ s, s; addr_tx_ring := 0x80001000; addr_rx_ring := 0x80002000;
  addr_tx_bufs := 0x80010000; addr_rx_bufs := 0x80020000 |}.

Lemma boot_once_witness :
  ∃ m', boot_all [2; 0; 1] (mk_machine 0 [] e1000_0 earth0) = Ok (tt, m') ∧
    world m' = [c_print (core_runs 1); c_print (core_runs 0); c_grass 2; c_print mmu_ready; c_intr 2; c_timer 2;
                c_mmu; c_print net_ready; c_print tty_disk_ready; c_disk; c_print (booting_on 2); c_tty].
Proof.
  destruct (boot_once 2 [0; 1] (mk_machine (S := list call) 0 [] e1000_0 earth0) (mk_pmp 0 0) earth0 eq_refl e1000_0_wf)
    as [(m' & Hm & _ & Hw & _) _]; [done|by vm_compute|]. exists m'. split; [exact Hm|exact Hw].
Defined.
