(* ===== verification/Ipc.v ===== *)
(** * Messages between processes (servers.h)

    The structs that pass between the network server and its clients, as they
    lie in a message buffer: an [int] or enum is four bytes in the target's
    little-endian order.  A request and the reply to it are built in one and
    the same buffer of the server, so both layouts are offsets into it. *)

From S2P Require Import Prelude Bytes.

Definition NET_BUF_SIZE : Z := 512.
Definition NET_CONN_NONE : Z := -1.
Definition GPID_PROCESS : Z := 1.
Definition GPID_NET : Z := 4.

(** [enum net_request_type] *)
Definition NET_SEND : Z := 0.
Definition NET_RECV : Z := 1.
Definition NET_SOCK_LISTEN : Z := 2.
Definition NET_SOCK_ACCEPT : Z := 3.
Definition NET_SOCK_RECV : Z := 4.
Definition NET_SOCK_SEND : Z := 5.
Definition NET_SOCK_CLOSE : Z := 6.

(** [enum net_status] *)
Definition NET_OK : Z := 0.
Definition NET_ERROR : Z := 1.
Definition NET_WOULD_BLOCK : Z := 2.
Definition NET_CLOSED : Z := 3.
Definition NET_INVALID : Z := 4.

(** [struct net_request] *)
Module req.
Definition type : nat := 0.
Definition port : nat := 4.
Definition conn_id : nat := 8.
Definition length : nat := 12.
Definition buf : nat := 16.
Definition size : nat := 528.
End req.

(** [struct net_reply] *)
Module reply.
Definition status : nat := 0.
Definition conn_id : nat := 4.
Definition length : nat := 8.
Definition buf : nat := 12.
Definition size : nat := 524.
End reply.

(** ** [int] fields *)

Definition sint32 (v : Z) : Z := let v := wrap32 v in if v <? 2147483648 then v else v - 4294967296.
Definition is_i32 (v : Z) : Prop := -2147483648 ≤ v < 2147483648.
#[export] Instance is_i32_dec v : Decision (is_i32 v).
Proof. unfold is_i32. apply _. Defined.

Definition le32 (v : Z) : list Z :=
  [wrap8 v; wrap8 (v / 256); wrap8 (v / 65536); wrap8 (v / 16777216)].
Definition of_le (l : list Z) : Z := foldr (λ x acc, x + 256 * acc) 0 l.

Definition get32 (b : list Z) (o : nat) : Z := sint32 (of_le (slice o 4 b)).
Definition put32 (o : nat) (v : Z) (b : list Z) : list Z := put_bytes o (le32 v) b.

Lemma sint32_id v : is_i32 v → sint32 v = v.
Proof. unfold is_i32, sint32, wrap32. intros Hv. case_match eqn:E; [apply Z.ltb_lt in E|apply Z.ltb_ge in E]; dlia. Qed.
Lemma sint32_i32 v : is_i32 (sint32 v).
Proof. unfold is_i32, sint32, wrap32. case_match eqn:E; [apply Z.ltb_lt in E|apply Z.ltb_ge in E]; dlia. Qed.
Lemma sint32_wrap v : sint32 (wrap32 v) = sint32 v.
Proof. unfold sint32, wrap32. by rewrite Z.mod_mod. Qed.

Lemma of_le32 v : of_le (le32 v) = wrap32 v.
Proof. unfold of_le, le32, wrap8, wrap32. cbn [foldr]. dlia. Qed.

Lemma le32_bytes v : bytes (le32 v).
Proof. repeat constructor; apply wrap8_u8. Qed.

Lemma get32_i32 b o : is_i32 (get32 b o).
Proof. apply sint32_i32. Qed.

Lemma get32_put32 b o v : (o + 4 ≤ length b)%nat → is_i32 v → get32 (put32 o v b) o = v.
Proof.
  intros Hl Hv. unfold get32, put32. rewrite slice_put_bytes by (cbn; lia).
  rewrite take_ge by (cbn; lia). by rewrite of_le32, sint32_wrap, sint32_id.
Qed.
Lemma get32_put_bytes b o o' l :
  (o' + length l ≤ o ∨ o + 4 ≤ o')%nat → get32 (put_bytes o' l b) o = get32 b o.
Proof. intros. unfold get32. by rewrite slice_put_bytes_ne by lia. Qed.
Lemma get32_put32_ne b o o' v :
  (o' + 4 ≤ o ∨ o + 4 ≤ o')%nat → get32 (put32 o' v b) o = get32 b o.
Proof. intros. by apply get32_put_bytes. Qed.
Lemma slice_put32_ne b o n o' v :
  (o' + 4 ≤ o ∨ o + n ≤ o')%nat → slice o n (put32 o' v b) = slice o n b.
Proof. intros. unfold put32. by rewrite slice_put_bytes_ne by (cbn; lia). Qed.
Lemma length_put32 b o v : length (put32 o v b) = length b.
Proof. apply length_put_bytes. Qed.
Lemma put32_bytes b o v : bytes b → bytes (put32 o v b).
Proof. intros. apply put_bytes_bytes; [apply le32_bytes|done]. Qed.

Lemma get32_take b o n : (o + 4 ≤ n)%nat → get32 (take n b) o = get32 b o.
Proof.
  intros. unfold get32, slice. rewrite skipn_firstn_comm, take_take. do 3 f_equal. lia.
Qed.
Lemma slice_take b o k n : (o + k ≤ n)%nat → slice o k (take n b) = slice o k b.
Proof. intros. unfold slice. rewrite skipn_firstn_comm, take_take. f_equal. lia. Qed.

(** ** Replies as values *)

Record net_reply := mk_reply { r_status : Z; r_conn_id : Z; r_length : Z }.

(** A message carries a reply: its three fields.  The data is [slice reply.buf]. *)
Definition decode_reply (m : list Z) : net_reply :=
  mk_reply (get32 m reply.status) (get32 m reply.conn_id) (get32 m reply.length).
