(* ===== verification/NetDev.v ===== *)
(** * The network device interface (earth->net_send, earth->net_recv)

    What the network server sees of the device: two functions reached through
    the [earth] interface, and what they promise.  [net_init] installs the
    e1000 driver's functions there; the driver keeps the promise.

    A frame longer than the caller's buffer makes the driver write past it, so
    receiving may fault with [OutOfBounds]; a stuck or misbehaving device stops
    the kernel ([Fatal]). *)

From S2P Require Import Prelude Bytes E1000.

Class NetDev (D : Type) := {
  (** send the first [length] bytes of the object [packet] points to *)
  dev_send (length : Z) (packet : list Z) : M D unit;
  (** the frame received into an object of [size] bytes; empty: none *)
  dev_recv (size : nat) : M D (list Z)
}.

Class NetDevLaws (D : Type) `{NetDev D} := {
  dev_wf : D → Prop;
  (** the device always makes room for another frame *)
  dev_live : Prop;
  dev_send_law d n p :
    dev_wf d → 0 < n ≤ 2048 → (Z.to_nat n ≤ length p)%nat →
    wp (λ e, e = Fatal ∧ ¬ dev_live) (dev_send n p) (λ _ d', dev_wf d') d;
  dev_send_bad d n p :
    dev_wf d → (n ≤ 0 ∨ 2048 < n) → dev_send n p d = Err Fatal;
  dev_send_over d n p :
    dev_wf d → (length p < Z.to_nat n)%nat → ∃ e, dev_send n p d = Err e;
  dev_recv_law d size :
    dev_wf d →
    wp (λ e, e = Fatal ∨ e = OutOfBounds) (dev_recv size)
       (λ f d', dev_wf d' ∧ (length f ≤ size)%nat ∧ (length f ≤ 2048)%nat ∧ bytes f) d
}.

(** The fault a device that is not live may cause. *)
Definition dev_fault {D} `{NetDevLaws D} (e : fault) : Prop := e = Fatal ∧ ¬ dev_live.

(** ** The e1000 driver is such a device *)

Section e1000.
Context `{NicLaws}.

#[export] Instance e1000_dev : NetDev e1000 := {| dev_send := net_send; dev_recv := net_recv |}.

Lemma wait_tx_cases n s :
  wait_tx n s = Err Fatal ∨ ∃ j, wait_tx n s = Ok (tt, Nat.iter j nic_dma s).
Proof.
  revert s. induction n as [|n IH]; intros s; cbn [wait_tx]; unfold mbind, M_bind, getM;
    destruct (negb _); try (right; by exists 0%nat); [by left|].
  destruct (IH (nic_dma s)) as [He|[j Hj]]; [by left|right]. exists (S j). by rewrite Nat.iter_succ_r.
Qed.

(** Descriptors are released within the spin limit. *)
Definition e1000_live : Prop :=
  ∀ s, wf_e1000 s → ∃ k, (k < Z.to_nat E1000_TX_WAIT_SPINS)%nat ∧ tx_free (Nat.iter k nic_dma s) = true.

Lemma net_send_law s n p :
  wf_e1000 s → 0 < n ≤ 2048 → (Z.to_nat n ≤ length p)%nat →
  wp (λ e, e = Fatal ∧ ¬ e1000_live) (net_send n p) (λ _ s', wf_e1000 s') s.
Proof.
  intros Hw Hn Hp. destruct (wait_tx_cases (Z.to_nat (E1000_TX_WAIT_SPINS - 1)) s) as [He|[j Hj]].
  - unfold wp, net_send, ASSERT, E1000_TX_BUF_SIZE. rewrite (proj2 (Z.ltb_lt _ _)), (proj2 (Z.leb_le _ _)) by lia.
    unfold mbind, M_bind, mret, M_ret. rewrite He. split; [done|]. intros Hlive.
    destruct (Hlive s Hw) as (k & Hk & Hf).
    destruct (wait_tx_ok (Z.to_nat (E1000_TX_WAIT_SPINS - 1)) s k) as (j & _ & Hr);
      [unfold E1000_TX_WAIT_SPINS in *; lia|done|]. by rewrite He in Hr.
  - unfold wp. rewrite (net_send_ok n p s j) by done. by apply queued_wf, dma_iter.
Qed.

Lemma net_send_bad s n p : n ≤ 0 ∨ 2048 < n → net_send n p s = Err Fatal.
Proof.
  intros Hn. unfold net_send, ASSERT, E1000_TX_BUF_SIZE.
  destruct (Z.ltb_spec 0 n); [|done]. destruct (Z.leb_spec n 2048); [lia|done].
Qed.

Lemma net_send_over s n p : (length p < Z.to_nat n)%nat → ∃ e, net_send n p s = Err e.
Proof.
  intros Hn. unfold net_send, ASSERT, E1000_TX_BUF_SIZE.
  destruct (Z.ltb_spec 0 n); [|by eexists]. destruct (Z.leb_spec n 2048); [|by eexists].
  unfold mbind, M_bind, mret, M_ret, getM.
  destruct (wait_tx _ s) as [[[] s']|e]; [|by eexists].
  rewrite (proj2 (Nat.leb_gt _ _)) by done. by eexists.
Qed.

Lemma net_recv_law s size :
  wf_e1000 s →
  wp (λ e, e = Fatal ∨ e = OutOfBounds) (net_recv size)
     (λ f s', wf_e1000 s' ∧ (length f ≤ size)%nat ∧ (length f ≤ 2048)%nat ∧ bytes f) s.
Proof.
  intros Hw. destruct (net_recv_cases size s Hw) as [Hr|[Hr|[Hr|(f & s' & Hr & Hf)]]];
    unfold wp; rewrite Hr; [|by right|by left|done].
  split_and!; [done|cbn; lia..|constructor].
Qed.

#[export] Instance e1000_dev_laws : NetDevLaws e1000 := {|
  dev_wf := wf_e1000;
  dev_live := e1000_live;
  dev_send_law := net_send_law;
  dev_send_bad := λ s n p _, net_send_bad s n p;
  dev_send_over := λ s n p _, net_send_over s n p;
  dev_recv_law := net_recv_law
|}.
End e1000.
