(* ===== verification/SysNet.v ===== *)
(** * The network server (sys_net.c)

    The process behind [GPID_NET]: it owns the uIP stack, the ARP module and
    the socket flags of httpd.c, polls the device, and answers one request
    message at a time.  [req] and [reply] point into the same message buffer
    [msg]; a message sent is appended to [outbox].  The INFO lines only print. *)

From S2P Require Import Prelude Bytes Checksum UipState Uip UipInv Httpd Arp Ipc NetDev.

Record net (D : Type) := mk_net {
  n_uip : uip;
  n_httpd : httpd;
  n_arp : arp;
  n_dev : D;
  sock_listen_port : Z;
  sock_conn_id : Z;
  sock_conn_open : Z;
  sock_conn_pending : Z;
  sock_conn_closed : Z;
  sock_rx_buf : list Z;
  sock_rx_len : Z;
  sock_tx_buf : list Z;
  sock_tx_len : Z;
  sock_tx_pending : Z;
  msg : list Z;
  outbox : list (Z * list Z)
}.
Arguments mk_net {D}.
Arguments n_uip {D}.
Arguments n_httpd {D}.
Arguments n_arp {D}.
Arguments n_dev {D}.
Arguments sock_listen_port {D}.
Arguments sock_conn_id {D}.
Arguments sock_conn_open {D}.
Arguments sock_conn_pending {D}.
Arguments sock_conn_closed {D}.
Arguments sock_rx_buf {D}.
Arguments sock_rx_len {D}.
Arguments sock_tx_buf {D}.
Arguments sock_tx_len {D}.
Arguments sock_tx_pending {D}.
Arguments msg {D}.
Arguments outbox {D}.
#[export] Instance net_settable D : Settable (net D) :=
  settable! mk_net <n_uip; n_httpd; n_arp; n_dev; sock_listen_port; sock_conn_id; sock_conn_open;
    sock_conn_pending; sock_conn_closed; sock_rx_buf; sock_rx_len; sock_tx_buf; sock_tx_len;
    sock_tx_pending; msg; outbox>.

(** The globals as the loader leaves them, over a device and the message buffer
    on [main]'s stack. *)
Definition net0 {D} (d : D) (m : list Z) : net D :=
  mk_net uip0 httpd0 arp0 d (-1) 1 0 0 0 (replicate 512 0) 0 (replicate 512 0) 0 0 m [].

(** "Finish GPID_NET initialization" and its terminator *)
Definition finish_note : list Z :=
  [70; 105; 110; 105; 115; 104; 32; 71; 80; 73; 68; 95; 78; 69; 84; 32; 105; 110; 105; 116;
   105; 97; 108; 105; 122; 97; 116; 105; 111; 110; 0].

Section server.
Context {D : Type} `{NetDev D}.

Definition N : Type → Type := M (net D).

Definition skip : N unit := mret tt.

(** Calls into the other components, on their part of the globals. *)
Definition in_uip (m : M (uip * httpd) unit) : N unit := λ s,
  match m (n_uip s, n_httpd s) with
  | Ok (_, (u, g)) => Ok (tt, s <| n_uip := u |> <| n_httpd := g |>)
  | Err e => Err e
  end.
Definition in_arp (f : uip * arp → uip * arp) : N unit := modM (λ s,
  let (u, t) := f (n_uip s, n_arp s) in s <| n_uip := u |> <| n_arp := t |>).
Definition in_dev {A} (m : M D A) : N A := λ s,
  match m (n_dev s) with
  | Ok (a, d) => Ok (a, s <| n_dev := d |>)
  | Err e => Err e
  end.

(** [earth->net_send(uip_len, (void * )uip_buf)] *)
Definition send_uip : N unit :=
  n ← getM (λ s, uip_len (n_uip s));
  b ← getM (λ s, uip_buf (n_uip s));
  in_dev (dev_send n b).

(** [grass->sys_send(sender, reply, sizeof( *reply))] *)
Definition sys_send (to : Z) (n : nat) : N unit :=
  modM (λ s, s <| outbox ::= λ l, l ++ [(to, take n (msg s))] |>).

Definition send_net_reply (sender status conn_id length : Z) : N unit :=
  modM (λ s, s <| msg ::= put32 reply.status status |>);;
  modM (λ s, s <| msg ::= put32 reply.conn_id conn_id |>);;
  modM (λ s, s <| msg ::= put32 reply.length length |>);;
  sys_send sender reply.size.

Definition clamp_net_length (length : Z) : Z :=
  if NET_BUF_SIZE <? length then NET_BUF_SIZE else length.

Definition socket_conn_valid (conn_id : Z) (s : net D) : bool :=
  (0 <=? sock_listen_port s) && negb (sock_conn_open s =? 0) && (conn_id =? sock_conn_id s).

Definition reset_socket_state : N unit :=
  modM (λ s, s <| sock_conn_id := 1 |> <| sock_conn_open := 0 |> <| sock_conn_pending := 0 |>
               <| sock_conn_closed := 0 |> <| sock_rx_len := 0 |> <| sock_tx_len := 0 |>
               <| sock_tx_pending := 0 |>);;
  modM (λ s, s <| n_httpd ::= λ g,
    g <| httpd_socket_conn_open := 0 |> <| httpd_socket_conn_pending := 0 |>
      <| httpd_socket_conn_closed := 0 |> <| httpd_socket_rx_len := 0 |>
      <| httpd_socket_tx_len := 0 |> <| httpd_socket_tx_pending := 0 |>
      <| httpd_socket_close_pending := 0 |> |>).

(** [memcpy] of [n] bytes between objects of the given sizes. *)
Definition memcpy_ok (n : Z) (src dst : nat) : bool :=
  (0 <=? n) && (Z.to_nat n <=? src)%nat && (Z.to_nat n <=? dst)%nat.

Definition sync_socket_state : N unit :=
  modM (λ s, s <| sock_conn_open := httpd_socket_conn_open (n_httpd s) |>
               <| sock_conn_pending := httpd_socket_conn_pending (n_httpd s) |>
               <| sock_conn_closed := httpd_socket_conn_closed (n_httpd s) |>
               <| sock_tx_pending := httpd_socket_tx_pending (n_httpd s) |>);;
  n ← getM (λ s, httpd_socket_rx_len (n_httpd s));
  if 0 <? n then
    let n := if NET_BUF_SIZE <? n then NET_BUF_SIZE else n in
    modM (λ s, s <| sock_rx_len := n |>);;
    src ← getM (λ s, httpd_socket_rx_buf (n_httpd s));
    dst ← getM sock_rx_buf;
    if memcpy_ok n (length src) (length dst) then
      modM (λ s, s <| sock_rx_buf := put_bytes 0 (take (Z.to_nat n) src) dst |>);;
      modM (λ s, s <| n_httpd ::= λ g, g <| httpd_socket_rx_len := 0 |> |>)
    else fail OutOfBounds
  else skip.

(** The first active connection on the listening port is polled. *)
Definition conn_on_port (s : net D) (c : conn) : bool :=
  negb (tcpstateflags c =? UIP_CLOSED) && (lport c =? HTONS (sock_listen_port s)).

Fixpoint kick_loop (n i : nat) : N unit :=
  match n with
  | O => skip
  | S n =>
      active ← getM (λ s, conn_on_port s (uip_conns (n_uip s) !!! i));
      if (active : bool) then
        in_uip (uip_poll_conn i);;
        l ← getM (λ s, uip_len (n_uip s));
        if 0 <? l then in_arp uip_arp_out;; send_uip else skip
      else kick_loop n (S i)
  end.

Definition kick_active_connection : N unit :=
  p ← getM sock_listen_port;
  if p <? 0 then skip
  else kick_loop UIP_CONNS 0;; sync_socket_state.

Definition net_kick_tx : N unit :=
  p ← getM sock_tx_pending;
  if p =? 0 then skip else kick_active_connection.

Definition net_kick_close : N unit := kick_active_connection.

Definition net_poll : N unit :=
  size ← getM (λ s, length (uip_buf (n_uip s)));
  f ← in_dev (dev_recv size);
  modM (λ s, s <| n_uip ::= λ u, u <| uip_buf ::= put_bytes 0 f |>
                                   <| uip_len := wrap16 (Z.of_nat (length f)) |> |>);;
  n ← getM (λ s, uip_len (n_uip s));
  if n <=? 0 then skip
  else
    type ← getM (λ s, u16 (uip_buf (n_uip s)) ARPBUF.type);
    (if type =? HTONS UIP_ETHTYPE_IP then
       in_uip uip_input;;
       n ← getM (λ s, uip_len (n_uip s));
       if 0 <? n then in_arp uip_arp_out;; send_uip else skip
     else if type =? HTONS UIP_ETHTYPE_ARP then
       in_arp uip_arp_arpin;;
       n ← getM (λ s, uip_len (n_uip s));
       if 0 <? n then send_uip else skip
     else modM (λ s, s <| n_uip ::= λ u, u <| uip_len := 0 |> |>));;
    sync_socket_state.

(** ** Requests *)

Definition req_field (o : nat) : N Z := getM (λ s, get32 (msg s) o).

Definition handle_net_send (sender : Z) : N unit :=
  n ← req_field req.length;
  p ← getM (λ s, slice req.buf (Z.to_nat NET_BUF_SIZE) (msg s));
  in_dev (dev_send n p);;
  send_net_reply sender NET_OK NET_CONN_NONE 0.

Definition handle_net_recv (sender : Z) : N unit :=
  f ← in_dev (dev_recv (Z.to_nat NET_BUF_SIZE));
  modM (λ s, s <| msg ::= put_bytes reply.buf f |>);;
  modM (λ s, s <| msg ::= put32 reply.length (Z.of_nat (length f)) |>);;
  n ← getM (λ s, get32 (msg s) reply.length);
  send_net_reply sender NET_OK NET_CONN_NONE n.

Definition handle_sock_listen (sender : Z) : N unit :=
  port ← req_field req.port;
  if port <=? 0 then send_net_reply sender NET_INVALID NET_CONN_NONE 0
  else
    modM (λ s, s <| sock_listen_port := port |>);;
    reset_socket_state;;
    modM (λ s, s <| n_uip ::= uip_listen (HTONS port) |>);;
    send_net_reply sender NET_OK NET_CONN_NONE 0.

Definition handle_sock_accept (sender : Z) : N unit :=
  net_poll;;
  pending ← getM sock_conn_pending;
  if negb (pending =? 0) then
    modM (λ s, s <| sock_conn_pending := 0 |>);;
    modM (λ s, s <| n_httpd ::= λ g, g <| httpd_socket_conn_pending := 0 |> |>);;
    id ← getM sock_conn_id;
    send_net_reply sender NET_OK id 0
  else send_net_reply sender NET_WOULD_BLOCK NET_CONN_NONE 0.

Definition handle_sock_recv (sender : Z) : N unit :=
  net_poll;;
  port ← getM sock_listen_port;
  conn_id ← req_field req.conn_id;
  id ← getM sock_conn_id;
  if (port <? 0) || negb (conn_id =? id) then send_net_reply sender NET_INVALID conn_id 0
  else
    n ← getM sock_rx_len;
    if 0 <? n then
      len ← req_field req.length;
      let rx_len := if len <? n then len else n in
      src ← getM sock_rx_buf;
      if memcpy_ok rx_len (length src) (Z.to_nat NET_BUF_SIZE) then
        modM (λ s, s <| msg ::= put_bytes reply.buf (take (Z.to_nat rx_len) src) |>);;
        modM (λ s, s <| sock_rx_len := 0 |>);;
        conn_id ← req_field req.conn_id;
        send_net_reply sender NET_OK conn_id rx_len
      else fail OutOfBounds
    else
      closed ← getM sock_conn_closed;
      open ← getM sock_conn_open;
      if negb (closed =? 0) || (open =? 0) then send_net_reply sender NET_CLOSED conn_id 0
      else send_net_reply sender NET_WOULD_BLOCK conn_id 0.

Definition handle_sock_send (sender : Z) : N unit :=
  net_poll;;
  port ← getM sock_listen_port;
  conn_id ← req_field req.conn_id;
  valid ← getM (socket_conn_valid conn_id);
  if (port <? 0) || negb valid then send_net_reply sender NET_INVALID conn_id 0
  else
    pending ← getM sock_tx_pending;
    if negb (pending =? 0) then send_net_reply sender NET_WOULD_BLOCK conn_id 0
    else
      len ← req_field req.length;
      let n := clamp_net_length len in
      modM (λ s, s <| sock_tx_len := n |>);;
      data ← getM (λ s, slice req.buf (Z.to_nat NET_BUF_SIZE) (msg s));
      tx ← getM sock_tx_buf;
      htx ← getM (λ s, httpd_socket_tx_buf (n_httpd s));
      (if memcpy_ok n (length data) (length tx) then
         modM (λ s, s <| sock_tx_buf := put_bytes 0 (take (Z.to_nat n) data) tx |>)
       else fail OutOfBounds);;
      tx ← getM sock_tx_buf;
      (if memcpy_ok n (length tx) (length htx) then
         modM (λ s, s <| n_httpd ::= λ g,
           g <| httpd_socket_tx_buf := put_bytes 0 (take (Z.to_nat n) tx) htx |> |>)
       else fail OutOfBounds);;
      modM (λ s, s <| n_httpd ::= λ g, g <| httpd_socket_tx_len := n |> <| httpd_socket_tx_pending := 1 |> |>);;
      modM (λ s, s <| sock_tx_pending := 1 |>);;
      net_kick_tx;;
      n ← getM sock_tx_len;
      send_net_reply sender NET_OK conn_id n.

Definition handle_sock_close (sender : Z) : N unit :=
  net_poll;;
  conn_id ← req_field req.conn_id;
  valid ← getM (socket_conn_valid conn_id);
  if negb valid then send_net_reply sender NET_INVALID conn_id 0
  else
    modM (λ s, s <| n_httpd ::= λ g, g <| httpd_socket_close_pending := 1 |> |>);;
    net_kick_close;;
    modM (λ s, s <| sock_conn_open := 0 |> <| sock_conn_pending := 0 |>
                 <| sock_tx_pending := 0 |> <| sock_rx_len := 0 |>);;
    send_net_reply sender NET_OK conn_id 0.

(** The [switch] of the main loop, on a message already in [msg]. *)
Definition dispatch (sender : Z) : N unit :=
  type ← req_field req.type;
  if type =? NET_SEND then handle_net_send sender
  else if type =? NET_RECV then handle_net_recv sender
  else if type =? NET_SOCK_LISTEN then handle_sock_listen sender
  else if type =? NET_SOCK_ACCEPT then handle_sock_accept sender
  else if type =? NET_SOCK_RECV then handle_sock_recv sender
  else if type =? NET_SOCK_SEND then handle_sock_send sender
  else if type =? NET_SOCK_CLOSE then handle_sock_close sender
  else fail Fatal.

(** One turn of the loop: [sys_recv] puts the message in the buffer. *)
Definition serve (sender : Z) (m : list Z) : N unit :=
  modM (λ s, s <| msg ::= put_bytes 0 m |>);; dispatch sender.

(** [main] up to the loop. *)
Definition main_init : N unit :=
  modM (λ s, s <| n_uip ::= uip_init |>);;
  modM (λ s, s <| n_uip ::= λ u, u <| uip_ethaddr := [0x52; 0x54; 0x00; 0x00; 0x00; 0x01] |> |>);;
  modM (λ s, s <| n_arp ::= uip_arp_init |>);;
  modM (λ s, s <| n_uip ::= λ u, u <| uip_hostaddr := uip_ipaddr 10 0 2 15 |> |>);;
  modM (λ s, s <| n_uip ::= λ u, u <| uip_draddr := uip_ipaddr 10 0 2 2 |> |>);;
  modM (λ s, s <| n_uip ::= λ u, u <| uip_netmask := uip_ipaddr 255 255 255 0 |> |>);;
  modM (λ s, s <| msg ::= put_bytes 0 finish_note |>);;
  sys_send GPID_PROCESS 32.
End server.
