(* ===== verification/SysNetInv.v ===== *)
(** * The invariant of the network server

    What holds of the server's globals between requests, that every handler
    keeps it, and what a handler needs not to fault.  The lemmas carry a
    proposition [safe]: without it any fault is permitted and only what holds
    when the handler returns is shown; with it the only fault is the kernel
    stopped by a device that is not live. *)

From stdpp Require Import relations.
From S2P Require Import Prelude Bytes Checksum UipState Uip UipInv Ports Httpd Flow TcpSeg TcpTx UipThms Arp Ipc NetDev SysNet.

(** ** ARP keeps the types *)

Record wf_arp (t : arp) : Prop := {
  wa_len : length (arp_table t) = UIP_ARPTAB_SIZE;
  wa_eth : Forall (λ e, length (ae_eth e) = 6%nat ∧ bytes (ae_eth e)) (arp_table t)
}.

Lemma wf_arp0 : wf_arp arp0.
Proof. split; [done|]. apply Forall_replicate. split; [done|]. by apply Forall_replicate. Qed.

Lemma wf_arp_update ip eth t :
  length eth = 6%nat → bytes eth → wf_arp t → wf_arp (uip_arp_update ip eth t).
Proof.
  intros Hl Hb [Hn He].
  destruct (uip_arp_update_spec ip eth t) as (i & _ & Ht & _); [rewrite Hn; unfold UIP_ARPTAB_SIZE; lia|].
  split; rewrite Ht; [by rewrite length_insert|]. by apply Forall_insert.
Qed.

Lemma arp_ask_length s ip : length (arp_ask s ip) = length (uip_buf s).
Proof. unfold arp_ask. cbv zeta. by buf_len. Qed.
Lemma arp_answer_length s : length (arp_answer s) = length (uip_buf s).
Proof. unfold arp_answer. cbv zeta. by buf_len. Qed.
Lemma arp_answer_bytes s : bytes (uip_buf s) → bytes (uip_ethaddr s) → bytes (arp_answer s).
Proof. intros Hb He. unfold arp_answer. cbv zeta. auto 30 with width. Qed.

Lemma inv_appdata s n : inv_uip s → inv_uip (s <| uip_appdata := n |>).
Proof. intros [[] ?]. by split; [split|]. Qed.
Lemma inv_len s n : is_u16 n → inv_uip s → inv_uip (s <| uip_len := n |>).
Proof. intros ? [[] ?]. by split; [split|]. Qed.
Lemma inv_buf s b : length b = 422%nat → bytes b → inv_uip s → inv_uip (s <| uip_buf := b |>).
Proof. intros ? ? [[] ?]. by split; [split|]. Qed.

Lemma eth_send_inv dest s :
  inv_uip s → bytes dest → inv_uip (eth_send dest s).
Proof.
  intros Hi Hd. pose proof (inv_wf _ Hi) as [].
  unfold eth_send. cbv zeta. apply (inv_packet s); [done|by buf_len|auto with width|apply wrap16_u16].
Qed.

Lemma arp_out_inv s t :
  inv_uip s → wf_arp t →
  ∃ s', uip_arp_out (s, t) = (s', t) ∧ inv_uip s' ∧ uip_conns s' = uip_conns s ∧
        (0 < uip_len s ≤ 408 → 0 < uip_len s' ≤ 422).
Proof.
  intros Hi [_ He]. pose proof (inv_wf _ Hi) as Hw.
  assert (Hsend : ∀ d, bytes d → ∃ s', eth_send d s = s' ∧ inv_uip s' ∧ uip_conns s' = uip_conns s ∧
    (0 < uip_len s ≤ 408 → 0 < uip_len s' ≤ 422)).
  { intros d Hd. exists (eth_send d s). split; [done|]. split; [by apply eth_send_inv|]. split; [done|].
    intros Hl. unfold eth_send, uip_eth_hdr_size. cbn. rewrite wrap16_id; unfold is_u16; lia. }
  unfold uip_arp_out. destruct (uip_ipaddr_cmp _ _).
  { destruct (Hsend broadcast_ethaddr) as (s' & -> & ?); [by apply Forall_replicate|]. by exists s'. }
  cbv zeta. destruct (find_entry _ 0 (arp_table t)) as [i|] eqn:Hf.
  - destruct (Hsend (ae_eth (arp_table t !!! i))) as (s' & -> & ?); [|by exists s'].
    apply find_entry_zero in Hf as [(e & Hi' & _) _]. rewrite (list_lookup_total_correct _ _ _ Hi').
    by eapply (Forall_lookup_1 _ _ _ _ He).
  - eexists. split; [done|]. split; [|cbn; unfold ARPBUF.size; split; [done|lia]].
    apply inv_len; [unfold is_u16, ARPBUF.size; lia|]. apply inv_appdata, inv_buf; [|apply arp_ask_bytes; apply Hw|done].
    rewrite arp_ask_length. apply Hw.
Qed.

Lemma arp_in_inv s t :
  inv_uip s → wf_arp t →
  ∃ s' t', uip_arp_arpin (s, t) = (s', t') ∧ inv_uip s' ∧ wf_arp t' ∧ 0 ≤ uip_len s' ≤ 42.
Proof.
  intros Hi Ht. pose proof (inv_wf _ Hi) as Hw.
  assert (H0 : inv_uip (s <| uip_len := 0 |>)) by by apply inv_len.
  assert (Hup : ∀ ip, wf_arp (uip_arp_update ip (slice ARPBUF.shwaddr 6 (uip_buf s)) t)).
  { intros ip. apply wf_arp_update; [|by apply slice_bytes, Hw|done].
    apply length_slice. rewrite (wf_buf_len _ Hw). cbv; lia. }
  unfold uip_arp_arpin. cbn [uip_buf uip_len uip_hostaddr set_field].
  repeat case_match; eexists _, _; (split; [done|]); try (split_and!; (done || cbn; unfold ARPBUF.size; lia)).
  split_and!; [|done|cbn; unfold ARPBUF.size; lia..].
  apply inv_len; [unfold is_u16, ARPBUF.size; lia|]. apply inv_buf; [|apply arp_answer_bytes; apply Hw|done].
  rewrite arp_answer_length. apply Hw.
Qed.

(** ** The socket service, abstractly

    What a client can observe of the server, and the reply it promises to each
    socket request in that state. *)

Record sview := mk_view {
  v_listen : bool;        (* some port is listened on *)
  v_open : bool;
  v_pending : bool;       (* a connection waits to be accepted *)
  v_closed : bool;
  v_busy : bool;          (* earlier data is not yet acknowledged *)
  v_rx : list Z           (* data received and not yet read *)
}.

Inductive sreq :=
  | RListen (port : Z)
  | RAccept
  | RRecv (conn_id len : Z)
  | RSend (conn_id len : Z)
  | RClose (conn_id : Z).

Record answer := mk_answer { a_status : Z; a_conn : Z; a_len : Z; a_data : list Z }.

(** Connection 1 is the only one. *)
Definition sock_answer (v : sview) (r : sreq) : answer :=
  match r with
  | RListen port =>
      if port <=? 0 then mk_answer NET_INVALID NET_CONN_NONE 0 []
      else mk_answer NET_OK NET_CONN_NONE 0 []
  | RAccept =>
      if v_pending v then mk_answer NET_OK 1 0 [] else mk_answer NET_WOULD_BLOCK NET_CONN_NONE 0 []
  | RRecv c len =>
      if negb (v_listen v && (c =? 1)) then mk_answer NET_INVALID c 0 []
      else if negb (bool_decide (v_rx v = [])) then
        let data := take (Z.to_nat len) (v_rx v) in
        mk_answer NET_OK c (Z.of_nat (length data)) data
      else if v_closed v || negb (v_open v) then mk_answer NET_CLOSED c 0 []
      else mk_answer NET_WOULD_BLOCK c 0 []
  | RSend c len =>
      if negb (v_listen v && v_open v && (c =? 1)) then mk_answer NET_INVALID c 0 []
      else if v_busy v then mk_answer NET_WOULD_BLOCK c 0 []
      else mk_answer NET_OK c (Z.min len 512) []
  | RClose c =>
      if negb (v_listen v && v_open v && (c =? 1)) then mk_answer NET_INVALID c 0 []
      else mk_answer NET_OK c 0 []
  end.

(** The socket request in a message. *)
Definition sreq_of (m : list Z) : option sreq :=
  let t := get32 m req.type in
  if t =? NET_SOCK_LISTEN then Some (RListen (get32 m req.port))
  else if t =? NET_SOCK_ACCEPT then Some RAccept
  else if t =? NET_SOCK_RECV then Some (RRecv (get32 m req.conn_id) (get32 m req.length))
  else if t =? NET_SOCK_SEND then Some (RSend (get32 m req.conn_id) (get32 m req.length))
  else if t =? NET_SOCK_CLOSE then Some (RClose (get32 m req.conn_id))
  else None.

Definition net_view {D} (s : net D) : sview :=
  mk_view (0 <=? sock_listen_port s) (negb (sock_conn_open s =? 0)) (negb (sock_conn_pending s =? 0))
    (negb (sock_conn_closed s =? 0)) (negb (sock_tx_pending s =? 0))
    (take (Z.to_nat (sock_rx_len s)) (sock_rx_buf s)).

(** A reply's fields and buffer carry an answer. *)
Definition carries (a : answer) (status conn_id len : Z) (buf : list Z) : Prop :=
  status = a_status a ∧ conn_id = a_conn a ∧ len = a_len a ∧ take (length (a_data a)) buf = a_data a.

(** ** The server *)

Section server.
Context {D : Type} `{NetDevLaws D}.
Implicit Types s : net D.

Record inv_net s : Prop := {
  in_stack : inv_uip (n_uip s);
  in_app : wf_httpd (n_httpd s);
  in_table : wf_arp (n_arp s);
  in_device : dev_wf (n_dev s);
  in_rx : length (sock_rx_buf s) = 512%nat ∧ bytes (sock_rx_buf s);
  in_tx : length (sock_tx_buf s) = 512%nat ∧ bytes (sock_tx_buf s);
  in_rx_len : 0 ≤ sock_rx_len s ≤ 512;
  in_id : sock_conn_id s = 1;
  in_msg : (528 ≤ length (msg s))%nat ∧ bytes (msg s)
}.

(** A frame the stack handles without leaving its buffer. *)
Definition frame_sane s (f : list Z) : Prop :=
  let b := put_bytes 0 f (uip_buf (n_uip s)) in
  f ≠ [] → u16 b ARPBUF.type = HTONS UIP_ETHTYPE_IP → iplen b ≤ 408 ∧ packet_sane b.

(** The device has a sane frame, or none. *)
Definition dev_calm s : Prop :=
  wp dev_fault (dev_recv 422) (λ f _, frame_sane s f) (n_dev s).

Variable safe : Prop.
Definition Eb (e : fault) : Prop := safe → dev_fault e.

(** What polling keeps. *)
Record Keep s0 s : Prop := {
  k_inv : inv_net s;
  k_msg : msg s = msg s0;
  k_out : outbox s = outbox s0;
  k_port : sock_listen_port s = sock_listen_port s0;
  k_tx_len : sock_tx_len s = sock_tx_len s0;
  k_fits : safe → tx_fits (n_httpd s)
}.

Lemma wp_in_uip (m : M (uip * httpd) unit) (Q : unit → net D → Prop) s :
  wp Eb m (λ _ x, Q tt (s <| n_uip := x.1 |> <| n_httpd := x.2 |>)) (n_uip s, n_httpd s) →
  wp Eb (in_uip m) Q s.
Proof. unfold wp, in_uip. destruct (m _) as [[[] [u g]]|e]; done. Qed.

Lemma wp_in_dev {A} (m : M D A) (Q : A → net D → Prop) s :
  wp Eb m (λ a d, Q a (s <| n_dev := d |>)) (n_dev s) → wp Eb (in_dev m) Q s.
Proof. unfold wp, in_dev. destruct (m _) as [[a d]|e]; done. Qed.

Lemma wp_in_arp f (Q : unit → net D → Prop) s u t :
  f (n_uip s, n_arp s) = (u, t) → Q tt (s <| n_uip := u |> <| n_arp := t |>) → wp Eb (in_arp f) Q s.
Proof. intros Hf HQ. unfold wp, in_arp, modM. by rewrite Hf. Qed.

(** A call of uIP on the server's globals. *)
Lemma call_keep flag (m : M (uip * httpd) unit) s0 s u :
  m (n_uip s, n_httpd s) = uip_process flag (u, n_httpd s) → inv_uip u →
  Keep s0 s → (safe → call_ok u flag (n_httpd s)) →
  wp Eb (in_uip m) (λ _ s', Keep s0 s' ∧ (safe → uip_len (n_uip s') ≤ 408)) s.
Proof.
  intros Hm Hu [Hi Hmsg Ho Hp Hf] Hc. apply wp_in_uip. destruct Hi.
  pose proof (uip_process_spec safe u flag (n_httpd s) Hu in_app0 Hc) as Hs.
  unfold wp in *. rewrite Hm. destruct (uip_process flag (u, n_httpd s)) as [[[] [u' g']]|e].
  - destruct Hs as [(i & st & HA) [Hl _]]. destruct HA. cbn in *. split; [|by apply Hl].
    by split; [split|..].
  - intros Hsf. by destruct Hs.
Qed.

Lemma send_uip_keep s0 s :
  Keep s0 s → (safe → 0 < uip_len (n_uip s) ≤ 422) → wp Eb send_uip (λ _ s', Keep s0 s') s.
Proof.
  intros [Hi Hmsg Ho Hp Htl Hf] Hl. unfold send_uip. do 2 (apply wp_bind, wp_get). apply wp_in_dev.
  destruct Hi. assert (Hb : length (uip_buf (n_uip s)) = 422%nat) by apply in_stack0.
  destruct (decide (0 < uip_len (n_uip s) ≤ 422)) as [Hn|Hn].
  - pose proof (dev_send_law (n_dev s) (uip_len (n_uip s)) (uip_buf (n_uip s)) in_device0) as Hs.
    unfold wp in *. destruct (dev_send _ _ _) as [[[] d]|e].
    + split; try done. split; try done. apply Hs; lia.
    + intros _. apply Hs; lia.
  - assert (Hns : ¬ safe) by auto. unfold wp.
    destruct (decide (0 < uip_len (n_uip s))) as [Hpos|].
    + destruct (dev_send_over (n_dev s) (uip_len (n_uip s)) (uip_buf (n_uip s)) in_device0) as [e ->];
        [lia|]. by intros ?.
    + rewrite dev_send_bad; [by intros ?|done|lia].
Qed.

Lemma out_keep s0 s :
  Keep s0 s → (safe → uip_len (n_uip s) ≤ 408) → 0 < uip_len (n_uip s) →
  wp Eb (in_arp uip_arp_out;; send_uip) (λ _ s', Keep s0 s') s.
Proof.
  intros [Hi Hmsg Ho Hp Htl Hf] Hl Hpos. destruct Hi.
  destruct (arp_out_inv (n_uip s) (n_arp s)) as (u & Hu & Hiu & _ & Hlu); [done..|].
  apply wp_bind. eapply wp_in_arp; [done|]. apply send_uip_keep; [by split; [split|..]|].
  intros Hsf. apply Hlu. split; [done|by apply Hl].
Qed.

Lemma wf_rx_clear g : wf_httpd g → wf_httpd (g <| httpd_socket_rx_len := 0 |>).
Proof. intros []. split; cbn; try done. Qed.

Lemma sync_keep s0 s : Keep s0 s → wp Eb sync_socket_state (λ _ s', Keep s0 s') s.
Proof.
  intros [Hi Hmsg Ho Hp Htl Hf]. unfold sync_socket_state. apply wp_bind, wp_mod, wp_bind, wp_get.
  destruct Hi. destruct (in_app0). cbn [n_httpd set_field] in *.
  destruct (Z.ltb_spec 0 (httpd_socket_rx_len (n_httpd s))) as [Hn|Hn]; [|by split; [split|..]].
  unfold NET_BUF_SIZE. rewrite (proj2 (Z.ltb_ge _ _)) by lia.
  apply wp_bind, wp_mod, wp_bind, wp_get, wp_bind, wp_get. cbn [n_httpd sock_rx_buf set_field].
  unfold memcpy_ok. destruct in_rx0 as [Hrl Hrb]. rewrite Hrl, wf_rx_len.
  rewrite (proj2 (Z.leb_le _ _)), !(proj2 (Nat.leb_le _ _)) by (unfold UIP_BUFSIZE; lia). cbn [andb].
  apply wp_bind, wp_mod, wp_mod. split; try done. split; try done; cbn.
  - split; [by buf_len|]. apply put_bytes_bytes; [by apply Forall_take|done].
  - lia.
Qed.

Lemma kick_loop_keep s0 n i s :
  (i + n ≤ UIP_CONNS)%nat → Keep s0 s → wp Eb (kick_loop n i) (λ _ s', Keep s0 s') s.
Proof.
  revert i. induction n as [|n IH]; intros i Hin HK; cbn [kick_loop]; [done|].
  apply wp_bind, wp_get, wp_if; intros Hact; [|apply IH; [lia|done]].
  assert (Hiu : inv_uip ((n_uip s) <| uip_conn := Some i |>)) by (apply inv_select; [lia|apply HK]).
  apply wp_bind. eapply wp_mono; [|eapply (call_keep UIP_POLL_REQUEST); [apply uip_poll_conn_eq|exact Hiu|exact HK|]].
  - intros [] s1 [HK1 Hl1]. apply wp_bind, wp_get, wp_if; intros Hpos; [|done].
    apply out_keep; [done|done|by apply Z.ltb_lt].
  - intros Hsf. split; [by apply (k_fits s0 s HK)|done].
Qed.

Lemma kick_keep s0 s : Keep s0 s → wp Eb kick_active_connection (λ _ s', Keep s0 s') s.
Proof.
  intros HK. unfold kick_active_connection. apply wp_bind, wp_get, wp_if; intros _; [done|].
  apply wp_bind. eapply wp_mono; [|apply kick_loop_keep; [reflexivity|done]].
  intros [] s1 HK1. by apply sync_keep.
Qed.

Lemma kick_tx_keep s0 s : Keep s0 s → wp Eb net_kick_tx (λ _ s', Keep s0 s') s.
Proof.
  intros HK. unfold net_kick_tx. apply wp_bind, wp_get, wp_if; intros _; [done|by apply kick_keep].
Qed.

(** [net_poll], on whatever the device has received. *)
Lemma net_poll_keep s :
  inv_net s → (safe → tx_fits (n_httpd s) ∧ dev_calm s) → wp Eb net_poll (λ _ s', Keep s s') s.
Proof.
  intros Hi Hsf. pose proof Hi as []. assert (Hb : length (uip_buf (n_uip s)) = 422%nat) by apply in_stack0.
  unfold net_poll. apply wp_bind, wp_get, wp_bind, wp_in_dev. rewrite Hb.
  pose proof (dev_recv_law (n_dev s) 422 in_device0) as Hr. unfold dev_calm in Hsf. unfold wp at 1. unfold wp in Hr, Hsf.
  destruct (dev_recv 422 (n_dev s)) as [[f d]|e]; [|intros Hs; by apply Hsf].
  destruct Hr as (Hd & Hlf & _ & Hbf). apply wp_bind, wp_mod.
  set (s1 := s <| n_dev := d |> <| n_uip ::= _ |>).
  assert (HK : Keep s s1).
  { split; try done; [|intros Hs; by apply Hsf]. split; try done. cbn.
    apply (inv_len ((n_uip s) <| uip_buf ::= put_bytes 0 f |>)); [apply wrap16_u16|].
    apply inv_buf; [by buf_len|apply put_bytes_bytes; [done|apply in_stack0]|done]. }
  apply wp_bind, wp_get, wp_if; intros Hn; [done|]. apply wp_bind, wp_get, wp_bind.
  eapply (wp_mono _ _ (λ _ s', Keep s s')); [intros [] s2 HK2; by apply sync_keep|].
  apply wp_if; intros Ht; [|apply wp_if; intros _].
  - apply wp_bind. eapply wp_mono; [|eapply (call_keep UIP_DATA); [done|apply HK|exact HK|]].
    + intros [] s2 [HK2 Hl2]. apply wp_bind, wp_get, wp_if; intros Hpos; [|done].
      apply out_keep; [done|done|by apply Z.ltb_lt].
    + intros Hs. split; [by apply (k_fits s s1 HK)|]. apply Hsf; [done| |by apply Z.eqb_eq].
      intros ->. by cbn in Hn.
  - destruct (arp_in_inv (n_uip s1) (n_arp s1)) as (u & t & Hu & Hiu & Hwt & Hl); [apply HK..|].
    apply wp_bind. eapply wp_in_arp; [done|]. destruct HK as [[] ? ? ? ? ?].
    apply wp_bind, wp_get, wp_if; intros Hpos; [|by split; [split|..]].
    apply send_uip_keep; [by split; [split|..]|]. intros _. apply Z.ltb_lt in Hpos. cbn in *. lia.
  - apply wp_mod. destruct HK as [[] ? ? ? ? ?]. split; try done. split; try done. by apply inv_len.
Qed.

(** ** Replies *)

(** A message that is a reply with these fields. *)
Definition is_reply (m : list Z) (status conn_id len : Z) : Prop :=
  length m = reply.size ∧ decode_reply m = mk_reply status conn_id len.

(** A state a reply can be sent in; [s0] is the state the request came in. *)
Definition Ready s0 s : Prop :=
  inv_net s ∧ outbox s = outbox s0 ∧ (safe → tx_fits (n_httpd s)).

(** The request is answered: one message to the sender, carrying a reply. *)
Definition Answered (sender : Z) (R : Z → Z → Z → list Z → Prop) s0 s : Prop :=
  inv_net s ∧ (safe → tx_fits (n_httpd s)) ∧
  ∃ m status conn_id len, outbox s = outbox s0 ++ [(sender, m)] ∧
    is_reply m status conn_id len ∧ R status conn_id len (slice reply.buf 512 m).

Lemma ready_keep s0 s : Keep s0 s → Ready s0 s.
Proof. by intros []. Qed.

Lemma reply_ok sender status conn_id len (R : Z → Z → Z → list Z → Prop) s0 s :
  Ready s0 s → is_i32 status → is_i32 conn_id → is_i32 len →
  R status conn_id len (slice reply.buf 512 (msg s)) →
  wp Eb (send_net_reply sender status conn_id len) (λ _ s', Answered sender R s0 s') s.
Proof.
  intros (Hi & Ho & Hf) Hs Hc Hl HR. destruct Hi. destruct in_msg0 as [Hml Hmb].
  unfold send_net_reply. do 3 (apply wp_bind, wp_mod). apply wp_mod.
  set (m := put32 reply.length len (put32 reply.conn_id conn_id (put32 reply.status status (msg s)))).
  assert (Hlm : length m = length (msg s)) by (unfold m; by rewrite !length_put32).
  split; [|split; [done|]].
  { split; try done. change ((528 ≤ length m)%nat ∧ bytes m). rewrite Hlm. split; [done|]. unfold m. auto using put32_bytes. }
  exists (take 524 m), status, conn_id, len. split; [change (outbox s ++ [(sender, take 524 m)] = outbox s0 ++ [(sender, take 524 m)]); by rewrite Ho|].
  split; [split; [rewrite length_take, Hlm; unfold reply.size; lia|]|].
  - unfold decode_reply, reply.status, reply.conn_id, reply.length.
    rewrite !get32_take by lia. unfold m, reply.status, reply.conn_id, reply.length.
    f_equal; rewrite ?get32_put32_ne by lia; rewrite get32_put32; rewrite ?length_put32; done || lia.
  - rewrite slice_take by (unfold reply.buf; lia). unfold m, reply.status, reply.conn_id, reply.length, reply.buf.
    by rewrite !slice_put32_ne by lia.
Qed.

Lemma wp_run {A} (m : M (net D) A) (Q : A → net D → Prop) s :
  wp Eb m Q s → wp Eb m (λ a s', m s = Ok (a, s') ∧ Q a s') s.
Proof. unfold wp. by destruct (m s) as [[a s']|e]. Qed.

(** The answer is the promised one, in the state [net_poll] leaves. *)
Definition Polled (sender : Z) (r : sreq) s0 s : Prop :=
  ∃ s1, net_poll s0 = Ok (tt, s1) ∧ Answered sender (carries (sock_answer (net_view s1) r)) s0 s.

Definition poll_pre s : Prop := inv_net s ∧ (safe → tx_fits (n_httpd s) ∧ dev_calm s).

Lemma after_poll (k : M (net D) unit) sender r s :
  poll_pre s →
  (∀ s1, Keep s s1 → wp Eb k (λ _ s', Answered sender (carries (sock_answer (net_view s1) r)) s s') s1) →
  wp Eb (net_poll;; k) (λ _ s', Polled sender r s s') s.
Proof.
  intros [Hi Hs] Hk. apply wp_bind. eapply wp_mono; [|by apply wp_run, net_poll_keep].
  intros [] s1 [Hr HK]. eapply wp_mono; [|by apply Hk]. intros [] s' HA. by exists s1.
Qed.

Ltac i32 := unfold is_i32, NET_OK, NET_WOULD_BLOCK, NET_CLOSED, NET_INVALID, NET_CONN_NONE in *; lia.

Lemma reply_nodata sender st c n s0 s :
  Ready s0 s → is_i32 st → is_i32 c → is_i32 n →
  wp Eb (send_net_reply sender st c n) (λ _ s', Answered sender (carries (mk_answer st c n [])) s0 s') s.
Proof. intros. by apply reply_ok. Qed.

Lemma accept_spec sender s :
  poll_pre s → wp Eb (handle_sock_accept sender) (λ _ s', Polled sender RAccept s s') s.
Proof.
  intros Hp. apply after_poll; [done|]. intros s1 HK. apply wp_bind, wp_get.
  cbn [sock_answer net_view v_pending]. destruct (sock_conn_pending s1 =? 0); cbn [negb].
  - apply reply_nodata; [by apply ready_keep|i32..].
  - do 2 (apply wp_bind, wp_mod). apply wp_bind, wp_get.
    destruct HK as [[] ? ? ? ? ?]. cbn [sock_conn_id set_field]. rewrite in_id0.
    apply reply_nodata; [|i32..].
    split; [|done]. split; try done. destruct in_app0. by split.
Qed.

Lemma memcpy_small n a b : 0 ≤ n → (Z.to_nat n ≤ a)%nat → (Z.to_nat n ≤ b)%nat → memcpy_ok n a b = true.
Proof.
  intros. unfold memcpy_ok. by rewrite (proj2 (Z.leb_le _ _)), !(proj2 (Nat.leb_le _ _)).
Qed.

Lemma listen_view port : (port <? 0) = negb (0 <=? port).
Proof. destruct (Z.ltb_spec port 0), (Z.leb_spec 0 port); done || lia. Qed.

Lemma take_slice k o n (b : list Z) : (k ≤ n)%nat → take k (slice o n b) = slice o k b.
Proof. intros. unfold slice. rewrite take_take. f_equal. lia. Qed.

(** The data of a reply, put in the buffer the request lies in. *)
Lemma recv_reply sender data c s0 s :
  Ready s0 s → bytes data → (length data ≤ 512)%nat → is_i32 c →
  get32 (msg s) req.conn_id = c →
  wp Eb (modM (λ s, s <| msg ::= put_bytes reply.buf data |>);;
         modM (λ s, s <| sock_rx_len := 0 |>);;
         conn_id ← req_field req.conn_id;
         send_net_reply sender NET_OK conn_id (Z.of_nat (length data)))
    (λ _ s', Answered sender (carries (mk_answer NET_OK c (Z.of_nat (length data)) data)) s0 s') s.
Proof.
  intros (Hi & Ho & Hf) Hb Hl Hc He. destruct Hi. destruct in_msg0 as [Hml Hmb].
  apply wp_bind, wp_mod, wp_bind, wp_mod, wp_bind, wp_get. cbn [msg set_field].
  rewrite get32_put_bytes by (unfold reply.buf, req.conn_id; lia). rewrite He.
  apply reply_ok; [|i32|done|i32|].
  - split; [|done]. split; try done; cbn [msg set_field sock_rx_len]. split; [by buf_len|].
    by apply put_bytes_bytes.
  - split_and!; [done..|]. cbn [a_data msg set_field]. rewrite take_slice by done.
    rewrite slice_put_bytes by (unfold reply.buf; lia). by apply take_ge.
Qed.

Lemma recv_spec sender s :
  poll_pre s → (safe → 0 ≤ get32 (msg s) req.length) →
  wp Eb (handle_sock_recv sender)
    (λ _ s', Polled sender (RRecv (get32 (msg s) req.conn_id) (get32 (msg s) req.length)) s s') s.
Proof.
  intros Hp Hlen. apply after_poll; [done|]. intros s1 HK. do 3 (apply wp_bind, wp_get).
  assert (Hc : is_i32 (get32 (msg s) req.conn_id)) by apply get32_i32.
  rewrite (k_msg _ _ HK), (in_id _ (k_inv _ _ HK)), listen_view.
  cbn [sock_answer net_view v_listen v_rx v_closed v_open]. rewrite negb_andb.
  apply wp_if; intros Hinv; rewrite Hinv; [apply reply_nodata; [by apply ready_keep|i32..]|].
  apply wp_bind, wp_get. pose proof (in_rx _ (k_inv _ _ HK)) as [Hrl Hrb].
  pose proof (in_rx_len _ (k_inv _ _ HK)) as Hrn. apply wp_if; intros Hn.
  - apply Z.ltb_lt in Hn. apply wp_bind, wp_get. cbv zeta. apply wp_bind, wp_get. rewrite (k_msg _ _ HK).
    rewrite bool_decide_false by (intros E; apply (f_equal length) in E; rewrite length_take in E; cbn in E; lia).
    cbn [negb]. set (len := get32 (msg s) req.length) in *. set (n := sock_rx_len s1) in *.
    set (rx_len := if len <? n then len else n). apply wp_if; intros Hcpy; [|].
    + assert (0 ≤ rx_len ≤ 512) as Hrx.
      { unfold memcpy_ok in Hcpy. rewrite !andb_true_iff, Z.leb_le in Hcpy. split; [tauto|].
        unfold rx_len. destruct (Z.ltb_spec len n); lia. }
      replace (take (Z.to_nat len) (take (Z.to_nat n) (sock_rx_buf s1)))
        with (take (Z.to_nat rx_len) (sock_rx_buf s1)).
      2:{ rewrite take_take. f_equal. unfold rx_len in *. destruct (Z.ltb_spec len n); lia. }
      assert (Hlt : rx_len = Z.of_nat (length (take (Z.to_nat rx_len) (sock_rx_buf s1))))
        by (rewrite length_take; lia).
      assert (Hdb : bytes (take (Z.to_nat rx_len) (sock_rx_buf s1))) by by apply Forall_take.
      set (data := take (Z.to_nat rx_len) (sock_rx_buf s1)) in *. clearbody data rx_len. subst rx_len.
      apply recv_reply; [by apply ready_keep|done|lia|done|by rewrite (k_msg _ _ HK)].
    + apply wp_fail. intros Hs. exfalso. specialize (Hlen Hs).
      rewrite memcpy_small in Hcpy; [done|..]; unfold rx_len, NET_BUF_SIZE; destruct (Z.ltb_spec len n); lia.
  - apply Z.ltb_ge in Hn. rewrite bool_decide_true by (replace (sock_rx_len s1) with 0 by lia; done).
    cbn [negb]. do 2 (apply wp_bind, wp_get). rewrite negb_involutive.
    apply wp_if; intros Hcl; rewrite Hcl; (apply reply_nodata; [by apply ready_keep|i32..]).
Qed.

Lemma valid_view c s : inv_net s →
  socket_conn_valid c s = v_listen (net_view s) && v_open (net_view s) && (c =? 1).
Proof. intros Hi. unfold socket_conn_valid. by rewrite (in_id _ Hi). Qed.

Lemma wf_set_tx g n data :
  wf_httpd g → bytes data →
  wf_httpd (g <| httpd_socket_tx_buf := put_bytes 0 (take n data) (httpd_socket_tx_buf g) |>).
Proof.
  intros [] Hd. split; cbn; try done; [by buf_len|]. by apply put_bytes_bytes; [apply Forall_take|].
Qed.

Lemma sock_send_spec sender s :
  poll_pre s → (safe → 0 ≤ get32 (msg s) req.length ≤ 368) →
  wp Eb (handle_sock_send sender)
    (λ _ s', Polled sender (RSend (get32 (msg s) req.conn_id) (get32 (msg s) req.length)) s s') s.
Proof.
  intros Hp Hlen. apply after_poll; [done|]. intros s1 HK. do 3 (apply wp_bind, wp_get).
  assert (Hc : is_i32 (get32 (msg s) req.conn_id)) by apply get32_i32.
  assert (Hil : is_i32 (get32 (msg s) req.length)) by apply get32_i32.
  pose proof (k_inv _ _ HK) as Hi1. rewrite (k_msg _ _ HK), (valid_view _ _ Hi1), listen_view.
  cbn [sock_answer net_view v_listen v_open v_busy].
  set (c := get32 (msg s) req.conn_id) in *. set (n0 := get32 (msg s) req.length) in *.
  set (v := (0 <=? sock_listen_port s1) && negb (sock_conn_open s1 =? 0) && (c =? 1)).
  assert ((negb (0 <=? sock_listen_port s1) || negb v) = negb v) as ->.
  { unfold v. by destruct (0 <=? sock_listen_port s1), (negb v). }
  apply wp_if; intros Hv; rewrite Hv; [apply reply_nodata; [by apply ready_keep|i32..]|].
  apply wp_bind, wp_get, wp_if; intros Hb; rewrite Hb; [apply reply_nodata; [by apply ready_keep|i32..]|].
  apply wp_bind, wp_get. rewrite (k_msg _ _ HK). fold n0. cbv zeta.
  assert (clamp_net_length n0 = Z.min n0 512) as ->.
  { unfold clamp_net_length, NET_BUF_SIZE. destruct (Z.ltb_spec 512 n0); lia. }
  set (n := Z.min n0 512).
  apply wp_bind, wp_mod. do 3 (apply wp_bind, wp_get). cbn [msg sock_tx_buf n_httpd set_field].
  destruct Hi1. destruct in_msg0 as [Hml Hmb]. destruct in_tx0 as [Htl Htb].
  assert (Hdl : length (slice req.buf (Z.to_nat NET_BUF_SIZE) (msg s1)) = 512%nat).
  { apply length_slice. unfold req.buf, NET_BUF_SIZE. lia. }
  apply wp_bind, wp_if; intros Hm1.
  2:{ apply wp_fail. intros Hs. exfalso. specialize (Hlen Hs).
      rewrite memcpy_small in Hm1; rewrite ?Hdl, ?Htl; (done || unfold n; lia). }
  apply wp_mod, wp_bind, wp_get, wp_bind, wp_if; intros Hm2.
  2:{ apply wp_fail. intros Hs. exfalso. specialize (Hlen Hs). cbn [sock_tx_buf set_field] in Hm2.
      rewrite memcpy_small in Hm2; rewrite ?length_put_bytes, ?Htl, ?(wf_tx_len _ in_app0);
        (done || unfold n, UIP_BUFSIZE; lia). }
  do 2 (apply wp_mod, wp_bind). apply wp_mod, wp_bind. cbn [sock_tx_buf set_field].
  match goal with |- wp _ net_kick_tx _ ?s' => assert (HK2 : Keep s' s'); [|assert (Ho : outbox s' = outbox s) by apply HK] end.
  { assert (Hdb : bytes (put_bytes 0 (take (Z.to_nat n) (slice req.buf (Z.to_nat NET_BUF_SIZE) (msg s1))) (sock_tx_buf s1))).
    { apply put_bytes_bytes; [by apply Forall_take, slice_bytes|done]. }
    split; try done; [split; try done; cbn -[put_bytes]|].
    - destruct (wf_set_tx (n_httpd s1) (Z.to_nat n) _ in_app0 Hdb). by split.
    - split; [by buf_len|done].
    - intros Hs. specialize (Hlen Hs). unfold tx_fits. cbn -[put_bytes]. unfold n. lia. }
  eapply wp_mono; [|by apply kick_tx_keep]. intros [] s3 HK3.
  apply wp_bind, wp_get. rewrite (k_tx_len _ _ HK3). cbn [sock_tx_len set_field].
  apply reply_nodata; [|i32|i32|unfold n; i32].
  split; [apply HK3|]. split; [by rewrite (k_out _ _ HK3)|apply HK3].
Qed.

Lemma close_spec sender s :
  poll_pre s →
  wp Eb (handle_sock_close sender) (λ _ s', Polled sender (RClose (get32 (msg s) req.conn_id)) s s') s.
Proof.
  intros Hp. apply after_poll; [done|]. intros s1 HK. do 2 (apply wp_bind, wp_get).
  assert (Hc : is_i32 (get32 (msg s) req.conn_id)) by apply get32_i32.
  pose proof (k_inv _ _ HK) as Hi1. rewrite (k_msg _ _ HK), (valid_view _ _ Hi1).
  cbn [sock_answer net_view v_listen v_open].
  apply wp_if; intros Hv; rewrite Hv; [apply reply_nodata; [by apply ready_keep|i32..]|].
  apply wp_bind, wp_mod, wp_bind.
  match goal with |- wp _ net_kick_close _ ?s' => assert (HK2 : Keep s s') end.
  { destruct HK as [[] ? ? ? ? ?]. split; try done. split; try done. destruct in_app0. by split. }
  eapply wp_mono; [|by apply kick_keep]. intros [] s3 HK3. apply wp_bind, wp_mod.
  apply reply_nodata; [|i32..]. destruct HK3 as [[] ? ? ? ? ?]. split; [|done]. by split.
Qed.

Lemma listen_spec sender s :
  inv_net s → (safe → tx_fits (n_httpd s)) →
  wp Eb (handle_sock_listen sender)
    (λ _ s', Answered sender (carries (sock_answer (net_view s) (RListen (get32 (msg s) req.port)))) s s' ∧
             (0 < get32 (msg s) req.port →
              uip_listenports (n_uip s') =
                uip_listenports (uip_listen (HTONS (get32 (msg s) req.port)) (n_uip s)) ∧
              sock_listen_port s' = get32 (msg s) req.port)) s.
Proof.
  intros Hi Hf. unfold handle_sock_listen. apply wp_bind, wp_get. cbn [sock_answer].
  apply wp_if; intros Hp; rewrite Hp.
  { eapply wp_mono; [|apply reply_nodata; [by split|i32..]]. intros [] s' HA. split; [done|].
    apply Z.leb_le in Hp. lia. }
  apply wp_bind, wp_mod. unfold reset_socket_state. do 2 apply wp_bind. apply wp_mod, wp_mod, wp_bind, wp_mod.
  match goal with |- wp _ _ _ ?s' => assert (HR : Ready s s') end.
  { destruct Hi. split; [|done]. split; try done.
    - apply uip_listen_inv; [apply HTONS_u16|done].
    - destruct in_app0. by split. }
  apply wp_and; [apply reply_nodata; [done|i32..]|].
  unfold send_net_reply. do 3 (apply wp_bind, wp_mod). by apply wp_mod.
Qed.

(** ** Raw frames *)

Lemma raw_send_spec sender s :
  inv_net s → (safe → tx_fits (n_httpd s) ∧ 0 < get32 (msg s) req.length ≤ 512) →
  wp Eb (handle_net_send sender)
    (λ _ s', Answered sender (carries (mk_answer NET_OK NET_CONN_NONE 0 [])) s s' ∧
             ∃ d, dev_send (get32 (msg s) req.length) (slice req.buf 512 (msg s)) (n_dev s) = Ok (tt, d) ∧
                  n_dev s' = d) s.
Proof.
  intros Hi Hs. pose proof Hi as []. destruct in_msg0 as [Hml Hmb].
  assert (Hdl : length (slice req.buf (Z.to_nat NET_BUF_SIZE) (msg s)) = 512%nat).
  { apply length_slice. unfold req.buf, NET_BUF_SIZE. lia. }
  unfold handle_net_send. do 2 (apply wp_bind, wp_get). apply wp_bind, wp_in_dev.
  change (Z.to_nat NET_BUF_SIZE) with 512%nat in *.
  set (n := get32 (msg s) req.length) in *. set (p := slice req.buf 512 (msg s)) in *. unfold wp at 1.
  destruct (dev_send n p (n_dev s)) as [[[] d]|e] eqn:Hd.
  - assert (Hwd : dev_wf d).
    { destruct (decide (0 < n ≤ 2048)) as [Hn|]; [|rewrite dev_send_bad in Hd; [done|done|lia]].
      destruct (decide (Z.to_nat n ≤ length p)%nat) as [Hp|].
      - pose proof (dev_send_law (n_dev s) n p in_device0 Hn Hp) as Hl. unfold wp in Hl. by rewrite Hd in Hl.
      - destruct (dev_send_over (n_dev s) n p in_device0) as [e He]; [lia|]. by rewrite Hd in He. }
    apply wp_and.
    + apply reply_nodata; [|i32..]. split; [by split|]. split; [done|]. apply Hs.
    + unfold send_net_reply. do 3 (apply wp_bind, wp_mod). apply wp_mod. by exists d.
  - intros Hsf. destruct (Hs Hsf) as [_ Hn].
    pose proof (dev_send_law (n_dev s) n p in_device0) as Hl. unfold wp in Hl. rewrite Hd in Hl. apply Hl; lia.
Qed.

Lemma raw_recv_spec sender s :
  inv_net s → (safe → tx_fits (n_httpd s) ∧ wp dev_fault (dev_recv 512) (λ _ _, True) (n_dev s)) →
  wp Eb (handle_net_recv sender)
    (λ _ s', ∃ f d, dev_recv 512 (n_dev s) = Ok (f, d) ∧ n_dev s' = d ∧
             Answered sender (carries (mk_answer NET_OK NET_CONN_NONE (Z.of_nat (length f)) f)) s s') s.
Proof.
  intros Hi Hs. pose proof Hi as []. destruct in_msg0 as [Hml Hmb].
  unfold handle_net_recv. apply wp_bind, wp_in_dev. change (Z.to_nat NET_BUF_SIZE) with 512%nat.
  pose proof (dev_recv_law (n_dev s) 512 in_device0) as Hl. unfold wp in Hl, Hs. unfold wp at 1.
  destruct (dev_recv 512 (n_dev s)) as [[f d]|e]; [|intros Hsf; by apply Hs].
  destruct Hl as (Hwd & Hlf & _ & Hbf). do 2 (apply wp_bind, wp_mod). apply wp_bind, wp_get. cbn [msg set_field].
  assert (Hif : is_i32 (Z.of_nat (length f))) by i32.
  rewrite get32_put32; [|rewrite length_put_bytes; unfold reply.length; lia|done].
  eapply (wp_mono _ _ (λ _ s', n_dev s' = d ∧ Answered sender (carries (mk_answer NET_OK NET_CONN_NONE (Z.of_nat (length f)) f)) s s'));
    [intros [] s' [Hd HA]; by exists f, d|]. apply wp_and.
  { unfold send_net_reply. do 3 (apply wp_bind, wp_mod). by apply wp_mod. }
  apply reply_ok; [|i32|i32|done|].
  - split; [|split; [done|apply Hs]]. split; try done. cbn [msg set_field]. rewrite length_put32, length_put_bytes.
    split; [done|]. by apply put32_bytes, put_bytes_bytes.
  - split_and!; [done..|]. cbn [a_data msg set_field]. rewrite take_slice by done.
    rewrite slice_put32_ne by (unfold reply.buf, reply.length; lia).
    rewrite slice_put_bytes by (unfold reply.buf; lia). by apply take_ge.
Qed.

(** ** A whole request *)

(** The state the answer is given in: [sock_listen] does not poll. *)
Definition poll_state (r : sreq) s s1 : Prop :=
  match r with RListen _ => s1 = s | _ => net_poll s = Ok (tt, s1) end.

Definition Served (sender : Z) s s' : Prop :=
  inv_net s' ∧ (safe → tx_fits (n_httpd s')) ∧
  ∃ rep status conn_id len, outbox s' = outbox s ++ [(sender, rep)] ∧ is_reply rep status conn_id len ∧
    match sreq_of (msg s) with
    | Some r => ∃ s1, poll_state r s s1 ∧
                      carries (sock_answer (net_view s1) r) status conn_id len (slice reply.buf 512 rep)
    | None => status = NET_OK
    end.

(** What a request needs not to fault. *)
Record req_safe s : Prop := {
  rs_fits : tx_fits (n_httpd s);
  rs_type : 0 ≤ get32 (msg s) req.type ≤ 6;
  rs_send : get32 (msg s) req.type = NET_SEND → 0 < get32 (msg s) req.length ≤ 512;
  rs_recv : get32 (msg s) req.type = NET_RECV → wp dev_fault (dev_recv 512) (λ _ _, True) (n_dev s);
  rs_poll : NET_SOCK_ACCEPT ≤ get32 (msg s) req.type → dev_calm s;
  rs_sock_recv : get32 (msg s) req.type = NET_SOCK_RECV → 0 ≤ get32 (msg s) req.length;
  rs_sock_send : get32 (msg s) req.type = NET_SOCK_SEND → 0 ≤ get32 (msg s) req.length ≤ 368
}.

Lemma served_polled sender r s s' :
  sreq_of (msg s) = Some r → (∀ p, r ≠ RListen p) → Polled sender r s s' → Served sender s s'.
Proof.
  intros Hr Hl (s1 & Hp & Hi & Hf & m & st & c & n & Ho & Hm & HR). split; [done|]. split; [done|].
  exists m, st, c, n. split; [done|]. split; [done|]. rewrite Hr. exists s1. split; [|done].
  destruct r; try done. by destruct (Hl port).
Qed.

Lemma served_other sender a s s' :
  sreq_of (msg s) = None → a_status a = NET_OK → Answered sender (carries a) s s' → Served sender s s'.
Proof.
  intros Hr Ha (Hi & Hf & m & st & c & n & Ho & Hm & HR). split; [done|]. split; [done|].
  exists m, st, c, n. split; [done|]. split; [done|]. rewrite Hr. destruct HR as (-> & _). done.
Qed.

Lemma dispatch_spec sender s :
  inv_net s → (safe → req_safe s) → wp Eb (dispatch sender) (λ _ s', Served sender s s') s.
Proof.
  intros Hi Hs. assert (Hf : safe → tx_fits (n_httpd s)) by (intros Hsf; apply (Hs Hsf)).
  assert (Hpp : NET_SOCK_ACCEPT ≤ get32 (msg s) req.type → poll_pre s).
  { intros Ht. split; [done|]. intros Hsf. split; [by apply Hf|]. by apply (rs_poll s (Hs Hsf)). }
  unfold dispatch. apply wp_bind, wp_get. set (t := get32 (msg s) req.type) in *.
  repeat (apply wp_if; [intros Ht%Z.eqb_eq|intros ?%Z.eqb_neq]); unfold t in *.
  - eapply wp_mono; [|apply raw_send_spec; [done|]].
    + intros [] s' [HA _]. eapply served_other; [| |exact HA]; [unfold sreq_of; by rewrite Ht|done].
    + intros Hsf. split; [by apply Hf|]. by apply (rs_send s (Hs Hsf)).
  - eapply wp_mono; [|apply raw_recv_spec; [done|]].
    + intros [] s' (f & d & _ & _ & HA). eapply served_other; [| |exact HA]; [unfold sreq_of; by rewrite Ht|done].
    + intros Hsf. split; [by apply Hf|]. by apply (rs_recv s (Hs Hsf)).
  - eapply wp_mono; [|by apply listen_spec].
    intros [] s' [(Hi' & Hf' & m & st & c & n & Ho & Hm & HR) _]. split; [done|]. split; [done|].
    exists m, st, c, n. split; [done|]. split; [done|]. unfold sreq_of. rewrite Ht. by exists s.
  - eapply wp_mono; [|apply accept_spec, Hpp; rewrite Ht; by vm_compute]. intros [] s'. apply served_polled; [|done].
    unfold sreq_of. by rewrite Ht.
  - eapply wp_mono; [|apply recv_spec; [apply Hpp; rewrite Ht; by vm_compute|]].
    + intros [] s'. apply served_polled; [unfold sreq_of; by rewrite Ht|done].
    + intros Hsf. by apply (rs_sock_recv s (Hs Hsf)).
  - eapply wp_mono; [|apply sock_send_spec; [apply Hpp; rewrite Ht; by vm_compute|]].
    + intros [] s'. apply served_polled; [unfold sreq_of; by rewrite Ht|done].
    + intros Hsf. by apply (rs_sock_send s (Hs Hsf)).
  - eapply wp_mono; [|apply close_spec, Hpp; rewrite Ht; by vm_compute]. intros [] s'. apply served_polled; [|done].
    unfold sreq_of. by rewrite Ht.
  - apply wp_fail. intros Hsf. pose proof (rs_type s (Hs Hsf)).
    unfold NET_SEND, NET_RECV, NET_SOCK_LISTEN, NET_SOCK_ACCEPT, NET_SOCK_RECV, NET_SOCK_SEND, NET_SOCK_CLOSE in *. lia.
Qed.

Lemma inv_deliver m s :
  inv_net s → bytes m → inv_net (s <| msg ::= put_bytes 0 m |>).
Proof.
  intros [] Hm. split; try done. cbn [msg set_field]. rewrite length_put_bytes.
  split; [apply in_msg0|]. apply put_bytes_bytes; [done|apply in_msg0].
Qed.
End server.
