(* ===== verification/SysNetThms.v ===== *)
(** * What the network server guarantees

    Every request is answered once, with the answer of the abstract socket
    service; requests that respect the buffers never make the server fault; and
    data crosses the whole path between a client and the device, in both
    directions. *)

From stdpp Require Import relations.
From S2P Require Import Prelude Bytes Checksum UipState Uip PacketSum UipInv Ports Httpd Flow TcpSeg TcpTx.
From S2P Require Import UipThms Arp Ipc NetDev SysNet SysNetInv.

Ltac req_ty :=
  unfold NET_SEND, NET_RECV, NET_SOCK_LISTEN, NET_SOCK_ACCEPT, NET_SOCK_RECV, NET_SOCK_SEND, NET_SOCK_CLOSE; lia.

Section server.
Context {D : Type} `{NetDevLaws D}.
Implicit Types s : net D.

(** The request [m] in the server's buffer. *)
Definition deliver (m : list Z) s : net D := s <| msg ::= put_bytes 0 m |>.

Lemma serve_eq sender m s : serve sender m s = dispatch sender (deliver m s).
Proof. done. Qed.

(** C6: Whatever request arrives and whatever frame the device holds, a request
    that returns is answered by exactly one message, to its sender, of the
    reply's size; a socket request gets the answer the abstract service gives
    in the state after the device was polled; the invariant is kept. *)
Theorem serve_refines sender m s s' :
  inv_net s → bytes m → serve sender m s = Ok (tt, s') →
  inv_net s' ∧
  ∃ rep status conn_id len, outbox s' = outbox s ++ [(sender, rep)] ∧ is_reply rep status conn_id len ∧
    match sreq_of (msg (deliver m s)) with
    | Some r => ∃ s1, poll_state r (deliver m s) s1 ∧
        carries (sock_answer (net_view s1) r) status conn_id len (slice reply.buf 512 rep)
    | None => status = NET_OK
    end.
Proof.
  intros Hi Hm Hr. rewrite serve_eq in Hr.
  pose proof (dispatch_spec False sender (deliver m s) (inv_deliver m s Hi Hm) ltac:(done)) as Hd.
  unfold wp in Hd. rewrite Hr in Hd. destruct Hd as (Hi' & _ & Hrest). done.
Qed.

(** A request that is safe, over a live device. *)
Lemma serve_safe sender m s :
  dev_live → inv_net s → bytes m → req_safe (deliver m s) →
  ∃ s', serve sender m s = Ok (tt, s') ∧ Served True sender (deliver m s) s'.
Proof.
  intros Hlive Hi Hm Hs.
  pose proof (dispatch_spec True sender (deliver m s) (inv_deliver m s Hi Hm) (λ _, Hs)) as Hd.
  rewrite serve_eq. unfold wp in Hd. destruct (dispatch sender (deliver m s)) as [[[] s']|e].
  - by exists s'.
  - destruct (Hd I) as [_ Hn]. by destruct Hn.
Qed.

(** C27: A request that respects the buffers ([req_safe]: a known type, lengths
    that fit, a sane frame in the device) never faults: over a live device
    it returns, and what is queued for sending still fits a packet. *)
Theorem serve_returns sender m s :
  dev_live → inv_net s → bytes m → req_safe (deliver m s) →
  ∃ s', serve sender m s = Ok (tt, s') ∧ inv_net s' ∧ tx_fits (n_httpd s').
Proof.
  intros Hlive Hi Hm Hs. destruct (serve_safe sender m s Hlive Hi Hm Hs) as (s' & Hr & Hi' & Hf & _). eauto.
Qed.

(** ** Runs of the server *)

Inductive net_step : net D → net D → Prop :=
  | ns_serve s sender m s' : bytes m → serve sender m s = Ok (tt, s') → net_step s s'
  | ns_dev s d : dev_wf d → net_step s (s <| n_dev := d |>).

(** The state [main] enters its loop in. *)
Definition boot_uip : uip :=
  (uip_init uip0) <| uip_ethaddr := [0x52; 0x54; 0x00; 0x00; 0x00; 0x01] |>
    <| uip_hostaddr := uip_ipaddr 10 0 2 15 |> <| uip_draddr := uip_ipaddr 10 0 2 2 |>
    <| uip_netmask := uip_ipaddr 255 255 255 0 |>.
Definition boot (d : D) (m : list Z) : net D :=
  let m' := put_bytes 0 finish_note m in
  mk_net boot_uip httpd0 (uip_arp_init arp0) d (-1) 1 0 0 0 (replicate 512 0) 0 (replicate 512 0) 0 0
    m' [(GPID_PROCESS, take 32 m')].

Lemma main_init_eq d m : main_init (net0 d m) = Ok (tt, boot d m).
Proof. reflexivity. Qed.

Lemma boot_inv d m : dev_wf d → (528 ≤ length m)%nat → bytes m → inv_net (boot d m).
Proof.
  intros Hd Hl Hm. split; cbn [n_uip n_httpd n_arp n_dev sock_rx_buf sock_tx_buf sock_rx_len sock_conn_id msg boot];
    try done.
  - assert (Hu : boot_uip = uip_unlisten (HTONS 80) demo_up) by (by vm_compute).
    rewrite Hu. apply uip_unlisten_inv, inv_demo_up.
  - apply wf_httpd0.
  - split; [done|]. apply (bool_decide_unpack _). by vm_compute.
  - split; [done|by apply Forall_replicate].
  - split; [done|by apply Forall_replicate].
  - rewrite length_put_bytes. split; [done|]. apply put_bytes_bytes; [|done].
    apply (bool_decide_unpack _). by vm_compute.
Qed.

Lemma main_init_inv (d : D) m s :
  dev_wf d → (528 ≤ length m)%nat → bytes m → main_init (net0 d m) = Ok (tt, s) → inv_net s.
Proof.
  intros Hd Hl Hm Hr. rewrite main_init_eq in Hr. injection Hr as <-. by apply boot_inv.
Qed.

Lemma reach_inv s1 s : inv_net s1 → rtc net_step s1 s → inv_net s.
Proof.
  intros Hi Hr. induction Hr as [|x y z Hs _ IH]; [done|]. apply IH. destruct Hs as [s sender m' s' Hb Hok|s d' Hd].
  - pose proof (dispatch_spec False sender (deliver m' s) (inv_deliver m' s Hi Hb) ltac:(done)) as Hsp.
    rewrite serve_eq in Hok. unfold wp in Hsp. rewrite Hok in Hsp. apply Hsp.
  - destruct Hi. by split.
Qed.

(** C26: From its start on, through any sequence of requests with any content
    and whatever the device does in between, the server's invariant holds:
    the stack's, the ARP table's and the application's types, and the socket
    buffers and lengths within their bounds. *)
Theorem server_inv (d : D) m s1 s :
  dev_wf d → (528 ≤ length m)%nat → bytes m → main_init (net0 d m) = Ok (tt, s1) →
  rtc net_step s1 s → inv_net s.
Proof.
  intros Hd Hl Hm Hmi Hr. apply main_init_inv in Hmi; [|done..]. by eapply reach_inv.
Qed.

(** ** Data from the device to a client *)

Lemma live_ok {A} (m : M (net D) A) (Q : A → net D → Prop) s :
  dev_live → wp (Eb True) m Q s → ∃ a s', m s = Ok (a, s') ∧ Q a s'.
Proof.
  intros Hl Hw. unfold wp in Hw. destruct (m s) as [[a s']|e]; [by exists a, s'|].
  destruct (Hw I) as [_ Hn]. by destruct Hn.
Qed.

(** uIP's globals with a received frame in the buffer. *)
Definition arrived (f : list Z) s : uip :=
  (n_uip s) <| uip_buf ::= put_bytes 0 f |> <| uip_len := wrap16 (Z.of_nat (length f)) |>.

(** The server holds [data], unread. *)
Definition holds (data : list Z) s : Prop :=
  sock_rx_len s = Z.of_nat (length data) ∧ take (length data) (sock_rx_buf s) = data.

Lemma sync_holds n data g0 s :
  rx_is n data g0 (n_httpd s) → length data = n → (0 < n ≤ 420)%nat →
  length (httpd_socket_rx_buf g0) = 420%nat → length (sock_rx_buf s) = 512%nat →
  wp (Eb False) sync_socket_state (λ _ s', holds data s') s.
Proof.
  intros [Hn Hb] Hd Hlt Hg Hs. unfold sync_socket_state. apply wp_bind, wp_mod, wp_bind, wp_get.
  cbn [n_httpd set_field]. rewrite Hn. apply wp_if; intros Hp; [|apply Z.ltb_ge in Hp; lia].
  cbv zeta. unfold NET_BUF_SIZE. rewrite (proj2 (Z.ltb_ge _ _)) by lia.
  apply wp_bind, wp_mod, wp_bind, wp_get, wp_bind, wp_get, wp_if; intros Hc; [|by apply wp_fail].
  apply wp_bind, wp_mod, wp_mod. unfold holds. cbn [sock_rx_len sock_rx_buf n_httpd set_field].
  rewrite Hd, Hb, Nat2Z.id. split; [done|].
  assert (Hdata : take n (put_bytes 0 data (httpd_socket_rx_buf g0)) = data).
  { change (slice 0 n (put_bytes 0 data (httpd_socket_rx_buf g0)) = data).
    rewrite slice_put_bytes by lia. by apply take_ge; lia. }
  rewrite Hdata. change (slice 0 n (put_bytes 0 data (sock_rx_buf s)) = data).
  rewrite slice_put_bytes by lia. apply take_ge. lia.
Qed.

Lemma send_uip_httpd s :
  wp (Eb False) send_uip (λ _ s', n_httpd s' = n_httpd s ∧ sock_rx_buf s' = sock_rx_buf s) s.
Proof.
  unfold send_uip. do 2 (apply wp_bind, wp_get). apply wp_in_dev. unfold wp.
  by destruct (dev_send _ _ _) as [[[] d]|e].
Qed.

Lemma out_httpd s :
  wp (Eb False) (in_arp uip_arp_out;; send_uip) (λ _ s', n_httpd s' = n_httpd s ∧ sock_rx_buf s' = sock_rx_buf s) s.
Proof.
  apply wp_bind. destruct (uip_arp_out (n_uip s, n_arp s)) as [u t] eqn:Hu.
  eapply wp_in_arp; [done|]. eapply wp_mono; [|apply send_uip_httpd]. by intros [] s2.
Qed.

Lemma poll_holds s f d i n :
  inv_net s → dev_recv 422 (n_dev s) = Ok (f, d) →
  u16 (uip_buf (arrived f s)) ARPBUF.type = HTONS UIP_ETHTYPE_IP →
  data_segment (arrived f s) i n →
  wp (Eb False) net_poll (λ _ s', holds (slice 54 n (uip_buf (arrived f s))) s') s.
Proof.
  intros Hi Hr Ht Hseg.
  assert (Hb : length (uip_buf (n_uip s)) = 422%nat) by apply (in_stack _ Hi).
  destruct (ds_data _ _ _ Hseg) as [Hil Hn]. destruct (ds_len _ _ _ Hseg) as [Hle H408].
  unfold net_poll. apply wp_bind, wp_get, wp_bind, wp_in_dev. rewrite Hb. unfold wp at 1. rewrite Hr.
  apply wp_bind, wp_mod, wp_bind, wp_get. fold (arrived f s).
  match goal with |- wp _ _ _ ?t => set (s1 := t) end.
  assert (Hn1 : n_uip s1 = arrived f s) by done. rewrite Hn1.
  apply wp_if; intros Hz; [apply Z.leb_le in Hz; lia|].
  apply wp_bind, wp_get. rewrite Hn1, Ht, Z.eqb_refl. apply wp_bind, wp_bind, wp_in_uip.
  eapply (wp_mono _ _ (Delivered (arrived f s) (n_httpd s) i n)).
  2:{ rewrite Hn1. pose proof (uip_input_rx (arrived f s) (n_httpd s) i n Hseg) as Hrx.
      unfold wp in *. by destruct (uip_input _). }
  intros [] [u g] [Hrx _]. cbn [fst snd] in *.
  apply wp_bind, wp_get.
  assert (Hfin : ∀ s2, n_httpd s2 = g → sock_rx_buf s2 = sock_rx_buf s →
    wp (Eb False) sync_socket_state (λ _ s', holds (slice 54 n (uip_buf (arrived f s))) s') s2).
  { intros s2 Hg Hx. eapply (sync_holds n _ (n_httpd s)); [by rewrite Hg|..].
    - apply length_slice. cbn [arrived uip_buf set_field]. rewrite length_put_bytes, Hb. lia.
    - lia.
    - rewrite (wf_rx_len _ (in_app _ Hi)). done.
    - rewrite Hx. apply (in_rx _ Hi). }
  apply wp_if; intros _; [|by apply wp_ret, Hfin].
  eapply wp_mono; [|apply out_httpd]. intros [] s2 [Hg Hx]. apply Hfin; [by rewrite Hg|by rewrite Hx].
Qed.

Lemma sreq_recv m c len :
  sreq_of m = Some (RRecv c len) →
  get32 m req.type = NET_SOCK_RECV ∧ get32 m req.conn_id = c ∧ get32 m req.length = len.
Proof.
  unfold sreq_of. repeat case_match; intros Heq; try done. injection Heq as <- <-.
  split; [by apply Z.eqb_eq|done].
Qed.

Lemma segment_calm s f d i n :
  inv_uip (arrived f s) → tx_fits (n_httpd s) → dev_recv 422 (n_dev s) = Ok (f, d) →
  data_segment (arrived f s) i n → dev_calm s.
Proof.
  intros Hia Hf Hr Hseg. unfold dev_calm, wp. rewrite Hr. intros _ _.
  destruct (data_segment_ok _ _ _ _ Hia Hf Hseg) as [_ Hok]. exact Hok.
Qed.

Lemma arrived_inv f s d :
  inv_net s → dev_recv 422 (n_dev s) = Ok (f, d) → inv_uip (arrived f s).
Proof.
  intros Hi Hr. pose proof (dev_recv_law (n_dev s) 422 (in_device _ Hi)) as Hl. unfold wp in Hl.
  rewrite Hr in Hl. destruct Hl as (_ & _ & _ & Hb).
  apply inv_len; [apply wrap16_u16|]. apply (inv_buf _ (put_bytes 0 f (uip_buf (n_uip s)))); [| |apply (in_stack _ Hi)].
  - rewrite length_put_bytes. apply (in_stack _ Hi).
  - apply put_bytes_bytes; [done|apply (in_stack _ Hi)].
Qed.

Lemma poll_keeps_port s s1 :
  inv_net s → net_poll s = Ok (tt, s1) → sock_listen_port s1 = sock_listen_port s ∧ inv_net s1.
Proof.
  intros Hi Hp. pose proof (net_poll_keep False s Hi ltac:(done)) as Hk. unfold wp in Hk. rewrite Hp in Hk.
  by destruct Hk.
Qed.

Lemma holds_view data s :
  holds data s → v_rx (net_view s) = data.
Proof. intros [Hl Hd]. cbn. by rewrite Hl, Nat2Z.id. Qed.

Lemma recv_path sender m s f d i n len :
  dev_live → inv_net s → tx_fits (n_httpd s) → bytes m → 0 ≤ sock_listen_port s →
  sreq_of (msg (deliver m s)) = Some (RRecv 1 len) → Z.of_nat n ≤ len →
  dev_recv 422 (n_dev s) = Ok (f, d) →
  u16 (uip_buf (arrived f s)) ARPBUF.type = HTONS UIP_ETHTYPE_IP →
  data_segment (arrived f s) i n →
  ∃ s' rep, serve sender m s = Ok (tt, s') ∧ inv_net s' ∧
    outbox s' = outbox s ++ [(sender, rep)] ∧ is_reply rep NET_OK 1 (Z.of_nat n) ∧
    slice reply.buf n rep = slice 54 n (uip_buf (arrived f s)).
Proof.
  intros Hlive Hi Hf Hm Hport Hreq Hlen Hr Ht Hseg.
  assert (Hi0 : inv_net (deliver m s)) by by apply inv_deliver.
  destruct (sreq_recv _ _ _ Hreq) as (Hty & Hc & Hl).
  destruct (ds_data _ _ _ Hseg) as [Hil Hn]. destruct (ds_len _ _ _ Hseg) as [_ H408].
  assert (Hsafe : req_safe (deliver m s)).
  { split; [exact Hf|rewrite Hty; req_ty..| |rewrite Hl; lia|rewrite Hty; req_ty].
    intros _. eapply (segment_calm (deliver m s)); [by eapply (arrived_inv f s d)|done|exact Hr|exact Hseg]. }
  destruct (live_ok _ _ _ Hlive (dispatch_spec True sender (deliver m s) Hi0 (λ _, Hsafe)))
    as ([] & s' & Hrun & Hi' & _ & rep & st & c & k & Ho & Hrep & Hans).
  rewrite Hreq in Hans. destruct Hans as (s1 & Hpoll & Hcar). cbn in Hpoll.
  assert (Hh : holds (slice 54 n (uip_buf (arrived f s))) s1).
  { pose proof (poll_holds (deliver m s) f d i n Hi0 Hr Ht Hseg) as Hw. unfold wp in Hw. by rewrite Hpoll in Hw. }
  destruct (poll_keeps_port _ _ Hi0 Hpoll) as [Hp1 _]. change (sock_listen_port (deliver m s)) with (sock_listen_port s) in Hp1.
  assert (Hpl : length (slice 54 n (uip_buf (arrived f s))) = n).
  { apply length_slice. pose proof (arrived_inv f s d Hi Hr) as Ha. rewrite (wf_buf_len _ (inv_wf _ Ha)).
    unfold UIP_BUFSIZE. lia. }
  set (data := slice 54 n (uip_buf (arrived f s))) in *.
  cbn [sock_answer] in Hcar. rewrite (holds_view _ _ Hh) in Hcar.
  assert (Hli : v_listen (net_view s1) = true) by (cbn; rewrite Hp1; by apply Z.leb_le). rewrite Hli in Hcar.
  rewrite bool_decide_false in Hcar by (intros E; rewrite E in Hpl; cbn in Hpl; lia).
  cbn [andb negb Z.eqb Pos.eqb] in Hcar. rewrite take_ge in Hcar by lia.
  destruct Hcar as (-> & -> & -> & Hd). cbn [a_status a_conn a_len a_data] in *. rewrite Hpl in Hrep, Hd.
  exists s', rep. split; [by rewrite serve_eq|]. split; [done|]. split; [done|]. split; [done|].
  by rewrite take_slice in Hd by lia.
Qed.

(** A data segment crosses the whole path: when the device holds an
    in-order segment for an established connection, [sock_recv] with room for
    it returns, and its reply carries the segment's payload. *)
Theorem sock_recv_delivers sender m s f d i n len :
  dev_live → inv_net s → tx_fits (n_httpd s) → bytes m → 0 ≤ sock_listen_port s →
  sreq_of (msg (deliver m s)) = Some (RRecv 1 len) → Z.of_nat n ≤ len →
  dev_recv 422 (n_dev s) = Ok (f, d) →
  u16 (uip_buf (arrived f s)) ARPBUF.type = HTONS UIP_ETHTYPE_IP →
  data_segment (arrived f s) i n →
  ∃ s' rep, serve sender m s = Ok (tt, s') ∧ inv_net s' ∧
    outbox s' = outbox s ++ [(sender, rep)] ∧ is_reply rep NET_OK 1 (Z.of_nat n) ∧
    slice reply.buf n rep = slice 54 n (uip_buf (arrived f s)).
Proof. apply recv_path. Qed.

(** ** Data from a client to the device *)

Lemma net_poll_idle s d :
  inv_net s → dev_recv 422 (n_dev s) = Ok ([], d) →
  net_poll s = Ok (tt, s <| n_dev := d |> <| n_uip ::= λ u, u <| uip_len := 0 |> |>).
Proof.
  intros Hi Hr. assert (Hb : length (uip_buf (n_uip s)) = 422%nat) by apply (in_stack _ Hi).
  unfold net_poll, mbind, M_bind, getM, in_dev. rewrite Hb, Hr. destruct s as [u ? ? ? ? ? ? ? ? ? ? ? ? ? ? ?].
  by destruct u.
Qed.

(** The first active connection on the listening port. *)
Definition first_active s (i : nat) : Prop :=
  (i < UIP_CONNS)%nat ∧ conn_on_port s (uip_conns (n_uip s) !!! i) = true ∧
  ∀ j, (j < i)%nat → conn_on_port s (uip_conns (n_uip s) !!! j) = false.

Lemma kick_loop_hit (Q : unit → net D → Prop) s i n k :
  (k ≤ i < k + n)%nat → conn_on_port s (uip_conns (n_uip s) !!! i) = true →
  (∀ j, (j < i)%nat → conn_on_port s (uip_conns (n_uip s) !!! j) = false) →
  wp (Eb False) (in_uip (uip_poll_conn i);;
         l ← getM (λ s, uip_len (n_uip s));
         if 0 <? l then in_arp uip_arp_out;; send_uip else skip) Q s →
  wp (Eb False) (kick_loop n k) Q s.
Proof.
  revert k. induction n as [|n IH]; intros k Hk Hi Hj Hw; [lia|]. cbn [kick_loop]. apply wp_bind, wp_get.
  destruct (decide (k = i)) as [->|Hne]; [by rewrite Hi|]. rewrite (Hj k) by lia. apply IH; [lia|done..].
Qed.

Lemma sync_dev s : wp (Eb False) sync_socket_state (λ _ s', n_dev s' = n_dev s) s.
Proof.
  unfold sync_socket_state. apply wp_bind, wp_mod, wp_bind, wp_get, wp_if; intros _; [|done].
  cbv zeta. apply wp_bind, wp_mod, wp_bind, wp_get, wp_bind, wp_get, wp_if; intros _; [|by apply wp_fail].
  by apply wp_bind, wp_mod, wp_mod.
Qed.
End server.

(** ** Frames *)

(** The Ethernet header of [b] may differ, the rest is that of [b0]. *)
Definition same_ip (b0 b : list Z) : Prop := skipn 14 b = skipn 14 b0 ∧ length b = length b0.

Lemma same_ip_u8 b0 b o : same_ip b0 b → (14 ≤ o)%nat → u8 b o = u8 b0 o.
Proof.
  intros [Hd _] Ho. unfold u8. replace o with (14 + (o - 14))%nat by lia.
  by rewrite <- !lookup_total_drop, Hd.
Qed.
Lemma same_ip_slice b0 b o n : same_ip b0 b → (14 ≤ o)%nat → slice o n b = slice o n b0.
Proof.
  intros [Hd _] Ho. unfold slice. replace o with (14 + (o - 14))%nat by lia. by rewrite <- !drop_drop, Hd.
Qed.

Lemma same_ip_emitted b0 b : same_ip b0 b → emitted b0 → emitted b.
Proof.
  intros Hs [Hi Ht]. pose proof Hs as [_ Hl].
  assert (He : iplen b = iplen b0) by (unfold iplen; rewrite !(same_ip_u8 b0 b) by (done || cbv; lia); done).
  split.
  - rewrite <- Hi. unfold uip_ipchksum. by rewrite (same_ip_slice b0 b) by (done || cbv; lia).
  - rewrite (same_ip_u8 b0 b) by (done || cbv; lia). intros Hp. rewrite <- (Ht Hp).
    unfold uip_tcpchksum, upper_layer_chksum, upper_layer_len.
    by rewrite He, Hl, !(same_ip_slice b0 b) by (done || cbv; lia).
Qed.

Lemma same_ip_segment s c b0 b : same_ip b0 b → segment_of s c b0 → segment_of s c b.
Proof.
  intros Hs [H1 H2 H3 H4 H5 H6]. split;
    [rewrite <- H1|rewrite <- H2|rewrite <- H3|rewrite <- H4|rewrite <- H5|rewrite <- H6];
    unfold get_ip, get_b4, u16; rewrite !(same_ip_u8 b0 b); done || (cbv; lia).
Qed.

Lemma eth_send_same dest s : length dest = 6%nat → length (uip_ethaddr s) = 6%nat →
  same_ip (uip_buf s) (uip_buf (eth_send dest s)).
Proof.
  intros Hd He. unfold eth_send. cbv zeta. cbn [uip_buf set_field]. split; [|by buf_len].
  transitivity (slice 14 (length (uip_buf s)) (put16 ARPBUF.type (HTONS UIP_ETHTYPE_IP)
    (put_bytes ARPBUF.src (uip_ethaddr s) (put_bytes ARPBUF.dest dest (uip_buf s))))).
  { unfold slice. rewrite take_ge; [done|]. rewrite length_drop. buf_len. lia. }
  rewrite slice_put16_ne by (cbv; lia). rewrite !slice_put_bytes_ne by (rewrite ?Hd, ?He; cbv; lia).
  unfold slice. apply take_ge. rewrite length_drop. lia.
Qed.

Lemma eth_send_header dest s : length dest = 6%nat → wf_uip s →
  slice ARPBUF.dest 6 (uip_buf (eth_send dest s)) = dest ∧
  slice ARPBUF.src 6 (uip_buf (eth_send dest s)) = uip_ethaddr s ∧
  u16 (uip_buf (eth_send dest s)) ARPBUF.type = HTONS UIP_ETHTYPE_IP.
Proof.
  intros Hd Hw. assert (Hb : length (uip_buf s) = 422%nat) by apply Hw.
  assert (He : length (uip_ethaddr s) = 6%nat) by apply Hw.
  unfold eth_send. cbv zeta. cbn [uip_buf set_field]. split_and!.
  - rewrite slice_put16_ne by (cbv; lia). rewrite slice_put6_ne by (done || cbv; lia).
    apply slice_put6_eq; [done|]. rewrite Hb. cbv; lia.
  - rewrite slice_put16_ne by (cbv; lia). apply slice_put6_eq; [done|]. buf_len. rewrite Hb. cbv; lia.
  - apply u16_put16_htons. buf_len. rewrite Hb. cbv; lia.
Qed.

(** Where a packet for [ip] goes on the local network. *)
Definition hop (u : uip) (ip : uip_ipaddr_t) : uip_ipaddr_t :=
  if negb (uip_ipaddr_maskcmp ip (uip_hostaddr u) (uip_netmask u)) then uip_draddr u else ip.

Lemma arp_out_hit s t eth :
  get_ip (uip_buf s) BUF.destipaddr ≠ broadcast_ipaddr →
  arp_lookup t (hop s (get_ip (uip_buf s) BUF.destipaddr)) = Some eth →
  uip_arp_out (s, t) = (eth_send eth s, t).
Proof.
  intros Hb Hl. unfold uip_arp_out.
  destruct (uip_ipaddr_cmp _ broadcast_ipaddr) eqn:Hc; [by apply uip_ipaddr_cmp_eq in Hc|].
  cbv zeta. unfold arp_lookup in Hl. change (next_hop s) with (hop s (get_ip (uip_buf s) BUF.destipaddr)).
  destruct (find_entry _ 0 (arp_table t)); [|done]. cbn in Hl. by injection Hl as ->.
Qed.

(** The Ethernet frame of a segment of connection [c] with [k] bytes of [data]. *)
Record framed (u : uip) (c : conn) (eth : list Z) (k : nat) (data b : list Z) : Prop := {
  fr_dest : slice ARPBUF.dest 6 b = eth;
  fr_src : slice ARPBUF.src 6 b = uip_ethaddr u;
  fr_type : u16 b ARPBUF.type = HTONS UIP_ETHTYPE_IP;
  fr_segment : segment_of u c b;
  fr_data : slice 54 k b = take k data;
  fr_sums : emitted b
}.

Lemma segment_of_static s s' c b : static s' = static s → segment_of s' c b → segment_of s c b.
Proof. intros Hs [H1 H2 H3 H4 H5 H6]. injection Hs as _ _ Hh _ _ _. split; congruence. Qed.

(** Polling a connection with data, and framing the segment. *)
Lemma poll_framed u g i t eth :
  inv_uip u → (i < UIP_CONNS)%nat → uip_hostaddr u ≠ all_zeroes_addr → wf_arp t →
  let c := uip_conns u !!! i in
  tcpstateflags c = UIP_ESTABLISHED → len c = 0 → 0 < mss c → tx_ready g →
  ripaddr c ≠ broadcast_ipaddr → arp_lookup t (hop u (ripaddr c)) = Some eth →
  let k := Z.min (httpd_socket_tx_len g) (mss c) in
  ∃ u', uip_poll_conn i (u, g) = Ok (tt, (u', g)) ∧ uip_len u' = 40 + k ∧
    uip_arp_out (u', t) = (eth_send eth u', t) ∧ uip_len (eth_send eth u') = 54 + k ∧
    framed u c eth (Z.to_nat k) (httpd_socket_tx_buf g) (uip_buf (eth_send eth u')).
Proof.
  intros Hi Hlt Hh Hwt c Hst Hln Hmss Hg Hbc Harp k.
  destruct (poll_transmits u g i Hi Hlt Hh Hst Hln Hmss Hg) as (u' & Hr & Hl & Hd & Hseg & _ & Hem & _).
  fold c in Hseg, Hl, Hd. fold k in Hl, Hd. exists u'. split; [done|]. split; [done|].
  assert (Hi' : inv_uip (u <| uip_conn := Some i |>)) by by apply inv_select.
  rewrite uip_poll_conn_eq in Hr. assert (Hwg : app_wf g) by apply (tr_wf _ Hg).
  destruct (process_fin _ _ g _ _ Hi' Hwg Hr) as ((j & st & HA) & _).
  pose proof (at_static _ _ _ _ _ _ _ HA) as Hstat. pose proof (inv_wf _ (at_inv _ _ _ _ _ _ _ HA)) as Hw.
  cbn [fst] in Hstat, Hw. change (static (u <| uip_conn := Some i |>)) with (static u) in Hstat.
  assert (H6 : length eth = 6%nat).
  { apply arp_lookup_some in Harp as (q & e & He & _ & <- & _). by eapply (Forall_lookup_1 _ _ _ _ (wa_eth _ Hwt)). }
  pose proof (eth_send_same eth u' H6 (wf_ethaddr_len _ Hw)) as Hsame.
  destruct (eth_send_header eth u' H6 Hw) as (H7 & H8 & H9).
  assert (Hk : 0 < k ≤ 368) by (destruct (tr_len _ Hg); unfold k; lia). split_and!.
  - apply arp_out_hit; rewrite (so_dest _ _ _ Hseg); [done|].
    rewrite <- Harp. unfold hop. injection Hstat as _ _ -> -> -> _. done.
  - unfold eth_send, uip_eth_hdr_size. cbn [uip_len set_field]. rewrite Hl, wrap16_id; unfold is_u16; lia.
  - split; [done| |done|by eapply same_ip_segment| |by eapply same_ip_emitted].
    + rewrite H8. by injection Hstat as _ _ _ _ _ ->.
    + by rewrite (same_ip_slice (uip_buf u')) by (done || lia).
Qed.

Section transmit.
Context {D : Type} `{NetDevLaws D}.
Implicit Types s : net D.

(** Connection [i] is idle and its peer's next hop has the address [eth]. *)
Record can_send s (i : nat) (eth : list Z) : Prop := {
  cs_inv : inv_net s;
  cs_host : uip_hostaddr (n_uip s) ≠ all_zeroes_addr;
  cs_port : 0 ≤ sock_listen_port s;
  cs_open : sock_conn_open s ≠ 0;
  cs_idle : sock_tx_pending s = 0;
  cs_close : httpd_socket_close_pending (n_httpd s) = 0;
  cs_conn : first_active s i;
  cs_state : tcpstateflags (uip_conns (n_uip s) !!! i) = UIP_ESTABLISHED;
  cs_len : len (uip_conns (n_uip s) !!! i) = 0;
  cs_mss : 0 < mss (uip_conns (n_uip s) !!! i);
  cs_peer : ripaddr (uip_conns (n_uip s) !!! i) ≠ broadcast_ipaddr;
  cs_arp : arp_lookup (n_arp s) (hop (n_uip s) (ripaddr (uip_conns (n_uip s) !!! i))) = Some eth
}.

(** A frame with [k] bytes of [data] went to the device, whose state was [d]. *)
Definition Sent s (i : nat) (eth data : list Z) (k : Z) (d : D) s' : Prop :=
  ∃ b d', dev_send (54 + k) b d = Ok (tt, d') ∧ n_dev s' = d' ∧
          framed (n_uip s) (uip_conns (n_uip s) !!! i) eth (Z.to_nat k) data b.

Lemma take_copies k n (l a b : list Z) :
  (k ≤ n)%nat → (n ≤ length l)%nat → (n ≤ length a)%nat → (n ≤ length b)%nat →
  take k (put_bytes 0 (take n (put_bytes 0 (take n l) a)) b) = take k l.
Proof.
  intros Hk Hl Ha Hb. change (take k (put_bytes 0 (take n (put_bytes 0 (take n l) a)) b)) with
    (slice 0 k (put_bytes 0 (take n (put_bytes 0 (take n l) a)) b)).
  rewrite slice_put_bytes by (rewrite length_take, length_put_bytes; lia). rewrite take_take, Nat.min_l by done.
  change (take k (put_bytes 0 (take n l) a)) with (slice 0 k (put_bytes 0 (take n l) a)).
  rewrite slice_put_bytes by (rewrite length_take; lia). by rewrite take_take, Nat.min_l.
Qed.

(** The kick sends the queued data. *)
Lemma kick_sends s s2 i eth data k d :
  can_send s i eth → inv_uip (n_uip s2) → tx_ready (n_httpd s2) →
  n_uip s2 = (n_uip s) <| uip_len := 0 |> → n_arp s2 = n_arp s → n_dev s2 = d →
  sock_listen_port s2 = sock_listen_port s → sock_tx_pending s2 = 1 →
  k = Z.min (httpd_socket_tx_len (n_httpd s2)) (mss (uip_conns (n_uip s) !!! i)) →
  take (Z.to_nat k) (httpd_socket_tx_buf (n_httpd s2)) = take (Z.to_nat k) data →
  wp (Eb False) net_kick_tx (λ _ s', Sent s i eth data k d s') s2.
Proof.
  intros [Hi Hh Hp Ho Hid Hc (Hlt & Hon & Hfirst) Hst Hln Hms Hbc Harp] Hu Hg Eu Ea Ed Ep Ex Ek Ht.
  unfold net_kick_tx. apply wp_bind, wp_get. rewrite Ex. cbn [Z.eqb].
  unfold kick_active_connection. apply wp_bind, wp_get. rewrite Ep, (proj2 (Z.ltb_ge _ _)) by done. apply wp_bind.
  assert (Ecs : uip_conns (n_uip s2) = uip_conns (n_uip s)) by by rewrite Eu.
  eapply (kick_loop_hit _ _ i); [lia| | |].
  { rewrite Ecs. unfold conn_on_port in *. by rewrite Ep. }
  { intros j Hj. rewrite Ecs. specialize (Hfirst j Hj). unfold conn_on_port in *. by rewrite Ep. }
  destruct (poll_framed (n_uip s2) (n_httpd s2) i (n_arp s2) eth) as (u' & Hr & Hl & Hao & Hl' & Hfr);
    [done|done|by rewrite Eu|rewrite Ea; apply (in_table _ Hi)|by rewrite Ecs..|done|by rewrite Ecs| |].
  { rewrite Ecs, Ea, <- Harp. unfold hop. by rewrite Eu. }
  rewrite Ecs, <- Ek in *.
  apply wp_bind, wp_in_uip. unfold wp at 1. rewrite Hr. cbn [fst snd]. apply wp_bind, wp_get.
  cbn [n_uip set_field]. assert (Hk : 0 < k) by (destruct (tr_len _ Hg); lia).
  rewrite Hl, (proj2 (Z.ltb_lt _ _)) by lia. apply wp_bind. eapply wp_in_arp; [exact Hao|].
  unfold send_uip. do 2 (apply wp_bind, wp_get). apply wp_in_dev. cbn [n_uip n_dev set_field]. rewrite Hl', Ed.
  unfold wp at 1. destruct (dev_send (54 + k) _ d) as [[[] d']|e] eqn:Hd; [|done].
  eapply wp_mono; [|apply sync_dev]. intros [] s3 Hdev. cbn [n_dev set_field] in Hdev.
  eexists _, d'. split; [exact Hd|]. split; [done|]. destruct Hfr as [F1 F2 F3 F4 F5 F6].
  split; try done.
  - by rewrite F2, Eu.
  - destruct F4. rewrite Eu in *. by split.
  - by rewrite F5.
Qed.

Lemma sreq_send m c len :
  sreq_of m = Some (RSend c len) →
  get32 m req.type = NET_SOCK_SEND ∧ get32 m req.conn_id = c ∧ get32 m req.length = len.
Proof.
  unfold sreq_of. repeat case_match; intros Heq; try done. injection Heq as <- <-.
  split; [by apply Z.eqb_eq|done].
Qed.

Lemma reply_dev sender st c n (P : net D → Prop) s :
  (∀ s', n_dev s' = n_dev s → P s') →
  wp (Eb False) (send_net_reply sender st c n) (λ _ s', P s') s.
Proof. intros HP. unfold send_net_reply. do 3 (apply wp_bind, wp_mod). apply wp_mod. by apply HP. Qed.

Lemma handle_send_sends sender s d i eth len :
  can_send s i eth → dev_recv 422 (n_dev s) = Ok ([], d) →
  get32 (msg s) req.conn_id = 1 → get32 (msg s) req.length = len → 0 < len ≤ 368 →
  wp (Eb False) (handle_sock_send sender)
    (λ _ s', Sent s i eth (slice req.buf 512 (msg s)) (Z.min len (mss (uip_conns (n_uip s) !!! i))) d s') s.
Proof.
  intros Hcs Hr Hc Hl Hlen. pose proof (cs_inv _ _ _ Hcs) as Hi. pose proof (in_msg _ Hi) as [Hml Hmb].
  assert (Hdl : length (slice req.buf 512 (msg s)) = 512%nat) by (apply length_slice; unfold req.buf; lia).
  unfold handle_sock_send. apply wp_bind. unfold wp at 1. rewrite (net_poll_idle s d Hi Hr).
  do 3 (apply wp_bind, wp_get). unfold socket_conn_valid. cbn [sock_listen_port msg sock_conn_open sock_conn_id set_field].
  rewrite Hc, (in_id _ Hi). pose proof (cs_port _ _ _ Hcs). pose proof (cs_open _ _ _ Hcs).
  rewrite (proj2 (Z.ltb_ge _ _)), (proj2 (Z.leb_le _ _)), (proj2 (Z.eqb_neq _ _)) by done. cbn [orb andb negb Z.eqb Pos.eqb].
  apply wp_bind, wp_get. cbn [sock_tx_pending set_field]. rewrite (cs_idle _ _ _ Hcs). cbn [negb Z.eqb].
  apply wp_bind, wp_get. cbn [msg set_field]. rewrite Hl. cbv zeta.
  assert (clamp_net_length len = len) as ->.
  { unfold clamp_net_length, NET_BUF_SIZE. rewrite (proj2 (Z.ltb_ge _ _)); lia. }
  apply wp_bind, wp_mod. do 3 (apply wp_bind, wp_get). cbn [msg sock_tx_buf n_httpd set_field].
  change (Z.to_nat NET_BUF_SIZE) with 512%nat.
  apply wp_bind, wp_if; intros _; [|by apply wp_fail].
  apply wp_mod, wp_bind, wp_get, wp_bind, wp_if; intros _; [|by apply wp_fail].
  apply wp_mod, wp_bind, wp_mod, wp_bind, wp_mod, wp_bind. cbn [sock_tx_buf n_httpd set_field].
  eapply wp_mono; [|eapply (kick_sends s _ i eth (slice req.buf 512 (msg s))); [exact Hcs|..|reflexivity|]; try reflexivity].
  - intros [] s3 (b & d' & Hd & Hn & Hfr). apply wp_bind, wp_get, reply_dev. intros s' Hs'.
    exists b, d'. split; [done|]. split; [by rewrite Hs'|done].
  - by apply inv_len, (in_stack _ Hi).
  - split; [|done|exact (cs_close _ _ _ Hcs)|exact Hlen].
    destruct (in_app _ Hi). split; try done; cbn [httpd_socket_tx_buf n_httpd set_field]; [by buf_len|].
    apply put_bytes_bytes; [|done]. apply Forall_take, put_bytes_bytes; [by apply Forall_take, slice_bytes|].
    apply (in_tx _ Hi).
  - cbn [httpd_socket_tx_buf httpd_socket_tx_len n_httpd set_field]. apply take_copies; [lia|lia|..].
    + rewrite (proj1 (in_tx _ Hi)). lia.
    + rewrite (wf_tx_len _ (in_app _ Hi)). unfold UIP_BUFSIZE. lia.
Qed.

Lemma send_path sender m s d i eth len :
  dev_live → tx_fits (n_httpd s) → bytes m → can_send (deliver m s) i eth →
  dev_recv 422 (n_dev s) = Ok ([], d) →
  sreq_of (msg (deliver m s)) = Some (RSend 1 len) → 0 < len ≤ 368 →
  let c := uip_conns (n_uip s) !!! i in
  let k := Z.min len (mss c) in
  ∃ s' rep b d', serve sender m s = Ok (tt, s') ∧ inv_net s' ∧
    dev_send (54 + k) b d = Ok (tt, d') ∧ n_dev s' = d' ∧
    framed (n_uip s) c eth (Z.to_nat k) (slice req.buf 512 (msg (deliver m s))) b ∧
    outbox s' = outbox s ++ [(sender, rep)] ∧ is_reply rep NET_OK 1 len.
Proof.
  intros Hlive Hf Hm Hcs Hr Hreq Hlen c k. pose proof (cs_inv _ _ _ Hcs) as Hi0.
  destruct (sreq_send _ _ _ Hreq) as (Hty & Hc & Hl).
  assert (Hsafe : req_safe (deliver m s)).
  { split; [exact Hf|rewrite Hty; req_ty..| |rewrite Hty; req_ty|rewrite Hl; lia].
    intros _. unfold dev_calm, wp. change (n_dev (deliver m s)) with (n_dev s). rewrite Hr.
    by intros Hne. }
  destruct (live_ok _ _ _ Hlive (dispatch_spec True sender (deliver m s) Hi0 (λ _, Hsafe)))
    as ([] & s' & Hrun & Hi' & _ & rep & st & cc & n & Ho & Hrep & Hans).
  pose proof (handle_send_sends sender (deliver m s) d i eth len Hcs Hr Hc Hl Hlen) as Hs.
  assert (Hh : dispatch sender (deliver m s) = handle_sock_send sender (deliver m s)).
  { unfold dispatch, mbind, M_bind, req_field, getM. by rewrite Hty. }
  unfold wp in Hs. rewrite <- Hh, Hrun in Hs. destruct Hs as (b & d' & Hd & Hn & Hfr).
  rewrite Hreq in Hans. destruct Hans as (s1 & Hpoll & Hcar). cbn [poll_state] in Hpoll.
  rewrite (net_poll_idle _ d Hi0 Hr) in Hpoll. injection Hpoll as <-.
  assert (Ha : sock_answer (net_view ((deliver m s) <| n_dev := d |> <| n_uip ::= λ u, u <| uip_len := 0 |> |>))
    (RSend 1 len) = mk_answer NET_OK 1 len []).
  { pose proof (cs_port _ _ _ Hcs) as Hp. pose proof (cs_open _ _ _ Hcs) as Hop. pose proof (cs_idle _ _ _ Hcs) as Hid.
    cbn [sock_answer net_view v_listen v_open v_busy sock_listen_port sock_conn_open sock_tx_pending set_field].
    rewrite (proj2 (Z.leb_le 0 _) Hp), (proj2 (Z.eqb_neq _ 0) Hop), Hid.
    cbn [andb negb Z.eqb Pos.eqb]. f_equal. lia. }
  rewrite Ha in Hcar. destruct Hcar as (-> & -> & -> & _).
  exists s', rep, b, d'. split; [by rewrite serve_eq|]. done.
Qed.

(** C12: Data crosses the whole path the other way: [sock_send] of at most 368
    bytes on an idle established connection, whose peer's next hop is in the ARP
    table, over a live device without a frame pending, returns, replies with the
    length, and has handed the device one frame: to the peer's next hop, a segment
    of the connection with valid checksums, carrying the first [min len mss] bytes
    of the client's data. *)
Theorem sock_send_transmits sender m s d i eth len :
  dev_live → tx_fits (n_httpd s) → bytes m → can_send (deliver m s) i eth →
  dev_recv 422 (n_dev s) = Ok ([], d) →
  sreq_of (msg (deliver m s)) = Some (RSend 1 len) → 0 < len ≤ 368 →
  let c := uip_conns (n_uip s) !!! i in
  let k := Z.min len (mss c) in
  ∃ s' rep b d', serve sender m s = Ok (tt, s') ∧ inv_net s' ∧
    dev_send (54 + k) b d = Ok (tt, d') ∧ n_dev s' = d' ∧
    framed (n_uip s) c eth (Z.to_nat k) (slice req.buf 512 (msg (deliver m s))) b ∧
    outbox s' = outbox s ++ [(sender, rep)] ∧ is_reply rep NET_OK 1 len.
Proof. apply send_path. Qed.
End transmit.
