(* ===== verification/Servers.v ===== *)
(** * The client side of the sockets (servers.c)

    The functions a user process calls: each builds a request in a zeroed
    struct, exchanges it for a reply with the server's process, and turns the
    reply into its return value.  [sys_send] and [sys_recv] are the kernel's;
    the exchange is a parameter, [sys_call].  The reply arrives in the static
    [buf]. *)

From stdpp Require Import relations.
From S2P Require Import Prelude Bytes UipState Uip UipInv Httpd Flow TcpSeg TcpTx UipThms Arp Ipc NetDev SysNet SysNetInv SysNetThms.

(** [sys_send(pid, msg)] followed by [sys_recv(pid)]: the message received. *)
Class Sys (S : Type) := sys_call : Z → list Z → M S (list Z).

Record client (S : Type) := mk_client { c_env : S; c_buf : list Z }.
Arguments mk_client {S}.
Arguments c_env {S}.
Arguments c_buf {S}.
#[export] Instance client_settable S : Settable (client S) := settable! mk_client <c_env; c_buf>.

Section stubs.
Context {S : Type} `{Sys S}.

Definition K : Type → Type := M (client S).

(** [static struct net_reply* net_request(struct net_request* req)] *)
Definition net_request (r : list Z) : K unit := λ s,
  match sys_call GPID_NET r (c_env s) with
  | Ok (m, e) => Ok (tt, s <| c_env := e |> <| c_buf ::= put_bytes 0 m |>)
  | Err e => Err e
  end.
Definition reply_field (o : nat) : K Z := getM (λ s, get32 (c_buf s) o).

(** [memset(&req, 0, sizeof(req)); req.type = type;] *)
Definition new_req (type : Z) : list Z := put32 req.type type (replicate req.size 0).

Definition check (b : bool) : K unit := if b then mret tt else fail OutOfBounds.

Definition net_send (length : Z) (packet : list Z) : K Z :=
  let r := put32 req.length length (new_req NET_SEND) in
  ASSERT (length <=? NET_BUF_SIZE);;
  check (memcpy_ok length (List.length packet) (Z.to_nat NET_BUF_SIZE));;
  net_request (put_bytes req.buf (take (Z.to_nat length) packet) r);;
  st ← reply_field reply.status;
  mret (if st =? NET_OK then 0 else -1).

(** The value returned and what [packet] points to afterwards. *)
Definition net_recv (packet : list Z) : K (Z * list Z) :=
  net_request (new_req NET_RECV);;
  st ← reply_field reply.status;
  if negb (st =? NET_OK) then mret (-1, packet)
  else
    n ← reply_field reply.length;
    if 0 <? n then
      check (memcpy_ok n (Z.to_nat NET_BUF_SIZE) (List.length packet));;
      data ← getM (λ s, slice reply.buf (Z.to_nat n) (c_buf s));
      mret (n, put_bytes 0 data packet)
    else mret (n, packet).

Definition sock_listen (port : Z) : K Z :=
  net_request (put32 req.port port (new_req NET_SOCK_LISTEN));;
  st ← reply_field reply.status;
  mret (if st =? NET_OK then 0 else sint32 (- st)).

Definition sock_accept : K Z :=
  net_request (new_req NET_SOCK_ACCEPT);;
  st ← reply_field reply.status;
  c ← reply_field reply.conn_id;
  mret (if st =? NET_OK then c else sint32 (- st)).

Definition recv_msg (conn_id length : Z) : list Z :=
  put32 req.length length (put32 req.conn_id conn_id (new_req NET_SOCK_RECV)).

Definition sock_recv (conn_id : Z) (packet : list Z) (length : Z) : K (Z * list Z) :=
  ASSERT (length <=? NET_BUF_SIZE);;
  net_request (recv_msg conn_id length);;
  st ← reply_field reply.status;
  if st =? NET_OK then
    n ← reply_field reply.length;
    ASSERT (n <=? length);;
    if 0 <? n then
      check (memcpy_ok n (Z.to_nat NET_BUF_SIZE) (List.length packet));;
      data ← getM (λ s, slice reply.buf (Z.to_nat n) (c_buf s));
      mret (n, put_bytes 0 data packet)
    else mret (n, packet)
  else if st =? NET_CLOSED then mret (0, packet)
  else mret (sint32 (- st), packet).

Definition send_msg (conn_id length : Z) (packet : list Z) : list Z :=
  put_bytes req.buf (take (Z.to_nat length) packet)
    (put32 req.length length (put32 req.conn_id conn_id (new_req NET_SOCK_SEND))).

Definition sock_send (conn_id : Z) (packet : list Z) (length : Z) : K Z :=
  ASSERT (length <=? NET_BUF_SIZE);;
  check (memcpy_ok length (List.length packet) (Z.to_nat NET_BUF_SIZE));;
  net_request (send_msg conn_id length packet);;
  st ← reply_field reply.status;
  mret (if st =? NET_OK then length else sint32 (- st)).

Definition sock_close (conn_id : Z) : K Z :=
  net_request (put32 req.conn_id conn_id (new_req NET_SOCK_CLOSE));;
  st ← reply_field reply.status;
  mret (if st =? NET_OK then 0 else sint32 (- st)).
End stubs.

(** ** The network server behind the calls *)

(** Process [me] calls the server: its reply is the last message sent. *)
Definition server_call {D} `{NetDev D} (me pid : Z) (m : list Z) : M (net D) (list Z) := λ s,
  match serve me m s with
  | Ok (_, s') => match rev (outbox s') with (_, rep) :: _ => Ok (rep, s') | [] => Err Fatal end
  | Err e => Err e
  end.

(** ** Requests survive the trip *)

Lemma new_req_length t : length (new_req t) = 528%nat.
Proof. unfold new_req. by rewrite length_put32, length_replicate. Qed.
Lemma new_req_bytes t : bytes (new_req t).
Proof. apply put32_bytes. by apply Forall_replicate. Qed.

(** A message of full size replaces what the server's buffer held. *)
Lemma delivered_slice m b o n :
  (length m ≤ length b)%nat → (o + n ≤ length m)%nat → slice o n (put_bytes 0 m b) = slice o n m.
Proof.
  intros Hl Ho. unfold slice. apply list_eq. intros j. destruct (decide (j < n)%nat).
  - rewrite !lookup_take_lt, !lookup_drop by done. unfold put_bytes. rewrite list_lookup_inserts by lia.
    f_equal. lia.
  - by rewrite !lookup_take_ge by lia.
Qed.
Lemma delivered32 m b o :
  (length m ≤ length b)%nat → (o + 4 ≤ length m)%nat → get32 (put_bytes 0 m b) o = get32 m o.
Proof. intros. unfold get32. by rewrite delivered_slice. Qed.

Ltac fields :=
  unfold req.type, req.port, req.conn_id, req.length, req.buf, req.size,
    reply.status, reply.conn_id, reply.length, reply.buf, reply.size in *.
Ltac field_solve :=
  repeat first [ rewrite get32_put32_ne by lia | rewrite get32_put32 by (rewrite ?length_put32, ?new_req_length, ?length_replicate; first [lia | done | by vm_compute]) ].

Lemma recv_msg_req c n b :
  is_i32 c → is_i32 n → (528 ≤ length b)%nat →
  bytes (recv_msg c n) ∧ sreq_of (put_bytes 0 (recv_msg c n) b) = Some (RRecv c n).
Proof.
  intros Hc Hn Hb. assert (Hl : length (recv_msg c n) = 528%nat) by (unfold recv_msg; by rewrite !length_put32, new_req_length).
  split; [by apply put32_bytes, put32_bytes, new_req_bytes|].
  unfold sreq_of. fields. rewrite !delivered32 by lia. unfold recv_msg, new_req. fields. field_solve. done.
Qed.

Lemma send_msg_req c n packet b :
  is_i32 c → 0 ≤ n ≤ 512 → (Z.to_nat n ≤ length packet)%nat → bytes packet → (528 ≤ length b)%nat →
  bytes (send_msg c n packet) ∧ sreq_of (put_bytes 0 (send_msg c n packet) b) = Some (RSend c n) ∧
  slice req.buf (Z.to_nat n) (put_bytes 0 (send_msg c n packet) b) = take (Z.to_nat n) packet.
Proof.
  intros Hc Hn Hp Hby Hb. assert (Hi : is_i32 n) by (unfold is_i32; lia).
  assert (Hl : length (send_msg c n packet) = 528%nat)
    by (unfold send_msg; by rewrite length_put_bytes, !length_put32, new_req_length).
  assert (Ht : length (take (Z.to_nat n) packet) = Z.to_nat n) by (rewrite length_take; lia).
  split; [by apply put_bytes_bytes; [apply Forall_take|apply put32_bytes, put32_bytes, new_req_bytes]|]. split.
  - unfold sreq_of. fields. rewrite !delivered32 by lia. unfold send_msg. fields.
    rewrite !get32_put_bytes by lia. unfold new_req. fields. field_solve. done.
  - fields. rewrite delivered_slice by lia. unfold send_msg. fields.
    rewrite slice_put_bytes by (rewrite ?length_put32, ?new_req_length; lia). apply take_ge. lia.
Qed.

Lemma short_msg_req b :
  (528 ≤ length b)%nat →
  sreq_of (put_bytes 0 (new_req NET_SOCK_ACCEPT) b) = Some RAccept ∧
  (∀ p, is_i32 p → sreq_of (put_bytes 0 (put32 req.port p (new_req NET_SOCK_LISTEN)) b) = Some (RListen p)) ∧
  (∀ c, is_i32 c → sreq_of (put_bytes 0 (put32 req.conn_id c (new_req NET_SOCK_CLOSE)) b) = Some (RClose c)).
Proof.
  intros Hb. unfold sreq_of. fields. split_and!; [|intros p Hp..];
    rewrite !delivered32 by (rewrite ?length_put32, new_req_length; lia); unfold new_req; fields; field_solve; done.
Qed.

(** ** Calls over the server *)

Section over.
Context {D : Type} `{NetDevLaws D} (me : Z).

#[local] Instance server_sys : Sys (net D) := server_call me.

(** An exchange in which the server answers with [rep]. *)
Lemma net_request_ok (c : client (net D)) r s' rep :
  serve me r (c_env c) = Ok (tt, s') → outbox s' = outbox (c_env c) ++ [(me, rep)] →
  net_request r c = Ok (tt, c <| c_env := s' |> <| c_buf ::= put_bytes 0 rep |>).
Proof.
  intros Hr Ho. unfold net_request, sys_call, server_sys, server_call. rewrite Hr, Ho, rev_app_distr. done.
Qed.

(** The reply's fields as the client reads them. *)
Lemma reply_read (b rep : list Z) st cid n :
  is_reply rep st cid n → (524 ≤ length b)%nat →
  get32 (put_bytes 0 rep b) reply.status = st ∧ get32 (put_bytes 0 rep b) reply.conn_id = cid ∧
  get32 (put_bytes 0 rep b) reply.length = n ∧
  ∀ k, (k ≤ 512)%nat → slice reply.buf k (put_bytes 0 rep b) = slice reply.buf k rep.
Proof.
  intros [Hl Hd] Hb. injection Hd as <- <- <-. fields.
  rewrite !delivered32 by lia. split_and!; try done. intros k Hk. apply delivered_slice; lia.
Qed.

(** A request survives the trip: whatever the server's buffer held, the
    message each stub builds is read back as the call's arguments, and the
    data of a send is found where the server takes it from. *)
Theorem client_requests b :
  (528 ≤ length b)%nat →
  sreq_of (put_bytes 0 (new_req NET_SOCK_ACCEPT) b) = Some RAccept ∧
  (∀ p, is_i32 p → sreq_of (put_bytes 0 (put32 req.port p (new_req NET_SOCK_LISTEN)) b) = Some (RListen p)) ∧
  (∀ c, is_i32 c → sreq_of (put_bytes 0 (put32 req.conn_id c (new_req NET_SOCK_CLOSE)) b) = Some (RClose c)) ∧
  (∀ c n, is_i32 c → is_i32 n → sreq_of (put_bytes 0 (recv_msg c n) b) = Some (RRecv c n)) ∧
  (∀ c n packet, is_i32 c → 0 ≤ n ≤ 512 → (Z.to_nat n ≤ length packet)%nat → bytes packet →
     sreq_of (put_bytes 0 (send_msg c n packet) b) = Some (RSend c n) ∧
     slice req.buf (Z.to_nat n) (put_bytes 0 (send_msg c n packet) b) = take (Z.to_nat n) packet).
Proof.
  intros Hb. destruct (short_msg_req b Hb) as (H1' & H2' & H3'). split_and!; try done.
  - intros c n Hc Hn. by apply recv_msg_req.
  - intros c n packet Hc Hn Hp Hby. by apply send_msg_req.
Qed.

(** C8: End to end, from the wire to a user process: when the device holds an
    in-order segment for an established connection, [sock_recv] in the
    client returns the payload's length, with the payload at the front of
    the caller's buffer and the rest of it untouched. *)
Theorem client_recv (c : client (net D)) packet len f d i n :
  let s := c_env c in
  dev_live → inv_net s → tx_fits (n_httpd s) → 0 ≤ sock_listen_port s → (524 ≤ length (c_buf c))%nat →
  Z.of_nat n ≤ len ≤ 512 → (n ≤ length packet)%nat →
  dev_recv 422 (n_dev s) = Ok (f, d) →
  u16 (uip_buf (arrived f s)) ARPBUF.type = HTONS UIP_ETHTYPE_IP →
  data_segment (arrived f s) i n →
  ∃ c', sock_recv 1 packet len c =
          Ok ((Z.of_nat n, put_bytes 0 (slice 54 n (uip_buf (arrived f s))) packet), c') ∧
        inv_net (c_env c').
Proof.
  intros s Hlive Hi Hf Hport Hbuf Hlen Hpk Hr Ht Hseg.
  destruct (recv_msg_req 1 len (msg s)) as [Hbm Hreq]; [by vm_compute|unfold is_i32; lia|apply (in_msg _ Hi)|].
  destruct (recv_path me (recv_msg 1 len) s f d i n len) as (s' & rep & Hrun & Hi' & Ho & Hrep & Hd);
    [done|done|done|done|done|exact Hreq|lia|done|done|done|].
  destruct (reply_read (c_buf c) rep _ _ _ Hrep Hbuf) as (E1 & _ & E3 & E4).
  destruct (ds_data _ _ _ Hseg) as [_ Hn].
  unfold sock_recv, ASSERT. rewrite (proj2 (Z.leb_le _ _)) by (unfold NET_BUF_SIZE; lia).
  unfold mbind, M_bind, mret, M_ret. rewrite (net_request_ok c _ s' rep Hrun Ho).
  set (c1 := c <| c_env := s' |> <| c_buf ::= put_bytes 0 rep |>).
  assert (Eb : c_buf c1 = put_bytes 0 rep (c_buf c)) by done. assert (Ee : c_env c1 = s') by done. clearbody c1.
  unfold reply_field, getM. rewrite Eb, E1. change (NET_OK =? NET_OK) with true. cbv iota beta. rewrite Eb, E3.
  rewrite (proj2 (Z.leb_le _ len)), (proj2 (Z.ltb_lt 0 _)) by lia. unfold check.
  rewrite memcpy_small by (unfold NET_BUF_SIZE; lia). unfold mret, M_ret.
  rewrite Eb, Nat2Z.id, E4, Hd by lia. exists c1. by rewrite Ee.
Qed.
End over.
