(* ===== verification/SysNetDemo.v ===== *)
(** * A session with the network server

    A device that is a pair of queues of frames, a session on it (listen, the
    TCP handshake, data in both directions), the theorems of the server
    instantiated at its states, and what the server does with requests and
    frames that do not fit its buffers. *)

From stdpp Require Import relations.
From S2P Require Import Prelude Bytes Checksum UipState Uip PacketSum UipInv Ports Httpd Flow TcpSeg TcpTx UipThms.
From S2P Require Import Arp Ipc E1000 NetDev SysNet SysNetInv SysNetThms Servers.

(** ** A device *)

(** Frames to be received, and frames sent. *)
Definition queues : Type := list (list Z) * list (list Z).

#[export] Instance queue_dev : NetDev queues := {|
  dev_send n p := λ d,
    if (0 <? n) && (n <=? 2048) then
      if (Z.to_nat n <=? length p)%nat then Ok (tt, (d.1, d.2 ++ [take (Z.to_nat n) p])) else Err OutOfBounds
    else Err Fatal;
  dev_recv size := λ d,
    match d.1 with
    | [] => Ok ([], d)
    | f :: fs => if (length f <=? size)%nat then Ok (f, (fs, d.2)) else Err OutOfBounds
    end
|}.

Definition wf_queues (d : queues) : Prop := Forall (λ f, bytes f ∧ (length f ≤ 2048)%nat) d.1.

#[export] Instance queue_laws : NetDevLaws queues.
Proof.
  refine {| dev_wf := wf_queues; dev_live := True |}; unfold dev_send, dev_recv, queue_dev, wp.
  - intros d n p Hd Hn Hp. by rewrite (proj2 (Z.ltb_lt _ _)), (proj2 (Z.leb_le _ _)), (proj2 (Nat.leb_le _ _)) by lia.
  - intros d n p _ Hn. destruct (Z.ltb_spec 0 n); [|done]. destruct (Z.leb_spec n 2048); [lia|done].
  - intros d n p _ Hp. destruct (_ && _); [|by eexists]. rewrite (proj2 (Nat.leb_gt _ _)) by done. by eexists.
  - intros [[|f fs] tx] size Hd; cbn; [split_and!; [done|lia..|constructor]|].
    destruct (Nat.leb_spec (length f) size); [|by right]. inversion_clear Hd as [|? ? [Hb Hl] Hfs].
    by split_and!.
Defined.

Definition demo_req (type port conn_id length : Z) (data : list Z) : list Z :=
  le32 type ++ le32 port ++ le32 conn_id ++ le32 length ++ data.

Definition demo_serve (m : list Z) (s : net queues) : net queues :=
  match serve 7 m s with Ok (_, s') => s' | Err _ => s end.
(** A frame arrives. *)
Definition demo_feed (f : list Z) (s : net queues) : net queues := s <| n_dev ::= λ d, (d.1 ++ [f], d.2) |>.

(** ARP reply of the router 10.0.2.2. *)
Definition demo_arp : list Z :=
  [82; 84; 0; 0; 0; 1; 82; 85; 10; 0; 2; 2; 8; 6; 0; 1; 8; 0; 6; 4; 0; 2; 82; 85; 10; 0; 2; 2;
   10; 0; 2; 2; 82; 84; 0; 0; 0; 1; 10; 0; 2; 15].

Definition m_listen : list Z := Eval vm_compute in demo_req NET_SOCK_LISTEN 80 0 0 [].
Definition m_accept : list Z := Eval vm_compute in demo_req NET_SOCK_ACCEPT 0 0 0 [].
Definition m_recv : list Z := Eval vm_compute in demo_req NET_SOCK_RECV 0 1 512 [].
Definition m_send : list Z := Eval vm_compute in demo_req NET_SOCK_SEND 0 1 2 [79; 75].
Definition m_close : list Z := Eval vm_compute in demo_req NET_SOCK_CLOSE 0 1 0 [].

Definition d_boot : net queues := Eval vm_compute in boot ([], []) (replicate 528 0).
Definition d_listen : net queues := Eval vm_compute in demo_serve m_listen d_boot.
Definition d_arp : net queues := Eval vm_compute in demo_serve m_accept (demo_feed demo_arp d_listen).
Definition d_syn : net queues := Eval vm_compute in demo_serve m_accept (demo_feed demo_syn d_arp).
Definition d_open : net queues := Eval vm_compute in demo_serve m_accept (demo_feed demo_ack d_syn).
Definition d_data : net queues := Eval vm_compute in demo_feed demo_data d_open.

Lemma bytes_dec m : bool_decide (bytes m) = true → bytes m.
Proof. intros Hm. by apply bool_decide_eq_true in Hm. Qed.
Lemma queues_dec d : bool_decide (Forall (λ f : list Z, bytes f ∧ (length f ≤ 2048)%nat) d.1) = true → wf_queues d.
Proof. intros Hm. by apply bool_decide_eq_true in Hm. Qed.

Lemma d_syn_reached : rtc net_step d_boot d_syn.
Proof.
  eapply rtc_l; [apply (ns_serve d_boot 7 m_listen d_listen); [by apply bytes_dec|reflexivity]|].
  eapply rtc_l; [apply (ns_dev d_listen ([demo_arp], [])); by apply queues_dec|].
  eapply rtc_l; [eapply (ns_serve _ 7 m_accept d_arp); [by apply bytes_dec|reflexivity]|].
  eapply rtc_l; [eapply (ns_dev _ ([demo_syn], (n_dev d_arp).2)); by apply queues_dec|].
  eapply rtc_l; [eapply (ns_serve _ 7 m_accept d_syn); [by apply bytes_dec|reflexivity]|].
  apply rtc_refl.
Qed.
Lemma d_open_reached : rtc net_step d_boot d_open.
Proof.
  etrans; [exact d_syn_reached|].
  eapply rtc_l; [eapply (ns_dev _ ([demo_ack], (n_dev d_syn).2)); by apply queues_dec|].
  eapply rtc_l; [eapply (ns_serve _ 7 m_accept d_open); [by apply bytes_dec|reflexivity]|].
  apply rtc_refl.
Qed.

Lemma d_boot_eq : d_boot = boot ([], []) (replicate 528 0).
Proof. by vm_compute. Qed.

Lemma d_boot_inv : inv_net d_boot.
Proof. rewrite d_boot_eq. apply boot_inv; [constructor|by rewrite length_replicate|by apply Forall_replicate]. Qed.
Lemma d_open_inv : inv_net d_open.
Proof. exact (reach_inv d_boot d_open d_boot_inv d_open_reached). Qed.

Lemma d_data_inv : inv_net d_data.
Proof.
  destruct d_open_inv. split; try assumption. constructor; [|constructor].
  split; [by apply bytes_dec|cbn; lia].
Qed.

Lemma server_inv_witness : inv_net d_open.
Proof.
  apply (server_inv ([], []) (replicate 528 0) d_boot d_open).
  - constructor.
  - rewrite length_replicate. lia.
  - apply Forall_replicate. unfold is_u8. lia.
  - rewrite main_init_eq, d_boot_eq. reflexivity.
  - exact d_open_reached.
Defined.

(** The answer to [sock_recv] with the data segment in the device. *)
Definition d_read : net queues := Eval vm_compute in demo_serve m_recv d_data.

Lemma serve_refines_witness :
  ∃ rep, outbox d_read = outbox d_data ++ [(7, rep)] ∧ length rep = 524%nat.
Proof.
  destruct (serve_refines 7 m_recv d_data d_read) as (_ & rep & st & c & n & Ho & Hr & _).
  - exact d_data_inv.
  - apply bytes_dec. reflexivity.
  - reflexivity.
  - exists rep. split; [exact Ho|apply Hr].
Defined.

Lemma d_data_segment : data_segment (arrived demo_data d_data) 0 3.
Proof. split; first [reflexivity | vm_compute; split; discriminate | split; [reflexivity|lia]]. Qed.

Lemma d_recv_safe : req_safe (deliver m_recv d_data).
Proof.
  split; try (vm_compute; discriminate); try (vm_compute; split; discriminate).
  intros _. apply (segment_calm (deliver m_recv d_data) demo_data ([], (n_dev d_open).2) 0 3).
  - apply (arrived_inv demo_data d_data ([], (n_dev d_open).2)); [exact d_data_inv|reflexivity].
  - vm_compute. discriminate.
  - reflexivity.
  - exact d_data_segment.
Qed.

Lemma serve_returns_witness :
  ∃ s', serve 7 m_recv d_data = Ok (tt, s') ∧ inv_net s' ∧ tx_fits (n_httpd s').
Proof.
  apply serve_returns; [exact I|exact d_data_inv|apply bytes_dec; reflexivity|exact d_recv_safe].
Defined.

Lemma sock_recv_delivers_witness :
  ∃ s' rep, serve 7 m_recv d_data = Ok (tt, s') ∧ outbox s' = outbox d_data ++ [(7, rep)] ∧
    is_reply rep NET_OK 1 3 ∧ slice reply.buf 3 rep = [104; 105; 33].
Proof.
  destruct (sock_recv_delivers 7 m_recv d_data demo_data ([], (n_dev d_open).2) 0 3 512)
    as (s' & rep & Hr & _ & Ho & Hrep & Hd).
  - exact I.
  - exact d_data_inv.
  - vm_compute. discriminate.
  - apply bytes_dec. reflexivity.
  - vm_compute. discriminate.
  - reflexivity.
  - lia.
  - reflexivity.
  - reflexivity.
  - exact d_data_segment.
  - exists s', rep. split; [exact Hr|]. split; [exact Ho|]. split; [exact Hrep|]. exact Hd.
Defined.

Lemma d_can_send : can_send (deliver m_send d_open) 0 [82; 85; 10; 0; 2; 2].
Proof.
  split; [apply inv_deliver; [exact d_open_inv|by apply bytes_dec]|..];
    try reflexivity; try (vm_compute; discriminate).
  split; [unfold UIP_CONNS; lia|]. split; [reflexivity|lia].
Qed.

Lemma sock_send_transmits_witness :
  ∃ s' rep b d', serve 7 m_send d_open = Ok (tt, s') ∧
    dev_send 56 b (n_dev d_open) = Ok (tt, d') ∧ n_dev s' = d' ∧ slice 54 2 b = [79; 75] ∧
    outbox s' = outbox d_open ++ [(7, rep)] ∧ is_reply rep NET_OK 1 2.
Proof.
  destruct (sock_send_transmits 7 m_send d_open (n_dev d_open) 0 [82; 85; 10; 0; 2; 2] 2)
    as (s' & rep & b & d' & Hr & _ & Hd & Hn & Hf & Ho & Hrep).
  - exact I.
  - vm_compute. discriminate.
  - apply bytes_dec. reflexivity.
  - exact d_can_send.
  - reflexivity.
  - reflexivity.
  - lia.
  - exists s', rep, b, d'. split; [exact Hr|]. split; [exact Hd|]. split; [exact Hn|].
    split; [exact (fr_data _ _ _ _ _ _ Hf)|]. split; [exact Ho|exact Hrep].
Defined.

(** ** The client side *)

Lemma client_requests_witness :
  slice req.buf 2 (put_bytes 0 (send_msg 1 2 [79; 75]) (replicate 528 7)) = [79; 75].
Proof.
  destruct (client_requests (replicate 528 7)) as (_ & _ & _ & _ & Hs).
  - rewrite length_replicate. lia.
  - apply (Hs 1 2 [79; 75]); [unfold is_i32; lia|lia|cbn; lia|apply bytes_dec; reflexivity].
Defined.

(** A client's buffer of five bytes, three of which the segment replaces. *)
Lemma client_recv_witness :
  ∃ c', @sock_recv _ (server_call 7) 1 [0; 0; 0; 4; 5] 5 (mk_client d_data (replicate 528 0)) =
          Ok ((3, [104; 105; 33; 4; 5]), c') ∧ inv_net (c_env c').
Proof.
  apply (client_recv 7 (mk_client d_data (replicate 528 0)) [0; 0; 0; 4; 5] 5 demo_data ([], (n_dev d_open).2) 0 3).
  - exact I.
  - exact d_data_inv.
  - vm_compute. discriminate.
  - vm_compute. discriminate.
  - cbn [c_buf]. rewrite length_replicate. lia.
  - lia.
  - cbn. lia.
  - reflexivity.
  - reflexivity.
  - exact d_data_segment.
Defined.

(** ** Requests and frames that do not fit *)

(** The answer to [sock_send] where ARP does not know the router: the reply of
    [serve] in a session without the ARP exchange. *)
Definition e_syn : net queues := Eval vm_compute in demo_serve m_accept (demo_feed demo_syn d_listen).
Definition e_open : net queues := Eval vm_compute in demo_serve m_accept (demo_feed demo_ack e_syn).

(** When ARP has no mapping for the peer, [sock_send] still replies NET_OK
    with the full length, but the one frame it hands to the device is an ARP
    request in place of the segment; the bytes count as outstanding. *)
Theorem sock_send_lost :
  ∃ s' rep f, serve 7 m_send e_open = Ok (tt, s') ∧
    outbox s' = outbox e_open ++ [(7, rep)] ∧ is_reply rep NET_OK 1 2 ∧
    (n_dev s').2 = (n_dev e_open).2 ++ [f] ∧ u16 f ARPBUF.type = HTONS UIP_ETHTYPE_ARP ∧
    len (uip_conns (n_uip s') !!! 0%nat) = 2.
Proof.
  assert (Hr : ∃ s', serve 7 m_send e_open = Ok (tt, s')) by (vm_compute; by eexists).
  destruct Hr as [s' Hr]. exists s'.
  assert (Hs : s' = demo_serve m_send e_open) by (unfold demo_serve; by rewrite Hr).
  destruct (List.last (outbox s') (0, [])) as [to rep] eqn:El.
  exists rep, (List.last (n_dev s').2 []). split; [exact Hr|]. subst s'.
  vm_compute in El. injection El as <- <-. split_and!; vm_compute; try reflexivity. split; reflexivity.
Qed.

(** After [sock_close] has been answered NET_OK, the next frame the device
    receives, whatever it is for, makes the connection valid again while uIP
    has not finished closing it: the server copies the open flag back. *)
Theorem closed_reopens :
  let s1 := demo_serve m_close d_open in
  let s2 := demo_serve m_accept (demo_feed demo_arp s1) in
  sock_conn_open d_open = 1 ∧ sock_conn_open s1 = 0 ∧ socket_conn_valid 1 s1 = false ∧
  socket_conn_valid 1 s2 = true.
Proof. cbv zeta. split_and!; vm_compute; reflexivity. Qed.

Lemma wp_err {S A} (m : M S A) e s : wp (λ e', e' = e) m (λ _ _, False) s → m s = Err e.
Proof. unfold wp. destruct (m s) as [[a s']|e']; [done|]. by intros ->. Qed.

Section overrun.
Context {D : Type} `{NetDevLaws D}.

(** A [sock_send] the interface allows (at most NET_BUF_SIZE bytes) of more
    than 420 bytes on an idle open connection writes past the application's
    transmit buffer. *)
Theorem sock_send_overrun sender m (s : net D) d len :
  inv_net s → bytes m → dev_recv 422 (n_dev s) = Ok ([], d) →
  0 ≤ sock_listen_port s → sock_conn_open s ≠ 0 → sock_tx_pending s = 0 →
  sreq_of (msg (deliver m s)) = Some (RSend 1 len) → 420 < len →
  serve sender m s = Err OutOfBounds.
Proof.
  intros Hi Hm Hr Hp Ho Hid Hreq Hlen. rewrite serve_eq.
  assert (Hi0 : inv_net (deliver m s)) by by apply inv_deliver.
  destruct (sreq_send _ _ _ Hreq) as (Hty & Hc & Hl).
  assert (Hh : dispatch sender (deliver m s) = handle_sock_send sender (deliver m s)).
  { unfold dispatch, mbind, M_bind, req_field, getM. by rewrite Hty. }
  rewrite Hh. change (sock_listen_port s) with (sock_listen_port (deliver m s)) in Hp.
  change (sock_conn_open s) with (sock_conn_open (deliver m s)) in Ho.
  change (sock_tx_pending s) with (sock_tx_pending (deliver m s)) in Hid.
  change (n_dev s) with (n_dev (deliver m s)) in Hr. clear Hh Hreq Hty Hi. generalize dependent (deliver m s).
  clear s m Hm. intros s Hr Hp Ho Hid Hi Hc Hl.
  assert (Hn : 420 < clamp_net_length len).
  { unfold clamp_net_length, NET_BUF_SIZE. destruct (Z.ltb_spec 512 len); lia. }
  apply (wp_err _ OutOfBounds). unfold handle_sock_send. apply wp_bind. unfold wp at 1.
  rewrite (net_poll_idle s d Hi Hr).
  do 3 (apply wp_bind, wp_get). unfold socket_conn_valid. cbn [sock_listen_port msg sock_conn_open sock_conn_id set_field].
  rewrite Hc, (in_id _ Hi), (proj2 (Z.ltb_ge _ 0) Hp), (proj2 (Z.leb_le 0 _) Hp), (proj2 (Z.eqb_neq _ 0) Ho).
  cbn [orb andb negb Z.eqb Pos.eqb].
  apply wp_bind, wp_get. cbn [sock_tx_pending set_field]. rewrite Hid. cbn [negb Z.eqb].
  apply wp_bind, wp_get. cbn [msg set_field]. rewrite Hl. cbv zeta.
  apply wp_bind, wp_mod. do 3 (apply wp_bind, wp_get). cbn [msg sock_tx_buf n_httpd set_field].
  apply wp_bind, wp_if; intros _; [|by apply wp_fail].
  apply wp_mod, wp_bind, wp_get, wp_bind, wp_if; intros Hcp; [|by apply wp_fail]. exfalso. revert Hcp.
  unfold memcpy_ok. rewrite (wf_tx_len _ (in_app _ Hi)). unfold UIP_BUFSIZE.
  rewrite (proj2 (Nat.leb_gt (Z.to_nat (clamp_net_length len)) 420)) by lia. by rewrite andb_false_r.
Qed.
End overrun.

Definition m_big : list Z := Eval vm_compute in demo_req NET_SOCK_SEND 0 1 512 (replicate 512 65).

Lemma sock_send_overrun_witness : serve 7 m_big d_open = Err OutOfBounds.
Proof.
  apply (sock_send_overrun 7 m_big d_open (n_dev d_open) 512).
  - exact d_open_inv.
  - apply bytes_dec. reflexivity.
  - reflexivity.
  - vm_compute. discriminate.
  - vm_compute. discriminate.
  - reflexivity.
  - reflexivity.
  - lia.
Defined.

Section frames.
Context `{NicLaws}.

(** A frame the e1000 accepts but the packet buffer cannot hold (more than
    422 bytes) makes polling write past the packet buffer. *)
Theorem net_poll_overrun (s : net e1000) :
  inv_net s →
  let desc := rx_ring (n_dev s) !!! rx_index (n_dev s) in
  Z.land (rd_status desc) E1000_RXD_STAT_DD ≠ 0 → Z.land (rd_status desc) E1000_RXD_STAT_EOP ≠ 0 →
  422 < rd_length desc ≤ 2048 →
  net_poll s = Err OutOfBounds.
Proof.
  intros Hi desc Hdd Heop Hl. assert (Hb : length (uip_buf (n_uip s)) = 422%nat) by apply (in_stack _ Hi).
  unfold net_poll, mbind, M_bind, getM, in_dev. rewrite Hb.
  pose proof (net_recv_spec 422 (n_dev s) (in_device _ Hi)) as Hs. cbv zeta in Hs. fold desc in Hs.
  rewrite (proj2 (Z.eqb_neq _ 0) Hdd), (proj2 (Z.eqb_neq _ 0) Heop), (proj2 (Z.leb_le _ 2048)) in Hs by lia.
  cbn [negb andb] in Hs. rewrite (proj2 (Nat.leb_gt _ _)) in Hs by lia. cbn [dev_recv e1000_dev]. by rewrite Hs.
Qed.
End frames.

#[local] Existing Instance demo_nic.
#[local] Existing Instance demo_nic_laws.

(** A 500-byte frame in receive slot 0. *)
Definition e1000_rx500 : e1000 :=
  e1000_0 <| rx_ring ::= alter (λ d, d <| rd_length := 500 |> <| rd_status := 3 |>) 0%nat |>.
Lemma e1000_rx500_wf : wf_e1000 e1000_rx500.
Proof.
  destruct e1000_0_wf. split; try done. apply Forall_alter; [done|]. intros d _ _. cbn. unfold is_u16. lia.
Qed.

Lemma net_poll_overrun_witness : net_poll (boot e1000_rx500 (replicate 528 0)) = Err OutOfBounds.
Proof.
  apply net_poll_overrun.
  - apply boot_inv; [exact e1000_rx500_wf|rewrite length_replicate; lia|apply Forall_replicate; unfold is_u8; lia].
  - vm_compute. discriminate.
  - vm_compute. discriminate.
  - change (422 < 500 ≤ 2048). lia.
Defined.
