(* ===== verification/ClientThms.v ===== *)
(** * The sockets as a client sees them

    The five calls of the socket interface over the network server refine the
    abstract socket service: what a call returns, and what is in the caller's
    buffer, is the service's answer. *)

From S2P Require Import Prelude Bytes UipState Uip UipInv Httpd Flow TcpSeg TcpTx UipThms Arp Ipc NetDev SysNet SysNetInv SysNetThms Servers SysNetDemo.

Inductive call :=
  | Listen (port : Z)
  | Accept
  | Recv (conn_id : Z) (buf : list Z) (len : Z)
  | Send (conn_id : Z) (data : list Z) (len : Z)
  | Close (conn_id : Z).

Definition call_req (k : call) : sreq :=
  match k with
  | Listen port => RListen port
  | Accept => RAccept
  | Recv id _ len => RRecv id len
  | Send id _ len => RSend id len
  | Close id => RClose id
  end.

Definition call_msg (k : call) : list Z :=
  match k with
  | Listen port => put32 req.port port (new_req NET_SOCK_LISTEN)
  | Accept => new_req NET_SOCK_ACCEPT
  | Recv id _ len => recv_msg id len
  | Send id data len => send_msg id len data
  | Close id => put32 req.conn_id id (new_req NET_SOCK_CLOSE)
  end.

(** Arguments that fit: at most NET_BUF_SIZE bytes asked for, into a buffer that
    has room, and at most what one segment takes sent. *)
Definition call_ok (k : call) : Prop :=
  match k with
  | Listen port => is_i32 port
  | Accept => True
  | Recv id buf len => is_i32 id ∧ 0 ≤ len ≤ 512 ∧ (Z.to_nat len ≤ length buf)%nat
  | Send id data len => is_i32 id ∧ 0 ≤ len ≤ 368 ∧ (Z.to_nat len ≤ length data)%nat ∧ bytes data
  | Close id => is_i32 id
  end.

(** The value an answer stands for, and the caller's buffer after it. *)
Definition returned (k : call) (a : answer) : Z * list Z :=
  let err := - a_status a in
  match k with
  | Listen _ | Close _ => (if a_status a =? NET_OK then 0 else err, [])
  | Accept => (if a_status a =? NET_OK then a_conn a else err, [])
  | Send _ _ len => (if a_status a =? NET_OK then len else err, [])
  | Recv _ buf _ =>
      if a_status a =? NET_OK then (a_len a, put_bytes 0 (a_data a) buf)
      else (if a_status a =? NET_CLOSED then 0 else err, buf)
  end.

Lemma answer_status v r : 0 ≤ a_status (sock_answer v r) ≤ 4.
Proof. unfold sock_answer. repeat case_match; cbn; unfold NET_OK, NET_WOULD_BLOCK, NET_CLOSED, NET_INVALID; lia. Qed.

Lemma answer_recv v id len :
  let a := sock_answer v (RRecv id len) in
  0 ≤ len → a_len a = Z.of_nat (length (a_data a)) ∧ (length (a_data a) ≤ Z.to_nat len)%nat.
Proof. intros a Hl. subst a. unfold sock_answer. repeat case_match; cbn; rewrite ?length_take; lia. Qed.

Section clients.
Context {D : Type} `{NetDevLaws D} (me : Z).

#[local] Instance over_server : Sys (net D) := server_call me.

Definition run_call (k : call) : M (client (net D)) (Z * list Z) :=
  match k with
  | Listen port => v ← sock_listen port; mret (v, [])
  | Accept => v ← sock_accept; mret (v, [])
  | Recv id buf len => sock_recv id buf len
  | Send id data len => v ← sock_send id data len; mret (v, [])
  | Close id => v ← sock_close id; mret (v, [])
  end.

Lemma call_msg_req k b :
  call_ok k → (528 ≤ length b)%nat →
  bytes (call_msg k) ∧ sreq_of (put_bytes 0 (call_msg k) b) = Some (call_req k).
Proof.
  intros Hk Hb. destruct (short_msg_req b Hb) as (Ha & Hl & Hc). destruct k; cbn [call_ok call_msg call_req] in *.
  - split; [apply put32_bytes, new_req_bytes|by apply Hl].
  - split; [apply new_req_bytes|done].
  - destruct Hk as (? & ? & _). apply recv_msg_req; [done|unfold is_i32; lia|done].
  - destruct Hk as (? & ? & ? & ?). by destruct (send_msg_req conn_id len data b) as (? & ? & _); [done|lia|done..|].
  - split; [apply put32_bytes, new_req_bytes|by apply Hc].
Qed.

(** A socket request whose lengths fit is safe. *)
Lemma sreq_safe s r :
  sreq_of (msg s) = Some r → tx_fits (n_httpd s) → dev_calm s →
  match r with RRecv _ n => 0 ≤ n | RSend _ n => 0 ≤ n ≤ 368 | _ => True end → req_safe s.
Proof.
  unfold sreq_of. intros E Hf Hc Hr. set (t := get32 (msg s) req.type) in *.
  unfold NET_SOCK_LISTEN, NET_SOCK_ACCEPT, NET_SOCK_RECV, NET_SOCK_SEND, NET_SOCK_CLOSE in *.
  assert ((t = 2 ∨ t = 3 ∨ t = 6) ∨ t = 4 ∧ 0 ≤ get32 (msg s) req.length ∨ t = 5 ∧ 0 ≤ get32 (msg s) req.length ≤ 368) as Ht.
  { repeat match type of E with (if ?a =? ?b then _ else _) = _ => destruct (Z.eqb_spec a b) end;
      first [discriminate | injection E as <-]; lia. }
  split; fold t; unfold NET_SEND, NET_RECV, NET_SOCK_RECV, NET_SOCK_SEND, NET_SOCK_ACCEPT; done || lia.
Qed.

Lemma exchange k (c : client (net D)) :
  let s := c_env c in
  dev_live → inv_net s → tx_fits (n_httpd s) → dev_calm s → (524 ≤ length (c_buf c))%nat → call_ok k →
  ∃ c1 s1, net_request (call_msg k) c = Ok (tt, c1) ∧ inv_net (c_env c1) ∧ tx_fits (n_httpd (c_env c1)) ∧
    poll_state (call_req k) (deliver (call_msg k) s) s1 ∧
    let a := sock_answer (net_view s1) (call_req k) in
    get32 (c_buf c1) reply.status = a_status a ∧ get32 (c_buf c1) reply.conn_id = a_conn a ∧
    get32 (c_buf c1) reply.length = a_len a ∧ slice reply.buf (length (a_data a)) (c_buf c1) = a_data a.
Proof.
  intros s Hlive Hi Hf Hc Hb Hk.
  destruct (call_msg_req k (msg s) Hk) as [Hby Hreq]; [apply (in_msg _ Hi)|].
  assert (req_safe (deliver (call_msg k) s)) as Hsafe.
  { eapply sreq_safe; [exact Hreq|done|done|]. destruct k; cbn in *; lia. }
  destruct (serve_safe me (call_msg k) s Hlive Hi Hby Hsafe) as (s' & Hrun & Hi' & Hf' & rep & st & cid & n & Ho & Hrep & Hans).
  specialize (Hf' I).
  change (msg (deliver (call_msg k) s)) with (put_bytes 0 (call_msg k) (msg s)) in Hans. rewrite Hreq in Hans.
  destruct Hans as (s1 & Hpoll & -> & -> & -> & Hdata).
  destruct (reply_read (c_buf c) rep _ _ _ Hrep Hb) as (E1 & E2 & E3 & E4).
  pose proof (net_request_ok me c (call_msg k) s' rep Hrun Ho) as Hnet. unfold server_sys in Hnet.
  eexists _, s1. split; [exact Hnet|]. cbn [c_env c_buf set_field]. split_and!; try done.
  rewrite E4.
  - rewrite <-Hdata at 2. unfold slice. rewrite take_take. f_equal.
    apply (f_equal length) in Hdata. rewrite length_take in Hdata. unfold slice in Hdata. rewrite length_take in Hdata. lia.
  - apply (f_equal length) in Hdata. rewrite length_take in Hdata. unfold slice in Hdata. rewrite length_take in Hdata. lia.
Qed.

(** What a stub makes of the reply in its buffer. *)
Lemma call_returns k (c c1 : client (net D)) a :
  call_ok k → net_request (call_msg k) c = Ok (tt, c1) → 0 ≤ a_status a ≤ 4 →
  (∀ id buf len, k = Recv id buf len → a_len a = Z.of_nat (length (a_data a)) ∧ (length (a_data a) ≤ Z.to_nat len)%nat) →
  get32 (c_buf c1) reply.status = a_status a → get32 (c_buf c1) reply.conn_id = a_conn a →
  get32 (c_buf c1) reply.length = a_len a → slice reply.buf (length (a_data a)) (c_buf c1) = a_data a →
  run_call k c = Ok (returned k a, c1).
Proof.
  intros Hk E Hst Hrecv E1 E2 E3 E4.
  assert (sint32 (- a_status a) = - a_status a) as Hneg by (apply sint32_id; unfold is_i32; lia).
  destruct k as [port| |id buf len|id data len|id]; cbn [run_call call_msg call_ok returned] in *.
  - unfold sock_listen, mbind, M_bind. rewrite E. unfold reply_field, getM, mret, M_ret. by rewrite E1, Hneg.
  - unfold sock_accept, mbind, M_bind. rewrite E. unfold reply_field, getM, mret, M_ret. by rewrite E1, E2, Hneg.
  - destruct (Hrecv id buf len eq_refl) as [Hlen Hle]. destruct Hk as (_ & Hl & Hb).
    unfold sock_recv, mbind, M_bind, ASSERT. rewrite (proj2 (Z.leb_le len _)) by (unfold NET_BUF_SIZE; lia).
    unfold mret at 1, M_ret at 1. rewrite E. unfold reply_field, getM, mret, M_ret. rewrite E1.
    destruct (a_status a =? NET_OK); [|by destruct (a_status a =? NET_CLOSED); rewrite ?Hneg].
    rewrite E3. rewrite (proj2 (Z.leb_le (a_len a) len)) by lia.
    destruct (Z.ltb_spec 0 (a_len a)) as [Hpos|Hz].
    + unfold check. rewrite Hlen, memcpy_small by (unfold NET_BUF_SIZE; lia). unfold mret, M_ret.
      by rewrite Nat2Z.id, E4.
    + assert (a_data a = []) as Ha by (apply length_zero_iff_nil; lia). by rewrite Ha.
  - destruct Hk as (_ & Hl & Hb & _). unfold sock_send, mbind, M_bind, ASSERT.
    rewrite (proj2 (Z.leb_le len _)) by (unfold NET_BUF_SIZE; lia). unfold mret at 1, M_ret at 1. unfold check.
    rewrite memcpy_small by (unfold NET_BUF_SIZE; lia).
    unfold mret at 1, M_ret at 1. rewrite E. unfold reply_field, getM, mret, M_ret. by rewrite E1, Hneg.
  - unfold sock_close, mbind, M_bind. rewrite E. unfold reply_field, getM, mret, M_ret. by rewrite E1, Hneg.
Qed.

(** C7: A call of the socket interface whose arguments fit ([call_ok]: at most
    368 bytes to send, at most 512 to receive into a buffer that has room), over a
    live device that has a sane frame or none, returns with the answer of the
    abstract service: the value returned and the caller's buffer are what the
    answer says, in the state after the server has polled the device; server and
    device stay fit for the next call.  The answer may be an error of the service,
    whose value is returned negated. *)
Theorem client_refines k (c : client (net D)) :
  let s := c_env c in
  dev_live → inv_net s → tx_fits (n_httpd s) → dev_calm s → (524 ≤ length (c_buf c))%nat → call_ok k →
  ∃ c' s1, run_call k c = Ok (returned k (sock_answer (net_view s1) (call_req k)), c') ∧
    poll_state (call_req k) (deliver (call_msg k) s) s1 ∧ inv_net (c_env c') ∧ tx_fits (n_httpd (c_env c')).
Proof.
  intros s Hlive Hi Hf Hc Hb Hk.
  destruct (exchange k c Hlive Hi Hf Hc Hb Hk) as (c1 & s1 & E & Hi' & Hf' & Hpoll & E1 & E2 & E3 & E4).
  exists c1, s1. split; [|done]. apply (call_returns k c c1); try done; [apply answer_status|].
  intros id buf len ->. apply answer_recv. apply Hk.
Qed.
End clients.

(** [sock_recv] with the segment of the session in the device. *)
Lemma client_refines_witness :
  let k := Recv 1 [0; 0; 0; 4; 5] 5 in
  ∃ c' s1, run_call 7 k (mk_client d_data (replicate 528 0)) =
      Ok (returned k (sock_answer (net_view s1) (call_req k)), c') ∧
    poll_state (call_req k) (deliver (call_msg k) d_data) s1 ∧ inv_net (c_env c') ∧ tx_fits (n_httpd (c_env c')).
Proof.
  apply (client_refines 7 (Recv 1 [0; 0; 0; 4; 5] 5) (mk_client d_data (replicate 528 0))).
  - exact I.
  - exact d_data_inv.
  - vm_compute. discriminate.
  - apply d_recv_safe. vm_compute. discriminate.
  - cbn [c_buf]. rewrite length_replicate. lia.
  - split; [vm_compute; split; [discriminate|reflexivity]|]. cbn. lia.
Defined.
