(* ===== verification/MemVm.v ===== *)
(** * Virtual memory: earth/mem_vm.c

    The Sv32 page tables of the processes, in physical memory.  Memory is
    words by byte address; the page allocator of mem_alloc.c, which the file
    only declares, is a parameter: the class [PageAlloc] has its two functions
    and [PageAllocLaws] what their declarations promise. *)

From stdpp Require Import gmap.
From S2P Require Import Prelude.

(** ** Constants *)

Definition MAX_NPROCESS : Z := 16.
Definition USER_PID_START : Z := 6.
Definition FLAG_NEXT_LEVEL : Z := 0x1.
Definition PTE_V : Z := 0x001.
Definition PTE_R : Z := 0x002.
Definition PTE_W : Z := 0x004.
Definition PTE_X : Z := 0x008.
Definition PTE_U : Z := 0x010.
Definition PTE_A : Z := 0x040.
Definition PTE_D : Z := 0x080.
Definition LEAF_FLAG : Z :=
  Z.lor PTE_V (Z.lor PTE_R (Z.lor PTE_W (Z.lor PTE_X (Z.lor PTE_U (Z.lor PTE_A PTE_D))))).

Definition RAM_END : Z := 0x80800000.
Definition APPS_PAGES_BASE : Z := 0x80400000.
Definition SHELL_WORK_DIR : Z := 0x80302000.
Definition RAM_START : Z := 0x80000000.
Definition PAGE_SIZE : Z := 4096.
Definition SDHCI_BASE : Z := 0x40000000.
Definition ETH_CTL_BASE : Z := 0x41000000.
Definition UART_BASE : Z := 0x10000000.
Definition CLINT_BASE : Z := 0x02000000.
Definition FLASH_ROM_BASE : Z := 0x22000000.

(** ** Memory and the page allocator *)

Abbreviation memory := (gmap Z Z).
Definition rd (m : memory) (a : Z) : Z := default 0 (m !! a).

Definition in_page (a x : Z) : Prop := a ≤ x < a + PAGE_SIZE.
Definition is_page (a : Z) : Prop := a mod PAGE_SIZE = 0 ∧ APPS_PAGES_BASE ≤ a < RAM_END.

(** [void* pmalloc(int clear_page)], [void pfree(void *paddr)] and
    [int num_free_pages()]: they work on the allocator's own state and on the
    memory of the page. *)
Class PageAlloc (P : Type) := {
  pmalloc : Z → M (P * memory) Z;
  pfree : Z → M (P * memory) unit;
  num_free_pages : P → Z;
}.

(** While pages are free, [pmalloc(1)] returns a page of the pool that nobody
    holds, cleared; [pfree] takes back a page that is held.  Neither touches
    memory outside the page. *)
Class PageAllocLaws (P : Type) `{PageAlloc P} := {
  owned : P → gset Z;
  pmalloc_law p m : 0 < num_free_pages p →
    ∃ a p' m', pmalloc 1 (p, m) = Ok (a, (p', m')) ∧ is_page a ∧ (a ∉ owned p) ∧
      owned p' = {[a]} ∪ owned p ∧ num_free_pages p' = num_free_pages p - 1 ∧
      (∀ x, in_page a x → rd m' x = 0) ∧ (∀ x, ¬ in_page a x → rd m' x = rd m x);
  pfree_law p m a : a ∈ owned p → is_page a →
    ∃ p' m', pfree a (p, m) = Ok (tt, (p', m')) ∧ owned p' = owned p ∖ {[a]} ∧
      num_free_pages p' = num_free_pages p + 1 ∧
      (∀ x, ¬ in_page a x → rd m' x = rd m x);
}.

(** ** State and operations *)

Record vm (P : Type) := mk_vm {
  v_alloc : P;
  v_mem : memory;
  pid_to_pagetable_base : list Z;
  v_satp : Z;
}.
Arguments mk_vm {P}.
Arguments v_alloc {P}.
Arguments v_mem {P}.
Arguments pid_to_pagetable_base {P}.
Arguments v_satp {P}.
#[export] Instance vm_settable P : Settable (vm P) :=
  settable! mk_vm <v_alloc; v_mem; pid_to_pagetable_base; v_satp>.

(** [p[i]] of a [uint*]; the table a page table entry points to. *)
Definition elt (p i : Z) : Z := wrap32 (p + 4 * i).
Definition next_table (pte : Z) : Z := Z.land (wrap32 (Z.shiftl pte 2)) 0xfffff000.

Section vm.
Context {P : Type} `{PageAlloc P}.

Definition V : Type → Type := M (vm P).

Definition load (a : Z) : V Z := getM (λ s, rd (v_mem s) a).
Definition store (a v : Z) : V unit := modM (λ s, s <| v_mem ::= <[a := v]> |>).
Definition in_alloc {A} (m : M (P * memory) A) : V A := λ s,
  match m (v_alloc s, v_mem s) with
  | Ok (a, (p, m)) => Ok (a, s <| v_alloc := p |> <| v_mem := m |>)
  | Err e => Err e
  end.
Definition base_of (pid : Z) : V Z := λ s,
  match pid_to_pagetable_base s !! Z.to_nat pid with
  | Some r => if pid <? 0 then Err OutOfBounds else Ok (r, s)
  | None => Err OutOfBounds
  end.

(** The entry of the root table for a table page that was just allocated. *)
Definition table_entry (l2_pa : Z) : Z :=
  let ppn := Z.shiftr l2_pa 12 in
  Z.lor (wrap32 (Z.shiftl ppn 10)) FLAG_NEXT_LEVEL.

Fixpoint fill_region (l2_pa addr flag l2_idx : Z) (n : nat) (i : Z) : V unit :=
  match n with
  | O => mret tt
  | S n =>
      old ← load (elt l2_pa (wrap32 (l2_idx + i)));
      ASSERT (old =? 0);;
      store (elt l2_pa (wrap32 (l2_idx + i)))
        (Z.lor (Z.shiftr (wrap32 (addr + i * PAGE_SIZE)) 2) flag);;
      fill_region l2_pa addr flag l2_idx n (i + 1)
  end.

Definition setup_identity_region (pid addr npages flag : Z) : V unit :=
  ASSERT (npages <=? 1024);;
  ASSERT (Z.land addr 0xFFF =? 0);;
  root ← base_of pid;
  ASSERT (negb (root =? 0));;
  let l1_idx := Z.shiftr addr 22 in
  e ← load (elt root l1_idx);
  l2_pa ← (if e =? 0 then
             l2_pa ← in_alloc (pmalloc 1);
             store (elt root l1_idx) (table_entry l2_pa);;
             mret l2_pa
           else
             ASSERT (negb (Z.land e FLAG_NEXT_LEVEL =? 0));;
             mret (next_table e));
  let l2_idx := Z.land (Z.shiftr addr 12) 0x3FF in
  fill_region l2_pa addr flag l2_idx (Z.to_nat (wrap32 npages)) 0.

Definition walk (root va alloc : Z) : V Z :=
  ASSERT (negb (root =? 0));;
  let l1_idx := Z.shiftr va 22 in
  e ← load (elt root l1_idx);
  (if e =? 0 then
     if negb (alloc =? 0) then
       l2_pa ← in_alloc (pmalloc 1);
       store (elt root l1_idx) (table_entry l2_pa)
     else fail Fatal
   else mret tt);;
  e ← load (elt root l1_idx);
  ASSERT (negb (Z.land e FLAG_NEXT_LEVEL =? 0));;
  let l2_pa := next_table e in
  let l2_idx := Z.land (Z.shiftr va 12) 0x3FF in
  mret (elt l2_pa l2_idx).

(** A new root for [pid], with its identity mappings. *)
Definition new_page_table (pid : Z) : V Z :=
  root ← in_alloc (pmalloc 1);
  modM (λ s, s <| pid_to_pagetable_base ::= <[Z.to_nat pid := root]> |>);;
  (if pid <? USER_PID_START then
     setup_identity_region pid RAM_START 512 LEAF_FLAG;;
     setup_identity_region pid APPS_PAGES_BASE 1024 LEAF_FLAG;;
     setup_identity_region pid CLINT_BASE 16 LEAF_FLAG;;
     setup_identity_region pid UART_BASE 1 LEAF_FLAG;;
     setup_identity_region pid SDHCI_BASE 1 LEAF_FLAG;;
     setup_identity_region pid ETH_CTL_BASE 32 LEAF_FLAG;;
     setup_identity_region pid FLASH_ROM_BASE 1024 LEAF_FLAG;;
     setup_identity_region pid SHELL_WORK_DIR 1 LEAF_FLAG
   else
     setup_identity_region pid SHELL_WORK_DIR 1 LEAF_FLAG);;
  mret root.

Definition pid_ok (pid : Z) : bool := (0 <? pid) && (pid <=? MAX_NPROCESS).

Definition page_table_map (pid vpage_no ppage_id : Z) : V unit :=
  ASSERT (pid_ok pid);;
  let va := wrap32 (vpage_no * PAGE_SIZE) in
  let pa := wrap32 (ppage_id * PAGE_SIZE + APPS_PAGES_BASE) in
  root ← base_of pid;
  root ← (if root =? 0 then new_page_table pid else mret root);
  l2_pte ← walk root va 1;
  e ← load l2_pte;
  ASSERT (e =? 0);;
  store l2_pte (Z.lor (Z.shiftr pa 2) LEAF_FLAG).

(** The fences order accesses of the hardware and have no effect here. *)
Definition page_table_switch (pid : Z) : V unit :=
  ASSERT (pid_ok pid);;
  root ← base_of pid;
  ASSERT (negb (root =? 0));;
  modM (λ s, s <| v_satp := Z.lor (Z.shiftl 1 31) (Z.shiftr root 12) |>).

Definition page_table_translate (pid va : Z) : V Z :=
  ASSERT (pid_ok pid);;
  root ← base_of pid;
  ASSERT (negb (root =? 0));;
  l2_pte ← walk root va 0;
  e ← load l2_pte;
  ASSERT (negb (Z.land e PTE_V =? 0));;
  e ← load l2_pte;
  let pa_base := next_table e in
  mret (Z.lor pa_base (Z.land va 0xFFF)).

(** The page at [pa], mapped at [va], came from the pool and is not part of an
    identity mapping. *)
Definition frees_page (pa va : Z) : bool :=
  negb (pa =? va) && (APPS_PAGES_BASE <=? pa) && (pa <? RAM_END).

Fixpoint free_l2 (l1_idx l2_pa : Z) (n : nat) (l2_idx : Z) : V unit :=
  match n with
  | O => mret tt
  | S n =>
      l2_pte ← load (elt l2_pa l2_idx);
      (if Z.land l2_pte PTE_V =? 0 then mret tt
       else
         let pa := next_table l2_pte in
         let va := Z.lor (wrap32 (Z.shiftl l1_idx 22)) (Z.shiftl l2_idx 12) in
         if frees_page pa va then in_alloc (pfree pa) else mret tt);;
      free_l2 l1_idx l2_pa n (l2_idx + 1)
  end.

Fixpoint free_l1 (root : Z) (n : nat) (l1_idx : Z) : V unit :=
  match n with
  | O => mret tt
  | S n =>
      l1_pte ← load (elt root l1_idx);
      (if Z.land l1_pte PTE_V =? 0 then mret tt
       else
         let l2_pa := next_table l1_pte in
         free_l2 l1_idx l2_pa 1024 0;;
         in_alloc (pfree l2_pa));;
      free_l1 root n (l1_idx + 1)
  end.

Definition page_table_free (pid : Z) : V unit :=
  ASSERT (pid_ok pid);;
  root ← base_of pid;
  if root =? 0 then mret tt
  else
    free_l1 root 1024 0;;
    in_alloc (pfree root);;
    modM (λ s, s <| pid_to_pagetable_base ::= <[Z.to_nat pid := 0]> |>).
End vm.

(** ** The hardware

    Address translation of the RISC-V privileged specification, section 4.3,
    for user mode: [satp] selects the root, two levels are walked, and a leaf
    must allow the access with its A (and for a store D) bit set. *)

Inductive access := Load | Store | Fetch.

Definition allows (a : access) (pte : Z) : bool :=
  Z.testbit pte 4 && Z.testbit pte 6 &&
  match a with
  | Load => Z.testbit pte 1
  | Store => Z.testbit pte 2 && Z.testbit pte 7
  | Fetch => Z.testbit pte 3
  end.

(** V is clear, or the reserved encoding W without R. *)
Definition pte_fault (pte : Z) : bool :=
  negb (Z.testbit pte 0) || (negb (Z.testbit pte 1) && Z.testbit pte 2).
Definition pte_leaf (pte : Z) : bool := Z.testbit pte 1 || Z.testbit pte 3.

Definition sv32 (m : memory) (satp : Z) (a : access) (va : Z) : option Z :=
  if negb (Z.testbit satp 31) then Some va
  else
    let pte1 := rd m (satp mod 2 ^ 22 * 4096 + va / 2 ^ 22 * 4) in
    if pte_fault pte1 then None
    else if pte_leaf pte1 then
      if allows a pte1 && (pte1 / 2 ^ 10 mod 2 ^ 10 =? 0)
      then Some (pte1 / 2 ^ 20 * 2 ^ 22 + va mod 2 ^ 22) else None
    else
      let pte0 := rd m (pte1 / 2 ^ 10 * 4096 + va / 2 ^ 12 mod 2 ^ 10 * 4) in
      if pte_fault pte0 then None
      else if pte_leaf pte0 && allows a pte0
      then Some (pte0 / 2 ^ 10 * 4096 + va mod 2 ^ 12) else None.
