(* ===== verification/MemVmInv.v ===== *)
(** * Page tables: the invariant and the specifications of the operations

    [uses s pid k a]: process [pid] keeps the page [a] as its root table, as a
    second-level table, or as a page of its own that it maps.  The invariant
    [inv_vm] says that every page is used in at most one way by at most one
    process, and that all entries have the form the code writes.  [aspace] is
    the abstraction: the address space of a process as a function from virtual
    page numbers to page table entries. *)

From stdpp Require Import gmap.
From S2P Require Import Prelude MemVm.

(** ** Entries *)

Definition frame (a : Z) : Prop := a mod 4096 = 0 ∧ 0 ≤ a < 2 ^ 32.
Definition leaf (pa : Z) : Z := pa / 4 + 223.
Definition tab (t : Z) : Z := t / 4 + 1.

Lemma lor_add x y n : 0 ≤ n → 0 ≤ y < 2 ^ n → Z.lor (x * 2 ^ n) y = x * 2 ^ n + y.
Proof.
  intros Hn Hy. symmetry. apply Z.add_nocarry_lor. apply Z.bits_inj'. intros m Hm.
  rewrite Z.land_spec, Z.bits_0. destruct (Z.lt_ge_cases m n).
  - by rewrite Z.mul_pow2_bits_low.
  - destruct (decide (y = 0)) as [->|]; [by rewrite Z.bits_0, andb_false_r|].
    rewrite (Z.bits_above_log2 y), andb_false_r; [done|lia|].
    apply Z.lt_le_trans with n; [|done]. apply Z.log2_lt_pow2; lia.
Qed.

Lemma land_page x : 0 ≤ x < 2 ^ 32 → Z.land x 0xfffff000 = x / 4096 * 4096.
Proof.
  intros Hx. change 0xfffff000 with (Z.ldiff (Z.ones 32) (Z.ones 12)).
  transitivity (Z.ldiff (Z.land x (Z.ones 32)) (Z.ones 12)).
  - apply Z.bits_inj'. intros m _. rewrite !Z.land_spec, !Z.ldiff_spec, !Z.land_spec.
    by rewrite andb_assoc.
  - rewrite Z.land_ones, Z.mod_small, Z.ldiff_ones_r by lia.
    by rewrite Z.shiftr_div_pow2, Z.shiftl_mul_pow2 by lia.
Qed.

Lemma land_low x n : 0 ≤ n → Z.land x (2 ^ n - 1) = x mod 2 ^ n.
Proof. intros. rewrite <-Z.land_ones by done. f_equal. rewrite Z.ones_equiv. lia. Qed.

Lemma next_table_eq k f : 0 ≤ k < 2 ^ 20 → 0 ≤ f < 1024 → next_table (k * 1024 + f) = k * 4096.
Proof.
  intros Hk Hf. unfold next_table, wrap32. rewrite Z.shiftl_mul_pow2 by lia.
  rewrite Z.mod_small by lia. rewrite land_page by lia. dlia.
Qed.

Lemma next_leaf a : frame a → next_table (leaf a) = a.
Proof.
  intros [Ha ?]. unfold leaf. replace (a / 4) with (a / 4096 * 1024) by dlia.
  rewrite next_table_eq by dlia. dlia.
Qed.
Lemma next_tab a : frame a → next_table (tab a) = a.
Proof.
  intros [Ha ?]. unfold tab. replace (a / 4) with (a / 4096 * 1024) by dlia.
  rewrite next_table_eq by dlia. dlia.
Qed.
Lemma table_entry_eq a : frame a → table_entry a = tab a.
Proof.
  intros [Ha ?]. unfold table_entry, tab, wrap32, FLAG_NEXT_LEVEL.
  rewrite Z.shiftr_div_pow2, Z.shiftl_mul_pow2 by lia.
  rewrite Z.mod_small by dlia. rewrite lor_add by lia. dlia.
Qed.
Lemma leaf_entry a : frame a → Z.lor (Z.shiftr a 2) LEAF_FLAG = leaf a.
Proof.
  intros [Ha ?]. unfold leaf. rewrite Z.shiftr_div_pow2 by lia.
  replace (a / 2 ^ 2) with (a / 4096 * 2 ^ 10) by dlia.
  change LEAF_FLAG with 223. rewrite lor_add by lia. dlia.
Qed.
Lemma leaf_pos a : frame a → 0 < leaf a.
Proof. unfold frame, leaf. dlia. Qed.
Lemma tab_pos a : frame a → 0 < tab a.
Proof. unfold frame, tab. dlia. Qed.
Lemma leaf_valid a : frame a → Z.land (leaf a) 1 = 1.
Proof. intros [??]. unfold leaf. rewrite (land_low _ 1) by lia. dlia. Qed.
Lemma tab_valid a : frame a → Z.land (tab a) 1 = 1.
Proof. intros [??]. unfold tab. rewrite (land_low _ 1) by lia. dlia. Qed.

Lemma page_frame a : is_page a → frame a.
Proof. unfold is_page, frame, PAGE_SIZE, APPS_PAGES_BASE, RAM_END. lia. Qed.
Lemma elt_eq p i : is_page p → 0 ≤ i < 1024 → elt p i = p + 4 * i.
Proof.
  unfold is_page, elt, wrap32, APPS_PAGES_BASE, RAM_END. intros. apply Z.mod_small. lia.
Qed.
Lemma in_page_elt a b i : is_page a → is_page b → 0 ≤ i < 1024 → in_page a (b + 4 * i) ↔ a = b.
Proof. unfold is_page, in_page, PAGE_SIZE. dlia. Qed.

(** ** The abstraction *)

Section view.
Context {P : Type}.
Implicit Types s : vm P.

Definition root_of s (pid : nat) (r : Z) : Prop :=
  pid_to_pagetable_base s !! pid = Some r ∧ r ≠ 0.

(** Entry [j] of second-level table [i]; 0 where there is no table. *)
Definition entry (m : memory) (r i j : Z) : Z :=
  let e := rd m (r + 4 * i) in if e =? 0 then 0 else rd m (next_table e + 4 * j).

Definition aspace s (pid : nat) (vpn : Z) : Z :=
  match pid_to_pagetable_base s !! pid with
  | Some r => if r =? 0 then 0 else entry (v_mem s) r (vpn / 1024) (vpn mod 1024)
  | None => 0
  end.

Inductive pslot := Root | Table (i : Z) | Data (i j : Z).

#[export] Instance pslot_eq_dec : EqDecision pslot.
Proof. solve_decision. Defined.

Definition idx (i : Z) : Prop := 0 ≤ i < 1024.

(** [pa], mapped at entry [j] of table [i], is a page of the process's own. *)
Definition private (pa i j : Z) : Prop := frees_page pa (i * 2 ^ 22 + j * 2 ^ 12) = true.

Inductive uses s (pid : nat) : pslot → Z → Prop :=
  | uses_root r : root_of s pid r → uses s pid Root r
  | uses_table r i e : root_of s pid r → idx i → rd (v_mem s) (r + 4 * i) = e → e ≠ 0 →
      uses s pid (Table i) (next_table e)
  | uses_data r i j e : root_of s pid r → idx i → idx j → entry (v_mem s) r i j = e → e ≠ 0 →
      private (next_table e) i j → uses s pid (Data i j) (next_table e).

End view.

Section inv.
Context {P : Type} `{PageAllocLaws P}.
Implicit Types s : vm P.

Record inv_vm s : Prop := {
  inv_base : length (pid_to_pagetable_base s) = 17%nat;
  inv_l1 pid r i : root_of s pid r → idx i →
    rd (v_mem s) (r + 4 * i) = 0 ∨ ∃ t, is_page t ∧ rd (v_mem s) (r + 4 * i) = tab t;
  inv_l2 pid i t j : uses s pid (Table i) t → idx j →
    rd (v_mem s) (t + 4 * j) = 0 ∨ ∃ pa, frame pa ∧ rd (v_mem s) (t + 4 * j) = leaf pa;
  inv_owned pid k a : uses s pid k a → is_page a ∧ a ∈ owned (v_alloc s);
  inv_inj pid k pid' k' a : uses s pid k a → uses s pid' k' a → pid = pid' ∧ k = k';
}.

Lemma rd_insert m a v x : rd (<[a := v]> m) x = if decide (x = a) then v else rd m x.
Proof.
  unfold rd. destruct (decide (x = a)) as [->|]; [by rewrite lookup_insert_eq|].
  by rewrite lookup_insert_ne.
Qed.

Lemma root_det s pid r r' : root_of s pid r → root_of s pid r' → r = r'.
Proof. intros [Hr _] [Hr' _]. congruence. Qed.

Lemma root_page s pid r : inv_vm s → root_of s pid r → is_page r ∧ r ∈ owned (v_alloc s).
Proof. intros I Hr. apply (inv_owned s I pid Root). by constructor. Qed.

Lemma l1_table s pid r i :
  inv_vm s → root_of s pid r → idx i → rd (v_mem s) (r + 4 * i) ≠ 0 →
  ∃ t, is_page t ∧ t ∈ owned (v_alloc s) ∧ rd (v_mem s) (r + 4 * i) = tab t ∧
       uses s pid (Table i) t.
Proof.
  intros I Hr Hi He. destruct (inv_l1 s I pid r i Hr Hi) as [?|(t & Ht & Et)]; [done|].
  assert (uses s pid (Table i) t) as Hu.
  { rewrite <-(next_tab t) by by apply page_frame. eapply uses_table; [done|done|done|congruence]. }
  exists t. split_and!; [done| |done|done]. by apply (inv_owned s I pid (Table i)).
Qed.

(** The table pages of [pid] read the same in [s'], and its root is the same. *)
Definition same_tables s s' (pid : nat) : Prop :=
  pid_to_pagetable_base s' !! pid = pid_to_pagetable_base s !! pid ∧
  ∀ k a i, uses s pid k a → (k = Root ∨ ∃ i', k = Table i') → idx i →
    rd (v_mem s') (a + 4 * i) = rd (v_mem s) (a + 4 * i).

Lemma same_l1 s s' pid r i :
  same_tables s s' pid → root_of s pid r → idx i →
  rd (v_mem s') (r + 4 * i) = rd (v_mem s) (r + 4 * i).
Proof. intros [_ Hm] Hr Hi. apply (Hm Root); [by constructor|by left|done]. Qed.

Lemma same_entry s s' pid r i j :
  inv_vm s → same_tables s s' pid → root_of s pid r → idx i → idx j →
  entry (v_mem s') r i j = entry (v_mem s) r i j.
Proof.
  intros I Hs Hr Hi Hj. unfold entry. rewrite (same_l1 s s' pid) by done. case_match eqn:E; [done|].
  apply Z.eqb_neq in E. destruct Hs as [_ Hm].
  apply (Hm (Table i)); [by eapply uses_table|by eauto|done].
Qed.

Lemma same_root s s' pid r : same_tables s s' pid → root_of s' pid r ↔ root_of s pid r.
Proof. intros [Hb _]. unfold root_of. by rewrite Hb. Qed.

Lemma same_uses s s' pid k a :
  inv_vm s → same_tables s s' pid → uses s' pid k a ↔ uses s pid k a.
Proof.
  intros I Hs. split.
  - intros [r Hr|r i e Hr Hi He ?|r i j e Hr Hi Hj He ??]; apply (same_root s s') in Hr; try done.
    + by constructor.
    + rewrite (same_l1 s s' pid) in He by done. by eapply uses_table.
    + rewrite (same_entry s s' pid) in He by done. by eapply uses_data.
  - intros [r Hr|r i e Hr Hi He ?|r i j e Hr Hi Hj He ??].
    + constructor. by apply (same_root s s').
    + eapply uses_table; [by apply (same_root s s')|done| |done]. by rewrite (same_l1 s s' pid).
    + eapply uses_data; [by apply (same_root s s')|done|done| |done|done].
      by rewrite (same_entry s s' pid).
Qed.

Definition vpn_ok (vpn : Z) : Prop := 0 ≤ vpn < 2 ^ 20.

Lemma vpn_idx vpn : vpn_ok vpn → idx (vpn / 1024) ∧ idx (vpn mod 1024).
Proof. unfold vpn_ok, idx. dlia. Qed.

Lemma same_aspace s s' pid vpn :
  inv_vm s → same_tables s s' pid → vpn_ok vpn → aspace s' pid vpn = aspace s pid vpn.
Proof.
  intros I Hs [??]%vpn_idx. pose proof Hs as [Hb _]. unfold aspace. rewrite Hb.
  case_match eqn:E; [|done]. case_match eqn:E'; [done|]. apply Z.eqb_neq in E'.
  by apply (same_entry s s' pid).
Qed.

(** A change of the used pages by one new page keeps pages in their place. *)
Lemma extend_inj s s' (p0 : nat) (k0 : pslot) (x0 : Z) :
  inv_vm s → owned (v_alloc s) ⊆ owned (v_alloc s') →
  (∀ p k x, uses s' p k x → uses s p k x ∨
     (p = p0 ∧ k = k0 ∧ x = x0 ∧ is_page x0 ∧ x0 ∈ owned (v_alloc s') ∧ ∀ p k, ¬ uses s p k x0)) →
  (∀ p k a, uses s' p k a → is_page a ∧ a ∈ owned (v_alloc s')) ∧
  (∀ p k p' k' a, uses s' p k a → uses s' p' k' a → p = p' ∧ k = k').
Proof.
  intros I Hsub Hx. split.
  - intros p k a [Hu|(_ & _ & -> & ? & ? & _)]%Hx; [|done].
    destruct (inv_owned s I p k a Hu). set_solver.
  - intros p k p' k' a Hu Hu'. apply Hx in Hu, Hu'.
    destruct Hu as [Hu|(? & ? & ? & _ & _ & Hn)], Hu' as [Hu'|(? & ? & ? & _ & _ & Hn')]; subst;
      [by apply (inv_inj s I p k p' k' a)|exfalso; by eapply Hn'|exfalso; by eapply Hn|done].
Qed.

(** A fresh, cleared page becomes the root of a process without one. *)
Record new_root s s' (pid : nat) (a : Z) : Prop := {
  nr_none : pid_to_pagetable_base s !! pid = Some 0;
  nr_page : is_page a ∧ a ∉ owned (v_alloc s);
  nr_owned : owned (v_alloc s') = {[a]} ∪ owned (v_alloc s);
  nr_base : pid_to_pagetable_base s' = <[pid := a]> (pid_to_pagetable_base s);
  nr_zero x : in_page a x → rd (v_mem s') x = 0;
  nr_mem x : ¬ in_page a x → rd (v_mem s') x = rd (v_mem s) x;
}.

(** A fresh, cleared page becomes second-level table [i] of [pid]. *)
Record new_table s s' (pid : nat) (r i a : Z) : Prop := {
  nt_root : root_of s pid r ∧ idx i;
  nt_none : rd (v_mem s) (r + 4 * i) = 0;
  nt_page : is_page a ∧ a ∉ owned (v_alloc s);
  nt_owned : owned (v_alloc s') = {[a]} ∪ owned (v_alloc s);
  nt_base : pid_to_pagetable_base s' = pid_to_pagetable_base s;
  nt_entry : rd (v_mem s') (r + 4 * i) = tab a;
  nt_zero x : in_page a x → rd (v_mem s') x = 0;
  nt_mem x : ¬ in_page a x → x ≠ r + 4 * i → rd (v_mem s') x = rd (v_mem s) x;
}.

(** Entry [j] of table [i] of [pid], at [t], is set to map [pa]. *)
Record new_leaf s s' (pid : nat) (i j t pa : Z) : Prop := {
  nl_table : uses s pid (Table i) t ∧ idx j;
  nl_none : rd (v_mem s) (t + 4 * j) = 0;
  nl_frame : frame pa;
  nl_owned : v_alloc s' = v_alloc s;
  nl_base : pid_to_pagetable_base s' = pid_to_pagetable_base s;
  nl_entry : rd (v_mem s') (t + 4 * j) = leaf pa;
  nl_mem x : x ≠ t + 4 * j → rd (v_mem s') x = rd (v_mem s) x;
  nl_free : private pa i j → is_page pa ∧ pa ∈ owned (v_alloc s) ∧ ∀ p k, ¬ uses s p k pa;
}.

Lemma fresh_elt s p k b a i :
  inv_vm s → uses s p k b → is_page a → a ∉ owned (v_alloc s) → idx i → ¬ in_page a (b + 4 * i).
Proof.
  intros I Hu Ha Hn Hi Hin. destruct (inv_owned s I p k b Hu) as [Hb Ho].
  apply (in_page_elt a b i Ha Hb Hi) in Hin. by subst.
Qed.

Lemma no_uses s pid k x : pid_to_pagetable_base s !! pid = Some 0 → ¬ uses s pid k x.
Proof. intros H0' [r [? ?]|r i e [? ?]|r i j e [? ?]]; congruence. Qed.

Lemma new_root_same s s' pid a p :
  inv_vm s → new_root s s' pid a → p ≠ pid → same_tables s s' p.
Proof.
  intros I [H1 [H2 H2'] H3 H4 H5 H6] Hp. split; [by rewrite H4, list_lookup_insert_ne|].
  intros k b i Hu _ Hi. apply H6. by eapply fresh_elt.
Qed.

Lemma new_root_root s s' pid a : inv_vm s → new_root s s' pid a → root_of s' pid a.
Proof.
  intros I [H1 [H2 H2'] H3 H4 H5 H6]. split.
  - rewrite H4. apply list_lookup_insert_eq. by eapply lookup_lt_Some.
  - unfold is_page, APPS_PAGES_BASE in H2. lia.
Qed.

Lemma new_root_uses s s' pid a p k x :
  inv_vm s → new_root s s' pid a →
  uses s' p k x ↔ uses s p k x ∨ (p = pid ∧ k = Root ∧ x = a).
Proof.
  intros I N. pose proof N as [H1 [H2 H2'] H3 H4 H5 H6].
  pose proof (new_root_root s s' pid a I N) as Hr.
  destruct (decide (p = pid)) as [->|Hp].
  - split.
    + intros [r Hr'|r i e Hr' Hi He ?|r i j e Hr' Hi Hj He ??];
        rewrite (root_det s' pid r a Hr' Hr) in *; [by right| |].
      * rewrite H5 in He; [by subst|]. unfold in_page, PAGE_SIZE, idx in *. lia.
      * unfold entry in He. rewrite H5 in He; [by subst|]. unfold in_page, PAGE_SIZE, idx in *. lia.
    + intros [Hu|(_ & -> & ->)]; [by apply no_uses in Hu|by constructor].
  - rewrite (same_uses s s') by (done || by eapply new_root_same). naive_solver.
Qed.

Lemma new_root_aspace s s' pid a p vpn :
  inv_vm s → new_root s s' pid a → vpn_ok vpn →
  aspace s' p vpn = aspace s p vpn ∧ aspace s' pid vpn = 0.
Proof.
  intros I N Hv. pose proof N as [H1 [H2 H2'] H3 H4 H5 H6].
  assert (aspace s' pid vpn = 0) as Hz.
  { destruct (new_root_root s s' pid a I N) as [Hr _]. unfold aspace, entry. rewrite Hr.
    case_match; [done|]. rewrite H5; [done|].
    apply vpn_idx in Hv as [??]. unfold in_page, PAGE_SIZE, idx in *. lia. }
  split; [|done]. destruct (decide (p = pid)) as [->|].
  - rewrite Hz. unfold aspace. by rewrite H1.
  - apply same_aspace; [done|by eapply new_root_same|done].
Qed.

Lemma new_root_inv s s' pid a : inv_vm s → new_root s s' pid a → inv_vm s'.
Proof.
  intros I N. pose proof N as [H1 [H2 H2'] H3 H4 H5 H6].
  pose proof (new_root_root s s' pid a I N) as Hr.
  destruct (extend_inj s s' pid Root a I) as [Ho Hj].
  { rewrite H3. set_solver. }
  { intros p k x [?|(-> & -> & ->)]%(new_root_uses s s' pid a); [by left|right|done|done].
    split_and!; [done..|rewrite H3; set_solver|].
    intros p k Hu. by destruct (inv_owned s I _ _ _ Hu). }
  split; [by rewrite H4, length_insert; apply inv_base| | |done|done].
  - intros p r i Hr' Hi. destruct (decide (p = pid)) as [->|Hp].
    + rewrite (root_det s' pid r a Hr' Hr), H5; [by left|]. unfold in_page, PAGE_SIZE, idx in *. lia.
    + assert (same_tables s s' p) as Hs by by eapply new_root_same.
      apply (same_root s s') in Hr'; [|done]. rewrite (same_l1 s s' p) by done.
      by apply (inv_l1 s I p).
  - intros p i t j [Hu|(_ & ? & _)]%(new_root_uses s s' pid a) Hj'; try done.
    rewrite H6 by by eapply fresh_elt. by eapply (inv_l2 s I).
Qed.

Lemma new_table_other s s' pid r i a p k b j :
  inv_vm s → new_table s s' pid r i a → uses s p k b → idx j → (p, k, j) ≠ (pid, Root, i) →
  rd (v_mem s') (b + 4 * j) = rd (v_mem s) (b + 4 * j).
Proof.
  intros I [[Hr Hi] H2 [H3 H3'] H4 H5 H6 H7 H8] Hu Hj Hne. apply H8; [by eapply fresh_elt|].
  intros He. apply Hne. destruct (inv_owned s I p k b Hu) as [Hb _].
  destruct (root_page s pid r I Hr) as [Hr' _].
  assert (b = r) as -> by (unfold is_page, PAGE_SIZE, idx in *; dlia).
  destruct (inv_inj s I p k pid Root r Hu) as [-> ->]; [by constructor|].
  f_equal. unfold idx in *. lia.
Qed.

Lemma new_table_same s s' pid r i a p :
  inv_vm s → new_table s s' pid r i a → p ≠ pid → same_tables s s' p.
Proof.
  intros I N Hp. split; [by rewrite (nt_base _ _ _ _ _ _ N)|].
  intros k b j Hu _ Hj. eapply new_table_other; [done..|congruence].
Qed.

Lemma new_table_root s s' pid r i a r' :
  new_table s s' pid r i a → root_of s' pid r' ↔ r' = r.
Proof.
  intros N. pose proof (nt_root _ _ _ _ _ _ N) as [Hr _].
  unfold root_of. rewrite (nt_base _ _ _ _ _ _ N). destruct Hr as [Hr ?]. rewrite Hr.
  split; [intros [? ?]; congruence|by intros ->].
Qed.

Lemma new_table_l1 s s' pid r i a i' :
  inv_vm s → new_table s s' pid r i a → idx i' →
  rd (v_mem s') (r + 4 * i') = if decide (i' = i) then tab a else rd (v_mem s) (r + 4 * i').
Proof.
  intros I N Hi. destruct (decide (i' = i)) as [->|]; [by apply N|].
  eapply new_table_other; [done|done|constructor; apply N|done|congruence].
Qed.

Lemma new_table_entry s s' pid r i a i' j :
  inv_vm s → new_table s s' pid r i a → idx i' → idx j →
  entry (v_mem s') r i' j = entry (v_mem s) r i' j.
Proof.
  intros I N Hi Hj. pose proof N as [[Hr Hi0] H2 [H3 H3'] H4 H5 H6 H7 H8]. unfold entry.
  rewrite (new_table_l1 s s' pid r i a) by done. destruct (decide (i' = i)) as [->|].
  - rewrite H2. pose proof (tab_pos a (page_frame a H3)). case_match eqn:E; [done|].
    rewrite next_tab by by apply page_frame. apply H7. unfold in_page, PAGE_SIZE, idx in *. lia.
  - case_match eqn:E; [done|]. apply Z.eqb_neq in E.
    eapply (new_table_other _ _ _ _ _ _ pid (Table i')); [done|done|by eapply uses_table|done|congruence].
Qed.

Lemma new_table_uses s s' pid r i a p k x :
  inv_vm s → new_table s s' pid r i a →
  uses s' p k x ↔ uses s p k x ∨ (p = pid ∧ k = Table i ∧ x = a).
Proof.
  intros I N. pose proof N as [[Hr Hi0] H2 [H3 H3'] H4 H5 H6 H7 H8].
  assert (frame a) as Hf by by apply page_frame.
  destruct (decide (p = pid)) as [->|Hp].
  - split.
    + intros [r' Hr'|r' i' e Hr' Hi He ?|r' i' j e Hr' Hi Hj He ??];
        apply (new_table_root s s' pid r i a) in Hr' as ->; try done.
      * left. by constructor.
      * rewrite (new_table_l1 s s' pid r i a) in He by done. destruct (decide (i' = i)) as [->|].
        { subst e. rewrite next_tab by done. by right. }
        left. by eapply uses_table.
      * left. rewrite (new_table_entry s s' pid r i a) in He by done. by eapply uses_data.
    + assert (root_of s' pid r) as Hr1 by by apply (new_table_root s s' pid r i a).
      intros [[r' Hr'|r' i' e Hr' Hi He ?|r' i' j e Hr' Hi Hj He ??]|(_ & -> & ->)];
        try (rewrite (root_det s pid r' r Hr' Hr) in *).
      * by constructor.
      * eapply uses_table; [done|done| |done]. rewrite (new_table_l1 s s' pid r i a) by done.
        case_decide; [congruence|done].
      * eapply uses_data; [done|done|done| |done|done]. by rewrite (new_table_entry s s' pid r i a).
      * rewrite <-(next_tab a) by done. eapply uses_table; [done|done|done|].
        pose proof (tab_pos a Hf). lia.
  - rewrite (same_uses s s') by (done || by eapply new_table_same). naive_solver.
Qed.

Lemma new_table_aspace s s' pid r i a p vpn :
  inv_vm s → new_table s s' pid r i a → vpn_ok vpn → aspace s' p vpn = aspace s p vpn.
Proof.
  intros I N Hv. destruct (decide (p = pid)) as [->|].
  - pose proof (nt_root _ _ _ _ _ _ N) as [[Hr ?] _]. unfold aspace.
    rewrite (nt_base _ _ _ _ _ _ N), Hr. case_match; [done|]. apply vpn_idx in Hv as [??].
    by eapply new_table_entry.
  - apply same_aspace; [done|by eapply new_table_same|done].
Qed.

Lemma new_table_inv s s' pid r i a : inv_vm s → new_table s s' pid r i a → inv_vm s'.
Proof.
  intros I N. pose proof N as [[Hr Hi0] H2 [H3 H3'] H4 H5 H6 H7 H8].
  destruct (extend_inj s s' pid (Table i) a I) as [Ho Hj].
  { rewrite H4. set_solver. }
  { intros p k x [?|(-> & -> & ->)]%(new_table_uses s s' pid r i a); [by left|right|done|done].
    split_and!; [done..|rewrite H4; set_solver|].
    intros p k Hu. by destruct (inv_owned s I _ _ _ Hu). }
  split; [by rewrite H5; apply inv_base| | |done|done].
  - intros p r' i' Hr' Hi. destruct (decide (p = pid)) as [->|Hp].
    + apply (new_table_root s s' pid r i a) in Hr' as ->; [|done].
      rewrite (new_table_l1 s s' pid r i a) by done. case_decide; [by eauto|].
      by apply (inv_l1 s I pid).
    + assert (same_tables s s' p) as Hs by by eapply new_table_same.
      apply (same_root s s') in Hr'; [|done]. rewrite (same_l1 s s' p) by done.
      by apply (inv_l1 s I p).
  - intros p i' t j [Hu|(-> & [= ->] & ->)]%(new_table_uses s s' pid r i a) Hj'; try done.
    + erewrite new_table_other by (done || congruence). by eapply (inv_l2 s I).
    + left. apply H7. unfold in_page, PAGE_SIZE, idx in *. lia.
Qed.

Lemma new_leaf_other s s' pid i j t pa p k b j' :
  inv_vm s → new_leaf s s' pid i j t pa → uses s p k b → idx j' → (p, k, j') ≠ (pid, Table i, j) →
  rd (v_mem s') (b + 4 * j') = rd (v_mem s) (b + 4 * j').
Proof.
  intros I [[Ht Hj] H2 H3 H4 H5 H6 H7 H8] Hu Hj' Hne. apply H7.
  intros He. apply Hne. destruct (inv_owned s I p k b Hu) as [Hb _].
  destruct (inv_owned s I _ _ _ Ht) as [Ht' _].
  assert (b = t) as -> by (unfold is_page, PAGE_SIZE, idx in *; dlia).
  destruct (inv_inj s I p k pid (Table i) t Hu Ht) as [-> ->].
  f_equal. unfold idx in *. lia.
Qed.

Lemma new_leaf_same s s' pid i j t pa p :
  inv_vm s → new_leaf s s' pid i j t pa → p ≠ pid → same_tables s s' p.
Proof.
  intros I N Hp. split; [by rewrite (nl_base _ _ _ _ _ _ _ N)|].
  intros k b j' Hu _ Hj. eapply new_leaf_other; [done..|congruence].
Qed.

Lemma uses_table_inv s pid i t :
  uses s pid (Table i) t → ∃ r, root_of s pid r ∧ idx i ∧ rd (v_mem s) (r + 4 * i) ≠ 0 ∧
                                t = next_table (rd (v_mem s) (r + 4 * i)).
Proof. inversion 1; subst. by eauto 10. Qed.

Lemma new_leaf_l1 s s' pid i j t pa r i' :
  inv_vm s → new_leaf s s' pid i j t pa → root_of s pid r → idx i' →
  rd (v_mem s') (r + 4 * i') = rd (v_mem s) (r + 4 * i').
Proof. intros I N Hr Hi. eapply (new_leaf_other _ _ _ _ _ _ _ pid Root); [done..|by constructor|done|congruence]. Qed.

Lemma new_leaf_entry s s' pid i j t pa r i' j' :
  inv_vm s → new_leaf s s' pid i j t pa → root_of s pid r → idx i' → idx j' →
  entry (v_mem s') r i' j' = if decide (i' = i ∧ j' = j) then leaf pa else entry (v_mem s) r i' j'.
Proof.
  intros I N Hr Hi Hj. pose proof N as [[Ht Hj0] H2 H3 H4 H5 H6 H7 H8]. unfold entry.
  rewrite (new_leaf_l1 s s' pid i j t pa) by done.
  destruct (uses_table_inv s pid i t Ht) as (r0 & Hr0 & Hi0 & He & ->).
  pose proof (root_det s pid r0 r Hr0 Hr) as ->.
  case_match eqn:E; [apply Z.eqb_eq in E; case_decide as Hd; [by destruct Hd; subst|done]|].
  apply Z.eqb_neq in E. case_decide as Hd; [by destruct Hd; subst|].
  eapply (new_leaf_other _ _ _ _ _ _ _ pid (Table i')); [done|done|by eapply uses_table|done|].
  intros [= -> ->]. by destruct Hd.
Qed.

Lemma new_leaf_uses s s' pid i j t pa p k x :
  inv_vm s → new_leaf s s' pid i j t pa →
  uses s' p k x ↔ uses s p k x ∨ (p = pid ∧ k = Data i j ∧ x = pa ∧ private pa i j).
Proof.
  intros I N. pose proof N as [[Ht Hj0] H2 H3 H4 H5 H6 H7 H8].
  destruct (uses_table_inv s pid i t Ht) as (r & Hr & Hi0 & He0 & Et).
  assert (∀ r', root_of s' pid r' ↔ r' = r) as Hroot.
  { intros r'. unfold root_of in *. rewrite H5. destruct Hr as [-> ?].
    split; [intros [? ?]; congruence|by intros ->]. }
  assert (entry (v_mem s) r i j = 0) as Hz.
  { unfold entry. case_match; [done|]. by rewrite <-Et. }
  destruct (decide (p = pid)) as [->|Hp].
  - split.
    + intros [r' Hr'|r' i' e Hr' Hi He ?|r' i' j' e Hr' Hi Hj He ? Hp]; apply Hroot in Hr' as ->.
      * left. by constructor.
      * left. rewrite (new_leaf_l1 s s' pid i j t pa) in He by done. by eapply uses_table.
      * rewrite (new_leaf_entry s s' pid i j t pa) in He by done. case_decide as Hd.
        { destruct Hd as [-> ->]. subst e. rewrite next_leaf in * by done. by right. }
        left. by eapply uses_data.
    + assert (root_of s' pid r) as Hr1 by by apply Hroot.
      intros [[r' Hr'|r' i' e Hr' Hi He ?|r' i' j' e Hr' Hi Hj He ??]|(_ & -> & -> & Hpv)];
        try (rewrite (root_det s pid r' r Hr' Hr) in * ).
      * by constructor.
      * eapply uses_table; [done|done| |done]. by rewrite (new_leaf_l1 s s' pid i j t pa).
      * eapply uses_data; [done|done|done| |done|done]. rewrite (new_leaf_entry s s' pid i j t pa) by done.
        case_decide as Hd; [destruct Hd; congruence|done].
      * rewrite <-(next_leaf pa) by done. eapply uses_data; [done|done|done| | |].
        -- rewrite (new_leaf_entry s s' pid i j t pa) by done. by case_decide; [|naive_solver].
        -- pose proof (leaf_pos pa H3). lia.
        -- by rewrite next_leaf.
  - rewrite (same_uses s s') by (done || by eapply new_leaf_same). naive_solver.
Qed.

Lemma new_leaf_aspace s s' pid i j t pa p vpn :
  inv_vm s → new_leaf s s' pid i j t pa → vpn_ok vpn →
  aspace s' p vpn = if decide (p = pid ∧ vpn = i * 1024 + j) then leaf pa else aspace s p vpn.
Proof.
  intros I N Hv. pose proof N as [[Ht Hj0] _ _ _ Hb _ _ _].
  destruct (uses_table_inv s pid i t Ht) as (r & Hr & Hi0 & _ & _).
  destruct (decide (p = pid)) as [->|].
  - apply vpn_idx in Hv as [??]. unfold aspace. rewrite Hb. pose proof Hr as [-> ?].
    case_match eqn:E; [by apply Z.eqb_eq in E|].
    rewrite (new_leaf_entry s s' pid i j t pa) by done.
    unfold idx in *. do 2 case_decide; try done; exfalso; dlia.
  - rewrite decide_False by naive_solver. apply same_aspace; [done|by eapply new_leaf_same|done].
Qed.

Lemma new_leaf_inv s s' pid i j t pa : inv_vm s → new_leaf s s' pid i j t pa → inv_vm s'.
Proof.
  intros I N. pose proof N as [[Ht Hj0] H2 H3 H4 H5 H6 H7 H8].
  destruct (extend_inj s s' pid (Data i j) pa I) as [Ho Hj]; [by rewrite H4| |].
  { intros p k x [?|(-> & -> & -> & [? []]%H8)]%(new_leaf_uses s s' pid i j t pa); [by left|right|done|done].
    by rewrite H4. }
  split; [by rewrite H5; apply inv_base| | |done|done].
  - intros p r i' Hr' Hi. assert (root_of s p r) as Hr by (unfold root_of in *; by rewrite <-H5).
    erewrite (new_leaf_other _ _ _ _ _ _ _ p Root); [|done|done|by constructor|done|congruence].
    by apply (inv_l1 s I p).
  - intros p i' t' j' [Hu|(_ & ? & _)]%(new_leaf_uses s s' pid i j t pa) Hj'; try done.
    destruct (decide ((p, Table i', j') = (pid, Table i, j))) as [[= -> -> ->]|].
    { destruct (uses_table_inv s pid i t Ht) as (r & Hr & _ & _ & ->).
      destruct (uses_table_inv s pid i t' Hu) as (r' & Hr' & _ & _ & ->).
      rewrite (root_det s pid r' r Hr' Hr). by eauto. }
    erewrite new_leaf_other by done. by eapply (inv_l2 s I).
Qed.
End inv.
