(* ===== verification/MemVmSpec.v ===== *)
(** * Page tables: what the operations do

    [grows D pid n s s'] is what an operation on the tables of [pid] may do
    while it adds mappings: it takes at most [n] free pages, which [pid] then
    uses, adds only pages in [D] to those it maps, and leaves every other
    process as it was. *)

From stdpp Require Import gmap.
From S2P Require Import Prelude MemVm MemVmInv.

Section spec.
Context {P : Type} `{PageAllocLaws P}.
Implicit Types s : vm P.

Definition free_pages s : Z := num_free_pages (v_alloc s).

Record grows (D : Z → Prop) (pid : nat) (n : Z) s s' : Prop := {
  gr_inv : inv_vm s';
  gr_satp : v_satp s' = v_satp s;
  gr_other p k a : p ≠ pid → uses s' p k a ↔ uses s p k a;
  gr_aspace p vpn : p ≠ pid → vpn_ok vpn → aspace s' p vpn = aspace s p vpn;
  gr_mono k a : uses s pid k a → uses s' pid k a;
  gr_new k a : uses s' pid k a → uses s pid k a ∨ a ∉ owned (v_alloc s) ∨ D a;
  gr_owned a : a ∈ owned (v_alloc s') →
    a ∈ owned (v_alloc s) ∨ (a ∉ owned (v_alloc s) ∧ ∃ k, uses s' pid k a);
  gr_keep a : a ∈ owned (v_alloc s) → a ∈ owned (v_alloc s');
  gr_count : free_pages s - n ≤ free_pages s';
}.

#[local] Arguments gr_inv {D pid n s s'} _.
#[local] Arguments gr_satp {D pid n s s'} _.
#[local] Arguments gr_other {D pid n s s'} _.
#[local] Arguments gr_aspace {D pid n s s'} _.
#[local] Arguments gr_mono {D pid n s s'} _.
#[local] Arguments gr_new {D pid n s s'} _.
#[local] Arguments gr_owned {D pid n s s'} _.
#[local] Arguments gr_keep {D pid n s s'} _.
#[local] Arguments gr_count {D pid n s s'} _.

Lemma grows_refl D pid n s : inv_vm s → 0 ≤ n → grows D pid n s s.
Proof. intros. split; auto; lia. Qed.

Lemma grows_weaken D pid n n' s s' : grows D pid n s s' → n ≤ n' → grows D pid n' s s'.
Proof. intros [] ?. split; auto. lia. Qed.

Lemma grows_more (D D' : Z → Prop) pid n s s' :
  (∀ a, D a → D' a) → grows D pid n s s' → grows D' pid n s s'.
Proof. intros HD []. split; auto. intros k a Hu. destruct (gr_new0 k a Hu) as [?|[?|?]]; auto. Qed.

Lemma grows_trans D pid n n' s s1 s2 :
  grows D pid n s s1 → grows D pid n' s1 s2 → grows D pid (n + n') s s2.
Proof.
  intros G1 G2. split.
  - apply G2.
  - by rewrite (gr_satp G2), (gr_satp G1).
  - intros p k a Hp. by rewrite (gr_other G2), (gr_other G1).
  - intros p vpn Hp Hv. by rewrite (gr_aspace G2), (gr_aspace G1).
  - intros k a Hu. by apply (gr_mono G2), (gr_mono G1).
  - intros k a [Hu|[Hn|Hd]]%(gr_new G2); [by apply (gr_new G1) in Hu| |by auto].
    right. left. intros Ho. by apply Hn, (gr_keep G1).
  - intros a [Ho|[Hn Hu]]%(gr_owned G2).
    + apply (gr_owned G1) in Ho as [?|[? [k Hu]]]; [by left|].
      right. split; [done|]. exists k. by apply (gr_mono G2).
    + right. split; [|done]. intros Ho. by apply Hn, (gr_keep G1).
  - intros a Ho. by apply (gr_keep G2), (gr_keep G1).
  - pose proof (gr_count G1). pose proof (gr_count G2). lia.
Qed.

Lemma new_root_grows D pid s s' a :
  inv_vm s → new_root s s' pid a → v_satp s' = v_satp s → free_pages s - 1 ≤ free_pages s' →
  grows D pid 1 s s'.
Proof.
  intros I N Hs Hc. pose proof N as [H1 [H2 H2'] H3 H4 H5 H6]. split; try done.
  - by eapply new_root_inv.
  - intros p k x Hp. rewrite (new_root_uses s s' pid a) by done. naive_solver.
  - intros p vpn Hp Hv. by eapply (new_root_aspace s s' pid a).
  - intros k x Hu. apply (new_root_uses s s' pid a); [done|done|by left].
  - intros k x [?|(_ & _ & ->)]%(new_root_uses s s' pid a); auto.
  - intros x. rewrite H3. intros [->%elem_of_singleton|?]%elem_of_union; [right|by left].
    split; [done|]. exists Root. apply (new_root_uses s s' pid a); auto.
  - intros x. rewrite H3. set_solver.
Qed.

Lemma new_table_grows D pid s s' r i a :
  inv_vm s → new_table s s' pid r i a → v_satp s' = v_satp s → free_pages s - 1 ≤ free_pages s' →
  grows D pid 1 s s'.
Proof.
  intros I N Hs Hc. pose proof N as [[Hr Hi] H2 [H3 H3'] H4 H5 H6 H7 H8]. split; try done.
  - by eapply new_table_inv.
  - intros p k x Hp. rewrite (new_table_uses s s' pid r i a) by done. naive_solver.
  - intros p vpn Hp Hv. by eapply (new_table_aspace s s' pid r i a).
  - intros k x Hu. apply (new_table_uses s s' pid r i a); [done|done|by left].
  - intros k x [?|(_ & _ & ->)]%(new_table_uses s s' pid r i a); auto.
  - intros x. rewrite H4. intros [->%elem_of_singleton|?]%elem_of_union; [right|by left].
    split; [done|]. exists (Table i). apply (new_table_uses s s' pid r i a); auto.
  - intros x. rewrite H4. set_solver.
Qed.

Lemma new_leaf_grows (D : Z → Prop) pid s s' i j t pa :
  inv_vm s → new_leaf s s' pid i j t pa → v_satp s' = v_satp s → (private pa i j → D pa) →
  grows D pid 0 s s'.
Proof.
  intros I N Hs Hd. pose proof N as [[Ht Hj0] H2 H3 H4 H5 H6 H7 H8]. split; try done.
  - by eapply new_leaf_inv.
  - intros p k x Hp. rewrite (new_leaf_uses s s' pid i j t pa) by done. naive_solver.
  - intros p vpn Hp Hv. rewrite (new_leaf_aspace s s' pid i j t pa) by done.
    by rewrite decide_False by naive_solver.
  - intros k x Hu. apply (new_leaf_uses s s' pid i j t pa); [done|done|by left].
  - intros k x [?|(_ & _ & -> & ?)]%(new_leaf_uses s s' pid i j t pa); auto.
  - intros x. rewrite H4. by left.
  - intros x. by rewrite H4.
  - unfold free_pages. rewrite H4. lia.
Qed.

(** ** Steps of the operations *)

(** [pmalloc(1)] from [s]. *)
Record fresh_page s s' (a : Z) : Prop := {
  fp_page : is_page a ∧ a ∉ owned (v_alloc s);
  fp_owned : owned (v_alloc s') = {[a]} ∪ owned (v_alloc s);
  fp_base : pid_to_pagetable_base s' = pid_to_pagetable_base s;
  fp_satp : v_satp s' = v_satp s;
  fp_zero x : in_page a x → rd (v_mem s') x = 0;
  fp_mem x : ¬ in_page a x → rd (v_mem s') x = rd (v_mem s) x;
  fp_count : free_pages s' = free_pages s - 1;
}.

Lemma pmalloc_spec s : 0 < free_pages s → wp nofault (in_alloc (pmalloc 1)) (λ a s', fresh_page s s' a) s.
Proof.
  intros Hf. destruct (pmalloc_law (v_alloc s) (v_mem s) Hf) as (a & p & m & E & ? & ? & ? & ? & ? & ?).
  unfold wp, in_alloc. rewrite E. by split.
Qed.

Lemma root_table s s1 pid r i a :
  inv_vm s → root_of s pid r → idx i → rd (v_mem s) (r + 4 * i) = 0 → fresh_page s s1 a →
  new_table s (s1 <| v_mem ::= <[elt r i := table_entry a]> |>) pid r i a.
Proof.
  intros I Hr Hi Hz [[Ha Hn] Ho Hb Hs Hz' Hm Hc].
  destruct (root_page s pid r I Hr) as [Hp Hw].
  rewrite elt_eq, table_entry_eq by (done || by apply page_frame).
  split; cbn [v_mem v_alloc pid_to_pagetable_base set_field]; try done.
  - rewrite rd_insert. by rewrite decide_True.
  - intros x Hx. rewrite rd_insert, decide_False; [by apply Hz'|].
    intros ->. apply in_page_elt in Hx; [by subst|done..].
  - intros x Hx Hne. rewrite rd_insert, decide_False by done. by apply Hm.
Qed.

Lemma aspace_table s pid i t j :
  inv_vm s → uses s pid (Table i) t → idx j →
  aspace s pid (i * 1024 + j) = rd (v_mem s) (t + 4 * j).
Proof.
  intros I Hu Hj. destruct (uses_table_inv s pid i t Hu) as (r & [Hr Hn] & Hi & He & ->).
  unfold aspace, entry. rewrite Hr. unfold idx in *.
  replace ((i * 1024 + j) / 1024) with i by dlia.
  replace ((i * 1024 + j) mod 1024) with j by dlia.
  case_match eqn:E; [by apply Z.eqb_eq in E|]. case_match eqn:E2; [by apply Z.eqb_eq in E2|done].
Qed.

Lemma land_fff x : Z.land x 0xFFF = x mod 4096.
Proof. exact (land_low x 12 ltac:(lia)). Qed.
Lemma idx_shift va : 0 ≤ va < 2 ^ 32 → Z.shiftr va 22 = va / 2 ^ 22 ∧ idx (va / 2 ^ 22).
Proof. intros. rewrite Z.shiftr_div_pow2 by lia. unfold idx. split; [done|dlia]. Qed.
Lemma idx_mask va :
  0 ≤ va < 2 ^ 32 → Z.land (Z.shiftr va 12) 0x3FF = va / 2 ^ 12 mod 1024 ∧ idx (va / 2 ^ 12 mod 1024).
Proof.
  intros. rewrite (land_low _ 10), Z.shiftr_div_pow2 by lia. unfold idx. split; [done|dlia].
Qed.

(** Setting one entry. *)
Lemma set_leaf s pid i j t pa :
  inv_vm s → uses s pid (Table i) t → idx j → rd (v_mem s) (t + 4 * j) = 0 → frame pa →
  (private pa i j → is_page pa ∧ pa ∈ owned (v_alloc s) ∧ ∀ p k, ¬ uses s p k pa) →
  new_leaf s (s <| v_mem ::= <[t + 4 * j := leaf pa]> |>) pid i j t pa.
Proof.
  intros. split; try done; cbn [v_mem set_field].
  - rewrite rd_insert. by rewrite decide_True.
  - intros x Hx. by rewrite rd_insert, decide_False.
Qed.

(** [f] with the pages of a region mapped to themselves. *)
Definition region : Type := Z * Z.
Definition in_region (r : region) (vpn : Z) : Prop := r.1 / 4096 ≤ vpn < r.1 / 4096 + r.2.
#[export] Instance in_region_dec r vpn : Decision (in_region r vpn).
Proof. unfold in_region. apply _. Defined.
Definition identity (r : region) (f : Z → Z) : Z → Z := λ vpn,
  if decide (in_region r vpn) then leaf (vpn * 4096) else f vpn.

Lemma identity_shared a i j : a = i * 2 ^ 22 + j * 2 ^ 12 → ¬ private a i j.
Proof. intros ->. unfold private, frees_page. by rewrite Z.eqb_refl. Qed.

Lemma fill_spec D pid i t addr j n k s :
  inv_vm s → uses s pid (Table i) t → idx i → addr = i * 2 ^ 22 + j * 2 ^ 12 → 0 ≤ j → 0 ≤ k →
  j + k + Z.of_nat n ≤ 1024 →
  (∀ l, k ≤ l < k + Z.of_nat n → aspace s pid (i * 1024 + j + l) = 0) →
  wp nofault (fill_region t addr LEAF_FLAG j n k) (λ _ s',
    grows D pid 0 s s' ∧ ∀ vpn, vpn_ok vpn →
      aspace s' pid vpn = identity (addr + k * 4096, Z.of_nat n) (aspace s pid) vpn) s.
Proof.
  revert k s. induction n as [|n IH]; intros k s I Ht Hi Ha Hj Hk Hn Hz; cbn [fill_region].
  { apply wp_ret. split; [by apply grows_refl|]. intros vpn _. unfold identity, in_region.
    rewrite decide_False; [done|]. cbn. lia. }
  destruct (inv_owned s I _ _ _ Ht) as [Hp _].
  assert (idx (j + k)) as Hjk by (unfold idx; lia).
  assert (wrap32 (j + k) = j + k) as -> by (unfold wrap32; rewrite Z.mod_small; lia).
  assert (frame (addr + k * 4096)) as Hf by (unfold frame, idx in *; dlia).
  assert (rd (v_mem s) (t + 4 * (j + k)) = 0) as Hold.
  { rewrite <-(aspace_table s pid i t) by done. rewrite <-(Hz k) by lia. f_equal. lia. }
  apply wp_bind, wp_get. rewrite elt_eq, Hold by done. apply wp_bind, wp_ret.
  unfold PAGE_SIZE. replace (wrap32 (addr + k * 4096)) with (addr + k * 4096)
    by (unfold frame in Hf; unfold wrap32; rewrite Z.mod_small; lia).
  rewrite leaf_entry by done.
  assert (¬ private (addr + k * 4096) i (j + k)) as Hs by (apply identity_shared; lia).
  pose proof (set_leaf s pid i (j + k) t (addr + k * 4096) I Ht Hjk Hold Hf ltac:(done)) as N.
  apply wp_bind, wp_mod. set (s1 := set_field v_mem _ s) in *.
  assert (grows D pid 0 s s1) as G by by eapply new_leaf_grows.
  eapply wp_mono; [|apply (IH (k + 1) s1); try lia; [apply (gr_inv G)|by apply (gr_mono G)|done..|]].
  - intros _ s' [G' Hs']. split; [by apply (grows_trans D pid 0 0 s s1)|].
    intros vpn Hv. rewrite Hs' by done. unfold identity.
    rewrite (new_leaf_aspace s s1 pid i (j + k) t (addr + k * 4096)) by done.
    unfold in_region, frame, idx in *. cbn [fst snd].
    repeat case_decide; try done; first [by f_equal; dlia|exfalso; dlia].
  - intros l Hl. rewrite (new_leaf_aspace s s1 pid i (j + k) t (addr + k * 4096)).
    + rewrite decide_False by lia. apply Hz. lia.
    + done.
    + done.
    + unfold vpn_ok, idx in *. lia.
Qed.

Definition region_ok (r : region) : Prop :=
  frame r.1 ∧ 0 ≤ r.2 ∧ r.1 / 4096 mod 1024 + r.2 ≤ 1024.

Lemma base_spec s pid r :
  root_of s (Z.to_nat pid) r → 0 ≤ pid → base_of pid s = Ok (r, s).
Proof. intros [Hr _] ?. unfold base_of. rewrite Hr. by destruct (Z.ltb_spec pid 0); [lia|]. Qed.

Lemma base_wp E s pid r (Q : Z → vm P → Prop) :
  root_of s (Z.to_nat pid) r → 0 ≤ pid → Q r s → wp E (base_of pid) Q s.
Proof. intros. unfold wp. by erewrite base_spec. Qed.

(** A first-level entry, allocated where it is missing. *)
Lemma alloc_table D pid r i s :
  inv_vm s → root_of s pid r → idx i → rd (v_mem s) (r + 4 * i) = 0 → 0 < free_pages s →
  wp nofault (l2_pa ← in_alloc (pmalloc 1); store (r + 4 * i) (table_entry l2_pa);; mret l2_pa)
    (λ t s', new_table s s' pid r i t ∧ grows D pid 1 s s') s.
Proof.
  intros I Hr Hi Hz Hf. apply wp_bind. eapply wp_mono; [|by apply pmalloc_spec].
  intros a s1 F. apply wp_bind, wp_mod, wp_ret.
  pose proof (root_table s s1 pid r i a I Hr Hi Hz F) as N.
  rewrite elt_eq in N by (done || by eapply root_page). split; [done|].
  eapply new_table_grows; [done|done|by destruct F|].
  unfold free_pages. cbn. pose proof (fp_count _ _ _ F). unfold free_pages in *. lia.
Qed.

Lemma new_table_uses_a s s' pid r i a :
  inv_vm s → new_table s s' pid r i a → uses s' pid (Table i) a.
Proof. intros I N. apply (new_table_uses s s' pid r i a); auto. Qed.

Lemma root_kept D pid n s s' r : grows D pid n s s' → root_of s pid r → root_of s' pid r.
Proof.
  intros G Hr. assert (uses s' pid Root r) as Hu by by apply (gr_mono G); constructor.
  by inversion Hu.
Qed.

Lemma setup_spec D pid addr npages r s :
  inv_vm s → root_of s (Z.to_nat pid) r → 0 ≤ pid → region_ok (addr, npages) → 0 < free_pages s →
  (∀ vpn, in_region (addr, npages) vpn → aspace s (Z.to_nat pid) vpn = 0) →
  wp nofault (setup_identity_region pid addr npages LEAF_FLAG) (λ _ s',
    grows D (Z.to_nat pid) 1 s s' ∧ ∀ vpn, vpn_ok vpn →
      aspace s' (Z.to_nat pid) vpn = identity (addr, npages) (aspace s (Z.to_nat pid)) vpn) s.
Proof.
  intros I Hr Hpid ([Ha Ha'] & Hn & Hn') Hf Hz. cbn [fst snd] in *. unfold setup_identity_region.
  set (p := Z.to_nat pid) in *.
  destruct (root_page s p r I Hr) as [Hpg _]. pose proof Hr as [_ Hne].
  destruct (idx_shift addr Ha') as [E1 Hi]. destruct (idx_mask addr Ha') as [E2 Hj].
  change (2 ^ 12) with 4096 in *. rewrite land_fff, E1, E2, Ha.
  assert (addr = addr / 2 ^ 22 * 2 ^ 22 + addr / 4096 mod 1024 * 2 ^ 12) as Hsplit by dlia.
  assert (wrap32 npages = npages) as -> by (unfold wrap32, idx in *; rewrite Z.mod_small; lia).
  rewrite (proj2 (Z.leb_le npages 1024)) by (unfold idx in *; lia).
  apply wp_bind, wp_ret, wp_bind, wp_ret, wp_bind, (base_wp _ s pid r); [done..|].
  rewrite (proj2 (Z.eqb_neq r 0)) by done.
  apply wp_bind, wp_ret, wp_bind, wp_get, wp_bind. rewrite elt_eq by done.
  assert (∀ t s1, grows D p 1 s s1 → uses s1 p (Table (addr / 2 ^ 22)) t →
    (∀ vpn, vpn_ok vpn → aspace s1 p vpn = aspace s p vpn) →
    wp nofault (fill_region t addr LEAF_FLAG (addr / 4096 mod 1024) (Z.to_nat npages) 0) (λ _ s',
      grows D p 1 s s' ∧ ∀ vpn, vpn_ok vpn →
        aspace s' p vpn = identity (addr, npages) (aspace s p) vpn) s1) as Hfill.
  { intros t s1 G Ht Hsame. unfold idx in *. eapply wp_mono.
    2: { apply (fill_spec D p (addr / 2 ^ 22)); try done; try lia; [apply (gr_inv G)|].
         intros l Hl. rewrite Hsame by (unfold vpn_ok; lia). apply Hz.
         unfold in_region. cbn. dlia. }
    intros _ s' [G' Hs']. split; [by eapply (grows_trans D p 1 0)|].
    intros vpn Hv. rewrite Hs' by done. unfold identity. rewrite Hsame by done.
    rewrite Z2Nat.id by lia. by rewrite Z.mul_0_l, Z.add_0_r. }
  destruct (Z.eqb_spec (rd (v_mem s) (r + 4 * (addr / 2 ^ 22))) 0) as [Hz0|Hz0].
  - eapply wp_mono; [|by eapply (alloc_table D p)]. intros t s1 [N G].
    apply Hfill; [done|by eapply new_table_uses_a|]. intros vpn Hv. by eapply new_table_aspace.
  - destruct (l1_table s p r _ I Hr Hi Hz0) as (t & Ht & _ & Et & Hu). rewrite Et.
    rewrite tab_valid, next_tab by by apply page_frame. apply wp_bind, wp_ret, wp_ret.
    by apply Hfill; [apply grows_refl|..].
Qed.

Lemma walk_spec D pid r va s :
  inv_vm s → root_of s pid r → 0 ≤ va < 2 ^ 32 → 0 < free_pages s →
  wp nofault (walk r va 1) (λ a s', grows D pid 1 s s' ∧
    (∀ vpn, vpn_ok vpn → aspace s' pid vpn = aspace s pid vpn) ∧
    ∃ t, uses s' pid (Table (va / 2 ^ 22)) t ∧ a = t + 4 * (va / 2 ^ 12 mod 1024)) s.
Proof.
  intros I Hr Hva Hf. unfold walk.
  destruct (root_page s pid r I Hr) as [Hpg _]. pose proof Hr as [_ Hne].
  destruct (idx_shift va Hva) as [-> Hi]. destruct (idx_mask va Hva) as [-> Hj].
  rewrite (proj2 (Z.eqb_neq r 0)) by done. apply wp_bind, wp_ret, wp_bind, wp_get.
  rewrite elt_eq by done. apply wp_bind.
  assert (∀ t s1, uses s1 pid (Table (va / 2 ^ 22)) t → rd (v_mem s1) (r + 4 * (va / 2 ^ 22)) = tab t →
    is_page t → grows D pid 1 s s1 →
    (∀ vpn, vpn_ok vpn → aspace s1 pid vpn = aspace s pid vpn) →
    wp nofault (e ← load (r + 4 * (va / 2 ^ 22));
                ASSERT (negb (Z.land e FLAG_NEXT_LEVEL =? 0));;
                mret (elt (next_table e) (va / 2 ^ 12 mod 1024)))
     (λ a s', grows D pid 1 s s' ∧ (∀ vpn, vpn_ok vpn → aspace s' pid vpn = aspace s pid vpn) ∧
        ∃ t, uses s' pid (Table (va / 2 ^ 22)) t ∧ a = t + 4 * (va / 2 ^ 12 mod 1024)) s1) as Hend.
  { intros t s1 Hu Et Ht G Hs. apply wp_bind, wp_get. rewrite Et, tab_valid, next_tab by by apply page_frame.
    apply wp_bind, wp_ret, wp_ret. rewrite elt_eq by done. by eauto. }
  destruct (Z.eqb_spec (rd (v_mem s) (r + 4 * (va / 2 ^ 22))) 0) as [Hz0|Hz0].
  - change (negb (1 =? 0)) with true. apply wp_bind. eapply wp_mono; [|by apply pmalloc_spec].
    intros a s1 F. pose proof (root_table s s1 pid r _ a I Hr Hi Hz0 F) as N.
    rewrite elt_eq in N by done. apply wp_mod.
    assert (grows D pid 1 s (s1 <| v_mem ::= <[r + 4 * (va / 2 ^ 22) := table_entry a]> |>)) as G.
    { eapply new_table_grows; [done|done|by destruct F|].
      pose proof (fp_count _ _ _ F). unfold free_pages in *. cbn. lia. }
    eapply Hend; [by eapply new_table_uses_a|by apply N|by apply N|done|].
    intros vpn Hv. by eapply new_table_aspace.
  - apply wp_ret. destruct (l1_table s pid r _ I Hr Hi Hz0) as (t & Ht & _ & Et & Hu).
    by eapply Hend; [..|apply grows_refl|].
Qed.

(** ** A new page table, and a mapping *)

Definition identities (l : list region) (f : Z → Z) : Z → Z := foldl (λ f r, identity r f) f l.

Fixpoint regions_fit (f : Z → Z) (l : list region) : Prop :=
  match l with
  | [] => True
  | r :: l => region_ok r ∧ (∀ vpn, in_region r vpn → f vpn = 0) ∧ regions_fit (identity r f) l
  end.

Definition setup_regions (pid : Z) (l : list region) : V unit :=
  foldr (λ r m, setup_identity_region pid r.1 r.2 LEAF_FLAG;; m) (mret tt) l.

Lemma region_vpn r vpn : region_ok r → in_region r vpn → vpn_ok vpn.
Proof. unfold region_ok, in_region, vpn_ok, frame. dlia. Qed.

Lemma identity_ext r f g vpn : f vpn = g vpn → identity r f vpn = identity r g vpn.
Proof. unfold identity. by case_decide. Qed.

Lemma setup_regions_spec D pid r l f s :
  inv_vm s → root_of s (Z.to_nat pid) r → 0 ≤ pid → Z.of_nat (length l) ≤ free_pages s →
  (∀ vpn, vpn_ok vpn → aspace s (Z.to_nat pid) vpn = f vpn) → regions_fit f l →
  wp nofault (setup_regions pid l) (λ _ s',
    grows D (Z.to_nat pid) (Z.of_nat (length l)) s s' ∧
    ∀ vpn, vpn_ok vpn → aspace s' (Z.to_nat pid) vpn = identities l f vpn) s.
Proof.
  revert f s. induction l as [|[a n] l IH]; intros f s I Hr Hp Hf Hs Hok; cbn [setup_regions foldr].
  { apply wp_ret. split; [by apply grows_refl|done]. }
  destruct Hok as (Hok & Hz & Hfit). cbn [length fst snd] in *.
  apply wp_bind. eapply wp_mono.
  2: { apply (setup_spec D pid a n r); try done; [lia|].
       intros vpn Hv. rewrite Hs by by eapply region_vpn. by apply Hz. }
  intros _ s1 [G1 Hs1]. eapply wp_mono.
  2: { apply (IH (identity (a, n) f) s1); try done.
       - apply (gr_inv G1).
       - by eapply root_kept.
       - pose proof (gr_count G1). lia.
       - intros vpn Hv. rewrite Hs1 by done. by apply identity_ext, Hs. }
  intros _ s2 [G2 Hs2]. split; [|done].
  eapply grows_weaken; [by eapply grows_trans|lia].
Qed.

(** The regions a new page table maps to themselves. *)
Definition regions (pid : Z) : list region :=
  if pid <? USER_PID_START
  then [(RAM_START, 512); (APPS_PAGES_BASE, 1024); (CLINT_BASE, 16); (UART_BASE, 1);
        (SDHCI_BASE, 1); (ETH_CTL_BASE, 32); (FLASH_ROM_BASE, 1024); (SHELL_WORK_DIR, 1)]
  else [(SHELL_WORK_DIR, 1)].
Definition fresh_space (pid : Z) : Z → Z := identities (regions pid) (λ _, 0).

Lemma regions_fit_pid pid : regions_fit (λ _, 0) (regions pid).
Proof.
  unfold regions, RAM_START, APPS_PAGES_BASE, CLINT_BASE, UART_BASE, SDHCI_BASE, ETH_CTL_BASE,
    FLASH_ROM_BASE, SHELL_WORK_DIR.
  destruct (pid <? USER_PID_START); cbn [regions_fit]; unfold region_ok, frame, identity, in_region;
    cbn [fst snd]; split_and!; try done; intros vpn Hv;
    repeat (rewrite decide_False by dlia); done.
Qed.

Lemma regions_length pid : Z.of_nat (length (regions pid)) ≤ 8.
Proof. unfold regions. by destruct (pid <? USER_PID_START). Qed.

Lemma new_page_table_run pid s :
  new_page_table pid s =
  (root ← in_alloc (pmalloc 1);
   modM (λ s, s <| pid_to_pagetable_base ::= <[Z.to_nat pid := root]> |>);;
   setup_regions pid (regions pid);; mret root) s.
Proof.
  unfold new_page_table, regions. destruct (pid <? USER_PID_START);
    cbn [setup_regions foldr fst snd]; unfold mbind, M_bind, modM, mret, M_ret;
    repeat (case_match; try done); simplify_eq; done.
Qed.

Lemma new_page_table_spec D pid s :
  inv_vm s → 0 ≤ pid → pid_to_pagetable_base s !! Z.to_nat pid = Some 0 → 9 ≤ free_pages s →
  wp nofault (new_page_table pid) (λ r s', grows D (Z.to_nat pid) 9 s s' ∧
    root_of s' (Z.to_nat pid) r ∧
    ∀ vpn, vpn_ok vpn → aspace s' (Z.to_nat pid) vpn = fresh_space pid vpn) s.
Proof.
  intros I Hp Hz Hf. unfold wp. rewrite new_page_table_run. apply wp_bind.
  eapply wp_mono; [|apply pmalloc_spec; lia]. intros a s1 F. apply wp_bind, wp_mod.
  set (s2 := set_field pid_to_pagetable_base _ s1).
  assert (new_root s s2 (Z.to_nat pid) a) as N.
  { destruct F as [? ? Hb ? ? ? ?]. split; try done. by subst s2; cbn; rewrite Hb. }
  assert (grows D (Z.to_nat pid) 1 s s2) as G.
  { eapply new_root_grows; [done|done|by destruct F|].
    pose proof (fp_count _ _ _ F). unfold free_pages in *. cbn. lia. }
  pose proof (regions_length pid). pose proof (gr_count G).
  apply wp_bind. eapply wp_mono.
  2: { apply (setup_regions_spec D pid a (regions pid) (λ _, 0) s2); [apply (gr_inv G)| |done|lia| |].
       - by eapply new_root_root.
       - intros vpn Hv. by eapply (new_root_aspace s s2 _ a 0%nat).
       - apply regions_fit_pid. }
  intros _ s3 [G3 Hs3]. apply wp_ret. split_and!.
  - eapply grows_weaken; [by eapply grows_trans|lia].
  - eapply root_kept; [done|]. by eapply new_root_root.
  - done.
Qed.

(** The address space before the mapping: that of a new table where there is
    none yet. *)
Definition space_before s (pid : Z) : Z → Z :=
  if bool_decide (pid_to_pagetable_base s !! Z.to_nat pid = Some 0)
  then fresh_space pid else aspace s (Z.to_nat pid).

Definition pa_of (ppage_id : Z) : Z := ppage_id * PAGE_SIZE + APPS_PAGES_BASE.

(** The caller of [page_table_map] passes a page it holds and nobody uses, for
    a virtual page that is free. *)
Record can_map s (pid vpage_no ppage_id : Z) : Prop := {
  cm_pid : 0 < pid ≤ 16;
  cm_vpn : vpn_ok vpage_no;
  cm_page : 0 ≤ ppage_id < 1024;
  cm_held : pa_of ppage_id ∈ owned (v_alloc s);
  cm_unused p k : ¬ uses s p k (pa_of ppage_id);
  cm_empty : space_before s pid vpage_no = 0;
  cm_free : 10 ≤ free_pages s;
}.

Definition Mapped s (pid vpage_no ppage_id : Z) s' : Prop :=
  grows (λ a, a = pa_of ppage_id) (Z.to_nat pid) 10 s s' ∧
  (∃ r, root_of s' (Z.to_nat pid) r) ∧
  ∀ vpn, vpn_ok vpn → aspace s' (Z.to_nat pid) vpn =
    if decide (vpn = vpage_no) then leaf (pa_of ppage_id) else space_before s pid vpn.

Lemma base_some s pid : inv_vm s → 0 ≤ pid ≤ 16 → ∃ r, pid_to_pagetable_base s !! Z.to_nat pid = Some r.
Proof. intros I Hp. apply lookup_lt_is_Some. rewrite (inv_base s I). lia. Qed.

Lemma pid_ok_true pid : 0 < pid ≤ 16 → pid_ok pid = true.
Proof. intros. unfold pid_ok, MAX_NPROCESS. apply andb_true_iff. lia. Qed.

(** The last part of [page_table_map], with the root in place. *)
Lemma map_entry pid v pg r s0 s :
  can_map s0 pid v pg → grows (λ _, False) (Z.to_nat pid) 9 s0 s → root_of s (Z.to_nat pid) r →
  (∀ vpn, vpn_ok vpn → aspace s (Z.to_nat pid) vpn = space_before s0 pid vpn) →
  wp nofault (l2_pte ← walk r (v * PAGE_SIZE) 1; e ← load l2_pte; ASSERT (e =? 0);;
              store l2_pte (Z.lor (Z.shiftr (pa_of pg) 2) LEAF_FLAG)) (λ _ s', Mapped s0 pid v pg s') s.
Proof.
  intros C G Hr Hs. pose proof (cm_vpn _ _ _ _ C) as Hv. pose proof (cm_page _ _ _ _ C) as Hpg.
  pose proof (cm_free _ _ _ _ C) as Hf. pose proof (gr_count G) as Hc. set (p := Z.to_nat pid) in *.
  apply wp_bind. eapply wp_mono.
  2: { apply (walk_spec (λ _, False) p); [apply (gr_inv G)|done| |lia].
       unfold vpn_ok, PAGE_SIZE in *. lia. }
  intros a s1 (G1 & Hs1 & t & Ht & ->). pose proof (grows_trans _ _ _ _ _ _ _ G G1) as G'.
  unfold PAGE_SIZE in Ht |- *. destruct (vpn_idx v Hv) as [Hi Hj].
  replace (v * 4096 / 2 ^ 22) with (v / 1024) in Ht by (unfold vpn_ok in Hv; dlia).
  replace (v * 4096 / 2 ^ 12) with v by (unfold vpn_ok in Hv; dlia).
  assert (v / 1024 * 1024 + v mod 1024 = v) as Hsplit by dlia.
  assert (rd (v_mem s1) (t + 4 * (v mod 1024)) = 0) as Hz.
  { rewrite <-(aspace_table s1 p (v / 1024)) by (done || apply (gr_inv G1)).
    rewrite Hsplit, Hs1, Hs by done. apply (cm_empty _ _ _ _ C). }
  assert (frame (pa_of pg) ∧ is_page (pa_of pg)) as [Hfr Hpp].
  { unfold frame, is_page, pa_of, PAGE_SIZE, APPS_PAGES_BASE, RAM_END. dlia. }
  apply wp_bind, wp_get. rewrite Hz. apply wp_bind, wp_ret, wp_mod. rewrite leaf_entry by done.
  assert (private (pa_of pg) (v / 1024) (v mod 1024) →
    is_page (pa_of pg) ∧ pa_of pg ∈ owned (v_alloc s1) ∧ ∀ q k, ¬ uses s1 q k (pa_of pg)) as Hfree.
  { intros _. split; [done|]. split; [apply (gr_keep G'), C|].
    intros q k Hu. destruct (decide (q = p)) as [->|].
    - apply (gr_new G') in Hu as [Hu|[Hu|[]]]; [by eapply (cm_unused _ _ _ _ C)|]. by apply Hu, C.
    - apply (gr_other G') in Hu; [|done]. by eapply (cm_unused _ _ _ _ C). }
  pose proof (set_leaf s1 p _ _ t (pa_of pg) (gr_inv G1) Ht Hj Hz Hfr Hfree) as N.
  set (s2 := set_field v_mem _ s1) in *.
  assert (grows (λ a, a = pa_of pg) p 0 s1 s2) as G2 by (eapply new_leaf_grows; by try apply (gr_inv G1)).
  split_and!.
  - apply (grows_weaken _ _ (9 + 1 + 0)); [|done].
    eapply grows_trans; [|done]. by eapply grows_more; [|done].
  - exists r. exact (root_kept _ _ _ _ _ _ G2 (root_kept _ _ _ _ _ _ G1 Hr)).
  - intros vpn Hvp. rewrite (new_leaf_aspace s1 s2 p (v / 1024) (v mod 1024) t (pa_of pg)) by (done || apply (gr_inv G1)).
    rewrite Hsplit, Hs1, Hs by done. do 2 case_decide; naive_solver.
Qed.

Lemma page_table_map_spec pid v pg s :
  inv_vm s → can_map s pid v pg →
  wp nofault (page_table_map pid v pg) (λ _ s', Mapped s pid v pg s') s.
Proof.
  intros I C. pose proof C as [Hp Hv Hpg _ _ _ Hf]. unfold page_table_map.
  rewrite pid_ok_true by done. apply wp_bind, wp_ret.
  replace (wrap32 (v * PAGE_SIZE)) with (v * PAGE_SIZE)
    by (unfold vpn_ok, wrap32, PAGE_SIZE in *; rewrite Z.mod_small; lia).
  replace (wrap32 (pg * PAGE_SIZE + APPS_PAGES_BASE)) with (pa_of pg)
    by (unfold pa_of, wrap32, PAGE_SIZE, APPS_PAGES_BASE; rewrite Z.mod_small; lia).
  destruct (base_some s pid I) as [r Hr]; [lia|].
  apply wp_bind. unfold wp at 1. unfold base_of. rewrite Hr, (proj2 (Z.ltb_ge pid 0)) by lia.
  apply wp_bind. destruct (Z.eqb_spec r 0) as [->|Hne].
  - eapply wp_mono; [|apply (new_page_table_spec (λ _, False)); [done|lia|done|lia]].
    intros r s1 (G & Hr1 & Hs1). eapply map_entry; [done..|].
    intros vpn Hvp. rewrite Hs1 by done. unfold space_before. by rewrite bool_decide_true.
  - apply wp_ret. eapply map_entry; [done|by apply grows_refl|by split|].
    intros vpn Hvp. unfold space_before. rewrite bool_decide_false; [done|congruence].
Qed.
End spec.
