(* ===== verification/MemVmFree.v ===== *)
(** * Page tables: page_table_free

    The two loops of [page_table_free] visit the entries in order; [freed i j]
    are the pages given back when the loops have come to entry [j] of table
    [i].  No page is given back twice and no entry is read after its page was
    given back, since every page is used in one way only. *)

From stdpp Require Import gmap.
From S2P Require Import Prelude MemVm MemVmInv MemVmSpec.

Section free.
Context {P : Type} `{PageAllocLaws P}.
Implicit Types s : vm P.

Definition visited (i j : Z) (k : pslot) : Prop :=
  match k with
  | Root => False
  | Table i' => i' < i
  | Data i' j' => i' < i ∨ (i' = i ∧ j' < j)
  end.
Definition freed s0 (p : nat) (i j a : Z) : Prop := ∃ k, visited i j k ∧ uses s0 p k a.

Record Freeing s0 (F : Z → Prop) s : Prop := {
  fr_owned a : a ∈ owned (v_alloc s) ↔ a ∈ owned (v_alloc s0) ∧ ¬ F a;
  fr_mem x : (∀ a, F a → ¬ in_page a x) → rd (v_mem s) x = rd (v_mem s0) x;
  fr_base : pid_to_pagetable_base s = pid_to_pagetable_base s0;
  fr_satp : v_satp s = v_satp s0;
}.

Lemma freeing_iff s0 (F F' : Z → Prop) s : (∀ a, F a ↔ F' a) → Freeing s0 F s → Freeing s0 F' s.
Proof.
  intros HF []. split; try done.
  - intros a. by rewrite fr_owned0, HF.
  - intros x Hx. apply fr_mem0. intros a Ha. by apply Hx, HF.
Qed.

Lemma pfree_step s0 F s p k a :
  inv_vm s0 → Freeing s0 F s → uses s0 p k a → ¬ F a →
  wp nofault (in_alloc (pfree a)) (λ _ s', Freeing s0 (λ x, F x ∨ x = a) s') s.
Proof.
  intros I [Ho Hm Hb Hs] Hu Hn. destruct (inv_owned s0 I p k a Hu) as [Hp Hin].
  destruct (pfree_law (v_alloc s) (v_mem s) a) as (p' & m' & E & Ho' & _ & Hm'); [by apply Ho|done|].
  unfold wp, in_alloc. rewrite E. split; cbn; try done.
  - intros x. rewrite Ho', elem_of_difference, Ho, elem_of_singleton. tauto.
  - intros x Hx. rewrite Hm' by (apply Hx; by right). apply Hm. intros b Hb'. apply Hx. by left.
Qed.

Lemma read_kept s0 p i j s k b l :
  inv_vm s0 → Freeing s0 (freed s0 p i j) s → uses s0 p k b → ¬ visited i j k → idx l →
  rd (v_mem s) (b + 4 * l) = rd (v_mem s0) (b + 4 * l).
Proof.
  intros I Fr Hu Hv Hl. apply (fr_mem _ _ _ Fr). intros a (k' & Hk' & Hu') Hin.
  destruct (inv_owned s0 I _ _ _ Hu) as [? _]. destruct (inv_owned s0 I _ _ _ Hu') as [? _].
  apply in_page_elt in Hin as ->; [|done..].
  by destruct (inv_inj s0 I _ _ _ _ _ Hu Hu') as [_ ->].
Qed.

Lemma not_freed s0 p i j k a : inv_vm s0 → uses s0 p k a → ¬ visited i j k → ¬ freed s0 p i j a.
Proof.
  intros I Hu Hv (k' & Hk' & Hu'). by destruct (inv_inj s0 I _ _ _ _ _ Hu Hu') as [_ ->].
Qed.

Lemma uses_data_inv s p i j a :
  uses s p (Data i j) a → ∃ r, root_of s p r ∧ idx i ∧ idx j ∧ entry (v_mem s) r i j ≠ 0 ∧
    a = next_table (entry (v_mem s) r i j) ∧ private a i j.
Proof. inversion 1; subst. by eauto 10. Qed.

Lemma va_eq i j : idx i → idx j →
  Z.lor (wrap32 (Z.shiftl i 22)) (Z.shiftl j 12) = i * 2 ^ 22 + j * 2 ^ 12.
Proof.
  unfold idx, wrap32. intros. rewrite !Z.shiftl_mul_pow2 by lia.
  rewrite Z.mod_small by lia. apply lor_add; lia.
Qed.

(** What one more entry adds to the pages given back. *)
Lemma freed_entry s0 p r i j t :
  inv_vm s0 → root_of s0 p r → uses s0 p (Table i) t → idx j →
  ∀ a, freed s0 p i (j + 1) a ↔ freed s0 p i j a ∨ uses s0 p (Data i j) a.
Proof.
  intros I Hr Ht Hj a. split.
  - intros (k & Hk & Hu). destruct k as [|i'|i' j']; [done|left; by exists (Table i')|].
    destruct (decide (i' = i ∧ j' = j)) as [[-> ->]|]; [by right|].
    left. exists (Data i' j'). split; [|done]. cbn in *. lia.
  - intros [(k & Hk & Hu)|Hu]; [exists k|exists (Data i j); cbn; split; [lia|done]].
    split; [|done]. destruct k; cbn in *; [done|lia|lia].
Qed.

Lemma free_l2_spec s0 p r i t n j s :
  inv_vm s0 → root_of s0 p r → uses s0 p (Table i) t → 0 ≤ j → j + Z.of_nat n = 1024 →
  Freeing s0 (freed s0 p i j) s →
  wp nofault (free_l2 i t n j) (λ _ s', Freeing s0 (freed s0 p i 1024) s') s.
Proof.
  intros I Hr Ht. revert j s. induction n as [|n IH]; intros j s Hj Hn Fr; cbn [free_l2].
  { apply wp_ret. by replace 1024 with j by lia. }
  assert (idx j) as Hjd by (unfold idx; lia).
  destruct (inv_owned s0 I _ _ _ Ht) as [Hpg _].
  destruct (uses_table_inv s0 p i t Ht) as (r' & Hr' & Hi & He & Et).
  pose proof (root_det s0 p r' r Hr' Hr) as ->.
  assert (entry (v_mem s0) r i j = rd (v_mem s0) (t + 4 * j)) as Hent.
  { unfold entry. rewrite (proj2 (Z.eqb_neq _ 0)) by done. by rewrite <-Et. }
  assert (∀ s', Freeing s0 (λ a, freed s0 p i j a ∨ uses s0 p (Data i j) a) s' →
    wp nofault (free_l2 i t n (j + 1)) (λ _ s', Freeing s0 (freed s0 p i 1024) s') s') as Hnext.
  { intros s' Fr'. apply IH; [lia|lia|]. eapply freeing_iff; [|exact Fr'].
    intros a. symmetry. by eapply freed_entry. }
  assert ((∀ a, ¬ uses s0 p (Data i j) a) →
    Freeing s0 (λ a, freed s0 p i j a ∨ uses s0 p (Data i j) a) s) as Hskip.
  { intros Hno. eapply freeing_iff; [|exact Fr]. intros a. specialize (Hno a). tauto. }
  apply wp_bind, wp_get. rewrite elt_eq by done.
  rewrite (read_kept s0 p i j s (Table i)) by (done || cbn; lia). apply wp_bind.
  destruct (inv_l2 s0 I p i t j Ht Hjd) as [Hz|(pa & Hf & El)].
  - rewrite Hz. apply wp_ret, Hnext, Hskip. intros a (r' & Hr1 & _ & _ & Hne & _)%uses_data_inv.
    rewrite (root_det s0 p r' r Hr1 Hr) in Hne. congruence.
  - rewrite El, leaf_valid, next_leaf, va_eq by done. change (1 =? 0) with false.
    destruct (frees_page pa (i * 2 ^ 22 + j * 2 ^ 12)) eqn:Hfp.
    + assert (uses s0 p (Data i j) pa) as Hu.
      { rewrite <-(next_leaf pa) by done. eapply uses_data; [done|done|done|congruence| |by rewrite next_leaf].
        pose proof (leaf_pos pa Hf). lia. }
      eapply wp_mono; [|eapply pfree_step; [done|done|done|]].
      * intros [] s' Fr'. apply Hnext. eapply freeing_iff; [|exact Fr'].
        intros a. split; [intros [?| ->]; auto|intros [?|(r' & Hr1 & _ & _ & _ & -> & _)%uses_data_inv]; auto].
        right. rewrite (root_det s0 p r' r Hr1 Hr), Hent, El. by apply next_leaf.
      * eapply not_freed; [done..|]. cbn. lia.
    + apply wp_ret, Hnext, Hskip. intros a (r' & Hr1 & _ & _ & _ & -> & Hpv)%uses_data_inv.
      rewrite (root_det s0 p r' r Hr1 Hr), Hent, El, next_leaf in Hpv by done.
      unfold private in Hpv. congruence.
Qed.

Lemma freed_table s0 p i :
  (∀ a, freed s0 p (i + 1) 0 a ↔ freed s0 p i 1024 a ∨ uses s0 p (Table i) a).
Proof.
  intros a. split.
  - intros (k & Hk & Hu). destruct k as [|i'|i' j']; [done| |].
    + destruct (decide (i' = i)) as [->|]; [by right|]. left. exists (Table i'). cbn in *. split; [lia|done].
    + left. exists (Data i' j'). split; [|done]. apply uses_data_inv in Hu as (_ & _ & _ & Hj & _).
      unfold idx in Hj. cbn in *. lia.
  - intros [(k & Hk & Hu)|Hu]; [exists k|exists (Table i); cbn; split; [lia|done]].
    split; [|done]. destruct k; cbn in *; [done|lia|lia].
Qed.

Lemma freed_start s0 p i a : freed s0 p i 0 a ↔ ∃ k, (∃ i' j', i' < i ∧ (k = Table i' ∨ k = Data i' j')) ∧ uses s0 p k a.
Proof.
  split; intros (k & Hk & Hu); exists k; (split; [|done]).
  - destruct k as [|i'|i' j']; [done|by exists i', 0; auto|]. exists i', j'. split; [|by auto].
    apply uses_data_inv in Hu as (_ & _ & _ & Hj & _). unfold idx in Hj. cbn in Hk. lia.
  - destruct Hk as (i' & j' & Hi & [-> | ->]); cbn; auto.
Qed.

Lemma free_l1_spec s0 p r n i s :
  inv_vm s0 → root_of s0 p r → 0 ≤ i → i + Z.of_nat n = 1024 → Freeing s0 (freed s0 p i 0) s →
  wp nofault (free_l1 r n i) (λ _ s', Freeing s0 (freed s0 p 1024 0) s') s.
Proof.
  intros I Hr. revert i s. induction n as [|n IH]; intros i s Hi Hn Fr; cbn [free_l1].
  { apply wp_ret. by replace 1024 with i by lia. }
  assert (idx i) as Hid by (unfold idx; lia).
  destruct (root_page s0 p r I Hr) as [Hpg _].
  apply wp_bind, wp_get. rewrite elt_eq by done.
  rewrite (read_kept s0 p i 0 s Root) by (done || by apply uses_root || by intros ?). apply wp_bind.
  destruct (decide (rd (v_mem s0) (r + 4 * i) = 0)) as [Hz|Hz].
  - rewrite Hz. apply wp_ret, IH; [lia|lia|]. eapply freeing_iff; [|exact Fr]. intros a.
    assert (∀ k, uses s0 p k a → (∃ j, k = Table i ∨ k = Data i j) → False) as Hno.
    { intros k Hu [j [-> | ->]].
      - apply uses_table_inv in Hu as (r' & Hr' & _ & ? & _). by rewrite (root_det s0 p r' r Hr' Hr) in *.
      - apply uses_data_inv in Hu as (r' & Hr' & _ & _ & He & _).
        rewrite (root_det s0 p r' r Hr' Hr) in *. unfold entry in He. by rewrite Hz in He. }
    rewrite !freed_start. split; intros (k & (i' & j' & Hlt & Hk) & Hu); exists k; (split; [|done]); exists i', j'; (split; [|done]).
    + lia.
    + destruct (decide (i' = i)) as [->|]; [|lia]. exfalso. eapply Hno; [done|]. exists j'. tauto.
  - destruct (l1_table s0 p r i I Hr Hid Hz) as (t & Ht & _ & Et & Hu).
    rewrite Et, tab_valid, next_tab by by apply page_frame. change (1 =? 0) with false.
    apply wp_bind. eapply wp_mono; [|by eapply (free_l2_spec s0 p r)].
    intros [] s1 Fr1. eapply wp_mono; [|eapply pfree_step; [done|done|done|]].
    + intros [] s2 Fr2. apply IH; [lia|lia|]. eapply freeing_iff; [|exact Fr2].
      intros a. rewrite freed_table. split; [intros [?| ->]; auto|intros [?|Hu']; auto].
      right. apply uses_table_inv in Hu, Hu'. destruct Hu as (r1 & H1 & _ & _ & ->), Hu' as (r2 & H2 & _ & _ & ->).
      by rewrite (root_det s0 p r1 r2 H1 H2).
    + eapply not_freed; [done..|]. cbn. lia.
Qed.

(** The state after [page_table_free] of [p]. *)
Record Freed s0 (p : nat) s : Prop := {
  fd_inv : inv_vm s;
  fd_owned a : a ∈ owned (v_alloc s) ↔ a ∈ owned (v_alloc s0) ∧ ¬ ∃ k, uses s0 p k a;
  fd_base : pid_to_pagetable_base s = <[p := 0]> (pid_to_pagetable_base s0);
  fd_satp : v_satp s = v_satp s0;
  fd_aspace q vpn : q ≠ p → vpn_ok vpn → aspace s q vpn = aspace s0 q vpn;
  fd_uses q k a : uses s q k a → uses s0 q k a;
}.

Lemma freed_all s0 F p s :
  inv_vm s0 → (∀ a, F a ↔ ∃ k, uses s0 p k a) → Freeing s0 F s →
  Freed s0 p (s <| pid_to_pagetable_base ::= <[p := 0]> |>).
Proof.
  intros I HF [Ho Hm Hb Hs]. set (s' := set_field pid_to_pagetable_base _ s).
  assert (∀ q, q ≠ p → same_tables s0 s' q) as Hsame.
  { intros q Hq. split; [subst s'; cbn; by rewrite Hb, list_lookup_insert_ne|].
    intros k a i Hu _ Hi. apply Hm. intros b (k' & Hu')%HF Hin.
    destruct (inv_owned s0 I _ _ _ Hu) as [? _]. destruct (inv_owned s0 I _ _ _ Hu') as [? _].
    apply in_page_elt in Hin as ->; [|done..].
    by destruct (inv_inj s0 I _ _ _ _ _ Hu Hu') as [-> _]. }
  assert (∀ q r, root_of s' q r → q ≠ p ∧ root_of s0 q r) as Hroot.
  { intros q r [Hr Hne]. assert (q ≠ p) as Hq.
    { intros ->. subst s'. cbn in Hr. apply list_lookup_insert_Some in Hr as [(_ & ? & _)|[? _]]; done. }
    split; [done|]. by apply (same_root s0 s'); [apply Hsame|split]. }
  assert (∀ q k a, uses s' q k a → q ≠ p ∧ uses s0 q k a) as Huses.
  { intros q k a Hu. assert (q ≠ p) as Hq by (destruct Hu as [r Hr|r i e Hr|r i j e Hr]; by apply Hroot in Hr as [? _]).
    split; [done|]. by apply (same_uses s0 s'); [|apply Hsame|]. }
  split; try done.
  - split.
    + subst s'. cbn. rewrite length_insert, Hb. apply I.
    + intros q r i [Hq Hr]%Hroot Hi. rewrite (same_l1 s0 s' q) by auto. by apply (inv_l1 s0 I q).
    + intros q i t j [Hq Hu]%Huses Hj. destruct (Hsame q Hq) as [_ Hrd].
      rewrite (Hrd (Table i)) by (done || by eauto). by eapply (inv_l2 s0 I).
    + intros q k a [Hq Hu]%Huses. destruct (inv_owned s0 I _ _ _ Hu) as [? Ho']. split; [done|].
      apply Ho. split; [done|]. intros (k' & Hu')%HF.
      by destruct (inv_inj s0 I _ _ _ _ _ Hu Hu') as [-> _].
    + intros q k q' k' a [_ Hu]%Huses [_ Hu']%Huses. by eapply (inv_inj s0 I).
  - intros a. rewrite <-HF. apply Ho.
  - subst s'. cbn. by rewrite Hb.
  - intros q vpn Hq Hv. apply same_aspace; auto.
  - by intros q k a [_ Hu]%Huses.
Qed.

Lemma page_table_free_spec pid s :
  inv_vm s → 0 < pid ≤ 16 →
  wp nofault (page_table_free pid) (λ _ s', Freed s (Z.to_nat pid) s') s.
Proof.
  intros I Hp. unfold page_table_free. rewrite pid_ok_true by done. apply wp_bind, wp_ret.
  set (p := Z.to_nat pid). destruct (base_some s pid I) as [r Hr]; [lia|].
  apply wp_bind. unfold wp at 1. unfold base_of. rewrite Hr, (proj2 (Z.ltb_ge pid 0)) by lia.
  destruct (Z.eqb_spec r 0) as [->|Hne].
  { apply wp_ret. split; try done.
    - intros a. split; [|tauto]. intros Ha. split; [done|]. intros [k Hu]. by eapply no_uses.
    - by rewrite list_insert_id. }
  assert (root_of s p r) as Hroot by by split.
  assert (∀ a, freed s p 1024 0 a ∨ a = r ↔ ∃ k, uses s p k a) as HF.
  { intros a. split.
    - intros [(k & _ & Hu)| ->]; [by eauto|]. exists Root. by constructor.
    - intros [k Hu]. destruct k as [|i|i j].
      + right. inversion Hu; subst. by eapply root_det.
      + left. exists (Table i). split; [|done]. apply uses_table_inv in Hu as (_ & _ & Hi & _).
        unfold idx in Hi. cbn. lia.
      + left. exists (Data i j). split; [|done]. apply uses_data_inv in Hu as (_ & _ & Hi & _).
        unfold idx in Hi. cbn. lia. }
  apply wp_bind. eapply wp_mono.
  2: { apply (free_l1_spec s p r); [done..|]. split; try done. intros a. split; [|tauto].
       intros Ha. split; [done|]. intros (k & (i & j & Hi & Hk) & Hu)%freed_start.
       destruct Hk as [-> | ->]; [apply uses_table_inv in Hu as (_ & _ & Hi' & _)|apply uses_data_inv in Hu as (_ & _ & Hi' & _)];
         unfold idx in Hi'; lia. }
  intros [] s1 Fr1. apply wp_bind. eapply wp_mono; [|eapply (pfree_step s _ _ p Root); [done|done|by apply uses_root|]].
  - intros [] s2 Fr2. apply wp_mod. by apply (freed_all s (λ x, freed s p 1024 0 x ∨ x = r) p s2 I).
  - eapply not_freed; [done|by apply uses_root|intros []].
Qed.
End free.
