(* ===== verification/MemVmThms.v ===== *)
(** * Theorems about virtual memory *)

From stdpp Require Import gmap.
From S2P Require Import Prelude MemVm MemVmInv MemVmSpec MemVmFree.

(** ** The hardware walks the tables the code builds *)

Lemma testbit_low k c n : 0 ≤ n < 10 → Z.testbit (k * 1024 + c) n = Z.testbit c n.
Proof.
  intros Hn. rewrite <-(Z.mod_pow2_bits_low (k * 1024 + c) 10) by lia.
  rewrite <-(Z.mod_pow2_bits_low c 10) by lia. f_equal. change (2 ^ 10) with 1024.
  rewrite Z.add_comm. apply Z.mod_add. lia.
Qed.

Lemma tab_bits t n : frame t → 0 ≤ n < 10 → Z.testbit (tab t) n = Z.testbit 1 n.
Proof.
  intros [Ht ?] Hn. unfold tab. replace (t / 4) with (t / 4096 * 1024) by dlia. by apply testbit_low.
Qed.
Lemma leaf_bits pa n : frame pa → 0 ≤ n < 10 → Z.testbit (leaf pa) n = Z.testbit 223 n.
Proof.
  intros [Ht ?] Hn. unfold leaf. replace (pa / 4) with (pa / 4096 * 1024) by dlia. by apply testbit_low.
Qed.
Lemma tab_ppn t : frame t → tab t / 2 ^ 10 * 4096 = t.
Proof. unfold frame, tab. dlia. Qed.
Lemma leaf_ppn pa : frame pa → leaf pa / 2 ^ 10 * 4096 = pa.
Proof. unfold frame, leaf. dlia. Qed.

Lemma satp_fields r : frame r →
  let satp := Z.lor (Z.shiftl 1 31) (Z.shiftr r 12) in
  Z.testbit satp 31 = true ∧ satp mod 2 ^ 22 * 4096 = r.
Proof.
  intros [Hr ?]. cbn zeta. split.
  - rewrite Z.lor_spec. by vm_compute (Z.testbit (Z.shiftl 1 31) 31).
  - rewrite Z.shiftr_div_pow2, Z.shiftl_mul_pow2, lor_add by dlia. dlia.
Qed.

Section thms.
Context {P : Type} `{PageAllocLaws P}.
Implicit Types s : vm P.

(** The walk below a table entry, and at an empty one. *)
Lemma sv32_table m satp a va t :
  Z.testbit satp 31 = true → rd m (satp mod 2 ^ 22 * 4096 + va / 2 ^ 22 * 4) = tab t → frame t →
  sv32 m satp a va =
    let pte0 := rd m (t + 4 * (va / 2 ^ 12 mod 1024)) in
    if pte_fault pte0 then None
    else if pte_leaf pte0 && allows a pte0
    then Some (pte0 / 2 ^ 10 * 4096 + va mod 2 ^ 12) else None.
Proof.
  intros Hb He Hf. unfold sv32. rewrite Hb, He. unfold pte_fault at 1. unfold pte_leaf at 1.
  rewrite !tab_bits, tab_ppn by (done || lia). by rewrite (Z.mul_comm (_ mod _) 4).
Qed.

Lemma sv32_empty m satp a va :
  Z.testbit satp 31 = true → rd m (satp mod 2 ^ 22 * 4096 + va / 2 ^ 22 * 4) = 0 →
  sv32 m satp a va = None.
Proof. intros Hb He. unfold sv32. by rewrite Hb, He. Qed.

Lemma leaf_access a pa : frame pa → pte_fault (leaf pa) = false ∧ pte_leaf (leaf pa) && allows a (leaf pa) = true.
Proof.
  intros Hf. unfold pte_fault, pte_leaf, allows. rewrite !leaf_bits by (done || lia). by destruct a.
Qed.

Lemma sv32_entry s p r a va :
  inv_vm s → root_of s p r → 0 ≤ va < 2 ^ 32 →
  v_satp s = Z.lor (Z.shiftl 1 31) (Z.shiftr r 12) →
  let e := entry (v_mem s) r (va / 2 ^ 22) (va / 2 ^ 12 mod 1024) in
  (e = 0 ∧ sv32 (v_mem s) (v_satp s) a va = None) ∨
  (∃ pa, frame pa ∧ e = leaf pa ∧ sv32 (v_mem s) (v_satp s) a va = Some (pa + va mod 4096)).
Proof.
  intros I Hr Hva Hs. destruct (root_page s p r I Hr) as [Hpg%page_frame _].
  destruct (satp_fields r Hpg) as [Hb Hppn]. rewrite <-Hs in Hb, Hppn.
  destruct (idx_shift va Hva) as [_ Hi]. destruct (idx_mask va Hva) as [_ Hj]. unfold entry.
  assert (∀ v, rd (v_mem s) (r + 4 * (va / 2 ^ 22)) = v →
    rd (v_mem s) (v_satp s mod 2 ^ 22 * 4096 + va / 2 ^ 22 * 4) = v) as Hrd.
  { intros v <-. rewrite Hppn. f_equal. lia. }
  destruct (decide (rd (v_mem s) (r + 4 * (va / 2 ^ 22)) = 0)) as [Hz|Hz].
  { left. rewrite sv32_empty by auto. by rewrite Hz. }
  destruct (l1_table s p r _ I Hr Hi Hz) as (t & Ht & _ & Et & Hu).
  pose proof (page_frame t Ht) as Hf. pose proof (tab_pos t Hf).
  rewrite (sv32_table _ _ _ _ t), Et by auto. rewrite (proj2 (Z.eqb_neq (tab t) 0)), next_tab by (done || lia).
  cbn zeta. destruct (inv_l2 s I p _ t _ Hu Hj) as [-> | (pa & Hpa & ->)]; [by left|right].
  destruct (leaf_access a pa Hpa) as [-> ->]. rewrite leaf_ppn by done. by eauto.
Qed.

(** Pages used keep their place when nothing of them changes. *)
Lemma inv_same s s' :
  inv_vm s → (∀ p, same_tables s s' p) → length (pid_to_pagetable_base s') = 17%nat →
  (∀ p k a, uses s p k a → a ∈ owned (v_alloc s')) → inv_vm s'.
Proof.
  intros I Hs Hb Ho.
  assert (∀ p k a, uses s' p k a ↔ uses s p k a) as Hu by (intros; by apply same_uses).
  split; [done| | | |].
  - intros p r i Hr%(same_root s s') Hi; [|done]. rewrite (same_l1 s s' p) by done.
    by apply (inv_l1 s I p).
  - intros p i t j Ht%Hu Hj. destruct (Hs p) as [_ Hrd].
    rewrite (Hrd (Table i)) by (done || by eauto). by eapply (inv_l2 s I).
  - intros p k a Ha%Hu. split; [by eapply (inv_owned s I)|by eapply Ho].
  - intros p k p' k' a Ha%Hu Ha'%Hu. by eapply (inv_inj s I).
Qed.

Lemma inv_satp s v : inv_vm s → inv_vm (s <| v_satp := v |>).
Proof.
  intros I. eapply inv_same; [done|by intros p|apply I|]. intros p k a Hu. by eapply (inv_owned s I).
Qed.

Lemma switch_ok pid s s' :
  inv_vm s → page_table_switch pid s = Ok (tt, s') →
  0 < pid ≤ 16 ∧ ∃ r, root_of s (Z.to_nat pid) r ∧
    s' = s <| v_satp := Z.lor (Z.shiftl 1 31) (Z.shiftr r 12) |>.
Proof.
  intros I. unfold page_table_switch, pid_ok, MAX_NPROCESS.
  destruct (Z.ltb_spec 0 pid), (Z.leb_spec pid 16); try done. cbn [andb].
  destruct (base_some s pid I) as [r Hr]; [lia|].
  unfold ASSERT, mbind, M_bind, mret, M_ret, base_of, modM.
  rewrite Hr, (proj2 (Z.ltb_ge pid 0)) by lia.
  destruct (Z.eqb_spec r 0) as [|Hne]; [done|]. cbn [negb]. intros [= <-]. split; [lia|]. exists r. by split; [split|].
Qed.

(** [page_table_translate] by the entry of the page. *)
Lemma translate_entry s pid r va :
  inv_vm s → 0 < pid ≤ 16 → root_of s (Z.to_nat pid) r → 0 ≤ va < 2 ^ 32 →
  let e := entry (v_mem s) r (va / 2 ^ 22) (va / 2 ^ 12 mod 1024) in
  (e = 0 → page_table_translate pid va s = Err Fatal) ∧
  (∀ pa, frame pa → e = leaf pa → page_table_translate pid va s = Ok (pa + va mod 4096, s)).
Proof.
  intros I Hp Hr Hva. cbn zeta. unfold page_table_translate, walk, entry.
  rewrite pid_ok_true by done. destruct (root_page s _ r I Hr) as [Hpg _].
  destruct (idx_shift va Hva) as [-> Hi]. destruct (idx_mask va Hva) as [-> Hj]. pose proof Hr as [_ Hne].
  unfold ASSERT, mbind, M_bind, mret, M_ret, load, getM. rewrite (base_spec s pid r) by (done || lia).
  rewrite (proj2 (Z.eqb_neq r 0)), elt_eq by done. cbn [negb].
  destruct (Z.eqb_spec (rd (v_mem s) (r + 4 * (va / 2 ^ 22))) 0) as [Hz|Hz].
  { split; [done|]. intros pa Hf Hl. pose proof (leaf_pos pa Hf). lia. }
  destruct (l1_table s _ r _ I Hr Hi Hz) as (t & Ht & _ & Et & Hu). rewrite Et.
  rewrite tab_valid, next_tab, elt_eq by (done || by apply page_frame). cbn [negb Z.eqb].
  split; [by intros ->|]. intros pa Hf He. rewrite He, leaf_valid by done.
  change (1 =? 0) with false. cbn [negb]. rewrite He, next_leaf, land_fff by done. destruct Hf as [Hf Hf'].
  assert (pa = pa / 4096 * 2 ^ 12) as Epa by dlia.
  rewrite Epa at 1. rewrite lor_add by dlia. by rewrite <-Epa.
Qed.

(** C10: Software and hardware agree on the address space: once [pid] has been
    switched to, [page_table_translate] returns the physical address the
    Sv32 walk of a user-mode access of any kind reaches from [satp], and stops
    the kernel exactly where the hardware raises a page fault. *)
Theorem translate_sv32 pid va a s s' :
  inv_vm s → 0 ≤ va < 2 ^ 32 → page_table_switch pid s = Ok (tt, s') →
  page_table_translate pid va s' =
    match sv32 (v_mem s') (v_satp s') a va with
    | Some pa => Ok (pa, s')
    | None => Err Fatal
    end.
Proof.
  intros I Hva Hsw. destruct (switch_ok pid s s' I Hsw) as (Hp & r & Hr & ->).
  set (s' := set_field v_satp _ s).
  assert (inv_vm s') as I' by by apply inv_satp.
  assert (root_of s' (Z.to_nat pid) r) as Hroot by done.
  destruct (translate_entry s' pid r va I' Hp Hroot Hva) as [Hnone Hsome].
  destruct (sv32_entry s' _ r a va I' Hroot Hva eq_refl) as [[He ->]|(pa & Hf & He & ->)]; auto.
Qed.

(** C14: [page_table_map] of a page the caller holds and nobody uses, at a free
    virtual page and with ten pages free, returns: exactly that page is added to the address space of
    the process (which is that of the identity regions where there was no
    table yet), no other process's address space changes, every page newly
    taken from the allocator is one of the process's table pages, and the
    invariant is kept. *)
Theorem page_table_map_correct pid v pg s :
  inv_vm s → can_map s pid v pg →
  ∃ s', page_table_map pid v pg s = Ok (tt, s') ∧ inv_vm s' ∧
    (∀ vpn, vpn_ok vpn → aspace s' (Z.to_nat pid) vpn =
       if decide (vpn = v) then leaf (pa_of pg) else space_before s pid vpn) ∧
    (∀ q vpn, q ≠ Z.to_nat pid → vpn_ok vpn → aspace s' q vpn = aspace s q vpn) ∧
    (∀ a, a ∈ owned (v_alloc s') → a ∈ owned (v_alloc s) ∨ ∃ k, uses s' (Z.to_nat pid) k a).
Proof.
  intros I C. destruct (proj1 (wp_ok _ _ _) (page_table_map_spec pid v pg s I C)) as ([] & s' & E & G & _ & Hs).
  exists s'. split; [done|]. split; [apply G|]. split; [done|]. split; [intros q vpn ? ?; by apply G|].
  intros a [?|[_ ?]]%(gr_owned _ _ _ _ _ G); auto.
Qed.

(** C18: [page_table_free] always returns; it gives back to the allocator
    exactly the pages the process uses (its tables and the pages mapped for it
    alone, no page twice, no page of an identity mapping), clears the root and
    changes no other process's address space. *)
Theorem page_table_free_exact pid s :
  inv_vm s → 0 < pid ≤ 16 →
  ∃ s', page_table_free pid s = Ok (tt, s') ∧ inv_vm s' ∧
    (∀ a, a ∈ owned (v_alloc s') ↔ a ∈ owned (v_alloc s) ∧ ¬ ∃ k, uses s (Z.to_nat pid) k a) ∧
    pid_to_pagetable_base s' = <[Z.to_nat pid := 0]> (pid_to_pagetable_base s) ∧
    (∀ q vpn, q ≠ Z.to_nat pid → vpn_ok vpn → aspace s' q vpn = aspace s q vpn).
Proof.
  intros I Hp. destruct (proj1 (wp_ok _ _ _) (page_table_free_spec pid s I Hp)) as ([] & s' & E & F).
  exists s'. split; [done|]. destruct F; auto.
Qed.

Lemma mapped_data s pid v pg s' :
  Mapped s pid v pg s' → can_map s pid v pg → pa_of pg ≠ v * PAGE_SIZE →
  uses s' (Z.to_nat pid) (Data (v / 1024) (v mod 1024)) (pa_of pg).
Proof.
  intros (G & [r Hr] & Hs) [_ Hv Hpg _ _ _ _] Hne. specialize (Hs v Hv). rewrite decide_True in Hs by done.
  unfold aspace in Hs. pose proof Hr as [Hb Hz]. rewrite Hb, (proj2 (Z.eqb_neq r 0)) in Hs by done.
  assert (frame (pa_of pg)) as Hf by (unfold frame, pa_of, PAGE_SIZE, APPS_PAGES_BASE; dlia).
  destruct (vpn_idx v Hv) as [??]. rewrite <-(next_leaf (pa_of pg)) by done.
  eapply uses_data; [done..| |].
  - pose proof (leaf_pos _ Hf). lia.
  - rewrite next_leaf by done. unfold private, frees_page.
    assert (v / 1024 * 2 ^ 22 + v mod 1024 * 2 ^ 12 = v * PAGE_SIZE) as -> by (unfold PAGE_SIZE; dlia).
    rewrite (proj2 (Z.eqb_neq _ _)) by done.
    unfold pa_of, PAGE_SIZE, APPS_PAGES_BASE, RAM_END. cbn [negb andb]. apply andb_true_iff. lia.
Qed.

(** C19: Nothing leaks over the life of a process: creating its page table with
    a first mapping and then freeing it leaves the allocator with exactly the
    pages held before, less the page that was mapped, and every address space
    as it was. *)
Theorem map_free_roundtrip pid v pg s :
  inv_vm s → can_map s pid v pg → pid_to_pagetable_base s !! Z.to_nat pid = Some 0 →
  pa_of pg ≠ v * PAGE_SIZE →
  ∃ s1 s2, page_table_map pid v pg s = Ok (tt, s1) ∧ page_table_free pid s1 = Ok (tt, s2) ∧
    (∀ a, a ∈ owned (v_alloc s2) ↔ a ∈ owned (v_alloc s) ∧ a ≠ pa_of pg) ∧
    (∀ q vpn, vpn_ok vpn → aspace s2 q vpn = aspace s q vpn).
Proof.
  intros I C Hb Hne. pose proof (cm_pid _ _ _ _ C) as Hp.
  destruct (proj1 (wp_ok _ _ _) (page_table_map_spec pid v pg s I C)) as ([] & s1 & E1 & M1).
  pose proof (mapped_data s pid v pg s1 M1 C Hne) as Hd. destruct M1 as (G & _ & Hs).
  destruct (proj1 (wp_ok _ _ _) (page_table_free_spec pid s1 (gr_inv _ _ _ _ _ G) Hp)) as ([] & s2 & E2 & F).
  exists s1, s2. split; [done|]. split; [done|]. split.
  - intros a. rewrite (fd_owned _ _ _ F). split.
    + intros [[?|[_ Hu]]%(gr_owned _ _ _ _ _ G) Hn]; [|done]. split; [done|].
      intros ->. apply Hn. by eexists.
    + intros [Ho Ha]. split; [by apply G|]. intros [k Hu].
      apply (gr_new _ _ _ _ _ G) in Hu as [Hu|[?|?]]; [|done|done]. by eapply no_uses.
  - intros q vpn Hv. destruct (decide (q = Z.to_nat pid)) as [->|Hq].
    + unfold aspace. rewrite (fd_base _ _ _ F), Hb, list_lookup_insert_eq; [done|].
      rewrite (inv_base _ (gr_inv _ _ _ _ _ G)). lia.
    + by rewrite (fd_aspace _ _ _ F), (gr_aspace _ _ _ _ _ G).
Qed.

(** [page_table_translate] changes nothing. *)
Lemma translate_same pid va s pa s' : page_table_translate pid va s = Ok (pa, s') → s' = s.
Proof.
  unfold page_table_translate, walk, ASSERT, mbind, M_bind, mret, M_ret, load, getM, base_of, fail.
  repeat (case_match; try discriminate; simplify_eq/=). by intros [= _ <-].
Qed.

(** ** Runs

    The state of a run is the machine's and the set of the pages the kernel
    holds for itself: those it got from the allocator and has neither mapped
    nor given back.  The kernel maps only such pages, each once, at virtual
    pages that are free and while ten pages are left for tables; it may free,
    switch to and translate for any process, and the processes and the rest of
    the kernel may write any memory but the table pages. *)
Inductive vm_step : vm P * gset Z → vm P * gset Z → Prop :=
  | vm_alloc s F a s' :
      0 < free_pages s → in_alloc (pmalloc 1) s = Ok (a, s') → vm_step (s, F) (s', {[a]} ∪ F)
  | vm_give s F a s' :
      a ∈ F → in_alloc (pfree a) s = Ok (tt, s') → vm_step (s, F) (s', F ∖ {[a]})
  | vm_map s F pid v pg s' :
      pa_of pg ∈ F → vpn_ok v → space_before s pid v = 0 → 10 ≤ free_pages s →
      page_table_map pid v pg s = Ok (tt, s') → vm_step (s, F) (s', F ∖ {[pa_of pg]})
  | vm_free s F pid s' : page_table_free pid s = Ok (tt, s') → vm_step (s, F) (s', F)
  | vm_switch s F pid s' : page_table_switch pid s = Ok (tt, s') → vm_step (s, F) (s', F)
  | vm_translate s F pid va pa s' :
      page_table_translate pid va s = Ok (pa, s') → vm_step (s, F) (s', F)
  | vm_other s F s' :
      (∀ p, same_tables s s' p) → v_alloc s' = v_alloc s →
      length (pid_to_pagetable_base s') = length (pid_to_pagetable_base s) → vm_step (s, F) (s', F).

Definition vm_boot (p : P) (m : memory) : vm P := mk_vm p m (replicate 17 0) 0.

Lemma vm_boot_inv p m : inv_vm (vm_boot p m).
Proof.
  assert (∀ q r, ¬ root_of (vm_boot p m) q r) as Hno.
  { intros q r [[? _]%lookup_replicate ?]. by subst. }
  assert (∀ q k a, ¬ uses (vm_boot p m) q k a) as Hnu.
  { intros q k a [r Hr|r i e Hr|r i j e Hr]; by apply Hno in Hr. }
  split; [done|intros q r i Hr; by apply Hno in Hr|..]; intros * Hu; by apply Hnu in Hu.
Qed.

Lemma free_pid_ok pid s s' : page_table_free pid s = Ok (tt, s') → 0 < pid ≤ 16.
Proof.
  unfold page_table_free, pid_ok, MAX_NPROCESS.
  destruct (Z.ltb_spec 0 pid), (Z.leb_spec pid 16); done || lia.
Qed.

Lemma map_pid_ok pid v pg s s' : page_table_map pid v pg s = Ok (tt, s') → 0 < pid ≤ 16.
Proof.
  unfold page_table_map, pid_ok, MAX_NPROCESS.
  destruct (Z.ltb_spec 0 pid), (Z.leb_spec pid 16); done || lia.
Qed.

(** The pages the kernel holds for itself are the allocator's, and no process's. *)
Definition held s (F : gset Z) : Prop :=
  ∀ a, a ∈ F → is_page a ∧ a ∈ owned (v_alloc s) ∧ ∀ p k, ¬ uses s p k a.

Record inv_run (x : vm P * gset Z) : Prop := {
  ir_vm : inv_vm x.1;
  ir_held : held x.1 x.2;
}.

(** A change of memory and allocator outside the pages in use. *)
Lemma untouched_run s s' F F' :
  inv_run (s, F) → pid_to_pagetable_base s' = pid_to_pagetable_base s →
  (∀ p k a x, uses s p k a → in_page a x → rd (v_mem s') x = rd (v_mem s) x) →
  (∀ p k a, uses s p k a → a ∈ owned (v_alloc s')) →
  (∀ a, a ∈ F' → is_page a ∧ a ∈ owned (v_alloc s') ∧ ∀ p k, ¬ uses s p k a) → inv_run (s', F').
Proof.
  intros [I _] Hb Hm Ho HF. cbn in I. assert (∀ p, same_tables s s' p) as Hs.
  { intros p. split; [by rewrite Hb|]. intros k a i Hu _ Hi. apply (Hm p k a); [done|].
    unfold in_page, idx, PAGE_SIZE in *. lia. }
  split; cbn.
  - apply (inv_same s s' I); [done|rewrite Hb; apply I|done].
  - intros a Ha. destruct (HF a Ha) as (? & ? & Hn). split; [done|]. split; [done|].
    intros p k Hu%(same_uses s s' p k a I (Hs p)). by eapply Hn.
Qed.

Lemma page_apart a b x : is_page a → is_page b → a ≠ b → in_page a x → ¬ in_page b x.
Proof. unfold is_page, in_page, PAGE_SIZE. intros [??] [??] ? ? ?. dlia. Qed.

Lemma run_alloc s F a s' :
  inv_run (s, F) → 0 < free_pages s → in_alloc (pmalloc 1) s = Ok (a, s') → inv_run (s', {[a]} ∪ F).
Proof.
  intros I Hf E. destruct (pmalloc_law (v_alloc s) (v_mem s) Hf) as (b & p' & m' & Ep & Hp & Hn & Ho & _ & _ & Hm).
  unfold in_alloc in E. rewrite Ep in E. injection E as <- <-. destruct I as [Iv Hh]. cbn in Iv, Hh.
  assert (∀ q k, ¬ uses s q k b) as Hnu by (intros q k Hu; by apply (inv_owned s Iv) in Hu as [_ ?]).
  eapply (untouched_run s _ F); [by split|done|..]; cbn.
  - intros q k c x Hu Hx. apply Hm. eapply (page_apart c b); [by eapply (inv_owned s Iv)|done| |done].
    intros ->. by eapply Hnu.
  - intros q k c Hu. rewrite Ho. apply (inv_owned s Iv) in Hu as [_ ?]. set_solver.
  - intros c [->%elem_of_singleton|Hc]%elem_of_union; [split; [done|]; split; [rewrite Ho; set_solver|done]|].
    destruct (Hh c Hc) as (? & ? & ?). split; [done|]. split; [rewrite Ho; set_solver|done].
Qed.

Lemma run_give s F a s' :
  inv_run (s, F) → a ∈ F → in_alloc (pfree a) s = Ok (tt, s') → inv_run (s', F ∖ {[a]}).
Proof.
  intros [Iv Hh] Ha E. cbn in Iv, Hh. destruct (Hh a Ha) as (Hp & Ho & Hnu).
  destruct (pfree_law (v_alloc s) (v_mem s) a Ho Hp) as (p' & m' & Ep & Ho' & _ & Hm).
  unfold in_alloc in E. rewrite Ep in E. injection E as <-.
  eapply (untouched_run s _ F); [by split|done|..]; cbn.
  - intros q k c x Hu Hx. apply Hm. eapply (page_apart c a); [by eapply (inv_owned s Iv)|done| |done].
    intros ->. by eapply Hnu.
  - intros q k c Hu. rewrite Ho'. assert (c ≠ a) by (intros ->; by eapply Hnu).
    apply (inv_owned s Iv) in Hu as [_ ?]. set_solver.
  - intros c [Hc Hca]%elem_of_difference. destruct (Hh c Hc) as (? & ? & ?). split; [done|].
    split; [rewrite Ho'; set_solver|done].
Qed.

Lemma held_can_map s F pid v pg :
  inv_run (s, F) → 0 < pid ≤ 16 → pa_of pg ∈ F → vpn_ok v → space_before s pid v = 0 → 10 ≤ free_pages s →
  can_map s pid v pg.
Proof.
  intros [_ Hh] Hp Hpg Hv He Hf. destruct (Hh _ Hpg) as (Hpage & Ho & Hn). split; try done.
  unfold is_page, pa_of, PAGE_SIZE, APPS_PAGES_BASE, RAM_END in Hpage. lia.
Qed.

Lemma run_map s F pid v pg s' :
  inv_run (s, F) → pa_of pg ∈ F → vpn_ok v → space_before s pid v = 0 → 10 ≤ free_pages s →
  page_table_map pid v pg s = Ok (tt, s') → inv_run (s', F ∖ {[pa_of pg]}).
Proof.
  intros I Hpg Hv He Hf E. pose proof (held_can_map s F pid v pg I (map_pid_ok _ _ _ _ _ E) Hpg Hv He Hf) as C.
  destruct I as [Iv Hh]. cbn in Iv, Hh. pose proof (page_table_map_spec pid v pg s Iv C) as Hw.
  unfold wp in Hw. rewrite E in Hw. destruct Hw as (G & _ & _). split; cbn; [by apply (gr_inv _ _ _ _ _ G)|].
  intros a [Ha Hne%not_elem_of_singleton]%elem_of_difference. destruct (Hh a Ha) as (Hp & Ho & Hn).
  split; [done|]. split; [by apply (gr_keep _ _ _ _ _ G)|]. intros q k Hu.
  destruct (decide (q = Z.to_nat pid)) as [->|Hq].
  - apply (gr_new _ _ _ _ _ G) in Hu as [Hu|[?|?]]; [by eapply Hn|done|done].
  - apply (gr_other _ _ _ _ _ G) in Hu; [|done]. by eapply Hn.
Qed.

Lemma run_free s F pid s' : inv_run (s, F) → page_table_free pid s = Ok (tt, s') → inv_run (s', F).
Proof.
  intros [Iv Hh] E. cbn in Iv, Hh. pose proof (page_table_free_spec pid s Iv (free_pid_ok _ _ _ E)) as Hw.
  unfold wp in Hw. rewrite E in Hw. split; cbn; [apply Hw|]. intros a Ha. destruct (Hh a Ha) as (Hp & Ho & Hn).
  split; [done|]. split; [apply Hw; split; [done|]; intros [k Hu]; by eapply Hn|].
  intros q k Hu%(fd_uses _ _ _ Hw). by eapply Hn.
Qed.

Lemma vm_step_inv x y : inv_run x → vm_step x y → inv_run y.
Proof.
  intros I Hst. revert I. destruct Hst as [s1 F a s2 Hf E|s1 F a s2 Ha E|s1 F pid v pg s2 Hpg Hv He Hf E|
    s1 F pid s2 E|s1 F pid s2 E|s1 F pid va pa s2 E|s1 F s2 Hs Ha Hb]; intros I.
  - by eapply run_alloc.
  - by eapply run_give.
  - by eapply run_map.
  - by eapply run_free.
  - destruct I as [Iv Hh]. destruct (switch_ok pid s1 s2 Iv E) as (_ & r & _ & ->).
    eapply (untouched_run s1 _ F F); [by split|done|done|intros p k a Hu; by eapply (inv_owned s1 Iv)|exact Hh].
  - by apply translate_same in E as ->.
  - destruct I as [Iv Hh]. cbn in Iv, Hh. split; cbn.
    + eapply inv_same; [done|done|by rewrite Hb; apply Iv|]. intros p k a Hu. rewrite Ha. by eapply (inv_owned s1 Iv).
    + intros a Hin. destruct (Hh a Hin) as (? & ? & Hn). rewrite Ha. split; [done|]. split; [done|].
      intros p k Hu%(same_uses s1 s2 p k a Iv (Hs p)). by eapply Hn.
Qed.

(** [pid] maps [pa] at virtual page [vpn], as a page of its own. *)
Definition maps s (pid : nat) (vpn pa : Z) : Prop :=
  frame pa ∧ aspace s pid vpn = leaf pa ∧ frees_page pa (vpn * PAGE_SIZE) = true.

Lemma maps_uses s pid vpn pa :
  vpn_ok vpn → maps s pid vpn pa → uses s pid (Data (vpn / 1024) (vpn mod 1024)) pa.
Proof.
  intros Hv (Hf & Ha & Hp). destruct (vpn_idx vpn Hv) as [??]. pose proof (leaf_pos pa Hf).
  unfold aspace in Ha. case_match eqn:Er; [|lia]. case_match eqn:Ez; [lia|]. apply Z.eqb_neq in Ez.
  rewrite <-(next_leaf pa) by done. eapply uses_data; [by split|done|done|done|lia|].
  rewrite next_leaf by done. unfold private.
  by assert (vpn / 1024 * 2 ^ 22 + vpn mod 1024 * 2 ^ 12 = vpn * PAGE_SIZE) as -> by (unfold PAGE_SIZE; dlia).
Qed.

(** C11: Isolation.  A run starts at boot, with no page held by the kernel, and
    consists of page allocations and releases, mappings of held pages (each
    once, at a free virtual page, with ten pages left for tables), frees,
    switches, translations, and writes outside the table pages.  In every state
    it reaches, a physical page that a process maps as its own is mapped so by
    no other process and at no other address, is no table page of any process,
    is held from the allocator and is not among the pages the kernel still
    holds to map; two processes never share a table page. *)
Theorem vm_isolation p m s F :
  rtc vm_step (vm_boot p m, ∅) (s, F) →
  inv_vm s ∧
  (∀ q q' v v' pa, vpn_ok v → vpn_ok v' → maps s q v pa → maps s q' v' pa → q = q' ∧ v = v') ∧
  (∀ q q' v pa k, vpn_ok v → maps s q v pa → (k = Root ∨ ∃ i, k = Table i) → ¬ uses s q' k pa) ∧
  (∀ q v pa, vpn_ok v → maps s q v pa → pa ∈ owned (v_alloc s) ∧ pa ∉ F) ∧
  (∀ q q' i i' t, uses s q (Table i) t → uses s q' (Table i') t → q = q' ∧ i = i').
Proof.
  intros Hr. assert (inv_run (s, F)) as [I Hh].
  { remember (vm_boot p m, ∅) as x0 eqn:E0. remember (s, F) as x eqn:E. clear s F E.
    assert (inv_run x0) as I0 by (subst; split; [apply vm_boot_inv|by intros a ?%elem_of_empty]). clear E0.
    induction Hr as [|x y z Hxy _ IH]; [done|]. by apply IH, (vm_step_inv x y). }
  cbn in I, Hh. split; [done|]. split_and!.
  - intros q q' v v' pa Hv Hv' Hm%maps_uses Hm'%maps_uses; [|done..].
    destruct (inv_inj s I _ _ _ _ _ Hm Hm') as [-> [= E1 E2]]. split; [done|]. dlia.
  - intros q q' v pa k Hv Hm%maps_uses Hk Hu; [|done].
    destruct (inv_inj s I _ _ _ _ _ Hm Hu) as [_ <-]. by destruct Hk as [?|[??]].
  - intros q v pa Hv Hm%maps_uses; [|done]. split; [by eapply (inv_owned s I)|].
    intros Hin. destruct (Hh pa Hin) as (_ & _ & Hn). by eapply Hn.
  - intros q q' i i' t Hu Hu'. by destruct (inv_inj s I _ _ _ _ _ Hu Hu') as [-> [= ->]].
Qed.
End thms.
