(* ===== verification/MemVmDemo.v ===== *)
(** * Virtual memory: an allocator, and the theorems on concrete states

    [pool] instantiates the allocator interface: the pages handed out are a
    set, [pmalloc] takes the first page of the pool that is not in it. *)

From stdpp Require Import gmap.
From S2P Require Import Prelude MemVm MemVmInv MemVmSpec MemVmFree MemVmThms.

Definition pool_pages : list Z := (λ i, APPS_PAGES_BASE + 4096 * i) <$> seqZ 0 1024.
Definition pool_free (p : gset Z) : list Z := filter (λ a, a ∉ p) pool_pages.
Definition out_of_page (a x : Z) : Prop := x < a ∨ a + PAGE_SIZE ≤ x.
#[export] Instance out_of_page_dec a x : Decision (out_of_page a x).
Proof. unfold out_of_page. apply _. Defined.
Definition clear_page (a : Z) (m : memory) : memory := filter (λ kv, out_of_page a kv.1) m.

#[export] Instance pool : PageAlloc (gset Z) := {|
  pmalloc clear := λ '(p, m),
    match pool_free p with
    | [] => Err Fatal
    | a :: _ => Ok (a, ({[a]} ∪ p, if clear =? 0 then m else clear_page a m))
    end;
  pfree a := λ '(p, m), Ok (tt, (p ∖ {[a]}, m));
  num_free_pages p := Z.of_nat (length (pool_free p));
|}.

Lemma pool_nodup p : NoDup (pool_free p).
Proof.
  apply list.NoDup_filter. apply NoDup_fmap_2; [|apply NoDup_seqZ]. intros x y Hxy. lia.
Qed.

Lemma pool_page a : a ∈ pool_pages ↔ is_page a.
Proof.
  unfold pool_pages, is_page, PAGE_SIZE, APPS_PAGES_BASE, RAM_END. rewrite list_elem_of_fmap. split.
  - intros (i & -> & Hi%elem_of_seqZ). dlia.
  - intros [Ha ?]. exists ((a - 0x80400000) / 4096). rewrite elem_of_seqZ. dlia.
Qed.

Lemma pool_take p a :
  a ∈ pool_pages → a ∉ p → Z.of_nat (length (pool_free ({[a]} ∪ p))) = Z.of_nat (length (pool_free p)) - 1.
Proof.
  intros Ha Hn. assert (pool_free p ≡ₚ a :: pool_free ({[a]} ∪ p)) as ->%Permutation_length; [|cbn; lia].
  apply NoDup_Permutation; [apply pool_nodup| |].
  - constructor; [|apply pool_nodup]. unfold pool_free. rewrite list_elem_of_filter. set_solver.
  - intros x. unfold pool_free. rewrite elem_of_cons, !list_elem_of_filter.
    destruct (decide (x = a)) as [->|]; set_solver.
Qed.

Lemma clear_page_rd a m x :
  rd (clear_page a m) x = if decide (out_of_page a x) then rd m x else 0.
Proof.
  unfold rd, clear_page. case_decide as Hd.
  - destruct (m !! x) as [v|] eqn:E.
    + by rewrite (map_lookup_filter_Some_2 _ m x v).
    + by rewrite map_lookup_filter_None_2 by by left.
  - rewrite map_lookup_filter_None_2; [done|]. right. intros v _. cbn. done.
Qed.

#[export] Instance pool_laws : PageAllocLaws (gset Z).
Proof.
  refine {| owned := λ p : gset Z, p |}.
  - intros p m Hf. cbn in Hf |- *. destruct (pool_free p) as [|a l] eqn:E; [done|].
    assert (a ∈ pool_free p) as Ha by (rewrite E; by left).
    unfold pool_free in Ha. apply list_elem_of_filter in Ha as [Hn Hp].
    exists a, ({[a]} ∪ p), (clear_page a m). split; [done|]. split; [by apply pool_page|].
    split; [done|]. split; [done|]. split; [rewrite <-E; by apply pool_take|].
    unfold in_page. split; intros x Hx; rewrite clear_page_rd;
      case_decide as Hd; unfold out_of_page, PAGE_SIZE in *; done || lia.
  - intros p m a Ha Hp. exists (p ∖ {[a]}), m. split; [done|]. split; [done|]. split; [|done].
    cbn. pose proof (pool_take (p ∖ {[a]}) a (proj2 (pool_page a) Hp) ltac:(set_solver)) as Ht.
    replace ({[a]} ∪ p ∖ {[a]}) with p in Ht; [lia|].
    apply set_eq. intros x. destruct (decide (x = a)); set_solver.
Defined.

(** User process 7 maps page 5 of the pool at the application's entry. *)
Definition demo_vpn : Z := 0x80200.
Definition demo_vm : vm (gset Z) := vm_boot {[pa_of 5]} ∅.

Lemma demo_can_map : can_map demo_vm 7 demo_vpn 5.
Proof.
  split; [lia|done|lia| | |by vm_compute|].
  - cbn. set_solver.
  - intros p k Hu. destruct Hu as [r Hr|r i e Hr|r i j e Hr]; destruct Hr as [[? _]%lookup_replicate ?]; by subst.
  - apply Z.leb_le. by vm_compute.
Qed.
Definition demo_mapped : vm (gset Z) := Eval vm_compute in
  match page_table_map 7 demo_vpn 5 demo_vm with Ok (_, s) => s | Err _ => demo_vm end.

Lemma demo_mapped_eq : page_table_map 7 demo_vpn 5 demo_vm = Ok (tt, demo_mapped).
Proof. by vm_compute. Qed.
Lemma demo_mapped_inv : inv_vm demo_mapped.
Proof.
  pose proof (page_table_map_spec 7 demo_vpn 5 demo_vm (vm_boot_inv _ _) demo_can_map) as Hw.
  unfold wp in Hw. rewrite demo_mapped_eq in Hw. apply Hw.
Qed.

Lemma demo_vpn_ok : vpn_ok demo_vpn.
Proof. unfold vpn_ok, demo_vpn. lia. Qed.
Lemma demo_maps : maps demo_mapped (Z.to_nat 7) demo_vpn (pa_of 5).
Proof. split; [done|]. split; by vm_compute. Qed.

Lemma page_table_map_correct_witness :
  ∃ s', page_table_map 7 demo_vpn 5 demo_vm = Ok (tt, s') ∧ inv_vm s' ∧
        aspace s' 7 demo_vpn = leaf (pa_of 5) ∧
        aspace s' 7 (SHELL_WORK_DIR / 4096) = leaf SHELL_WORK_DIR.
Proof.
  destruct (page_table_map_correct 7 demo_vpn 5 demo_vm (vm_boot_inv _ _) demo_can_map)
    as (s' & E & I & Hs & _).
  exists s'. split; [exact E|]. split; [exact I|].
  change 7%nat with (Z.to_nat 7). split.
  - by rewrite (Hs demo_vpn).
  - rewrite (Hs (SHELL_WORK_DIR / 4096)) by done. by vm_compute.
Defined.

Lemma translate_sv32_witness :
  ∃ s', page_table_switch 7 demo_mapped = Ok (tt, s') ∧
        page_table_translate 7 0x80200123 s' = Ok (0x80405123, s') ∧
        page_table_translate 7 0x90000000 s' = Err Fatal.
Proof.
  eexists. split; [by vm_compute|]. split.
  - rewrite (translate_sv32 7 0x80200123 Load demo_mapped) by (apply demo_mapped_inv || lia || by vm_compute).
    by vm_compute.
  - rewrite (translate_sv32 7 0x90000000 Store demo_mapped) by (apply demo_mapped_inv || lia || by vm_compute).
    by vm_compute.
Defined.

Lemma page_table_free_exact_witness :
  ∃ s', page_table_free 7 demo_mapped = Ok (tt, s') ∧ pa_of 5 ∉ v_alloc s'.
Proof.
  destruct (page_table_free_exact 7 demo_mapped demo_mapped_inv ltac:(lia)) as (s' & E & _ & Ho & _).
  exists s'. split; [exact E|]. intros Hin. destruct (proj1 (Ho (pa_of 5)) Hin) as [_ Hn]. apply Hn.
  exists (Data (demo_vpn / 1024) (demo_vpn mod 1024)). exact (maps_uses demo_mapped (Z.to_nat 7) demo_vpn (pa_of 5) demo_vpn_ok demo_maps).
Defined.

Lemma map_free_roundtrip_witness :
  ∃ s1 s2, page_table_map 7 demo_vpn 5 demo_vm = Ok (tt, s1) ∧ page_table_free 7 s1 = Ok (tt, s2) ∧
           v_alloc s2 = ∅.
Proof.
  destruct (map_free_roundtrip 7 demo_vpn 5 demo_vm (vm_boot_inv _ _) demo_can_map
    ltac:(by vm_compute) ltac:(by vm_compute)) as (s1 & s2 & E1 & E2 & Ho & _).
  exists s1, s2. split; [exact E1|]. split; [exact E2|].
  apply set_eq. intros a. rewrite (Ho a). cbn. set_solver.
Defined.

(** From boot: a page is allocated, mapped for process 7, and looked up. *)
Definition demo_alloc : vm (gset Z) := Eval vm_compute in
  match in_alloc (pmalloc 1) (vm_boot (∅ : gset Z) ∅) with Ok (_, s) => s | Err _ => vm_boot ∅ ∅ end.
Definition demo_run : vm (gset Z) := Eval vm_compute in
  match page_table_map 7 demo_vpn 0 demo_alloc with Ok (_, s) => s | Err _ => demo_alloc end.

Lemma vm_isolation_witness :
  maps demo_run 7 demo_vpn (pa_of 0) ∧ pa_of 0 ∈ v_alloc demo_run.
Proof.
  assert (maps demo_run 7 demo_vpn (pa_of 0)) as Hm by (split; [done|]; split; by vm_compute).
  split; [exact Hm|].
  destruct (vm_isolation ∅ ∅ demo_run (({[pa_of 0]} ∪ ∅) ∖ {[pa_of 0]})) as (_ & _ & _ & Ho & _).
  - eapply rtc_l; [apply (vm_alloc _ ∅ (pa_of 0) demo_alloc); [apply Z.ltb_lt; by vm_compute|by vm_compute]|].
    eapply rtc_l; [apply (vm_map demo_alloc _ 7 demo_vpn 0 demo_run); [set_solver|apply demo_vpn_ok|by vm_compute|apply Z.leb_le; by vm_compute|by vm_compute]|].
    apply rtc_once. apply (vm_translate _ _ 7 0x80200123 0x80400123). by vm_compute.
  - exact (proj1 (Ho (Z.to_nat 7) demo_vpn (pa_of 0) demo_vpn_ok Hm)).
Defined.
