(* ===== verification/Mlfq.v ===== *)
(** * The multi-level feedback queue: grass/mlfq.c

    Three queues of pointers into [proc_set]; a pointer is modelled by the
    index of the process.  The queue operations (queue.h) and [pid2idx] are
    not part of the repository: [Queue] has the operations and [QueueLaws] what
    their names promise, and [pid2idx] is a parameter, a function of the table. *)

From S2P Require Import Prelude Ipc.

(** ** Processes: grass/process.h *)

Inductive proc_status :=
  | PROC_UNUSED
  | PROC_LOADING
  | PROC_READY
  | PROC_RUNNING
  | PROC_RUNNABLE
  | PROC_PENDING_SYSCALL
  | PROC_SLEEPING.
#[export] Instance proc_status_eq_dec : EqDecision proc_status.
Proof. solve_decision. Defined.

(** The fields the scheduler reads; [longlongs] is the view of [schd_attr] it
    uses. *)
Record process := mk_process {
  pid : Z;
  status : proc_status;
  longlongs : list Z;
}.
#[export] Instance process_settable : Settable process :=
  settable! mk_process <pid; status; longlongs>.
#[export] Instance process_inhabited : Inhabited process :=
  populate (mk_process 0 PROC_UNUSED (replicate 8 0)).

Inductive state_transition :=
  | PROC_ON_ARRIVE
  | PROC_ON_SCHED_IN
  | PROC_ON_SCHED_OUT
  | PROC_ON_STOP
  | PROC_ON_SLEEP.

Definition QUANTUM : Z := 6000000.
Definition USER_PID_START : Z := 6.

(** ** Queues: queue.h

    [nodes q] are the items met from [q->head] along [next]. *)
Class Queue (Q : Type) := {
  queue_init : Q;
  nodes : Q → list nat;
  enqueue : Q → nat → Q;
  dequeue : Q → option nat * Q;
  try_rm_item : Q → nat → Q;
}.

(** First in, first out; [try_rm_item] is specified for queues without
    duplicates. *)
Class QueueLaws (Q : Type) `{Queue Q} := {
  nodes_init : nodes queue_init = [];
  nodes_enqueue q x : nodes (enqueue q x) = nodes q ++ [x];
  nodes_dequeue q :
    match nodes q with
    | [] => (dequeue q).1 = None ∧ nodes (dequeue q).2 = []
    | x :: l => (dequeue q).1 = Some x ∧ nodes (dequeue q).2 = l
    end;
  nodes_rm q x : NoDup (nodes q) → nodes (try_rm_item q x) = filter (λ y, y ≠ x) (nodes q);
}.

(** ** State and operations *)

Record sched (Q : Type) := mk_sched {
  proc_set : list process;
  q_high : Q;
  q_mid : Q;
  q_low : Q;
  initialized : bool;
  curr_proc_idx : nat;      (* core_to_proc_idx[core_in_kernel] *)
}.
Arguments mk_sched {Q}.
Arguments proc_set {Q}.
Arguments q_high {Q}.
Arguments q_mid {Q}.
Arguments q_low {Q}.
Arguments initialized {Q}.
Arguments curr_proc_idx {Q}.
#[export] Instance sched_settable Q : Settable (sched Q) :=
  settable! mk_sched <proc_set; q_high; q_mid; q_low; initialized; curr_proc_idx>.

Section mlfq.
Context {Q : Type} `{Queue Q} (pid2idx : list process → Z → nat).

Definition Sc : Type → Type := M (sched Q).

Definition mlfq_init : Sc unit :=
  modM (λ s, s <| q_high := queue_init |>);;
  modM (λ s, s <| q_mid := queue_init |>);;
  modM (λ s, s <| q_low := queue_init |>).

(** [&proc_set[pid2idx(pid)]] *)
Definition ref_of (pid : Z) (s : sched Q) : nat := pid2idx (proc_set s) pid.

Definition remove_pid (pid : Z) : Sc unit :=
  modM (λ s, s <| q_high ::= λ q, try_rm_item q (ref_of pid s) |>);;
  modM (λ s, s <| q_mid ::= λ q, try_rm_item q (ref_of pid s) |>);;
  modM (λ s, s <| q_low ::= λ q, try_rm_item q (ref_of pid s) |>).

Definition runnable (p : process) : bool :=
  bool_decide (status p = PROC_READY) || bool_decide (status p = PROC_RUNNABLE).

(** The [while] loop of [dequeue_runnable], on one queue. *)
Fixpoint dequeue_loop (ps : list process) (count : nat) (q : Q) : res (Z * Q) :=
  match count with
  | O => Ok (0, q)
  | S count =>
      match dequeue q with
      | (None, q) => Ok (0, q)
      | (Some i, q) =>
          match ps !! i with
          | Some p => if runnable p then Ok (pid p, q) else dequeue_loop ps count (enqueue q i)
          | None => Err OutOfBounds
          end
      end
  end.

(** [dequeue_runnable(&q)] for the queue [f]. *)
Definition dequeue_runnable (f : sched Q → Q) {_ : Setter f} : Sc Z := λ s,
  match dequeue_loop (proc_set s) (length (nodes (f s))) (f s) with
  | Ok (pid, q) => Ok (pid, s <| f := q |>)
  | Err e => Err e
  end.

Definition pick_next_pid : Sc Z :=
  pid ← dequeue_runnable q_high;
  pid ← (if pid =? 0 then dequeue_runnable q_mid else mret pid);
  (if pid =? 0 then dequeue_runnable q_low else mret pid).

(** Reading [*p]. *)
Definition deref (p : nat) : Sc process := λ s,
  match proc_set s !! p with
  | Some x => Ok (x, s)
  | None => Err OutOfBounds
  end.

Definition level_for_pid (pid : Z) : Sc Z :=
  if pid <? USER_PID_START then mret 0
  else
    p ← getM (ref_of pid);
    x ← deref p;
    let t := longlongs x !!! 3%nat in
    mret (if t <=? QUANTUM then 0 else if t <? 2 * QUANTUM then 1 else 2).

Definition enqueue_pid (pid : Z) : Sc unit :=
  remove_pid pid;;
  p ← getM (ref_of pid);
  x ← deref p;
  if bool_decide (status x = PROC_UNUSED) then mret tt
  else
    lvl ← level_for_pid pid;
    if lvl =? 0 then modM (λ s, s <| q_high ::= λ q, enqueue q p |>)
    else if lvl =? 1 then modM (λ s, s <| q_mid ::= λ q, enqueue q p |>)
    else modM (λ s, s <| q_low ::= λ q, enqueue q p |>).

Definition mlfq : Sc Z :=
  i ← getM curr_proc_idx;
  c ← deref i;
  let curr_pid := pid c in
  let curr_status := status c in
  let st x := bool_decide (curr_status = x) in
  (if st PROC_RUNNING || st PROC_RUNNABLE || st PROC_READY then remove_pid curr_pid
   else mret tt);;
  next_pid ← pick_next_pid;
  if next_pid =? 0 then
    if st PROC_RUNNING || st PROC_RUNNABLE then mret curr_pid else mret 0
  else
    (if st PROC_READY || st PROC_RUNNABLE then enqueue_pid curr_pid else mret tt);;
    mret next_pid.

Definition mlfq_update (pid : Z) (tran : state_transition) (time_units : Z) : Sc unit :=
  ini ← getM initialized;
  (if negb ini then mlfq_init;; modM (λ s, s <| initialized := true |>) else mret tt);;
  match tran with
  | PROC_ON_ARRIVE => enqueue_pid pid
  | PROC_ON_SCHED_IN => remove_pid pid
  | PROC_ON_SCHED_OUT => enqueue_pid pid
  | PROC_ON_STOP => remove_pid pid
  | PROC_ON_SLEEP => mret tt
  end.
End mlfq.
