(* ===== verification/MlfqThms.v ===== *)
(** * The scheduler queues: invariant and theorems

    The invariant is the one the comment above [mlfq] asks for: no process is
    in two queues, or twice in one.  [mlfq_picks] states what [mlfq] returns and
    what it leaves in each queue. *)

From stdpp Require Import relations.
From S2P Require Import Prelude Mlfq.

Section sched.
Context {Q : Type} `{QueueLaws Q} (pid2idx : list process → Z → nat).
Implicit Types s : sched Q.

Definition queues s : list nat := nodes (q_high s) ++ nodes (q_mid s) ++ nodes (q_low s).

Record inv_sched s : Prop := {
  inv_nodup : NoDup (queues s);
  inv_range : Forall (λ i, is_Some (proc_set s !! i)) (queues s);
}.

(** [pid2idx] finds the entry of a process in use, whose pid is not 0. *)
Definition pids_ok (ps : list process) : Prop :=
  ∀ i p, ps !! i = Some p → status p ≠ PROC_UNUSED → pid p ≠ 0 ∧ pid2idx ps (pid p) = i.

Definition idle (ps : list process) (i : nat) : Prop :=
  ∃ p, ps !! i = Some p ∧ runnable p = false.

(** The first runnable item leaves the queue, those before it go to its end. *)
Inductive picked (ps : list process) : list nat → Z → list nat → Prop :=
  | picked_some l1 i l2 p :
      Forall (idle ps) l1 → ps !! i = Some p → runnable p = true →
      picked ps (l1 ++ i :: l2) (pid p) (l2 ++ l1)
  | picked_none l : Forall (idle ps) l → picked ps l 0 l.

Lemma dequeue_loop_spec ps l rot q :
  nodes q = l ++ rot → Forall (λ i, is_Some (ps !! i)) l →
  ∃ r q', dequeue_loop ps (length l) q = Ok (r, q') ∧
    ((∃ l1 i l2 p, l = l1 ++ i :: l2 ∧ Forall (idle ps) l1 ∧ ps !! i = Some p ∧ runnable p = true ∧
        r = pid p ∧ nodes q' = l2 ++ rot ++ l1) ∨
     (Forall (idle ps) l ∧ r = 0 ∧ nodes q' = rot ++ l)).
Proof.
  revert rot q. induction l as [|i l IH]; intros rot q Hq Hl.
  { exists 0, q. split; [done|]. right. by rewrite app_nil_r. }
  cbn [length dequeue_loop]. pose proof (nodes_dequeue q) as Hd. rewrite Hq in Hd. cbn in Hd.
  destruct (dequeue q) as [o q1]. cbn in Hd. destruct Hd as [-> Hq1].
  apply Forall_cons_1 in Hl as [[p Hp] Hl]. rewrite Hp. destruct (runnable p) eqn:Hr.
  - exists (pid p), q1. split; [done|]. left. exists [], i, l, p. by rewrite app_nil_r.
  - destruct (IH (rot ++ [i]) (enqueue q1 i)) as (r & q' & E & Hc).
    { by rewrite nodes_enqueue, Hq1, app_assoc. }
    { done. }
    exists r, q'. split; [done|]. assert (idle ps i) as Hi by by exists p.
    destruct Hc as [(l1 & i' & l2 & p' & -> & ? & ? & ? & -> & ->)|(? & -> & ->)]; [left|right].
    + exists (i :: l1), i', l2, p'. split_and!; try done; [by constructor|]. by rewrite <-!app_assoc.
    + split; [by constructor|]. by rewrite <-app_assoc.
Qed.

Lemma dequeue_loop_picked ps q :
  Forall (λ i, is_Some (ps !! i)) (nodes q) →
  ∃ r q', dequeue_loop ps (length (nodes q)) q = Ok (r, q') ∧ picked ps (nodes q) r (nodes q').
Proof.
  intros Hl. destruct (dequeue_loop_spec ps (nodes q) [] q) as (r & q' & E & Hc); [by rewrite app_nil_r|done|].
  exists r, q'. split; [done|].
  destruct Hc as [(l1 & i & l2 & p & -> & ? & ? & ? & -> & ->)|(? & -> & ->)]; by constructor.
Qed.

Lemma picked_zero ps l l' : pids_ok ps → picked ps l 0 l' → Forall (idle ps) l ∧ l' = l.
Proof.
  intros Hp. inversion 1 as [l1 i l2 p ? Hi Hr E|]; subst; [|done]. destruct (Hp i p Hi) as [? _]; [|done].
  unfold runnable in Hr. intros Hs. by rewrite Hs in Hr.
Qed.
Lemma picked_some_inv ps l r l' :
  r ≠ 0 → picked ps l r l' → ∃ l1 i l2 p, l = l1 ++ i :: l2 ∧ Forall (idle ps) l1 ∧ ps !! i = Some p ∧
    runnable p = true ∧ r = pid p ∧ l' = l2 ++ l1.
Proof. intros Hr. inversion 1; subst; [|done]. by eauto 10. Qed.

(** What [pick_next_pid] and [mlfq] choose from the processes [l], in order of
    priority: the first that is runnable. *)
Definition Chosen (ps : list process) (l : list nat) (r : Z) (l' : list nat) : Prop :=
  (∃ l1 i l2 p, l = l1 ++ i :: l2 ∧ Forall (idle ps) l1 ∧ ps !! i = Some p ∧ runnable p = true ∧
     r = pid p ∧ r ≠ 0 ∧ l' ≡ₚ l1 ++ l2) ∨
  (Forall (idle ps) l ∧ r = 0 ∧ l' = l).

Lemma pick_next_pid_spec s :
  pids_ok (proc_set s) → inv_sched s →
  ∃ r s', pick_next_pid s = Ok (r, s') ∧ proc_set s' = proc_set s ∧
    curr_proc_idx s' = curr_proc_idx s ∧ initialized s' = initialized s ∧
    Chosen (proc_set s) (queues s) r (queues s').
Proof.
  intros Hp [_ Hr]. unfold queues in Hr. rewrite !Forall_app in Hr. destruct Hr as (Hh & Hm & Hl).
  unfold pick_next_pid, dequeue_runnable, mbind, M_bind.
  destruct (dequeue_loop_picked _ _ Hh) as (r1 & q1 & -> & P1).
  destruct (Z.eqb_spec r1 0) as [->|Hn1].
  2: { cbn. rewrite (proj2 (Z.eqb_neq r1 0)) by done. eexists _, _. split; [done|]. split_and!; try done. left.
       destruct (picked_some_inv _ _ _ _ Hn1 P1) as (l1 & i & l2 & p & E1 & ? & ? & ? & E2 & E3).
       exists l1, i, (l2 ++ nodes (q_mid s) ++ nodes (q_low s)), p. unfold queues. cbn. rewrite E1, E3.
       split; [by rewrite <-app_assoc|]. split_and!; try done. by rewrite (Permutation_app_comm l2 l1), <-app_assoc. }
  apply picked_zero in P1 as [I1 E1]; [|done]. cbn.
  destruct (dequeue_loop_picked _ _ Hm) as (r2 & q2 & -> & P2).
  destruct (Z.eqb_spec r2 0) as [->|Hn2].
  2: { eexists _, _. split; [done|]. split_and!; try done. left.
       destruct (picked_some_inv _ _ _ _ Hn2 P2) as (l1 & i & l2 & p & E2 & ? & ? & ? & E3 & E4).
       exists (nodes (q_high s) ++ l1), i, (l2 ++ nodes (q_low s)), p. unfold queues. cbn. rewrite E1, E2, E4.
       split; [by rewrite <-!app_assoc|]. split_and!; try done; [by apply Forall_app|].
       by rewrite (Permutation_app_comm l2 l1), <-!app_assoc. }
  apply picked_zero in P2 as [I2 E2]; [|done]. cbn.
  destruct (dequeue_loop_picked _ _ Hl) as (r3 & q3 & -> & P3).
  eexists _, _. split; [done|]. split_and!; try done. unfold Chosen, queues. cbn. rewrite E1, E2.
  destruct (Z.eqb_spec r3 0) as [->|Hn3].
  - apply picked_zero in P3 as [I3 E3]; [|done]. right. rewrite E3, !Forall_app. done.
  - left. destruct (picked_some_inv _ _ _ _ Hn3 P3) as (l1 & i & l2 & p & E3 & ? & ? & ? & E4 & E5).
    exists (nodes (q_high s) ++ nodes (q_mid s) ++ l1), i, l2, p. rewrite E3, E5.
    split; [by rewrite <-!app_assoc|]. split_and!; try done; [by rewrite !Forall_app|].
    by rewrite (Permutation_app_comm l2 l1), <-!app_assoc.
Qed.

(** ** Adding and removing *)

Definition level_queue s (k : Z) : list nat :=
  if k =? 0 then nodes (q_high s) else if k =? 1 then nodes (q_mid s) else nodes (q_low s).

(** The level a process belongs to: system processes, and user processes by
    the time they have used. *)
Definition level (pid : Z) (p : process) : Z :=
  let t := longlongs p !!! 3%nat in
  if pid <? USER_PID_START then 0
  else if t <=? QUANTUM then 0 else if t <? 2 * QUANTUM then 1 else 2.

Definition without (i : nat) (l : list nat) : list nat := filter (λ j, j ≠ i) l.

Record same_procs s s' : Prop := {
  sp_procs : proc_set s' = proc_set s;
  sp_curr : curr_proc_idx s' = curr_proc_idx s;
  sp_init : initialized s' = initialized s;
}.

Lemma queues_nodup s :
  NoDup (queues s) → NoDup (nodes (q_high s)) ∧ NoDup (nodes (q_mid s)) ∧ NoDup (nodes (q_low s)).
Proof. unfold queues. rewrite !list.NoDup_app. tauto. Qed.

Lemma remove_pid_spec pid s :
  NoDup (queues s) → ∃ s', remove_pid pid2idx pid s = Ok (tt, s') ∧ same_procs s s' ∧
    ∀ k, level_queue s' k = without (pid2idx (proc_set s) pid) (level_queue s k).
Proof.
  intros (Hh & Hm & Hl)%queues_nodup. eexists. split; [done|]. split; [done|].
  intros k. unfold level_queue, without. repeat case_match; cbn; by rewrite nodes_rm.
Qed.

Lemma queues_without s s' i :
  (∀ k, level_queue s' k = without i (level_queue s k)) → queues s' = without i (queues s).
Proof.
  intros Hq. unfold queues, without. rewrite !list.filter_app.
  by rewrite (Hq 0 : nodes (q_high s') = _), (Hq 1 : nodes (q_mid s') = _), (Hq 2 : nodes (q_low s') = _).
Qed.

Lemma without_inv s s' i :
  inv_sched s → same_procs s s' → queues s' = without i (queues s) → inv_sched s'.
Proof.
  intros [Hn Hr] [Hp _ _] Hq. split; rewrite Hq; [by apply list.NoDup_filter|]. rewrite Hp.
  apply list.Forall_forall. intros j [_ Hj]%list_elem_of_filter. by apply (proj1 (list.Forall_forall _ _) Hr).
Qed.

Lemma not_in_without i l : i ∉ without i l.
Proof. unfold without. rewrite list_elem_of_filter. naive_solver. Qed.
Lemma without_id i l : i ∉ l → without i l = l.
Proof.
  intros Hi. induction l as [|j l IH]; [done|]. unfold without in *. rewrite not_elem_of_cons in Hi.
  rewrite filter_cons_True by naive_solver. f_equal. naive_solver.
Qed.

Lemma level_bound pid x : 0 ≤ level pid x < 3.
Proof. unfold level. repeat case_match; lia. Qed.

Lemma queues_added s s' i l :
  0 ≤ l < 3 → (∀ k, 0 ≤ k < 3 → level_queue s' k = level_queue s k ++ (if bool_decide (k = l) then [i] else [])) →
  queues s' ≡ₚ i :: queues s.
Proof.
  intros Hl Hq. unfold queues.
  rewrite (Hq 0 ltac:(lia) : nodes (q_high s') = _), (Hq 1 ltac:(lia) : nodes (q_mid s') = _),
    (Hq 2 ltac:(lia) : nodes (q_low s') = _). unfold level_queue. cbn [Z.eqb Pos.eqb].
  assert (l = 0 ∨ l = 1 ∨ l = 2) as [-> | [-> | ->]] by lia; cbn; rewrite ?app_nil_r, <-?app_assoc; cbn.
  - symmetry. apply Permutation_middle.
  - rewrite !(app_assoc (nodes (q_high s))). symmetry. apply Permutation_middle.
  - rewrite !app_assoc. symmetry. apply Permutation_cons_append.
Qed.

Lemma added_inv s s' i l :
  inv_sched s → is_Some (proc_set s !! i) → same_procs s s' → 0 ≤ l < 3 →
  (∀ k, 0 ≤ k < 3 → level_queue s' k = level_queue s k ++ (if bool_decide (k = l) then [i] else [])) →
  i ∉ queues s → inv_sched s'.
Proof.
  intros [Hn Hr] Hi [Hp _ _] Hl Hq Hni. pose proof (queues_added s s' i l Hl Hq) as Hperm.
  split; rewrite Hperm; [by constructor|]. rewrite Hp. by constructor.
Qed.

Lemma enqueue_pid_spec pid s x :
  inv_sched s → proc_set s !! pid2idx (proc_set s) pid = Some x →
  let i := pid2idx (proc_set s) pid in
  ∃ s', enqueue_pid pid2idx pid s = Ok (tt, s') ∧ same_procs s s' ∧ inv_sched s' ∧
    ∀ k, 0 ≤ k < 3 → level_queue s' k = without i (level_queue s k) ++
           (if bool_decide (status x ≠ PROC_UNUSED ∧ k = level pid x) then [i] else []).
Proof.
  intros I Hx i. destruct (remove_pid_spec pid s) as (s1 & E1 & Hs & Hq1); [apply I|].
  pose proof (without_inv s s1 i I Hs (queues_without s s1 i Hq1)) as I1. destruct Hs as [Hp Hc Hi].
  unfold enqueue_pid, mbind, M_bind. rewrite E1. unfold getM, ref_of, deref. cbv beta iota. rewrite Hp, Hx. fold i in Hq1 |- *.
  destruct (bool_decide_reflect (status x = PROC_UNUSED)) as [Hu|Hu].
  { exists s1. split; [done|]. split; [done|]. split; [done|]. intros k _.
    rewrite bool_decide_false by tauto. by rewrite app_nil_r, Hq1. }
  assert (level_for_pid pid2idx pid s1 = Ok (level pid x, s1)) as ->.
  { unfold level_for_pid, level, mbind, M_bind, getM, deref, ref_of, mret, M_ret.
    case_match; [done|]. by rewrite Hp, Hx. }
  assert (∀ s', same_procs s1 s' → (∀ k, 0 ≤ k < 3 → level_queue s' k = level_queue s1 k ++
      (if bool_decide (k = level pid x) then [i] else [])) →
    same_procs s s' ∧ inv_sched s' ∧ ∀ k, 0 ≤ k < 3 → level_queue s' k = without i (level_queue s k) ++
      (if bool_decide (status x ≠ PROC_UNUSED ∧ k = level pid x) then [i] else [])) as Hfin.
  { intros s' [Hp' Hc' Hi'] Hq'. split; [split; congruence|]. split.
    - apply (added_inv s1 s' i (level pid x)); [done|by rewrite Hp; eexists|done|apply level_bound|done|].
      rewrite (queues_without s s1 i Hq1). apply not_in_without.
    - intros k Hk. rewrite Hq', Hq1 by done. f_equal. do 2 case_bool_decide; tauto. }
  unfold level in *. repeat case_match; eexists; (split; [done|]); apply Hfin; try done;
    intros k Hk; assert (k = 0 ∨ k = 1 ∨ k = 2) as [-> | [-> | ->]] by lia; cbn;
    by rewrite ?nodes_enqueue, ?app_nil_r.
Qed.

(** ** Theorems *)

Definition base_queue s (k : Z) : list nat := if initialized s then level_queue s k else [].

Lemma mlfq_update_run p tran t s :
  (initialized s = true → inv_sched s) → is_Some (proc_set s !! pid2idx (proc_set s) p) →
  let i := pid2idx (proc_set s) p in
  ∃ x s', proc_set s !! i = Some x ∧ mlfq_update pid2idx p tran t s = Ok (tt, s') ∧
    inv_sched s' ∧ proc_set s' = proc_set s ∧
    ∀ k, 0 ≤ k < 3 → level_queue s' k =
      match tran with
      | PROC_ON_ARRIVE | PROC_ON_SCHED_OUT =>
          without i (base_queue s k) ++
          (if bool_decide (status x ≠ PROC_UNUSED ∧ k = level p x) then [i] else [])
      | PROC_ON_SCHED_IN | PROC_ON_STOP => without i (base_queue s k)
      | PROC_ON_SLEEP => base_queue s k
      end.
Proof.
  intros Hinv [x Hx] i. exists x. subst i.
  assert (∃ s1, mlfq_update pid2idx p tran t s =
      match tran with
      | PROC_ON_ARRIVE | PROC_ON_SCHED_OUT => enqueue_pid pid2idx p
      | PROC_ON_SCHED_IN | PROC_ON_STOP => remove_pid pid2idx p
      | PROC_ON_SLEEP => mret tt
      end s1 ∧ inv_sched s1 ∧ proc_set s1 = proc_set s ∧ ∀ k, level_queue s1 k = base_queue s k)
    as (s1 & -> & I1 & P1 & Q1).
  { unfold base_queue, mlfq_update, mbind, M_bind, getM. destruct (initialized s).
    - exists s. split; [by destruct tran|auto].
    - eexists. split; [by destruct tran|]. unfold level_queue.
      split; [split; unfold queues; cbn; rewrite !nodes_init; by constructor|].
      split; [done|]. intros k. repeat case_match; cbn; apply nodes_init. }
  rewrite <-P1 in *.
  destruct (enqueue_pid_spec p s1 x I1 Hx) as (s2 & E2 & [P2 _ _] & I2 & Q2).
  destruct (remove_pid_spec p s1) as (s3 & E3 & S3 & Q3); [apply I1|].
  pose proof (without_inv s1 s3 _ I1 S3 (queues_without s1 s3 _ Q3)) as I3. destruct S3 as [P3 _ _].
  destruct tran; [exists s2|exists s3|exists s2|exists s3|exists s1];
    (split; [done|]; split; [done|]; split; [done|]; split; [congruence|]);
    intros k Hk; rewrite ?Q2, ?Q3, ?Q1 by done; done.
Qed.

(** What each event does to the queues: a process that arrives or is
    scheduled out moves to the end of the queue of its level (an unused one to
    none), one that is scheduled in or stops leaves its queue, and the others
    keep their queue and order; the first event starts from empty queues. *)
Theorem mlfq_update_queues p tran t s :
  (initialized s = true → inv_sched s) → is_Some (proc_set s !! pid2idx (proc_set s) p) →
  let i := pid2idx (proc_set s) p in
  ∃ x s', proc_set s !! i = Some x ∧ mlfq_update pid2idx p tran t s = Ok (tt, s') ∧
    inv_sched s' ∧ proc_set s' = proc_set s ∧
    ∀ k, 0 ≤ k < 3 → level_queue s' k =
      match tran with
      | PROC_ON_ARRIVE | PROC_ON_SCHED_OUT =>
          without i (base_queue s k) ++
          (if bool_decide (status x ≠ PROC_UNUSED ∧ k = level p x) then [i] else [])
      | PROC_ON_SCHED_IN | PROC_ON_STOP => without i (base_queue s k)
      | PROC_ON_SLEEP => base_queue s k
      end.
Proof. apply mlfq_update_run. Qed.

Lemma chosen_inv s s' r :
  inv_sched s → proc_set s' = proc_set s → Chosen (proc_set s) (queues s) r (queues s') →
  inv_sched s' ∧ ∀ j, j ∈ queues s' → j ∈ queues s.
Proof.
  intros [Hn Hr] Hp Hc. destruct Hc as [(l1 & i & l2 & p & E & _ & _ & _ & _ & _ & Hl)|(_ & _ & E)].
  - rewrite E in *. assert (i :: queues s' ≡ₚ l1 ++ i :: l2) as Hperm by by rewrite Hl, Permutation_middle.
    rewrite <-Hperm in Hn, Hr. split; [|intros j Hj; rewrite <-Hperm; by right].
    inversion Hn; inversion Hr; subst. split; [done|by rewrite Hp].
  - split; [|by rewrite E]. split; rewrite E; [done|by rewrite Hp].
Qed.

Lemma enqueue_new pid s x :
  inv_sched s → proc_set s !! pid2idx (proc_set s) pid = Some x → status x ≠ PROC_UNUSED →
  pid2idx (proc_set s) pid ∉ queues s →
  ∃ s', enqueue_pid pid2idx pid s = Ok (tt, s') ∧ proc_set s' = proc_set s ∧ inv_sched s' ∧
    queues s' ≡ₚ pid2idx (proc_set s) pid :: queues s.
Proof.
  intros I Hx Hu Hni. destruct (enqueue_pid_spec pid s x I Hx) as (s' & E & [Hp _ _] & I' & Hq).
  exists s'. split; [done|]. split; [done|]. split; [done|].
  apply (queues_added s s' _ (level pid x)); [apply level_bound|]. intros k Hk. rewrite Hq by done.
  rewrite without_id.
  - f_equal. do 2 case_bool_decide; tauto.
  - unfold queues, level_queue in *. rewrite !elem_of_app in Hni. repeat case_match; tauto.
Qed.

Definition active (p : process) : bool :=
  bool_decide (status p = PROC_RUNNING) || bool_decide (status p = PROC_RUNNABLE) ||
  bool_decide (status p = PROC_READY).

(** The processes [mlfq] chooses from, in order of priority. *)
Definition candidates s (c : process) : list nat :=
  if active c then without (curr_proc_idx s) (queues s) else queues s.

Lemma mlfq_run s c :
  inv_sched s → pids_ok (proc_set s) → proc_set s !! curr_proc_idx s = Some c →
  ∃ r s', mlfq pid2idx s = Ok (r, s') ∧ inv_sched s' ∧ proc_set s' = proc_set s ∧
    ((∃ l1 i l2 p, candidates s c = l1 ++ i :: l2 ∧ Forall (idle (proc_set s)) l1 ∧
        proc_set s !! i = Some p ∧ runnable p = true ∧ r = pid p ∧ (i ∉ queues s') ∧
        queues s' ≡ₚ (if runnable c then [curr_proc_idx s] else []) ++ l1 ++ l2) ∨
     (Forall (idle (proc_set s)) (candidates s c) ∧ queues s' = candidates s c ∧
        r = if bool_decide (status c = PROC_RUNNING) || bool_decide (status c = PROC_RUNNABLE)
            then pid c else 0)).
Proof.
  intros I Hp Hc. set (ci := curr_proc_idx s) in *.
  assert (active c = true → pid2idx (proc_set s) (pid c) = ci) as Hidx.
  { intros Ha. apply (Hp ci c Hc). intros Hu. unfold active in Ha. by rewrite Hu in Ha. }
  assert (∃ s1, (if active c then remove_pid pid2idx (pid c) else mret tt) s = Ok (tt, s1) ∧
    inv_sched s1 ∧ proc_set s1 = proc_set s ∧ queues s1 = candidates s c) as (s1 & E1 & I1 & P1 & Q1).
  { unfold candidates. destruct (active c); [|by exists s].
    destruct (remove_pid_spec (pid c) s) as (s1 & E & S & Hq); [apply I|]. rewrite Hidx in Hq by done.
    exists s1. pose proof (queues_without s s1 _ Hq). split; [done|].
    split; [by eapply without_inv|]. by destruct S. }
  rewrite <-Q1, <-P1 in *.
  destruct (pick_next_pid_spec s1 Hp I1) as (r & s2 & E2 & P2 & _ & _ & Hch).
  destruct (chosen_inv s1 s2 r I1 P2 Hch) as [I2 Hsub].
  assert (mlfq pid2idx s =
    (if r =? 0 then if bool_decide (status c = PROC_RUNNING) || bool_decide (status c = PROC_RUNNABLE)
                    then mret (pid c) else mret 0
     else (if bool_decide (status c = PROC_READY) || bool_decide (status c = PROC_RUNNABLE)
           then enqueue_pid pid2idx (pid c) else mret tt);; mret r) s2) as ->.
  { unfold mlfq, mbind, M_bind, getM, deref. cbv beta iota. fold ci. rewrite <-P1, Hc. fold (active c).
    rewrite E1, E2. done. }
  destruct Hch as [(l1 & i & l2 & p & E & ? & ? & ? & -> & Hr & Hl)|(? & -> & Q2)].
  2: { exists (if bool_decide (status c = PROC_RUNNING) || bool_decide (status c = PROC_RUNNABLE)
               then pid c else 0), s2.
       split; [by destruct (_ || _)|]. split; [done|]. split; [done|]. right. by split_and!. }
  rewrite (proj2 (Z.eqb_neq (pid p) 0)) by done. fold (runnable c). unfold mbind, M_bind.
  assert ((i ∉ l1 ++ l2) ∧ i ∈ queues s1) as [Hi Hi'].
  { pose proof (inv_nodup _ I1) as Hn. rewrite E, <-Permutation_middle in Hn. inversion Hn; subst.
    split; [done|]. rewrite E. apply elem_of_app. right. by left. }
  destruct (runnable c) eqn:Hrc.
  - assert (active c = true) as Ha by (unfold runnable, active in *; destruct (status c); done).
    assert (ci ∉ queues s1) as Hci by (rewrite Q1; unfold candidates; rewrite Ha; apply not_in_without).
    rewrite <-P2 in Hc, Hidx. specialize (Hidx Ha).
    destruct (enqueue_new (pid c) s2 c I2) as (s3 & E3 & P3 & I3 & Q3).
    + by rewrite Hidx.
    + unfold runnable in Hrc. by destruct (status c).
    + rewrite Hidx. by intros ?%Hsub.
    + rewrite E3. eexists _, s3. split; [done|]. split; [done|]. split; [congruence|]. left.
      exists l1, i, l2, p. split_and!; try done; rewrite Q3, Hl, Hidx; [|done].
      rewrite elem_of_cons. intros [->|?]; done.
  - eexists _, s2. split; [done|]. split; [done|]. split; [done|]. left.
    exists l1, i, l2, p. split_and!; try done. by rewrite Hl.
Qed.

(** *** Level by level

    What is left at each level to choose from: the current process is not
    considered, if it is in a queue at all. *)
Definition candidates_at s (c : process) (k : Z) : list nat :=
  if active c then without (curr_proc_idx s) (level_queue s k) else level_queue s k.

Ltac by_level :=
  let j := fresh "j" in let Hj := fresh "Hj" in
  intros j Hj; assert (j = 0 ∨ j = 1 ∨ j = 2) as [-> | [-> | ->]] by lia.

Lemma candidates_levels s c k i : 0 ≤ k < 3 → i ∈ candidates_at s c k → i ∈ candidates s c.
Proof.
  revert k. unfold candidates, candidates_at, queues, without.
  by_level; unfold level_queue; cbn; destruct (active c); rewrite ?list.filter_app, !elem_of_app; tauto.
Qed.

(** The choice: the first runnable process [i] of the highest level [k] that has
    one.  Those before it in its queue have gone to the end; the other queues
    are as they were. *)
Record chosen_at (ps : list process) (Q0 Q1 : Z → list nat) (k : Z) (i : nat) (r : Z) : Prop := {
  ca_level : 0 ≤ k < 3;
  ca_above : ∀ j, 0 ≤ j < k → Forall (idle ps) (Q0 j);
  ca_queue : ∃ l1 l2, Q0 k = l1 ++ i :: l2 ∧ Forall (idle ps) l1 ∧ Q1 k = l2 ++ l1;
  ca_same : ∀ j, 0 ≤ j < 3 → j ≠ k → Q1 j = Q0 j;
  ca_process : ∃ p, ps !! i = Some p ∧ runnable p = true ∧ r = pid p ∧ r ≠ 0
}.

Lemma picked_chosen ps Q0 Q1 k r :
  0 ≤ k < 3 → r ≠ 0 → picked ps (Q0 k) r (Q1 k) → (∀ j, 0 ≤ j < k → Forall (idle ps) (Q0 j)) →
  (∀ j, 0 ≤ j < 3 → j ≠ k → Q1 j = Q0 j) → ∃ i, chosen_at ps Q0 Q1 k i r.
Proof.
  intros Hk Hr (l1 & i & l2 & p & E1 & ? & ? & ? & -> & E2)%picked_some_inv Ha Hs; [|done].
  exists i. split; try done; [by exists l1, l2|by exists p].
Qed.

Lemma pick_levels s :
  pids_ok (proc_set s) → inv_sched s →
  ∃ r s', pick_next_pid s = Ok (r, s') ∧ proc_set s' = proc_set s ∧
    ((∃ k i, chosen_at (proc_set s) (level_queue s) (level_queue s') k i r) ∨
     ((∀ k, 0 ≤ k < 3 → Forall (idle (proc_set s)) (level_queue s k) ∧ level_queue s' k = level_queue s k) ∧ r = 0)).
Proof.
  intros Hp [_ Hr]. unfold queues in Hr. rewrite !Forall_app in Hr. destruct Hr as (Hh & Hm & Hl).
  unfold pick_next_pid, dequeue_runnable, mbind, M_bind.
  destruct (dequeue_loop_picked _ _ Hh) as (r1 & q1 & -> & P1). cbn.
  destruct (Z.eqb_spec r1 0) as [->|Hn1].
  2: { cbn. rewrite (proj2 (Z.eqb_neq r1 0)) by done. eexists _, _. split; [done|]. split; [done|]. left. exists 0.
       apply picked_chosen; [done..|lia|by by_level]. }
  apply picked_zero in P1 as [I1 E1]; [|done]. cbn.
  destruct (dequeue_loop_picked _ _ Hm) as (r2 & q2 & -> & P2).
  destruct (Z.eqb_spec r2 0) as [->|Hn2].
  2: { eexists _, _. split; [done|]. split; [done|]. left. exists 1.
       apply picked_chosen; [done..| |by by_level]. intros j Hj. by assert (j = 0) as -> by lia. }
  apply picked_zero in P2 as [I2 E2]; [|done]. cbn.
  destruct (dequeue_loop_picked _ _ Hl) as (r3 & q3 & -> & P3).
  eexists _, _. split; [done|]. split; [done|]. destruct (Z.eqb_spec r3 0) as [->|Hn3].
  - apply picked_zero in P3 as [I3 E3]; [|done]. right. split; [|done]. by by_level.
  - left. exists 2. apply picked_chosen; [done..| |by by_level].
    intros j Hj. by assert (j = 0 ∨ j = 1) as [-> | ->] by lia.
Qed.

(** The current process [c] joins the end of the queue of its level, if it is
    ready or runnable. *)
Definition joins s (c : process) (Q0 Q1 : Z → list nat) : Prop :=
  ∀ k, 0 ≤ k < 3 → Q1 k = Q0 k ++ (if runnable c && (k =? level (pid c) c) then [curr_proc_idx s] else []).

Lemma level_in_queues s k i : i ∈ level_queue s k → i ∈ queues s.
Proof. unfold queues, level_queue. rewrite !elem_of_app. repeat case_match; tauto. Qed.

Lemma not_queued s i Q0 : (∀ k, level_queue s k = without i (Q0 k)) → i ∉ queues s.
Proof.
  intros Hq. assert (∀ k, i ∉ level_queue s k) as Hn by (intros k; rewrite Hq; apply not_in_without).
  unfold queues. rewrite !elem_of_app. pose proof (Hn 0). pose proof (Hn 1). pose proof (Hn 2).
  unfold level_queue in *. cbn in *. tauto.
Qed.

Lemma mlfq_levels s c :
  inv_sched s → pids_ok (proc_set s) → proc_set s !! curr_proc_idx s = Some c →
  ∃ r s', mlfq pid2idx s = Ok (r, s') ∧
    ((∃ k i Q1, chosen_at (proc_set s) (candidates_at s c) Q1 k i r ∧ joins s c Q1 (level_queue s')) ∨
     ((∀ k, 0 ≤ k < 3 → Forall (idle (proc_set s)) (candidates_at s c k) ∧
                        level_queue s' k = candidates_at s c k) ∧
      r = if bool_decide (status c = PROC_RUNNING) || bool_decide (status c = PROC_RUNNABLE)
          then pid c else 0)).
Proof.
  intros I Hp Hc. set (ci := curr_proc_idx s) in *.
  assert (active c = true → pid2idx (proc_set s) (pid c) = ci) as Hidx.
  { intros Ha. apply (Hp ci c Hc). intros Hu. unfold active in Ha. by rewrite Hu in Ha. }
  assert (∃ s1, (if active c then remove_pid pid2idx (pid c) else mret tt) s = Ok (tt, s1) ∧
    inv_sched s1 ∧ proc_set s1 = proc_set s ∧ ∀ k, level_queue s1 k = candidates_at s c k) as (s1 & E1 & I1 & P1 & Q1).
  { unfold candidates_at. destruct (active c); [|by exists s].
    destruct (remove_pid_spec (pid c) s) as (s1 & E & S & Hq); [apply I|]. rewrite Hidx in Hq by done.
    exists s1. pose proof (queues_without s s1 _ Hq). split; [done|].
    split; [by eapply without_inv|]. by destruct S. }
  destruct (pick_levels s1) as (r & s2 & E2 & P2 & Hch); [by rewrite P1|done|].
  destruct (pick_next_pid_spec s1) as (r' & s2' & E2' & _ & _ & _ & Hch'); [by rewrite P1|done|].
  rewrite E2 in E2'. injection E2' as <- <-. destruct (chosen_inv s1 s2 r I1 P2 Hch') as [I2 Hsub].
  assert (mlfq pid2idx s =
    (if r =? 0 then if bool_decide (status c = PROC_RUNNING) || bool_decide (status c = PROC_RUNNABLE)
                    then mret (pid c) else mret 0
     else (if runnable c then enqueue_pid pid2idx (pid c) else mret tt);; mret r) s2) as ->.
  { unfold mlfq, mbind, M_bind, getM, deref. cbv beta iota. fold ci. rewrite Hc. fold (active c).
    rewrite E1, E2. done. }
  destruct Hch as [(k & i & Hat)|[Hidle ->]].
  2: { exists (if bool_decide (status c = PROC_RUNNING) || bool_decide (status c = PROC_RUNNABLE)
               then pid c else 0), s2.
       split; [by destruct (_ || _)|]. right. split; [|done]. intros k Hk. rewrite <-P1, <-Q1. by apply Hidle. }
  rewrite P1 in Hat. assert (Hat' : chosen_at (proc_set s) (candidates_at s c) (level_queue s2) k i r).
  { destruct Hat. split; try done; setoid_rewrite <-Q1; done. }
  assert (Hr : r ≠ 0) by by destruct (ca_process _ _ _ _ _ _ Hat) as (? & ? & ? & ? & ?).
  rewrite (proj2 (Z.eqb_neq r 0)) by done. unfold mbind, M_bind. destruct (runnable c) eqn:Hrc.
  2: { eexists r, s2. split; [done|]. left. exists k, i, (level_queue s2). split; [done|].
       intros j _. rewrite Hrc. by rewrite app_nil_r. }
  assert (active c = true) as Ha by (unfold runnable, active in *; destruct (status c); done).
  specialize (Hidx Ha). assert (P2' : proc_set s2 = proc_set s) by congruence.
  destruct (enqueue_pid_spec (pid c) s2 c I2) as (s3 & E3 & _ & _ & Q3); [by rewrite P2', Hidx|].
  rewrite E3. eexists r, s3. split; [done|]. left. exists k, i, (level_queue s2). split; [done|].
  intros j Hj. rewrite Q3, P2', Hidx, Hrc by done. rewrite without_id.
  - f_equal. assert (status c ≠ PROC_UNUSED) by (unfold runnable in Hrc; by destruct (status c)).
    case_bool_decide as Hd; destruct (Z.eqb_spec j (level (pid c) c)); cbn; tauto.
  - intros Hin%level_in_queues%Hsub. revert Hin. apply (not_queued s1 ci (level_queue s)).
    intros k'. rewrite Q1. unfold candidates_at. by rewrite Ha.
Qed.

(** C23: [mlfq] returns the first runnable process, other than the current one,
    of the highest level that has one.  That process leaves its queue, the ones
    before it go to the queue's end, every other queue keeps its order, and the
    current process, if it is ready or runnable, joins the end of the queue of
    its [level]: the highest for a system process, and for a user process the
    one its time says.  When no other process is runnable the queues lose only
    the current process; it goes on if it is running or runnable, and otherwise
    the result is 0: a current process that is ready is then in no queue. *)
Theorem mlfq_picks s c :
  inv_sched s → pids_ok (proc_set s) → proc_set s !! curr_proc_idx s = Some c →
  ∃ r s', mlfq pid2idx s = Ok (r, s') ∧ inv_sched s' ∧ proc_set s' = proc_set s ∧
    ((∃ k i Q1, chosen_at (proc_set s) (candidates_at s c) Q1 k i r ∧ (i ∉ queues s') ∧
        joins s c Q1 (level_queue s')) ∨
     ((∀ k, 0 ≤ k < 3 → Forall (idle (proc_set s)) (candidates_at s c k) ∧
                        level_queue s' k = candidates_at s c k) ∧
      r = if bool_decide (status c = PROC_RUNNING) || bool_decide (status c = PROC_RUNNABLE)
          then pid c else 0)).
Proof.
  intros I Hp Hc. destruct (mlfq_run s c I Hp Hc) as (r & s' & E & I' & P' & Hrun).
  destruct (mlfq_levels s c I Hp Hc) as (r' & s'' & E' & Hlev). rewrite E in E'. injection E' as <- <-.
  exists r, s'. split; [done|]. split; [done|]. split; [done|].
  destruct Hlev as [(k & i & Q1 & Hat & Hj)|?]; [left|by right]. exists k, i, Q1. split; [done|]. split; [|done].
  destruct (ca_process _ _ _ _ _ _ Hat) as (p & Hi & Hr & -> & Hnz).
  destruct Hrun as [(l1 & i' & l2 & p' & _ & _ & Hi' & Hr' & Epid & Hni & _)|(Hall & _)].
  - assert (i = i') as ->; [|done]. destruct (Hp i p Hi) as [_ <-]; [unfold runnable in Hr; intros Hu; by rewrite Hu in Hr|].
    destruct (Hp i' p' Hi') as [_ <-]; [unfold runnable in Hr'; intros Hu; by rewrite Hu in Hr'|]. by rewrite Epid.
  - exfalso. destruct (ca_queue _ _ _ _ _ _ Hat) as (l1 & l2 & Ek & _).
    assert (i ∈ candidates s c) as Hin.
    { apply (candidates_levels s c k); [apply Hat|]. rewrite Ek, elem_of_app. right. by left. }
    rewrite list.Forall_forall in Hall. destruct (Hall i Hin) as (p' & Hi' & Hr'). congruence.
Qed.

(** ** Runs

    The rest of the kernel changes the process table and the current process
    at will; it calls [mlfq] only after a first [mlfq_update], as the comment
    there says. *)
Inductive sched_step : sched Q → sched Q → Prop :=
  | step_update p tran t s s' :
      is_Some (proc_set s !! pid2idx (proc_set s) p) →
      mlfq_update pid2idx p tran t s = Ok (tt, s') → sched_step s s'
  | step_mlfq r s s' :
      initialized s = true → pids_ok (proc_set s) → mlfq pid2idx s = Ok (r, s') → sched_step s s'
  | step_kernel s ps c :
      length ps = length (proc_set s) →
      sched_step s (s <| proc_set := ps |> <| curr_proc_idx := c |>).

Lemma sched_step_inv s s' :
  (initialized s = true → inv_sched s) → sched_step s s' → initialized s' = true → inv_sched s'.
Proof.
  intros Hs Hst. revert Hs. destruct Hst as [p tran t s s' Hp E|r s s' Hi Hp E|s ps c Hl]; intros Hs Hi'.
  - destruct (mlfq_update_run p tran t s Hs Hp) as (x & s'' & _ & E' & I & _). congruence.
  - destruct (proc_set s !! curr_proc_idx s) as [c|] eqn:Hc.
    + destruct (mlfq_run s c (Hs Hi) Hp Hc) as (r' & s'' & E' & I & _). congruence.
    + unfold mlfq, mbind, M_bind, getM, deref in E. by rewrite Hc in E.
  - destruct (Hs Hi') as [Hn Hr]. split; [done|]. revert Hr. apply Forall_impl.
    intros i. cbn. by rewrite !lookup_lt_is_Some, Hl.
Qed.

(** C25: In every state the scheduler reaches from the boot state, in any order
    of events and scheduling decisions, no process is in two queues or twice
    in one, and every queue entry is an entry of the process table. *)
Theorem queues_exclusive s0 s :
  initialized s0 = false → rtc sched_step s0 s → initialized s = true → inv_sched s.
Proof.
  intros H0' Hr. assert (initialized s0 = true → inv_sched s0) as Hs by (intros; congruence). clear H0'.
  induction Hr as [|x y z Hxy _ IH]; [done|]. by apply IH, (sched_step_inv x).
Qed.
End sched.

(** ** A list as the queue, and concrete states *)

#[export] Instance list_queue : Queue (list nat) := {|
  queue_init := [];
  nodes q := q;
  enqueue q x := q ++ [x];
  dequeue q := match q with [] => (None, []) | x :: q => (Some x, q) end;
  try_rm_item q x := filter (λ y, y ≠ x) q;
|}.
#[export] Instance list_queue_laws : QueueLaws (list nat).
Proof. split; try done. by intros [|x q]. Qed.

(** Process [i + 1] in entry [i]: a waiting and a running system process, a sleeping and two runnable
    user processes, one of which has used up its first quantum. *)
Definition demo_procs : list process :=
  [mk_process 1 PROC_PENDING_SYSCALL (replicate 8 0); mk_process 2 PROC_RUNNING (replicate 8 0);
   mk_process 7 PROC_SLEEPING (replicate 8 0); mk_process 8 PROC_RUNNABLE (replicate 8 9000000);
   mk_process 9 PROC_READY (replicate 8 20000000)].
Definition demo_pid2idx (ps : list process) (p : Z) : nat :=
  match list_find (λ x, pid x = p) ps with Some (i, _) => i | None => 0%nat end.
Definition demo_sched : sched (list nat) := mk_sched demo_procs [0%nat; 2%nat] [3%nat] [4%nat] true 1%nat.

Lemma demo_sched_inv : inv_sched demo_sched.
Proof. split; [by apply (bool_decide_unpack _); vm_compute|]. repeat (constructor; [by eexists|]). constructor. Qed.
Lemma demo_pids_ok : pids_ok demo_pid2idx demo_procs.
Proof.
  intros i p Hp _. do 5 (destruct i as [|i]; [injection Hp as <-; by vm_compute|]). done.
Qed.

Lemma mlfq_picks_witness :
  ∃ s', mlfq demo_pid2idx demo_sched = Ok (8, s') ∧ inv_sched s' ∧
        level_queue s' 0 = [0%nat; 2%nat] ∧ level_queue s' 1 = [].
Proof.
  destruct (mlfq_picks demo_pid2idx demo_sched (mk_process 2 PROC_RUNNING (replicate 8 0))
    demo_sched_inv demo_pids_ok eq_refl) as (r & s' & E & I & _ & Hch).
  exists s'. assert (r = 8) as ->.
  { assert (mlfq demo_pid2idx demo_sched = Ok (r, s')) as E' by exact E. vm_compute in E'. by injection E' as <- _. }
  split; [exact E|]. split; [exact I|]. destruct Hch as [(k & i & Q1 & Hat & _ & Hj)|[_ Hr]]; [|discriminate Hr].
  rewrite (Hj 0), (Hj 1) by lia. cbn. rewrite !app_nil_r.
  destruct (ca_process _ _ _ _ _ _ Hat) as (p & Hi & _ & Hp & _).
  destruct (ca_queue _ _ _ _ _ _ Hat) as (l1 & l2 & Ek & _ & Eq).
  assert (k = 1) as ->.
  { pose proof (ca_level _ _ _ _ _ _ Hat). assert (k = 0 ∨ k = 1 ∨ k = 2) as [-> | [-> | ->]] by lia; [|done|].
    - assert (i ∈ [0%nat; 2%nat]) as Hin by (change (i ∈ candidates_at demo_sched (mk_process 2 PROC_RUNNING (replicate 8 0)) 0);
        rewrite Ek, elem_of_app; right; by left).
      rewrite !elem_of_cons in Hin. destruct Hin as [->|[->|Hin]]; [injection Hi as <-; discriminate Hp..|by inversion Hin].
    - pose proof (ca_above _ _ _ _ _ _ Hat 1 ltac:(lia)) as Hab. cbn in Hab. inversion Hab as [|? ? (p1 & Hp1 & Hr1)].
      injection Hp1 as <-. discriminate Hr1. }
  change (candidates_at _ _ 1) with [3%nat] in Ek. split; [by rewrite (ca_same _ _ _ _ _ _ Hat 0) by lia|].
  destruct l1 as [|x l1]; [injection Ek as _ <-; by rewrite Eq|]. injection Ek as _ Ek. by destruct l1.
Defined.

Lemma mlfq_update_queues_witness :
  ∃ s', mlfq_update demo_pid2idx 8 PROC_ON_SCHED_OUT 0 demo_sched = Ok (tt, s') ∧
        level_queue s' 1 = [3%nat] ∧ level_queue s' 0 = [0%nat; 2%nat].
Proof.
  destruct (mlfq_update_queues demo_pid2idx 8 PROC_ON_SCHED_OUT 0 demo_sched (λ _, demo_sched_inv)
    ltac:(by eexists)) as (x & s' & Hx & E & _ & _ & Hq).
  exists s'. split; [exact E|]. vm_compute in Hx. injection Hx as <-.
  split; [by rewrite (Hq 1)|by rewrite (Hq 0)].
Defined.

Lemma queues_exclusive_witness :
  ∃ s', mlfq_update demo_pid2idx 8 PROC_ON_ARRIVE 0 (demo_sched <| initialized := false |>) = Ok (tt, s') ∧
        inv_sched s'.
Proof.
  eexists. split; [by vm_compute|].
  eapply (queues_exclusive demo_pid2idx (demo_sched <| initialized := false |>)); [done| |done].
  apply rtc_once. by eapply (step_update _ 8 PROC_ON_ARRIVE 0); [eexists|vm_compute].
Defined.

(** A current process that is ready is lost when nothing else is runnable:
    [mlfq] has removed it from the queues, returns 0 and does not put it back,
    so that it is in no queue and is not running. *)
Theorem mlfq_ready_lost :
  let s := mk_sched (<[1%nat := mk_process 2 PROC_READY (replicate 8 0)]> (take 3 demo_procs))
             [0%nat; 1%nat; 2%nat] [] [] true 1%nat in
  inv_sched s ∧ ∃ s', mlfq demo_pid2idx s = Ok (0, s') ∧ queues s = [0%nat; 1%nat; 2%nat] ∧
                      queues s' = [0%nat; 2%nat].
Proof.
  split; [split; [by apply (bool_decide_unpack _); vm_compute|repeat (constructor; [by eexists|]); constructor]|].
  eexists. split; [by vm_compute|done].
Qed.
