(* ===== verification/MlfqLive.v ===== *)
(** * The scheduler makes progress

    A runnable process in the highest queue is passed over at most as often as
    there are processes ahead of it.  The number of processes ahead is a rank:
    no event of another process raises it, and every call of [mlfq] that
    returns another process lowers it. *)

From S2P Require Import Prelude Mlfq MlfqThms.

Section live.
Context {Q : Type} `{QueueLaws Q} (pid2idx : list process → Z → nat).
Implicit Types s : sched Q.

(** Entry [i] is in the highest queue with at most [n] entries ahead. *)
Definition waiting s (i n : nat) : Prop :=
  ∃ l1 l2, nodes (q_high s) = l1 ++ i :: l2 ∧ (length l1 ≤ n)%nat.

Lemma without_split i j l1 l2 :
  j ≠ i → without j (l1 ++ i :: l2) = without j l1 ++ i :: without j l2 ∧ (length (without j l1) ≤ length l1)%nat.
Proof.
  intros Hj. unfold without. rewrite list.filter_app, filter_cons_True by done.
  split; [done|apply list.length_filter].
Qed.

Lemma waiting_without s s' i j n :
  j ≠ i → nodes (q_high s') = without j (nodes (q_high s)) → waiting s i n → waiting s' i n.
Proof.
  intros Hj Hq (l1 & l2 & E & Hn). destruct (without_split i j l1 l2 Hj) as [E' Hl].
  exists (without j l1), (without j l2). split; [by rewrite Hq, E|lia].
Qed.
Lemma waiting_app s s' i n l :
  nodes (q_high s') = nodes (q_high s) ++ l → waiting s i n → waiting s' i n.
Proof. intros Hq (l1 & l2 & E & Hn). exists l1, (l2 ++ l). by rewrite Hq, E, <-app_assoc. Qed.

(** What the rest of the system may do between two calls of [mlfq]: report an
    event of another process, or change the process table and the current
    process. *)
Inductive other_event (i : nat) : sched Q → sched Q → Prop :=
  | other_update p tran t s s' :
      is_Some (proc_set s !! pid2idx (proc_set s) p) → pid2idx (proc_set s) p ≠ i →
      mlfq_update pid2idx p tran t s = Ok (tt, s') → other_event i s s'
  | other_kernel s ps c :
      length ps = length (proc_set s) → other_event i s (s <| proc_set := ps |> <| curr_proc_idx := c |>).

Definition up s : Prop := initialized s = true ∧ inv_sched s.

Lemma update_high p tran t s s' :
  up s → is_Some (proc_set s !! pid2idx (proc_set s) p) → mlfq_update pid2idx p tran t s = Ok (tt, s') →
  up s' ∧ ∃ l, nodes (q_high s') = without (pid2idx (proc_set s) p) (nodes (q_high s)) ++ l ∨
               nodes (q_high s') = nodes (q_high s).
Proof.
  intros [Hi I] Hp E. destruct (mlfq_update_run pid2idx p tran t s (λ _, I) Hp) as (x & s2 & _ & E2 & I2 & _ & Hq).
  rewrite E in E2. injection E2 as <-. split.
  - split; [|done]. revert E. unfold mlfq_update, mbind, M_bind, getM. rewrite Hi. cbn [negb].
    unfold mret at 1, M_ret at 1. destruct Hp as [y Hy].
    destruct (enqueue_pid_spec pid2idx p s y I Hy) as (s3 & E3 & [_ _ Hs3] & _).
    destruct (remove_pid_spec pid2idx p s) as (s4 & E4 & [_ _ Hs4] & _); [apply I|].
    destruct tran; rewrite ?E3, ?E4; intros [= <-]; congruence.
  - specialize (Hq 0 ltac:(lia)). unfold base_queue in Hq. rewrite Hi in Hq. unfold level_queue in Hq. cbn [Z.eqb] in Hq.
    destruct tran; try (eexists; left; exact Hq); [exists []; left; by rewrite app_nil_r|exists []; left; by rewrite app_nil_r|exists []; by right].
Qed.

Lemma other_waiting i n s s' : up s → waiting s i n → other_event i s s' → up s' ∧ waiting s' i n.
Proof.
  intros Hu Hw Hs. revert Hu Hw. destruct Hs as [p tran t s0 s1 Hp Hi E|s0 ps c Hl]; intros Hu Hw.
  - destruct (update_high p tran t s0 s1 Hu Hp E) as [Hu' [l [Hq|Hq]]]; (split; [done|]).
    + destruct Hw as (l1 & l2 & E1 & Hn). destruct (without_split i _ l1 l2 Hi) as [E' Hl].
      exists (without (pid2idx (proc_set s0) p) l1), (without (pid2idx (proc_set s0) p) l2 ++ l).
      rewrite Hq, E1, E', <-app_assoc. split; [done|lia].
    + apply (waiting_app s0 s1 i n []); [by rewrite app_nil_r|done].
  - destruct Hu as [Hi [Hnd Hr]]. split; [|done]. split; [done|]. split; [done|].
    revert Hr. apply Forall_impl. intros j. cbn. by rewrite !lookup_lt_is_Some, Hl.
Qed.

Lemma queue_split (i j : nat) l1 l2 m1 m2 :
  l1 ++ i :: l2 = m1 ++ j :: m2 → j ≠ i → (i ∉ m1) → ∃ k, l1 = (m1 ++ [j]) ++ k ∧ m2 = k ++ i :: l2.
Proof.
  revert l1. induction m1 as [|y m1 IH]; intros [|z l1]; cbn; intros [= -> E] Hj Hi.
  - done.
  - exists l1. by rewrite E.
  - destruct Hi. by left.
  - rewrite not_elem_of_cons in Hi. destruct (IH l1 E Hj) as (k & -> & ->); [tauto|]. by exists k.
Qed.

(** The highest queue has a runnable process: the first such is picked. *)
Lemma pick_high i n x s :
  inv_sched s → pids_ok pid2idx (proc_set s) → proc_set s !! i = Some x → runnable x = true → waiting s i n →
  ∃ r s', pick_next_pid s = Ok (r, s') ∧ inv_sched s' ∧ same_procs s s' ∧ r ≠ 0 ∧
    (r = pid x ∨ (0 < n)%nat ∧ waiting s' i (n - 1)).
Proof.
  intros I Hp Hx Hrx (l1 & l2 & E & Hn).
  destruct (pick_next_pid_spec pid2idx s Hp I) as (r & s' & Er & P' & C' & N' & Hch).
  destruct (chosen_inv s s' r I P' Hch) as [I' _].
  exists r, s'. split; [done|]. split; [done|]. split; [done|].
  pose proof (inv_range _ I) as Hh. unfold queues in Hh. apply Forall_app in Hh as [Hh _].
  destruct (dequeue_loop_picked _ _ Hh) as (r1 & q1 & E1 & P1).
  unfold pick_next_pid, dequeue_runnable, mbind, M_bind in Er. rewrite E1 in Er.
  assert (¬ idle (proc_set s) i) as Hni by (intros (p & Hp' & Hr'); congruence).
  assert (r1 ≠ 0) as Hn1.
  { intros ->. apply (picked_zero pid2idx) in P1 as [Hid _]; [|done]. rewrite E in Hid.
    apply Forall_app in Hid as [_ [Hid _]%Forall_cons_1]. done. }
  cbn in Er. rewrite (proj2 (Z.eqb_neq r1 0)) in Er by done. cbn in Er. rewrite (proj2 (Z.eqb_neq r1 0)) in Er by done.
  injection Er as <- <-. split; [done|].
  destruct (picked_some_inv _ _ _ _ Hn1 P1) as (m1 & j & m2 & p & Eq & Hid & Hpj & Hrj & -> & Eq').
  destruct (decide (j = i)) as [->|Hj]; [left; congruence|right].
  rewrite E in Eq. destruct (queue_split i j l1 l2 m1 m2 Eq) as (k & -> & Hm2); [done| |].
  { intros Hi. apply Hni. by apply (proj1 (list.Forall_forall _ _) Hid). }
  rewrite !length_app in Hn. cbn in Hn. split; [lia|]. exists k, (l2 ++ m1). cbn. rewrite Eq', Hm2, <-app_assoc.
  split; [done|lia].
Qed.

(** One call of [mlfq], with a runnable process in the highest queue. *)
Lemma mlfq_high i n x c s :
  up s → pids_ok pid2idx (proc_set s) → proc_set s !! curr_proc_idx s = Some c → curr_proc_idx s ≠ i →
  proc_set s !! i = Some x → runnable x = true → waiting s i n →
  ∃ r s', mlfq pid2idx s = Ok (r, s') ∧ up s' ∧ (r = pid x ∨ (0 < n)%nat ∧ waiting s' i (n - 1)).
Proof.
  intros [Hini I] Hp Hc Hci Hx Hrx Hw. set (ci := curr_proc_idx s) in *.
  assert (active c = true → pid2idx (proc_set s) (pid c) = ci) as Hidx.
  { intros Ha. apply (Hp ci c Hc). intros Hu. unfold active in Ha. by rewrite Hu in Ha. }
  assert (∃ s1, (if active c then remove_pid pid2idx (pid c) else mret tt) s = Ok (tt, s1) ∧
    inv_sched s1 ∧ same_procs s s1 ∧ waiting s1 i n) as (s1 & E1 & I1 & [P1 C1 N1] & W1).
  { destruct (active c); [|by exists s]. destruct (remove_pid_spec pid2idx (pid c) s) as (s1 & E & S & Hq); [apply I|].
    exists s1. split; [done|]. pose proof (queues_without s s1 _ Hq). split; [by eapply without_inv|].
    split; [done|]. apply (waiting_without s s1 i ci); [done| |done]. rewrite <-Hidx by done. apply (Hq 0). }
  destruct (pick_high i n x s1) as (r & s2 & E2 & I2 & S2 & Hr0 & Hr); [done|by rewrite P1..|done|done|].
  destruct S2 as [P2 C2 N2].
  assert (mlfq pid2idx s =
    ((if bool_decide (status c = PROC_READY) || bool_decide (status c = PROC_RUNNABLE)
      then enqueue_pid pid2idx (pid c) else mret tt);; mret r) s2) as ->.
  { unfold mlfq, mbind, M_bind, getM, deref. cbv beta iota. fold ci. rewrite Hc. fold (active c).
    rewrite E1, E2. by rewrite (proj2 (Z.eqb_neq r 0)). }
  fold (runnable c). unfold mbind, M_bind. destruct (runnable c) eqn:Hrc.
  2: { exists r, s2. split; [done|]. split; [split; [congruence|done]|done]. }
  assert (active c = true) as Ha by (unfold runnable, active in *; destruct (status c); done).
  destruct (enqueue_pid_spec pid2idx (pid c) s2 c I2) as (s3 & E3 & [P3 _ N3] & I3 & Q3).
  { by rewrite P2, P1, (Hidx Ha). }
  rewrite E3. exists r, s3. split; [done|]. split; [split; [congruence|done]|].
  destruct Hr as [->|[Hn W2]]; [by left|right]. split; [done|]. specialize (Q3 0 ltac:(lia)).
  unfold level_queue in Q3. cbn [Z.eqb] in Q3. rewrite P2, P1, (Hidx Ha) in Q3.
  destruct W2 as (l1 & l2 & E & Hl). destruct (without_split i ci l1 l2 Hci) as [E' Hl'].
  eexists (without ci l1), (without ci l2 ++ _). rewrite Q3, E, E', <-app_assoc. split; [done|lia].
Qed.

(** [mlfq] is called while another process runs and entry [i] is runnable. *)
Record called s (i : nat) (x : process) : Prop := {
  ca_pids : pids_ok pid2idx (proc_set s);
  ca_curr : is_Some (proc_set s !! curr_proc_idx s);
  ca_other : curr_proc_idx s ≠ i;
  ca_entry : proc_set s !! i = Some x;
  ca_runnable : runnable x = true;
}.

(** A run in which [mlfq] is called [k] times and returns other processes. *)
Inductive passed_over (i : nat) : nat → sched Q → sched Q → Prop :=
  | passed_refl s : passed_over i 0 s s
  | passed_event k s s1 s' : other_event i s s1 → passed_over i k s1 s' → passed_over i k s s'
  | passed_call k x r s s1 s' :
      called s i x → mlfq pid2idx s = Ok (r, s1) → r ≠ pid x → passed_over i k s1 s' →
      passed_over i (S k) s s'.

Lemma passed_waiting i k n s s' :
  passed_over i k s s' → up s → waiting s i n → (k ≤ n)%nat ∧ up s' ∧ waiting s' i (n - k).
Proof.
  intros Hr. revert n. induction Hr as [s|k s s1 s' He _ IH|k x r s s1 s' [Hp [c Hc] Hci Hx Hrx] E Hne _ IH]; intros n Hu Hw.
  - split; [lia|]. split; [done|]. by rewrite Nat.sub_0_r.
  - destruct (other_waiting i n s s1 Hu Hw He). by apply IH.
  - destruct (mlfq_high i n x c s Hu Hp Hc Hci Hx Hrx Hw) as (r' & s2 & E' & Hu2 & Hr).
    rewrite E in E'. injection E' as <- <-. destruct Hr as [?|[Hn Hw2]]; [done|].
    destruct (IH (n - 1)%nat Hu2 Hw2) as (Hk & Hu' & Hw'). split; [lia|]. split; [done|].
    by replace (n - S k)%nat with (n - 1 - k)%nat by lia.
Qed.
End live.

(** C24: No process starves in the highest queue.  In any run, with any events of
    other processes and any changes the kernel makes to the process table in
    between, a process of the highest queue that is runnable when [mlfq] is called
    is passed over at most as often as there are processes ahead of it; once it has
    been passed over that often, the next call of [mlfq] returns it. *)
Theorem high_queue_live {Q} `{QueueLaws Q} pid2idx i k n (s s' : sched Q) :
  initialized s = true → inv_sched s → waiting s i n → passed_over pid2idx i k s s' →
  (k ≤ n)%nat ∧
  (∀ x, k = n → called pid2idx s' i x → ∃ s'', mlfq pid2idx s' = Ok (pid x, s'')).
Proof.
  intros Hi I Hw Hr. destruct (passed_waiting pid2idx i k n s s' Hr (conj Hi I) Hw) as (Hk & Hu & Hw').
  split; [done|]. intros x -> [Hp [c Hc] Hci Hx Hrx].
  destruct (mlfq_high pid2idx i _ x c s' Hu Hp Hc Hci Hx Hrx Hw') as (r & s'' & E & _ & [->|[Hn _]]); [by exists s''|lia].
Qed.

(** Two runnable processes in the highest queue: the second is passed over once. *)
Definition live_procs : list process :=
  [mk_process 2 PROC_PENDING_SYSCALL (replicate 8 0); mk_process 7 PROC_RUNNABLE (replicate 8 0);
   mk_process 8 PROC_READY (replicate 8 0)].
Definition live_sched : sched (list nat) := mk_sched live_procs [1%nat; 2%nat] [] [] true 0%nat.
Definition live_after : sched (list nat) :=
  match mlfq demo_pid2idx live_sched with Ok (_, s) => s | Err _ => live_sched end.

Lemma high_queue_live_witness :
  (1 ≤ 1)%nat ∧
  (∀ x, 1%nat = 1%nat → called demo_pid2idx live_after 2 x →
    ∃ s'', mlfq demo_pid2idx live_after = Ok (pid x, s'')).
Proof.
  apply (high_queue_live demo_pid2idx 2 1 1 live_sched live_after).
  - reflexivity.
  - split; [by apply (bool_decide_unpack _); vm_compute|]. repeat (constructor; [by eexists|]). constructor.
  - exists [1%nat], []. split; [reflexivity|]. cbn. lia.
  - apply (passed_call _ _ _ (mk_process 8 PROC_READY (replicate 8 0)) 7 live_sched live_after).
    + split; [|by eexists|done|done|done].
      intros i p Hp _. do 3 (destruct i as [|i]; [injection Hp as <-; by vm_compute|]). done.
    + vm_compute. reflexivity.
    + done.
    + constructor.
Defined.
