(* ===== verification/Tty.v ===== *)
(** * The kernel's terminal: term_read and term_write of servers.c

    In the kernel the two functions work on the TTY directly, a character at a
    time.  [tty_read] waits for input; a call whose input never comes does not
    return.  [term_read] is a line editor, and [term_read_edits] states it as
    one. *)

From S2P Require Import Prelude Bytes.

Record tty := mk_tty { tty_in : list Z; tty_out : list Z }.
#[export] Instance tty_settable : Settable tty := settable! mk_tty <tty_in; tty_out>.

Definition T : Type → Type := M tty.

Definition tty_write (c : Z) : T unit := modM (λ s, s <| tty_out ::= λ o, o ++ [c] |>).

Fixpoint term_write (str : list Z) : T unit :=
  match str with
  | [] => mret tt
  | c :: str => tty_write c;; term_write str
  end.

(** [buf[i] = v] *)
Definition set_buf (buf : list Z) (i v : Z) : T (list Z) :=
  if (0 <=? i) && (i <? Z.of_nat (length buf)) then mret (<[Z.to_nat i := v]> buf) else fail OutOfBounds.

(** The [for] loop, on the characters to come. *)
Fixpoint read_loop (inp : list Z) (len i : Z) (buf : list Z) : T (Z * list Z) :=
  if i <? wrap32 (len - 1) then
    match inp with
    | [] => fail Diverges
    | c :: inp =>
        modM (λ s, s <| tty_in := inp |>);;
        buf ← set_buf buf i c;
        if c =? 0x0d then
          buf ← set_buf buf i 0;
          term_write [10; 13];;
          mret (if i =? 0 then 0 else i + 1, buf)
        else if c =? 0x7f then
          (if negb (i =? 0) then term_write [8; 32; 8] else mret tt);;
          read_loop inp len ((if negb (i =? 0) then i - 2 else i - 1) + 1) buf
        else
          (if negb (c =? 0) then term_write [c] else mret tt);;
          read_loop inp len (i + 1) buf
    end
  else
    buf ← set_buf buf (wrap32 (len - 1)) 0;
    mret (len, buf).

Definition term_read (buf : list Z) (len : Z) : T (Z * list Z) := λ s,
  read_loop (tty_in s) len 0 buf s.

(** ** The line editor *)

Definition edit (line : list Z) (c : Z) : list Z :=
  if c =? 0x7f then removelast line else line ++ [c].
Definition edited (typed : list Z) : list Z := foldl edit [] typed.

Definition echo (n : nat) (c : Z) : list Z :=
  if c =? 0x7f then (if (n =? 0)%nat then [] else [8; 32; 8]) else if c =? 0 then [] else [c].

(** The output while the characters are typed, the line being [line]. *)
Fixpoint echoes (line typed : list Z) : list Z :=
  match typed with
  | [] => []
  | c :: typed => echo (length line) c ++ echoes (edit line c) typed
  end.

Lemma term_write_run str s : term_write str s = Ok (tt, s <| tty_out ::= λ o, o ++ str |>).
Proof.
  revert s. induction str as [|c str IH]; intros [i o];
    cbn [term_write]; unfold mbind, M_bind, mret, M_ret, tty_write, modM.
  - unfold set_field. cbn. by rewrite app_nil_r.
  - rewrite IH. unfold set_field. cbn. by rewrite <-app_assoc.
Qed.

Lemma set_buf_run buf i v s :
  0 ≤ i < Z.of_nat (length buf) → set_buf buf i v s = Ok (<[Z.to_nat i := v]> buf, s).
Proof.
  intros Hi. unfold set_buf. rewrite (proj2 (Z.leb_le 0 i)), (proj2 (Z.ltb_lt i _)) by lia. done.
Qed.

Lemma take_insert_line (n : nat) c (buf : list Z) :
  (n < length buf)%nat → take (S n) (<[n := c]> buf) = take n buf ++ [c].
Proof.
  intros Hn. rewrite (take_S_r _ _ c) by by apply list_lookup_insert_eq.
  by rewrite take_insert_ge by lia.
Qed.

Lemma take_removelast (line buf : list Z) :
  take (length line) buf = line → take (length line - 1) buf = removelast line.
Proof.
  intros Hl. destruct line as [|x l] using rev_ind; [done|].
  rewrite removelast_last. rewrite length_app in *. cbn in *.
  replace (length l + 1 - 1)%nat with (length l) by lia.
  replace (take (length l) buf) with (take (length l) (take (length l + 1) buf))
    by (rewrite take_take; f_equal; lia).
  rewrite Hl. by rewrite take_app_length.
Qed.

Lemma length_edit_del (line : list Z) : length (removelast line) = (length line - 1)%nat.
Proof. destruct line as [|x l] using rev_ind; [done|]. rewrite removelast_last, length_app. cbn. lia. Qed.

(** The line typed so far is the front of the buffer and [i] its length; the
    rest of the buffer from [len] on is never written. *)
Record editing (len : Z) (buf0 line : list Z) (i : Z) (buf : list Z) : Prop := {
  ed_len : 1 ≤ len < 2 ^ 32 ∧ len ≤ Z.of_nat (length buf0);
  ed_i : i = Z.of_nat (length line) ∧ i ≤ len - 1;
  ed_line : take (length line) buf = line;
  ed_size : length buf = length buf0;
  ed_rest : drop (Z.to_nat len) buf = drop (Z.to_nat len) buf0;
}.

Lemma editing_insert len buf0 line i buf c :
  editing len buf0 line i buf → i < len - 1 →
  set_buf buf i c = (λ s, Ok (<[length line := c]> buf, s)) ∧
  (c = 0x7f → editing len buf0 (removelast line) ((if negb (i =? 0) then i - 2 else i - 1) + 1) (<[length line := c]> buf)) ∧
  (c ≠ 0x7f → editing len buf0 (line ++ [c]) (i + 1) (<[length line := c]> buf)).
Proof.
  intros [Hl [Hi Hi'] Ht Hs Hr] Hlt. subst i.
  assert (drop (Z.to_nat len) (<[length line := c]> buf) = drop (Z.to_nat len) buf0) as Hd.
  { by rewrite drop_insert_lt by lia. }
  split_and!.
  - unfold set_buf. rewrite (proj2 (Z.leb_le 0 _)), (proj2 (Z.ltb_lt _ _)) by lia.
    by rewrite Nat2Z.id.
  - intros _. split; try done; [|rewrite length_edit_del, take_insert_ge by lia; by apply take_removelast|by rewrite length_insert].
    rewrite length_edit_del. destruct (Z.eqb_spec (Z.of_nat (length line)) 0); cbn [negb]; lia.
  - intros _. split; try done; [rewrite length_app; cbn; lia| |by rewrite length_insert].
    rewrite length_app, Nat.add_1_r, take_insert_line by lia. by rewrite Ht.
Qed.

(** One turn of the loop on an ordinary character or a backspace. *)
Lemma read_step len buf0 line i buf c inp s :
  editing len buf0 line i buf → i < len - 1 → c ≠ 0x0d →
  ∃ i' buf', editing len buf0 (edit line c) i' buf' ∧
    read_loop (c :: inp) len i buf s =
    read_loop inp len i' buf' (s <| tty_in := inp |> <| tty_out ::= λ o, o ++ echo (length line) c |>).
Proof.
  intros He Hlt Hc. destruct (editing_insert len buf0 line i buf c He Hlt) as (Hset & Hdel & Hadd).
  pose proof He as [Hl [Hi _] _ _ _]. cbn [read_loop].
  assert (wrap32 (len - 1) = len - 1) as -> by (unfold wrap32; rewrite Z.mod_small; lia).
  rewrite (proj2 (Z.ltb_lt i _)) by done. unfold mbind, M_bind, modM. rewrite Hset, (proj2 (Z.eqb_neq c _)) by done.
  unfold edit, echo. destruct (Z.eqb_spec c 0x7f) as [->|Hne].
  - eexists _, _. split; [by apply Hdel|]. subst i.
    destruct (Nat.eqb_spec (length line) 0) as [E|E].
    + rewrite E. cbn. unfold set_field. cbn. by rewrite app_nil_r.
    + rewrite (proj2 (Z.eqb_neq _ 0)) by lia. cbn [negb]. by rewrite term_write_run.
  - eexists _, _. split; [by apply Hadd|]. destruct (Z.eqb_spec c 0); cbn [negb].
    + unfold mret, M_ret, set_field. cbn. by rewrite app_nil_r.
    + by rewrite term_write_run.
Qed.

(** The line stays shorter than the buffer while it is typed. *)
Fixpoint fits (n : nat) (line typed : list Z) : Prop :=
  (length line < n)%nat ∧ match typed with [] => True | c :: typed => fits n (edit line c) typed end.

Lemma read_typed len buf0 typed rest line i buf s :
  editing len buf0 line i buf → fits (Z.to_nat (len - 1)) line typed → 0x0d ∉ typed →
  ∃ i' buf' s', editing len buf0 (foldl edit line typed) i' buf' ∧ i' < len - 1 ∧
    tty_out s' = tty_out s ++ echoes line typed ∧
    read_loop (typed ++ rest) len i buf s = read_loop rest len i' buf' s'.
Proof.
  revert line i buf s. induction typed as [|c typed IH]; intros line i buf s He [Hf Hfs] Hc.
  { exists i, buf, s. destruct He as [? [? ?] ? ? ?]. split; [by split|]. split; [lia|].
    by rewrite app_nil_r. }
  assert (i < len - 1) as Hlt by (destruct He as [? [? ?] ? ? ?]; lia).
  rewrite not_elem_of_cons in Hc. destruct Hc as [Hc Hc'].
  destruct (read_step len buf0 line i buf c (typed ++ rest) s He Hlt ltac:(done)) as (i1 & buf1 & He1 & E1).
  cbn [app]. rewrite E1. destruct (IH _ i1 buf1 (s <| tty_in := typed ++ rest |> <| tty_out ::= λ o, o ++ echo (length line) c |>) He1 Hfs Hc')
    as (i2 & buf2 & s2 & He2 & Hlt2 & Ho & E2).
  exists i2, buf2, s2. split; [done|]. split; [done|]. split; [|done].
  rewrite Ho. cbn. by rewrite app_assoc.
Qed.

Lemma editing_start len buf : 1 ≤ len < 2 ^ 32 → len ≤ Z.of_nat (length buf) → editing len buf [] 0 buf.
Proof. intros. split; try done. cbn. lia. Qed.

(** Enter ends the line. *)
Lemma read_enter len buf0 line i buf inp s :
  editing len buf0 line i buf → i < len - 1 →
  let buf' := <[length line := 0]> (<[length line := 0x0d]> buf) in
  read_loop (0x0d :: inp) len i buf s =
    Ok ((if i =? 0 then 0 else i + 1, buf'), s <| tty_in := inp |> <| tty_out ::= λ o, o ++ [10; 13] |>).
Proof.
  intros He Hlt. pose proof He as [Hl [Hi _] _ Hs _]. cbn [read_loop].
  assert (wrap32 (len - 1) = len - 1) as -> by (unfold wrap32; rewrite Z.mod_small; lia).
  rewrite (proj2 (Z.ltb_lt i _)) by done. unfold mbind, M_bind, modM. change (13 =? 13) with true.
  rewrite set_buf_run by lia. rewrite set_buf_run by (rewrite length_insert; lia).
  rewrite term_write_run. by subst i; rewrite Nat2Z.id.
Qed.

(** C29: A line typed at the console comes back as edited: with characters and
    backspaces that keep it shorter than the buffer, ended by Enter,
    [term_read] returns the line with the erased characters gone and a NUL at
    its end, the length with the NUL (0 for an empty line), the input after
    Enter unread, each character echoed and each backspace rubbed out, and
    the buffer beyond [len] untouched. *)
Theorem term_read_edits typed rest buf len s :
  1 ≤ len < 2 ^ 32 → len ≤ Z.of_nat (length buf) → tty_in s = typed ++ 0x0d :: rest →
  0x0d ∉ typed → fits (Z.to_nat (len - 1)) [] typed →
  ∃ n buf' s', term_read buf len s = Ok ((n, buf'), s') ∧
    n = (if (length (edited typed) =? 0)%nat then 0 else Z.of_nat (length (edited typed)) + 1) ∧
    take (S (length (edited typed))) buf' = edited typed ++ [0] ∧
    drop (Z.to_nat len) buf' = drop (Z.to_nat len) buf ∧
    tty_in s' = rest ∧ tty_out s' = tty_out s ++ echoes [] typed ++ [10; 13].
Proof.
  intros Hlen Hbuf Hin Hc Hf. unfold term_read. rewrite Hin.
  destruct (read_typed len buf typed (0x0d :: rest) [] 0 buf s (editing_start len buf Hlen Hbuf) Hf Hc)
    as (i & b & s1 & He & Hlt & Ho & ->).
  rewrite (read_enter len buf _ i b rest s1 He Hlt). destruct He as [_ [Hi _] Ht Hs Hr].
  fold (edited typed) in *. eexists _, _, _. split; [done|]. split_and!.
  - subst i. destruct (Nat.eqb_spec (length (edited typed)) 0) as [->|]; [done|].
    by rewrite (proj2 (Z.eqb_neq _ 0)) by lia.
  - rewrite take_insert_line by (rewrite length_insert; lia). by rewrite take_insert_ge, Ht by lia.
  - by rewrite !drop_insert_lt by lia.
  - done.
  - cbn. by rewrite Ho, app_assoc.
Qed.

Lemma term_read_edits_witness :
  ∃ s', term_read (replicate 8 1) 6 (mk_tty [104; 105; 0x7f; 111; 0x0d; 120] []) =
          Ok ((3, [104; 111; 0; 1; 1; 1; 1; 1]), s') ∧ tty_in s' = [120].
Proof.
  destruct (term_read_edits [104; 105; 0x7f; 111] [120] (replicate 8 1) 6
    (mk_tty [104; 105; 0x7f; 111; 0x0d; 120] [])) as (n & b & s' & E & _ & _ & _ & Hin & _);
    [lia|done|done|by apply (bool_decide_unpack _); vm_compute|cbn; lia|].
  exists s'. split; [|exact Hin]. rewrite E. vm_compute in E. by injection E as <- <- _.
Defined.

Lemma read_end len buf0 line i buf inp s :
  editing len buf0 line i buf → ¬ i < len - 1 →
  read_loop inp len i buf s = Ok ((len, <[Z.to_nat (len - 1) := 0]> buf), s).
Proof.
  intros [Hl [Hi Hi'] _ Hs _] Hge.
  assert (wrap32 (len - 1) = len - 1) as Ew by (unfold wrap32; rewrite Z.mod_small; lia).
  destruct inp; cbn [read_loop]; rewrite Ew, (proj2 (Z.ltb_ge i _)) by lia;
    unfold mbind, M_bind; by rewrite set_buf_run by lia.
Qed.

Lemma read_safe len buf0 inp line i buf s :
  editing len buf0 line i buf →
  match read_loop inp len i buf s with
  | Ok ((n, buf'), s') => 0 ≤ n ≤ len ∧ length buf' = length buf0 ∧
      drop (Z.to_nat len) buf' = drop (Z.to_nat len) buf0 ∧
      ∃ k, (k < Z.to_nat len)%nat ∧ buf' !! k = Some 0
  | Err e => e = Diverges
  end.
Proof.
  revert line i buf s. induction inp as [|c inp IH]; intros line i buf s He; pose proof He as [Hl [Hi Hi'] Ht Hs Hr];
    (destruct (decide (i < len - 1)) as [Hlt|Hge];
     [|rewrite (read_end len buf0 line) by done; split; [lia|]; rewrite length_insert, drop_insert_lt by lia;
       split; [done|]; split; [done|]; exists (Z.to_nat (len - 1)); rewrite list_lookup_insert_eq by lia; split; [lia|done]]).
  - cbn [read_loop]. assert (wrap32 (len - 1) = len - 1) as -> by (unfold wrap32; rewrite Z.mod_small; lia).
    by rewrite (proj2 (Z.ltb_lt i _)) by done.
  - destruct (decide (c = 0x0d)) as [->|Hc].
    + rewrite (read_enter len buf0 line) by done. split; [case_match; lia|].
      rewrite !length_insert, !drop_insert_lt by lia. split; [done|]. split; [done|].
      exists (length line). rewrite list_lookup_insert_eq by (rewrite length_insert; lia). split; [lia|done].
    + destruct (read_step len buf0 line i buf c inp s He Hlt Hc) as (i' & buf' & He' & ->). by eapply IH.
Qed.

(** C30: Whatever is typed, [term_read] with a buffer of [len] bytes never
    writes outside it: it either waits for more input, or returns at most
    [len] with a string that ends inside the buffer. *)
Theorem term_read_safe buf len s :
  1 ≤ len < 2 ^ 32 → len ≤ Z.of_nat (length buf) →
  match term_read buf len s with
  | Ok ((n, buf'), s') => 0 ≤ n ≤ len ∧ length buf' = length buf ∧
      drop (Z.to_nat len) buf' = drop (Z.to_nat len) buf ∧
      ∃ k, (k < Z.to_nat len)%nat ∧ buf' !! k = Some 0
  | Err e => e = Diverges
  end.
Proof.
  intros Hlen Hbuf. unfold term_read. by eapply read_safe, editing_start.
Qed.

Lemma term_read_safe_witness :
  match term_read [1; 1; 1] 2 (mk_tty [104; 105] []) with
  | Ok ((n, buf'), s') => 0 ≤ n ≤ 2 ∧ length buf' = 3%nat ∧ drop 2 buf' = [1] ∧
      ∃ k, (k < 2)%nat ∧ buf' !! k = Some 0
  | Err e => e = Diverges
  end.
Proof. exact (term_read_safe [1; 1; 1] 2 (mk_tty [104; 105] []) ltac:(lia) ltac:(done)). Defined.
