(* ===== verification/Files.v ===== *)
(** * The client side of the other servers (servers.c)

    The functions that talk to the file server, the terminal and the process
    server, and [dir_lookup], which searches a directory of the read-only file
    system.  A request struct that is not cleared holds what was on the stack:
    [stack] is a parameter of the stubs.  [NINODES] (fs.h) is a parameter. *)

From S2P Require Import Prelude Bytes Ipc NetDev SysNet Servers.

(** ** Layouts and constants *)

Definition BLOCK_SIZE : Z := 512.
Definition TERM_BUF_SIZE : Z := 1024.
Definition GPID_TERMINAL : Z := 2.
Definition GPID_FILE : Z := 3.

Definition FILE_READ : Z := 1.
Definition FILE_WRITE : Z := 2.
Definition FILE_GETSIZE : Z := 3.
Definition DIR_LOOKUP : Z := 4.
Definition FILE_OK : Z := 0.
Definition TERM_INPUT : Z := 0.
Definition TERM_OUTPUT : Z := 1.
Definition PROC_EXIT : Z := 1.

(** [struct file_request] and [struct file_reply] *)
Module freq.
Definition type : nat := 0.
Definition ino : nat := 4.
Definition offset : nat := 8.
Definition len : nat := 12.
Definition block : nat := 16.
Definition size : nat := 528.
End freq.
Module frep.
Definition status : nat := 0.
Definition block : nat := 4.
Definition size : nat := 516.
End frep.

(** [struct term_request] and [struct term_reply] *)
Module treq.
Definition type : nat := 0.
Definition len : nat := 4.
Definition buf : nat := 8.
Definition size : nat := 1032.
End treq.
Module trep.
Definition len : nat := 0.
Definition buf : nat := 4.
Definition size : nat := 1028.
End trep.
Definition proc_request_size : nat := 520.

(** ** C strings

    A string is the bytes of the array it lies in, up to its end; reading on
    past the array is a fault. *)

Fixpoint strlen (p : list Z) : res Z :=
  match p with
  | [] => Err OutOfBounds
  | c :: p => if c =? 0 then Ok 0 else match strlen p with Ok n => Ok (n + 1) | Err e => Err e end
  end.

(** [!strncmp(name, p, n)] for a [name] of [n] characters. *)
Fixpoint strncmp_eq (name p : list Z) : res bool :=
  match name with
  | [] => Ok true
  | x :: name =>
      match p with
      | [] => Err OutOfBounds
      | y :: p => if x =? y then strncmp_eq name p else Ok false
      end
  end.

Definition isspace (c : Z) : bool := (c =? 32) || ((9 <=? c) && (c <=? 13)).
Definition isdigit (c : Z) : bool := (48 <=? c) && (c <=? 57).

Fixpoint atoi_digits (acc : Z) (p : list Z) : res Z :=
  match p with
  | [] => Err OutOfBounds
  | c :: p => if isdigit c then atoi_digits (10 * acc + (c - 48)) p else Ok acc
  end.
Definition atoi_sign (p : list Z) : res Z :=
  match p with
  | [] => Err OutOfBounds
  | c :: p' =>
      if c =? 45 then match atoi_digits 0 p' with Ok n => Ok (- n) | Err e => Err e end
      else if c =? 43 then atoi_digits 0 p' else atoi_digits 0 p
  end.
Fixpoint atoi (p : list Z) : res Z :=
  match p with
  | [] => Err OutOfBounds
  | c :: p' => if isspace c then atoi p' else atoi_sign p
  end.

(** ** The loop of [dir_lookup]

    [p] is [buf + i], [prev] is [buf[i - 1]]. *)
Definition entry_here (name : list Z) (i prev : Z) (p : list Z) : res bool :=
  match strncmp_eq name p with
  | Err e => Err e
  | Ok false => Ok false
  | Ok true =>
      match p !! length name with
      | None => Err OutOfBounds
      | Some c => Ok ((c =? 32) && ((i =? 0) || (prev =? 32)))
      end
  end.

Fixpoint lookup_loop (name : list Z) (bound i prev : Z) (p : list Z) : res Z :=
  if i <? bound then
    match p with
    | [] => Err OutOfBounds
    | c :: p' =>
        match entry_here name i prev p with
        | Err e => Err e
        | Ok true => atoi (drop (length name) p)
        | Ok false => lookup_loop name bound (i + 1) c p'
        end
    end
  else Ok (-1).

(** [name] without its terminator; the bound is computed in [uint]. *)
Definition lookup_in (name : list Z) (buf : list Z) : res Z :=
  match strlen buf with
  | Err e => Err e
  | Ok n => lookup_loop name (wrap32 (n - Z.of_nat (length name))) 0 0 buf
  end.

(** [sys_send] without an answer. *)
Class Post (S : Type) := sys_post : Z → list Z → M S unit.

Section stubs.
Context {S : Type} `{Sys S} `{Post S} (NINODES : Z) (stack : list Z).

Definition lift_res {A} (r : res A) : K A := λ s : client S,
  match r with Ok a => Ok (a, s) | Err e => Err e end.

(** [sys_send(GPID_FILE, ...)] and [sys_recv(GPID_FILE, ..., buf, ...)] *)
Definition file_request (r : list Z) : K unit := λ s,
  match sys_call GPID_FILE r (c_env s) with
  | Ok (m, e) => Ok (tt, s <| c_env := e |> <| c_buf ::= put_bytes 0 m |>)
  | Err e => Err e
  end.

Definition file_read (file_ino offset len : Z) (dst : list Z) : K (Z * list Z) :=
  ASSERT (len <=? BLOCK_SIZE);;
  file_request (put32 freq.len len (put32 freq.offset offset (put32 freq.ino file_ino
    (put32 freq.type FILE_READ (take freq.size stack)))));;
  check (memcpy_ok len (Z.to_nat BLOCK_SIZE) (length dst));;
  block ← getM (λ s, slice frep.block (Z.to_nat len) (c_buf s));
  st ← reply_field frep.status;
  mret (if st =? FILE_OK then 0 else -1, put_bytes 0 block dst).

Definition file_write (file_ino offset len : Z) (src : list Z) : K Z :=
  ASSERT (len <=? BLOCK_SIZE);;
  check (memcpy_ok len (length src) (Z.to_nat BLOCK_SIZE));;
  file_request (put_bytes freq.block (take (Z.to_nat len) src)
    (put32 freq.len len (put32 freq.offset offset (put32 freq.ino file_ino
      (put32 freq.type FILE_WRITE (take freq.size stack))))));;
  st ← reply_field frep.status;
  mret (if st =? FILE_OK then 0 else -1).

(** The result and what is stored through [fsz]. *)
Definition file_getsize (file_ino : Z) : K (Z * Z) :=
  file_request (put32 freq.ino file_ino (put32 freq.type FILE_GETSIZE (take freq.size stack)));;
  size ← reply_field frep.block;
  st ← reply_field frep.status;
  mret (if st =? FILE_OK then 0 else -1, wrap32 size).

Definition dir_lookup (dir_ino : Z) (name : list Z) : K Z :=
  if dir_ino <? NINODES then
    r ← file_read dir_ino 0 BLOCK_SIZE (take (Z.to_nat BLOCK_SIZE) stack);
    lift_res (lookup_in name r.2)
  else
    check (length name <? Z.to_nat BLOCK_SIZE)%nat;;
    file_request (put_bytes freq.block (name ++ [0])
      (put32 freq.ino dir_ino (put32 freq.type DIR_LOOKUP (take freq.size stack))));;
    reply_field frep.block.

Definition term_read (len : Z) (buf : list Z) : K (Z * list Z) := λ s,
  match sys_call GPID_TERMINAL (put32 treq.len len (put32 treq.type TERM_INPUT (take treq.size stack)))
          (c_env s) with
  | Ok (m, e) =>
      let n := wrap32 (get32 m trep.len) in
      if memcpy_ok n (Z.to_nat TERM_BUF_SIZE) (length buf)
      then Ok ((sint32 n, put_bytes 0 (slice trep.buf (Z.to_nat n) m) buf), s <| c_env := e |>)
      else Err OutOfBounds
  | Err e => Err e
  end.

Definition post (to : Z) (m : list Z) : K unit := λ s,
  match sys_post to m (c_env s) with
  | Ok (_, e) => Ok (tt, s <| c_env := e |>)
  | Err e => Err e
  end.

Definition term_write (str : list Z) (len : Z) : K unit :=
  check (memcpy_ok len (length str) (Z.to_nat TERM_BUF_SIZE));;
  post GPID_TERMINAL (put_bytes treq.buf (take (Z.to_nat len) str)
    (put32 treq.len len (put32 treq.type TERM_OUTPUT (take treq.size stack)))).

(** [while (1);] follows the message. *)
Definition exit (status : Z) : K unit :=
  post GPID_PROCESS (put32 0 PROC_EXIT (take proc_request_size stack));;
  fail Diverges.
End stubs.
