(* ===== verification/Mkfs.v ===== *)
(** * The read-only file system of the disk image: tools/mkfs.c

    How the tool lays out directories as text and writes the inodes of the
    read-only file system.  The file system below it (treedisk or mydisk) and
    the directory it reads the applications from are not part of the
    repository: the writes are recorded in order, and the directory entries,
    each with the contents of its file, are an argument. *)

From Stdlib Require Import Ascii String.
From S2P Require Import Prelude Bytes Files.

Definition chars (s : string) : list Z :=
  (λ c, Z.of_N (N_of_ascii c)) <$> list_ascii_of_string s.

Definition SIZE_2MB : Z := 2 * 1024 * 1024.

Definition bin_dir_init : list Z := chars "./   6 ../   0 ".
Definition bin_dir_size : nat := 256.
Definition contents : list (list Z) :=
  [chars "./   0 ../   0 home/   1 bin/   6 ";
   chars "./   1 ../   0 cs6640/ 2 ta/    3 fs/       4 ";
   chars "./   2 ../   1 README  5 rwfs/  128 ";
   chars "./   3 ../   1 ";
   chars "./   4 ../   1 ";
   chars "Welcome to CS6640 labs. " ++ [10] ++
   chars "This OS is tailored from egos-2000 (https://github.com/yhzhang0128/egos-2000)." ++ [10]].
Definition BIN_DIR_INODE : Z := Z.of_nat (length contents).

(** ** Formatting *)

(** The digits of [%d], for a number that is not negative. *)
Fixpoint dec_fuel (fuel : nat) (n : Z) : list Z :=
  match fuel with
  | O => []
  | S fuel => (if n <? 10 then [] else dec_fuel fuel (n / 10)) ++ [48 + n mod 10]
  end.
Definition dec (n : Z) : list Z := dec_fuel 10 n.

(** ["%4d"] *)
Definition pad4 (n : Z) : list Z := replicate (4 - length (dec n)) 32 ++ dec n.

(** [strstr(s, sub)] is not null. *)
Fixpoint strstr (s sub : list Z) : bool :=
  bool_decide (take (length sub) s = sub) || match s with [] => false | _ :: s => strstr s sub end.

(** ** The tool *)

Record mkfs := mk_mkfs {
  bin_dir : list Z;                    (* the string in bin_dir[] *)
  app_ino : Z;
  inode : list Z;
  writes : list (Z * Z * list Z);      (* inode, offset in blocks, block *)
}.
#[export] Instance mkfs_settable : Settable mkfs :=
  settable! mk_mkfs <bin_dir; app_ino; inode; writes>.

Definition F : Type → Type := M mkfs.

Definition fs_write (ino off : Z) (block : list Z) : F unit :=
  modM (λ s, s <| writes ::= λ w, w ++ [(ino, off, block)] |>).

(** [strncpy(inode, text, BLOCK_SIZE)], and inodes [ino] on. *)
Definition strncpy_block (text : list Z) : list Z :=
  take 512 text ++ replicate (512 - length text) 0.

Fixpoint write_contents (ino : Z) (l : list (list Z)) : F unit :=
  match l with
  | [] => mret tt
  | text :: l =>
      modM (λ s, s <| inode ::= put_bytes 0 (strncpy_block text) |>);;
      block ← getM (λ s, take 512 (inode s));
      fs_write ino 0 block;;
      write_contents (ino + 1) l
  end.

(** The blocks of an application that has been loaded into [inode]. *)
Fixpoint write_blocks (n : nat) (b : Z) (file_size : Z) : F unit :=
  match n with
  | O => mret tt
  | S n =>
      if b * BLOCK_SIZE <? file_size then
        ino ← getM app_ino;
        block ← getM (λ s, slice (Z.to_nat (b * BLOCK_SIZE)) 512 (inode s));
        fs_write ino b block;;
        write_blocks n (b + 1) file_size
      else mret tt
  end.

(** One turn of the [readdir] loop. *)
Definition add_entry (d_name data : list Z) : F unit :=
  if strstr d_name (chars ".elf") then
    size ← getM (λ s, length (inode s));
    (if (length data <=? size)%nat then modM (λ s, s <| inode ::= put_bytes 0 data |>)
     else fail OutOfBounds);;
    let file_size := Z.of_nat (length data) in
    write_blocks (length data) 0 file_size;;
    let name := take (length d_name - 4) d_name in
    ino ← getM app_ino;
    let tmp := name ++ pad4 ino ++ [32] in
    modM (λ s, s <| app_ino ::= Z.add 1 |>);;
    dir ← getM bin_dir;
    if (length dir + length tmp <? bin_dir_size)%nat
    then modM (λ s, s <| bin_dir := dir ++ tmp |>) else fail OutOfBounds
  else mret tt.

Fixpoint add_entries (l : list (list Z * list Z)) : F unit :=
  match l with
  | [] => mret tt
  | (d_name, data) :: l => add_entry d_name data;; add_entries l
  end.

(** The block written for the /bin directory: [bin_dir[]] and, since a block
    is larger than the array, the [beyond] bytes that follow it in memory. *)
Definition bin_block (dir beyond : list Z) : list Z :=
  take 512 (dir ++ replicate (bin_dir_size - length dir) 0 ++ beyond).

(** [main] from the inodes of the fixed files to the one of /bin. *)
Definition make_fs (entries : list (list Z * list Z)) (beyond : list Z) : F unit :=
  write_contents 0 contents;;
  modM (λ s, s <| app_ino := BIN_DIR_INODE + 1 |>);;
  add_entries entries;;
  dir ← getM bin_dir;
  fs_write BIN_DIR_INODE 0 (bin_block dir beyond).

Definition mkfs0 : mkfs := mk_mkfs bin_dir_init 0 (replicate (Z.to_nat SIZE_2MB) 0) [].

(** The last block written at an inode. *)
Definition fs_read (w : list (Z * Z * list Z)) (ino off : Z) : option (list Z) :=
  snd <$> List.find (λ x, (x.1.1 =? ino) && (x.1.2 =? off)) (rev w).
