(* ===== verification/MkfsThms.v ===== *)
(** * What the disk image holds

    The blocks that a run of mkfs leaves at each inode: the fixed files, the
    /bin directory and, for the [k]-th application, the blocks of its file at
    inode [7 + k]. *)

From Stdlib Require Import Ascii String.
From S2P Require Import Prelude Bytes Files Mkfs.

(** The applications among the directory entries, in the order they are read. *)
Definition elf_entries (entries : list (list Z * list Z)) : list (list Z * list Z) :=
  filter (λ e, strstr e.1 (chars ".elf") = true) entries.

Lemma fs_read_snoc w i o block i' o' :
  fs_read (w ++ [(i, o, block)]) i' o' = if decide (i' = i ∧ o' = o) then Some block else fs_read w i' o'.
Proof.
  unfold fs_read. rewrite rev_app_distr. cbn [rev app List.find fst snd].
  destruct (Z.eqb_spec i i') as [->|Hi]; destruct (Z.eqb_spec o o') as [->|Ho]; cbn [andb].
  - by rewrite decide_True.
  - rewrite decide_False by (intros []; congruence). done.
  - rewrite decide_False by (intros []; congruence). done.
  - rewrite decide_False by (intros []; congruence). done.
Qed.

Lemma write_blocks_reads n b sz s : 0 ≤ b →
  ∃ s', write_blocks n b sz s = Ok (tt, s') ∧ inode s' = inode s ∧ app_ino s' = app_ino s ∧ bin_dir s' = bin_dir s ∧
    ∀ i o, fs_read (writes s') i o =
      if decide (i = app_ino s ∧ b ≤ o < b + Z.of_nat n ∧ o * BLOCK_SIZE < sz)
      then Some (slice (Z.to_nat (o * BLOCK_SIZE)) 512 (inode s)) else fs_read (writes s) i o.
Proof.
  revert b s. induction n as [|n IH]; intros b s Hb; cbn [write_blocks].
  { exists s. split_and!; [done..|]. intros i o. by rewrite decide_False by lia. }
  destruct (Z.ltb_spec (b * BLOCK_SIZE) sz) as [Hlt|Hge].
  2: { exists s. split_and!; [done..|]. intros i o. by rewrite decide_False by (unfold BLOCK_SIZE in *; nia). }
  unfold mbind, M_bind, getM, fs_write, modM.
  set (s1 := s <| writes ::= _ |>). destruct (IH (b + 1) s1) as (s' & -> & Hi & Ha & Hd & Hr); [lia|].
  exists s'. split_and!; [done..|]. intros i o. rewrite Hr. subst s1. cbn [writes app_ino inode set_field].
  rewrite fs_read_snoc.
  repeat case_decide; try done; try lia.
  destruct H0 as [-> ->]. done.
Qed.

Lemma add_entry_reads d data s s' :
  add_entry d data s = Ok (tt, s') → strstr d (chars ".elf") = true →
  (length data ≤ length (inode s))%nat ∧ inode s' = put_bytes 0 data (inode s) ∧ app_ino s' = app_ino s + 1 ∧
  ∀ i o, fs_read (writes s') i o =
    if decide (i = app_ino s ∧ 0 ≤ o ∧ o * BLOCK_SIZE < Z.of_nat (length data))
    then Some (slice (Z.to_nat (o * BLOCK_SIZE)) 512 (put_bytes 0 data (inode s))) else fs_read (writes s) i o.
Proof.
  unfold add_entry. intros E Hs. rewrite Hs in E. unfold mbind, M_bind, getM in E.
  destruct (length data <=? _)%nat eqn:Hle; [|done]. apply Nat.leb_le in Hle. unfold modM in E.
  destruct (write_blocks_reads (length data) 0 (Z.of_nat (length data)) (s <| inode ::= put_bytes 0 data |>))
    as (s2 & Ew & Hi & Ha & Hd & Hr); [done|]. rewrite Ew in E.
  destruct (_ <? bin_dir_size)%nat; [|done]. injection E as <-. cbn [inode app_ino writes set_field].
  rewrite Hi, Ha. split; [done|]. split; [done|]. split; [cbn; lia|]. intros i o. rewrite Hr.
  cbn [inode app_ino writes set_field]. apply decide_ext. unfold BLOCK_SIZE. lia.
Qed.

(** The file [data] is at inode [ino]: every block of it can be read, and the
    blocks hold its bytes, the last one up to the end of the file. *)
Definition stored (w : list (Z * Z * list Z)) (ino : Z) (data : list Z) : Prop :=
  ∀ o, 0 ≤ o → o * BLOCK_SIZE < Z.of_nat (length data) →
  ∃ block, fs_read w ino o = Some block ∧ length block = 512%nat ∧
    take (length data - Z.to_nat (o * BLOCK_SIZE)) block = slice (Z.to_nat (o * BLOCK_SIZE)) 512 data.

Lemma stored_ext w w' ino data :
  (∀ o, fs_read w' ino o = fs_read w ino o) → stored w ino data → stored w' ino data.
Proof. intros Hr Hs o Ho Hlt. rewrite Hr. by apply Hs. Qed.

Lemma put_bytes_stored data buf o nb :
  length buf = (nb * 512)%nat → (length data ≤ length buf)%nat → (o * 512 < length data)%nat →
  let block := slice (o * 512) 512 (put_bytes 0 data buf) in
  length block = 512%nat ∧ take (length data - o * 512) block = slice (o * 512) 512 data.
Proof.
  intros Hb Hd Ho block. assert (o < nb)%nat by nia. split.
  { apply length_slice. rewrite length_put_bytes. nia. }
  subst block. pose proof (slice_put_bytes 0 (length data) data buf ltac:(lia) ltac:(lia)) as E.
  rewrite firstn_all in E. unfold slice in *. rewrite drop_0 in E.
  rewrite take_take, Nat.min_comm, <-take_take. f_equal.
  rewrite <-E at 3. rewrite skipn_firstn_comm. done.
Qed.

Lemma add_entries_stored nb l s s' :
  add_entries l s = Ok (tt, s') → length (inode s) = (nb * 512)%nat →
  (∀ k d data, elf_entries l !! k = Some (d, data) → stored (writes s') (app_ino s + Z.of_nat k) data) ∧
  (∀ i o, i < app_ino s → fs_read (writes s') i o = fs_read (writes s) i o).
Proof.
  revert s. induction l as [|[d data] l IH]; intros s; cbn [add_entries].
  { intros [= <-] _. split; [|done]. intros k ? ? Hk. unfold elf_entries in Hk. by rewrite filter_nil, lookup_nil in Hk. }
  unfold mbind at 1, M_bind at 1. destruct (add_entry d data s) as [[[] s1]|] eqn:E; [|done]. intros E' Hb.
  unfold elf_entries in *. rewrite filter_cons. cbn [fst]. case_decide as Hs.
  2: { unfold add_entry in E. apply not_true_is_false in Hs. rewrite Hs in E. injection E as <-. by apply IH. }
  destruct (add_entry_reads _ _ _ _ E Hs) as (Hd & Hi & Ha & Hr).
  destruct (IH s1 E') as [Hst Hold]; [by rewrite Hi, length_put_bytes|]. rewrite Ha in *. split.
  - intros [|k] d' data' Hk; cbn in Hk.
    + injection Hk as <- <-. rewrite Z.add_0_r. apply (stored_ext (writes s1)); [intros o; apply Hold; lia|].
      intros o Ho Hlt. rewrite Hr, decide_True by done. eexists. split; [done|].
      replace (Z.to_nat (o * BLOCK_SIZE)) with (Z.to_nat o * 512)%nat by (unfold BLOCK_SIZE; lia).
      apply (put_bytes_stored _ _ _ nb); [done|done|unfold BLOCK_SIZE in *; lia].
    + replace (app_ino s + Z.of_nat (S k)) with (app_ino s + 1 + Z.of_nat k) by lia. by eapply Hst.
  - intros i o Hlt. rewrite Hold by lia. rewrite Hr. by rewrite decide_False by lia.
Qed.

(** The inodes of the fixed files. *)
Lemma length_strncpy_block t : length (strncpy_block t) = 512%nat.
Proof. unfold strncpy_block. rewrite length_app, length_take, length_replicate. lia. Qed.

Lemma put_block_take t b : (512 ≤ length b)%nat → take 512 (put_bytes 0 (strncpy_block t) b) = strncpy_block t.
Proof.
  intros Hb. pose proof (slice_put_bytes 0 512 (strncpy_block t) b) as E. unfold slice in E.
  rewrite length_strncpy_block, drop_0 in E. rewrite E by lia. apply take_ge. rewrite length_strncpy_block. lia.
Qed.

Lemma write_contents_reads l i s :
  (512 ≤ length (inode s))%nat →
  ∃ s', write_contents i l s = Ok (tt, s') ∧ bin_dir s' = bin_dir s ∧ length (inode s') = length (inode s) ∧
    (∀ k t, l !! k = Some t → fs_read (writes s') (i + Z.of_nat k) 0 = Some (strncpy_block t)) ∧
    (∀ j o, j < i → fs_read (writes s') j o = fs_read (writes s) j o).
Proof.
  revert i s. induction l as [|t l IH]; intros i s Hb; cbn [write_contents].
  { exists s. by split_and!. }
  unfold mbind, M_bind, getM, fs_write, modM.
  cbv beta iota. match goal with |- ∃ s', write_contents _ _ ?x = _ ∧ _ => set (s1 := x) end. destruct (IH (i + 1) s1) as (s' & E & Hd & Hi & Hk & Hold).
  { subst s1. cbn [inode set_field]. by rewrite length_put_bytes. }
  exists s'. split; [done|]. subst s1. cbn [inode bin_dir writes set_field] in *. rewrite length_put_bytes in Hi.
  split_and!; [done|done| |].
  - intros [|k] t' Ht'; cbn in Ht'.
    + injection Ht' as <-. rewrite Z.add_0_r, Hold by lia.
      rewrite fs_read_snoc, decide_True by done. f_equal. by apply put_block_take.
    + replace (i + Z.of_nat (S k)) with (i + 1 + Z.of_nat k) by lia. by apply Hk.
  - intros j o Hj. rewrite Hold by lia. by rewrite fs_read_snoc, decide_False by lia.
Qed.

(** A run of mkfs: the fixed files and the applications. *)
Lemma make_fs_stored entries beyond buf nb s :
  make_fs entries beyond (mk_mkfs bin_dir_init 0 buf []) = Ok (tt, s) →
  length buf = (nb * 512)%nat → (0 < nb)%nat →
  (∀ k t, contents !! k = Some t → fs_read (writes s) (Z.of_nat k) 0 = Some (strncpy_block t)) ∧
  (∀ k d data, elf_entries entries !! k = Some (d, data) →
     stored (writes s) (BIN_DIR_INODE + 1 + Z.of_nat k) data).
Proof.
  intros E Hb Hn. unfold make_fs in E. unfold mbind at 1, M_bind at 1 in E.
  destruct (write_contents_reads contents 0 (mk_mkfs bin_dir_init 0 buf [])) as (s1 & Ec & _ & Hi & Hk & _).
  { cbn [inode]. nia. }
  rewrite Ec in E. unfold mbind, M_bind, getM, fs_write, modM in E.
  destruct (add_entries entries _) as [[[] s2]|] eqn:E2; [|done]. injection E as <-.
  destruct (add_entries_stored nb _ _ _ E2) as [Hst Hold]; [cbn [inode set_field]; by rewrite Hi|].
  cbn [app_ino writes set_field] in *. change (BIN_DIR_INODE + 1) with 7 in *. split.
  - intros k t Ht. pose proof (lookup_lt_Some _ _ _ Ht) as Hlt. cbn in Hlt.
    rewrite fs_read_snoc, decide_False by (unfold BIN_DIR_INODE; cbn; lia).
    rewrite Hold by lia. rewrite <-(Hk k t Ht). f_equal.
  - intros k d data Hk'. eapply stored_ext; [|by eapply Hst]. intros o.
    rewrite fs_read_snoc, decide_False; [done|]. unfold BIN_DIR_INODE. cbn. lia.
Qed.
