(* ===== verification/DirThms.v ===== *)
(** * Directories: what mkfs writes, dir_lookup finds

    A directory is text: words (names and inode numbers) separated by spaces.
    [loop_tokens] shows that the character loop of [dir_lookup] finds the first
    word equal to the name; the theorems put the two programs together. *)

From Stdlib Require Import Ascii String.
From S2P Require Import Prelude Bytes Ipc NetDev SysNet Servers Files Mkfs MkfsThms.

(** ** Words *)

Definition token : Type := list Z * nat.      (* a word and the spaces after it *)
Definition tok_text (t : token) : list Z := t.1 ++ replicate t.2 32.
Definition text (ts : list token) : list Z := concat (tok_text <$> ts).

Definition plain (w : list Z) : Prop := w ≠ [] ∧ Forall (λ c, c ≠ 32 ∧ c ≠ 0) w.
Definition tok_ok (t : token) : Prop := plain t.1 ∧ (0 < t.2)%nat.

Fixpoint find_tok (name : list Z) (ts : list token) : option (list Z) :=
  match ts with
  | [] => None
  | (w, g) :: ts => if decide (w = name) then Some (replicate g 32 ++ text ts) else find_tok name ts
  end.

Lemma text_cons w g ts : text ((w, g) :: ts) = w ++ replicate g 32 ++ text ts.
Proof. unfold text. cbn. unfold tok_text. by rewrite <-app_assoc. Qed.
Lemma text_app ts ts' : text (ts ++ ts') = text ts ++ text ts'.
Proof. unfold text. by rewrite fmap_app, concat_app. Qed.

Lemma strncmp_ok name p :
  (length name ≤ length p)%nat → strncmp_eq name p = Ok (bool_decide (take (length name) p = name)).
Proof.
  revert p. induction name as [|x name IH]; intros p Hl; [by destruct p|].
  destruct p as [|y p]; cbn in *; [lia|].
  destruct (Z.eqb_spec x y) as [->|Hne].
  - rewrite IH by lia. f_equal. apply bool_decide_ext. split; [by intros ->|by intros [=]].
  - rewrite bool_decide_false; [done|]. intros [=]. congruence.
Qed.

Lemma entry_here_ok name i prev p :
  (length name < length p)%nat →
  entry_here name i prev p =
    Ok (bool_decide (take (length name) p = name) && (p !!! length name =? 32) && ((i =? 0) || (prev =? 32))).
Proof.
  intros Hl. unfold entry_here. rewrite strncmp_ok by lia. destruct (bool_decide _); [|done].
  destruct (lookup_lt_is_Some_2 p (length name) Hl) as [c Hc]. rewrite Hc.
  by rewrite (list_lookup_total_correct _ _ _ Hc).
Qed.

Lemma loop_done name bound i prev p : ¬ i < bound → lookup_loop name bound i prev p = Ok (-1).
Proof. intros Hi. destruct p; cbn; by rewrite (proj2 (Z.ltb_ge i bound)) by lia. Qed.

Lemma loop_skip name bound i prev c p :
  (i < bound → (length name < length (c :: p))%nat ∧
     (bool_decide (take (length name) (c :: p) = name) && ((c :: p) !!! length name =? 32) &&
      ((i =? 0) || (prev =? 32))) = false) →
  lookup_loop name bound i prev (c :: p) = lookup_loop name bound (i + 1) c p.
Proof.
  intros Hs. destruct (decide (i < bound)) as [Hi|Hi].
  - destruct (Hs Hi) as [Hl Hf]. cbn [lookup_loop]. by rewrite (proj2 (Z.ltb_lt i bound)), entry_here_ok, Hf by done.
  - rewrite !loop_done by lia. done.
Qed.

Section tokens.
Context (name tail : list Z) (Hname : plain name).

(** The bytes from here to the terminator number [m]; the bound leaves room
    for the name. *)
Definition room (bound i : Z) (p : list Z) : Prop := bound = i + Z.of_nat (length p) - Z.of_nat (length name).

Lemma name_pos : (0 < length name)%nat.
Proof. destruct Hname as [Hn _]. by destruct name; [|cbn; lia]. Qed.

Lemma skip_word bound i prev w p :
  0 < i → Forall (λ c, c ≠ 32 ∧ c ≠ 0) w → prev ≠ 32 → room bound i (w ++ p) →
  ∃ prev', lookup_loop name bound i prev (w ++ p ++ 0 :: tail) =
           lookup_loop name bound (i + Z.of_nat (length w)) prev' (p ++ 0 :: tail).
Proof.
  revert i prev. induction w as [|c w IH]; intros i prev Hi Hw Hp Hr.
  { exists prev. by rewrite Z.add_0_r. }
  apply Forall_cons_1 in Hw as [[Hc _] Hw]. cbn [app]. rewrite loop_skip.
  - destruct (IH (i + 1) c) as [prev' E]; [lia|done|done| |].
    { unfold room in *. cbn in Hr. lia. }
    exists prev'. rewrite E. f_equal. cbn. lia.
  - intros Hlt. unfold room in Hr. cbn [app length] in *. rewrite !length_app in *. cbn [length]. split; [lia|].
    rewrite (proj2 (Z.eqb_neq i 0)), (proj2 (Z.eqb_neq prev 32)) by lia. apply andb_false_r.
Qed.

Lemma skip_spaces bound i prev g p :
  room bound i (replicate g 32 ++ p) → (0 < g)%nat →
  lookup_loop name bound i prev (replicate g 32 ++ p ++ 0 :: tail) =
  lookup_loop name bound (i + Z.of_nat g) 32 (p ++ 0 :: tail).
Proof.
  revert i prev. induction g as [|g IH]; intros i prev Hr Hg; [lia|]. cbn [replicate app]. rewrite loop_skip.
  - destruct g as [|g]; [by cbn|]. rewrite IH; [f_equal; lia| |lia]. unfold room in *. cbn in *. lia.
  - intros Hlt. unfold room in Hr. cbn [replicate app length] in *. rewrite !length_app in *. cbn [length]. split; [lia|].
    rewrite bool_decide_false; [done|]. destruct Hname as [Hn Hf]. destruct name as [|x n]; [done|].
    cbn. intros [= <- _]. by inversion Hf as [|? ? []].
Qed.

(** At the start of another word there is no match. *)
Lemma word_differs w g p :
  plain w → (0 < g)%nat → w ≠ name → (length name < length (w ++ replicate g 32%Z ++ p))%nat →
  bool_decide (take (length name) (w ++ replicate g 32 ++ p) = name) &&
    ((w ++ replicate g 32 ++ p) !!! length name =? 32) = false.
Proof.
  intros [Hw Hwf] Hg Hne Hl. case_bool_decide as Ht; [|done]. cbn [andb].
  destruct (Nat.lt_trichotomy (length name) (length w)) as [Hlt|[Heq|Hgt]].
  - apply Z.eqb_neq. rewrite lookup_total_app_l by done.
    by destruct (proj1 (Forall_lookup_total _ _) Hwf (length name) Hlt).
  - exfalso. apply Hne. rewrite <-Ht, Heq. by rewrite take_app_length.
  - exfalso. destruct Hname as [_ Hf].
    assert (name !! length w = Some 32) as H32.
    { rewrite <-Ht at 1. rewrite lookup_take_lt by done. rewrite lookup_app_r by lia.
      rewrite Nat.sub_diag. destruct g; [lia|done]. }
    by destruct (proj1 (Forall_lookup _ _) Hf _ _ H32).
Qed.

Lemma loop_tokens ts bound i prev :
  Forall tok_ok ts → 0 ≤ i → (i = 0 ∨ prev = 32) → room bound i (text ts) →
  lookup_loop name bound i prev (text ts ++ 0 :: tail) =
    match find_tok name ts with Some r => atoi (r ++ 0 :: tail) | None => Ok (-1) end.
Proof.
  revert i prev. induction ts as [|[w g] ts IH]; intros i prev Hts Hi Hb Hr.
  { apply loop_done. unfold room in Hr. cbn in Hr. pose proof name_pos. lia. }
  apply Forall_cons_1 in Hts as [[Hw Hg] Hts]. cbn [fst snd] in *. rewrite text_cons in *. cbn [find_tok].
  rewrite <-!app_assoc. unfold room in Hr. rewrite !length_app, length_replicate in Hr.
  destruct (decide (w = name)) as [->|Hne].
  - pose proof name_pos. destruct name as [|x n] eqn:En; [cbn in *; lia|]. cbn [app lookup_loop].
    rewrite (proj2 (Z.ltb_lt i bound)) by lia. rewrite <-En in *.
    change (x :: n ++ replicate g 32 ++ text ts ++ 0 :: tail) with ((x :: n) ++ replicate g 32 ++ text ts ++ 0 :: tail).
    rewrite <-En. rewrite entry_here_ok by (rewrite !length_app, length_replicate; lia).
    rewrite take_app_length, bool_decide_true by done. rewrite lookup_total_app_r, Nat.sub_diag by lia.
    destruct g as [|g]; [lia|]. cbn [replicate app]. change ((32 :: _) !!! 0%nat) with 32. change (32 =? 32) with true.
    assert ((i =? 0) || (prev =? 32) = true) as -> by (apply orb_true_iff; rewrite !Z.eqb_eq; done).
    cbn [andb]. rewrite drop_app_length. by rewrite <-app_assoc.
  - destruct Hw as [Hwn Hwf]. destruct w as [|c w]; [done|].
    pose proof (word_differs (c :: w) g (text ts ++ 0 :: tail) (conj Hwn Hwf) Hg Hne) as Hd.
    cbn [app] in *. rewrite loop_skip.
    + apply Forall_cons_1 in Hwf as [[Hc _] Hwf]. cbn [length] in Hr.
      destruct (skip_word bound (i + 1) c w (replicate g 32 ++ text ts)) as [prev' E]; [lia|done|done| |].
      { unfold room. rewrite !length_app, length_replicate. lia. }
      rewrite <-!app_assoc in E. rewrite E, skip_spaces; [|unfold room; rewrite length_app, length_replicate; lia|done].
      rewrite IH; [done|done|lia|by right|]. unfold room. lia.
    + intros Hlt. cbn [length] in *. rewrite !length_app, length_replicate in *. cbn [length] in *.
      split; [lia|]. rewrite Hd by lia. done.
Qed.
End tokens.

(** ** Numbers *)

Definition digits_val (d : list Z) : Z := foldl (λ acc c, 10 * acc + (c - 48)) 0 d.

Lemma atoi_digits_run acc d p c :
  Forall (λ x, isdigit x = true) d → isdigit c = false →
  atoi_digits acc (d ++ c :: p) = Ok (foldl (λ acc x, 10 * acc + (x - 48)) acc d).
Proof.
  revert acc. induction d as [|x d IH]; intros acc Hd Hc; cbn; [by rewrite Hc|].
  apply Forall_cons_1 in Hd as [-> Hd]. by apply IH.
Qed.

Lemma digit_range x : isdigit x = true → 48 ≤ x ≤ 57.
Proof. unfold isdigit. rewrite andb_true_iff, !Z.leb_le. done. Qed.

Lemma atoi_run g d p c :
  Forall (λ x, isdigit x = true) d → d ≠ [] → isdigit c = false →
  atoi (replicate g 32 ++ d ++ c :: p) = Ok (digits_val d).
Proof.
  intros Hd Hne Hc. induction g as [|g IH]; [|done]. cbn [replicate app].
  destruct d as [|x d]; [done|]. pose proof Hd as Hd'. apply Forall_cons_1 in Hd' as [Hx _].
  pose proof (digit_range x Hx). cbn [app atoi]. unfold isspace.
  assert ((x =? 32) || (9 <=? x) && (x <=? 13) = false) as ->.
  { apply orb_false_iff. rewrite andb_false_iff, Z.eqb_neq, !Z.leb_gt. lia. }
  unfold atoi_sign. rewrite (proj2 (Z.eqb_neq x 45)), (proj2 (Z.eqb_neq x 43)) by lia.
  apply (atoi_digits_run 0 (x :: d)); done.
Qed.

(** Three digits and less. *)
Definition dec_good (n : Z) : bool :=
  (1 <=? length (dec n))%nat && (length (dec n) <=? 3)%nat && forallb isdigit (dec n) && (digits_val (dec n) =? n).
Lemma dec_ok n : 0 ≤ n < 1000 →
  (1 ≤ length (dec n) ≤ 3)%nat ∧ Forall (λ x, isdigit x = true) (dec n) ∧ digits_val (dec n) = n.
Proof.
  intros Hn. assert (forallb dec_good (seqZ 0 1000) = true) as Hall by by vm_compute.
  rewrite forallb_forall in Hall. specialize (Hall n). rewrite <-list_elem_of_In, elem_of_seqZ in Hall.
  specialize (Hall ltac:(lia)). unfold dec_good in Hall. rewrite !andb_true_iff, !Nat.leb_le, Z.eqb_eq in Hall.
  destruct Hall as [[[? ?] Hf] ?]. split; [lia|]. split; [|done]. by apply Forall_forall; apply forallb_forall.
Qed.

(** ** The /bin directory *)

Definition has_letter (w : list Z) : Prop := ∃ c, c ∈ w ∧ isdigit c = false.

(** A file name that can be looked up. *)
Record good_name (w : list Z) : Prop := {
  gn_plain : plain w;
  gn_letter : has_letter w;
}.

(** The entries of [names], numbered from [ino] on. *)
Fixpoint dir_tokens (ino : Z) (names : list (list Z)) : list token :=
  match names with
  | [] => []
  | w :: names => (w, (4 - length (dec ino))%nat) :: (dec ino, 1%nat) :: dir_tokens (ino + 1) names
  end.
Definition dot_tokens : list token :=
  [(chars "./", 3%nat); (chars "6", 1%nat); (chars "../", 3%nat); (chars "0", 1%nat)].

Lemma dec_plain n : 0 ≤ n < 1000 → plain (dec n).
Proof.
  intros (Hl & Hd & _)%dec_ok. split; [by destruct (dec n); cbn in Hl; [lia|]|].
  revert Hd. apply Forall_impl. intros x Hx%digit_range. lia.
Qed.

Lemma dir_tokens_ok ino names :
  0 ≤ ino → ino + Z.of_nat (length names) ≤ 1000 → Forall plain names → Forall tok_ok (dir_tokens ino names).
Proof.
  revert ino. induction names as [|w names IH]; intros ino Hi Hn Hp; [constructor|].
  apply Forall_cons_1 in Hp as [Hw Hp]. cbn in Hn. pose proof (dec_ok ino ltac:(lia)) as (Hl & _).
  cbn [dir_tokens]. constructor; [split; cbn [fst snd]; [done|lia]|].
  constructor; [split; cbn [fst snd]; [apply dec_plain; lia|lia]|]. apply IH; [lia|lia|done].
Qed.

Lemma find_tok_app name ts ts' :
  (∀ w g, (w, g) ∈ ts → w ≠ name) → find_tok name (ts ++ ts') = find_tok name ts'.
Proof.
  induction ts as [|[w g] ts IH]; intros Hn; [done|]. cbn. rewrite decide_False.
  - apply IH. intros w' g' Hw. apply (Hn w' g'). by right.
  - apply (Hn w g). by left.
Qed.

Lemma digits_not_name name d : has_letter name → Forall (λ x, isdigit x = true) d → d ≠ name.
Proof.
  intros (c & Hc & Hn) Hd ->. rewrite list.Forall_forall in Hd. specialize (Hd c Hc). cbn in Hd. congruence.
Qed.

Lemma find_dir_token ino names k name :
  0 ≤ ino → ino + Z.of_nat (length names) ≤ 1000 → NoDup names → has_letter name → names !! k = Some name →
  ∃ g rest, find_tok name (dir_tokens ino names) = Some (replicate g 32 ++ dec (ino + Z.of_nat k) ++ 32 :: rest).
Proof.
  revert ino k. induction names as [|w names IH]; intros ino k Hi Hn Hd Hl Hk; [done|].
  apply list.NoDup_cons in Hd as [Hw Hd]. cbn in Hn. cbn [dir_tokens find_tok]. destruct k as [|k].
  - injection Hk as ->. rewrite decide_True by done. rewrite text_cons. cbn [replicate app].
    rewrite Z.add_0_r. by eauto.
  - cbn in Hk. rewrite decide_False by (intros ->; by apply Hw, (list_elem_of_lookup_2 _ k)).
    rewrite decide_False by (eapply digits_not_name; [done|apply (dec_ok ino); lia]).
    destruct (IH (ino + 1) k) as (g & rest & E); [lia|lia|done|done|done|].
    exists g, rest. rewrite E. do 4 f_equal. lia.
Qed.

Lemma find_dir_none ino names name :
  0 ≤ ino → ino + Z.of_nat (length names) ≤ 1000 → has_letter name → name ∉ names →
  find_tok name (dir_tokens ino names) = None.
Proof.
  revert ino. induction names as [|w names IH]; intros ino Hi Hn Hl Hk; [done|].
  cbn in Hn. cbn [dir_tokens find_tok]. rewrite not_elem_of_cons in Hk. destruct Hk as [Hk Hk'].
  rewrite decide_False by (intros ->; done).
  rewrite decide_False by (eapply digits_not_name; [done|apply (dec_ok ino); lia]).
  apply IH; [lia|lia|done|done].
Qed.

(** The names under which applications are entered. *)
Definition elf_name (d_name : list Z) : list Z := take (length d_name - 4) d_name.
Definition elf_names (entries : list (list Z * list Z)) : list (list Z) :=
  elf_name <$> filter (λ w, strstr w (chars ".elf") = true) entries.*1.

Lemma write_blocks_run n b sz s s' :
  write_blocks n b sz s = Ok (tt, s') → bin_dir s' = bin_dir s ∧ app_ino s' = app_ino s.
Proof.
  revert b s. induction n as [|n IH]; intros b s; cbn; [by intros [= <-]|].
  case_match; [|by intros [= <-]]. unfold mbind, M_bind, getM, fs_write, modM. intros E%IH. exact E.
Qed.

Lemma tokens_entry ino w names :
  text (dir_tokens ino (w :: names)) = (w ++ pad4 ino ++ [32]) ++ text (dir_tokens (ino + 1) names).
Proof. cbn [dir_tokens]. rewrite !text_cons. unfold pad4. by rewrite <-!app_assoc. Qed.

Lemma add_entries_run l s s' :
  add_entries l s = Ok (tt, s') → (length (bin_dir s) < 256)%nat →
  bin_dir s' = bin_dir s ++ text (dir_tokens (app_ino s) (elf_names l)) ∧ (length (bin_dir s') < 256)%nat.
Proof.
  revert s. induction l as [|[w data] l IH]; intros s; cbn [add_entries].
  { intros [= <-] ?. by rewrite app_nil_r. }
  unfold mbind at 1, M_bind at 1. destruct (add_entry w data s) as [[[] s1]|] eqn:E; [|done].
  intros E' Hlen. unfold elf_names. cbn [fmap list_fmap fst]. rewrite filter_cons.
  unfold add_entry in E. destruct (strstr w (chars ".elf")) eqn:Hs.
  2: { injection E as <-. by apply IH. }
  rewrite decide_True by done. cbn [fmap list_fmap].
  unfold mbind, M_bind, getM in E. destruct (_ <=? _)%nat; [|done]. unfold modM in E.
  destruct (write_blocks _ _ _ _) as [[[] s2]|] eqn:Ew; [|done]. apply write_blocks_run in Ew as [Hb Hi].
  cbn in Hb, Hi. cbn [app_ino bin_dir] in E. destruct (_ <? bin_dir_size)%nat eqn:Hlt; [|done].
  apply Nat.ltb_lt in Hlt. injection E as <-.
  destruct (IH _ E') as [H1 H2]; [cbn; rewrite length_app; cbn in Hlt; done|].
  split; [|done]. rewrite H1. cbn [bin_dir app_ino set_field]. rewrite Hb, Hi, tokens_entry, <-!app_assoc. do 4 f_equal.
  by rewrite Z.add_comm.
Qed.

Lemma tokens_length ino names :
  Forall plain names → (6 * length names ≤ length (text (dir_tokens ino names)))%nat.
Proof.
  revert ino. induction names as [|w names IH]; intros ino Hp; [done|].
  apply Forall_cons_1 in Hp as [[Hw _] Hp]. rewrite tokens_entry, !length_app. specialize (IH (ino + 1) Hp).
  unfold pad4. rewrite length_app, length_replicate. destruct w; [done|]. cbn [length]. lia.
Qed.

Lemma text_nonzero ts : Forall tok_ok ts → 0 ∉ text ts.
Proof.
  induction ts as [|[w g] ts IH]; intros Ht; [apply not_elem_of_nil|].
  apply Forall_cons_1 in Ht as [[[_ Hw] _] Ht]. rewrite text_cons, !not_elem_of_app. split_and!; [| |by apply IH].
  - intros H0. rewrite list.Forall_forall in Hw. by destruct (Hw 0 H0).
  - by intros [? _]%elem_of_replicate.
Qed.

Lemma strlen_run t tail : 0 ∉ t → strlen (t ++ 0 :: tail) = Ok (Z.of_nat (length t)).
Proof.
  induction t as [|c t IH]; intros Hc; [done|]. rewrite not_elem_of_cons in Hc. cbn.
  rewrite (proj2 (Z.eqb_neq c 0)), IH by (tauto || (intros ->; tauto)). f_equal. lia.
Qed.

(** [dir_lookup]'s search in a directory of well-formed entries. *)
Lemma lookup_in_tokens name ts tail :
  plain name → Forall tok_ok ts → (length name ≤ length (text ts))%nat → (length (text ts) < 512)%nat →
  lookup_in name (text ts ++ 0 :: tail) =
    match find_tok name ts with Some r => atoi (r ++ 0 :: tail) | None => Ok (-1) end.
Proof.
  intros Hn Ht Hl Hb. unfold lookup_in. rewrite strlen_run by by apply text_nonzero.
  apply loop_tokens; [done|done|lia|by left|]. unfold room, wrap32. rewrite Z.mod_small by lia. lia.
Qed.

Definition bin_tokens (names : list (list Z)) : list token := dot_tokens ++ dir_tokens 7 names.

Lemma bin_tokens_init : text dot_tokens = bin_dir_init.
Proof. by vm_compute. Qed.

Lemma bin_block_eq dir beyond :
  (length dir < 256)%nat → ∃ tail, bin_block dir beyond = dir ++ 0 :: tail.
Proof.
  intros Hl. unfold bin_block, bin_dir_size. destruct (256 - length dir)%nat as [|k] eqn:E; [lia|].
  cbn [replicate app]. rewrite take_app_ge by lia.
  destruct (512 - length dir)%nat as [|j] eqn:E'; [lia|]. cbn [take]. by eexists.
Qed.

(** A run of mkfs: the block at the inode of /bin. *)
Lemma make_fs_bin entries beyond buf s :
  make_fs entries beyond (mk_mkfs bin_dir_init 0 buf []) = Ok (tt, s) → (256 ≤ length beyond)%nat →
  ∃ tail, fs_read (writes s) BIN_DIR_INODE 0 = Some (text (bin_tokens (elf_names entries)) ++ 0 :: tail) ∧
          (length (text (bin_tokens (elf_names entries))) < 256)%nat ∧
          length (text (bin_tokens (elf_names entries)) ++ 0 :: tail) = 512%nat.
Proof.
  intros E Hbe. revert E. unfold make_fs. unfold mbind at 1, M_bind at 1.
  assert (∀ l i s1 s2, write_contents i l s1 = Ok (tt, s2) → bin_dir s2 = bin_dir s1) as Hwc.
  { induction l as [|t l IH]; intros i s1 s2; cbn; [by intros [= <-]|].
    unfold mbind, M_bind, modM, getM, fs_write. intros E%IH. exact E. }
  destruct (write_contents 0 contents _) as [[[] s1]|] eqn:E1; [|done]. apply Hwc in E1. cbn [bin_dir] in E1.
  unfold mbind, M_bind, modM, getM, fs_write.
  destruct (add_entries entries _) as [[[] s2]|] eqn:E2; [|done]. intros [= <-].
  apply add_entries_run in E2 as [Hb Hl]; [|cbn [bin_dir set_field]; rewrite E1; apply Nat.ltb_lt; by vm_compute].
  cbn [bin_dir app_ino set_field] in Hb. rewrite E1, <-bin_tokens_init in Hb.
  change (BIN_DIR_INODE + 1) with 7 in Hb. rewrite <-text_app in Hb. fold (bin_tokens (elf_names entries)) in Hb.
  destruct (bin_block_eq (bin_dir s2) beyond Hl) as [tail Et]. exists tail.
  rewrite <-Hb. split_and!; [|done|].
  - unfold fs_read. cbn [writes set_field]. rewrite rev_app_distr. cbn. by rewrite Et.
  - rewrite <-Et. unfold bin_block, bin_dir_size. rewrite length_take, !length_app, length_replicate. lia.
Qed.

Record good_dir (names : list (list Z)) : Prop := {
  gd_names : Forall good_name names;
  gd_nodup : NoDup names;
  gd_dots : (chars "./" ∉ names) ∧ (chars "../" ∉ names);
}.

Lemma bin_tokens_ok names :
  Forall good_name names → (length (text (bin_tokens names)) < 256)%nat →
  Forall tok_ok (bin_tokens names) ∧ (length names < 41)%nat.
Proof.
  intros Hg Hl. assert (Forall plain names) as Hp by (revert Hg; apply Forall_impl; by intros w []).
  unfold bin_tokens in *. rewrite text_app, length_app in Hl. pose proof (tokens_length 7 names Hp).
  assert (length (text dot_tokens) = 15%nat) as Hd by done. split; [|lia].
  apply Forall_app. split; [|apply dir_tokens_ok; [lia|lia|done]].
  repeat constructor; cbn; lia || done.
Qed.

Lemma find_dots name names :
  has_letter name → name ≠ chars "./" → name ≠ chars "../" →
  find_tok name (bin_tokens names) = find_tok name (dir_tokens 7 names).
Proof.
  intros Hl H1 H2. apply find_tok_app. intros w g Hw.
  assert (w = chars "./" ∨ w = chars "6" ∨ w = chars "../" ∨ w = chars "0") as Hc.
  { unfold dot_tokens in Hw. rewrite !elem_of_cons in Hw. destruct Hw as [[= -> _]|[[= -> _]|[[= -> _]|[[= -> _]|Hw]]]]; auto.
    by apply not_elem_of_nil in Hw. }
  destruct Hc as [-> | [-> | [-> | ->]]]; try done; (apply digits_not_name; [done|by repeat constructor]).
Qed.

Lemma name_length_text name names : name ∈ names → (length name ≤ length (text (bin_tokens names)))%nat.
Proof.
  intros Hin. unfold bin_tokens. rewrite text_app, length_app. revert Hin. generalize 7.
  induction names as [|w names IH]; intros n; [by intros ?%not_elem_of_nil|]. intros [->|Hin]%elem_of_cons.
  - cbn [dir_tokens]. rewrite text_cons, length_app. lia.
  - specialize (IH (n + 1) Hin). cbn [dir_tokens]. rewrite !text_cons, !length_app. lia.
Qed.

(** The search in the block mkfs wrote. *)
Lemma bin_lookup names tail name :
  good_dir names → (length (text (bin_tokens names)) < 256)%nat → good_name name →
  name ≠ chars "./" → name ≠ chars "../" → (length name ≤ length (text (bin_tokens names)))%nat →
  (∀ k, names !! k = Some name → lookup_in name (text (bin_tokens names) ++ 0 :: tail) = Ok (7 + Z.of_nat k)) ∧
  (name ∉ names → lookup_in name (text (bin_tokens names) ++ 0 :: tail) = Ok (-1)).
Proof.
  intros [Hg Hd _] Hl [Hp Hlet] H1 H2 Hle. destruct (bin_tokens_ok names Hg Hl) as [Hok Hn].
  rewrite lookup_in_tokens, find_dots by (done || lia). split.
  - intros k Hk. destruct (find_dir_token 7 names k name ltac:(lia) ltac:(lia) Hd Hlet Hk) as (g & rest & ->).
    pose proof (lookup_lt_Some _ _ _ Hk). destruct (dec_ok (7 + Z.of_nat k)) as (Hdl & Hdd & Hdv); [lia|].
    rewrite <-!app_assoc. cbn [app]. rewrite atoi_run; [by rewrite Hdv|done| |done].
    by destruct (dec _); cbn in Hdl; [lia|].
  - intros Hk. by rewrite find_dir_none by (done || lia).
Qed.

(** ** The two programs together *)

Lemma put_bytes_all l b : length l = length b → put_bytes 0 l b = l.
Proof.
  intros Hl. pose proof (slice_put_bytes 0 (length l) l b ltac:(lia) ltac:(lia)) as E.
  unfold slice in E. rewrite drop_0, take_ge in E by (rewrite length_put_bytes; lia).
  by rewrite firstn_all in E.
Qed.

(** What a file server promises: while it holds the image [w], it answers a read
    of a block with that block, and goes on holding the image. *)
Class FileServer (S : Type) `{Sys S} := {
  image : S → list (Z * Z * list Z) → Prop;
  file_serves e w r block :
    image e w → get32 r freq.type = FILE_READ → get32 r freq.len = BLOCK_SIZE →
    fs_read w (get32 r freq.ino) (get32 r freq.offset) = Some block → length block = 512%nat →
    ∃ m e', sys_call GPID_FILE r e = Ok (m, e') ∧ image e' w ∧ length m = frep.size ∧
            slice frep.block 512 m = block;
}.

Section client.
Context {S : Type} `{FileServer S} (stack : list Z).
Hypothesis Hstack : (528 ≤ length stack)%nat.

(** The client's view: the server holds the image, and [buf] can take a reply. *)
Definition ready (c : client S) (w : list (Z * Z * list Z)) : Prop :=
  image (c_env c) w ∧ (516 ≤ length (c_buf c))%nat.

Lemma file_read_block ino off block dst w c :
  ready c w → is_i32 ino → is_i32 off → fs_read w ino off = Some block → length block = 512%nat →
  length dst = 512%nat →
  ∃ r c', file_read stack ino off BLOCK_SIZE dst c = Ok ((r, block), c') ∧ ready c' w.
Proof.
  intros [Hw Hb] Hi Ho Hr Hbl Hdst. unfold file_read. cbn [Z.leb BLOCK_SIZE Z.compare Pos.compare Pos.compare_cont ASSERT].
  set (r := put32 freq.len _ _).
  assert (length (take freq.size stack) = 528%nat) as Hl by (rewrite length_take; unfold freq.size; lia).
  assert (get32 r freq.type = FILE_READ ∧ get32 r freq.ino = ino ∧ get32 r freq.offset = off ∧
          get32 r freq.len = BLOCK_SIZE) as (Ht & Hri & Hro & Hrl).
  { subst r. unfold freq.type, freq.ino, freq.offset, freq.len.
    repeat split; repeat (rewrite get32_put32_ne by lia); apply get32_put32; rewrite ?length_put32; done || lia. }
  destruct (file_serves (c_env c) w r block) as (m & e & E & Hw' & Hm & Hblk); [done..|by rewrite Hri, Hro|done|].
  unfold mbind, M_bind. unfold file_request at 1. unfold ASSERT, mret, M_ret. cbv beta iota. fold r. rewrite E.
  unfold check, memcpy_ok.
  assert ((0 <=? BLOCK_SIZE) && (Z.to_nat BLOCK_SIZE <=? Z.to_nat BLOCK_SIZE)%nat &&
          (Z.to_nat BLOCK_SIZE <=? length dst)%nat = true) as -> by (rewrite Hdst; done).
  unfold mret, M_ret, getM, reply_field. eexists _, _. split; [do 3 f_equal|split; [done|]].
  - cbn [c_buf set_field]. change (Z.to_nat BLOCK_SIZE) with 512%nat.
    rewrite delivered_slice by (unfold frep.size, frep.block in *; lia). rewrite Hblk.
    apply put_bytes_all. lia.
  - cbn [c_buf set_field]. by rewrite length_put_bytes.
Qed.

Lemma dir_lookup_block NINODES ino name block w c :
  ready c w → is_i32 ino → ino < NINODES → fs_read w ino 0 = Some block → length block = 512%nat →
  ∃ c', dir_lookup NINODES stack ino name c = lift_res (lookup_in name block) c' ∧ ready c' w.
Proof.
  intros Hc Hi Hn Hr Hl. unfold dir_lookup. rewrite (proj2 (Z.ltb_lt _ _)) by done.
  destruct (file_read_block ino 0 block (take 512 stack) w c) as (r & c' & E & Hc'); [done..| |].
  { rewrite length_take. lia. }
  exists c'. split; [|done].
  unfold mbind, M_bind. change (Z.to_nat BLOCK_SIZE) with 512%nat. by rewrite E.
Qed.

(** The root directory has /bin. *)
Lemma dir_lookup_bin NINODES entries beyond buf nb s c :
  make_fs entries beyond (mk_mkfs bin_dir_init 0 buf []) = Ok (tt, s) →
  length buf = (nb * 512)%nat → (0 < nb)%nat → ready c (writes s) → 0 < NINODES →
  ∃ c', dir_lookup NINODES stack 0 (chars "bin/") c = Ok (BIN_DIR_INODE, c') ∧ ready c' (writes s).
Proof.
  intros Hm Hb Hnb Hc Hn. destruct (make_fs_stored _ _ _ _ _ Hm Hb Hnb) as [Hroot _].
  destruct (dir_lookup_block NINODES 0 (chars "bin/") (strncpy_block (default [] (contents !! 0%nat))) (writes s) c)
    as (c' & -> & Hc'); [done|done|done|by apply (Hroot 0%nat)|by apply length_strncpy_block|].
  exists c'. split; [|done]. vm_compute. reflexivity.
Qed.

(** A directory to look names up in: an image mkfs made and a name that can be a
    file name (the directory has 15 characters before the first application). *)
Record searchable (entries : list (list Z * list Z)) (beyond buf : list Z) (s : mkfs) (name : list Z) : Prop := {
  se_image : make_fs entries beyond (mk_mkfs bin_dir_init 0 buf []) = Ok (tt, s);
  se_beyond : (256 ≤ length beyond)%nat;
  se_dir : good_dir (elf_names entries);
  se_name : good_name name;
  se_dots : name ≠ chars "./" ∧ name ≠ chars "../";
  se_length : name ∈ elf_names entries ∨ (length name ≤ 15)%nat;
}.

Lemma bin_dir_lookup NINODES entries beyond buf s name c :
  searchable entries beyond buf s name → ready c (writes s) → BIN_DIR_INODE < NINODES →
  ∃ r c', dir_lookup NINODES stack BIN_DIR_INODE name c = Ok (r, c') ∧ ready c' (writes s) ∧
    (∀ k, elf_names entries !! k = Some name → r = BIN_DIR_INODE + 1 + Z.of_nat k) ∧
    (name ∉ elf_names entries → r = -1).
Proof.
  intros [Hm Hbe Hg Hgn [H1 H2] Hlen] Hc Hn. destruct (make_fs_bin _ _ _ _ Hm Hbe) as (tail & Hr & Hl & Hbl).
  destruct (dir_lookup_block NINODES BIN_DIR_INODE name _ _ c Hc ltac:(done) Hn Hr Hbl) as (c' & -> & Hc').
  destruct (bin_lookup (elf_names entries) tail name) as [Hin Hout]; [done..| |].
  { destruct Hlen as [Hin|Hlen].
    - by apply name_length_text.
    - unfold bin_tokens. rewrite text_app, length_app. assert (length (text dot_tokens) = 15%nat) by done. lia. }
  destruct (decide (name ∈ elf_names entries)) as [Hi|Hi].
  - destruct (proj1 (list_elem_of_lookup _ _) Hi) as [k Hk]. rewrite (Hin k Hk).
    exists (7 + Z.of_nat k), c'. split_and!; [done|done| |done].
    intros k' Hk'. by rewrite (NoDup_lookup _ _ _ _ (gd_nodup _ Hg) Hk Hk').
  - rewrite (Hout Hi). exists (-1), c'. split_and!; [done|done| |done].
    intros k Hk. destruct Hi. by eapply list_elem_of_lookup_2.
Qed.
End client.

(** C21: What mkfs writes, [dir_lookup] finds.  Take the image the tool makes of
    a directory of files, whose names are distinct words, each with a character
    that is not a digit, and a file server that holds it.  Then [dir_lookup] in
    /bin returns: for the name of the [k]-th application, the inode the tool gave
    it, [7 + k]; and -1 for a name the directory does not have, provided it is
    itself such a word, of at most 15 characters and neither "./" nor "../".
    ([dir_lookup_flaws] shows what happens for other names.) *)
Theorem dir_lookup_finds {S} `{FileServer S} NINODES stack entries beyond buf s name c :
  (528 ≤ length stack)%nat →
  searchable entries beyond buf s name → ready c (writes s) → BIN_DIR_INODE < NINODES →
  ∃ r c', dir_lookup NINODES stack BIN_DIR_INODE name c = Ok (r, c') ∧
    (∀ k, elf_names entries !! k = Some name → r = BIN_DIR_INODE + 1 + Z.of_nat k) ∧
    (name ∉ elf_names entries → r = -1).
Proof.
  intros Hst Hs Hc Hn. destruct (bin_dir_lookup stack Hst NINODES entries beyond buf s name c Hs Hc Hn)
    as (r & c' & E & _ & Hr). by exists r, c'.
Qed.

(** ** A file server over an image, and an image *)

(** It answers a read with the block written last and a status of 0. *)
#[export] Instance image_server : Sys (list (Z * Z * list Z)) := λ pid r w,
  match fs_read w (get32 r freq.ino) (get32 r freq.offset) with
  | Some block => if (pid =? GPID_FILE) && (get32 r freq.type =? FILE_READ)
                  then Ok (le32 FILE_OK ++ block, w) else Err Diverges
  | None => Err Diverges
  end.

#[export] Instance image_holds : FileServer (list (Z * Z * list Z)).
Proof.
  refine {| image e w := e = w |}. intros e w r block -> Ht Hlen Hr Hl.
  exists (le32 FILE_OK ++ block), w. unfold sys_call, image_server. rewrite Hr, Ht.
  split_and!; [done|done|by rewrite length_app, Hl|].
  unfold slice. change frep.block with (length (le32 FILE_OK)). rewrite drop_app_length, take_ge by lia. done.
Defined.

Definition demo_entries : list (list Z * list Z) :=
  [(chars "http.elf", [1; 2; 3]); (chars "README", []); (chars "ls.elf", [4])].
Definition demo_image : mkfs :=
  match make_fs demo_entries (replicate 256 7) (mk_mkfs bin_dir_init 0 (replicate 1024 0) []) with
  | Ok (_, s) => s | Err _ => mkfs0 end.
Definition demo_stack : list Z := replicate 528 170.

Ltac good_name := split; [split; [done | repeat constructor; done]
  | eexists; split; [apply list_elem_of_here | done]].

Lemma demo_searchable : searchable demo_entries (replicate 256 7) (replicate 1024 0) demo_image (chars "ls").
Proof.
  split.
  - vm_compute. reflexivity.
  - apply Nat.leb_le. vm_compute. reflexivity.
  - assert (elf_names demo_entries = [chars "http"; chars "ls"]) as -> by (vm_compute; reflexivity). split.
    + repeat apply Forall_cons_2; [good_name | good_name | apply Forall_nil_2].
    + apply (bool_decide_unpack _). vm_compute. exact I.
    + split; apply (bool_decide_unpack _); vm_compute; exact I.
  - good_name.
  - split; apply (bool_decide_unpack _); vm_compute; exact I.
  - right. apply Nat.leb_le. vm_compute. reflexivity.
Qed.

(** The program "ls" of an image with "http" and "ls". *)
Lemma dir_lookup_finds_witness :
  ∃ r c', dir_lookup 128 demo_stack BIN_DIR_INODE (chars "ls") (mk_client (writes demo_image) (replicate 1024 0)) = Ok (r, c') ∧
     (∀ k, elf_names demo_entries !! k = Some (chars "ls") → r = BIN_DIR_INODE + 1 + Z.of_nat k) ∧
     (chars "ls" ∉ elf_names demo_entries → r = -1).
Proof.
  apply (dir_lookup_finds 128 demo_stack demo_entries (replicate 256 7) (replicate 1024 0) demo_image).
  - apply Nat.leb_le. vm_compute. reflexivity.
  - exact demo_searchable.
  - split; [reflexivity|]. apply Nat.leb_le. vm_compute. reflexivity.
  - vm_compute. reflexivity.
Defined.

(** [dir_lookup] searches for words, not entries, and its bound is an unsigned
    difference: in the root directory the inode number "1" is found as if it were
    a file name, with inode 0; and a name longer
    than the text of the directory makes the bound wrap around, so that the loop
    runs past the end of the block. *)
Theorem dir_lookup_flaws :
  lookup_in (chars "1") (strncpy_block (default [] (contents !! 0%nat))) = Ok 0 ∧
  lookup_in (chars "a-name-longer-than-dir") (strncpy_block (default [] (contents !! 3%nat))) = Err OutOfBounds.
Proof. split; vm_compute; reflexivity. Qed.
