(* ===== verification/SysProc.v ===== *)
(** * The process server: apps/system/sys_proc.c

    [main] up to its loop, one turn of the loop, and the functions that load
    programs.  The kernel calls it makes through [grass] and [earth] are a
    class; the ELF loader, which calls back the function that reads a block of
    the program, is a parameter.  The message buffer [buf] on the stack of
    [main] holds the request and, in the same bytes, the reply. *)

From Stdlib Require Import Ascii String.
From S2P Require Import Prelude Bytes Ipc NetDev SysNet Servers Files Mkfs.

Definition GPID_ALL : Z := -1.
Definition GPID_SHELL : Z := 5.

Definition CMD_NARGS : Z := 16.
Definition CMD_ARG_LEN : Z := 32.
Definition PROC_SPAWN : Z := 0.
Definition PROC_KILLALL : Z := 2.
Definition CMD_OK : Z := 0.
Definition CMD_ERROR : Z := 1.

(** [struct proc_request]; [struct proc_reply] is its first four bytes *)
Module preq.
Definition type : nat := 0.
Definition argc : nat := 4.
Definition argv : nat := 8.
Definition reply_size : nat := 4.
End preq.

Definition EGOS_BIN_MAX_NBYTE : Z := 128 * 1024.
Definition SYS_TERM_EXEC_START : Z := EGOS_BIN_MAX_NBYTE / BLOCK_SIZE * 2.
Definition SYS_FILE_EXEC_START : Z := EGOS_BIN_MAX_NBYTE / BLOCK_SIZE * 3.
Definition SYS_NET_EXEC_START : Z := EGOS_BIN_MAX_NBYTE / BLOCK_SIZE * 4.
Definition SYS_SHELL_EXEC_START : Z := EGOS_BIN_MAX_NBYTE / BLOCK_SIZE * 5.

(** The calls of [struct grass] and [struct earth] that the server makes. *)
Class ProcKernel (S : Type) := {
  proc_alloc : M S Z;
  proc_free (pid : Z) : M S unit;
  proc_set_ready (pid : Z) : M S unit;
  disk_read (block_no : Z) : M S (list Z);
  (** the sender of a message from [from] (or from anyone) and the message *)
  sys_recv (from : Z) : M S (Z * list Z);
}.

(** The globals and the locals of [main].  [shell_waiting] is not initialised
    there: a state can start with any value of it. *)
Record psrv (S : Type) := mk_psrv {
  p_cl : client S;
  p_buf : list Z;
  app_ino : Z;
  app_pid : Z;
  shell_waiting : bool;
  sys_apps_base : Z;
}.
Arguments mk_psrv {S}.
Arguments p_cl {S}.
Arguments p_buf {S}.
Arguments app_ino {S}.
Arguments app_pid {S}.
Arguments shell_waiting {S}.
Arguments sys_apps_base {S}.
#[export] Instance psrv_settable S : Settable (psrv S) :=
  settable! mk_psrv <p_cl; p_buf; app_ino; app_pid; shell_waiting; sys_apps_base>.

Section server.
Context {S : Type} `{Sys S} `{Post S} `{ProcKernel S} (NINODES : Z) (stack : list Z).

Definition P : Type → Type := M (psrv S).

Definition in_client {A} (m : M (client S) A) : P A := λ s,
  match m (p_cl s) with
  | Ok (a, c) => Ok (a, s <| p_cl := c |>)
  | Err e => Err e
  end.
Definition kernel {A} (m : M S A) : P A := in_client (λ c,
  match m (c_env c) with
  | Ok (a, e) => Ok (a, c <| c_env := e |>)
  | Err e => Err e
  end).

(** [elf_load(pid, reader, argc, argv)]: the reader gets a block number and the
    destination, and what it points to afterwards is its result. *)
Context (elf_load : Z → (Z → list Z → P (list Z)) → Z → list Z → P unit).

(** A string in an object: its characters up to the terminator. *)
Definition cstr (p : list Z) : res (list Z) :=
  match strlen p with Ok n => Ok (take (Z.to_nat n) p) | Err e => Err e end.
Definition lift {A} (r : res A) : P A := λ s,
  match r with Ok a => Ok (a, s) | Err e => Err e end.

(** [req->argv[req->argc - 1][0]] *)
Definition last_arg (b : list Z) : res Z :=
  let i := get32 b preq.argc - 1 in
  if (0 <=? i) && (i <? CMD_NARGS) then
    match b !! (preq.argv + Z.to_nat (i * CMD_ARG_LEN))%nat with
    | Some c => Ok c
    | None => Err OutOfBounds
    end
  else Err OutOfBounds.

Definition app_read (off : Z) (dst : list Z) : P (list Z) :=
  ino ← getM app_ino;
  r ← in_client (file_read stack ino off BLOCK_SIZE dst);
  mret r.2.

(** [app_spawn] after the program was found *)
Definition app_start : P Z :=
  c ← (b ← getM p_buf; lift (last_arg b));
  n ← getM (λ s, get32 (p_buf s) preq.argc);
  let argc := if c =? 38 then n - 1 else n in
  pid ← kernel proc_alloc;
  modM (λ s, s <| app_pid := pid |>);;
  argv ← getM (λ s, drop preq.argv (p_buf s));
  elf_load pid app_read argc argv;;
  kernel (proc_set_ready pid);;
  mret CMD_OK.

(** ... and the search for it: [app_ino] is the result. *)
Definition app_lookup : P Z :=
  bin_ino ← in_client (dir_lookup NINODES stack 0 (chars "bin/"));
  name ← (b ← getM p_buf; lift (cstr (drop preq.argv b)));
  ino ← in_client (dir_lookup NINODES stack bin_ino name);
  modM (λ s, s <| app_ino := ino |>);;
  mret ino.

Definition app_spawn : P Z :=
  ino ← app_lookup;
  if ino <? 0 then mret CMD_ERROR else app_start.

Definition sys_proc_read (block_no : Z) (dst : list Z) : P (list Z) :=
  base ← getM sys_apps_base;
  kernel (disk_read (base + block_no)).

(** [sys_apps] has five names; the one of [pid] is printed. *)
Definition sys_spawn (base : Z) : P unit :=
  pid ← kernel proc_alloc;
  (if (1 <=? pid) && (pid <=? 5) then mret tt else fail OutOfBounds);;
  modM (λ s, s <| sys_apps_base := base |>);;
  elf_load pid sys_proc_read 0 [];;
  kernel (proc_set_ready pid).

(** [grass->sys_recv(from, &sender, buf, SYSCALL_MSG_LEN)] *)
Definition recv (from : Z) : P Z :=
  r ← kernel (sys_recv from);
  modM (λ s, s <| p_buf ::= put_bytes 0 r.2 |>);;
  mret r.1.

(** [grass->sys_send(GPID_SHELL, (void* )reply, sizeof( *reply))] *)
Definition reply_shell : P unit :=
  m ← getM (λ s, take preq.reply_size (p_buf s));
  kernel (sys_post GPID_SHELL m).

Definition main_init : P unit :=
  sys_spawn SYS_TERM_EXEC_START;;
  recv GPID_TERMINAL;;
  sys_spawn SYS_FILE_EXEC_START;;
  recv GPID_FILE;;
  sys_spawn SYS_NET_EXEC_START;;
  recv GPID_NET;;
  sys_spawn SYS_SHELL_EXEC_START.

(** [case PROC_SPAWN] *)
Definition on_spawn : P unit :=
  st ← app_spawn;
  modM (λ s, s <| p_buf ::= put32 preq.type st |>);;
  c ← (b ← getM p_buf; lift (last_arg b));
  modM (λ s, s <| shell_waiting := negb (c =? 38) && (st =? CMD_OK) |>);;
  reply_shell.

(** [case PROC_EXIT] *)
Definition on_exit (sender : Z) : P unit :=
  kernel (proc_free sender);;
  s ← getM id;
  if shell_waiting s && (app_pid s =? sender) then reply_shell else mret tt.

(** One turn of the loop. *)
Definition turn : P unit :=
  sender ← recv GPID_ALL;
  type ← getM (λ s, get32 (p_buf s) preq.type);
  if type =? PROC_SPAWN then on_spawn
  else if type =? PROC_EXIT then on_exit sender
  else if type =? PROC_KILLALL then kernel (proc_free GPID_ALL)
  else fail Fatal.
End server.
