(* ===== verification/DiskImg.v ===== *)
(** * The images tools/mkfs.c writes

    The executables of the kernel and the servers in [exec], the ramdisk behind
    the file system, and the two image files; the file contents, what each call
    of [read] returns and the contents of [fs] are arguments.  The constants are
    those of disk.h. *)

From S2P Require Import Prelude Bytes Ipc Files Mkfs SysProc.

Definition FILE_SYS_DISK_START : Z := SIZE_2MB / BLOCK_SIZE.
Definition RWFS_DISK_START : Z := (SIZE_2MB + SIZE_2MB) / BLOCK_SIZE.
Definition FILE_SYS_DISK_SIZE : Z := SIZE_2MB.

(** ** Loading a file

    [sizes] has what each [read] returns; it never returns more than asked. *)
Fixpoint load_loop (data : list Z) (nread : nat) (sizes : list nat) (off : nat) (dst : list Z)
    : res (list Z) :=
  if (nread <? length data)%nat then
    match sizes with
    | [] => Err Diverges
    | n :: sizes =>
        let n := Nat.min n (length data - nread) in
        if (off + nread + n <=? length dst)%nat
        then load_loop data (nread + n) sizes off (put_bytes (off + nread) (slice nread n data) dst)
        else Err OutOfBounds
    end
  else Ok dst.

Definition load_file (data : list Z) (sizes : list nat) (off : nat) (dst : list Z) : res (list Z) :=
  load_loop data 0 sizes off dst.

(** The binaries of [egos_binaries], one every EGOS_BIN_MAX_NBYTE bytes. *)
Fixpoint load_binaries (i : nat) (files : list (list Z * list nat)) (exec : list Z) : res (list Z) :=
  match files with
  | [] => Ok exec
  | (data, sizes) :: files =>
      match load_file data sizes (i * Z.to_nat EGOS_BIN_MAX_NBYTE) exec with
      | Ok exec => load_binaries (S i) files exec
      | Err e => Err e
      end
  end.
Definition exec0 : list Z := replicate (Z.to_nat SIZE_2MB) 0.

(** ** The ramdisk *)

Definition getsize : Z := FILE_SYS_DISK_SIZE / BLOCK_SIZE.
Definition ramread (offset : Z) (fs : list Z) : res (list Z) :=
  let p := Z.to_nat (offset * BLOCK_SIZE) in
  if (0 <=? offset) && (p + 512 <=? length fs)%nat then Ok (slice p 512 fs) else Err OutOfBounds.
Definition ramwrite (offset : Z) (block fs : list Z) : res (list Z) :=
  let p := Z.to_nat (offset * BLOCK_SIZE) in
  if (0 <=? offset) && (p + 512 <=? length fs)%nat then Ok (put_bytes p (take 512 block) fs) else Err OutOfBounds.

(** ** The image files *)

Definition disk_img (exec fs rwfs : list Z) : list Z :=
  exec ++ fs ++ rwfs ++ mjoin (replicate 13 fs).
Definition qemuROM (exec fs : list Z) : list Z := exec ++ mjoin (replicate 15 fs).

(** A block of a disk. *)
Definition disk_block (b : Z) (disk : list Z) : list Z := slice (Z.to_nat (b * BLOCK_SIZE)) 512 disk.

(** ** Loading *)

Lemma put_bytes_put_bytes o n (l b : list Z) :
  (n ≤ length l)%nat → (o + length l ≤ length b)%nat →
  put_bytes (o + n) (drop n l) (put_bytes o (take n l) b) = put_bytes o l b.
Proof.
  intros Hn Hl. unfold put_bytes. apply list_eq. intros j.
  destruct (decide (j < o)%nat) as [?|?].
  { by rewrite !list_lookup_inserts_lt by lia. }
  destruct (decide (j < o + n)%nat) as [?|?].
  { rewrite list_lookup_inserts_lt by lia. rewrite !list_lookup_inserts by (rewrite ?length_take; lia).
    by rewrite lookup_take_lt by lia. }
  destruct (decide (j < o + length l)%nat) as [?|?].
  { rewrite !list_lookup_inserts by (rewrite ?length_drop, ?length_inserts; lia).
    rewrite lookup_drop. f_equal. lia. }
  by rewrite !list_lookup_inserts_ge by (rewrite ?length_drop, ?length_take; lia).
Qed.

Lemma load_loop_ok data sizes off dst dst' : ∀ nread,
  (nread ≤ length data)%nat → (off + length data ≤ length dst)%nat →
  load_loop data nread sizes off (put_bytes off (take nread data) dst) = Ok dst' →
  dst' = put_bytes off data dst.
Proof.
  induction sizes as [|n sizes IH]; intros nread Hn Hl; cbn [load_loop];
    (destruct (Nat.ltb_spec nread (length data)); [|intros [= <-]; by rewrite take_ge by lia]); [done|].
  set (k := Nat.min n (length data - nread)). rewrite length_put_bytes.
  rewrite (proj2 (Nat.leb_le _ _)) by lia.
  replace (put_bytes (off + nread) (slice nread k data) (put_bytes off (take nread data) dst))
    with (put_bytes off (take (nread + k) data) dst); [apply IH; lia|].
  rewrite <- (put_bytes_put_bytes off nread (take (nread + k) data) dst) by (rewrite length_take; lia).
  rewrite take_take, Nat.min_l by lia. f_equal. unfold slice. rewrite skipn_firstn_comm. f_equal. lia.
Qed.

Lemma load_loop_returns data sizes off dst : ∀ nread,
  (off + length data ≤ length dst)%nat → (length data ≤ nread + sum_list sizes)%nat →
  ∃ dst', load_loop data nread sizes off dst = Ok dst'.
Proof.
  revert dst. induction sizes as [|n sizes IH]; intros dst nread Hl Hs; cbn [load_loop sum_list] in *;
    (destruct (Nat.ltb_spec nread (length data)); [|by eexists]); unfold id in *; [lia|].
  rewrite (proj2 (Nat.leb_le _ _)) by lia. apply IH; [by rewrite length_put_bytes|].
  destruct (Nat.min_spec n (length data - nread)) as [[_ ->]|[? ->]]; lia.
Qed.

(** The file is loaded when the reads deliver it. *)
Lemma load_file_ok data sizes off dst :
  (off + length data ≤ length dst)%nat → (length data ≤ sum_list sizes)%nat →
  load_file data sizes off dst = Ok (put_bytes off data dst).
Proof.
  intros Hl Hs. destruct (load_loop_returns data sizes off dst 0 Hl Hs) as [dst' Hr].
  unfold load_file. rewrite Hr. f_equal. by apply (load_loop_ok data sizes off dst dst' 0); [lia| |].
Qed.

Lemma slice_put_same o l b : (o + length l ≤ length b)%nat → slice o (length l) (put_bytes o l b) = l.
Proof. intros Hl. rewrite slice_put_bytes by lia. by apply take_ge. Qed.

(** Each binary can be read back from its place, if none is longer than the
    places are apart. *)
Lemma load_binaries_ok files : ∀ i exec,
  let B := Z.to_nat EGOS_BIN_MAX_NBYTE in
  Forall (λ f, length f.1 ≤ B ∧ length f.1 ≤ sum_list f.2)%nat files →
  ((i + length files) * B ≤ length exec)%nat →
  ∃ e, load_binaries i files exec = Ok e ∧ length e = length exec ∧
    (∀ o n, (o + n ≤ i * B)%nat → slice o n e = slice o n exec) ∧
    (∀ k f, files !! k = Some f → slice ((i + k) * B) (length f.1) e = f.1).
Proof.
  intros i exec B. revert i exec. induction files as [|[data sizes] files IH]; intros i exec HF Hl; cbn [load_binaries].
  { exists exec. done. }
  apply Forall_cons_iff in HF as [[Hd Hs] HF]. cbn [fst snd length] in *. fold B.
  assert (Hb : (i * B + B ≤ length exec)%nat) by nia.
  rewrite load_file_ok by lia. destruct (IH (S i) (put_bytes (i * B) data exec) HF) as (e & He & Hle & Hbefore & Hat).
  { rewrite length_put_bytes. lia. }
  exists e. split; [done|]. split; [by rewrite Hle, length_put_bytes|]. split.
  - intros o n Ho. rewrite Hbefore by lia. by rewrite slice_put_bytes_ne by lia.
  - intros [|k] f Hf; cbn in Hf.
    + injection Hf as <-. cbn [fst]. rewrite Nat.add_0_r, Hbefore by lia. apply slice_put_same. lia.
    + replace (i + S k)%nat with (S i + k)%nat by lia. by apply Hat.
Qed.

(** ** Where things are in the images *)

Lemma slice_app_l o n (l k : list Z) : (o + n ≤ length l)%nat → slice o n (l ++ k) = slice o n l.
Proof.
  intros Hl. unfold slice. rewrite drop_app_le by lia. apply take_app_le. rewrite length_drop. lia.
Qed.
Lemma slice_app_r o n (l k : list Z) : slice (length l + o) n (l ++ k) = slice o n k.
Proof. unfold slice. rewrite <- drop_drop. by rewrite drop_app_length. Qed.

Lemma length_mjoin_replicate n (l : list Z) : length (mjoin (replicate n l)) = (n * length l)%nat.
Proof.
  induction n as [|n IH]; [done|]. change (mjoin (replicate (S n) l)) with (l ++ mjoin (replicate n l)).
  rewrite length_app, IH. lia.
Qed.

Section images.
Variables exec fs rwfs : list Z.
Hypothesis Hexec : length exec = Z.to_nat SIZE_2MB.
Hypothesis Hfs : length fs = Z.to_nat SIZE_2MB.
Hypothesis Hrwfs : length rwfs = Z.to_nat SIZE_2MB.

Lemma images_size :
  Z.of_nat (length (disk_img exec fs rwfs)) = 16 * SIZE_2MB ∧ Z.of_nat (length (qemuROM exec fs)) = 16 * SIZE_2MB.
Proof.
  unfold disk_img, qemuROM. rewrite !length_app, !length_mjoin_replicate, Hexec, Hfs, Hrwfs.
  unfold SIZE_2MB. lia.
Qed.

Lemma block_exec b : 0 ≤ b < FILE_SYS_DISK_START →
  disk_block b (disk_img exec fs rwfs) = disk_block b exec ∧ disk_block b (qemuROM exec fs) = disk_block b exec.
Proof.
  unfold FILE_SYS_DISK_START, disk_block, disk_img, qemuROM, BLOCK_SIZE, SIZE_2MB in *. intros Hb.
  change (2 * 1024 * 1024 / 512) with 4096 in Hb. rewrite !slice_app_l by lia. done.
Qed.
Lemma block_fs b : 0 ≤ b < FILE_SYS_DISK_SIZE / BLOCK_SIZE →
  disk_block (FILE_SYS_DISK_START + b) (disk_img exec fs rwfs) = disk_block b fs ∧
  disk_block (FILE_SYS_DISK_START + b) (qemuROM exec fs) = disk_block b fs.
Proof.
  unfold FILE_SYS_DISK_START, FILE_SYS_DISK_SIZE, disk_block, disk_img, qemuROM, BLOCK_SIZE, SIZE_2MB in *. intros Hb.
  change (2 * 1024 * 1024 / 512) with 4096 in *.
  replace (Z.to_nat ((4096 + b) * 512)) with (length exec + Z.to_nat (b * 512))%nat by lia.
  rewrite !slice_app_r. change (mjoin (replicate 15 fs)) with (fs ++ mjoin (replicate 14 fs)).
  rewrite !slice_app_l by lia. done.
Qed.
Lemma block_rwfs b : 0 ≤ b < SIZE_2MB / BLOCK_SIZE →
  disk_block (RWFS_DISK_START + b) (disk_img exec fs rwfs) = disk_block b rwfs.
Proof.
  unfold RWFS_DISK_START, disk_block, disk_img, BLOCK_SIZE, SIZE_2MB in *. intros Hb.
  change (2 * 1024 * 1024 / 512) with 4096 in *. change ((2 * 1024 * 1024 + 2 * 1024 * 1024) / 512) with 8192.
  replace (Z.to_nat ((8192 + b) * 512)) with (length exec + (length fs + Z.to_nat (b * 512)))%nat by lia.
  rewrite !slice_app_r. by rewrite slice_app_l by lia.
Qed.
End images.
