(* ===== verification/Rwfs.v ===== *)
(** * The read-write file system of the disk image: tools/mkfs.c

    [mkrwfs] fills the third part of the disk image with a file system of four
    inodes.  The structures are those of fs.h, which is not part of the
    repository: the records have the fields that [mkrwfs] assigns, and their
    representation in bytes is an argument, with what a C structure guarantees as
    laws; the block numbers are the ones the comment in [mkrwfs] gives. *)

From Stdlib Require Import Ascii String.
From S2P Require Import Prelude Bytes Ipc Files Mkfs DiskImg.

Record super_t := mk_super { magic : Z; total_blks : Z }.
Record inode_t := mk_inode { i_mode : Z; i_size : Z; ptrs : list Z; indirect_ptr : Z; pads : list Z }.
Record dirent_t := mk_dirent { valid : Z; inum : Z; de_name : list Z }.
#[export] Instance super_settable : Settable super_t := settable! mk_super <magic; total_blks>.
#[export] Instance inode_t_settable : Settable inode_t := settable! mk_inode <i_mode; i_size; ptrs; indirect_ptr; pads>.
#[export] Instance dirent_settable : Settable dirent_t := settable! mk_dirent <valid; inum; de_name>.

Definition is_u32 (x : Z) : Prop := 0 ≤ x < 4294967296.
#[export] Instance is_u32_dec x : Decision (is_u32 x).
Proof. unfold is_u32. apply _. Defined.

(** A type of C values: each has a representation of [sizeof] bytes, from which
    those in the range of their fields can be read back. *)
Class Repr (T : Type) := {
  sizeof : nat;
  enc : T → list Z;
  dec_repr : list Z → T;
  in_range : T → Prop;
  enc_length v : length (enc v) = sizeof;
  dec_enc v : in_range v → dec_repr (enc v) = v
}.
Arguments sizeof T {_}.

(** fs.h *)
Class FsHeader := {
  super_repr :: Repr super_t;
  inode_repr :: Repr inode_t;
  dirent_repr :: Repr dirent_t;
  NUM_PTRS : nat;
  INODEARR_BLOCK_START : Z;
  DATA_BLOCK_START : Z;
  DIRENT_NAME : nat;
  MODE_D : Z; MODE_F : Z; MODE_ALL : Z;
  num_ptrs : NUM_PTRS = 10%nat;
  inodearr_start : INODEARR_BLOCK_START = 2;
  data_start : DATA_BLOCK_START = 12;
  name_room : (10 ≤ DIRENT_NAME)%nat;
  modes : is_u32 MODE_D ∧ is_u32 MODE_F ∧ is_u32 MODE_ALL;
  super_fits : (sizeof super_t ≤ 512)%nat;
  inodes_fit : (4 * sizeof inode_t ≤ 10 * 512)%nat;
  dirents_fit : (0 < sizeof dirent_t ∧ 4 * sizeof dirent_t ≤ 512)%nat;
  super_range v : is_u32 (magic v) → is_u32 (total_blks v) → in_range v;
  inode_range v : is_u32 (i_mode v) → is_u32 (i_size v) → Forall is_u32 (ptrs v) → length (ptrs v) = NUM_PTRS →
    is_u32 (indirect_ptr v) → is_u32 (pads v !!! 0%nat) → length (pads v) = 1%nat → in_range v;
  dirent_range v : is_u8 (valid v) → is_u8 (inum v) → bytes (de_name v) → length (de_name v) = DIRENT_NAME → in_range v;
  super_zero : dec_repr (replicate (sizeof super_t) 0) = mk_super 0 0;
  inode_zero : dec_repr (replicate (sizeof inode_t) 0) = mk_inode 0 0 (replicate NUM_PTRS 0) 0 [0];
  dirent_zero : dec_repr (replicate (sizeof dirent_t) 0) = mk_dirent 0 0 (replicate DIRENT_NAME 0)
}.

(** ** Access through a pointer *)

Definition deref {T} `{Repr T} (p : nat) (img : list Z) : T := dec_repr (slice p (sizeof T) img).
Definition assign {T} `{Repr T} (p : nat) (f : T → T) (img : list Z) : list Z := put_bytes p (enc (f (deref p img))) img.

Section mkrwfs.
Context `{FsHeader}.

Definition block_at (b : Z) : nat := Z.to_nat (b * BLOCK_SIZE).
Definition inode_at (ino : nat) : nat := (block_at INODEARR_BLOCK_START + ino * sizeof inode_t)%nat.
Definition entry_at (entries i : nat) : nat := (entries + i * sizeof dirent_t)%nat.

Definition strcpy (name old : list Z) : list Z := put_bytes 0 (name ++ [0]) old.
Definition mk_entry (entries i : nat) (ino : Z) (name : list Z) : list Z → list Z :=
  assign (entry_at entries i) (λ e, e <| valid := 1 |> <| inum := ino |> <| de_name ::= strcpy name |>).

Definition root_ino : nat := 0.
Definition file1_ino : nat := 1.
Definition dir1_ino : nat := 2.
Definition file2_ino : nat := 3.
Definition root_data_blk : Z := DATA_BLOCK_START.
Definition file1_data_blk : Z := DATA_BLOCK_START + 1.
Definition dir1_data_blk : Z := DATA_BLOCK_START + 2.
Definition file2_indirect_blk : Z := DATA_BLOCK_START + 3.
Definition file2_data_blks : list Z := (λ i, DATA_BLOCK_START + i) <$> [4; 5; 6; 7; 8; 9; 10; 11; 12; 13; 14].

Definition make_super (img : list Z) : list Z :=
  assign 0 (λ s, s <| magic := 0x6640 |> <| total_blks := SIZE_2MB / BLOCK_SIZE |>) img.

(** The bitmap, in the block after the super block. *)
Definition mark (img : list Z) (i : nat) : list Z :=
  let p := (block_at 1 + i / 8)%nat in put8 p (Z.lor (u8 img p) (Z.shiftl 1 (Z.of_nat (i mod 8)))) img.
Definition make_map (img : list Z) : list Z := fold_left mark (seq 0 27) img.

Definition make_root (img : list Z) : list Z :=
  let img := assign (inode_at root_ino) (λ r : inode_t, r <| i_mode := Z.lor MODE_D MODE_ALL |>
    <| pads ::= <[0%nat := 0xdeadbeef]> |> <| ptrs ::= <[0%nat := root_data_blk]> |>) img in
  let entries := block_at root_data_blk in
  let img := mk_entry entries 0 (Z.of_nat root_ino) (chars ".") img in
  let img := mk_entry entries 1 2 (chars "..") img in
  let img := mk_entry entries 2 (Z.of_nat file1_ino) (chars "file1.txt") img in
  let img := mk_entry entries 3 (Z.of_nat dir1_ino) (chars "dir1") img in
  assign (inode_at root_ino) (λ r : inode_t, r <| i_size := Z.of_nat (4 * sizeof dirent_t) |>) img.

Definition make_dir1 (img : list Z) : list Z :=
  let img := assign (inode_at dir1_ino) (λ r : inode_t, r <| i_mode := Z.lor MODE_D MODE_ALL |>
    <| pads ::= <[0%nat := 0xdeadbeef]> |> <| ptrs ::= <[0%nat := dir1_data_blk]> |>) img in
  let entries := block_at dir1_data_blk in
  let img := mk_entry entries 0 (Z.of_nat dir1_ino) (chars ".") img in
  let img := mk_entry entries 1 (Z.of_nat root_ino) (chars "..") img in
  let img := mk_entry entries 2 (Z.of_nat file2_ino) (chars "file2.txt") img in
  assign (inode_at dir1_ino) (λ r : inode_t, r <| i_size := Z.of_nat (3 * sizeof dirent_t) |>) img.

Definition make_file1 (img : list Z) : list Z :=
  let img := assign (inode_at file1_ino) (λ r : inode_t, r <| i_mode := Z.lor MODE_F MODE_ALL |>
    <| pads ::= <[0%nat := 0xdeadbeef]> |> <| ptrs ::= <[0%nat := file1_data_blk]> |>) img in
  let img := put_bytes (block_at file1_data_blk) (chars "hello world" ++ [0]) img in
  assign (inode_at file1_ino) (λ r : inode_t, r <| i_size := Z.of_nat (length (chars "hello world")) |>) img.

Definition hex : list Z := chars "0123456789abcdef,".
Definition fsz : Z := BLOCK_SIZE * 11.

(** The contents of file2, and what its loops write. *)
Definition set_ptrs (p : list Z) : list Z :=
  fold_left (λ p i, <[i := file2_data_blks !!! i]> p) (seq 0 NUM_PTRS) p.
Definition copy_hex (start : nat) (img : list Z) : list Z :=
  fold_left (λ img i, put_bytes (start + i * 17) hex img) (seq 0 (Z.to_nat (fsz / 17))) img.
Definition make_file2 (img : list Z) : list Z :=
  let img := assign (inode_at file2_ino) (λ r : inode_t, r <| i_mode := Z.lor MODE_F MODE_ALL |>
    <| pads ::= <[0%nat := 0xdeadbeef]> |> <| indirect_ptr := file2_indirect_blk |> <| ptrs ::= set_ptrs |>) img in
  let img := put32 (block_at file2_indirect_blk) (file2_data_blks !!! 10%nat) img in
  let img := copy_hex (block_at (file2_data_blks !!! 0%nat)) img in
  assign (inode_at file2_ino) (λ r : inode_t, r <| i_size := fsz |>) img.

Definition mkrwfs (img : list Z) : list Z :=
  make_file2 (make_file1 (make_dir1 (make_root (make_map (make_super img))))).

(** ** Reading such a file system *)

Definition inode_of (img : list Z) (ino : nat) : inode_t := deref (inode_at ino) img.
Definition block (img : list Z) (b : Z) : list Z := disk_block b img.
Definition marked (img : list Z) (b : nat) : bool := Z.testbit (block img 1 !!! (b / 8)%nat) (Z.of_nat (b mod 8)).

(** The data blocks of an inode: the direct ones, then those of the indirect block. *)
Definition file_blocks (img : list Z) (ino : nat) : list Z :=
  let i := inode_of img ino in
  let n := Z.to_nat ((i_size i + 511) / 512) in
  take n (ptrs i) ++ ((λ k, of_le (slice (4 * k) 4 (block img (indirect_ptr i)))) <$> seq 0 (n - NUM_PTRS)).
Definition file_bytes (img : list Z) (ino : nat) : list Z :=
  take (Z.to_nat (i_size (inode_of img ino))) (mjoin (block img <$> file_blocks img ino)).

Definition c_string (l : list Z) : list Z := take (default (length l) (fst <$> list_find (eq 0) l)) l.
Definition dir_entries (img : list Z) (ino : nat) : list (list Z * Z) :=
  let data := file_bytes img ino in
  (λ e, (c_string (de_name e), inum e)) <$>
    filter (λ e, valid e = 1) ((λ k, deref (k * sizeof dirent_t) data) <$> seq 0 (length data / sizeof dirent_t)).

(** The blocks that belong to something: the super block, the bitmap, the inodes,
    and those of the files. *)
Definition blocks_in_use (img : list Z) (inodes : list nat) : list Z :=
  0 :: 1 :: (Z.of_nat <$> seq 2 10) ++
  mjoin ((λ ino, file_blocks img ino ++ if bool_decide (indirect_ptr (inode_of img ino) = 0) then []
                                        else [indirect_ptr (inode_of img ino)]) <$> inodes).

End mkrwfs.
