(* ===== verification/RwfsThms.v ===== *)
(** * The file system [mkrwfs] makes is consistent and reads back *)

From Stdlib Require Import Ascii String.
From S2P Require Import Prelude Bytes Ipc Files Mkfs DiskImg Rwfs.

(** ** Pieces of memory *)

Lemma put_bytes_front l b : (length l ≤ length b)%nat → put_bytes 0 l b = l ++ skipn (length l) b.
Proof.
  intros Hl. unfold put_bytes. apply list_eq. intros j. destruct (decide (j < length l)%nat).
  - rewrite list_lookup_inserts by lia. rewrite lookup_app_l by lia. f_equal. lia.
  - rewrite list_lookup_inserts_ge by lia. rewrite lookup_app_r, lookup_drop by lia. f_equal. lia.
Qed.
Lemma slice_put_in o n k l b :
  (k + length l ≤ n)%nat → (o + n ≤ length b)%nat → slice o n (put_bytes (o + k) l b) = put_bytes k l (slice o n b).
Proof.
  intros Hk Hb. apply list_eq. intros j. unfold slice, put_bytes. destruct (decide (j < n)%nat).
  - rewrite lookup_take_lt, lookup_drop by done. destruct (decide (j < k)%nat).
    { rewrite !list_lookup_inserts_lt by lia. by rewrite lookup_take_lt, lookup_drop by done. }
    destruct (decide (j < k + length l)%nat).
    + rewrite !list_lookup_inserts by (rewrite ?length_take, ?length_drop; lia). f_equal. lia.
    + rewrite !list_lookup_inserts_ge by lia. by rewrite lookup_take_lt, lookup_drop by done.
  - rewrite !lookup_ge_None_2; [done| |]; rewrite ?length_inserts, ?length_take, ?length_drop, ?length_inserts; lia.
Qed.
Lemma slice_of_slice o n k m (b : list Z) : (k + m ≤ n)%nat → slice k m (slice o n b) = slice (o + k) m b.
Proof. intros. unfold slice. rewrite skipn_firstn_comm, take_take, drop_drop. f_equal. lia. Qed.
Lemma slice_replicate o n m (x : Z) : (o + n ≤ m)%nat → slice o n (replicate m x) = replicate n x.
Proof. intros. unfold slice. rewrite drop_replicate, take_replicate. f_equal. lia. Qed.

Definition zero (o n : nat) (img : list Z) : Prop := slice o n img = replicate n 0.
Lemma zero_sub o n p k img : zero o n img → (o ≤ p)%nat → (p + k ≤ o + n)%nat → zero p k img.
Proof.
  unfold zero. intros Hz Ho Hp. replace p with (o + (p - o))%nat by lia.
  rewrite <- (slice_of_slice o n) by lia. rewrite Hz. apply slice_replicate. lia.
Qed.

(** What an operation may touch: pieces given by place and size. *)
Definition keeps (g : list Z → list Z) (R : list (nat * nat)) : Prop := ∀ img,
  length (g img) = length img ∧
  ∀ o n, Forall (λ r, r.1 + r.2 ≤ o ∨ o + n ≤ r.1)%nat R → slice o n (g img) = slice o n img.

Lemma keeps_comp g h R R' : keeps g R → keeps h R' → keeps (λ img, h (g img)) (R ++ R').
Proof.
  intros Hg Hh img. destruct (Hg img) as [Lg Sg], (Hh (g img)) as [Lh Sh]. split; [by rewrite Lh|].
  intros o n [? ?]%Forall_app. by rewrite Sh, Sg.
Qed.
Lemma keeps_sub g R R' :
  keeps g R → Forall (λ r, Exists (λ q, q.1 ≤ r.1 ∧ r.1 + r.2 ≤ q.1 + q.2)%nat R') R → keeps g R'.
Proof.
  intros Hg HR img. destruct (Hg img) as [L Sg]. split; [done|]. intros o n Ho. apply Sg.
  eapply Forall_impl; [|exact HR]. intros r Hr. cbn in Hr. apply Exists_exists in Hr as (q & Hin & Hq).
  rewrite Forall_forall in Ho. specialize (Ho q Hin). cbn in Ho. lia.
Qed.
Lemma keeps_put o l : keeps (put_bytes o l) [(o, length l)].
Proof.
  intros img. split; [apply length_put_bytes|]. intros p n [Hp _]%Forall_cons_iff. cbn in Hp.
  apply slice_put_bytes_ne. lia.
Qed.
Lemma keeps_fold {A} (g : list Z → A → list Z) (l : list A) R :
  (∀ a, a ∈ l → keeps (λ img, g img a) R) → keeps (λ img, fold_left g l img) R.
Proof.
  induction l as [|a l IH]; intros Hg; [by intros img|]. intros img. cbn [fold_left].
  destruct (Hg a ltac:(by left) img) as [La Sa].
  destruct (IH (λ a' Ha', Hg a' ltac:(by right)) (g img a)) as [L S].
  split; [by rewrite L|]. intros o n Ho. by rewrite S, Sa.
Qed.

Section refs.
Context {T : Type} `{Repr T}.
Implicit Types f : T → T.

Lemma keeps_assign p f : keeps (assign p f) [(p, sizeof T)].
Proof.
  intros img. unfold assign. split; [apply length_put_bytes|]. intros o n [Hp _]%Forall_cons_iff. cbn in Hp.
  apply slice_put_bytes_ne. rewrite enc_length. lia.
Qed.
Lemma deref_assign p f img :
  (p + sizeof T ≤ length img)%nat → in_range (f (deref p img)) → deref p (assign p f img) = f (deref p img).
Proof.
  intros Hp Hr. unfold assign. set (v := f (deref p img)) in *. unfold deref.
  rewrite slice_put_bytes by (rewrite enc_length; lia). rewrite take_ge by (rewrite enc_length; lia). by apply dec_enc.
Qed.
Lemma deref_keeps g R p img :
  keeps g R → Forall (λ r, r.1 + r.2 ≤ p ∨ p + sizeof T ≤ r.1)%nat R → deref p (g img) = deref (T := T) p img.
Proof. intros Hg HR. unfold deref. by rewrite (proj2 (Hg img)). Qed.
Lemma deref_zero p img : zero p (sizeof T) img → deref p img = dec_repr (replicate (sizeof T) 0).
Proof. unfold deref. by intros ->. Qed.
End refs.

Lemma lor_u32 x y : is_u32 x → is_u32 y → is_u32 (Z.lor x y).
Proof.
  unfold is_u32. intros Hx Hy. split; [apply Z.lor_nonneg; lia|].
  destruct (Z.eq_dec (Z.lor x y) 0) as [->|Hn]; [lia|].
  assert (0 < Z.lor x y) by (assert (0 ≤ Z.lor x y) by (apply Z.lor_nonneg; lia); lia).
  change 4294967296 with (2 ^ 32). apply Z.log2_lt_pow2; [lia|]. rewrite Z.log2_lor by lia.
  assert (∀ z, 0 ≤ z < 4294967296 → Z.log2 z < 32).
  { intros z Hz. destruct (Z.eq_dec z 0) as [->|?]; [done|]. apply Z.log2_lt_pow2; lia. }
  apply Z.max_lub_lt; auto.
Qed.

Section stages.
Context `{FsHeader}.

(** Places, as numbers. *)
Lemma layout_facts :
  INODEARR_BLOCK_START = 2 ∧ DATA_BLOCK_START = 12 ∧ (4 * sizeof inode_t ≤ 10 * 512)%nat ∧
  (0 < sizeof dirent_t ∧ 4 * sizeof dirent_t ≤ 512)%nat ∧ (sizeof super_t ≤ 512)%nat.
Proof.
  split; [apply inodearr_start|]. split; [apply data_start|]. split; [apply inodes_fit|].
  split; [apply dirents_fit|apply super_fits].
Qed.
Ltac places :=
  pose proof layout_facts as (?HI & ?HD & ?Hi & ?Hd & ?Hs);
  unfold inode_at, entry_at, block_at, root_ino, file1_ino, dir1_ino, file2_ino, root_data_blk, file1_data_blk,
    dir1_data_blk, file2_indirect_blk, BLOCK_SIZE in *;
  rewrite ?HI, ?HD in *; cbn [fst snd length Nat.mul Nat.add] in *.

(** The image has room for the blocks in use. *)
Definition room (img : list Z) : Prop := (Z.to_nat (27 * 512) ≤ length img)%nat.
Lemma keeps_room g R img : keeps g R → room img → room (g img).
Proof. intros Hg Hr. unfold room. by rewrite (proj1 (Hg img)). Qed.
Lemma keeps_zero g R o n img :
  keeps g R → Forall (λ r, r.1 + r.2 ≤ o ∨ o + n ≤ r.1)%nat R → zero o n img → zero o n (g img).
Proof. intros Hg HR Hz. unfold zero. by rewrite (proj2 (Hg img)). Qed.

(** *** Directory entries *)

Definition dirent_of (e : Z * list Z) : dirent_t :=
  mk_dirent 1 e.1 (e.2 ++ replicate (DIRENT_NAME - length e.2) 0).
Definition good_entry (e : Z * list Z) : Prop := is_u8 e.1 ∧ bytes e.2 ∧ (0 ∉ e.2) ∧ (length e.2 < 10)%nat.

#[local] Instance good_entry_dec e : Decision (good_entry e).
Proof. unfold good_entry, bytes. apply _. Defined.

Lemma strcpy_zeros name :
  (length name < 10)%nat → strcpy name (replicate DIRENT_NAME 0) = name ++ replicate (DIRENT_NAME - length name) 0.
Proof.
  intros Hn. pose proof name_room. unfold strcpy.
  rewrite put_bytes_front by (rewrite length_app, length_replicate; cbn; lia).
  rewrite length_app, drop_replicate, <- app_assoc. f_equal. cbn [length].
  replace (DIRENT_NAME - length name)%nat with (S (DIRENT_NAME - (length name + 1))) by lia. done.
Qed.

Lemma entry_ok entries i e img :
  zero (entry_at entries i) (sizeof dirent_t) img → (entry_at entries i + sizeof dirent_t ≤ length img)%nat →
  good_entry e → deref (entry_at entries i) (mk_entry entries i e.1 e.2 img) = dirent_of e.
Proof.
  intros Hz Hl (Hi & Hb & _ & Hn). unfold mk_entry.
  rewrite deref_assign; rewrite ?(deref_zero _ _ Hz), ?dirent_zero; [|done|]; cbn; unfold set_field; cbn; rewrite strcpy_zeros by done; [done|].
  pose proof name_room. apply dirent_range; cbn; [done|done| |rewrite length_app, length_replicate; lia].
  apply Forall_app_2; [done|]. by apply Forall_replicate.
Qed.

Fixpoint mk_entries (entries i : nat) (l : list (Z * list Z)) (img : list Z) : list Z :=
  match l with
  | [] => img
  | e :: l => mk_entries entries (S i) l (mk_entry entries i e.1 e.2 img)
  end.
Lemma mk_entries_keeps entries l : ∀ i, keeps (mk_entries entries i l) [(entry_at entries i, length l * sizeof dirent_t)%nat].
Proof.
  induction l as [|e l IH]; intros i; [by intros img|].
  eapply keeps_sub; [exact (keeps_comp _ _ _ _ (keeps_assign _ _) (IH (S i)))|].
  repeat apply Forall_cons_2; try apply Forall_nil_2; apply Exists_cons_hd; unfold entry_at; cbn; nia.
Qed.
Lemma mk_entries_ok entries l : ∀ i img,
  zero (entry_at entries i) (length l * sizeof dirent_t) img →
  (entry_at entries i + length l * sizeof dirent_t ≤ length img)%nat → Forall good_entry l →
  ∀ k e, l !! k = Some e → deref (entry_at entries (i + k)) (mk_entries entries i l img) = dirent_of e.
Proof.
  induction l as [|e l IH]; intros i img Hz Hl Hg k x Hk; [done|]. apply Forall_cons_iff in Hg as [He Hg].
  cbn [mk_entries length] in *.
  assert (Hnext : entry_at entries (S i) = (entry_at entries i + sizeof dirent_t)%nat) by (unfold entry_at; lia).
  pose proof (keeps_assign (T := dirent_t) (entry_at entries i)) as Ka.
  destruct k as [|k]; cbn in Hk.
  - injection Hk as <-. rewrite Nat.add_0_r.
    rewrite (deref_keeps _ _ _ _ (mk_entries_keeps entries l (S i))) by (apply Forall_cons_2; [cbn; lia|done]).
    apply entry_ok; [|lia|done]. eapply zero_sub; [exact Hz| |]; lia.
  - replace (i + S k)%nat with (S i + k)%nat by lia. apply IH; [| |done|done].
    + eapply keeps_zero; [apply Ka|apply Forall_cons_2; [cbn; lia|done]|]. eapply zero_sub; [exact Hz| |]; lia.
    + unfold mk_entry. rewrite (proj1 (Ka _ img)). lia.
Qed.

(** *** An inode that is set up, its data, and its size *)

Definition zero_inode : inode_t := mk_inode 0 0 (replicate NUM_PTRS 0) 0 [0].
Definition inode_stage (ino : nat) (f : inode_t → inode_t) (data : list Z → list Z) (size : Z) (img : list Z) : list Z :=
  assign (inode_at ino) (λ r : inode_t, r <| i_size := size |>) (data (assign (inode_at ino) f img)).
Definition inode_piece (ino : nat) : nat * nat := (inode_at ino, sizeof inode_t).

Lemma inode_stage_keeps ino f data size R :
  keeps data R → keeps (inode_stage ino f data size) (inode_piece ino :: R).
Proof.
  intros Hd. eapply keeps_sub.
  - exact (keeps_comp _ _ _ _ (keeps_assign _ f) (keeps_comp _ _ _ _ Hd (keeps_assign (inode_at ino) _))).
  - cbn. apply Forall_cons_2; [by apply Exists_cons_hd; cbn; lia|]. apply Forall_app_2.
    + apply Forall_forall. intros r Hr. apply Exists_cons_tl, Exists_exists. exists r. split; [done|lia].
    + apply Forall_cons_2; [|done]. by apply Exists_cons_hd; cbn; lia.
Qed.

Lemma inode_stage_ok ino f data size R img :
  (ino < 4)%nat → room img → keeps data R →
  Forall (λ r, r.1 + r.2 ≤ inode_at ino ∨ inode_at ino + sizeof inode_t ≤ r.1)%nat R →
  zero (inode_at ino) (sizeof inode_t) img → in_range (f zero_inode) → in_range ((f zero_inode) <| i_size := size |>) →
  inode_of (inode_stage ino f data size img) ino = (f zero_inode) <| i_size := size |>.
Proof.
  intros Hi Hr Hd HR Hz H1 H2. unfold inode_of, inode_stage.
  assert (Hin : (inode_at ino + sizeof inode_t ≤ length img)%nat) by (unfold room in Hr; places; nia).
  assert (Hs : deref (inode_at ino) (assign (inode_at ino) f img) = f zero_inode).
  { rewrite deref_assign by (rewrite ?(deref_zero _ _ Hz), ?inode_zero; done). by rewrite (deref_zero _ _ Hz), inode_zero. }
  assert (Hs' : deref (inode_at ino) (data (assign (inode_at ino) f img)) = f zero_inode) by (by rewrite (deref_keeps _ _ _ _ Hd)).
  rewrite deref_assign; [by rewrite Hs'| |by rewrite Hs'].
  rewrite (proj1 (Hd _)), (proj1 (keeps_assign _ f img)). done.
Qed.

(** *** The stages of [mkrwfs] *)

Definition block_piece (b : Z) : nat * nat := (block_at b, 512%nat).

Definition root_entries : list (Z * list Z) :=
  [(0, chars "."); (2, chars ".."); (1, chars "file1.txt"); (2, chars "dir1")].
Definition dir1_entries : list (Z * list Z) := [(2, chars "."); (0, chars ".."); (3, chars "file2.txt")].
Lemma entries_good : Forall good_entry root_entries ∧ Forall good_entry dir1_entries.
Proof. split; apply (bool_decide_unpack _); vm_compute; exact I. Qed.

Definition inode_made (mode size : Z) (direct : list Z) (indirect : Z) : inode_t :=
  mk_inode mode size (direct ++ replicate (10 - length direct) 0) indirect [0xdeadbeef].
Lemma inode_made_range mode size direct indirect :
  is_u32 mode → is_u32 size → Forall is_u32 direct → (length direct ≤ 10)%nat → is_u32 indirect →
  in_range (inode_made mode size direct indirect).
Proof.
  intros. apply inode_range; cbn; try done.
  - apply Forall_app_2; [done|]. by apply Forall_replicate.
  - rewrite length_app, length_replicate, num_ptrs. lia.
Qed.
Lemma mode_range : is_u32 (Z.lor MODE_D MODE_ALL) ∧ is_u32 (Z.lor MODE_F MODE_ALL).
Proof. destruct modes as (? & ? & ?). split; by apply lor_u32. Qed.

Lemma dir_keeps b l : (length l ≤ 4)%nat → keeps (mk_entries (block_at b) 0 l) [block_piece b].
Proof.
  intros Hl. eapply keeps_sub; [apply mk_entries_keeps|]. apply Forall_cons_2; [|done]. apply Exists_cons_hd.
  unfold block_piece. places. nia.
Qed.

(** An inode that is set up, the data being written to data blocks. *)
Lemma inode_stage_made ino f data size R img mode direct indirect :
  (ino < 4)%nat → room img → keeps data R → Forall (λ r, block_at 12 ≤ r.1)%nat R →
  zero (inode_at ino) (sizeof inode_t) img →
  f zero_inode = inode_made mode 0 direct indirect → is_u32 mode → is_u32 size → Forall is_u32 direct →
  (length direct ≤ 10)%nat → is_u32 indirect →
  let g := inode_stage ino f data size in
  keeps g (inode_piece ino :: R) ∧ inode_of (g img) ino = inode_made mode size direct indirect ∧
  ∃ img0, room img0 ∧ (∀ o n, (block_at 12 ≤ o)%nat → slice o n img0 = slice o n img) ∧
    ∀ o n, (block_at 12 ≤ o)%nat → slice o n (g img) = slice o n (data img0).
Proof.
  intros Hi Hr Hd HR Hz Hf Hm Hs Hdir Hl Hind g. subst g.
  assert (Hrange : ∀ size, is_u32 size → in_range ((f zero_inode) <| i_size := size |>)).
  { intros sz Hsz. rewrite Hf. by apply (inode_made_range mode sz). }
  pose proof (keeps_assign (inode_at ino) f) as Ka.
  split; [by apply inode_stage_keeps|]. split.
  - replace (inode_made mode size direct indirect) with ((f zero_inode) <| i_size := size |>) by (by rewrite Hf).
    eapply inode_stage_ok; [done|done|exact Hd| |done| |auto].
    + eapply Forall_impl; [|exact HR]. intros r Hr12. cbn in Hr12. places. nia.
    + replace (f zero_inode) with ((f zero_inode) <| i_size := 0 |>) by (by rewrite Hf). by apply Hrange.
  - exists (assign (inode_at ino) f img). split; [by eapply keeps_room|]. unfold inode_stage.
    split; intros o n Ho; apply (keeps_assign (inode_at ino) _); (apply Forall_cons_2; [places; nia|done]).
Qed.

(** A directory: its inode and its entries. *)
Lemma dir_stage_ok ino blk l img :
  (ino < 4)%nat → 12 ≤ blk < 27 → (length l ≤ 4)%nat → Forall good_entry l → room img →
  zero (inode_at ino) (sizeof inode_t) img → zero (block_at blk) 512 img →
  let g := inode_stage ino (λ r : inode_t, r <| i_mode := Z.lor MODE_D MODE_ALL |>
    <| pads ::= <[0%nat := 0xdeadbeef]> |> <| ptrs ::= <[0%nat := blk]> |>) (mk_entries (block_at blk) 0 l)
    (Z.of_nat (length l * sizeof dirent_t)) in
  keeps g [inode_piece ino; block_piece blk] ∧
  inode_of (g img) ino = inode_made (Z.lor MODE_D MODE_ALL) (Z.of_nat (length l * sizeof dirent_t)) [blk] 0 ∧
  ∀ k e, l !! k = Some e → deref (entry_at (block_at blk) k) (g img) = dirent_of e.
Proof.
  intros Hi Hb Hl Hg Hr Hz Hzb g. subst g.
  edestruct (inode_stage_made ino (λ r : inode_t, r <| i_mode := Z.lor MODE_D MODE_ALL |>
    <| pads ::= <[0%nat := 0xdeadbeef]> |> <| ptrs ::= <[0%nat := blk]> |>) (mk_entries (block_at blk) 0 l)
    (Z.of_nat (length l * sizeof dirent_t)) [block_piece blk] img (Z.lor MODE_D MODE_ALL) [blk] 0)
    as (Hk & Hino & img0 & Hr0 & H0 & H1); try done.
  - by apply dir_keeps.
  - apply Forall_cons_2; [|done]. unfold block_piece. places. lia.
  - unfold zero_inode. by rewrite num_ptrs.
  - apply mode_range.
  - unfold is_u32. places. nia.
  - apply Forall_cons_2; [unfold is_u32; lia|done].
  - cbn. lia.
  - split; [exact Hk|]. split; [exact Hino|]. intros k e Hke.
    assert (k < length l)%nat by (by eapply lookup_lt_Some).
    unfold deref at 1. rewrite H1 by (places; nia).
    apply (mk_entries_ok (block_at blk) l 0); [| |done|done].
    + eapply zero_sub; [unfold zero; rewrite H0; [exact Hzb|]| |]; places; nia.
    + unfold room in Hr0. places. nia.
Qed.

Lemma make_root_ok img : room img → zero (inode_at 0) (sizeof inode_t) img → zero (block_at 12) 512 img →
  keeps make_root [inode_piece 0; block_piece 12] ∧
  inode_of (make_root img) 0 = inode_made (Z.lor MODE_D MODE_ALL) (Z.of_nat (4 * sizeof dirent_t)) [12] 0 ∧
  ∀ k e, root_entries !! k = Some e → deref (entry_at (block_at 12) k) (make_root img) = dirent_of e.
Proof.
  intros. pose proof (dir_stage_ok 0 12 root_entries img) as Hs. rewrite <- data_start in *.
  apply Hs; first [done|lia|cbn; lia|rewrite data_start; lia|apply entries_good].
Qed.
Lemma make_dir1_ok img : room img → zero (inode_at 2) (sizeof inode_t) img → zero (block_at 14) 512 img →
  keeps make_dir1 [inode_piece 2; block_piece 14] ∧
  inode_of (make_dir1 img) 2 = inode_made (Z.lor MODE_D MODE_ALL) (Z.of_nat (3 * sizeof dirent_t)) [14] 0 ∧
  ∀ k e, dir1_entries !! k = Some e → deref (entry_at (block_at 14) k) (make_dir1 img) = dirent_of e.
Proof.
  intros. pose proof (dir_stage_ok 2 14 dir1_entries img) as Hs.
  replace 14 with dir1_data_blk in * by (unfold dir1_data_blk; by rewrite data_start).
  apply Hs; first [done|lia|cbn; lia|unfold dir1_data_blk; rewrite data_start; lia|apply entries_good].
Qed.

(** The files. *)
Lemma make_file1_ok img : room img → zero (inode_at 1) (sizeof inode_t) img →
  keeps make_file1 [inode_piece 1; block_piece 13] ∧
  inode_of (make_file1 img) 1 = inode_made (Z.lor MODE_F MODE_ALL) 11 [13] 0 ∧
  slice (block_at 13) 11 (make_file1 img) = chars "hello world".
Proof.
  intros Hr Hz. replace 13 with file1_data_blk by (unfold file1_data_blk; by rewrite data_start).
  assert (Hb : file1_data_blk = 13) by (unfold file1_data_blk; by rewrite data_start).
  edestruct (inode_stage_made 1 (λ r : inode_t, r <| i_mode := Z.lor MODE_F MODE_ALL |>
    <| pads ::= <[0%nat := 0xdeadbeef]> |> <| ptrs ::= <[0%nat := file1_data_blk]> |>)
    (put_bytes (block_at file1_data_blk) (chars "hello world" ++ [0])) 11 [block_piece file1_data_blk] img
    (Z.lor MODE_F MODE_ALL) [file1_data_blk] 0) as (Hk & Hino & img0 & Hr0 & H0 & H1); try done; rewrite ?Hb in *.
  - lia.
  - eapply keeps_sub; [apply keeps_put|]. apply Forall_cons_2; [|done]. apply Exists_cons_hd. cbn. lia.
  - apply Forall_cons_2; [|done]. unfold block_piece. places. lia.
  - unfold zero_inode. by rewrite num_ptrs.
  - apply mode_range.
  - apply Forall_cons_2; [unfold is_u32; lia|done].
  - cbn. lia.
  - rewrite <- Hb in *. split; [exact Hk|]. split; [exact Hino|].
    transitivity (slice (block_at file1_data_blk) 11 (put_bytes (block_at file1_data_blk) (chars "hello world" ++ [0]) img0)).
    { apply H1. rewrite Hb. places. lia. }
    rewrite slice_put_bytes; [done|cbn; lia|]. unfold room in Hr0. rewrite Hb. places. cbn. lia.
Qed.

Lemma make_super_ok img : room img → zero 0 512 img →
  keeps make_super [block_piece 0] ∧ deref 0 (make_super img) = mk_super 0x6640 4096.
Proof.
  intros Hr Hz. split.
  - eapply keeps_sub; [apply (keeps_assign 0)|]. apply Forall_cons_2; [|done]. apply Exists_cons_hd.
    unfold block_piece. places. lia.
  - unfold make_super.
    assert (Hz' : zero 0 (sizeof super_t) img) by (eapply zero_sub; [exact Hz|lia|apply super_fits]).
    pose proof (deref_zero _ _ Hz') as Hd. rewrite super_zero in Hd. rewrite deref_assign; rewrite ?Hd; [done| |].
    + pose proof super_fits. unfold room in Hr. lia.
    + by apply super_range.
Qed.

(** The bitmap. *)
Definition mark_in (m : list Z) (i : nat) : list Z :=
  put8 (i / 8) (Z.lor (u8 m (i / 8)) (Z.shiftl 1 (Z.of_nat (i mod 8)))) m.
Lemma div8 i : (i < 27)%nat → (i / 8 < 4)%nat.
Proof. intros Hi. apply Nat.Div0.div_lt_upper_bound. lia. Qed.
Lemma mark_slice img i : room img → (i < 27)%nat →
  slice (block_at 1) 512 (mark img i) = mark_in (slice (block_at 1) 512 img) i.
Proof.
  intros Hr Hi%div8. unfold mark, mark_in. unfold room in Hr.
  rewrite slice_put8_in by (places; lia). replace (block_at 1 + i / 8 - block_at 1)%nat with (i / 8)%nat by lia.
  do 2 f_equal. unfold u8, slice. by rewrite !list_lookup_total_alt, lookup_take_lt, lookup_drop by lia.
Qed.
Lemma mark_keeps i : (i < 27)%nat → keeps (λ img, mark img i) [block_piece 1].
Proof.
  intros Hi%div8 img. unfold mark. split; [apply length_put8|]. intros o n [Ho _]%Forall_cons_iff.
  apply slice_put8_ne. unfold block_piece in Ho. cbn in Ho. places. lia.
Qed.
Lemma make_map_ok img : room img → zero (block_at 1) 512 img →
  keeps make_map [block_piece 1] ∧
  slice (block_at 1) 512 (make_map img) = [255; 255; 255; 7] ++ replicate 508 0.
Proof.
  intros Hr Hz. assert (Hin : ∀ i, i ∈ seq 0 27 → (i < 27)%nat) by (intros i Hi%elem_of_seq; lia). split.
  - apply keeps_fold. intros i Hi. apply mark_keeps, Hin, Hi.
  - transitivity (fold_left mark_in (seq 0 27) (slice (block_at 1) 512 img)); [|rewrite Hz; by vm_compute].
    clear Hz. unfold make_map. revert img Hr Hin. generalize (seq 0 27) as l.
    induction l as [|i l IH]; intros img Hr Hin; [done|]. cbn [fold_left].
    assert (Hi : (i < 27)%nat) by (apply Hin; left). rewrite <- mark_slice by done.
    apply IH; [|intros j Hj; apply Hin; by right]. exact (keeps_room _ _ _ (mark_keeps i Hi) Hr).
Qed.

(** file2.txt *)
Definition file2_text : list Z := mjoin (replicate 331 hex) ++ replicate 5 0.
Definition hex_in (m : list Z) (i : nat) : list Z := put_bytes (i * 17) hex m.
Definition text_size : nat := Z.to_nat fsz.
Lemma hex_slice o img i : (o + text_size ≤ length img)%nat → (i < 331)%nat →
  slice o text_size (put_bytes (o + i * 17) hex img) = hex_in (slice o text_size img) i.
Proof. intros Hl Hi. apply slice_put_in; [|done]. unfold text_size, fsz, BLOCK_SIZE, hex. cbn. lia. Qed.
Lemma put_bytes_app_r (l a b : list Z) : put_bytes (length a) l (a ++ b) = a ++ put_bytes 0 l b.
Proof.
  unfold put_bytes. rewrite <- (Nat.add_0_r (length a)). generalize 0%nat as o.
  induction l as [|x l IH]; intros o; [done|]. cbn [list_inserts].
  rewrite <- Nat.add_succ_r, IH. by rewrite insert_app_r.
Qed.
Lemma hex_fold k : ∀ n, (k * 17 ≤ n)%nat →
  fold_left hex_in (seq 0 k) (replicate n 0) = mjoin (replicate k hex) ++ replicate (n - k * 17) 0.
Proof.
  induction k as [|k IH]; intros n Hn; [by rewrite Nat.sub_0_r|].
  rewrite seq_S, fold_left_app, IH by lia. cbn [fold_left Nat.add]. unfold hex_in.
  replace (k * 17)%nat with (length (mjoin (replicate k hex))) at 1 by (rewrite length_mjoin_replicate; change (length hex) with 17%nat; lia).
  rewrite put_bytes_app_r, put_bytes_front by (rewrite length_replicate; change (length hex) with 17%nat; lia).
  rewrite replicate_S_end, app_assoc. change (length hex) with 17%nat. rewrite drop_replicate.
  rewrite join_app. cbn [mjoin list_join]. rewrite app_nil_r. do 2 f_equal. lia.
Qed.
Lemma text_fold : fold_left hex_in (seq 0 (Z.to_nat (fsz / 17))) (replicate text_size 0) = file2_text.
Proof.
  change (Z.to_nat (fsz / 17)) with 331%nat. unfold text_size, fsz, BLOCK_SIZE. rewrite hex_fold by lia.
  unfold file2_text. do 2 f_equal.
Qed.

Lemma copy_hex_ok o : keeps (copy_hex o) [(o, text_size)] ∧
  ∀ img, (o + text_size ≤ length img)%nat → zero o text_size img → slice o text_size (copy_hex o img) = file2_text.
Proof.
  assert (Hin : ∀ i, i ∈ seq 0 (Z.to_nat (fsz / 17)) → (i < 331)%nat).
  { intros i Hi%elem_of_seq. change (Z.to_nat (fsz / 17)) with 331%nat in Hi. lia. }
  split.
  - apply keeps_fold. intros i Hi%Hin. eapply keeps_sub; [apply keeps_put|]. apply Forall_cons_2; [|done].
    apply Exists_cons_hd. unfold text_size, fsz, BLOCK_SIZE, hex. cbn. lia.
  - intros img Hl Hz.
    transitivity (fold_left hex_in (seq 0 (Z.to_nat (fsz / 17))) (slice o text_size img)); [|rewrite Hz; apply text_fold].
    clear Hz. unfold copy_hex. revert img Hl Hin. generalize (seq 0 (Z.to_nat (fsz / 17))) as l.
    induction l as [|i l IH]; intros img Hl Hin; [done|]. cbn [fold_left].
    rewrite <- hex_slice by (done || (apply Hin; left)).
    apply IH; [by rewrite length_put_bytes|intros j Hj; apply Hin; by right].
Qed.

Lemma text_blocks : text_size = (11 * 512)%nat.
Proof. reflexivity. Qed.
#[local] Opaque text_size copy_hex file2_text.
Definition text_piece : nat * nat := (block_at 16, text_size).
Lemma file2_blocks : file2_data_blks = [16; 17; 18; 19; 20; 21; 22; 23; 24; 25; 26] ∧ file2_indirect_blk = 15.
Proof. unfold file2_data_blks, file2_indirect_blk. by rewrite data_start. Qed.
Lemma make_file2_ok img : room img → zero (inode_at 3) (sizeof inode_t) img → zero (block_at 16) text_size img →
  keeps make_file2 [inode_piece 3; block_piece 15; text_piece] ∧
  inode_of (make_file2 img) 3 = inode_made (Z.lor MODE_F MODE_ALL) fsz [16; 17; 18; 19; 20; 21; 22; 23; 24; 25] 15 ∧
  of_le (slice (block_at 15) 4 (make_file2 img)) = 26 ∧
  slice (block_at 16) text_size (make_file2 img) = file2_text.
Proof.
  intros Hr Hz Ht. destruct file2_blocks as [Hd Hi].
  pose proof text_blocks as Hts. destruct (copy_hex_ok (block_at 16)) as [Kc Hc].
  assert (Kd : keeps (λ img, copy_hex (block_at 16) (put32 (block_at 15) 26 img)) [block_piece 15; text_piece]).
  { eapply keeps_sub; [exact (keeps_comp _ _ _ _ (keeps_put (block_at 15) (le32 26)) Kc)|].
    apply Forall_cons_2; [apply Exists_cons_hd; cbn; lia|]. apply Forall_cons_2; [|done].
    apply Exists_cons_tl, Exists_cons_hd. cbn [text_piece fst snd]. lia. }
  edestruct (inode_stage_made 3 (λ r : inode_t, r <| i_mode := Z.lor MODE_F MODE_ALL |>
    <| pads ::= <[0%nat := 0xdeadbeef]> |> <| indirect_ptr := file2_indirect_blk |> <| ptrs ::= set_ptrs |>)
    (λ img, copy_hex (block_at 16) (put32 (block_at 15) 26 img)) fsz [block_piece 15; text_piece] img
    (Z.lor MODE_F MODE_ALL) [16; 17; 18; 19; 20; 21; 22; 23; 24; 25] 15) as (Hk & Hino & img0 & Hr0 & H0 & H1);
    [lia|exact Hr|exact Kd| |exact Hz| |apply mode_range|unfold is_u32, fsz, BLOCK_SIZE; lia| |cbn; lia|unfold is_u32; lia|].
  - unfold block_piece, text_piece. apply Forall_cons_2; [places; lia|]. apply Forall_cons_2; [places; lia|done].
  - unfold zero_inode, set_ptrs. cbn [fold_left]. rewrite Hd, Hi, num_ptrs. by vm_compute.
  - repeat (apply Forall_cons_2; [unfold is_u32; lia|]). done.
  - assert (Hm : make_file2 = inode_stage 3 (λ r : inode_t, r <| i_mode := Z.lor MODE_F MODE_ALL |>
      <| pads ::= <[0%nat := 0xdeadbeef]> |> <| indirect_ptr := file2_indirect_blk |> <| ptrs ::= set_ptrs |>)
      (λ img, copy_hex (block_at 16) (put32 (block_at 15) 26 img)) fsz).
    { unfold make_file2, inode_stage. by rewrite Hd, Hi. }
    rewrite Hm. split; [exact Hk|]. split; [exact Hino|]. unfold room in Hr0.
    rewrite !H1 by (places; lia). split.
    + rewrite (proj2 (Kc _)) by (apply Forall_cons_2; [|done]; cbn [fst snd]; places; lia).
      unfold put32. by rewrite slice_put_bytes by (rewrite ?length_put_bytes; cbn [le32 length]; places; lia).
    + apply Hc; [rewrite length_put32, Hts; places; lia|]. unfold zero.
      rewrite slice_put32_ne by (places; lia). rewrite H0 by (places; lia). exact Ht.
Qed.

(** *** The whole image *)

Definition rwfs0 : list Z := replicate (Z.to_nat SIZE_2MB) 0.
Lemma rwfs0_zero o n : (o + n ≤ Z.to_nat SIZE_2MB)%nat → zero o n rwfs0.
Proof. intros. unfold zero, rwfs0. by apply slice_replicate. Qed.
Lemma rwfs0_room : room rwfs0.
Proof. unfold room, rwfs0. rewrite length_replicate. unfold SIZE_2MB. lia. Qed.

(** What each structure of the finished image holds. *)
Record made (img : list Z) : Prop := {
  made_length : length img = Z.to_nat SIZE_2MB;
  made_super : deref 0 img = mk_super 0x6640 (SIZE_2MB / BLOCK_SIZE);
  made_map : slice (block_at 1) 512 img = [255; 255; 255; 7] ++ replicate 508 0;
  made_root : inode_of img 0 = inode_made (Z.lor MODE_D MODE_ALL) (Z.of_nat (4 * sizeof dirent_t)) [12] 0;
  made_root_entries k e : root_entries !! k = Some e → deref (entry_at (block_at 12) k) img = dirent_of e;
  made_file1 : inode_of img 1 = inode_made (Z.lor MODE_F MODE_ALL) 11 [13] 0;
  made_file1_data : slice (block_at 13) 11 img = chars "hello world";
  made_dir1 : inode_of img 2 = inode_made (Z.lor MODE_D MODE_ALL) (Z.of_nat (3 * sizeof dirent_t)) [14] 0;
  made_dir1_entries k e : dir1_entries !! k = Some e → deref (entry_at (block_at 14) k) img = dirent_of e;
  made_file2 : inode_of img 3 = inode_made (Z.lor MODE_F MODE_ALL) fsz [16; 17; 18; 19; 20; 21; 22; 23; 24; 25] 15;
  made_indirect : of_le (slice (block_at 15) 4 img) = 26;
  made_file2_data : slice (block_at 16) text_size img = file2_text
}.

Lemma apart_facts :
  block_at 1 = (1 * 512)%nat ∧ block_at 12 = (12 * 512)%nat ∧ block_at 13 = (13 * 512)%nat ∧
  block_at 14 = (14 * 512)%nat ∧ block_at 15 = (15 * 512)%nat ∧ block_at 16 = (16 * 512)%nat ∧
  block_at 0 = 0%nat ∧ ∀ ino, inode_at ino = (2 * 512 + ino * sizeof inode_t)%nat.
Proof. repeat split; intros; places; lia. Qed.
Ltac apart :=
  pose proof apart_facts as (?A1 & ?A12 & ?A13 & ?A14 & ?A15 & ?A16 & ?A0 & ?Ai); pose proof text_blocks as ?Ht;
  pose proof layout_facts as (_ & _ & ?Hi & ?Hd & ?Hs); unfold inode_piece, block_piece, text_piece, entry_at;
  repeat (apply Forall_cons_2); try exact (Forall_nil_2 _); cbn [fst snd];
  rewrite ?A1, ?A12, ?A13, ?A14, ?A15, ?A16, ?A0, ?Ai, ?Ht; lia.

Lemma mkrwfs_made : made (mkrwfs rwfs0).
Proof.
  pose proof rwfs0_room as R0. assert (Z0 : ∀ o n, (o + n ≤ 27 * 512)%nat → zero o n rwfs0).
  { intros o n Hon. apply rwfs0_zero. unfold SIZE_2MB. lia. }
  unfold mkrwfs. pose proof (Z0 0%nat 512%nat ltac:(lia)) as Zs.
  destruct (make_super_ok rwfs0 R0 Zs) as [K1 S1]. pose proof (keeps_room _ _ _ K1 R0) as R1.
  destruct (make_map_ok (make_super rwfs0) R1) as [K2 S2].
  { eapply keeps_zero; [exact K1|apart|]. apply Z0. apart. }
  pose proof (keeps_room _ _ _ K2 R1) as R2.
  assert (Z2 : ∀ o n, (2 * 512 ≤ o)%nat → (o + n ≤ 27 * 512)%nat → zero o n (make_map (make_super rwfs0))).
  { intros o n Ho Hon. eapply keeps_zero; [exact K2|apart|]. eapply keeps_zero; [exact K1|apart|]. by apply Z0. }
  set (img2 := make_map (make_super rwfs0)) in *.
  destruct (make_root_ok img2 R2) as (K3 & I3 & E3); [apply Z2; apart..|].
  pose proof (keeps_room _ _ _ K3 R2) as R3.
  destruct (make_dir1_ok (make_root img2) R3) as (K4 & I4 & E4);
    [(eapply keeps_zero; [exact K3|apart|apply Z2; apart])..|].
  pose proof (keeps_room _ _ _ K4 R3) as R4.
  destruct (make_file1_ok (make_dir1 (make_root img2)) R4) as (K5 & I5 & E5).
  { eapply keeps_zero; [exact K4|apart|]. eapply keeps_zero; [exact K3|apart|]. apply Z2; apart. }
  pose proof (keeps_room _ _ _ K5 R4) as R5.
  destruct (make_file2_ok (make_file1 (make_dir1 (make_root img2))) R5) as (K6 & I6 & E6 & F6);
    [(eapply keeps_zero; [exact K5|apart|eapply keeps_zero; [exact K4|apart|eapply keeps_zero; [exact K3|apart|apply Z2; apart]]])..|].
  unfold inode_of in *. constructor; unfold inode_of.
  - rewrite (proj1 (K6 _)), (proj1 (K5 _)), (proj1 (K4 _)), (proj1 (K3 _)). unfold img2.
    rewrite (proj1 (K2 _)), (proj1 (K1 _)). apply length_replicate.
  - rewrite (deref_keeps _ _ _ _ K6), (deref_keeps _ _ _ _ K5), (deref_keeps _ _ _ _ K4), (deref_keeps _ _ _ _ K3) by apart.
    unfold img2. by rewrite (deref_keeps _ _ _ _ K2) by apart.
  - by rewrite (proj2 (K6 _)), (proj2 (K5 _)), (proj2 (K4 _)), (proj2 (K3 _)) by apart.
  - by rewrite (deref_keeps _ _ _ _ K6), (deref_keeps _ _ _ _ K5), (deref_keeps _ _ _ _ K4) by apart.
  - intros k e He. assert (k < 4)%nat by exact (lookup_lt_Some _ _ _ He).
    rewrite (deref_keeps _ _ _ _ K6), (deref_keeps _ _ _ _ K5), (deref_keeps _ _ _ _ K4) by (assert (k * sizeof dirent_t + sizeof dirent_t ≤ 512)%nat by (destruct dirents_fit; nia); apart). auto.
  - by rewrite (deref_keeps _ _ _ _ K6) by apart.
  - by rewrite (proj2 (K6 _)) by apart.
  - by rewrite (deref_keeps _ _ _ _ K6), (deref_keeps _ _ _ _ K5) by apart.
  - intros k e He. assert (k < 3)%nat by exact (lookup_lt_Some _ _ _ He).
    rewrite (deref_keeps _ _ _ _ K6), (deref_keeps _ _ _ _ K5) by (assert (k * sizeof dirent_t + sizeof dirent_t ≤ 512)%nat by (destruct dirents_fit; nia); apart). auto.
  - exact I6.
  - exact E6.
  - exact F6.
Qed.

(** *** Reading it back *)

Lemma c_string_zeros name m : (0 < m)%nat → 0 ∉ name → c_string (name ++ replicate m 0) = name.
Proof.
  intros Hm Hn. destruct m as [|m]; [lia|]. unfold c_string. cbn [replicate].
  assert (Hf : list_find (eq 0) (name ++ 0 :: replicate m 0) = Some (length name, 0)).
  { apply list_find_Some. split; [by rewrite lookup_app_r, Nat.sub_diag|]. split; [done|].
    intros j y Hj Hlt Hy. subst y. rewrite lookup_app_l in Hj by done. by apply list_elem_of_lookup_2 in Hj. }
  rewrite Hf. by apply take_app_length.
Qed.

Lemma blocks_one size : 1 ≤ size ≤ 512 → Z.to_nat ((size + 511) / 512) = 1%nat.
Proof. intros Hs. assert ((size + 511) / 512 = 1) as -> by dlia. done. Qed.

(** A small file: one block. *)
Lemma small_file img ino mode size blk :
  inode_of img ino = inode_made mode size [blk] 0 → 1 ≤ size ≤ 512 →
  file_blocks img ino = [blk] ∧ file_bytes img ino = slice (block_at blk) (Z.to_nat size) img.
Proof.
  intros Hi Hs. assert (Hb : file_blocks img ino = [blk]).
  { unfold file_blocks. rewrite Hi. cbn [i_size ptrs inode_made length indirect_ptr]. rewrite blocks_one by done.
    by rewrite num_ptrs. }
  split; [done|]. unfold file_bytes. rewrite Hb, Hi. cbn [i_size inode_made]. rewrite list_fmap_singleton. cbn.
  rewrite app_nil_r. unfold block, disk_block, slice, block_at. rewrite take_take. f_equal. lia.
Qed.

Lemma dir_reads img ino blk l :
  inode_of img ino = inode_made (Z.lor MODE_D MODE_ALL) (Z.of_nat (length l * sizeof dirent_t)) [blk] 0 →
  (0 < length l ≤ 4)%nat → Forall good_entry l → (block_at blk + 512 ≤ length img)%nat →
  (∀ k e, l !! k = Some e → deref (entry_at (block_at blk) k) img = dirent_of e) →
  dir_entries img ino = (λ e, (e.2, e.1)) <$> l.
Proof.
  intros Hi Hl Hg Hr He. pose proof dirents_fit as [Hd0 Hd].
  destruct (small_file _ _ _ _ _ Hi) as [_ Hb]; [nia|]. unfold dir_entries. rewrite Hb, Nat2Z.id.
  set (n := length l) in *. rewrite length_slice by nia. rewrite Nat.div_mul by lia.
  assert (Hm : (λ k, deref (k * sizeof dirent_t) (slice (block_at blk) (n * sizeof dirent_t) img)) <$> seq 0 n = dirent_of <$> l).
  { apply list_eq. intros k. rewrite !list_lookup_fmap. destruct (l !! k) as [e|] eqn:Hk.
    - assert (Hkn : (k < n)%nat) by (by eapply lookup_lt_Some). rewrite lookup_seq_lt by done. cbn. f_equal.
      rewrite <- (He k e Hk). unfold deref, entry_at. by rewrite slice_of_slice by nia.
    - apply lookup_ge_None in Hk. by rewrite lookup_seq_ge by done. }
  rewrite Hm. clear -Hg. induction Hg as [|e l [? (_ & Hn & Hlen)] _ IH]; [done|]. rewrite !fmap_cons.
  rewrite filter_cons_True by done. rewrite fmap_cons, IH. f_equal. cbn. f_equal. apply c_string_zeros; [|done].
  pose proof name_room. lia.
Qed.

Section made.
Variable img : list Z.
Hypothesis Hmade : made img.

Lemma made_room : room img.
Proof. unfold room. rewrite (made_length _ Hmade). unfold SIZE_2MB. lia. Qed.

Lemma slice_plus p n m (b : list Z) : slice p (n + m) b = slice p n b ++ slice (p + n) m b.
Proof. unfold slice. rewrite <- take_take_drop, drop_drop. done. Qed.
Lemma blocks_join n : ∀ b, 0 ≤ b → mjoin (block img <$> seqZ b (Z.of_nat n)) = slice (block_at b) (n * 512) img.
Proof.
  induction n as [|n IH]; intros b Hb; [done|]. rewrite seqZ_cons by lia.
  replace (Z.pred (Z.of_nat (S n))) with (Z.of_nat n) by lia. rewrite fmap_cons.
  change (mjoin (block img b :: (block img <$> seqZ (Z.succ b) (Z.of_nat n))))
    with (block img b ++ mjoin (block img <$> seqZ (Z.succ b) (Z.of_nat n))).
  rewrite IH by lia. replace (S n * 512)%nat with (512 + n * 512)%nat by lia. rewrite slice_plus. f_equal.
  f_equal. unfold block_at, BLOCK_SIZE. lia.
Qed.

Lemma file2_reads :
  file_blocks img 3 = [16; 17; 18; 19; 20; 21; 22; 23; 24; 25; 26] ∧ file_bytes img 3 = file2_text.
Proof.
  assert (Hb : file_blocks img 3 = [16; 17; 18; 19; 20; 21; 22; 23; 24; 25; 26]).
  { unfold file_blocks. rewrite (made_file2 _ Hmade). cbn [i_size ptrs inode_made length indirect_ptr].
    change (Z.to_nat ((fsz + 511) / 512)) with 11%nat. rewrite num_ptrs. cbn [seq Nat.sub fmap list_fmap Nat.mul].
    unfold block, disk_block. change (Z.to_nat (15 * BLOCK_SIZE)) with (block_at 15). rewrite slice_of_slice by lia. rewrite Nat.add_0_r.
    by rewrite (made_indirect _ Hmade). }
  split; [exact Hb|]. unfold file_bytes. rewrite Hb, (made_file2 _ Hmade). cbn [i_size inode_made].
  rewrite <- (made_file2_data _ Hmade). change (Z.to_nat fsz) with text_size. pose proof text_blocks as Ht.
  change [16; 17; 18; 19; 20; 21; 22; 23; 24; 25; 26] with (seqZ 16 (Z.of_nat 11)). rewrite blocks_join by lia.
  rewrite <- Ht. apply take_ge. apply Nat.eq_le_incl, length_slice. pose proof made_room as Hr. unfold room in Hr.
  pose proof apart_facts as (_ & _ & _ & _ & _ & A16 & _). rewrite A16, Ht. lia.
Qed.

Lemma bitmap_reads b : (b < 4096)%nat → marked img b = (b <? 27)%nat.
Proof.
  intros Hb. unfold marked, block, disk_block. change (Z.to_nat (1 * BLOCK_SIZE)) with (block_at 1).
  rewrite (made_map _ Hmade). destruct (decide (b < 32)%nat) as [H32|H32].
  - assert (Hall : forallb (λ b, eqb (Z.testbit ([255; 255; 255; 7] !!! (b / 8)%nat) (Z.of_nat (b mod 8))) (b <? 27)%nat) (seq 0 32) = true) by done.
    rewrite forallb_forall in Hall. apply eqb_prop. rewrite <- (Hall b) by (apply in_seq; lia).
    assert (b / 8 < 4)%nat by (apply Nat.Div0.div_lt_upper_bound; lia). by rewrite lookup_total_app_l by (cbn [length]; lia).
  - pose proof (Nat.div_le_lower_bound b 8 4 ltac:(lia) ltac:(lia)). pose proof (Nat.Div0.div_lt_upper_bound b 8 512 ltac:(lia)).
    rewrite lookup_total_app_r by (cbn [length]; lia). rewrite lookup_total_replicate_2 by (cbn [length]; lia).
    rewrite Z.testbit_0_l. symmetry. apply Nat.ltb_ge. lia.
Qed.
End made.

(** C22: mkrwfs fills the zeroed image with a consistent file system: the super block
    has the magic number and the number of blocks; the blocks that belong to the
    super block, the bitmap, the inodes and the four files are all different, and
    they are exactly the blocks the bitmap marks; and reading through the inodes,
    direct and indirect pointers gives the entries of the two directories and the
    contents of the two files, of which file2.txt ends with five zero bytes. *)
Theorem mkrwfs_consistent :
  let img := mkrwfs rwfs0 in
  length img = Z.to_nat SIZE_2MB ∧
  deref 0 img = mk_super 0x6640 (SIZE_2MB / BLOCK_SIZE) ∧
  NoDup (blocks_in_use img [0; 1; 2; 3]%nat) ∧
  (∀ b, (b < 4096)%nat → marked img b = true ↔ Z.of_nat b ∈ blocks_in_use img [0; 1; 2; 3]%nat) ∧
  dir_entries img root_ino = [(chars ".", 0); (chars "..", 2); (chars "file1.txt", 1); (chars "dir1", 2)] ∧
  dir_entries img dir1_ino = [(chars ".", 2); (chars "..", 0); (chars "file2.txt", 3)] ∧
  file_bytes img file1_ino = chars "hello world" ∧
  file_bytes img file2_ino = mjoin (replicate 331 hex) ++ replicate 5 0.
Proof.
  pose proof mkrwfs_made as Hm. intros img. fold img in Hm. clearbody img.
  pose proof dirents_fit as [Hd0 Hd]. pose proof (made_room img Hm) as Hr. unfold room in Hr.
  pose proof apart_facts as (_ & A12 & A13 & A14 & _).
  destruct (file2_reads img Hm) as [B3 F3].
  destruct (small_file img 0 _ _ _ (made_root _ Hm)) as [B0 _]; [lia|].
  destruct (small_file img 1 _ _ _ (made_file1 _ Hm)) as [B1 F1]; [lia|].
  destruct (small_file img 2 _ _ _ (made_dir1 _ Hm)) as [B2 _]; [lia|].
  assert (Hu : blocks_in_use img [0; 1; 2; 3]%nat = seqZ 0 15 ++ seqZ 16 11 ++ [15]).
  { unfold blocks_in_use. cbn [fmap list_fmap]. rewrite B0, B1, B2, B3.
    rewrite (made_root _ Hm), (made_file1 _ Hm), (made_dir1 _ Hm), (made_file2 _ Hm). by vm_compute. }
  split; [apply (made_length _ Hm)|]. split; [apply (made_super _ Hm)|]. rewrite Hu.
  split; [apply (bool_decide_unpack _); by vm_compute|]. split.
  { intros b Hb. rewrite (bitmap_reads img Hm b Hb), Nat.ltb_lt, !elem_of_app, !elem_of_seqZ, list_elem_of_singleton. lia. }
  unfold root_ino, dir1_ino, file1_ino, file2_ino. split; [|split; [|split]].
  - rewrite (dir_reads img 0 12 root_entries); [done|apply (made_root _ Hm)|cbn; lia|apply entries_good|lia|apply (made_root_entries _ Hm)].
  - rewrite (dir_reads img 2 14 dir1_entries); [done|apply (made_dir1 _ Hm)|cbn; lia|apply entries_good|lia|apply (made_dir1_entries _ Hm)].
  - rewrite F1. apply (made_file1_data _ Hm).
  - exact F3.
Qed.
End stages.

(** ** A layout of the structures: words, and a byte per character *)

Definition words (l : list Z) : list Z := mjoin (le32 <$> l).
Definition word (l : list Z) (k : nat) : Z := of_le (slice (4 * k) 4 l).
Definition fixed (n : nat) (l : list Z) : list Z := (λ i, l !!! i) <$> seq 0 n.

Lemma of_le32_id v : is_u32 v → of_le (le32 v) = v.
Proof. intros Hv. rewrite of_le32. by apply Z.mod_small. Qed.
Lemma fixed_id n l : length l = n → fixed n l = l.
Proof.
  intros <-. unfold fixed. apply list_eq. intros i. rewrite list_lookup_fmap. destruct (l !! i) as [x|] eqn:Hi.
  - rewrite lookup_seq_lt by (by eapply lookup_lt_Some). cbn. by rewrite (list_lookup_total_correct _ _ _ Hi).
  - apply lookup_ge_None in Hi. by rewrite lookup_seq_ge.
Qed.

#[export] Program Instance words_super : Repr super_t := {|
  sizeof := 8;
  enc v := words [magic v; total_blks v];
  dec_repr l := mk_super (word l 0) (word l 1);
  in_range v := is_u32 (magic v) ∧ is_u32 (total_blks v)
|}.
Next Obligation. done. Qed.
Next Obligation.
  intros [m n] [Hm Hn]. unfold words, word. cbn [fmap list_fmap magic total_blks].
  change (slice (4 * 0) 4 (mjoin [le32 m; le32 n])) with (le32 m). change (slice (4 * 1) 4 (mjoin [le32 m; le32 n])) with (le32 n).
  by rewrite !of_le32_id.
Qed.

Definition inode_words (v : inode_t) : list Z :=
  i_mode v :: i_size v :: fixed 10 (ptrs v) ++ [indirect_ptr v; pads v !!! 0%nat].
Lemma word_words l k v : l !! k = Some v → is_u32 v → word (words l) k = v.
Proof.
  revert k. induction l as [|x l IH]; intros k Hk Hv; [done|].
  change (words (x :: l)) with (le32 x ++ words l). destruct k as [|k]; cbn in Hk.
  - injection Hk as ->. unfold word. change (slice (4 * 0) 4 (le32 v ++ words l)) with (le32 v). by apply of_le32_id.
  - rewrite <- (IH k Hk Hv). unfold word. replace (4 * S k)%nat with (length (le32 x) + 4 * k)%nat by (cbn; lia).
    by rewrite slice_app_r.
Qed.
#[export] Program Instance words_inode : Repr inode_t := {|
  sizeof := 56;
  enc v := words (inode_words v);
  dec_repr l := mk_inode (word l 0) (word l 1) ((λ i, word l (2 + i)) <$> seq 0 10) (word l 12) [word l 13];
  in_range v := is_u32 (i_mode v) ∧ is_u32 (i_size v) ∧ Forall is_u32 (ptrs v) ∧ length (ptrs v) = 10%nat ∧
    is_u32 (indirect_ptr v) ∧ is_u32 (pads v !!! 0%nat) ∧ length (pads v) = 1%nat
|}.
Next Obligation. done. Qed.
Next Obligation.
  intros [m n p ind pd] (Hm & Hn & Hp & Hlp & Hind & Hpd & Hlpd). cbn [i_mode i_size ptrs indirect_ptr pads] in *.
  unfold inode_words. cbn [i_mode i_size ptrs indirect_ptr pads]. rewrite (fixed_id 10 p Hlp).
  destruct pd as [|q [|? ?]]; try discriminate Hlpd. cbn in Hpd.
  change ([q] !!! 0%nat) with q. set (l := m :: n :: p ++ [ind; q]).
  assert (Hl : ∀ i, (i < 2)%nat → l !! (12 + i)%nat = [ind; q] !! i).
  { intros i Hi. change ((p ++ [ind; q]) !! (10 + i)%nat = [ind; q] !! i). rewrite lookup_app_r by lia. f_equal. lia. }
  rewrite (word_words l 0 m), (word_words l 1 n), (word_words l 12 ind), (word_words l 13 q) by
    (done || exact (Hl 0%nat ltac:(lia)) || exact (Hl 1%nat ltac:(lia))).
  f_equal. apply list_eq. intros i. rewrite list_lookup_fmap. destruct (p !! i) as [x|] eqn:Hi.
  - assert (Hi10 : (i < 10)%nat) by (rewrite <- Hlp; by eapply lookup_lt_Some). rewrite lookup_seq_lt by done. cbn. f_equal.
    apply (word_words l (2 + i) x); [|by rewrite Forall_lookup in Hp; eauto].
    change ((p ++ [ind; q]) !! i = Some x). by apply lookup_app_l_Some.
  - apply lookup_ge_None in Hi. by rewrite lookup_seq_ge by lia.
Qed.

#[export] Program Instance bytes_dirent : Repr dirent_t := {|
  sizeof := 32;
  enc v := wrap8 (valid v) :: wrap8 (inum v) :: (wrap8 <$> fixed 30 (de_name v));
  dec_repr l := mk_dirent (u8 l 0) (u8 l 1) (skipn 2 l);
  in_range v := is_u8 (valid v) ∧ is_u8 (inum v) ∧ bytes (de_name v) ∧ length (de_name v) = 30%nat
|}.
Next Obligation. done. Qed.
Next Obligation.
  intros [v n l] (Hv & Hn & Hb & Hl). cbn [valid inum de_name] in *. rewrite (fixed_id 30 l Hl).
  unfold u8. cbn. rewrite !wrap8_id by done. f_equal. rewrite <- (list_fmap_id l) at 2. apply list_fmap_ext. intros i x Hi.
  apply wrap8_id. unfold bytes in Hb. rewrite Forall_lookup in Hb. eauto.
Qed.

#[export] Program Instance demo_fs : FsHeader := {|
  NUM_PTRS := 10; INODEARR_BLOCK_START := 2; DATA_BLOCK_START := 12; DIRENT_NAME := 30;
  MODE_D := 1; MODE_F := 2; MODE_ALL := 60
|}.
Solve All Obligations with first [done | lia | cbn; lia | cbn; intros; tauto].

Lemma mkrwfs_consistent_witness :
  file_bytes (mkrwfs rwfs0) file1_ino = chars "hello world" ∧ length (chars "hello world") = 11%nat.
Proof.
  pose proof (mkrwfs_consistent (H := demo_fs)) as Hw. cbv zeta in Hw.
  destruct Hw as (_ & _ & _ & _ & _ & _ & Hf & _). split; [exact Hf|reflexivity].
Defined.
