(* ===== verification/SysProcThms.v ===== *)
(** * The process server keeps its contract with the shell

    [KernelLog] is a kernel that logs what the server has it do to processes and
    send to the shell.  [turn_refines]: one turn of the server's loop logs what one
    step of an abstract service does, which remembers the process the shell waits
    for.  [spawn_loads]: the program a request names is found in the image mkfs
    wrote, and its file is loaded for the new process. *)

From Stdlib Require Import Ascii String.
From S2P Require Import Prelude Bytes Ipc NetDev SysNet Servers Files Mkfs MkfsThms DirThms SysProc.

(** ** Computations that stay within a relation *)

Section keeps.
Context {T : Type} (R : T → T → Prop) `{!PreOrder R}.

Definition Keeps {A} (m : M T A) : Prop := ∀ s, wp anyfault m (λ _ s', R s s') s.

Lemma stays_ret {A} (a : A) : Keeps (mret a).
Proof. intros s. apply wp_ret. reflexivity. Qed.
Lemma stays_get {A} (f : T → A) : Keeps (getM f).
Proof. intros s. apply wp_get. reflexivity. Qed.
Lemma stays_fail {A} (e : fault) : Keeps (@fail T A e).
Proof. intros s. by apply wp_fail. Qed.
Lemma stays_mod f : (∀ s, R s (f s)) → Keeps (modM f).
Proof. intros Hf s. by apply wp_mod. Qed.
Lemma stays_bind {A B} (m : M T A) (f : A → M T B) : Keeps m → (∀ a, Keeps (f a)) → Keeps (m ≫= f).
Proof.
  intros Hm Hf s. apply wp_bind. eapply wp_mono; [|apply Hm]. intros a s1 H1.
  eapply wp_mono; [|apply Hf]. intros b s2 H2. by transitivity s1.
Qed.
Lemma stays_if {A} (b : bool) (m1 m2 : M T A) : Keeps m1 → Keeps m2 → Keeps (if b then m1 else m2).
Proof. by destruct b. Qed.
End keeps.

Create HintDb keeps.
#[export] Hint Resolve stays_ret stays_get stays_fail stays_bind stays_if : keeps.
Ltac keeps := repeat first [ solve [eauto with keeps typeclass_instances] | apply stays_bind; [apply _| |intros ?]
                           | apply stays_if ].

(** ** What the server did

    The calls of the kernel that have an effect outside, in order: a process is
    allocated, a program is loaded for it with its arguments, it is made ready or
    freed, the server waits for a message, or sends the shell one. *)
Record program := Prog { g_pid : Z; g_argc : Z; g_argv : list Z; g_data : list Z }.
Inductive event :=
  | Made (pid : Z)
  | Loaded (p : program)
  | Ready (pid : Z)
  | Freed (pid : Z)
  | Heard (from : Z)
  | Told (m : list Z).

(** A kernel that keeps such a log; [load p] is the state with a program in
    memory. *)
Class KernelLog (S : Type) `{ProcKernel S} := {
  log : S → list event;
  load : program → S → S;
  alloc_logs pid e e' : proc_alloc e = Ok (pid, e') → log e' = log e ++ [Made pid];
  free_logs pid e e' : proc_free pid e = Ok (tt, e') → log e' = log e ++ [Freed pid];
  ready_logs pid e e' : proc_set_ready pid e = Ok (tt, e') → log e' = log e ++ [Ready pid];
  recv_logs from x e e' : sys_recv from e = Ok (x, e') → log e' = log e ++ [Heard from];
  read_quiet b x e e' : disk_read b e = Ok (x, e') → log e' = log e;
  load_logs p e : log (load p e) = log e ++ [Loaded p];
}.

(** A message to the shell is logged; the file server is not. *)
Class ShellLaws (S : Type) `{Sys S} `{Post S} `{KernelLog S} := {
  post_logs m e e' : sys_post GPID_SHELL m e = Ok (tt, e') → log e' = log e ++ [Told m];
  call_quiet pid r m e e' : sys_call pid r e = Ok (m, e') → log e' = log e;
}.

Definition logged {S} `{KernelLog S} (s : psrv S) : list event := log (c_env (p_cl s)).

(** The server's own state is kept and nothing is logged. *)
Definition kept {S} (s s' : psrv S) : Prop :=
  p_buf s' = p_buf s ∧ app_ino s' = app_ino s ∧ app_pid s' = app_pid s ∧
  shell_waiting s' = shell_waiting s.
Definition quiet {S} `{KernelLog S} (s s' : psrv S) : Prop := logged s' = logged s ∧ kept s s'.

(** The loader's part: when the function it is given only reads, it loads one
    program, for the process and with the arguments it is given. *)
Definition loads_one {S} `{KernelLog S}
    (elf_load : Z → (Z → list Z → M (psrv S) (list Z)) → Z → list Z → M (psrv S) unit) : Prop :=
  ∀ pid rd argc argv s, (∀ off dst, Keeps quiet (rd off dst)) →
    wp anyfault (elf_load pid rd argc argv) (λ _ s', kept s s' ∧
      ∃ data, logged s' = logged s ++ [Loaded (Prog pid argc argv data)]) s.

(** The process the shell waits for. *)
Definition waits {S} (s : psrv S) : option Z := if shell_waiting s then Some (app_pid s) else None.

(** ** The abstract service

    Its state is the process the shell waits for.  [b] is the request of
    [sender], [found] says whether the program it names exists; the last
    argument is what the service does. *)
Inductive proc_spec (found : bool) (b : list Z) (sender : Z) : option Z → option Z → list event → Prop :=
  | spec_foreground w pid c data :
      get32 b preq.type = PROC_SPAWN → found = true → last_arg b = Ok c → c ≠ 38 →
      proc_spec found b sender w (Some pid)
        [Made pid; Loaded (Prog pid (get32 b preq.argc) (drop preq.argv b) data); Ready pid; Told (le32 CMD_OK)]
  | spec_background w pid data :
      get32 b preq.type = PROC_SPAWN → found = true → last_arg b = Ok 38 →
      proc_spec found b sender w None
        [Made pid; Loaded (Prog pid (get32 b preq.argc - 1) (drop preq.argv b) data); Ready pid; Told (le32 CMD_OK)]
  | spec_not_found w :
      get32 b preq.type = PROC_SPAWN → found = false →
      proc_spec found b sender w None [Told (le32 CMD_ERROR)]
  | spec_exit_waited :
      get32 b preq.type = PROC_EXIT →
      proc_spec found b sender (Some sender) (Some sender) [Freed sender; Told (take preq.reply_size b)]
  | spec_exit_other w :
      get32 b preq.type = PROC_EXIT → w ≠ Some sender → proc_spec found b sender w w [Freed sender]
  | spec_killall w :
      get32 b preq.type = PROC_KILLALL → proc_spec found b sender w w [Freed GPID_ALL].

Section refinement.
Context {S : Type} `{ShellLaws S} (NINODES : Z) (stack : list Z).
Implicit Types s : psrv S.

Definition quiet_client (c c' : client S) : Prop := log (c_env c') = log (c_env c).

#[export] Instance kept_preorder : PreOrder (@kept S).
Proof. split; [by intros s|]. intros s1 s2 s3 (? & ? & ? & ?) (? & ? & ? & ?). unfold kept. by split_and!; etrans. Qed.
#[export] Instance quiet_preorder : PreOrder (@quiet S _ _).
Proof.
  split; [by intros s|]. intros s1 s2 s3 [? ?] [? ?]. split; [by etrans|by transitivity s2].
Qed.
#[local] Instance quiet_client_preorder : PreOrder quiet_client.
Proof. split; [by intros c|]. intros c1 c2 c3. unfold quiet_client. congruence. Qed.

Lemma file_request_quiet r : Keeps quiet_client (file_request r).
Proof.
  intros c. apply wp_any. intros [] c' E. unfold file_request in E.
  destruct (sys_call _ _ _) as [[m e]|] eqn:Ec; [|done]. injection E as <-.
  unfold quiet_client. cbn. by eapply call_quiet.
Qed.
Lemma lift_res_quiet {A} (r : res A) : Keeps quiet_client (lift_res r).
Proof. intros c. unfold wp, lift_res. by destruct r. Qed.
#[local] Hint Resolve file_request_quiet lift_res_quiet : keeps.

Lemma file_read_quiet ino off len dst : Keeps quiet_client (file_read stack ino off len dst).
Proof. unfold file_read, ASSERT, check, reply_field. keeps. Qed.
#[local] Hint Resolve file_read_quiet : keeps.

Lemma dir_lookup_quiet ino name : Keeps quiet_client (dir_lookup NINODES stack ino name).
Proof. unfold dir_lookup, check, reply_field. keeps. Qed.

Lemma in_client_quiet {A} (m : M (client S) A) : Keeps quiet_client m → Keeps quiet (in_client m).
Proof.
  intros Hm s. specialize (Hm (p_cl s)). unfold wp, in_client in *.
  destruct (m _) as [[a c]|]; [|done]. by split.
Qed.
Lemma lift_quiet {A} (r : res A) : Keeps quiet (lift r).
Proof. intros s. unfold wp, lift. by destruct r. Qed.
#[local] Hint Resolve dir_lookup_quiet in_client_quiet lift_quiet : keeps.

Lemma app_read_quiet off dst : Keeps quiet (app_read stack off dst).
Proof. unfold app_read. keeps. Qed.

Lemma sys_proc_read_quiet off dst : Keeps quiet (sys_proc_read off dst).
Proof.
  unfold sys_proc_read. apply stays_bind; [apply _|keeps|]. intros base. apply in_client_quiet. intros c. unfold wp.
  destruct (disk_read _ _) as [[a e]|] eqn:E; [|done]. unfold quiet_client. cbn. by eapply read_quiet.
Qed.

(** A call of the kernel that is logged. *)
Definition adds (evs : list event) s s' : Prop := logged s' = logged s ++ evs ∧ kept s s'.

Lemma wp_quiet E {A} (m : M (psrv S) A) Q s :
  Keeps quiet m → wp E m (λ a s', quiet s s' → Q a s') s → wp E m Q s.
Proof. intros Hm. specialize (Hm s). unfold wp in *. destruct (m s) as [[]|]; auto. Qed.
Lemma wp_adds E {A} (m : M S A) (f : A → list event) Q s :
  (∀ a e e', m e = Ok (a, e') → log e' = log e ++ f a) →
  wp E (kernel m) (λ a s', adds (f a) s s' → Q a s') s → wp E (kernel m) Q s.
Proof.
  intros Hm Hw. unfold wp, kernel, in_client in *. destruct (m _) as [[a e]|] eqn:Em; [|done].
  apply Hw. split; [by eapply Hm|done].
Qed.
Lemma adds_trans evs evs' s1 s2 s3 : adds evs s1 s2 → adds evs' s2 s3 → adds (evs ++ evs') s1 s3.
Proof. intros [E1 K1] [E2 K2]. split; [by rewrite E2, E1, app_assoc|by etrans]. Qed.
Lemma quiet_adds evs s1 s2 s3 : quiet s1 s2 → adds evs s2 s3 → adds evs s1 s3.
Proof. intros [E1 K1] [E2 K2]. split; [by rewrite E2, E1|by etrans]. Qed.

Lemma any_kernel {A} (m : M S A) (Q : A → psrv S → Prop) s :
  (∀ a s', Q a s') → wp anyfault (kernel m) Q s.
Proof. intros HQ. unfold wp. by destruct (kernel m s) as [[]|]. Qed.
Lemma any_run {A} (m : M (psrv S) A) (Q : A → psrv S → Prop) s : (∀ a s', Q a s') → wp anyfault m Q s.
Proof. intros HQ. unfold wp. by destruct (m s) as [[]|]. Qed.

Context (elf_load : Z → (Z → list Z → M (psrv S) (list Z)) → Z → list Z → M (psrv S) unit).

(** The search keeps all but [app_ino]. *)
Definition searched s s' : Prop :=
  logged s' = logged s ∧ p_buf s' = p_buf s ∧ app_pid s' = app_pid s ∧ shell_waiting s' = shell_waiting s.
#[local] Instance searched_preorder : PreOrder searched.
Proof.
  split; [by intros s|]. intros s1 s2 s3 (? & ? & ? & ?) (? & ? & ? & ?). unfold searched. by split_and!; etrans.
Qed.
Lemma quiet_searched {A} (m : M (psrv S) A) : Keeps quiet m → Keeps searched m.
Proof. intros Hm s. eapply wp_mono; [|apply Hm]. intros a s' (? & ? & ? & ? & ?). by split_and!. Qed.
#[local] Hint Resolve quiet_searched : keeps.

Lemma app_lookup_searched : Keeps searched (app_lookup NINODES stack).
Proof.
  unfold app_lookup. apply stays_bind; [apply _|keeps|]. intros bin. apply stays_bind; [apply _|keeps|]. intros name.
  apply stays_bind; [apply _|keeps|]. intros ino. apply stays_bind; [apply _|by apply stays_mod|]. keeps.
Qed.

(** The arguments passed on: without a final "&". *)
Definition passed (b : list Z) (c : Z) : Z := if c =? 38 then get32 b preq.argc - 1 else get32 b preq.argc.

(** The new process. *)
Definition started (p : program) : list event := [Made (g_pid p); Loaded p; Ready (g_pid p)].

Lemma app_start_spec c s :
  loads_one elf_load → last_arg (p_buf s) = Ok c →
  wp anyfault (app_start stack elf_load) (λ r s', r = CMD_OK ∧ p_buf s' = p_buf s ∧
    shell_waiting s' = shell_waiting s ∧
    ∃ data, logged s' = logged s ++ started (Prog (app_pid s') (passed (p_buf s) c) (drop preq.argv (p_buf s)) data)) s.
Proof.
  intros Hload Hc. unfold app_start. apply wp_bind, wp_bind, wp_get. unfold wp at 1, lift. rewrite Hc.
  apply wp_bind, wp_get. fold (passed (p_buf s) c). apply wp_bind, (wp_adds _ _ (λ pid, [Made pid])); [apply alloc_logs|].
  apply any_kernel. intros pid s1 [L1 (B1 & _ & _ & W1)]. apply wp_bind, wp_mod, wp_bind, wp_get.
  cbn [p_buf set_field]. rewrite B1. apply wp_bind.
  eapply wp_mono; [|apply Hload; intros; apply app_read_quiet].
  intros [] s2 [(B2 & _ & P2 & W2) [data L2]]. cbn [p_buf app_pid shell_waiting set_field] in *.
  apply wp_bind, (wp_adds _ _ (λ _, [Ready pid])); [intros []; apply ready_logs|].
  apply any_kernel. intros [] s3 [L3 (B3 & _ & P3 & W3)]. apply wp_ret.
  split_and!; [done|by rewrite B3, B2|by rewrite W3, W2|]. exists data. rewrite P3, P2, L3, L2.
  unfold logged at 1. cbn [p_cl set_field]. fold (logged s1). rewrite L1. by rewrite <-!app_assoc.
Qed.

Lemma reply_shell_spec s E :
  wp E (kernel (sys_post GPID_SHELL (take preq.reply_size (p_buf s)))) (λ _ _, True) s →
  wp E reply_shell (λ _ s', adds [Told (take preq.reply_size (p_buf s))] s s') s.
Proof.
  intros Hw. unfold reply_shell. apply wp_bind, wp_get.
  apply (wp_adds _ _ (λ _, [Told (take preq.reply_size (p_buf s))])); [intros []; apply post_logs|].
  eapply wp_mono; [|exact Hw]. by intros [] s'.
Qed.

Lemma last_arg_put32 b v : last_arg (put32 preq.type v b) = last_arg b.
Proof.
  unfold last_arg. rewrite get32_put32_ne by (unfold preq.type, preq.argc; lia).
  unfold put32, put_bytes. rewrite list_lookup_inserts_ge; [done|]. cbn. unfold preq.argv, preq.type. lia.
Qed.
Lemma take_put32 b v : (8 ≤ length b)%nat → take preq.reply_size (put32 preq.type v b) = le32 v.
Proof.
  intros Hl. pose proof (slice_put_bytes 0 4 (le32 v) b ltac:(cbn; lia) ltac:(cbn; lia)) as E.
  unfold slice in E. rewrite drop_0 in E. exact E.
Qed.

(** The end of [on_spawn]: [st] is sent to the shell and decides whether it waits. *)
Lemma on_spawn_ends E (Q : psrv S → Prop) c s :
  (8 ≤ length (p_buf s))%nat → last_arg (p_buf s) = Ok c →
  (∀ m s', wp E (kernel (sys_post GPID_SHELL m)) (λ _ _, True) s') →
  wp E (app_spawn NINODES stack elf_load) (λ st s1, p_buf s1 = p_buf s ∧ ∀ s',
    logged s' = logged s1 ++ [Told (le32 st)] → app_ino s' = app_ino s1 → app_pid s' = app_pid s1 →
    waits s' = (if negb (c =? 38) && (st =? CMD_OK) then Some (app_pid s1) else None) →
    length (p_buf s') = length (p_buf s) → Q s') s →
  wp E (on_spawn NINODES stack elf_load) (λ _ s', Q s') s.
Proof.
  intros Hl Hc Hp Hs. unfold on_spawn. apply wp_bind. eapply wp_mono; [|exact Hs].
  intros st s1 [Hb HQ]. apply wp_bind, wp_mod, wp_bind, wp_bind, wp_get. unfold wp at 1, lift.
  cbn [p_buf set_field]. rewrite last_arg_put32, Hb, Hc. apply wp_bind, wp_mod.
  eapply wp_mono; [|apply reply_shell_spec, Hp]. cbn [p_buf set_field].
  intros [] s' [Hlog (Hb' & Hi & Hpid & Hw)]. cbn [p_buf app_ino app_pid shell_waiting set_field] in *.
  rewrite Hb, take_put32 in Hlog by done.
  apply HQ; [exact Hlog|done|done|unfold waits; by rewrite Hw, Hpid|by rewrite Hb', Hb, length_put32].
Qed.

(** A step from [s]. *)
Definition Stepped (found : bool) (sender : Z) s s' : Prop :=
  length (p_buf s') = length (p_buf s) ∧
  ∃ evs, logged s' = logged s ++ evs ∧ proc_spec found (p_buf s) sender (waits s) (waits s') evs.

Lemma on_spawn_spec sender s :
  loads_one elf_load → (8 ≤ length (p_buf s))%nat → get32 (p_buf s) preq.type = PROC_SPAWN →
  wp anyfault (on_spawn NINODES stack elf_load) (λ _ s', ∃ ino s2, app_lookup NINODES stack s = Ok (ino, s2) ∧
    Stepped (0 <=? ino) sender s s') s.
Proof.
  intros Hload Hl Ht. destruct (last_arg (p_buf s)) as [c|] eqn:Hc.
  - apply (on_spawn_ends _ _ c); [done|done|intros; by apply any_kernel|].
    unfold app_spawn. apply wp_bind. pose proof (app_lookup_searched s) as Hsr. unfold wp in Hsr |- * at 1.
    destruct (app_lookup NINODES stack s) as [[ino s1]|]; [|done]. destruct Hsr as (L1 & B1 & P1 & W1).
    apply wp_if; intros Hino.
    + apply wp_ret. split; [done|]. intros s' L' _ P' W' Hlen. exists ino, s1. split; [done|]. split; [done|].
      rewrite andb_false_r in W'. rewrite W', L', L1. eexists. split; [done|]. apply spec_not_found; [done|lia].
    + eapply wp_mono; [|apply (app_start_spec c); [done|by rewrite B1]].
      intros r s2 (-> & B2 & _ & data & L2). rewrite B1 in *. split; [done|]. intros s' L' _ P' W' Hlen.
      exists ino, s1. split; [done|]. split; [done|]. rewrite L', L2, L1, <-app_assoc. eexists. split; [done|].
      rewrite W', andb_true_r. unfold passed.
      destruct (Z.eqb_spec c 38) as [->|Hne]; [apply spec_background|eapply spec_foreground]; try done; lia.
  - unfold on_spawn. apply wp_bind, wp_mono with (λ _ s1, p_buf s1 = p_buf s).
    2: { unfold app_spawn, app_start. apply wp_bind. eapply wp_mono; [|apply app_lookup_searched].
         intros ino s1 (_ & B1 & _ & _). apply wp_if; intros _; [apply wp_ret; exact B1|].
         apply wp_bind, wp_bind, wp_get. unfold wp, lift. by rewrite B1, Hc. }
    intros r s1 B1. apply wp_bind, wp_mod, wp_bind, wp_bind, wp_get. unfold wp, lift.
    cbn [p_buf set_field]. by rewrite last_arg_put32, B1, Hc.
Qed.

Lemma on_exit_spec found sender s :
  get32 (p_buf s) preq.type = PROC_EXIT →
  wp anyfault (on_exit sender) (λ _ s', Stepped found sender s s') s.
Proof.
  intros Ht. unfold on_exit. apply wp_bind, (wp_adds _ _ (λ _, [Freed sender])); [intros []; apply free_logs|].
  apply any_kernel. intros [] s1 [L1 K1]. pose proof K1 as (B1 & _ & P1 & W1). apply wp_bind, wp_get. unfold id.
  assert (waits s1 = waits s) as Hws by (unfold waits; by rewrite W1, P1).
  assert (if shell_waiting s1 && (app_pid s1 =? sender) then waits s = Some sender else waits s ≠ Some sender) as Hc.
  { rewrite <-Hws. unfold waits. destruct (shell_waiting s1); [|done]. cbn [andb].
    destruct (Z.eqb_spec (app_pid s1) sender) as [->|Hne]; [done|]. by intros [=]. }
  destruct (_ && _).
  - eapply wp_mono; [|apply reply_shell_spec; by apply any_kernel]. intros [] s' [L' (B' & _ & P' & W')].
    split; [by rewrite B', B1|]. exists [Freed sender; Told (take preq.reply_size (p_buf s))].
    split; [by rewrite L', L1, B1, <-app_assoc|].
    assert (waits s' = waits s) as -> by (unfold waits in *; by rewrite W', P'). rewrite Hc. by apply spec_exit_waited.
  - apply wp_ret. split; [by rewrite B1|]. exists [Freed sender]. split; [done|]. rewrite Hws. by apply spec_exit_other.
Qed.

Lemma recv_heard E from s :
  wp E (kernel (sys_recv from)) (λ _ _, True) s →
  wp E (recv from) (λ _ s', logged s' = logged s ++ [Heard from] ∧ waits s' = waits s ∧
    length (p_buf s') = length (p_buf s)) s.
Proof.
  intros Hw. unfold recv. apply wp_bind, (wp_adds _ _ (λ _, [Heard from])); [intros x; apply recv_logs|].
  eapply wp_mono; [|exact Hw]. intros r s1 _ [L1 (B1 & _ & P1 & W1)]. apply wp_bind, wp_mod, wp_ret.
  split; [exact L1|]. split; [unfold waits; cbn [shell_waiting app_pid set_field]; by rewrite W1, P1|].
  cbn [p_buf set_field]. by rewrite length_put_bytes, B1.
Qed.

(** One turn is one step of the service on the message received. *)
Lemma turn_spec s :
  loads_one elf_load → (8 ≤ length (p_buf s))%nat →
  wp anyfault (turn NINODES stack elf_load) (λ _ s', ∃ sender s1 found,
    recv GPID_ALL s = Ok (sender, s1) ∧ logged s1 = logged s ++ [Heard GPID_ALL] ∧ waits s1 = waits s ∧
    (get32 (p_buf s1) preq.type = PROC_SPAWN →
       ∃ ino s2, app_lookup NINODES stack s1 = Ok (ino, s2) ∧ found = (0 <=? ino)) ∧
    Stepped found sender s1 s') s.
Proof.
  intros Hload Hl. unfold turn. apply wp_bind. pose proof (recv_heard anyfault GPID_ALL s ltac:(by apply any_kernel)) as Hr.
  unfold wp in Hr |- * at 1. destruct (recv GPID_ALL s) as [[sender s1]|]; [|done]. destruct Hr as (L1 & W1 & B1).
  apply wp_bind, wp_get.
  apply wp_if; intros Ht1; [|apply wp_if; intros Ht2; [|apply wp_if; intros Ht3; [|done]]].
  - apply Z.eqb_eq in Ht1. eapply wp_mono; [|apply (on_spawn_spec sender); [done|by rewrite B1|done]].
    intros [] s' (ino & s2 & E & Hs). exists sender, s1, (0 <=? ino). split_and!; try done. intros _. by exists ino, s2.
  - apply Z.eqb_eq in Ht2. apply Z.eqb_neq in Ht1. eapply wp_mono; [|by apply (on_exit_spec false sender)].
    intros [] s' Hs. by exists sender, s1, false.
  - apply Z.eqb_eq in Ht3. apply Z.eqb_neq in Ht1.
    apply (wp_adds _ _ (λ _, [Freed GPID_ALL])); [intros []; apply free_logs|].
    apply any_kernel. intros [] s' [L' (B' & _ & P' & W')]. exists sender, s1, false. split_and!; try done.
    split; [by rewrite B'|]. exists [Freed GPID_ALL]. split; [done|].
    assert (waits s' = waits s1) as -> by (unfold waits; by rewrite W', P'). by apply spec_killall.
Qed.
End refinement.

(** C20: A turn of the process server's loop refines an abstract service whose only
    state is the process the shell waits for.  For every message and every
    outcome of the search for the program: a spawn of a program that is found
    makes a process, loads the program for it with the request's arguments, less
    a final "&", makes it ready, answers CMD_OK, and makes the shell wait for
    that process unless the last argument is "&"; a spawn of one that is not
    found makes nothing, is answered CMD_ERROR and leaves nothing to wait for; an
    exit frees the sender and is passed on to the shell exactly when the shell
    waits for it; killing all processes tells the shell nothing.  Nothing else is
    done to processes or sent to the shell, whatever the loader and the file
    server do. *)
Theorem turn_refines {S} `{ShellLaws S} NINODES stack elf_load (s s' : psrv S) :
  loads_one elf_load → (8 ≤ length (p_buf s))%nat → turn NINODES stack elf_load s = Ok (tt, s') →
  ∃ sender s1 found evs,
    recv GPID_ALL s = Ok (sender, s1) ∧
    (get32 (p_buf s1) preq.type = PROC_SPAWN →
       ∃ ino s2, app_lookup NINODES stack s1 = Ok (ino, s2) ∧ found = (0 <=? ino)) ∧
    logged s' = logged s ++ Heard GPID_ALL :: evs ∧
    proc_spec found (p_buf s1) sender (waits s) (waits s') evs.
Proof.
  intros Hq Hl E. pose proof (proj1 (wp_any _ _ _) (turn_spec NINODES stack elf_load s Hq Hl) _ _ E)
    as (sender & s1 & found & Er & L1 & W1 & Hf & _ & evs & L' & Hs).
  exists sender, s1, found, evs. rewrite <-W1, L', L1, <-app_assoc. done.
Qed.

(** ** Spawning a program of the image *)

(** The kernel keeps running: these calls return, and allocating a process,
    loading a program or making it ready leaves the disk image alone. *)
Class ProcLive (S : Type) `{FileServer S} `{Post S} `{KernelLog S} := {
  alloc_live e w : image e w → wp nofault proc_alloc (λ _ e', image e' w) e;
  ready_live e pid w : image e w → wp nofault (proc_set_ready pid) (λ _ e', image e' w) e;
  post_live e m : wp nofault (sys_post GPID_SHELL m) (λ _ _, True) e;
  load_live e p w : image e w → image (load p e) w;
}.

(** [rd] reads the file [data] while [I] holds, and keeps [I]. *)
Definition reads {T} (rd : Z → list Z → M T (list Z)) (data : list Z) (I : T → Prop) : Prop :=
  ∀ o dst s, I s → 0 ≤ o → o * BLOCK_SIZE < Z.of_nat (length data) → length dst = 512%nat → is_i32 o →
    wp nofault (rd o dst) (λ block s', I s' ∧
      take (length data - Z.to_nat (o * BLOCK_SIZE)) block = slice (Z.to_nat (o * BLOCK_SIZE)) 512 data) s.

Definition with_env {S} (f : S → S) (s : psrv S) : psrv S := s <| p_cl ::= λ c, c <| c_env ::= f |> |>.

(** What a loader promises: given a function that reads an executable file, it
    returns, having loaded that file for the process with the arguments, and
    done nothing else but call that function and the kernel. *)
Definition loader {S} `{KernelLog S} (is_elf : list Z → Prop)
    (elf_load : Z → (Z → list Z → M (psrv S) (list Z)) → Z → list Z → M (psrv S) unit) : Prop :=
  ∀ pid rd argc argv data (I : psrv S → Prop) s,
    is_elf data → reads rd data I → I s →
    wp nofault (elf_load pid rd argc argv) (λ _ s', ∃ s1, I s1 ∧
      s' = with_env (load (Prog pid argc argv data)) s1) s.

Lemma elf_names_entries entries : elf_names entries = elf_name ∘ fst <$> elf_entries entries.
Proof.
  unfold elf_names, elf_entries. induction entries as [|[d data] l IH]; [done|].
  cbn [fmap list_fmap]. rewrite !filter_cons. cbn [fst].
  case_decide; [|done]. cbn [fmap list_fmap]. f_equal. exact IH.
Qed.

Lemma wp_keeps {T A} (R : T → T → Prop) (m : M T A) Q s :
  Keeps R m → wp nofault m Q s → wp nofault m (λ a s', Q a s' ∧ R s s') s.
Proof. intros Hm. specialize (Hm s). unfold wp in *. by destruct (m s) as [[]|]. Qed.

Section spawn.
Context {S : Type} `{ShellLaws S} `{!FileServer S} `{!ProcLive S} (NINODES : Z) (stack : list Z).
Context (is_elf : list Z → Prop).
Context (elf_load : Z → (Z → list Z → M (psrv S) (list Z)) → Z → list Z → M (psrv S) unit).
Hypothesis Hstack : (528 ≤ length stack)%nat.
Hypothesis Hload : loader is_elf elf_load.

Lemma wp_in_client {A} (m : M (client S) A) (Q : A → psrv S → Prop) s E :
  wp E m (λ a c, Q a (s <| p_cl := c |>)) (p_cl s) → wp E (in_client m) Q s.
Proof. unfold wp, in_client. by destruct (m _) as [[]|]. Qed.
Lemma wp_kernel {A} (m : M S A) (Q : A → psrv S → Prop) s E :
  wp E m (λ a e, Q a (s <| p_cl ::= λ c, c <| c_env := e |> |>)) (c_env (p_cl s)) → wp E (kernel m) Q s.
Proof. intros Hm. apply wp_in_client. unfold wp in *. by destruct (m _) as [[]|]. Qed.

(** The server between two calls: the image is served, and its state is this. *)
Definition at_rest (w : list (Z * Z * list Z)) (s0 : psrv S) (s : psrv S) : Prop :=
  ready (p_cl s) w ∧ quiet s0 s.

Lemma app_read_reads w s0 ino data :
  is_i32 ino → app_ino s0 = ino → stored w ino data → reads (app_read stack) data (at_rest w s0).
Proof.
  intros Hi Ha Hst o dst s [Hr Hq] Ho Hlt Hd Ho32. destruct (Hst o Ho Hlt) as (block & Hb & Hl & Ht).
  assert (wp nofault (app_read stack o dst) (λ a s', ready (p_cl s') w ∧ a = block) s) as Hw.
  { unfold app_read. apply wp_bind, wp_get, wp_bind, wp_in_client. destruct Hq as (_ & _ & Hino & _).
    rewrite Hino, Ha.
    destruct (file_read_block stack Hstack ino o block dst w (p_cl s)) as (r & c' & E & Hc'); [done..|].
    unfold wp at 1. rewrite E. by apply wp_ret. }
  eapply wp_mono; [|apply wp_keeps; [apply app_read_quiet|exact Hw]].
  intros a s' [[Hr' ->] Hq']. split; [|done]. split; [done|]. by etrans.
Qed.

Lemma app_start_loads w data c s :
  ready (p_cl s) w → last_arg (p_buf s) = Ok c → is_i32 (app_ino s) → stored w (app_ino s) data → is_elf data →
  wp nofault (app_start stack elf_load) (λ r s', r = CMD_OK ∧ p_buf s' = p_buf s ∧ app_ino s' = app_ino s ∧
    logged s' = logged s ++ started (Prog (app_pid s') (passed (p_buf s) c) (drop preq.argv (p_buf s)) data)) s.
Proof.
  intros Hr Hc Hi Hst Helf. unfold app_start. apply wp_bind, wp_bind, wp_get. unfold wp at 1, lift. rewrite Hc.
  apply wp_bind, wp_get. fold (passed (p_buf s) c). apply wp_bind.
  apply (wp_adds _ _ (λ pid, [Made pid])); [apply alloc_logs|].
  apply wp_kernel. eapply wp_mono; [|apply (alloc_live (c_env (p_cl s)) w), Hr].
  intros pid e He Ha. match type of Ha with adds _ _ ?x => set (s1 := x) in * end.
  destruct Ha as [L1 (B1 & I1 & _ & _)]. apply wp_bind, wp_mod, wp_bind, wp_get. cbn [p_buf set_field]. rewrite B1.
  match goal with |- wp _ _ _ ?x => set (s1' := x) end.
  assert (at_rest w s1' s1') as Hrest by (split; [split; [exact He|apply Hr]|reflexivity]).
  assert (reads (app_read stack) data (at_rest w s1')) as Hreads.
  { apply (app_read_reads w s1' (app_ino s)); [done|exact I1|done]. }
  apply wp_bind. eapply wp_mono; [|by apply (Hload pid (app_read stack) _ _ data (at_rest w s1') s1')].
  intros [] s2' (s2 & [[Him Hcb] [L2 (B2 & I2 & P2 & _)]] & ->).
  apply wp_bind, (wp_adds _ _ (λ _, [Ready pid])); [intros []; apply ready_logs|].
  apply wp_kernel. eapply wp_mono; [|apply (ready_live _ _ w), (load_live _ _ w), Him].
  intros [] e3 _ [L3 (B3 & I3 & P3 & _)]. apply wp_ret.
  split_and!; [done|exact (eq_trans B2 B1)|exact (eq_trans I2 I1)|].
  match goal with |- context [app_pid ?x] => change (app_pid x) with (app_pid s2) end.
  rewrite P2, L3. cbn [s1' app_pid set_field].
  unfold logged at 1. cbn [with_env p_cl c_env set_field]. rewrite load_logs. fold (logged s2). rewrite L2.
  change (logged s1') with (logged s1). rewrite L1. by rewrite <-!app_assoc.
Qed.

Lemma app_spawn_program entries beyond buf nb img name c s :
  searchable entries beyond buf img name → length buf = (nb * 512)%nat → (0 < nb)%nat →
  ready (p_cl s) (writes img) → BIN_DIR_INODE < NINODES → cstr (drop preq.argv (p_buf s)) = Ok name →
  last_arg (p_buf s) = Ok c →
  (∀ k d data, elf_entries entries !! k = Some (d, data) → elf_name d = name → is_elf data →
    wp nofault (app_spawn NINODES stack elf_load) (λ r s', r = CMD_OK ∧ p_buf s' = p_buf s ∧
      app_ino s' = BIN_DIR_INODE + 1 + Z.of_nat k ∧
      logged s' = logged s ++ started (Prog (app_pid s') (passed (p_buf s) c) (drop preq.argv (p_buf s)) data)) s) ∧
  (name ∉ elf_names entries →
    wp nofault (app_spawn NINODES stack elf_load) (λ r s', r = CMD_ERROR ∧ p_buf s' = p_buf s ∧
      app_pid s' = app_pid s ∧ logged s' = logged s) s).
Proof.
  intros Hs Hnb Hpos Hr Hn Hname Hc.
  pose proof (make_fs_stored _ _ _ _ _ (se_image _ _ _ _ _ Hs) Hnb Hpos) as [_ Hst].
  destruct (dir_lookup_bin stack Hstack NINODES _ _ _ _ _ _ (se_image _ _ _ _ _ Hs) Hnb Hpos Hr ltac:(unfold BIN_DIR_INODE in Hn; cbn in Hn; lia))
    as (c1 & E1 & Hr1).
  destruct (bin_dir_lookup stack Hstack NINODES _ _ _ _ _ _ Hs Hr1 Hn) as (ino & c2 & E2 & Hr2 & Hin & Hout).
  assert (∀ Q, wp nofault (if ino <? 0 then mret CMD_ERROR else app_start stack elf_load) Q
                 (s <| p_cl := c2 |> <| app_ino := ino |>) → wp nofault (app_spawn NINODES stack elf_load) Q s) as Hgo.
  { intros Q HQ. unfold app_spawn, app_lookup. apply wp_bind, wp_bind, wp_in_client. unfold wp at 1. rewrite E1.
    apply wp_bind, wp_bind, wp_get. unfold wp at 1, lift. cbn [p_buf set_field]. rewrite Hname.
    apply wp_bind, wp_in_client. cbn [p_cl set_field]. unfold wp at 1. rewrite E2.
    apply wp_bind, wp_mod, wp_ret. exact HQ. }
  assert (logged (s <| p_cl := c2 |> <| app_ino := ino |>) = logged s) as Hlog.
  { pose proof (dir_lookup_quiet NINODES stack 0 (chars "bin/") (p_cl s)) as H1'. unfold wp in H1'. rewrite E1 in H1'.
    pose proof (dir_lookup_quiet NINODES stack BIN_DIR_INODE name c1) as H2'. unfold wp in H2'. rewrite E2 in H2'.
    unfold logged. cbn [p_cl set_field]. by rewrite H2', H1'. }
  split.
  - intros k d data Hk Hd Helf. apply Hgo.
    assert (elf_names entries !! k = Some name) as Hk' by (by rewrite elf_names_entries, list_lookup_fmap, Hk, <-Hd).
    specialize (Hin k Hk') as ->. rewrite (proj2 (Z.ltb_ge _ _)) by (unfold BIN_DIR_INODE; lia).
    eapply wp_mono; [|eapply (app_start_loads (writes img) data c)]; [| | | | |done]; cbn [p_cl p_buf app_ino set_field];
      [|done|done| |by eapply Hst].
    + intros r s' (-> & Hb & Hi & Hl'). cbn [p_buf app_ino set_field] in *. split_and!; try done. by rewrite Hl', Hlog.
    + pose proof (make_fs_bin _ _ _ _ (se_image _ _ _ _ _ Hs) (se_beyond _ _ _ _ _ Hs)) as (_ & _ & Hlen & _).
      apply bin_tokens_ok in Hlen as [_ Hlen]; [|apply (se_dir _ _ _ _ _ Hs)].
      apply lookup_lt_Some in Hk'. unfold is_i32, BIN_DIR_INODE. cbn [length contents]. lia.
  - intros Hni. apply Hgo. rewrite (Hout Hni). by apply wp_ret.
Qed.
End spawn.

Lemma spawn_run {T} (m : M T unit) (Q : T → Prop) s :
  wp nofault m (λ _ s', Q s') s → ∃ s', m s = Ok (tt, s') ∧ Q s'.
Proof. by intros ([] & s' & ?)%wp_ok; exists s'. Qed.

(** C15: From the disk image to a running program.  The image is the one mkfs made
    of a directory of files, the file server holds it, and the shell asks to spawn
    [name], a name [searchable] allows.  If [name] is the [k]-th application, the
    server returns, and all it did is: it made one process, loaded for that process
    exactly the file mkfs was given for that application, with the arguments of the
    request and their number (one less for a final "&"), made the process ready and
    answered the shell CMD_OK; it waits for that process unless the last argument is
    "&".  If there is no such application, all it did is answer the shell CMD_ERROR,
    and it waits for nothing. *)
Theorem spawn_loads {S} `{ShellLaws S} `{!FileServer S} `{!ProcLive S} NINODES stack is_elf elf_load
    entries beyond buf nb img name c (s : psrv S) :
  (528 ≤ length stack)%nat → loader is_elf elf_load → searchable entries beyond buf img name →
  length buf = (nb * 512)%nat → (0 < nb)%nat → BIN_DIR_INODE < NINODES →
  ready (p_cl s) (writes img) → (8 ≤ length (p_buf s))%nat →
  cstr (drop preq.argv (p_buf s)) = Ok name → last_arg (p_buf s) = Ok c →
  (∀ k d data, elf_entries entries !! k = Some (d, data) → elf_name d = name → is_elf data →
    ∃ s', on_spawn NINODES stack elf_load s = Ok (tt, s') ∧ ∃ pid, app_ino s' = BIN_DIR_INODE + 1 + Z.of_nat k ∧
      logged s' = logged s ++
        [Made pid;
         Loaded (Prog pid (if c =? 38 then get32 (p_buf s) preq.argc - 1 else get32 (p_buf s) preq.argc)
                      (drop preq.argv (p_buf s)) data);
         Ready pid; Told (le32 CMD_OK)] ∧
      waits s' = if c =? 38 then None else Some pid) ∧
  (name ∉ elf_names entries →
    ∃ s', on_spawn NINODES stack elf_load s = Ok (tt, s') ∧ app_pid s' = app_pid s ∧
      logged s' = logged s ++ [Told (le32 CMD_ERROR)] ∧ waits s' = None).
Proof.
  intros Hst Hl Hs Hnb Hpos Hn Hr Hb Hname Hc.
  destruct (app_spawn_program NINODES stack is_elf elf_load Hst Hl _ _ _ _ _ _ _ _ Hs Hnb Hpos Hr Hn Hname Hc)
    as [Hfound Hmiss].
  assert (∀ m s', wp nofault (kernel (sys_post GPID_SHELL m)) (λ _ (_ : psrv S), True) s') as Hpost
    by (intros m s'; apply wp_kernel; eapply wp_mono; [|apply post_live]; done).
  split.
  - intros k d data Hk Hd Helf. apply (spawn_run _ (λ s', ∃ pid, _)).
    apply (on_spawn_ends NINODES stack elf_load _ _ c); [done..|].
    eapply wp_mono; [|by apply (Hfound k d data)]. intros r s1 (-> & Hb1 & Hi & Hlog). split; [done|].
    intros s' L' I' P' W' _. exists (app_pid s1). rewrite I', L', Hlog, <-app_assoc, W', andb_true_r.
    split; [done|]. split; [done|]. by destruct (c =? 38).
  - intros Hni. apply (spawn_run _ (λ s', _)), (on_spawn_ends NINODES stack elf_load _ _ c); [done..|].
    eapply wp_mono; [|by apply Hmiss]. intros r s1 (-> & Hb1 & Hp1 & Hlog). split; [done|].
    intros s' L' _ P' W' _. by rewrite P', L', Hlog, W', andb_false_r.
Qed.
