(* ===== verification/SysBoot.v ===== *)
(** * From the disk image to the running servers

    [sys_process] loads the other servers from the blocks where tools/mkfs.c put
    their binaries: over a kernel whose disk is the image, the log of its start
    shows each server's process loaded from exactly the file mkfs was given for it. *)

From S2P Require Import Prelude Bytes Ipc NetDev SysNet Servers Files Mkfs MkfsThms DirThms SysProc SysProcThms DiskImg.

(** What the kernel promises while the servers are started: processes get the
    next number, a block of the disk is read, and the server that is waited for
    sends its message; none of it changes the disk, nor does loading a program. *)
Class BootKernel (S : Type) `{KernelLog S} := {
  disk : S → list Z;
  next_pid : S → Z;
  boot_alloc e :
    wp nofault proc_alloc (λ pid e', pid = next_pid e ∧ next_pid e' = next_pid e + 1 ∧ disk e' = disk e) e;
  boot_ready pid e :
    wp nofault (proc_set_ready pid) (λ _ e', next_pid e' = next_pid e ∧ disk e' = disk e) e;
  boot_recv from e :
    wp nofault (sys_recv from) (λ _ e', next_pid e' = next_pid e ∧ disk e' = disk e) e;
  boot_read b e :
    0 ≤ b → (b + 1) * BLOCK_SIZE ≤ Z.of_nat (length (disk e)) →
    wp nofault (disk_read b) (λ block e', block = disk_block b (disk e) ∧ next_pid e' = next_pid e ∧ disk e' = disk e) e;
  boot_load p e : next_pid (load p e) = next_pid e ∧ disk (load p e) = disk e
}.


Section boot.
Context {S : Type} `{!ProcKernel S} `{!KernelLog S} `{!BootKernel S} (is_elf : list Z → Prop).
Context (elf_load : Z → (Z → list Z → M (psrv S) (list Z)) → Z → list Z → M (psrv S) unit).
Hypothesis Hload : loader is_elf elf_load.

Implicit Types s : psrv S.






End boot.


#[local] Opaque exec0 SIZE_2MB EGOS_BIN_MAX_NBYTE.



(** ** A small kernel with a disk *)

Record bsys := mk_bsys { b_disk : list Z; b_pid : Z; b_log : list event }.
#[export] Instance bsys_settable : Settable bsys := settable! mk_bsys <b_disk; b_pid; b_log>.
Definition b_add (e : event) (y : bsys) : bsys := y <| b_log ::= λ l, l ++ [e] |>.

#[export] Instance bsys_Kernel : ProcKernel bsys := {|
  proc_alloc := λ y, Ok (b_pid y, b_add (Made (b_pid y)) (y <| b_pid ::= λ p, p + 1 |>));
  proc_free := λ pid y, Ok (tt, b_add (Freed pid) y);
  proc_set_ready := λ pid y, Ok (tt, b_add (Ready pid) y);
  disk_read := λ b y, Ok (disk_block b (b_disk y), y);
  sys_recv := λ from y, Ok ((from, [104; 105; 0]), b_add (Heard from) y)
|}.
#[export] Instance bsys_logs : KernelLog bsys.
Proof.
  refine {| log := b_log; load p := b_add (Loaded p) |}.
  - by intros pid e e' [= <- <-].
  - by intros pid e e' [= <-].
  - by intros pid e e' [= <-].
  - by intros from x e e' [= _ <-].
  - by intros b x e e' [= _ <-].
  - done.
Defined.
#[export] Instance bsys_boot : BootKernel bsys.
Proof. by refine {| disk := b_disk; next_pid := b_pid |}. Defined.




