(* ===== verification/SysProcDemo.v ===== *)
(** * The process server at work

    A small system: a kernel that numbers processes and keeps an inbox and the
    log, a file server over an image, and a loader of programs of a fixed length
    that reads their first block.  It satisfies the interfaces, and the theorems
    of the process server are applied to it. *)

From Stdlib Require Import Ascii String.
From S2P Require Import Prelude Bytes Ipc NetDev SysNet Servers Files Mkfs MkfsThms DirThms SysProc SysProcThms.

Record sys := mk_sys {
  y_image : list (Z * Z * list Z);
  y_inbox : list (Z * list Z);
  y_log : list event;
  y_pid : Z;
}.
#[export] Instance sys_settable : Settable sys := settable! mk_sys <y_image; y_inbox; y_log; y_pid>.
Definition y_add (e : event) (y : sys) : sys := y <| y_log ::= λ l, l ++ [e] |>.

#[export] Instance sys_Sys : Sys sys := λ pid r y,
  match sys_call pid r (y_image y) with Ok (m, _) => Ok (m, y) | Err e => Err e end.
#[export] Instance sys_Post : Post sys := λ to m y,
  Ok (tt, if to =? GPID_SHELL then y_add (Told m) y else y).
#[export] Instance sys_Kernel : ProcKernel sys := {|
  proc_alloc := λ y, Ok (y_pid y, y_add (Made (y_pid y)) (y <| y_pid ::= Z.add 1 |>));
  proc_free := λ pid y, Ok (tt, y_add (Freed pid) y);
  proc_set_ready := λ pid y, Ok (tt, y_add (Ready pid) y);
  disk_read := λ _ y, Ok (replicate 512 0, y);
  sys_recv := λ from y, match y_inbox y with
                        | [] => Err Diverges
                        | x :: l => Ok (x, y_add (Heard from) (y <| y_inbox := l |>))
                        end;
|}.

#[export] Instance sys_logs : KernelLog sys.
Proof.
  refine {| log := y_log; load p := y_add (Loaded p) |}.
  - by intros pid e e' [= <- <-].
  - by intros pid e e' [= <-].
  - by intros pid e e' [= <-].
  - intros from x e e'. cbn. destruct (y_inbox e); [done|]. by intros [= _ <-].
  - by intros b x e e' [= _ <-].
  - done.
Defined.

#[export] Instance sys_laws : ShellLaws sys.
Proof.
  split.
  - by intros m e e' [= <-].
  - intros pid r m e e'. unfold sys_call at 1, sys_Sys. destruct (sys_call _ _ _) as [[]|]; [|done]. by intros [= _ <-].
Qed.

#[export] Instance sys_files : FileServer sys.
Proof.
  refine {| image y w := y_image y = w |}. intros y w r block Hw Ht Hlen Hr Hl.
  destruct (@file_serves _ _ image_holds (y_image y) w r block Hw Ht Hlen Hr Hl) as (m & w' & E & _ & Hm & Hb).
  exists m, y. unfold sys_call, sys_Sys. rewrite E. by split_and!.
Defined.

#[export] Instance sys_live : ProcLive sys.
Proof. split; by intros. Qed.

(** A loader of programs of [n] bytes: it reads the first block. *)
Definition demo_load (n : nat) (pid : Z) (rd : Z → list Z → M (psrv sys) (list Z)) (argc : Z) (argv : list Z) :
    M (psrv sys) unit :=
  block ← rd 0 (replicate 512 0);
  modM (with_env (load (Prog pid argc argv (take n block)))).

Lemma demo_loads_one n : loads_one (demo_load n).
Proof.
  intros pid rd argc argv s Hrd. unfold demo_load. apply wp_bind. eapply wp_mono; [|apply Hrd].
  intros block s1 [L1 K1]. apply wp_mod. split; [exact K1|]. exists (take n block).
  change (log (c_env (p_cl s1)) ++ [Loaded (Prog pid argc argv (take n block))] =
          logged s ++ [Loaded (Prog pid argc argv (take n block))]). by rewrite <-L1.
Qed.

Lemma demo_loader n : (0 < n ≤ 512)%nat → loader (λ data, length data = n) (demo_load n).
Proof.
  intros Hn pid rd argc argv data I s Hd Hr Hi. unfold demo_load. apply wp_bind.
  eapply wp_mono; [|apply (Hr 0 (replicate 512 0) s Hi)]; [|done| |done|done].
  - intros block s1 [Hi1 Hb]. apply wp_mod. exists s1. split; [done|].
    rewrite Hd, Nat.sub_0_r in Hb. rewrite Hb. unfold slice. by rewrite drop_0, firstn_all2 by lia.
  - rewrite Hd. unfold BLOCK_SIZE. lia.
Qed.

(** The shell asks for "ls", argc = 1. *)
Definition demo_request : list Z :=
  le32 PROC_SPAWN ++ le32 1 ++ chars "ls" ++ replicate 510 0.
Definition demo_proc (buf : list Z) : psrv sys :=
  mk_psrv (mk_client (mk_sys (writes demo_image) [(5, demo_request)] [] 6) (replicate 1024 0)) buf 0 0 true 0.

Definition demo_turn : res (unit * psrv sys) := turn 128 demo_stack (demo_load 1) (demo_proc (replicate 1024 0)).
Definition demo_after : psrv sys := match demo_turn with Ok (_, s) => s | Err _ => demo_proc [] end.

(** "ls" is loaded for process 6, which runs, and the shell, told so, waits for it. *)
Definition demo_argv (buf : list Z) : list Z := drop preq.argv (put_bytes 0 demo_request buf).
Lemma turn_refines_witness :
  waits demo_after = Some 6 ∧
  logged demo_after = [Heard GPID_ALL; Made 6; Loaded (Prog 6 1 (demo_argv (replicate 1024 0)) [4]);
                       Ready 6; Told (le32 CMD_OK)] ∧
  ∃ sender s1 found evs,
    recv GPID_ALL (demo_proc (replicate 1024 0)) = Ok (sender, s1) ∧
    (get32 (p_buf s1) preq.type = PROC_SPAWN →
       ∃ ino s2, app_lookup 128 demo_stack s1 = Ok (ino, s2) ∧ found = (0 <=? ino)) ∧
    logged demo_after = logged (demo_proc (replicate 1024 0)) ++ Heard GPID_ALL :: evs ∧
    proc_spec found (p_buf s1) sender (waits (demo_proc (replicate 1024 0))) (waits demo_after) evs.
Proof.
  split; [vm_compute; reflexivity|]. split; [vm_compute; reflexivity|].
  apply (turn_refines 128 demo_stack (demo_load 1) (demo_proc (replicate 1024 0)) demo_after).
  - apply demo_loads_one.
  - apply Nat.leb_le. vm_compute. reflexivity.
  - vm_compute. reflexivity.
Defined.

Lemma spawn_loads_witness :
  ∃ s', on_spawn 128 demo_stack (demo_load 1) (demo_proc demo_request) = Ok (tt, s') ∧ ∃ pid, app_ino s' = 8 ∧
    logged s' = [Made pid; Loaded (Prog pid 1 (drop preq.argv demo_request) [4]); Ready pid; Told (le32 CMD_OK)] ∧
    waits s' = Some pid.
Proof.
  apply (proj1 (spawn_loads 128 demo_stack (λ data, length data = 1%nat) (demo_load 1) demo_entries (replicate 256 7)
    (replicate 1024 0) 2 demo_image (chars "ls") 108 (demo_proc demo_request)
    ltac:(apply Nat.leb_le; vm_compute; reflexivity) (demo_loader 1 ltac:(lia))
    demo_searchable ltac:(vm_compute; reflexivity) ltac:(lia) ltac:(vm_compute; reflexivity)
    ltac:(split; [reflexivity|apply Nat.leb_le; vm_compute; reflexivity]) ltac:(apply Nat.leb_le; vm_compute; reflexivity)
    ltac:(vm_compute; reflexivity) ltac:(vm_compute; reflexivity)) 1%nat (chars "ls.elf") [4]).
  - vm_compute. reflexivity.
  - vm_compute. reflexivity.
  - vm_compute. reflexivity.
Defined.

(** A request with no arguments makes the process server read before the
    argument array: [req->argv[req->argc - 1]] with [argc] = 0. *)
Theorem spawn_argc_zero :
  on_spawn 128 demo_stack (demo_load 1) (demo_proc (put32 preq.argc 0 demo_request)) = Err OutOfBounds.
Proof. vm_compute. reflexivity. Qed.
