(* ===== verification/Http.v ===== *)
(** * User programs: apps/user/http.c and apps/user/net_raw_test.c

    The programs as sequences of calls of the client stubs, run over the
    network server, and a session of the web server in which the request comes
    in time and one in which it comes late. *)

From Stdlib Require Import Ascii String.
From S2P Require Import Prelude Bytes UipState Uip Httpd Flow TcpSeg TcpTx UipThms Arp Ipc NetDev SysNet Servers SysNetDemo Mkfs.

Definition CRLF : list Z := [13; 10].
Definition hello_response : list Z :=
  chars "HTTP/1.0 200 OK" ++ CRLF ++ chars "Content-Type: text/plain" ++ CRLF ++
  chars "Connection: close" ++ CRLF ++ CRLF ++ chars "EGOS socket abstraction demonstration" ++ [10].

Definition dummy_frame : list Z :=
  [0xff; 0xff; 0xff; 0xff; 0xff; 0xff; 0x02; 0x00; 0x00; 0x00; 0x00; 0x01; 0x88; 0xB5] ++
  chars "HELLO-FROM-NET-RAW-TY-PACKET-TEST-YAY! R/W@$" ++ [0x00; 0x00].

Section programs.
Context {S : Type} `{Sys S}.

(** What is in [req_buf] before the call is not initialised: an argument. *)
Definition http_turn (req_buf : list Z) : M (client S) unit :=
  conn ← sock_accept;
  if conn <? 0 then mret tt
  else
    r ← sock_recv conn req_buf NET_BUF_SIZE;
    (if 0 <? r.1 then sock_send conn hello_response (Z.of_nat (length hello_response)) else mret 0);;
    sock_close conn;;
    mret tt.

(** [main] up to the loop: [false] when it returns -1. *)
Definition http_main : M (client S) bool :=
  r ← sock_listen 80;
  mret (0 <=? r).

Definition net_raw_test (argc : Z) : M (client S) Z :=
  if negb (argc =? 1) then mret (-1)
  else net_send 60 dummy_frame;; mret 0.
End programs.

(** ** Over the network server *)

#[local] Instance http_server : Sys (net queues) := server_call 7.

Definition http_client (s : net queues) : client (net queues) := mk_client s (replicate 1024 0).
Definition http_run (s : net queues) : net queues :=
  match http_turn (replicate 512 0) (http_client s) with Ok (_, c) => c_env c | Err _ => s end.

(** The frames sent by [s'] and not yet by [s]. *)
Definition sent (s s' : net queues) : list (list Z) := skipn (length (n_dev s).2) (n_dev s').2.

(** The web server answers a request only if the request is there when it
    first looks.  A client has sent the last acknowledgement of the handshake.
    When its request is in the device as well, one turn of the loop sends a
    segment with the whole response.  When the request comes after that turn,
    [sock_recv] finds nothing, the server closes the connection at once (FIN),
    and the request, acknowledged when it comes, is never answered. *)
Theorem http_late_request :
  let s := demo_feed demo_ack d_syn in
  let in_time := http_run (demo_feed demo_data s) in
  let closed := http_run s in
  let late := http_run (demo_feed demo_data closed) in
  (skipn 54 <$> sent s in_time = [[]; hello_response]) ∧
  ((λ f, (skipn 54 f, u8 f 47)) <$> sent s closed = [([], Z.lor TCP_FIN TCP_ACK)]) ∧
  ((λ f, (skipn 54 f, u8 f 47)) <$> sent closed late = [([], TCP_ACK)]) ∧
  sent late (http_run late) = [].
Proof. cbv zeta. split_and!; vm_compute; reflexivity. Qed.

(** The message of the raw test program. *)
Definition raw_msg : list Z :=
  put_bytes req.buf (take (Z.to_nat 60) dummy_frame) (put32 req.length 60 (new_req NET_SEND)).
Lemma raw_msg_fields : length raw_msg = 528%nat ∧ get32 raw_msg req.type = NET_SEND ∧
  get32 raw_msg req.length = 60 ∧ slice req.buf 512 raw_msg = dummy_frame ++ replicate 452 0.
Proof. split_and!; vm_compute; reflexivity. Qed.

Lemma raw_msg_served {D} `{NetDev D} me (s : net D) d :
  (528 ≤ length (msg s))%nat → dev_send 60 (dummy_frame ++ replicate 452 0) (n_dev s) = Ok (tt, d) →
  ∃ s' rep, serve me raw_msg s = Ok (tt, s') ∧ n_dev s' = d ∧ outbox s' = outbox s ++ [(me, rep)] ∧
    length rep = 524%nat ∧ get32 rep reply.status = NET_OK.
Proof.
  intros Hm Hd. destruct raw_msg_fields as (Hl & Ht & Hn & Hf). generalize dependent raw_msg. intros m Hl Ht Hn Hf.
  unfold serve, dispatch, handle_net_send, send_net_reply, req_field, sys_send, in_dev, mbind, M_bind, modM, getM.
  cbn [msg n_dev set_field].
  rewrite (delivered32 m _ req.type), Ht by (rewrite Hl; unfold req.type; lia).
  change (NET_SEND =? NET_SEND) with true. cbv iota beta. cbn [msg n_dev set_field].
  rewrite (delivered32 m _ req.length), Hn by (rewrite Hl; unfold req.length; lia).
  change (Z.to_nat NET_BUF_SIZE) with 512%nat.
  rewrite delivered_slice by (rewrite Hl; unfold req.buf; lia). rewrite Hf, Hd. cbn [msg n_dev outbox set_field].
  eexists _, _. split; [done|]. split; [done|]. split; [done|].
  unfold reply.size, reply.status, reply.conn_id, reply.length. cbn [msg set_field]. split.
  - rewrite length_take, !length_put32, length_put_bytes. lia.
  - rewrite get32_take by lia. rewrite !get32_put32_ne by lia. apply get32_put32; [rewrite length_put_bytes; lia|done].
Qed.

(** The raw test program puts its frame on the wire: called without arguments
    it asks the network server once, and the device is told to send 60 bytes from
    a buffer that starts with the frame. *)
Theorem raw_test_transmits {D} `{NetDev D} me (c : client (net D)) d :
  (528 ≤ length (msg (c_env c)))%nat → (524 ≤ length (c_buf c))%nat →
  dev_send 60 (dummy_frame ++ replicate 452 0) (n_dev (c_env c)) = Ok (tt, d) →
  ∃ c', @net_raw_test _ (server_call me) 1 c = Ok (0, c') ∧ n_dev (c_env c') = d.
Proof.
  intros Hm Hb Hd. destruct (raw_msg_served me (c_env c) d Hm Hd) as (s' & rep & Hs & Hdev & Ho & Hl & Hst).
  unfold net_raw_test, net_send. change (negb (1 =? 1)) with false. cbv iota zeta. fold raw_msg.
  eexists. unfold ASSERT, check, mbind, M_bind, mret, M_ret.
  change (60 <=? NET_BUF_SIZE) with true. cbv iota beta.
  change (memcpy_ok 60 (length dummy_frame) (Z.to_nat NET_BUF_SIZE)) with true. cbv iota beta.
  pose proof (net_request_ok me c raw_msg s' rep Hs Ho) as E. unfold server_sys in E. rewrite E. by split.
Qed.

(** On a device that is a pair of queues the frame comes out. *)
Lemma raw_test_transmits_witness :
  ∃ c', @net_raw_test _ (server_call 7) 1 (http_client d_listen) = Ok (0, c') ∧
        n_dev (c_env c') = ([], [dummy_frame]).
Proof.
  apply (raw_test_transmits 7 (http_client d_listen) ([], [dummy_frame])).
  - apply Nat.leb_le. vm_compute. reflexivity.
  - apply Nat.leb_le. vm_compute. reflexivity.
  - vm_compute. reflexivity.
Defined.
