(* ===== verification/HttpThms.v ===== *)
(** * The web server over the network server

    The loop of apps/user/http.c, any number of turns, over the network server
    and a device whose traffic is sane: every turn returns, and what it says to
    the socket service has one of three shapes. *)

From Stdlib Require Import Ascii String.
From stdpp Require Import relations.
From S2P Require Import Prelude Bytes UipState Uip UipInv Httpd Flow TcpSeg TcpTx UipThms Arp Ipc NetDev SysNet SysNetInv SysNetThms Servers SysNetDemo ClientThms Mkfs Http.

(** ** A device whose frames are all sane *)

(** A frame the stack handles without leaving its buffer, whatever the buffer
    held before. *)
Definition always_sane (f : list Z) : Prop := ∀ b, length b = 422%nat →
  let b := put_bytes 0 f b in
  f ≠ [] → u16 b ARPBUF.type = HTONS UIP_ETHTYPE_IP → iplen b ≤ 408 ∧ packet_sane b.

Class CalmDev (D : Type) `{NetDevLaws D} := {
  calm : D → Prop;
  calm_recv d size : dev_wf d → calm d → (422 ≤ size)%nat →
    wp dev_fault (dev_recv size) (λ f d', calm d' ∧ always_sane f) d;
  calm_send d n p : dev_wf d → calm d → wp anyfault (dev_send n p) (λ _ d', calm d') d
}.

(** ** The server's requests keep it so *)

Section calm.
Context {D : Type} `{CalmDev D}.
Implicit Types s : net D.

(** The device after an operation of the server. *)
Definition quiet (d : D) : Prop := dev_wf d ∧ calm d.
Definition stays {A} (m : M (net D) A) : Prop := ∀ s, quiet (n_dev s) → wp anyfault m (λ _ s', quiet (n_dev s')) s.

Lemma calm_ret {A} (a : A) : stays (mret a).
Proof. intros s Hq. by apply wp_ret. Qed.
Lemma calm_fail {A} e : stays (A := A) (fail e).
Proof. intros s Hq. by apply wp_fail. Qed.
Lemma calm_get {A} (f : net D → A) : stays (getM f).
Proof. intros s Hq. by apply wp_get. Qed.
Lemma calm_mod (f : net D → net D) : (∀ s, n_dev (f s) = n_dev s) → stays (modM f).
Proof. intros Hf s Hq. apply wp_mod. by rewrite Hf. Qed.
Lemma calm_bind {A B} (m : M (net D) A) (f : A → M (net D) B) : stays m → (∀ a, stays (f a)) → stays (mbind f m).
Proof. intros Hm Hf s Hq. apply wp_bind. eapply wp_mono; [|by apply Hm]. intros a s' Hs. by apply Hf. Qed.
Lemma calm_in_uip m : stays (in_uip m).
Proof. intros s Hq. unfold in_uip, wp. by destruct (m _) as [[_ [u g]]|]. Qed.
Lemma calm_in_arp f : stays (in_arp f).
Proof. apply calm_mod. intros s. by destruct (f _). Qed.
Lemma calm_dev_send n p : stays (in_dev (dev_send n p)).
Proof.
  intros s [Hw Hc]. pose proof (calm_send (n_dev s) n p Hw Hc) as Hcs. unfold in_dev, wp in *.
  destruct (dev_send n p (n_dev s)) as [[[] d]|] eqn:E; [|done]. split; [|done].
  destruct (decide (0 < n ≤ 2048)) as [Hn|Hn]; [|rewrite (dev_send_bad (n_dev s) n p Hw ltac:(lia)) in E; discriminate].
  destruct (decide (length p < Z.to_nat n)%nat) as [Hl|Hl]; [destruct (dev_send_over (n_dev s) n p Hw Hl) as [e Ee]; rewrite Ee in E; discriminate|].
  pose proof (dev_send_law (n_dev s) n p Hw Hn ltac:(lia)) as Hs. unfold wp in Hs. by rewrite E in Hs.
Qed.
Lemma quiet_recv s size : (422 ≤ size)%nat → quiet (n_dev s) → wp anyfault (in_dev (dev_recv size)) (λ _ s', quiet (n_dev s')) s.
Proof.
  intros Hs [Hw Hc]. pose proof (calm_recv (n_dev s) size Hw Hc Hs) as Hr. pose proof (dev_recv_law (n_dev s) size Hw) as Hl.
  unfold in_dev, wp in *. destruct (dev_recv size (n_dev s)) as [[f d]|]; [|exact I]. destruct Hr, Hl. by split.
Qed.
Lemma calm_kick n : ∀ i, stays (kick_loop n i).
Proof.
  induction n as [|n IH]; intros i; [apply calm_ret|]. cbn [kick_loop]. apply calm_bind; [apply calm_get|].
  intros []; [|apply IH]. apply calm_bind; [apply calm_in_uip|]. intros _. apply calm_bind; [apply calm_get|].
  intros l. destruct (0 <? l); [|apply calm_ret]. apply calm_bind; [apply calm_in_arp|]. intros _.
  unfold send_uip. apply calm_bind; [apply calm_get|]. intros ?. apply calm_bind; [apply calm_get|]. intros ?. apply calm_dev_send.
Qed.

Ltac stays := repeat first
  [ apply calm_ret | apply calm_fail | apply calm_get | apply calm_in_uip | apply calm_in_arp | apply calm_dev_send
  | apply calm_kick | (apply calm_mod; reflexivity) | (apply calm_bind; [|intros ?])
  | match goal with |- stays (if ?b then _ else _) => destruct b end ].

Lemma calm_sync : stays sync_socket_state.
Proof. unfold sync_socket_state, skip. stays. Qed.
Lemma calm_reply sender st id n : stays (send_net_reply sender st id n).
Proof. unfold send_net_reply, sys_send. stays. Qed.
Lemma calm_kick_active : stays kick_active_connection.
Proof. unfold kick_active_connection, skip. stays. Qed.

(** Polling: here a frame is received, into the packet buffer. *)
Lemma quiet_poll s : length (uip_buf (n_uip s)) = 422%nat → quiet (n_dev s) → wp anyfault net_poll (λ _ s', quiet (n_dev s')) s.
Proof.
  intros Hl Hq. unfold net_poll. apply wp_bind, wp_get, wp_bind. eapply wp_mono; [|apply quiet_recv; [lia|done]].
  intros f s' Hs'. revert s' Hs'. change (stays (modM (λ s, s <| n_uip ::= λ u, u <| uip_buf ::= put_bytes 0 f |>
                                   <| uip_len := wrap16 (Z.of_nat (length f)) |> |>);;
    n ← getM (λ s, uip_len (n_uip s));
    if n <=? 0 then skip else
      type ← getM (λ s, u16 (uip_buf (n_uip s)) ARPBUF.type);
      (if type =? HTONS UIP_ETHTYPE_IP then
         in_uip uip_input;;
         n ← getM (λ s, uip_len (n_uip s));
         if 0 <? n then in_arp uip_arp_out;; send_uip else skip
       else if type =? HTONS UIP_ETHTYPE_ARP then
         in_arp uip_arp_arpin;;
         n ← getM (λ s, uip_len (n_uip s));
         if 0 <? n then send_uip else skip
       else modM (λ s, s <| n_uip ::= λ u, u <| uip_len := 0 |> |>));;
      sync_socket_state)).
  unfold skip, send_uip. stays; apply calm_sync.
Qed.

(** A request keeps the device quiet. *)
Lemma quiet_serve sender m s s' :
  length (uip_buf (n_uip s)) = 422%nat → quiet (n_dev s) → serve sender m s = Ok (tt, s') → quiet (n_dev s').
Proof.
  intros Hl Hq Hs. enough (Hw : wp anyfault (serve sender m) (λ _ s', quiet (n_dev s')) s) by (unfold wp in Hw; by rewrite Hs in Hw).
  unfold serve. apply wp_bind, wp_mod. unfold dispatch, req_field. apply wp_bind, wp_get.
  assert (Hstay : ∀ k : M (net D) unit, stays k → wp anyfault k (λ _ s', quiet (n_dev s')) (s <| msg ::= put_bytes 0 m |>)).
  { intros k Hk. by apply Hk. }
  assert (Hpoll : ∀ k : M (net D) unit, stays k → wp anyfault (net_poll;; k) (λ _ s', quiet (n_dev s')) (s <| msg ::= put_bytes 0 m |>)).
  { intros k Hk. apply wp_bind. eapply wp_mono; [|by apply quiet_poll]. intros [] s1 Hs1. by apply Hk. }
  repeat match goal with |- context [if ?b then _ else _] => destruct b end.
  - apply Hstay. unfold handle_net_send, req_field. stays; apply calm_reply.
  - unfold handle_net_recv. apply wp_bind. eapply wp_mono; [|apply quiet_recv; [unfold NET_BUF_SIZE; lia|exact Hq]].
    intros f s2 Hs2. revert s2 Hs2. change (stays (modM (λ s : net D, s <| msg ::= put_bytes reply.buf f |>);;
      modM (λ s : net D, s <| msg ::= put32 reply.length (Z.of_nat (length f)) |>);;
      n ← getM (λ s : net D, get32 (msg s) reply.length);
      send_net_reply sender NET_OK NET_CONN_NONE n)). stays; apply calm_reply.
  - apply Hstay. unfold handle_sock_listen, reset_socket_state, req_field. stays; apply calm_reply.
  - apply Hpoll. stays; apply calm_reply.
  - apply Hpoll. unfold req_field. stays; apply calm_reply.
  - apply Hpoll. unfold req_field, net_kick_tx, skip. stays; first [apply calm_reply|apply calm_kick_active].
  - apply Hpoll. unfold req_field, net_kick_close. stays; first [apply calm_reply|apply calm_kick_active].
  - by apply wp_fail.
Qed.

(** ** Conversations of a client with the socket service *)

Variable me : Z.
Instance http_over : Sys (net D) := over_server me.
Implicit Types c : client (net D).

(** A client whose next call is answered. *)
Record fit c : Prop := {
  fit_inv : inv_net (c_env c);
  fit_tx : tx_fits (n_httpd (c_env c));
  fit_calm : calm (n_dev (c_env c));
  fit_buf : (524 ≤ length (c_buf c))%nat
}.

(** One call, with the service's answer in the state after the device was polled. *)
Definition answered c (k : call) (a : answer) c' : Prop :=
  run_call me k c = Ok (returned k a, c') ∧
  ∃ s1, poll_state (call_req k) (deliver (call_msg k) (c_env c)) s1 ∧ a = sock_answer (net_view s1) (call_req k).

Inductive talk : client (net D) → list (call * answer) → client (net D) → Prop :=
  | talk_nil c : talk c [] c
  | talk_cons c k a c1 l c' : answered c k a c1 → talk c1 l c' → talk c ((k, a) :: l) c'.
Lemma talk_app c l c1 l' c' : talk c l c1 → talk c1 l' c' → talk c (l ++ l') c'.
Proof. induction 1; [done|]. intros. econstructor; eauto. Qed.

Lemma fit_dev_calm c : fit c → dev_calm (c_env c).
Proof.
  intros []. unfold dev_calm. eapply wp_mono; [|apply (calm_recv (n_dev (c_env c)) 422); [by apply in_device|done|lia]].
  intros f d [_ Hf]. exact (Hf _ ltac:(by apply in_stack)).
Qed.

Lemma call_fit c k : dev_live → fit c → call_ok k → ∃ a c', answered c k a c' ∧ fit c'.
Proof.
  intros Hlive Hfit Hk. pose proof (fit_dev_calm c Hfit) as Hc. destruct Hfit as [Hi Ht Hq Hb].
  destruct (exchange me k c Hlive Hi Ht Hc Hb Hk) as (c1 & s1 & E & Hi' & Ht' & Hp & E1 & E2 & E3 & E4).
  eexists _, c1. split.
  - split; [|by exists s1]. apply (call_returns me k c c1); try done; [apply answer_status|].
    intros id buf len ->. apply answer_recv. apply Hk.
  - unfold net_request, sys_call, over_server, server_call in E. destruct (serve me (call_msg k) (c_env c)) as [[[] s2]|] eqn:Es; [|done].
    destruct (rev (outbox s2)) as [|[? rep] ?]; [done|]. injection E as <-. split; [done|done| |].
    + eapply (quiet_serve me _ (c_env c)); [|split; [by apply in_device|done]|exact Es]. apply (in_stack _ Hi).
    + cbn [c_buf set_field]. by rewrite length_put_bytes.
Qed.

(** ** The loop of the web server *)

(** What a turn says: nobody to accept; no data; or an answer. *)
Inductive turn_talk : list (call * answer) → Prop :=
  | turn_nobody a : a_status a ≠ NET_OK → turn_talk [(Accept, a)]
  | turn_no_data a buf r b : a_status a = NET_OK → (returned (Recv (a_conn a) buf 512) r).1 ≤ 0 →
      turn_talk [(Accept, a); (Recv (a_conn a) buf 512, r); (Close (a_conn a), b)]
  | turn_answer a buf r w b : a_status a = NET_OK → 0 < (returned (Recv (a_conn a) buf 512) r).1 →
      turn_talk [(Accept, a); (Recv (a_conn a) buf 512, r);
                 (Send (a_conn a) hello_response (Z.of_nat (length hello_response)), w); (Close (a_conn a), b)].

Fixpoint http_loop (bufs : list (list Z)) : M (client (net D)) unit :=
  match bufs with
  | [] => mret tt
  | buf :: bufs => http_turn buf;; http_loop bufs
  end.

Lemma value_ok {S} (m : M S Z) (s : S) v l (s' : S) : (v ← m; mret (v, @nil Z)) s = Ok ((v, l), s') → m s = Ok (v, s').
Proof. unfold mbind, M_bind, mret, M_ret. by destruct (m s) as [[w s1]|]; [intros [= -> _ <-]|]. Qed.

Lemma hello_fits : 0 ≤ Z.of_nat (length hello_response) ≤ 368 ∧ bytes hello_response.
Proof. split; [by vm_compute|apply (bool_decide_unpack _); by vm_compute]. Qed.

Lemma http_turn_talks buf c : dev_live → fit c → length buf = 512%nat →
  ∃ l c', http_turn buf c = Ok (tt, c') ∧ talk c l c' ∧ turn_talk l ∧ fit c'.
Proof.
  intros Hlive Hfit Hb. destruct (call_fit c Accept Hlive Hfit I) as (a & c1 & Ha & Hfit1).
  pose proof Ha as [Hra (s1 & _ & Hans)]. apply value_ok in Hra. unfold http_turn. rewrite (bind_ok _ _ _ _ _ Hra).
  cbn [returned fst]. destruct (Z.eqb_spec (a_status a) NET_OK) as [Hok|Hno].
  2:{ rewrite (proj2 (Z.ltb_lt _ _)).
      2:{ pose proof (answer_status (net_view s1) (call_req Accept)) as Hst. rewrite <- Hans in Hst. unfold NET_OK in Hno. lia. }
      eexists [_], c1. split; [done|]. split; [by econstructor; [|constructor]|]. by split; [constructor|]. }
  assert (Hid : a_conn a = 1).
  { rewrite Hans in Hok |- *. cbn [sock_answer call_req] in *. by destruct (v_pending _); [|discriminate Hok]. }
  rewrite Hid. change (1 <? 0) with false. cbv iota.
  assert (Hk1 : is_i32 1) by (unfold is_i32; lia).
  destruct (call_fit c1 (Recv 1 buf 512) Hlive Hfit1) as (r & c2 & Hr & Hfit2); [split; [done|split; [lia|]]; rewrite Hb; lia|].
  pose proof Hr as [Hrr _]. rewrite (bind_ok _ _ _ _ _ Hrr).
  set (n := (returned (Recv 1 buf 512) r).1) in *. destruct (Z.ltb_spec 0 n) as [Hn|Hn].
  - destruct hello_fits as [Hhl Hhb].
    destruct (call_fit c2 (Send 1 hello_response (Z.of_nat (length hello_response))) Hlive Hfit2) as (w & c3 & Hw & Hfit3).
    { split; [done|]. split; [done|]. split; [lia|done]. }
    pose proof Hw as [Hrw _]. apply value_ok in Hrw. rewrite (bind_ok _ _ _ _ _ Hrw).
    destruct (call_fit c3 (Close 1) Hlive Hfit3 Hk1) as (b & c4 & Hcl & Hfit4).
    pose proof Hcl as [Hrc _]. apply value_ok in Hrc. rewrite (bind_ok _ _ _ _ _ Hrc).
    eexists [_; _; _; _], c4. split; [done|]. split; [do 4 (econstructor; [eassumption|]); constructor|].
    split; [|done]. rewrite <- Hid. constructor; [done|]. by rewrite Hid.
  - rewrite (bind_ok (mret 0) _ c2 0 c2 eq_refl).
    destruct (call_fit c2 (Close 1) Hlive Hfit2 Hk1) as (b & c4 & Hcl & Hfit4).
    pose proof Hcl as [Hrc _]. apply value_ok in Hrc. rewrite (bind_ok _ _ _ _ _ Hrc).
    eexists [_; _; _], c4. split; [done|]. split; [do 3 (econstructor; [eassumption|]); constructor|].
    split; [|done]. rewrite <- Hid. constructor; [done|]. by rewrite Hid.
Qed.

(** C9: The web server never stops serving: over a live device whose frames are all
    sane, it gets its port, and then any number of turns of its loop return,
    whatever its buffer holds; each turn is a conversation with the abstract socket
    service in which it finds nobody to accept, or accepts, gets no data and
    closes, or accepts, gets data, sends the whole response once and closes. *)
Theorem http_serves c bufs :
  dev_live → fit c → Forall (λ b, length b = 512%nat) bufs →
  ∃ c1, http_main c = Ok (true, c1) ∧ fit c1 ∧
  ∃ c' turns, http_loop bufs c1 = Ok (tt, c') ∧ fit c' ∧
    length turns = length bufs ∧ Forall turn_talk turns ∧ talk c1 (mjoin turns) c'.
Proof.
  intros Hlive Hfit Hb. destruct (call_fit c (Listen 80) Hlive Hfit ltac:(unfold call_ok, is_i32; lia)) as (a & c1 & Ha & Hfit1).
  destruct Ha as [Hra (s1 & _ & ->)]. apply value_ok in Hra. exists c1. split.
  { unfold http_main. by rewrite (bind_ok _ _ _ _ _ Hra). }
  split; [done|]. clear Hra s1 Hfit c. revert c1 Hfit1. induction Hb as [|buf bufs Hbuf _ IH]; intros c Hfit.
  { exists c, []. split; [done|]. split; [done|]. split; [done|]. split; [done|constructor]. }
  destruct (http_turn_talks buf c Hlive Hfit Hbuf) as (l & c1 & Hr & Ht & Hsh & Hfit1).
  destruct (IH c1 Hfit1) as (c' & turns & Hr' & Hfit' & Hn & Hall & Ht').
  exists c', (l :: turns). split; [cbn [http_loop]; by rewrite (bind_ok _ _ _ _ _ Hr)|]. split; [done|].
  split; [cbn; by f_equal|]. split; [by constructor|]. exact (talk_app _ _ _ _ _ Ht Ht').
Qed.
End calm.

(** ** A session: the acknowledgement and a request are waiting *)

(** No IP packet, or one with plain headers. *)
Definition plain_frame (f : list Z) : Prop :=
  (length f ≤ 422)%nat ∧
  ((14 ≤ length f)%nat ∧ u16 f ARPBUF.type ≠ HTONS UIP_ETHTYPE_IP ∨
   (54 ≤ length f)%nat ∧ 40 ≤ iplen f ≤ 408 ∧ u8 f BUF.tcpoffset = 80 ∧ has (u8 f BUF.flags) TCP_URG = false).
#[local] Instance plain_frame_dec f : Decision (plain_frame f).
Proof. unfold plain_frame. apply _. Defined.

Lemma u8_front f b o : (o < length f)%nat → (length f ≤ length b)%nat → u8 (put_bytes 0 f b) o = u8 f o.
Proof.
  intros Ho Hb. unfold u8, put_bytes. rewrite !list_lookup_total_alt, list_lookup_inserts by lia.
  by rewrite Nat.sub_0_r.
Qed.
Lemma plain_sane f : plain_frame f → always_sane f.
Proof.
  intros [Hl Hf] b Hb. cbv zeta. intros _. rewrite <- Hb in Hl.
  destruct Hf as [[H14 Ht]|(H54 & Hi & Ho & Hu)].
  - unfold u16, ARPBUF.type in *. rewrite !u8_front by lia. intros Hip. by destruct Ht.
  - intros _. assert (Hip : iplen (put_bytes 0 f b) = iplen f) by (unfold iplen, BUF.len0, BUF.len1; rewrite !u8_front by lia; done).
    unfold packet_sane, tcp_sane, hlen, options_end, optlen. rewrite Hip.
    unfold BUF.tcpoffset, BUF.flags, BUF.proto in *. rewrite !u8_front, Ho by lia.
    change (wrap8 (Z.shiftl (Z.shiftr 80 4) 2)) with 20. change (Z.shiftl (Z.shiftr 80 4 - 5) 2) with 0.
    split; [lia|]. split; [lia|]. intros _. split; [lia|]. split; [lia|]. split; [by eexists|done].
Qed.

#[local] Instance queue_calm : CalmDev queues.
Proof.
  refine {| calm := λ d, Forall plain_frame d.1 |}; unfold dev_send, dev_recv, queue_dev, wp.
  - intros [[|f fs] tx] size _ Hc Hs; cbn; [split; [done|]; by intros b ? ?|].
    apply Forall_cons_iff in Hc as [Hf Hfs]. rewrite (proj2 (Nat.leb_le _ _)) by (destruct Hf; lia).
    split; [done|by apply plain_sane].
  - intros d n p _ Hc. destruct (_ && _); [destruct (_ <=? _)%nat|]; first [exact Hc|exact I].
Defined.

Definition http_ready : client (net queues) :=
  mk_client (demo_feed demo_data (demo_feed demo_ack d_syn)) (replicate 1024 0).

Lemma http_ready_fit : fit http_ready.
Proof.
  split.
  - apply (reach_inv d_boot); [exact d_boot_inv|]. eapply rtc_r; [exact d_syn_reached|].
    apply (ns_dev d_syn ([demo_ack; demo_data], (n_dev d_syn).2)). by apply queues_dec.
  - vm_compute. discriminate.
  - apply (bool_decide_unpack _). by vm_compute.
  - cbn [c_buf http_ready]. rewrite length_replicate. lia.
Qed.

(** The session goes on: after the request is answered, nobody is there. *)
Lemma http_serves_witness :
  ∃ c1 c' turns, http_main (H0 := server_call 7) http_ready = Ok (true, c1) ∧
    http_loop 7 [replicate 512 0; replicate 512 1] c1 = Ok (tt, c') ∧ length turns = 2%nat ∧ talk 7 c1 (mjoin turns) c'.
Proof.
  destruct (http_serves 7 http_ready [replicate 512 0; replicate 512 1] ltac:(exact I) http_ready_fit)
    as (c1 & Hm & _ & c' & turns & Hl & _ & Hn & _ & Ht).
  { repeat constructor. }
  exists c1, c', turns. split; [exact Hm|]. split; [exact Hl|]. split; [exact Hn|exact Ht].
Defined.
